(* ===== verification/_CoqProject ===== *)
-Q . S2P
Prelude.v
GoStd.v
GoCrypto.v
Errors.v
Proto.v
Ext.v
ExtModel.v
ClientInfo.v
RegCluster.v
RegCred.v
RegNode.v
Registry.v
CnxHandler.v
MsgHandlers.v
InHandler.v
Threads.v
Effects.v
Server.v
Spec.v
MemberInfo.v
MemberMaker.v
Clients.v
Session.v
Wire.v
EphServer.v
Command.v
