(* ===== verification/Prelude.v ===== *)
(** * xlReg_go: a verified model of the XLattice registry

    xlReg is a server with which the members of clusters find each other.  A
    client connects, opens an encrypted session, says who it is with a signed
    token (Member), creates a cluster or joins one (Create, Join), asks for the
    members of its cluster (GetCluster) and takes its leave (Bye).  The registry
    keeps the clusters in memory, issues identifiers that it remembers in a Bloom
    filter, and publishes its own credentials in a file.

    ** The files, in order

    - Prelude.v: Go strings and byte slices, panics and waiting ([outcome]),
      machine integers, the tactics and hint databases the others share.
    - GoStd.v: the parts of Go's standard library the program computes with
      (strings, encoding/hex, strconv, encoding/binary, path/filepath), executable,
      with their round-trip lemmas.
    - GoCrypto.v: SHA-1 and RSA PKCS #1 v1.5 signatures, executable.
    - Errors.v: xlreg_errors.go, xlreg_error_const.go, xlreg_error_str.go.
    - Proto.v: the messages and accessors of p.pb.go.
    - Ext.v: everything the program calls that is not in the repository, as one
      class of types and functions, and the laws of each package as classes.  The
      components are proved against these interfaces.
    - ExtModel.v: a small executable instance that satisfies all the laws; the
      witnesses of the theorems are evaluated with it.
    - ClientInfo.v: clientInfo.go, members as the registry keeps them.
    - RegCluster.v: reg_cluster.go and const.go, clusters.
    - RegCred.v: reg_cred.go, the credentials file.
    - RegNode.v: reg_node.go, the node a registry runs as.
    - Registry.v: registry.go, reg_options.go, version.go, the registry itself.
    - CnxHandler.v: cnxHandler.go, reading, writing and coding on a connection.
    - MsgHandlers.v: msg_handlers.go, what each client message does.
    - InHandler.v: in_handler.go, hello, dispatch by state and tag, the loop that
      serves a connection.
    - Threads.v: the handlers of msg_handlers.go again, cut into their atomic steps,
      and the proof that undisturbed steps are the handlers.
    - Effects.v: the invariant of a connection's goroutine at each point, and what a
      step of one does to the others.
    - Server.v: reg_server.go, the accept loop and the interleaving of the
      connections' atomic steps; overlapping calls of AddMember.
    - Spec.v: an abstract registry, and the proof that the handlers and the
      server implement it.
    - MemberInfo.v: member_info.go, members as a client keeps them.
    - MemberMaker.v: memberNode.go, the client's side: its state, how it is set up,
      and its exchanges with the server (hello, Member, Create, Join, GetCluster,
      Bye).
    - Clients.v: admin_client.go, user_client.go, solo_client.go, bootstrap.go, the
      client programs, composed of these exchanges.
    - Session.v: client and server together: what each exchange does on both sides,
      and a whole session.
    - Wire.v: client and server on the bytes of one connection: the hello, and the
      server's loop against a client's session.
    - EphServer.v: eph_server.go, a server for tests, and all its runs.
    - Command.v: cmd/xlReg/xlReg.go, the options of the command, setting up a
      registry from its configuration file or anew, and running it.

    ** How the code is modelled

    A Go string or []byte is a list of bytes; a slice or pointer whose nil-ness
    matters is an option.  A function that can panic returns an [outcome]; no
    function of the program recovers from a panic, so one ends the process.
    Integers are Z, with the wrap-around of their width where the code converts
    them.  Errors are values of the type [error] (Errors.v): a variable of the
    package, an error made on the spot, or one from elsewhere.  Where the code
    shadows or overwrites an error, so does the model.

    State is passed explicitly.  Clusters are shared through pointers: they live in
    a heap ([world]) and the registry, its indexes and the connections hold
    addresses.  What the environment decides is an argument: the identifiers
    [xi.New(nil)] will draw are a tape, a connection is a tape of what its reads
    return and functions for its write errors, writing a file is a function, the
    keys that are generated and the answers of the file system are given.
    Logging and the debugging output have no effect and are left out, except for
    the pointers they dereference, which are kept.

    Handlers are functions from the shared state and the state of their connection
    to both.  [handle_msg] (InHandler.v) is the body of the loop of [InHandler.Start]
    from a decoded message to the reply; [serve] is the loop.  They describe messages
    that are handled one after the other.

    In the program every connection has a goroutine.  What its handlers do is cut
    into atomic steps ([thread_step], Threads.v): each critical section of a lock,
    among them the three of AddMember and the look-ups before AddCluster; each call
    of the filter of identifiers, which ContainsID, InsertID and InsertUniqueNodeID
    check and extend without a lock of the registry; each draw of an identifier; each
    read of a member by doGetMsg, which holds no lock.  What lies in between touches
    only the connection's own state and fields of clusters that never change.
    [server_step] (Server.v) lets the goroutines of any number of connections take
    these steps in any order, with connections accepted, answered, closed and lost
    in between.  A panic ends the process, so a run ends before one.  It is taken for
    granted that a single call of the filter, and a single read of a slice, is atomic.

    A client ([MemberMaker]) holds its connection in its own state; an exchange
    writes a request and reads a reply.  [exchange] (MemberMaker.v) says that a given
    reply is what is read, and [turn] (Session.v) that it is what the server's
    [handle_msg] answered; in between the server may serve others.  The goroutine of
    a client program is a function from the client to its result.

    ** What the theorems show

    - Spec.v: an abstract registry, a map from names to clusters in which clusters
      are only created under unused names and clients only join under names unused
      in their cluster; the replies describe it.  A run of the server in which no two
      Joins of the same name in the same cluster overlap ([orderly_step]) is a run of
      it; any run at all is a run of a looser one, in which Joins may repeat a name.
    - Threads.v: undisturbed, the atomic steps are the handlers.
    - Server.v, Effects.v and InHandler.v: the invariants of the registry and of every
      connection hold under any interleaving of steps, and nothing registered is
      ever lost or changed, but the names of members are distinct only in orderly
      runs: overlapping calls of AddMember are safe for distinct names and can break
      uniqueness for equal ones, also in the server ([join_race]).  Every connection
      follows the protocol.  Which messages crash the server: opcodes out of range,
      anything after Bye, a Join of an unknown cluster.
    - MsgHandlers.v: each handler on each branch.  Member is accepted only with a
      valid signature, which however binds neither the identifier nor the division
      of the end points.
    - Registry.v: operations one after the other never register an identifier twice
      (overlapping ones can, [identifier_race] in Server.v); AddCluster on every
      branch; what NewRegistry publishes parses back.
    - RegCluster.v, ClientInfo.v, RegNode.v: the invariant of a cluster, equality,
      printing and parsing, termination of the parsers, and their crashes.
    - Errors.v: codes, variables and texts agree.
    - MemberInfo.v, MemberMaker.v: what a client makes of a token is what the registry
      has of the member; asking for the members ends with what the registry had at the
      last request, at the latest after 32 rounds; the list of members keeps its size.
      Which errors a client overlooks: refusals of Create and Join, failures to sign
      or send its token.
    - Clients.v: every client program sends only messages that the server's state
      table permits at that point.
    - Session.v: after Member the registry has the client with the properties it
      signed; after Create and Join the client has the cluster's identifier and
      maximum size, which the registry does not enforce, and the cluster has the client; after a whole session with a complete cluster
      the client has every member with the properties the registry has.
    - Wire.v: after the hello both sides understand each other and agree on the
      version; the server's loop, fed with what a client sends, sends what the client
      reads, and so carries out a whole session; a message longer than the buffer of
      16 KB is cut off.
    - EphServer.v, Command.v: every run of a server that was started so is a run of
      the loose registry from the empty one, and of the abstract registry if orderly
      ([serves_well], Spec.v); a registry keeps its identity and keys over a restart;
      the options are in range; which errors of setting up are lost.

    ** Fuel

    The parsers' loops and the serving loop take fuel: one more than the lines, or
    than the bytes and chunks left to read.  Each turn consumes at least one of
    them; the theorems [ParseClientInfo_terminates], [ParseRegCluster_terminates]
    and [serve_fuel_enough] prove that the fuel is never what ends them.

    ** Not modelled

    Logging, what is printed, parsing of the command line ([flag.Parse]), closing of
    listening sockets and time-outs, of which the code has none.  The methods of
    RegCluster that return constants only to satisfy an interface, and fields and
    channels that no code reads.  registrant.go is empty.
    AES, protocol-buffer encoding, the Bloom filter, the HAMT and the node and
    transport packages are not in the repository and are parameters. *)
From stdpp Require Export base tactics list gmap strings.
From Stdlib Require Export Ascii ZArith Lia.

#[global] Open Scope Z_scope.
#[global] Set Default Goal Selector "!".

(** ** Go strings and byte slices

    A Go [string] and a Go [[]byte] are both sequences of 8-bit bytes, and the
    program converts freely between them; both are [list ascii] here.  A slice
    whose [nil]-ness the program tests is an [option] of it. *)

Abbreviation gostring := (list ascii) (only parsing).
Abbreviation bytes := (list ascii) (only parsing).

Definition str (s : string) : list ascii := String.list_ascii_of_string s.
Coercion str : string >-> list.
Arguments str _ : simpl never.

(** ** Panics, blocking and the monad of Go computations

    [Panics] is an unrecovered run-time panic: no function of this program
    recovers, so in Go it ends the process; [PanicCall] is one the program
    asks for.  [Starved] is a computation that
    waits for ever for the next element of an input tape (random identifiers,
    bytes from the network): the tape given to the model was too short. *)

Inductive gopanic := NilDereference | IndexOutOfRange | PanicCall.

Inductive outcome (A : Type) :=
  | Done (a : A)
  | Panics (p : gopanic)
  | Starved.
Arguments Done {A} a.
Arguments Panics {A} p.
Arguments Starved {A}.

#[global] Instance gopanic_eq_dec : EqDecision gopanic.
Proof. solve_decision. Defined.

#[global] Instance outcome_ret : MRet outcome := fun A a => Done a.
#[global] Instance outcome_bind : MBind outcome := fun A B f m =>
  match m with
  | Done a => f a
  | Panics p => Panics p
  | Starved => Starved
  end.

(** Dereferencing a pointer that may be [nil]. *)
Definition deref {A} (p : option A) : outcome A :=
  match p with Some a => Done a | None => Panics NilDereference end.

(** Indexing a slice; the index is a machine integer, so it can be negative. *)
Definition index {A} (l : list A) (i : Z) : outcome A :=
  if i <? 0 then Panics IndexOutOfRange
  else match l !! Z.to_nat i with
       | Some a => Done a
       | None => Panics IndexOutOfRange
       end.

(** ** Machine integers *)

Definition u32 (z : Z) : Z := z mod 2 ^ 32.
Definition u64 (z : Z) : Z := z mod 2 ^ 64.
Definition i32 (z : Z) : Z := (z + 2 ^ 31) mod 2 ^ 32 - 2 ^ 31.

Definition is_u32 (z : Z) : Prop := 0 <= z < 2 ^ 32.
Definition is_u64 (z : Z) : Prop := 0 <= z < 2 ^ 64.

(** ** Generic lemmas *)

Section Outcome.
Context {A B : Type}.

Lemma bind_Done_inv (m : outcome A) (k : A -> outcome B) (b : B) :
  m ≫= k = Done b <-> exists a, m = Done a /\ k a = Done b.
Proof. destruct m; naive_solver. Qed.

Lemma bind_Done (a : A) (k : A -> outcome B) : Done a ≫= k = k a.
Proof. reflexivity. Qed.

Lemma deref_Done_inv (p : option A) a : deref p = Done a <-> p = Some a.
Proof. destruct p; naive_solver. Qed.

Lemma index_Done_inv (l : list A) (i : Z) a :
  index l i = Done a <-> 0 <= i /\ l !! Z.to_nat i = Some a.
Proof.
  unfold index. destruct (Z.ltb_spec i 0); [naive_solver lia|].
  destruct (l !! Z.to_nat i) eqn:E; naive_solver.
Qed.

Lemma index_head (a : A) (l : list A) : index (a :: l) 0 = Done a.
Proof. reflexivity. Qed.

Lemma index_panics (l : list A) (i : Z) :
  i < 0 \/ Z.of_nat (length l) <= i -> index l i = Panics IndexOutOfRange.
Proof.
  unfold index. intros [H|H].
  - by rewrite (proj2 (Z.ltb_lt i 0) H).
  - destruct (Z.ltb_spec i 0); [done|].
    by rewrite (proj2 (lookup_ge_None l (Z.to_nat i))) by lia.
Qed.
End Outcome.

Lemma u32_range z : is_u32 (u32 z).
Proof. apply Z.mod_pos_bound. lia. Qed.

Lemma u32_small z : is_u32 z -> u32 z = z.
Proof. apply Z.mod_small. Qed.

Lemma i32_small z : - 2 ^ 31 <= z < 2 ^ 31 -> i32 z = z.
Proof. intros H. unfold i32. rewrite Z.mod_small; lia. Qed.

(** Or-ing a number into zero low bits adds it. *)
Lemma lor_disjoint a b n : 0 <= n -> 0 <= b < 2 ^ n -> Z.lor (a * 2 ^ n) b = a * 2 ^ n + b.
Proof.
  intros Hn Hb. assert (Z.land (a * 2 ^ n) b = 0) as L.
  { apply Z.bits_inj'. intros i Hi. rewrite Z.land_spec, Z.bits_0.
    destruct (Z.ltb_spec i n).
    - by rewrite Z.mul_pow2_bits_low.
    - rewrite <-(Z.mod_small b (2 ^ n)), Z.mod_pow2_bits_high by lia. apply andb_false_r. }
  by rewrite Z.add_nocarry_lxor, Z.lxor_lor by done.
Qed.

(** Rewriting with the equations of the monad, and the tactic that takes a
    completed computation apart. *)
Create HintDb go.
Create Rewrite HintDb go.
#[export] Hint Rewrite @bind_Done : go.
#[export] Hint Resolve u32_range u32_small i32_small : go.

Ltac go_inv :=
  repeat match goal with
  | H : _ ≫= _ = Done _ |- _ => apply bind_Done_inv in H as (? & ? & ?)
  | H : deref _ = Done _ |- _ => apply deref_Done_inv in H
  | H : Done _ = Done _ |- _ => injection H as H
  | H : mret _ = Done _ |- _ => injection H as H
  | H : (_, _) = (_, _) |- _ => injection H as H
  | H : Panics _ = Done _ |- _ => discriminate H
  | H : Starved = Done _ |- _ => discriminate H
  end; simplify_eq/=.

(** Case analysis on the scrutinee of the first [match] found. *)
Ltac go_case :=
  match goal with
  | H : context [match ?x with _ => _ end] |- _ =>
      lazymatch x with context [match _ with _ => _ end] => fail | _ => destruct x eqn:? end
  | |- context [match ?x with _ => _ end] =>
      lazymatch x with context [match _ with _ => _ end] => fail | _ => destruct x eqn:? end
  end; simplify_eq/=.

(** Write [[x] ++ l] as [x :: l]. *)
Ltac app_singletons :=
  repeat match goal with |- context [ [?x] ++ ?l ] => change ([x] ++ l) with (x :: l) end.
