(* ===== verification/GoStd.v ===== *)
(** * The parts of the Go standard library the program uses

    [strings] (HasPrefix, TrimSpace, TrimLeft, Split, Join), [encoding/hex],
    [strconv] (ParseInt with base 0, Atoi), [fmt] (the verbs %016x and %d) and
    [encoding/binary] (LittleEndian.PutUint64), written as executable functions
    on byte lists, with the round-trip lemmas the serializers need.  [strconv]
    follows the Go 1.9 rules, the release current at this version of the
    program: base 0 recognises the prefixes 0x and 0 and no underscores. *)
From S2P Require Import Prelude.

(** Errors made outside the package: by the standard library or by another
    package.  None of them is one of this package's error values. *)
Inductive exterr :=
  | EOF
  | XErr (msg : string).

#[global] Instance exterr_eq_dec : EqDecision exterr.
Proof. solve_decision. Defined.

(** ** Bytes *)

Definition byte_val (c : ascii) : Z := Z.of_N (N_of_ascii c).
Definition byte_of (z : Z) : ascii := ascii_of_N (Z.to_N (z mod 256)).

Lemma byte_val_range c : 0 <= byte_val c < 256.
Proof. unfold byte_val. pose proof (N_ascii_bounded c). lia. Qed.

Lemma byte_val_of z : byte_val (byte_of z) = z mod 256.
Proof.
  unfold byte_val, byte_of. pose proof (Z.mod_pos_bound z 256 eq_refl).
  rewrite N_ascii_embedding by lia. lia.
Qed.

Lemma byte_of_val c : byte_of (byte_val c) = c.
Proof.
  unfold byte_of. rewrite Z.mod_small by apply byte_val_range.
  unfold byte_val. by rewrite N2Z.id, ascii_N_embedding.
Qed.

Lemma byte_val_inj a b : byte_val a = byte_val b -> a = b.
Proof. intros H. by rewrite <-(byte_of_val a), H, byte_of_val. Qed.

(** ** Package strings *)

(** [strings.HasPrefix s p]. *)
Fixpoint HasPrefix (s p : gostring) {struct p} : bool :=
  match p, s with
  | [], _ => true
  | a :: p', b :: s' => bool_decide (a = b) && HasPrefix s' p'
  | _ :: _, [] => false
  end.

(** [unicode.IsSpace] on the UTF-8 encodings of one, two and three bytes. *)
Definition space1 (a : ascii) : bool :=
  let x := byte_val a in (9 <=? x) && (x <=? 13) || (x =? 32).
Definition space2 (a b : ascii) : bool :=
  (byte_val a =? 0xC2) && ((byte_val b =? 0x85) || (byte_val b =? 0xA0)).
Definition space3 (a b c : ascii) : bool :=
  let '(x, y, z) := (byte_val a, byte_val b, byte_val c) in
  (x =? 0xE1) && (y =? 0x9A) && (z =? 0x80)
  || (x =? 0xE2) && (y =? 0x80) &&
     ((0x80 <=? z) && (z <=? 0x8A) || (z =? 0xA8) || (z =? 0xA9) || (z =? 0xAF))
  || (x =? 0xE2) && (y =? 0x81) && (z =? 0x9F)
  || (x =? 0xE3) && (y =? 0x80) && (z =? 0x80).

(** Drop the space runes at the front; the tests on two and three bytes are
    parameters so that the same loop trims a reversed string. *)
Fixpoint trim_front (s2 : ascii -> ascii -> bool) (s3 : ascii -> ascii -> ascii -> bool)
    (s : gostring) : gostring :=
  match s with
  | [] => []
  | a :: t1 =>
    if space1 a then trim_front s2 s3 t1
    else match t1 with
         | [] => s
         | b :: t2 =>
           if s2 a b then trim_front s2 s3 t2
           else match t2 with
                | [] => s
                | c :: t3 => if s3 a b c then trim_front s2 s3 t3 else s
                end
         end
  end.

Definition trim_left_space (s : gostring) : gostring := trim_front space2 space3 s.
Definition trim_right_space (s : gostring) : gostring :=
  rev (trim_front (fun b a => space2 a b) (fun c b a => space3 a b c) (rev s)).

(** [strings.TrimSpace]. *)
Definition TrimSpace (s : gostring) : gostring := trim_right_space (trim_left_space s).

(** [strings.TrimLeft s cutset], for a cutset of ASCII characters. *)
Fixpoint TrimLeft (s : gostring) (cutset : gostring) : gostring :=
  match s with
  | [] => []
  | a :: t => if bool_decide (a ∈ cutset) then TrimLeft t cutset else s
  end.

(** [strings.Split s sep] for a separator that is not empty: [skip] bytes of a
    separator just found are still to be dropped, [cur] is the piece being
    collected, last byte first. *)
Fixpoint split_go (sep : gostring) (skip : nat) (cur : gostring) (s : gostring) : list gostring :=
  match s with
  | [] => [rev cur]
  | c :: t =>
    match skip with
    | S k => split_go sep k cur t
    | O => if HasPrefix s sep then rev cur :: split_go sep (length sep - 1) [] t
           else split_go sep 0 (c :: cur) t
    end
  end.
Definition Split (s sep : gostring) : list gostring := split_go sep 0 [] s.

(** [strings.Join]. *)
Fixpoint Join (ss : list gostring) (sep : gostring) : gostring :=
  match ss with
  | [] => []
  | [s] => s
  | s :: ss' => s ++ sep ++ Join ss' sep
  end.

(** ** Package encoding/hex *)

Definition hex_digit (d : Z) : ascii :=
  if d <? 10 then byte_of (48 + d) else byte_of (87 + d).

Definition EncodeToString (bs : bytes) : gostring :=
  bs ≫= fun c => [hex_digit (byte_val c / 16); hex_digit (byte_val c mod 16)].

Definition fromHexChar (c : ascii) : option Z :=
  let x := byte_val c in
  if (48 <=? x) && (x <=? 57) then Some (x - 48)
  else if (97 <=? x) && (x <=? 102) then Some (x - 97 + 10)
  else if (65 <=? x) && (x <=? 70) then Some (x - 65 + 10)
  else None.

Fixpoint DecodeString (s : gostring) : bytes + exterr :=
  match s with
  | [] => inl []
  | [_] => inr (XErr "encoding/hex: odd length hex string")
  | a :: b :: t =>
    match fromHexChar a, fromHexChar b with
    | Some x, Some y =>
      match DecodeString t with
      | inl bs => inl (byte_of (16 * x + y) :: bs)
      | inr e => inr e
      end
    | _, _ => inr (XErr "encoding/hex: invalid byte")
    end
  end.

(** ** Package fmt: the verbs %016x and %d on unsigned integers *)

(** The [n] low hexadecimal digits of [v], most significant first.  Sixteen of
    them are what %016x prints for any 64-bit value. *)
Fixpoint hex_pad (n : nat) (v : Z) : gostring :=
  match n with
  | O => []
  | S n' => hex_pad n' (v / 16) ++ [hex_digit (v mod 16)]
  end.

(** The decimal digits of [v]; twenty steps suffice for every 64-bit value. *)
Fixpoint dec_go (fuel : nat) (v : Z) : gostring :=
  match fuel with
  | O => []
  | S f => (if v <? 10 then [] else dec_go f (v / 10)) ++ [byte_of (48 + v mod 10)]
  end.
Definition Sprint_d (v : Z) : gostring := dec_go 20 v.

(** The same for an int, which may be negative. *)
Definition Sprint_int (v : Z) : gostring := if v <? 0 then str "-" ++ Sprint_d (- v) else Sprint_d v.
Example Sprint_int_ex : Sprint_int (-56789) = str "-56789".
Proof. reflexivity. Qed.

(** ** Package strconv *)

Definition digit_val (base : Z) (c : ascii) : option Z :=
  match fromHexChar c with
  | Some d => if d <? base then Some d else None
  | None => None
  end.

Definition parse_digits (base : Z) (s : gostring) : option Z :=
  fold_left (fun acc c =>
    match acc, digit_val base c with
    | Some v, Some d => Some (v * base + d)
    | _, _ => None
    end) s (Some 0).

Definition errSyntax : exterr := XErr "strconv: parsing: invalid syntax".
Definition errRange : exterr := XErr "strconv: parsing: value out of range".

(** [strconv.ParseUint s base 64] before the range check, the base being known. *)
Definition parse_unsigned (base : Z) (s : gostring) : Z + exterr :=
  match s with
  | [] => inr errSyntax
  | _ => match parse_digits base s with
         | Some v => inl v
         | None => inr errSyntax
         end
  end.

(** The base-0 rule: 0x or 0X means 16, any other leading 0 means 8. *)
Definition parse_base0 (s : gostring) : Z + exterr :=
  match s with
  | [] => inr errSyntax
  | z :: t =>
    if bool_decide (z = "0"%char) then
      match t with
      | x :: d => if bool_decide (x = "x"%char \/ x = "X"%char) then parse_unsigned 16 d
                  else parse_unsigned 8 t
      | [] => parse_unsigned 8 s
      end
    else parse_unsigned 10 s
  end.

(** The sign and the range check of [strconv.ParseInt s base 64]. *)
Definition parse_signed (unsigned : gostring -> Z + exterr) (s : gostring) : Z + exterr :=
  let '(neg, body) :=
    match s with
    | c :: t => if bool_decide (c = "+"%char) then (false, t)
                else if bool_decide (c = "-"%char) then (true, t) else (false, s)
    | [] => (false, s)
    end in
  match unsigned body with
  | inr e => inr e
  | inl v => if neg then if 2 ^ 63 <? v then inr errRange else inl (- v)
             else if 2 ^ 63 <=? v then inr errRange else inl v
  end.

(** [strconv.ParseInt s 0 64] and, where an int has 64 bits, [strconv.Atoi]. *)
Definition ParseInt0 (s : gostring) : Z + exterr := parse_signed parse_base0 s.
Definition Atoi (s : gostring) : Z + exterr := parse_signed (parse_unsigned 10) s.

(** ** Package encoding/binary *)

Fixpoint le_bytes (n : nat) (v : Z) : bytes :=
  match n with
  | O => []
  | S n' => byte_of v :: le_bytes n' (v / 256)
  end.

(** [binary.LittleEndian.PutUint64] into a fresh slice of eight bytes. *)
Definition PutUint64 (v : Z) : bytes := le_bytes 8 v.

(** ** Package path/filepath (Unix) *)

(** The elements of a cleaned path, last first: empty elements and [.] are
    dropped, [..] removes the element before it; at the root it is dropped. *)
Fixpoint clean_elems (rooted : bool) (out : list gostring) (els : list gostring) : list gostring :=
  match els with
  | [] => out
  | e :: els' =>
    if bool_decide (e = []) || bool_decide (e = str ".") then clean_elems rooted out els'
    else if bool_decide (e = str "..") then
      match out with
      | o :: out' => if bool_decide (o = str "..") then clean_elems rooted (e :: out) els'
                     else clean_elems rooted out' els'
      | [] => clean_elems rooted (if rooted then [] else [e]) els'
      end
    else clean_elems rooted (e :: out) els'
  end.

Definition filepath_Clean (p : gostring) : gostring :=
  let rooted := HasPrefix p (str "/") in
  let els := rev (clean_elems rooted [] (Split p (str "/"))) in
  match rooted, els with
  | true, _ => str "/" ++ Join els (str "/")
  | false, [] => str "."
  | false, _ => Join els (str "/")
  end.

Definition filepath_Join (els : list gostring) : gostring :=
  match List.filter (fun e => negb (bool_decide (e = []))) els with
  | [] => []
  | es => filepath_Clean (Join es (str "/"))
  end.

Example filepath_Join_ex1 : filepath_Join [str "/var/app//xlReg/"; str "regCred.dat"] = str "/var/app/xlReg/regCred.dat".
Proof. vm_compute. reflexivity. Qed.
Example filepath_Join_ex2 : filepath_Join [str "./tmp/../x"; str "regCred.dat"] = str "x/regCred.dat".
Proof. vm_compute. reflexivity. Qed.

(** ** Lemmas: joining *)

Lemma Join_cons x l sep : l <> [] -> Join (x :: l) sep = x ++ sep ++ Join l sep.
Proof. by destruct l. Qed.

Lemma Join_app l1 l2 sep : l1 <> [] -> l2 <> [] ->
  Join (l1 ++ l2) sep = Join l1 sep ++ sep ++ Join l2 sep.
Proof.
  intros H1 H2. induction l1 as [|x [|y l1] IH]; [done| |].
  - cbn [app]. by rewrite Join_cons.
  - change ((x :: y :: l1) ++ l2) with (x :: (y :: l1) ++ l2).
    rewrite !(Join_cons x), IH by done. by rewrite <-!app_assoc.
Qed.

(** A text of several lines used as one element is several elements. *)
Lemma Join_nested l1 x h body l sep : l <> [] ->
  Join (l1 ++ (x ++ Join (h :: body) sep) :: l) sep = Join (l1 ++ (x ++ h) :: body ++ l) sep.
Proof.
  intros Hl. assert (Join ((x ++ Join (h :: body) sep) :: l) sep = Join ((x ++ h) :: body ++ l) sep) as E.
  { rewrite Join_cons by done. destruct body as [|b body].
    - change ((x ++ h) :: [] ++ l) with ((x ++ h) :: l). by rewrite (Join_cons _ l).
    - rewrite (Join_cons h), (Join_cons (x ++ h)), Join_app by (done || by destruct body).
      by rewrite <-!app_assoc. }
  destruct l1 as [|y l1]; [done|]. by rewrite !(Join_app (y :: l1)), E by done.
Qed.

(** ** Lemmas: trimming *)

(** A byte that is neither white space nor part of a multi-byte rune. *)
Definition solid (a : ascii) : bool := negb (space1 a) && (byte_val a <? 128).

(** A line that trimming leaves alone: it begins and ends with a solid byte. *)
Definition clean (s : gostring) : bool :=
  match s, last s with
  | a :: _, Some z => solid a && solid z
  | _, _ => false
  end.

Definition blank (s : gostring) : bool := forallb space1 s.

Lemma trim_front_solid s2 s3 a t :
  solid a = true -> (forall b, s2 a b = false) -> (forall b c, s3 a b c = false) ->
  trim_front s2 s3 (a :: t) = a :: t.
Proof.
  intros Ha H2 H3. unfold solid in Ha. apply andb_prop in Ha as [Ha _].
  simpl. rewrite (proj1 (negb_true_iff _) Ha).
  destruct t as [|b t]; [done|]. rewrite H2. destruct t; [done|]. by rewrite H3.
Qed.

Lemma solid_lt a : solid a = true -> byte_val a < 128.
Proof. unfold solid. intros [_ H]%andb_prop. lia. Qed.

Lemma trim_left_solid a t : solid a = true -> trim_left_space (a :: t) = a :: t.
Proof.
  intros Ha. pose proof (solid_lt a Ha).
  apply trim_front_solid; [done|..]; intros; unfold space2, space3; lia.
Qed.

Lemma trim_right_solid t a : solid a = true -> trim_right_space (t ++ [a]) = t ++ [a].
Proof.
  intros Ha. pose proof (solid_lt a Ha). unfold trim_right_space. rewrite rev_app_distr.
  simpl rev at 2. simpl app at 1. rewrite trim_front_solid; [|done|..].
  - simpl. by rewrite rev_involutive.
  - intros b. unfold space2. lia.
  - intros b c. unfold space3. lia.
Qed.

Lemma trim_left_blank i s : blank i = true -> trim_left_space (i ++ s) = trim_left_space s.
Proof.
  unfold blank, trim_left_space. induction i as [|a i IH]; [done|].
  simpl. intros [Ha Hi]%andb_prop. rewrite Ha. by apply IH.
Qed.

(** Indentation is invisible to [TrimSpace]. *)
Lemma TrimSpace_indent i s : blank i = true -> TrimSpace (i ++ s) = TrimSpace s.
Proof. intros H. unfold TrimSpace. by rewrite trim_left_blank. Qed.

Lemma TrimSpace_clean s : clean s = true -> TrimSpace s = s.
Proof.
  unfold clean, TrimSpace. destruct s as [|a s]; [done|].
  destruct (last (a :: s)) as [z|] eqn:Hl; [|done]. intros [Ha Hz]%andb_prop.
  rewrite trim_left_solid by done. apply last_Some in Hl as [t ->].
  by apply trim_right_solid.
Qed.

Lemma clean_app p s : solid (default " "%char (head p)) = true -> clean s = true ->
  clean (p ++ s) = true.
Proof.
  unfold clean. destruct p as [|a p]; [done|]. intros Ha. simpl in Ha.
  destruct s as [|b s]; [done|].
  pose proof (last_app_cons (a :: p) s b) as E. cbn [app] in *. rewrite E.
  destruct (last (b :: s)); [|done]. simpl. intros [_ Hz]%andb_prop.
  by rewrite Ha, Hz.
Qed.

Lemma clean_not_nil s : clean s = true -> s <> [].
Proof. by destruct s. Qed.

(** ** Lemmas: prefixes and slices *)

Lemma HasPrefix_app p s : HasPrefix (p ++ s) p = true.
Proof. induction p as [|a p IH]; [by destruct s|]. simpl. by rewrite bool_decide_eq_true_2. Qed.

Lemma HasPrefix_spec s p : HasPrefix s p = true <-> exists t, s = p ++ t.
Proof.
  split; [|intros [t ->]; apply HasPrefix_app].
  revert s. induction p as [|a p IH]; intros s; [by exists s|].
  destruct s as [|b s]; [done|]. simpl. intros [->%bool_decide_eq_true_1 H]%andb_prop.
  destruct (IH _ H) as [t ->]. by exists t.
Qed.

(** ** Lemmas: Split and Join *)

Definition contains (s sep : gostring) : bool :=
  existsb (fun i => HasPrefix (drop i s) sep) (seq 0 (length s)).

Lemma contains_cons c s sep : contains (c :: s) sep = false ->
  HasPrefix (c :: s) sep = false /\ contains s sep = false.
Proof.
  unfold contains. simpl. intros [H1 H2]%orb_false_iff. split; [done|].
  rewrite <-seq_shift in H2. rewrite <-H2. clear.
  generalize (seq 0 (length s)). intros l. induction l; simpl; congruence.
Qed.

Lemma split_go_none sep cur s : contains s sep = false ->
  split_go sep 0 cur s = [rev cur ++ s].
Proof.
  revert cur. induction s as [|c s IH]; intros cur H; simpl; [by rewrite app_nil_r|].
  apply contains_cons in H as [H1 H2]. simpl in H1. rewrite H1, IH by done.
  simpl. by rewrite <-app_assoc.
Qed.

Definition nl : ascii := "010"%char.

Lemma split_go_step c cur t :
  split_go [nl] 0 cur (c :: t) =
  if bool_decide (nl = c) then rev cur :: split_go [nl] 0 [] t
  else split_go [nl] 0 (c :: cur) t.
Proof. simpl. rewrite andb_comm. by destruct (bool_decide (nl = c)), t. Qed.

Lemma split_go_line cur s t : nl ∉ s ->
  split_go [nl] 0 cur (s ++ nl :: t) = (rev cur ++ s) :: split_go [nl] 0 [] t.
Proof.
  revert cur. induction s as [|c s IH]; intros cur H; rewrite ?app_nil_r; simpl app.
  - by rewrite split_go_step, bool_decide_eq_true_2.
  - apply not_elem_of_cons in H as [Hc Hs].
    rewrite split_go_step, bool_decide_eq_false_2, IH by done.
    simpl. by rewrite <-app_assoc.
Qed.

Lemma split_go_last cur s : nl ∉ s -> split_go [nl] 0 cur s = [rev cur ++ s].
Proof.
  revert cur. induction s as [|c s IH]; intros cur H; [simpl; by rewrite app_nil_r|].
  apply not_elem_of_cons in H as [Hc Hs].
  rewrite split_go_step, bool_decide_eq_false_2, IH by done.
  simpl. by rewrite <-app_assoc.
Qed.

(** Splitting a joined list of lines gives the lines back. *)
Lemma Split_Join_lines ss : ss <> [] -> Forall (fun s => nl ∉ s) ss ->
  Split (Join ss [nl]) [nl] = ss.
Proof.
  unfold Split. intros Hne H. induction H as [|s ss Hs Hss IH]; [done|].
  destruct ss as [|s' ss]; [by apply split_go_last|].
  change (Join (s :: s' :: ss) [nl]) with (s ++ nl :: Join (s' :: ss) [nl]).
  rewrite split_go_line by done. by rewrite IH.
Qed.

(** ** Lemmas: numerals *)

Lemma hex_digit_val d : 0 <= d < 16 ->
  byte_val (hex_digit d) = if d <? 10 then 48 + d else 87 + d.
Proof.
  intros H. unfold hex_digit.
  destruct (d <? 10) eqn:E; rewrite byte_val_of, Z.mod_small; lia.
Qed.

Lemma fromHexChar_digit d : 0 <= d < 16 -> fromHexChar (hex_digit d) = Some d.
Proof.
  intros H. unfold fromHexChar. rewrite hex_digit_val by done.
  repeat case_match; try lia; f_equal; lia.
Qed.

Lemma hex_digit_solid d : 0 <= d < 16 -> solid (hex_digit d) = true.
Proof.
  intros H. unfold solid, space1. rewrite hex_digit_val by done.
  destruct (d <? 10) eqn:E; lia.
Qed.

Lemma digit_val_hex d : 0 <= d < 16 -> digit_val 16 (hex_digit d) = Some d.
Proof.
  intros H. unfold digit_val. rewrite fromHexChar_digit by done.
  by rewrite (proj2 (Z.ltb_lt d 16)) by lia.
Qed.

Lemma DecodeString_EncodeToString bs : DecodeString (EncodeToString bs) = inl bs.
Proof.
  induction bs as [|c bs IH]; [done|].
  change (EncodeToString (c :: bs)) with
    (hex_digit (byte_val c / 16) :: hex_digit (byte_val c mod 16) :: EncodeToString bs).
  pose proof (byte_val_range c) as Hc.
  cbn [DecodeString]. rewrite !fromHexChar_digit, IH.
  - f_equal. f_equal. rewrite <-(byte_of_val c) at 3. f_equal. symmetry. apply Z.div_mod. lia.
  - apply Z.mod_pos_bound. lia.
  - split; [apply Z.div_pos|apply Z.div_lt_upper_bound]; lia.
Qed.

Lemma EncodeToString_length bs : length (EncodeToString bs) = (2 * length bs)%nat.
Proof.
  induction bs as [|c bs IH]; [done|]. 
  change (EncodeToString (c :: bs)) with
    (hex_digit (byte_val c / 16) :: hex_digit (byte_val c mod 16) :: EncodeToString bs).
  simpl. rewrite IH. lia.
Qed.

Lemma EncodeToString_solid bs : Forall (fun c => solid c = true) (EncodeToString bs).
Proof.
  induction bs as [|c bs IH]; [constructor|]. pose proof (byte_val_range c).
  repeat constructor; [apply hex_digit_solid..|exact IH].
  - split; [apply Z.div_pos|apply Z.div_lt_upper_bound]; lia.
  - apply Z.mod_pos_bound. lia.
Qed.

Lemma clean_solid s : s <> [] -> Forall (fun c => solid c = true) s -> clean s = true.
Proof.
  intros Hne H. unfold clean. destruct s as [|a s]; [done|].
  destruct (last (a :: s)) eqn:E; [|by apply last_None in E].
  apply last_Some in E as [t E]. rewrite E in H.
  apply Forall_app in H as [H1 H2]. inversion H2; subst.
  destruct t as [|b t]; simplify_eq/=.
  - by rewrite H3.
  - inversion H1; subst. by rewrite H5, H3.
Qed.

Lemma parse_digits_snoc base s c :
  parse_digits base (s ++ [c]) =
  match parse_digits base s, digit_val base c with
  | Some v, Some d => Some (v * base + d)
  | _, _ => None
  end.
Proof. unfold parse_digits. by rewrite fold_left_app. Qed.

Lemma parse_hex_pad n v : parse_digits 16 (hex_pad n v) = Some (v mod 16 ^ Z.of_nat n).
Proof.
  revert v. induction n as [|n IH]; intros v; [simpl; by rewrite Z.mod_1_r|].
  cbn [hex_pad]. rewrite parse_digits_snoc, IH, digit_val_hex by (apply Z.mod_pos_bound; lia).
  f_equal. rewrite Nat2Z.inj_succ, Z.pow_succ_r by lia.
  rewrite Z.rem_mul_r by lia. lia.
Qed.

Lemma hex_pad_length n v : length (hex_pad n v) = n.
Proof. revert v. induction n; intros v; [done|]. simpl. rewrite length_app, IHn. simpl. lia. Qed.

Lemma hex_pad_solid n v : Forall (fun c => solid c = true) (hex_pad n v).
Proof.
  revert v. induction n; intros v; [constructor|]. simpl. apply Forall_app. split; [done|].
  constructor; [|constructor]. apply hex_digit_solid, Z.mod_pos_bound. lia.
Qed.

(** A 64-bit value printed with 0x%016x is read back by [ParseInt s 0 64]
    exactly when its top bit is clear. *)
Lemma ParseInt0_hex v : is_u64 v ->
  ParseInt0 (str "0x" ++ hex_pad 16 v) = if v <? 2 ^ 63 then inl v else inr errRange.
Proof.
  intros H. unfold ParseInt0, parse_signed.
  change (str "0x" ++ hex_pad 16 v) with ("0"%char :: "x"%char :: hex_pad 16 v).
  cbv beta iota zeta. rewrite !bool_decide_eq_false_2 by done. unfold parse_base0.
  rewrite bool_decide_eq_true_2 by done. rewrite bool_decide_eq_true_2 by auto.
  pose proof (parse_hex_pad 16 v) as P. rewrite (Z.mod_small v) in P by exact H.
  pose proof (hex_pad_length 16 v) as L. destruct (hex_pad 16 v) eqn:E; [done|].
  unfold parse_unsigned. rewrite P.
  destruct (Z.leb_spec (2 ^ 63) v), (Z.ltb_spec v (2 ^ 63)); done || lia.
Qed.

Lemma digit_val_dec d : 0 <= d < 10 -> digit_val 10 (byte_of (48 + d)) = Some d.
Proof.
  intros H. replace (byte_of (48 + d)) with (hex_digit d).
  - unfold digit_val. rewrite fromHexChar_digit by lia.
    by rewrite (proj2 (Z.ltb_lt d 10)) by lia.
  - unfold hex_digit. by rewrite (proj2 (Z.ltb_lt d 10)) by lia.
Qed.

Lemma parse_dec_go fuel v : 0 <= v < 10 ^ Z.of_nat fuel -> (0 < fuel)%nat ->
  parse_digits 10 (dec_go fuel v) = Some v.
Proof.
  revert v. induction fuel as [|f IH]; intros v Hv Hf; [lia|].
  cbn [dec_go]. rewrite parse_digits_snoc, digit_val_dec by (apply Z.mod_pos_bound; lia).
  destruct (Z.ltb_spec v 10).
  - simpl. by rewrite Z.mod_small by lia.
  - rewrite Nat2Z.inj_succ, Z.pow_succ_r in Hv by lia.
    rewrite IH.
    + f_equal. pose proof (Z.div_mod v 10). lia.
    + split; [apply Z.div_pos|apply Z.div_lt_upper_bound]; lia.
    + destruct f; simpl in *; lia.
Qed.

Lemma dec_go_head fuel v : (0 < fuel)%nat -> 0 <= v -> exists d t, 0 <= d < 10 /\ dec_go fuel v = hex_digit d :: t.
Proof.
  assert (Hd : forall d, 0 <= d < 10 -> byte_of (48 + d) = hex_digit d).
  { intros d H. unfold hex_digit. by rewrite (proj2 (Z.ltb_lt d 10)) by lia. }
  revert v. induction fuel as [|f IH]; intros v Hf Hv; [lia|]. cbn [dec_go].
  pose proof (Z.mod_pos_bound v 10). rewrite Hd by lia.
  destruct (Z.ltb_spec v 10); [by eexists _, _; split; [|done]; lia|].
  destruct f as [|f]; [by eexists _, _; split; [|done]; lia|].
  destruct (IH (v / 10)) as (d & t & Hdt & ->); [lia|apply Z.div_pos; lia|].
  by eexists _, _.
Qed.

Lemma dec_go_solid fuel v : Forall (fun c => solid c = true) (dec_go fuel v).
Proof.
  revert v. induction fuel; intros v; [constructor|]. cbn [dec_go].
  apply Forall_app; split; [by destruct (v <? 10)|].
  constructor; [|constructor]. replace (byte_of (48 + v mod 10)) with (hex_digit (v mod 10)).
  - apply hex_digit_solid. pose proof (Z.mod_pos_bound v 10). lia.
  - unfold hex_digit. pose proof (Z.mod_pos_bound v 10).
    by rewrite (proj2 (Z.ltb_lt (v mod 10) 10)) by lia.
Qed.

Lemma hex_digit_not_sign d : 0 <= d < 16 ->
  hex_digit d <> "+"%char /\ hex_digit d <> "-"%char.
Proof.
  intros H. split; intros E; apply (f_equal byte_val) in E;
    rewrite hex_digit_val in E by done;
    [change (byte_val _) with 43 in E|change (byte_val _) with 45 in E];
    destruct (d <? 10) eqn:?; lia.
Qed.

(** Printing with %d and reading with [Atoi]. *)
Lemma Atoi_Sprint_d v : 0 <= v < 2 ^ 63 -> Atoi (Sprint_d v) = inl v.
Proof.
  intros H. unfold Atoi, parse_signed, Sprint_d.
  destruct (dec_go_head 20 v) as (d & t & Hd & E); [lia..|].
  pose proof (parse_dec_go 20 v) as P. rewrite E in *.
  destruct (hex_digit_not_sign d) as [N1 N2]; [lia|].
  rewrite !bool_decide_eq_false_2 by done. unfold parse_unsigned. rewrite P by lia.
  by rewrite (proj2 (Z.leb_gt (2 ^ 63) v)) by lia.
Qed.

Lemma Sprint_d_clean v : 0 <= v -> clean (Sprint_d v) = true.
Proof.
  intros H. apply clean_solid; [|apply dec_go_solid].
  destruct (dec_go_head 20 v) as (d & t & _ & E); [lia..|]. unfold Sprint_d. by rewrite E.
Qed.

#[export] Hint Resolve hex_pad_solid EncodeToString_solid dec_go_solid clean_solid
  clean_app Sprint_d_clean : go.

Lemma solid_no_nl s : Forall (fun c => solid c = true) s -> nl ∉ s.
Proof. intros Hs Hin. by pose proof (proj1 (Forall_forall _ _) Hs _ Hin). Qed.

(** A character does not occur in a literal. *)
Ltac lit_notin :=
  match goal with |- _ ∉ str _ => apply (bool_decide_unpack _); vm_compute; exact I end.

Lemma no_nl_app (a b : gostring) : nl ∉ a -> nl ∉ b -> nl ∉ a ++ b.
Proof. intros. by apply not_elem_of_app. Qed.

Lemma blank_app i j : blank i = true -> blank j = true -> blank (i ++ j) = true.
Proof. unfold blank. intros Hi Hj. by rewrite forallb_app, Hi, Hj. Qed.
#[export] Hint Resolve blank_app : go.

(** White space at the end is invisible too. *)
Lemma trim_right_blank s j : blank j = true -> trim_right_space (s ++ j) = trim_right_space s.
Proof.
  intros Hj. unfold trim_right_space. rewrite rev_app_distr. f_equal.
  assert (blank (rev j) = true) as Hr.
  { unfold blank in *. rewrite forallb_forall in *. intros x Hx. apply Hj. by apply in_rev. }
  clear Hj. induction (rev j) as [|a i IH]; [done|]. simpl in Hr |- *.
  apply andb_prop in Hr as [Ha Hi]. rewrite Ha. by apply IH.
Qed.

Lemma TrimSpace_line i s j : blank i = true -> blank j = true -> clean s = true ->
  TrimSpace (i ++ s ++ j) = s.
Proof.
  intros Hi Hj Hs. rewrite TrimSpace_indent by done. unfold TrimSpace.
  pose proof Hs as Hs'. apply TrimSpace_clean in Hs'. unfold TrimSpace in Hs'.
  destruct s as [|a s]; [done|]. unfold clean in Hs.
  destruct (last (a :: s)); [|done]. apply andb_prop in Hs as [Ha _].
  rewrite <-app_comm_cons, trim_left_solid, app_comm_cons, trim_right_blank by done.
  by rewrite trim_left_solid in Hs'.
Qed.

(** Splitting "key: value" when neither part confuses the separator. *)
Lemma Split_key key v : ":"%char ∉ key -> contains v (str ": ") = false ->
  Split (key ++ str ": " ++ v) (str ": ") = [key; v].
Proof.
  intros Hk Hv. unfold Split. change key with (rev [] ++ key) at 2. generalize (@nil ascii).
  induction key as [|c key IH]; intros cur.
  - change (split_go (str ": ") 0 cur ([] ++ str ": " ++ v))
      with (rev cur :: split_go (str ": ") 0 [] v).
    by rewrite split_go_none, app_nil_r.
  - apply not_elem_of_cons in Hk as [Hc Hk]. rewrite <-app_comm_cons.
    assert (HasPrefix (c :: key ++ str ": " ++ v) (str ": ") = false) as Hp.
    { change (bool_decide (":"%char = c) && HasPrefix (key ++ str ": " ++ v) [" "%char] = false).
      by rewrite bool_decide_eq_false_2. }
    cbn [split_go]. rewrite Hp, IH by done. cbn [rev]. by rewrite <-app_assoc.
Qed.

(** ** Lemmas: paths *)

(** Elements of a path have no slash. *)
Lemma split_slash_elems cur s : "/"%char ∉ cur ->
  Forall (fun e => "/"%char ∉ e) (split_go (str "/") 0 cur s).
Proof.
  assert (forall cur : gostring, "/"%char ∉ cur -> "/"%char ∉ rev cur) as Hrev.
  { intros c Hc Hin. apply Hc. by apply list_elem_of_In, in_rev, list_elem_of_In. }
  revert cur. induction s as [|c s IH]; intros cur Hc; [by constructor; [apply Hrev|]|].
  cbn [split_go]. change (HasPrefix (c :: s) (str "/")) with (bool_decide ("/"%char = c) && HasPrefix s []).
  case_bool_decide as Hcs.
  - assert (HasPrefix s [] = true) as -> by by destruct s. cbn [andb length str Nat.sub].
    constructor; [by apply Hrev|]. apply IH, not_elem_of_nil.
  - cbn [andb]. apply IH. by apply not_elem_of_cons.
Qed.

Definition path_elem (e : gostring) : Prop := e <> [] /\ "/"%char ∉ e.

(** The elements that cleaning keeps are not empty and have no slash. *)
Lemma clean_elems_ok rooted out els : Forall path_elem out -> Forall (fun e => "/"%char ∉ e) els ->
  Forall path_elem (clean_elems rooted out els).
Proof.
  intros Hout Hels. revert out Hout. induction Hels as [|e els He _ IH]; intros out Hout; [done|].
  cbn [clean_elems]. repeat case_bool_decide; cbn [orb]; try by apply IH.
  - destruct out as [|o out]; [by destruct rooted; apply IH; repeat constructor|].
    case_bool_decide; apply IH; [by constructor|by apply Forall_cons in Hout as [_ Hout]].
  - apply IH. by constructor.
Qed.

(** A path that does not start at the root does not after cleaning, and is not
    empty. *)
Lemma filepath_Clean_relative p : HasPrefix p (str "/") = false ->
  HasPrefix (filepath_Clean p) (str "/") = false /\ filepath_Clean p <> [].
Proof.
  intros Hp. unfold filepath_Clean. rewrite Hp.
  pose proof (clean_elems_ok false [] (Split p (str "/")) (Forall_nil_2 _)
    (split_slash_elems _ _ (not_elem_of_nil _))) as Hok.
  apply Forall_rev in Hok. destruct (rev _) as [|e els]; [done|].
  apply Forall_cons in Hok as [[He Hs] _]. destruct e as [|c e]; [done|].
  apply not_elem_of_cons in Hs as [Hc _].
  assert (exists t, Join ((c :: e) :: els) (str "/") = c :: t) as [t ->] by (destruct els; by eexists).
  split; [|done]. change (bool_decide ("/"%char = c) && HasPrefix t [] = false).
  by rewrite bool_decide_eq_false_2.
Qed.

Lemma filepath_Join_not_nil a b : b <> [] -> filepath_Join [a; b] <> [].
Proof.
  intros Hb. unfold filepath_Join. simpl. rewrite (bool_decide_eq_false_2 (b = [])) by done.
  assert (forall p, filepath_Clean p <> []) as Hc.
  { intros p. destruct (HasPrefix p (str "/")) eqn:Hp; [|by apply filepath_Clean_relative].
    unfold filepath_Clean. by rewrite Hp. }
  simpl. case_bool_decide; apply Hc.
Qed.

(** A path below a relative directory is relative. *)
Lemma filepath_Join_relative a b : a <> [] -> HasPrefix a (str "/") = false ->
  HasPrefix (filepath_Join [a; b]) (str "/") = false.
Proof.
  intros Ha Hp. unfold filepath_Join. simpl. rewrite (bool_decide_eq_false_2 (a = [])) by done.
  assert (forall t, HasPrefix (a ++ t) (str "/") = false) as Hpt.
  { destruct a as [|c a]; [done|]. intros t.
    change (bool_decide ("/"%char = c) && HasPrefix (a ++ t) [] = false).
    change (bool_decide ("/"%char = c) && HasPrefix a [] = false) in Hp.
    destruct (bool_decide _); [|done]. by destruct a. }
  simpl. case_bool_decide; apply filepath_Clean_relative; [|apply Hpt].
  rewrite <-(app_nil_r a). apply Hpt.
Qed.
