(* ===== verification/GoCrypto.v ===== *)
(** * The cryptography of the Go standard library the program uses

    [crypto/sha1] and the PKCS#1 v1.5 signatures of [crypto/rsa], as the program
    calls them: [sha1.New], [Write] and [Sum] over a byte sequence, and
    [rsa.SignPKCS1v15] / [rsa.VerifyPKCS1v15] with [crypto.SHA1].  Everything is
    executable, so a real signature can be checked by evaluation. *)
From S2P Require Import Prelude GoStd.

(** ** SHA-1 *)

Definition add32 (a b : Z) : Z := u32 (a + b).
Definition rotl32 (n x : Z) : Z :=
  u32 (Z.lor (Z.shiftl x n) (Z.shiftr x (32 - n))).

(** Big-endian words and bytes. *)
Definition be_val (bs : bytes) : Z :=
  fold_left (fun acc c => acc * 256 + byte_val c) bs 0.
Definition be_bytes (n : nat) (v : Z) : bytes := rev (le_bytes n v).

(** The message followed by a 1 bit, zero bits and its length in bits. *)
Definition sha1_pad (m : bytes) : bytes :=
  let len := Z.of_nat (length m) in
  m ++ [byte_of 128] ++ replicate (Z.to_nat ((55 - len) mod 64)) (byte_of 0)
    ++ be_bytes 8 (8 * len).

Fixpoint chunks (n : nat) (fuel : nat) (l : bytes) : list bytes :=
  match fuel, l with
  | S f, _ :: _ => take n l :: chunks n f (drop n l)
  | _, _ => []
  end.

(** The message schedule, most recent word first. *)
Fixpoint schedule (n : nat) (ws : list Z) : list Z :=
  match n with
  | O => ws
  | S n' =>
    let w i := nth i ws 0 in
    schedule n' (rotl32 1 (Z.lxor (Z.lxor (w 2%nat) (w 7%nat)) (Z.lxor (w 13%nat) (w 15%nat))) :: ws)
  end.

Definition sha1_state : Type := Z * Z * Z * Z * Z.

Definition sha1_round (t : Z) (st : sha1_state) (w : Z) : sha1_state :=
  let '(a, b, c, d, e) := st in
  let nb := Z.lxor b (2 ^ 32 - 1) in
  let '(f, k) :=
    if t <? 20 then (Z.lor (Z.land b c) (Z.land nb d), 0x5A827999)
    else if t <? 40 then (Z.lxor (Z.lxor b c) d, 0x6ED9EBA1)
    else if t <? 60 then (Z.lor (Z.lor (Z.land b c) (Z.land b d)) (Z.land c d), 0x8F1BBCDC)
    else (Z.lxor (Z.lxor b c) d, 0xCA62C1D6) in
  (add32 (rotl32 5 a) (add32 f (add32 e (add32 k w))), a, rotl32 30 b, c, d).

Definition sha1_block (st : sha1_state) (block : bytes) : sha1_state :=
  let ws := rev (schedule 64 (rev (be_val <$> chunks 4 16 block))) in
  let '(_, (a, b, c, d, e)) :=
    fold_left (fun '(t, s) w => (t + 1, sha1_round t s w)) ws (0, st) in
  let '(h0, h1, h2, h3, h4) := st in
  (add32 h0 a, add32 h1 b, add32 h2 c, add32 h3 d, add32 h4 e).

(** [sha1.New()], the [Write] calls concatenated in [m], then [Sum(nil)]. *)
Definition sha1_Sum (m : bytes) : bytes :=
  let p := sha1_pad m in
  let '(a, b, c, d, e) :=
    fold_left sha1_block (chunks 64 (length p) p)
      (0x67452301, 0xEFCDAB89, 0x98BADCFE, 0x10325476, 0xC3D2E1F0) in
  be_bytes 4 a ++ be_bytes 4 b ++ be_bytes 4 c ++ be_bytes 4 d ++ be_bytes 4 e.

Example sha1_empty : EncodeToString (sha1_Sum []) = str "da39a3ee5e6b4b0d3255bfef95601890afd80709".
Proof. vm_compute. reflexivity. Qed.
Example sha1_abc : EncodeToString (sha1_Sum (str "abc")) = str "a9993e364706816aba3e25717850c26c9cd0d89d".
Proof. vm_compute. reflexivity. Qed.
Example sha1_two_blocks :
  EncodeToString (sha1_Sum (str "abcdbcdecdefdefgefghfghighijhijkijkljklmklmnlmnomnopnopq"))
  = str "84983e441c3bd26ebaae4aa1f95129e5e54670f1".
Proof. vm_compute. reflexivity. Qed.

(** ** RSA keys and PKCS#1 v1.5 signatures *)

Record PublicKey := mkPublicKey { key_N : Z; key_E : Z }.
Record PrivateKey := mkPrivateKey { key_pub : PublicKey; key_D : Z }.

#[global] Instance PublicKey_eq_dec : EqDecision PublicKey.
Proof. solve_decision. Defined.

Fixpoint powmod (b : Z) (e : positive) (n : Z) : Z :=
  match e with
  | xH => b mod n
  | xO e' => let r := powmod b e' n in (r * r) mod n
  | xI e' => let r := powmod b e' n in (((r * r) mod n) * b) mod n
  end.

(** [b]^[e] mod [n] as [big.Int.Exp] computes it, for a non-negative exponent. *)
Definition Exp (b e n : Z) : Z :=
  match e with
  | Zpos p => powmod b p n
  | _ => 1 mod n
  end.

Lemma powmod_spec b e n : n <> 0 -> powmod b e n = b ^ Zpos e mod n.
Proof.
  intros Hn. induction e as [e IH|e IH|]; cbn [powmod].
  - rewrite IH. change (Zpos e~1) with (2 * Zpos e + 1).
    rewrite Z.pow_add_r, Z.pow_mul_r, Z.pow_1_r, (Z.pow_2_r b), Z.pow_mul_l by lia.
    by rewrite Z.mul_mod_idemp_l, <-Z.mul_mod_idemp_l, <-Z.mul_mod, Z.mul_mod_idemp_l by done.
  - rewrite IH. change (Zpos e~0) with (2 * Zpos e).
    rewrite Z.pow_mul_r, (Z.pow_2_r b), Z.pow_mul_l by lia. by rewrite <-Z.mul_mod.
  - by rewrite Z.pow_1_r.
Qed.

(** [pub.Size()]: the modulus length in bytes. *)
Definition key_Size (pub : PublicKey) : Z := (Z.log2 (key_N pub) + 8) / 8.

(** DER prefix of a SHA-1 digest. *)
Definition sha1_prefix : bytes :=
  byte_of <$> [0x30; 0x21; 0x30; 0x09; 0x06; 0x05; 0x2b; 0x0e; 0x03; 0x02; 0x1a; 0x05; 0x00; 0x04; 0x14].

(** The encoded message 00 01 FF .. FF 00 prefix hash, of [k] bytes. *)
Definition pkcs1_em (k : Z) (hash : bytes) : bytes :=
  let tLen := Z.of_nat (length sha1_prefix + length hash) in
  byte_of 0 :: byte_of 1 :: replicate (Z.to_nat (k - tLen - 3)) (byte_of 255)
    ++ byte_of 0 :: sha1_prefix ++ hash.

Definition ErrMessageTooLong : exterr := XErr "crypto/rsa: message too long for RSA public key size".
Definition ErrVerification : exterr := XErr "crypto/rsa: verification error".
Definition errInputHash : exterr := XErr "crypto/rsa: input must be hashed message".

(** [rsa.SignPKCS1v15 rand priv crypto.SHA1 hashed]; the blinding of the
    private-key operation does not change its result. *)
Definition SignPKCS1v15 (priv : PrivateKey) (hashed : bytes) : bytes + exterr :=
  let k := key_Size (key_pub priv) in
  if negb (Nat.eqb (length hashed) 20) then inr errInputHash
  else if k <? 15 + 20 + 11 then inr ErrMessageTooLong
  else let c := Exp (be_val (pkcs1_em k hashed)) (key_D priv) (key_N (key_pub priv)) in
       inl (be_bytes (Z.to_nat k) c).

(** [rsa.VerifyPKCS1v15 pub crypto.SHA1 hashed sig]: [None] when it accepts. *)
Definition VerifyPKCS1v15 (pub : PublicKey) (hashed sig : bytes) : option exterr :=
  let k := key_Size pub in
  if negb (Nat.eqb (length hashed) 20) then Some errInputHash
  else if k <? 15 + 20 + 11 then Some ErrVerification
  else let m := Exp (be_val sig) (key_E pub) (key_N pub) in
       if bool_decide (be_bytes (Z.to_nat k) m = pkcs1_em k hashed) then None
       else Some ErrVerification.

(** ** Big-endian numbers *)

Lemma be_val_snoc bs c : be_val (bs ++ [c]) = be_val bs * 256 + byte_val c.
Proof. unfold be_val. by rewrite fold_left_app. Qed.

Lemma be_val_cons c bs : be_val (c :: bs) = byte_val c * 256 ^ Z.of_nat (length bs) + be_val bs.
Proof.
  induction bs as [|b bs IH] using rev_ind; [unfold be_val; simpl; lia|].
  rewrite app_comm_cons, !be_val_snoc, IH, length_app, Nat.add_comm. simpl plus.
  rewrite Nat2Z.inj_succ, Z.pow_succ_r by lia. lia.
Qed.

Lemma be_bytes_S n v : be_bytes (S n) v = be_bytes n (v / 256) ++ [byte_of v].
Proof. reflexivity. Qed.

Lemma be_bytes_length n v : length (be_bytes n v) = n.
Proof.
  revert v. induction n as [|n IH]; intros v; [done|].
  rewrite be_bytes_S, length_app, IH. simpl. lia.
Qed.

Lemma be_val_bytes n v : be_val (be_bytes n v) = v mod 256 ^ Z.of_nat n.
Proof.
  revert v. induction n as [|n IH]; intros v; [by rewrite Z.mod_1_r|].
  rewrite be_bytes_S, be_val_snoc, IH, byte_val_of, Nat2Z.inj_succ, Z.pow_succ_r by lia.
  rewrite (Z.rem_mul_r v 256) by lia. lia.
Qed.

Lemma be_bytes_val bs : be_bytes (length bs) (be_val bs) = bs.
Proof.
  induction bs as [|c bs IH] using rev_ind; [done|].
  rewrite length_app, Nat.add_comm, be_val_snoc. simpl plus. rewrite be_bytes_S.
  pose proof (byte_val_range c) as Hc.
  rewrite Z.div_add_l, (Z.div_small (byte_val c)), Z.add_0_r, IH by lia.
  f_equal. f_equal. apply byte_val_inj. rewrite byte_val_of, Z.add_comm, Z.mod_add by lia.
  by rewrite Z.mod_small.
Qed.

(** Printing with two hexadecimal digits a byte is printing the bytes. *)
Lemma hex_pad_bytes n v : hex_pad (2 * n) v = EncodeToString (be_bytes n v).
Proof.
  revert v. induction n as [|n IH]; intros v; [done|].
  replace (2 * S n)%nat with (S (S (2 * n))) by lia.
  cbn [hex_pad]. rewrite Z.div_div, IH, be_bytes_S by lia.
  unfold EncodeToString. rewrite bind_app, <-app_assoc. f_equal. simpl. rewrite byte_val_of.
  f_equal; [|f_equal]; f_equal; Z.to_euclidean_division_equations; lia.
Qed.

Lemma be_val_range bs : 0 <= be_val bs < 256 ^ Z.of_nat (length bs).
Proof.
  induction bs as [|c bs IH] using rev_ind; [done|].
  rewrite be_val_snoc, length_app, Nat.add_comm. simpl plus.
  rewrite Nat2Z.inj_succ, Z.pow_succ_r by lia. pose proof (byte_val_range c). lia.
Qed.

Lemma be_val_cons0 bs : be_val (byte_of 0 :: bs) = be_val bs.
Proof. reflexivity. Qed.

(** ** Signing and verifying

    A private key is good when its two exponents invert each other modulo [N]. *)
Definition good_key (priv : PrivateKey) : Prop :=
  let '(mkPrivateKey (mkPublicKey N E) D) := priv in
  1 < N /\ 0 < E /\ 0 < D /\ forall x, 0 <= x < N -> (x ^ D) ^ E mod N = x.

Lemma Exp_spec b e n : 0 < e -> n <> 0 -> Exp b e n = b ^ e mod n.
Proof. intros He Hn. destruct e; try lia. by apply powmod_spec. Qed.

Lemma Exp_range b e n : 0 < e -> 0 < n -> 0 <= Exp b e n < n.
Proof. intros He Hn. rewrite Exp_spec by lia. by apply Z.mod_pos_bound. Qed.

Lemma pkcs1_em_length k hash : length hash = 20%nat -> 46 <= k ->
  length (pkcs1_em k hash) = Z.to_nat k.
Proof.
  intros H Hk. unfold pkcs1_em.
  assert (length sha1_prefix = 15%nat) as P by done. rewrite P, H.
  cbn [length]. rewrite length_app, length_replicate. cbn [length].
  rewrite length_app, P, H. lia.
Qed.

Lemma key_Size_bound pub : 1 < key_N pub ->
  256 ^ (key_Size pub - 1) <= key_N pub < 256 ^ key_Size pub.
Proof.
  intros HN. unfold key_Size. set (l := Z.log2 (key_N pub)).
  pose proof (Z.log2_spec (key_N pub) ltac:(lia)) as [L1 L2]. fold l in L1, L2.
  pose proof (Z.log2_nonneg (key_N pub)) as L0. fold l in L0.
  assert (8 * ((l + 8) / 8) <= l + 8 < 8 * ((l + 8) / 8) + 8) as B.
  { pose proof (Z.div_mod (l + 8) 8). pose proof (Z.mod_pos_bound (l + 8) 8). lia. }
  change 256 with (2 ^ 8). rewrite <-!Z.pow_mul_r by lia. split.
  - etransitivity; [|exact L1]. apply Z.pow_le_mono_r; lia.
  - eapply Z.lt_le_trans; [exact L2|]. apply Z.pow_le_mono_r; lia.
Qed.

(** What a good key signs, its public half accepts. *)
Lemma Verify_Sign priv hashed sig : good_key priv ->
  SignPKCS1v15 priv hashed = inl sig ->
  VerifyPKCS1v15 (key_pub priv) hashed sig = None.
Proof.
  destruct priv as [[N E] D]. unfold SignPKCS1v15, VerifyPKCS1v15. cbn [key_pub key_N key_E key_D].
  intros (HN & HE & HD & Hinv). set (k := key_Size _).
  destruct (Nat.eqb_spec (length hashed) 20) as [Hl|]; [|done]. cbn [negb].
  destruct (Z.ltb_spec k (15 + 20 + 11)) as [|Hk]; [done|]. intros [= <-].
  pose proof (key_Size_bound (mkPublicKey N E) HN) as B. fold k in B. cbn [key_N] in B.
  set (em := pkcs1_em k hashed).
  pose proof (pkcs1_em_length k hashed Hl ltac:(lia)) as L. fold em in L.
  assert (0 <= be_val em < N) as Hem.
  { unfold em, pkcs1_em in *. rewrite be_val_cons0. cbn [length] in L.
    match goal with |- 0 <= be_val ?x < _ => pose proof (be_val_range x) as R end.
    cbn [length] in R. replace (Z.of_nat (S _)) with (k - 1) in R by lia. lia. }
  rewrite be_val_bytes, Z2Nat.id by lia.
  rewrite (Z.mod_small (Exp _ _ _)) by (pose proof (Exp_range (be_val em) D N); lia).
  rewrite !Exp_spec, Z.mod_pow_l, Hinv, <-L by lia.
  by rewrite bool_decide_eq_true_2 by apply be_bytes_val.
Qed.
