(* ===== verification/Errors.v ===== *)
(** * Error values, error codes and the table of error texts

    Models xlreg_errors.go (the error variables), xlreg_error_const.go (the
    numeric codes, [-1 - iota]) and xlreg_error_str.go (the table of texts).
    An [error] is [nil] ([None]) or one of: a variable of this package, an error
    built on the spot with [errors.New], or an error made elsewhere.  Go compares
    error values by identity; the program only compares with package variables
    and with [io.EOF], for which constructor equality is the same thing. *)
From S2P Require Import Prelude GoStd.

(** The error variables of xlreg_errors.go. *)
Inductive regerror :=
  | BadAttrsLine
  | BadOrNilCnx
  | BadVersion
  | CantFindClusterByID
  | CantFindClusterByName
  | ClusterMemberIDInUse
  | ClusterMembersMustHaveEndPoint
  | ClusterMemberNameInUse
  | ClusterMustHaveMember
  | ClusterMustHaveTwo
  | IDAlreadyInUse
  | IllFormedCluster
  | IllFormedClusterMember
  | IllFormedRegCred
  | MemberMustHaveEndPoint
  | MissingClosingBrace
  | MissingClusterNameOrID
  | MissingEndPointsSection
  | MissingMembersList
  | MissingNode
  | MissingPrivateKey
  | MissingRegNodeLine
  | MissingServerInfo
  | NameAlreadyInUse
  | NilCluster
  | NilClusterMember
  | NilNode
  | NilPrivateKey
  | NilRegistry
  | NilRegNode
  | NilToken
  | RcvdInvalidMsgForState
  | TagOutOfRange
  | UnexpectedMsgType
  | WrongNumberOfBytesInAttrs.

#[global] Instance regerror_eq_dec : EqDecision regerror.
Proof. solve_decision. Defined.

(** The text each variable was made with. *)
Definition regerror_text (e : regerror) : string :=
  match e with
  | BadAttrsLine => "badly formed attrs line"
  | BadOrNilCnx => "bad or nil connection"
  | BadVersion => "badly formated VERSION"
  | CantFindClusterByID => "cannot find cluster with this ID"
  | CantFindClusterByName => "cannot find cluster with this name"
  | ClusterMemberIDInUse => "cluster member id already in use"
  | ClusterMembersMustHaveEndPoint => "cluster members must have at least one endPoint"
  | ClusterMemberNameInUse => "cluster member name already in use"
  | ClusterMustHaveMember => "cluster must have a member!"
  | ClusterMustHaveTwo => "cluster must have at least two members"
  | IDAlreadyInUse => "ID already in use"
  | IllFormedCluster => "ill-formed cluster serialization"
  | IllFormedClusterMember => "ill-formed cluster member serialization"
  | IllFormedRegCred => "ill-formed regCred serialization"
  | MemberMustHaveEndPoint => "member must have at least one endPoint"
  | MissingClosingBrace => "missing closing brace"
  | MissingClusterNameOrID => "missing cluster name or ID"
  | MissingEndPointsSection => "missing endPoints section"
  | MissingMembersList => "missing members list"
  | MissingNode => "missing node parameter"
  | MissingPrivateKey => "missing private key line"
  | MissingRegNodeLine => "missing regNode line"
  | MissingServerInfo => "missing server info"
  | NameAlreadyInUse => "name already in use"
  | NilCluster => "nil cluster argument"
  | NilClusterMember => "nil cluster member argument"
  | NilNode => "nil node argument"
  | NilPrivateKey => "nil private key argument"
  | NilRegistry => "nil registry argument"
  | NilRegNode => "nil RegNode argument"
  | NilToken => "nil XLRegMsg_Token argument"
  | RcvdInvalidMsgForState => "invalid msg type for current state"
  | TagOutOfRange => "message tag out of range"
  | UnexpectedMsgType => "unexpected message type"
  | WrongNumberOfBytesInAttrs => "wrong number of bytes in attrs"
  end.

Inductive error :=
  | RegErr (e : regerror)
  | ErrNew (msg : gostring)
  | ExtErr (e : exterr).
Coercion RegErr : regerror >-> error.

#[global] Instance error_eq_dec : EqDecision error.
Proof. solve_decision. Defined.

(** The method [Error()] of an error value. *)
Definition Error (e : error) : gostring :=
  match e with
  | RegErr r => str (regerror_text r)
  | ErrNew m => m
  | ExtErr EOF => str "EOF"
  | ExtErr (XErr m) => str m
  end.

(** ** The codes of xlreg_error_const.go *)

Inductive errcode :=
  | BAD_ATTRS_LINE
  | BAD_VERSION
  | CANT_FIND_CLUSTER_BY_ID
  | CANT_FIND_CLUSTER_BY_NAME
  | CLIENT_MUST_HAVE_END_POINT
  | CLUSTER_MEMBERS_MUST_HAVE_END_POINT
  | CLUSTER_MUST_HAVE_MEMBER
  | CLUSTER_MUST_HAVE_TWO
  | ID_ALREADY_IN_USE
  | ILL_FORMED_CLUSTER
  | ILL_FORMED_CLUSTER_MEMBER
  | ILL_FORMED_REG_CRED
  | MISSING_CLOSING_BRACE
  | MISSING_CLUSTER_NAME_OR_ID
  | MISSING_END_POINTS_SECTION
  | MISSING_MEMBERS_LIST
  | MISSING_PRIVATE_KEY
  | MISSING_REG_NODE_LINE
  | MISSING_SERVER_INFO
  | NAME_ALREADY_IN_USE
  | NIL_CLUSTER
  | NIL_NODE
  | NIL_PRIVATE_KEY
  | NIL_REGISTRY
  | NIL_REG_NODE
  | NIL_TOKEN
  | NO_NODE_NO_KEYS
  | RCVD_INVALID_MSG_FOR_STATE
  | TAG_OUT_OF_RANGE
  | UNEXPECTED_MSG_TYPE
  | UNKNOWN_CLIENT
  | WRONG_NUMBER_OF_BYTES_IN_ATTRS.

(** [iota] of each code in its const block; the code is [-1 - iota]. *)
Definition errcode_iota (c : errcode) : Z :=
  match c with
  | BAD_ATTRS_LINE => 0
  | BAD_VERSION => 1
  | CANT_FIND_CLUSTER_BY_ID => 2
  | CANT_FIND_CLUSTER_BY_NAME => 3
  | CLIENT_MUST_HAVE_END_POINT => 4
  | CLUSTER_MEMBERS_MUST_HAVE_END_POINT => 5
  | CLUSTER_MUST_HAVE_MEMBER => 6
  | CLUSTER_MUST_HAVE_TWO => 7
  | ID_ALREADY_IN_USE => 8
  | ILL_FORMED_CLUSTER => 9
  | ILL_FORMED_CLUSTER_MEMBER => 10
  | ILL_FORMED_REG_CRED => 11
  | MISSING_CLOSING_BRACE => 12
  | MISSING_CLUSTER_NAME_OR_ID => 13
  | MISSING_END_POINTS_SECTION => 14
  | MISSING_MEMBERS_LIST => 15
  | MISSING_PRIVATE_KEY => 16
  | MISSING_REG_NODE_LINE => 17
  | MISSING_SERVER_INFO => 18
  | NAME_ALREADY_IN_USE => 19
  | NIL_CLUSTER => 20
  | NIL_NODE => 21
  | NIL_PRIVATE_KEY => 22
  | NIL_REGISTRY => 23
  | NIL_REG_NODE => 24
  | NIL_TOKEN => 25
  | NO_NODE_NO_KEYS => 26
  | RCVD_INVALID_MSG_FOR_STATE => 27
  | TAG_OUT_OF_RANGE => 28
  | UNEXPECTED_MSG_TYPE => 29
  | UNKNOWN_CLIENT => 30
  | WRONG_NUMBER_OF_BYTES_IN_ATTRS => 31
  end.

Definition errcode_value (c : errcode) : Z := -1 - errcode_iota c.

(** The table of xlreg_error_str.go. *)
Definition XLREG_ERRORS : list string := [
  "badly formed attrs line";
  "badly formated VERSION";
  "cannot find cluster with this ID";
  "cannot find cluster with this name";
  "client must have at least one endPoint";
  "cluster members must have at least one endPoint";
  "cluster must have a member!";
  "cluster must have at least two members";
  "ID already in use";
  "ill-formed cluster serialization";
  "ill-formed cluster member serialization";
  "ill-formed regCred serialization";
  "missing closing brace";
  "missing cluster name or ID";
  "missing endPoints section";
  "missing members list";
  "missing private key line";
  "missing regNode line";
  "missing server info";
  "name already in use";
  "nil cluster argument";
  "nil node argument";
  "nil private key argument";
  "nil registry argument";
  "nil RegNode argument";
  "nil XLRegMsg_Token argument";
  "no node and no keys to build one";
  "invalid msg type for current state";
  "message tag out of range";
  "unexpected message type";
  "client unknown, not in registry";
  "wrong number of bytes in attrs"].

(** The error variable a code names, for the codes that have one. *)
Definition errcode_error (c : errcode) : option regerror :=
  match c with
  | BAD_ATTRS_LINE => Some BadAttrsLine
  | BAD_VERSION => Some BadVersion
  | CANT_FIND_CLUSTER_BY_ID => Some CantFindClusterByID
  | CANT_FIND_CLUSTER_BY_NAME => Some CantFindClusterByName
  | CLIENT_MUST_HAVE_END_POINT => None
  | CLUSTER_MEMBERS_MUST_HAVE_END_POINT => Some ClusterMembersMustHaveEndPoint
  | CLUSTER_MUST_HAVE_MEMBER => Some ClusterMustHaveMember
  | CLUSTER_MUST_HAVE_TWO => Some ClusterMustHaveTwo
  | ID_ALREADY_IN_USE => Some IDAlreadyInUse
  | ILL_FORMED_CLUSTER => Some IllFormedCluster
  | ILL_FORMED_CLUSTER_MEMBER => Some IllFormedClusterMember
  | ILL_FORMED_REG_CRED => Some IllFormedRegCred
  | MISSING_CLOSING_BRACE => Some MissingClosingBrace
  | MISSING_CLUSTER_NAME_OR_ID => Some MissingClusterNameOrID
  | MISSING_END_POINTS_SECTION => Some MissingEndPointsSection
  | MISSING_MEMBERS_LIST => Some MissingMembersList
  | MISSING_PRIVATE_KEY => Some MissingPrivateKey
  | MISSING_REG_NODE_LINE => Some MissingRegNodeLine
  | MISSING_SERVER_INFO => Some MissingServerInfo
  | NAME_ALREADY_IN_USE => Some NameAlreadyInUse
  | NIL_CLUSTER => Some NilCluster
  | NIL_NODE => Some NilNode
  | NIL_PRIVATE_KEY => Some NilPrivateKey
  | NIL_REGISTRY => Some NilRegistry
  | NIL_REG_NODE => Some NilRegNode
  | NIL_TOKEN => Some NilToken
  | NO_NODE_NO_KEYS => None
  | RCVD_INVALID_MSG_FOR_STATE => Some RcvdInvalidMsgForState
  | TAG_OUT_OF_RANGE => Some TagOutOfRange
  | UNEXPECTED_MSG_TYPE => Some UnexpectedMsgType
  | UNKNOWN_CLIENT => None
  | WRONG_NUMBER_OF_BYTES_IN_ATTRS => Some WrongNumberOfBytesInAttrs
  end.

(** ** Fallible results

    The Go idiom [(value, err)] where the value is only used when [err] is
    [nil]. *)
Inductive result (A : Type) :=
  | Ok (a : A)
  | Err (e : error).
Arguments Ok {A} a.
Arguments Err {A} e.

#[global] Instance result_ret : MRet result := fun A a => Ok a.
#[global] Instance result_bind : MBind result := fun A B f m =>
  match m with Ok a => f a | Err e => Err e end.

(** A result of code outside the package. *)
Definition lift {A} (r : A + exterr) : result A :=
  match r with inl a => Ok a | inr e => Err (ExtErr e) end.

Lemma result_bind_Ok_inv {A B} (m : result A) (k : A -> result B) (b : B) :
  m ≫= k = Ok b <-> exists a, m = Ok a /\ k a = Ok b.
Proof. destruct m; naive_solver. Qed.

Lemma result_bind_Ok {A B} (a : A) (k : A -> result B) : Ok a ≫= k = k a.
Proof. reflexivity. Qed.

Lemma lift_Ok_inv {A} (r : A + exterr) a : lift r = Ok a <-> r = inl a.
Proof. destruct r; naive_solver. Qed.

#[export] Hint Rewrite @result_bind_Ok : go.

(** The text stored for a code is the text of the error variable it names. *)
Lemma errcode_text c e : errcode_error c = Some e ->
  index XLREG_ERRORS (-1 - errcode_value c) = Done (regerror_text e).
Proof. destruct c; intros H; simplify_eq/=; reflexivity. Qed.

(** The codes are pairwise different and lie in [-32, -1]. *)
Lemma errcode_value_range c : -32 <= errcode_value c <= -1.
Proof. destruct c; vm_compute; split; discriminate. Qed.

Lemma errcode_value_inj c d : errcode_value c = errcode_value d -> c = d.
Proof. destruct c, d; intros H; done || discriminate H. Qed.

(** Every number below 32 is the [iota] of a code. *)
Definition errcodes : list errcode := [
  BAD_ATTRS_LINE; BAD_VERSION; CANT_FIND_CLUSTER_BY_ID; CANT_FIND_CLUSTER_BY_NAME;
  CLIENT_MUST_HAVE_END_POINT; CLUSTER_MEMBERS_MUST_HAVE_END_POINT; CLUSTER_MUST_HAVE_MEMBER;
  CLUSTER_MUST_HAVE_TWO; ID_ALREADY_IN_USE; ILL_FORMED_CLUSTER; ILL_FORMED_CLUSTER_MEMBER;
  ILL_FORMED_REG_CRED; MISSING_CLOSING_BRACE; MISSING_CLUSTER_NAME_OR_ID;
  MISSING_END_POINTS_SECTION; MISSING_MEMBERS_LIST; MISSING_PRIVATE_KEY; MISSING_REG_NODE_LINE;
  MISSING_SERVER_INFO; NAME_ALREADY_IN_USE; NIL_CLUSTER; NIL_NODE; NIL_PRIVATE_KEY; NIL_REGISTRY;
  NIL_REG_NODE; NIL_TOKEN; NO_NODE_NO_KEYS; RCVD_INVALID_MSG_FOR_STATE; TAG_OUT_OF_RANGE;
  UNEXPECTED_MSG_TYPE; UNKNOWN_CLIENT; WRONG_NUMBER_OF_BYTES_IN_ATTRS].

Lemma errcode_of_iota n : (n < 32)%nat -> exists c, errcode_iota c = Z.of_nat n.
Proof.
  intros Hn. assert (errcode_iota <$> errcodes = Z.of_nat <$> seq 0 32) as E by reflexivity.
  apply (f_equal (lookup n)) in E. rewrite !list_lookup_fmap, lookup_seq_lt in E by done.
  destruct (errcodes !! n) as [c|]; [|done]. exists c. simpl in E. congruence.
Qed.

(** ** Theorems *)

(** The three files that describe errors agree.  Every code indexes the table
    of texts; where an error variable has the name of the code, the text is that
    variable's, and where none has, no variable has the text.  The codes are
    pairwise different and are exactly the numbers from -32 to -1. *)
Theorem error_table :
  (forall c, exists s, index XLREG_ERRORS (-1 - errcode_value c) = Done s /\
     match errcode_error c with
     | Some e => s = regerror_text e
     | None => forall e, regerror_text e <> s
     end) /\
  (forall c d, errcode_value c = errcode_value d -> c = d) /\
  (forall z, -32 <= z <= -1 <-> exists c, errcode_value c = z).
Proof.
  split; [|split].
  - intros c. destruct (errcode_error c) as [e|] eqn:E.
    + exists (regerror_text e). split; [by apply errcode_text|done].
    + destruct c; try discriminate E; eexists; (split; [reflexivity|]); intros e; destruct e; discriminate.
  - apply errcode_value_inj.
  - intros z. split.
    + intros Hz. assert (exists c, errcode_iota c = -1 - z) as [c Hc].
      { destruct (errcode_of_iota (Z.to_nat (-1 - z))) as [c Hc]; [lia|]. exists c. lia. }
      exists c. unfold errcode_value. lia.
    + intros [c <-]. apply errcode_value_range.
Qed.
