(* ===== verification/Proto.v ===== *)
(** * The messages of the registry protocol

    Models p.pb.go, the Go code generated from p.proto and kept in the
    repository: the tags, the two message types and their accessors.  A pointer
    to a field, a byte slice and a message pointer can be [nil]: each is an
    [option].  Every accessor accepts a [nil] receiver, as in Go.  The field
    XXX_unrecognized, which no code of the package reads, is left out. *)
From S2P Require Import Prelude GoStd.

(** ** Tags (int32 in Go) *)

Definition XLRegMsg_RegCredRequest : Z := 1.
Definition XLRegMsg_RegCredReply : Z := 2.
Definition XLRegMsg_Member : Z := 3.
Definition XLRegMsg_MemberOK : Z := 4.
Definition XLRegMsg_Create : Z := 5.
Definition XLRegMsg_CreateReply : Z := 6.
Definition XLRegMsg_Join : Z := 7.
Definition XLRegMsg_JoinReply : Z := 8.
Definition XLRegMsg_GetCluster : Z := 9.
Definition XLRegMsg_ClusterMembers : Z := 10.
Definition XLRegMsg_Bye : Z := 11.
Definition XLRegMsg_Ack : Z := 12.
Definition XLRegMsg_Error : Z := 13.

(** The generated maps between tags and names. *)
Definition XLRegMsg_Tag_name : list (Z * string) := [
  (1, "RegCredRequest");
  (2, "RegCredReply");
  (3, "Member");
  (4, "MemberOK");
  (5, "Create");
  (6, "CreateReply");
  (7, "Join");
  (8, "JoinReply");
  (9, "GetCluster");
  (10, "ClusterMembers");
  (11, "Bye");
  (12, "Ack");
  (13, "Error")].

Definition XLRegMsg_Tag_value : list (string * Z) := [
  ("RegCredRequest", 1);
  ("RegCredReply", 2);
  ("Member", 3);
  ("MemberOK", 4);
  ("Create", 5);
  ("CreateReply", 6);
  ("Join", 7);
  ("JoinReply", 8);
  ("GetCluster", 9);
  ("ClusterMembers", 10);
  ("Bye", 11);
  ("Ack", 12);
  ("Error", 13)].

(** The methods of tags.  [EnumName] and [UnmarshalJSONEnum] are golang/protobuf's:
    the name of a number in a table, and the number that a JSON text names. *)
Section Tags.
Variable EnumName : list (Z * string) -> Z -> gostring.
Variable UnmarshalJSONEnum : list (string * Z) -> bytes -> string -> Z + exterr.

Definition Tag_Enum (x : Z) : option Z := Some x.
Definition Tag_String (x : Z) : gostring := EnumName XLRegMsg_Tag_name x.

(** The receiver is left as it is on an error. *)
Definition Tag_UnmarshalJSON (x : Z) (data : bytes) : Z * option exterr :=
  match UnmarshalJSONEnum XLRegMsg_Tag_value data "XLRegMsg_Tag" with
  | inr err => (x, Some err)
  | inl value => (value, None)
  end.

(** Both find what their table has. *)
Hypothesis EnumName_found : forall m v s, list_find (fun e => e.1 = v) m = Some s ->
  EnumName m v = str s.2.2.
Hypothesis UnmarshalJSONEnum_found : forall m s e what, list_find (fun e => e.1 = s) m = Some e ->
  UnmarshalJSONEnum m (["034"%char] ++ str s ++ ["034"%char]) what = inl e.2.2.

(** A tag written as a JSON string by its name reads back: the tables agree. *)
Lemma Tag_roundtrip x y : 1 <= x <= 13 ->
  Tag_UnmarshalJSON y (["034"%char] ++ Tag_String x ++ ["034"%char]) = (x, None).
Proof.
  intros Hx. unfold Tag_UnmarshalJSON, Tag_String.
  assert (x = 1 \/ x = 2 \/ x = 3 \/ x = 4 \/ x = 5 \/ x = 6 \/ x = 7 \/ x = 8 \/ x = 9 \/ x = 10 \/
    x = 11 \/ x = 12 \/ x = 13) as Hc by lia.
  repeat destruct Hc as [->|Hc]; [..|subst x]; (erewrite EnumName_found by reflexivity; cbn [fst snd];
    erewrite UnmarshalJSONEnum_found by reflexivity; reflexivity).
Qed.
End Tags.

(** ** The description of a member *)

Record XLRegMsg_Token := mkToken {
  tok_Name : option gostring;
  tok_Attrs : option Z;
  tok_ID : option bytes;
  tok_CommsKey : option bytes;
  tok_SigKey : option bytes;
  tok_MyEnds : option (list gostring);
  tok_DigSig : option bytes
}.

(** ** Messages *)

Record XLRegMsg := mkMsg {
  msg_Op : option Z;
  msg_AesKey : option bytes;
  msg_Salt1 : option bytes;
  msg_Salt2 : option bytes;
  msg_Version : option Z;
  msg_MemberName : option gostring;
  msg_MemberID : option bytes;
  msg_MemberAttrs : option Z;
  msg_MemberSpecs : option XLRegMsg_Token;
  msg_ClusterID : option bytes;
  msg_ClusterName : option gostring;
  msg_ClusterMaxSize : option Z;
  msg_ClusterAttrs : option Z;
  msg_EndPointCount : option Z;
  msg_Which : option Z;
  msg_Tokens : option (list (option XLRegMsg_Token));
  msg_DigSig : option bytes;
  msg_ErrDesc : option gostring
}.

(** [m.Reset()]: all fields absent. *)
Definition XLRegMsg_zero : XLRegMsg := mkMsg None None None None None None None None None None None None None None None None None None.
Definition XLRegMsg_Token_zero : XLRegMsg_Token := mkToken None None None None None None None.

(** ** Accessors of a message

    A scalar that is absent reads as its default; a slice or a sub-message that
    is absent reads as [nil]. *)

Definition GetOp (m : option XLRegMsg) : Z :=
  default XLRegMsg_RegCredRequest (m ≫= msg_Op).
Definition GetAesKey (m : option XLRegMsg) : option bytes := m ≫= msg_AesKey.
Definition GetSalt1 (m : option XLRegMsg) : option bytes := m ≫= msg_Salt1.
Definition GetSalt2 (m : option XLRegMsg) : option bytes := m ≫= msg_Salt2.
Definition GetVersion (m : option XLRegMsg) : Z :=
  default 0 (m ≫= msg_Version).
Definition GetMemberName (m : option XLRegMsg) : gostring :=
  default [] (m ≫= msg_MemberName).
Definition GetMemberID (m : option XLRegMsg) : option bytes := m ≫= msg_MemberID.
Definition GetMemberAttrs (m : option XLRegMsg) : Z :=
  default 0 (m ≫= msg_MemberAttrs).
Definition GetMemberSpecs (m : option XLRegMsg) : option XLRegMsg_Token := m ≫= msg_MemberSpecs.
Definition GetClusterID (m : option XLRegMsg) : option bytes := m ≫= msg_ClusterID.
Definition GetClusterName (m : option XLRegMsg) : gostring :=
  default [] (m ≫= msg_ClusterName).
Definition GetClusterMaxSize (m : option XLRegMsg) : Z :=
  default 0 (m ≫= msg_ClusterMaxSize).
Definition GetClusterAttrs (m : option XLRegMsg) : Z :=
  default 0 (m ≫= msg_ClusterAttrs).
Definition GetEndPointCount (m : option XLRegMsg) : Z :=
  default 0 (m ≫= msg_EndPointCount).
Definition GetWhich (m : option XLRegMsg) : Z :=
  default 0 (m ≫= msg_Which).
Definition GetTokens (m : option XLRegMsg) : option (list (option XLRegMsg_Token)) := m ≫= msg_Tokens.
Definition GetDigSig (m : option XLRegMsg) : option bytes := m ≫= msg_DigSig.
Definition GetErrDesc (m : option XLRegMsg) : gostring :=
  default [] (m ≫= msg_ErrDesc).

(** ** Accessors of a token *)

Definition Token_GetName (m : option XLRegMsg_Token) : gostring :=
  default [] (m ≫= tok_Name).
Definition Token_GetAttrs (m : option XLRegMsg_Token) : Z :=
  default 0 (m ≫= tok_Attrs).
Definition Token_GetID (m : option XLRegMsg_Token) : option bytes := m ≫= tok_ID.
Definition Token_GetCommsKey (m : option XLRegMsg_Token) : option bytes := m ≫= tok_CommsKey.
Definition Token_GetSigKey (m : option XLRegMsg_Token) : option bytes := m ≫= tok_SigKey.
Definition Token_GetMyEnds (m : option XLRegMsg_Token) : option (list gostring) := m ≫= tok_MyEnds.
Definition Token_GetDigSig (m : option XLRegMsg_Token) : option bytes := m ≫= tok_DigSig.

(** ** Building messages

    The replies of the server and the requests of the members name only some
    fields; the others stay [nil]. *)

Definition msg_of_op (op : Z) : XLRegMsg :=
  mkMsg (Some op) None None None None None None None None None None None None None None None None None.

Definition with_MemberID (v : option bytes) (m : XLRegMsg) : XLRegMsg :=
  mkMsg (msg_Op m) (msg_AesKey m) (msg_Salt1 m) (msg_Salt2 m) (msg_Version m) (msg_MemberName m) v (msg_MemberAttrs m) (msg_MemberSpecs m) (msg_ClusterID m) (msg_ClusterName m) (msg_ClusterMaxSize m) (msg_ClusterAttrs m) (msg_EndPointCount m) (msg_Which m) (msg_Tokens m) (msg_DigSig m) (msg_ErrDesc m).
Definition with_MemberAttrs (v : option Z) (m : XLRegMsg) : XLRegMsg :=
  mkMsg (msg_Op m) (msg_AesKey m) (msg_Salt1 m) (msg_Salt2 m) (msg_Version m) (msg_MemberName m) (msg_MemberID m) v (msg_MemberSpecs m) (msg_ClusterID m) (msg_ClusterName m) (msg_ClusterMaxSize m) (msg_ClusterAttrs m) (msg_EndPointCount m) (msg_Which m) (msg_Tokens m) (msg_DigSig m) (msg_ErrDesc m).
Definition with_MemberSpecs (v : option XLRegMsg_Token) (m : XLRegMsg) : XLRegMsg :=
  mkMsg (msg_Op m) (msg_AesKey m) (msg_Salt1 m) (msg_Salt2 m) (msg_Version m) (msg_MemberName m) (msg_MemberID m) (msg_MemberAttrs m) v (msg_ClusterID m) (msg_ClusterName m) (msg_ClusterMaxSize m) (msg_ClusterAttrs m) (msg_EndPointCount m) (msg_Which m) (msg_Tokens m) (msg_DigSig m) (msg_ErrDesc m).
Definition with_ClusterID (v : option bytes) (m : XLRegMsg) : XLRegMsg :=
  mkMsg (msg_Op m) (msg_AesKey m) (msg_Salt1 m) (msg_Salt2 m) (msg_Version m) (msg_MemberName m) (msg_MemberID m) (msg_MemberAttrs m) (msg_MemberSpecs m) v (msg_ClusterName m) (msg_ClusterMaxSize m) (msg_ClusterAttrs m) (msg_EndPointCount m) (msg_Which m) (msg_Tokens m) (msg_DigSig m) (msg_ErrDesc m).
Definition with_ClusterName (v : option gostring) (m : XLRegMsg) : XLRegMsg :=
  mkMsg (msg_Op m) (msg_AesKey m) (msg_Salt1 m) (msg_Salt2 m) (msg_Version m) (msg_MemberName m) (msg_MemberID m) (msg_MemberAttrs m) (msg_MemberSpecs m) (msg_ClusterID m) v (msg_ClusterMaxSize m) (msg_ClusterAttrs m) (msg_EndPointCount m) (msg_Which m) (msg_Tokens m) (msg_DigSig m) (msg_ErrDesc m).
Definition with_ClusterMaxSize (v : option Z) (m : XLRegMsg) : XLRegMsg :=
  mkMsg (msg_Op m) (msg_AesKey m) (msg_Salt1 m) (msg_Salt2 m) (msg_Version m) (msg_MemberName m) (msg_MemberID m) (msg_MemberAttrs m) (msg_MemberSpecs m) (msg_ClusterID m) (msg_ClusterName m) v (msg_ClusterAttrs m) (msg_EndPointCount m) (msg_Which m) (msg_Tokens m) (msg_DigSig m) (msg_ErrDesc m).
Definition with_ClusterAttrs (v : option Z) (m : XLRegMsg) : XLRegMsg :=
  mkMsg (msg_Op m) (msg_AesKey m) (msg_Salt1 m) (msg_Salt2 m) (msg_Version m) (msg_MemberName m) (msg_MemberID m) (msg_MemberAttrs m) (msg_MemberSpecs m) (msg_ClusterID m) (msg_ClusterName m) (msg_ClusterMaxSize m) v (msg_EndPointCount m) (msg_Which m) (msg_Tokens m) (msg_DigSig m) (msg_ErrDesc m).
Definition with_EndPointCount (v : option Z) (m : XLRegMsg) : XLRegMsg :=
  mkMsg (msg_Op m) (msg_AesKey m) (msg_Salt1 m) (msg_Salt2 m) (msg_Version m) (msg_MemberName m) (msg_MemberID m) (msg_MemberAttrs m) (msg_MemberSpecs m) (msg_ClusterID m) (msg_ClusterName m) (msg_ClusterMaxSize m) (msg_ClusterAttrs m) v (msg_Which m) (msg_Tokens m) (msg_DigSig m) (msg_ErrDesc m).
Definition with_Which (v : option Z) (m : XLRegMsg) : XLRegMsg :=
  mkMsg (msg_Op m) (msg_AesKey m) (msg_Salt1 m) (msg_Salt2 m) (msg_Version m) (msg_MemberName m) (msg_MemberID m) (msg_MemberAttrs m) (msg_MemberSpecs m) (msg_ClusterID m) (msg_ClusterName m) (msg_ClusterMaxSize m) (msg_ClusterAttrs m) (msg_EndPointCount m) v (msg_Tokens m) (msg_DigSig m) (msg_ErrDesc m).
Definition with_Tokens (v : option (list (option XLRegMsg_Token))) (m : XLRegMsg) : XLRegMsg :=
  mkMsg (msg_Op m) (msg_AesKey m) (msg_Salt1 m) (msg_Salt2 m) (msg_Version m) (msg_MemberName m) (msg_MemberID m) (msg_MemberAttrs m) (msg_MemberSpecs m) (msg_ClusterID m) (msg_ClusterName m) (msg_ClusterMaxSize m) (msg_ClusterAttrs m) (msg_EndPointCount m) (msg_Which m) v (msg_DigSig m) (msg_ErrDesc m).
Definition with_ErrDesc (v : option gostring) (m : XLRegMsg) : XLRegMsg :=
  mkMsg (msg_Op m) (msg_AesKey m) (msg_Salt1 m) (msg_Salt2 m) (msg_Version m) (msg_MemberName m) (msg_MemberID m) (msg_MemberAttrs m) (msg_MemberSpecs m) (msg_ClusterID m) (msg_ClusterName m) (msg_ClusterMaxSize m) (msg_ClusterAttrs m) (msg_EndPointCount m) (msg_Which m) (msg_Tokens m) (msg_DigSig m) v.

(** ** Messages a wire can carry

    Numbers are within the widths of their fields, and a repeated field that is
    present has an element: on the wire an empty one cannot be told from an absent
    one. *)

Definition token_ok (t : XLRegMsg_Token) : Prop :=
  from_option is_u64 True (tok_Attrs t) /\ tok_MyEnds t <> Some [].

Definition tokens_ok (ts : list (option XLRegMsg_Token)) : Prop :=
  ts <> [] /\ Forall (fun t => exists t', t = Some t' /\ token_ok t') ts.

Record msg_ok (m : XLRegMsg) : Prop := {
  mo_Op : from_option (fun op => - 2 ^ 31 <= op < 2 ^ 31) True (msg_Op m);
  mo_Version : from_option is_u32 True (msg_Version m);
  mo_MemberAttrs : from_option is_u64 True (msg_MemberAttrs m);
  mo_MemberSpecs : from_option token_ok True (msg_MemberSpecs m);
  mo_ClusterMaxSize : from_option is_u32 True (msg_ClusterMaxSize m);
  mo_ClusterAttrs : from_option is_u64 True (msg_ClusterAttrs m);
  mo_EndPointCount : from_option is_u32 True (msg_EndPointCount m);
  mo_Which : from_option is_u64 True (msg_Which m);
  mo_Tokens : from_option tokens_ok True (msg_Tokens m)
}.
