(* ===== verification/Ext.v ===== *)
(** * The packages the program calls

    The program is built on other XLattice packages and on the protocol-buffer
    library, none of which is part of this repository.  [Ext] lists the types
    and functions of those packages that the program uses, one field each, named
    with the import prefix the sources use (xi, ha, xf, xc, xn, xt, xu, xm, xa,
    proto).  The model is parametric in them.

    Conventions.  A function returning [(value, err)] whose value is used only
    when [err] is [nil] returns a sum; one whose value is used regardless returns
    a pair with an optional error.  A method that changes its receiver returns the
    new receiver.  A pointer that can be [nil] is an [option].

    The laws the theorems rely on are separate classes, one per package, each a
    list of documented facts about the functions of that package. *)
From S2P Require Import Prelude GoStd GoCrypto Errors Proto.

Class Ext := {
  (** xlNodeID_go: [New] on bytes, [Value], [String]. *)
  NodeID : Type;
  xi_New : bytes -> option NodeID * option exterr;
  xi_Value : NodeID -> bytes;
  xi_String : NodeID -> gostring;

  (** hamt_go: keys made of bytes, tables from such keys to any value. *)
  BytesKey : Type;
  BytesKey_eq_dec :: EqDecision BytesKey;
  HAMT : Type -> Type;
  ha_MAX_W : Z;
  ha_NewBytesKey : option bytes -> BytesKey * option exterr;
  ha_NewHAMT : forall {V}, Z -> Z -> HAMT V + exterr;
  ha_Find : forall {V}, HAMT V -> BytesKey -> option V * option exterr;
  ha_Insert : forall {V}, HAMT V -> BytesKey -> V -> HAMT V * option exterr;

  (** xlCrypto_go/filters: the Bloom filter over identifiers, in memory or
      mapped onto a file. *)
  BloomSHA : Type;
  xf_NewBloomSHA : Z -> Z -> BloomSHA + exterr;
  xf_NewMappedBloomSHA : Z -> Z -> gostring -> BloomSHA + exterr;
  xf_IsMember : BloomSHA -> bytes -> bool * option exterr;
  xf_Insert : BloomSHA -> bytes -> BloomSHA * option exterr;
  xf_Size : BloomSHA -> Z;

  (** xlCrypto_go: serialized RSA keys, reading lines. *)
  xc_RSAPubKeyFromWire : option bytes -> PublicKey + exterr;
  xc_RSAPubKeyToWire : option PublicKey -> bytes + exterr;
  xc_RSAPubKeyToDisk : option PublicKey -> bytes * option exterr;
  xc_RSAPubKeyFromDisk : bytes -> PublicKey + exterr;
  xc_RSAPrivateKeyToDisk : option PrivateKey -> bytes * option exterr;
  xc_NextNBLine : list gostring -> gostring * option exterr * list gostring;

  (** xlTransport_go: end points and acceptors. *)
  EndPointI : Type;
  xt_NewTcpEndPoint : gostring -> EndPointI + exterr;
  xt_EndPoint_String : EndPointI -> gostring;
  AcceptorI : Type;
  ConnectorI : Type;
  xt_NewTcpConnector : EndPointI -> ConnectorI + exterr;
  xt_Connector_String : ConnectorI -> gostring;

  (** xlNode_go: base nodes and nodes. *)
  BaseNode : Type;
  xn_NewBaseNode : gostring -> option NodeID -> option PublicKey -> option PublicKey ->
    BaseNode + exterr;
  xn_GetName : BaseNode -> gostring;
  xn_GetNodeID : BaseNode -> option NodeID;
  xn_GetCommsPublicKey : BaseNode -> option PublicKey;
  xn_GetSigPublicKey : BaseNode -> option PublicKey;
  xn_Equal : BaseNode -> BaseNode -> bool;
  xn_Strings : BaseNode -> list gostring;
  xn_ParseBNFromStrings : list gostring -> gostring ->
    option BaseNode * list gostring * option exterr;
  Node : Type;
  xn_Node_Base : Node -> BaseNode;
  xn_Node_GetLFS : Node -> gostring;
  xn_Node_GetAcceptor : Node -> Z -> option AcceptorI;
  xn_Node_OpenAcc : Node -> Node * option exterr;
  xn_Node_Strings : Node -> list gostring;
  xn_ParseFromStrings : list gostring -> option Node * list gostring * option exterr;
  xn_ExpectRSAPrivateKey : list gostring ->
    option PrivateKey * list gostring * option exterr;
  xn_Node_AddEndPoint : Node -> EndPointI -> Node * option exterr;
  xn_Node_SizeEndPoints : Node -> Z;
  xn_Node_GetEndPoint : Node -> Z -> option EndPointI;
  xn_Node_GetCommsPrivateKey : Node -> option PrivateKey;
  xn_Node_GetSigPrivateKey : Node -> option PrivateKey;
  xn_Node_String : Node -> gostring;
  Peer : Type;
  xn_NewPeer : gostring -> option NodeID -> option PublicKey -> option PublicKey ->
    list ConnectorI -> Peer + exterr;
  xn_Peer_Base : Peer -> BaseNode;
  xn_Peer_SizeConnectors : Peer -> Z;
  xn_Peer_GetConnector : Peer -> Z -> option ConnectorI;
  xn_Node_AddPeer : Node -> Peer -> Node * option exterr;

  (** xlCluster_go: the attributes of a member. *)
  xcl_ATTR_ADMIN : Z;
  xcl_ATTR_SOLO : Z;
  xcl_ATTR_EPHEMERAL : Z;

  (** xlUtil_go: decimal versions, 64-bit bitmaps, powers of two. *)
  DecimalVersion : Type;
  xu_ParseDecimalVersion : gostring -> DecimalVersion + exterr;
  xu_DecimalVersion_String : DecimalVersion -> gostring;
  xu_DecimalVersion_u32 : DecimalVersion -> Z;
  BitMap64 : Type;
  xu_NewBitMap64 : Z -> BitMap64;
  xu_LowNMap : Z -> BitMap64;
  xu_Bits : BitMap64 -> Z;
  xu_Intersection : BitMap64 -> BitMap64 -> BitMap64;
  xu_Test : BitMap64 -> Z -> bool;
  xu_Set : BitMap64 -> Z -> BitMap64;
  xu_Clear : BitMap64 -> Z -> BitMap64;
  xu_Any : BitMap64 -> bool;
  xu_None : BitMap64 -> bool;
  xm_NextExp2_32 : Z -> Z;
  xm_AcceptorNotLive : exterr;

  (** golang/protobuf. *)
  proto_Marshal : XLRegMsg -> bytes + exterr;
  proto_Unmarshal : bytes -> XLRegMsg * option exterr;

  (** xlProtocol_go/aes_cnx: sessions.  The functions that draw randomness take
      what they draw as an argument. *)
  AesSession : Type;
  Randomness : Type;
  xn_NewNew : gostring -> option NodeID -> gostring -> Randomness -> Node + exterr;
  xn_New : gostring -> option NodeID -> gostring -> option PrivateKey -> option PrivateKey ->
    list EndPointI -> Node + exterr;
  xa_zero : AesSession;
  xa_NilConnection : exterr;
  xa_Encrypt : AesSession -> bytes -> Randomness -> bytes + exterr;
  xa_Decrypt : AesSession -> option bytes -> bytes + exterr;
  xa_ServerDecryptHello : option bytes -> option PrivateKey ->
    (AesSession * Z) + exterr;
  xa_ServerEncryptHelloReply : AesSession -> Z -> Randomness ->
    (AesSession * bytes) + exterr;
  xa_ClientEncryptHello : Z -> option PublicKey -> Randomness -> (AesSession * bytes) + exterr;
  xa_ClientDecryptHelloReply : AesSession -> option bytes -> (AesSession * Z) + exterr;
}.

(** What [xi.New(nil)] returns each time it is called: a fresh random
    identifier, or an error. *)
Abbreviation draw := (option NodeID * option exterr)%type.

(** [xi.New(id)] for a slice that may be [nil]: [nil] consumes a draw. *)
Definition xi_New_opt `{Ext} (id : option bytes) (ds : list draw) : outcome (draw * list draw) :=
  match id with
  | Some b => Done (xi_New b, ds)
  | None => match ds with d :: ds' => Done (d, ds') | [] => Starved end
  end.

(** ** Laws *)

(** Identifiers: the value of an identifier made from bytes is those bytes, and
    the value of any identifier makes an identifier. *)
Class NodeIDLaws `{Ext} : Prop := {
  xi_New_Value b r : xi_New b = (r, None) -> exists n, r = Some n /\ xi_Value n = b;
  xi_New_total n : exists n', xi_New (xi_Value n) = (Some n', None);
  xi_String_hex n : xi_String n = EncodeToString (xi_Value n)
}.

(** Tables: a new table is empty; a successful insertion sets exactly one key; a
    failed insertion sets none; keys distinguish byte slices. *)
Class HamtLaws `{Ext} : Prop := {
  ha_Find_new V w t (m : HAMT V) k : ha_NewHAMT w t = inl m -> ha_Find m k = (None, None);
  ha_Find_insert V (m m' : HAMT V) k v :
    ha_Insert m k v = (m', None) -> ha_Find m' k = (Some v, None);
  ha_Find_insert_ne V (m m' : HAMT V) k k' v :
    ha_Insert m k v = (m', None) -> k <> k' -> ha_Find m' k' = ha_Find m k';
  ha_Find_insert_err V (m m' : HAMT V) k k' v e :
    ha_Insert m k v = (m', Some e) -> ha_Find m' k' = ha_Find m k';
  ha_NewBytesKey_inj b b' k :
    ha_NewBytesKey (Some b) = (k, None) -> ha_NewBytesKey (Some b') = (k, None) -> b = b'
}.

(** The Bloom filter: what was inserted is a member, and stays one. *)
Class BloomLaws `{Ext} : Prop := {
  xf_IsMember_insert f b f' : xf_Insert f b = (f', None) -> xf_IsMember f' b = (true, None);
  xf_IsMember_mono f b f' e b' :
    xf_Insert f b = (f', e) -> xf_IsMember f b' = (true, None) -> xf_IsMember f' b' = (true, None)
}.

(** Base nodes: a node has the properties it was made with, and parsing one does
    not add lines. *)
Class BaseNodeLaws `{Ext} : Prop := {
  xn_ParseBN_consumes ss what bn rest err :
    xn_ParseBNFromStrings ss what = (bn, rest, err) -> (length rest <= length ss)%nat;
  xn_NewBaseNode_fields name id ck sk bn :
    xn_NewBaseNode name id ck sk = inl bn ->
    xn_GetName bn = name /\ xn_GetNodeID bn = id /\
    xn_GetCommsPublicKey bn = ck /\ xn_GetSigPublicKey bn = sk
}.

(** Nodes: a node made with an identifier and private keys has them, the public
    halves of the keys, its name and its local file system; opening its acceptors
    changes none of these. *)
Class NodeLaws `{Ext} : Prop := {
  xn_New_fields name id lfs ck sk ends n :
    xn_New name (Some id) lfs (Some ck) (Some sk) ends = inl n ->
    xn_GetName (xn_Node_Base n) = name /\ xn_GetNodeID (xn_Node_Base n) = Some id /\
    xn_GetCommsPublicKey (xn_Node_Base n) = Some (key_pub ck) /\
    xn_GetSigPublicKey (xn_Node_Base n) = Some (key_pub sk) /\ xn_Node_GetLFS n = lfs;
  xn_OpenAcc_fields n n' e : xn_Node_OpenAcc n = (n', e) ->
    xn_Node_Base n' = xn_Node_Base n /\ xn_Node_GetLFS n' = xn_Node_GetLFS n
}.

(** Peers: a peer has the properties and the connectors it was made with. *)
Class PeerLaws `{Ext} : Prop := {
  xn_NewPeer_fields name id ck sk cs p : xn_NewPeer name id ck sk cs = inl p ->
    xn_GetName (xn_Peer_Base p) = name /\ xn_GetNodeID (xn_Peer_Base p) = id /\
    xn_GetCommsPublicKey (xn_Peer_Base p) = ck /\ xn_GetSigPublicKey (xn_Peer_Base p) = sk /\
    xn_Peer_SizeConnectors p = Z.of_nat (length cs) /\
    forall i, xn_Peer_GetConnector p i = if i <? 0 then None else cs !! Z.to_nat i
}.

(** Messages: what was marshalled from fields within their widths unmarshals to
    the same message, and what was encrypted in a session decrypts in it. *)
Class CodecLaws `{Ext} : Prop := {
  proto_Unmarshal_Marshal m b : msg_ok m -> proto_Marshal m = inl b -> proto_Unmarshal b = (m, None);
  xa_Decrypt_Encrypt s b r ct : xa_Encrypt s b r = inl ct -> xa_Decrypt s (Some ct) = inl b
}.

(** What is encrypted in the session [s'] decrypts in [s]. *)
Definition decrypts `{Ext} (s s' : AesSession) : Prop :=
  forall b r ct, xa_Encrypt s' b r = inl ct -> xa_Decrypt s (Some ct) = inl b.

(** The hello: encrypted with the public half of the server's key, it is understood
    by the server, and after the reply both sides have sessions in which each
    understands the other, and the version that the server replied. *)
Class HelloLaws `{Ext} : Prop := {
  xa_hello v priv r s1 ct : is_u32 v -> good_key priv ->
    xa_ClientEncryptHello v (Some (key_pub priv)) r = inl (s1, ct) ->
    exists s1', xa_ServerDecryptHello (Some ct) (Some priv) = inl (s1', v) /\
      forall v2 r2 s2' out, is_u32 v2 -> xa_ServerEncryptHelloReply s1' v2 r2 = inl (s2', out) ->
        exists s2, xa_ClientDecryptHelloReply s1 (Some out) = inl (s2, v2) /\
          decrypts s2 s2' /\ decrypts s2' s2
}.

(** Keys on the wire read back as they were. *)
Class WireLaws `{Ext} : Prop := {
  xc_FromWire_ToWire k b : xc_RSAPubKeyToWire (Some k) = inl b ->
    xc_RSAPubKeyFromWire (Some b) = inl k
}.

(** [NextNBLine] drops lines that are blank and returns the next other line
    trimmed; it fails when there is none. *)
Class LineLaws `{Ext} : Prop := {
  xc_NextNBLine_line l ls : TrimSpace l <> [] -> xc_NextNBLine (l :: ls) = (TrimSpace l, None, ls);
  xc_NextNBLine_blank l ls : TrimSpace l = [] -> xc_NextNBLine (l :: ls) = xc_NextNBLine ls;
  xc_NextNBLine_nil : exists l e, xc_NextNBLine [] = (l, Some e, [])
}.

(** Bitmaps are sets of the numbers below 64, held in a 64-bit word. *)
Class BitMapLaws `{Ext} : Prop := {
  xu_Bits_u64 m : is_u64 (xu_Bits m);
  xu_NewBitMap64_bits b : is_u64 b -> xu_Bits (xu_NewBitMap64 b) = b;
  xu_LowNMap_bits n i : 0 <= n <= 64 -> 0 <= i -> Z.testbit (xu_Bits (xu_LowNMap n)) i = (i <? n);
  xu_Intersection_bits a b :
    xu_Bits (xu_Intersection a b) = Z.land (xu_Bits a) (xu_Bits b);
  xu_Test_bits m i : 0 <= i < 64 -> xu_Test m i = Z.testbit (xu_Bits m) i;
  xu_Set_bits m i : 0 <= i < 64 -> xu_Bits (xu_Set m i) = Z.setbit (xu_Bits m) i;
  xu_Clear_bits m i : 0 <= i < 64 -> xu_Bits (xu_Clear m i) = Z.clearbit (xu_Bits m) i;
  xu_Any_bits m : xu_Any m = negb (xu_Bits m =? 0);
  xu_None_bits m : xu_None m = (xu_Bits m =? 0)
}.

(** A base node printed inside another object, at any indentation, is read back
    by [ParseBNFromStrings], which consumes exactly its lines.  [printable] are
    the base nodes whose properties can be printed on a line. *)
Class BaseNodePrintLaws `{Ext} : Type := {
  bn_printable : BaseNode -> Prop;
  xn_Strings_not_blank bn : bn_printable bn -> Forall (fun l => TrimSpace l <> []) (xn_Strings bn);
  xn_Strings_no_nl bn : bn_printable bn -> Forall (fun l => nl ∉ l) (xn_Strings bn);
  xn_Parse_Strings bn what ls rest :
    bn_printable bn ->
    TrimSpace <$> ls = (what ++ str " {") :: (TrimSpace <$> xn_Strings bn) ->
    xn_ParseBNFromStrings (ls ++ rest) what = (Some bn, rest, None)
}.

(** A node printed inside another object is read back by [ParseFromStrings],
    which consumes exactly its lines; a private key prints as an opening line
    and a body, and [ExpectRSAPrivateKey], given what follows the opening line,
    reads the body back, up to blank lines. *)
Class NodePrintLaws `{Ext} : Type := {
  node_printable : Node -> Prop;
  priv_printable : PrivateKey -> Prop;
  xn_Node_Strings_no_nl n : node_printable n -> Forall (fun l => nl ∉ l) (xn_Node_Strings n);
  xn_Parse_Node_Strings n ls rest :
    node_printable n -> TrimSpace <$> ls = TrimSpace <$> xn_Node_Strings n ->
    xn_ParseFromStrings (ls ++ rest) = (Some n, rest, None);
  xc_PrivateKey_disk k : priv_printable k -> exists body blanks,
    xc_RSAPrivateKeyToDisk (Some k) = (Join (str "-----BEGIN -----" :: body) [nl], None) /\
    Forall (fun l => nl ∉ l) body /\ Forall (fun l => TrimSpace l = []) blanks /\
    forall rest, xn_ExpectRSAPrivateKey (body ++ rest) = (Some k, blanks ++ rest, None)
}.
