(* ===== verification/ExtModel.v ===== *)
(** * A concrete instance of the external packages

    Small executable stand-ins for the packages of [Ext]: association lists for
    the tables, a list of members for the Bloom filter, plain text and
    big-endian numbers for the serialized forms.  They satisfy the laws of
    [Ext], which shows that the laws are consistent, and they are what the
    witnesses of the theorems are evaluated with. *)
From Stdlib Require Import Btauto.
From S2P Require Import Prelude GoStd GoCrypto Errors Proto Ext.

Module Concrete.

Definition assoc_find {V} (m : list (option bytes * V)) (k : option bytes) : option V :=
  snd <$> List.find (fun kv => bool_decide (kv.1 = k)) m.

Definition pub_to_wire (k : option PublicKey) : bytes + exterr :=
  match k with
  | Some (mkPublicKey N E) =>
    if (0 <=? N) && (0 <=? E) && (E <? 2 ^ 64)
    then inl (be_bytes 8 E ++ be_bytes (Z.to_nat (Z.log2 N / 8 + 1)) N)
    else inr (XErr "bad key")
  | None => inr (XErr "nil key")
  end.

Definition pub_from_wire (b : option bytes) : PublicKey + exterr :=
  match b with
  | Some b => inl (mkPublicKey (be_val (drop 8 b)) (be_val (take 8 b)))
  | None => inr (XErr "nil key bytes")
  end.

Fixpoint next_line (ls : list gostring) : gostring * option exterr * list gostring :=
  match ls with
  | [] => ([], Some (XErr "exhausted string array"), [])
  | l :: ls' => if bool_decide (TrimSpace l = []) then next_line ls' else (TrimSpace l, None, ls')
  end.

(** A base node: name, identifier and two keys. *)
Record base_node := mkBase {
  b_name : gostring; b_id : option bytes; b_ck : option PublicKey; b_sk : option PublicKey
}.

#[global] Instance base_node_eq_dec : EqDecision base_node.
Proof. solve_decision. Defined.

Definition pub_hex (k : option PublicKey) : gostring :=
  match pub_to_wire k with inl b => EncodeToString b | inr _ => [] end.

Definition base_lines (b : base_node) : list gostring :=
  [str "name: " ++ b_name b; str "nodeID: " ++ EncodeToString (default [] (b_id b));
   str "commsPubKey: " ++ pub_hex (b_ck b); str "sigPubKey: " ++ pub_hex (b_sk b)].

Definition read_field (key line : gostring) : option gostring :=
  if HasPrefix (TrimSpace line) key then Some (drop (length key) (TrimSpace line)) else None.
Definition read_hex (key line : gostring) : option bytes :=
  match read_field key line with
  | Some s => match DecodeString s with inl b => Some b | inr _ => None end
  | None => None
  end.
Definition read_key (key line : gostring) : option PublicKey :=
  match read_hex key line with
  | Some b => match pub_from_wire (Some b) with inl k => Some k | inr _ => None end
  | None => None
  end.

Definition parse_base (ss : list gostring) (what : gostring) :
    option base_node * list gostring * option exterr :=
  match ss with
  | l0 :: l1 :: l2 :: l3 :: l4 :: rest =>
    if bool_decide (TrimSpace l0 = what ++ str " {") then
      match read_field (str "name: ") l1, read_hex (str "nodeID: ") l2,
            read_key (str "commsPubKey: ") l3, read_key (str "sigPubKey: ") l4 with
      | Some n, Some i, Some c, Some s => (Some (mkBase n (Some i) (Some c) (Some s)), rest, None)
      | _, _, _, _ => (None, rest, Some (XErr "ill-formed node"))
      end
    else (None, ss, Some (XErr "not what was expected"))
  | _ => (None, ss, Some (XErr "exhausted string array"))
  end.

Record node := mkNode { n_base : base_node; n_lfs : gostring; n_acc : list gostring;
  n_ends : list gostring; n_ckPriv : option PrivateKey; n_skPriv : option PrivateKey }.

(** A private key: an opening line, three decimal numbers, a closing line and an
    empty one. *)
Definition priv_body (k : PrivateKey) : list gostring :=
  [Sprint_d (key_N (key_pub k)); Sprint_d (key_E (key_pub k)); Sprint_d (key_D k);
   str "-----END -----"; []].
Definition priv_to_disk (k : option PrivateKey) : bytes * option exterr :=
  match k with
  | Some k => (Join (str "-----BEGIN -----" :: priv_body k) [nl], None)
  | None => ([], Some (XErr "nil key"))
  end.
Definition expect_priv (ss : list gostring) : option PrivateKey * list gostring * option exterr :=
  match ss with
  | l1 :: l2 :: l3 :: l4 :: rest =>
    match Atoi l1, Atoi l2, Atoi l3 with
    | inl N, inl E, inl D => (Some (mkPrivateKey (mkPublicKey N E) D), rest, None)
    | _, _, _ => (None, rest, Some (XErr "ill-formed key"))
    end
  | _ => (None, ss, Some (XErr "exhausted string array"))
  end.

(** A peer: a base node and connectors. *)
Record peer := mkPeer { p_base : base_node; p_ctors : list gostring }.

(** Messages as trees of fields, trees as bits, one byte each.  A single byte is
    also read, as the message of that operation without fields. *)
Notation tree := (gen_tree (list ascii + Z)).

Definition bytes_tree (b : bytes) : tree := GenLeaf (inl b).
Definition num_tree (z : Z) : tree := GenLeaf (inr z).
Definition opt_tree {A} (f : A -> tree) (o : option A) : tree :=
  match o with Some a => GenNode 1 [f a] | None => GenNode 0 [] end.
Definition list_tree {A} (f : A -> tree) (l : list A) : tree := GenNode 2 (f <$> l).

Definition tree_bytes (t : tree) : option bytes :=
  match t with GenLeaf (inl b) => Some b | _ => None end.
Definition tree_num (t : tree) : option Z :=
  match t with GenLeaf (inr z) => Some z | _ => None end.
Definition tree_opt {A} (f : tree -> option A) (t : tree) : option (option A) :=
  match t with GenNode 0 [] => Some None | GenNode 1 [t'] => Some <$> f t' | _ => None end.
Definition tree_list {A} (f : tree -> option A) (t : tree) : option (list A) :=
  match t with GenNode 2 ts => mapM f ts | _ => None end.

Lemma tree_bytes_tree b : tree_bytes (bytes_tree b) = Some b.
Proof. reflexivity. Qed.
Lemma tree_num_tree z : tree_num (num_tree z) = Some z.
Proof. reflexivity. Qed.
Lemma tree_opt_tree {A} (f : A -> tree) g o : (forall a, g (f a) = Some a) ->
  tree_opt g (opt_tree f o) = Some o.
Proof. intros Hfg. destruct o; simpl; [by rewrite Hfg|done]. Qed.
Lemma tree_list_tree {A} (f : A -> tree) g l : (forall a, g (f a) = Some a) ->
  tree_list g (list_tree f l) = Some l.
Proof.
  intros Hfg. unfold tree_list, list_tree. apply mapM_Some_2.
  induction l; constructor; auto.
Qed.

Definition token_tree (t : XLRegMsg_Token) : tree := GenNode 3 [
  opt_tree bytes_tree (tok_Name t); opt_tree num_tree (tok_Attrs t); opt_tree bytes_tree (tok_ID t);
  opt_tree bytes_tree (tok_CommsKey t); opt_tree bytes_tree (tok_SigKey t);
  opt_tree (list_tree bytes_tree) (tok_MyEnds t); opt_tree bytes_tree (tok_DigSig t)].
Definition tree_token (t : tree) : option XLRegMsg_Token :=
  match t with
  | GenNode 3 [a; b; c; d; e; f; g] =>
    a ← tree_opt tree_bytes a; b ← tree_opt tree_num b; c ← tree_opt tree_bytes c;
    d ← tree_opt tree_bytes d; e ← tree_opt tree_bytes e;
    f ← tree_opt (tree_list tree_bytes) f; g ← tree_opt tree_bytes g;
    Some (mkToken a b c d e f g)
  | _ => None
  end.
Lemma tree_token_tree t : tree_token (token_tree t) = Some t.
Proof.
  unfold token_tree, tree_token. repeat (rewrite tree_opt_tree; cbn [mbind option_bind];
    [|done || (intros; by apply tree_list_tree)]). by destruct t.
Qed.

Definition msg_tree (m : XLRegMsg) : tree := GenNode 4 [
  opt_tree num_tree (msg_Op m); opt_tree bytes_tree (msg_AesKey m); opt_tree bytes_tree (msg_Salt1 m);
  opt_tree bytes_tree (msg_Salt2 m); opt_tree num_tree (msg_Version m);
  opt_tree bytes_tree (msg_MemberName m); opt_tree bytes_tree (msg_MemberID m);
  opt_tree num_tree (msg_MemberAttrs m); opt_tree token_tree (msg_MemberSpecs m);
  opt_tree bytes_tree (msg_ClusterID m); opt_tree bytes_tree (msg_ClusterName m);
  opt_tree num_tree (msg_ClusterMaxSize m); opt_tree num_tree (msg_ClusterAttrs m);
  opt_tree num_tree (msg_EndPointCount m); opt_tree num_tree (msg_Which m);
  opt_tree (list_tree (opt_tree token_tree)) (msg_Tokens m); opt_tree bytes_tree (msg_DigSig m);
  opt_tree bytes_tree (msg_ErrDesc m)].
Definition tree_msg (t : tree) : option XLRegMsg :=
  match t with
  | GenNode 4 [a; b; c; d; e; f; g; h; i; j; k; l; m; n; o; p; q; r] =>
    a ← tree_opt tree_num a; b ← tree_opt tree_bytes b; c ← tree_opt tree_bytes c;
    d ← tree_opt tree_bytes d; e ← tree_opt tree_num e; f ← tree_opt tree_bytes f;
    g ← tree_opt tree_bytes g; h ← tree_opt tree_num h; i ← tree_opt tree_token i;
    j ← tree_opt tree_bytes j; k ← tree_opt tree_bytes k; l ← tree_opt tree_num l;
    m ← tree_opt tree_num m; n ← tree_opt tree_num n; o ← tree_opt tree_num o;
    p ← tree_opt (tree_list (tree_opt tree_token)) p; q ← tree_opt tree_bytes q;
    r ← tree_opt tree_bytes r;
    Some (mkMsg a b c d e f g h i j k l m n o p q r)
  | _ => None
  end.
Lemma tree_msg_tree m : tree_msg (msg_tree m) = Some m.
Proof.
  unfold msg_tree, tree_msg.
  repeat (rewrite tree_opt_tree; cbn [mbind option_bind];
    [|done || apply tree_token_tree
      || (intros; apply tree_list_tree; intros; apply tree_opt_tree, tree_token_tree)]).
  by destruct m.
Qed.

Fixpoint pos_bits (p : positive) : bytes :=
  match p with
  | xH => []
  | xO p' => "0"%char :: pos_bits p'
  | xI p' => "1"%char :: pos_bits p'
  end.
Fixpoint bits_pos (b : bytes) : positive :=
  match b with
  | [] => xH
  | c :: b' => if bool_decide (c = "0"%char) then xO (bits_pos b') else xI (bits_pos b')
  end.
Lemma bits_pos_bits p : bits_pos (pos_bits p) = p.
Proof. by induction p as [p IH|p IH|]; simpl; rewrite ?IH. Qed.

(** The lines of a node: its base node, and the rest in one line of bits. *)
Definition priv_nums (k : PrivateKey) : Z * Z * Z := (key_N (key_pub k), key_E (key_pub k), key_D k).
Definition nums_priv (z : Z * Z * Z) : PrivateKey := mkPrivateKey (mkPublicKey z.1.1 z.1.2) z.2.
Definition node_rest (n : node) : bytes := pos_bits (encode (n_lfs n, n_acc n, n_ends n,
  priv_nums <$> n_ckPriv n, priv_nums <$> n_skPriv n)).
Definition rest_node (b : base_node) (bits : bytes) : option node :=
  '(lfs, acc, ends, ck, sk) ← decode (bits_pos bits);
  Some (mkNode b lfs acc ends (nums_priv <$> ck) (nums_priv <$> sk)).
Definition node_lines (n : node) : list gostring :=
  str "node {" :: base_lines (n_base n) ++ [str "rest: b" ++ node_rest n].
Definition parse_node (ss : list gostring) : option node * list gostring * option exterr :=
  match parse_base ss (str "node") with
  | (Some b, l :: rest, None) =>
    match read_field (str "rest: b") l ≫= rest_node b with
    | Some n => (Some n, rest, None)
    | None => (None, rest, Some (XErr "ill-formed node"))
    end
  | (Some _, [], None) => (None, [], Some (XErr "exhausted string array"))
  | (_, rest, e) => (None, rest, e)
  end.
Lemma rest_node_rest n : rest_node (n_base n) (node_rest n) = Some n.
Proof.
  unfold rest_node, node_rest. rewrite bits_pos_bits, decode_encode. destruct n as [b l a e ck sk].
  by destruct ck as [[[]]|], sk as [[[]]|].
Qed.
Lemma pos_bits_solid p : Forall (fun c => solid c = true) (pos_bits p).
Proof. induction p; simpl; by constructor. Qed.

Definition marshal (m : XLRegMsg) : bytes := "m"%char :: "m"%char :: pos_bits (encode (msg_tree m)).
Definition unmarshal (b : bytes) : XLRegMsg * option exterr :=
  match b with
  | [c] => (msg_of_op (byte_val c), None)
  | _ :: _ :: bits =>
    match decode (bits_pos bits) ≫= tree_msg with
    | Some m => (m, None)
    | None => (XLRegMsg_zero, Some (XErr "proto: bad wire type"))
    end
  | [] => (XLRegMsg_zero, Some (XErr "proto: bad wire type"))
  end.
Lemma unmarshal_marshal m : unmarshal (marshal m) = (m, None).
Proof.
  unfold unmarshal, marshal. cbv iota beta.
  destruct (pos_bits _) as [|c l] eqn:E; rewrite <-E, bits_pos_bits, decode_encode; cbn [mbind option_bind];
    by rewrite tree_msg_tree.
Qed.

End Concrete.
Import Concrete.

#[local] Instance ext_model : Ext := {
  NodeID := list ascii;
  xi_New b := (Some b, None);
  xi_Value n := n;
  xi_String n := EncodeToString n;
  BytesKey := option (list ascii);
  BytesKey_eq_dec := _;
  HAMT V := list (option bytes * V);
  ha_MAX_W := 6;
  ha_NewBytesKey k :=
    match k with Some b => (Some b, None) | None => (None, Some (XErr "nil key")) end;
  ha_NewHAMT V w t := inl [];
  ha_Find V m k := (assoc_find m k, None);
  ha_Insert V m k v := ((k, v) :: m, None);
  BloomSHA := list (list ascii);
  xf_NewBloomSHA m k := if m <? 2 then inr (XErr "m out of range") else inl [];
  xf_NewMappedBloomSHA m k f :=
    if m <? 2 then inr (XErr "m out of range")
    else inl (if bool_decide (f = str "/used/idFilter.dat") then [str "0123456789abcdefghij"] else []);
  xf_IsMember f b := (bool_decide (b ∈ f), None);
  xf_Insert f b := (b :: f, None);
  xf_Size f := Z.of_nat (length f);
  xc_RSAPubKeyFromWire := pub_from_wire;
  xc_RSAPubKeyToWire := pub_to_wire;
  xc_RSAPubKeyToDisk k := (pub_hex k, None);
  xc_RSAPubKeyFromDisk b :=
    match DecodeString b with inl w => pub_from_wire (Some w) | inr e => inr e end;
  xc_RSAPrivateKeyToDisk := priv_to_disk;
  xc_NextNBLine := next_line;
  EndPointI := list ascii;
  xt_NewTcpEndPoint s := match s with [] => inr (XErr "empty end point") | _ => inl s end;
  xt_EndPoint_String e := str "TcpEndPoint: " ++ e;
  AcceptorI := list ascii;
  ConnectorI := list ascii;
  xt_NewTcpConnector e := inl e;
  xt_Connector_String c := str "TcpConnector: " ++ c;
  BaseNode := base_node;
  xn_NewBaseNode name id ck sk :=
    match name with [] => inr (XErr "missing node name") | _ => inl (mkBase name id ck sk) end;
  xn_GetName := b_name;
  xn_GetNodeID := b_id;
  xn_GetCommsPublicKey := b_ck;
  xn_GetSigPublicKey := b_sk;
  xn_Equal a b := bool_decide (a = b);
  xn_Strings := base_lines;
  xn_ParseBNFromStrings := parse_base;
  Node := node;
  xn_Node_Base := n_base;
  xn_Node_GetLFS := n_lfs;
  xn_Node_GetAcceptor n i := n_acc n !! Z.to_nat i;
  xn_Node_OpenAcc n := (n, None);
  xn_Node_Strings := node_lines;
  xn_ParseFromStrings := parse_node;
  xn_ExpectRSAPrivateKey := expect_priv;
  xn_Node_AddEndPoint n e :=
    (mkNode (n_base n) (n_lfs n) (n_acc n) (n_ends n ++ [e]) (n_ckPriv n) (n_skPriv n), None);
  xn_Node_SizeEndPoints n := Z.of_nat (length (n_ends n));
  xn_Node_GetEndPoint n i := if i <? 0 then None else n_ends n !! Z.to_nat i;
  xn_Node_GetCommsPrivateKey := n_ckPriv;
  xn_Node_GetSigPrivateKey := n_skPriv;
  xn_Node_String n := Join (node_lines n) [nl];
  Peer := peer;
  xn_NewPeer name id ck sk cs :=
    match name with [] => inr (XErr "missing node name") | _ => inl (mkPeer (mkBase name id ck sk) cs) end;
  xn_Peer_Base := p_base;
  xn_Peer_SizeConnectors p := Z.of_nat (length (p_ctors p));
  xn_Peer_GetConnector p i := if i <? 0 then None else p_ctors p !! Z.to_nat i;
  xn_Node_AddPeer n p := (n, None);
  xcl_ATTR_ADMIN := 1;
  xcl_ATTR_SOLO := 2;
  xcl_ATTR_EPHEMERAL := 4;
  DecimalVersion := list ascii;
  xu_ParseDecimalVersion s := match s with [] => inr (XErr "empty version") | _ => inl s end;
  xu_DecimalVersion_String v := v;
  xu_DecimalVersion_u32 v := Z.of_nat (length v);
  BitMap64 := Z;
  xu_NewBitMap64 b := b;
  xu_LowNMap n := Z.ones n;
  xu_Bits := u64;
  xu_Intersection := Z.land;
  xu_Test := Z.testbit;
  xu_Set := Z.setbit;
  xu_Clear := Z.clearbit;
  xu_Any m := negb (u64 m =? 0);
  xu_None m := u64 m =? 0;
  xm_NextExp2_32 n := Z.log2_up n;
  xm_AcceptorNotLive := XErr "acceptor not live";
  proto_Marshal m := inl (marshal m);
  proto_Unmarshal := unmarshal;
  AesSession := unit;
  Randomness := unit;
  xn_NewNew name id lfs r := inr (XErr "no key generator");
  xn_New name id lfs ck sk ends :=
    inl (mkNode (mkBase name id (key_pub <$> ck) (key_pub <$> sk)) lfs ends ends ck sk);
  xa_zero := tt;
  xa_NilConnection := XErr "nil connection";
  xa_Encrypt s b r := inl b;
  xa_Decrypt s b := match b with Some c => inl c | None => inr (XErr "empty ciphertext") end;
  xa_ServerDecryptHello b k :=
    match b with Some b => inl (tt, be_val (drop 1 b)) | None => inr (XErr "empty hello") end;
  xa_ServerEncryptHelloReply s v r := if v =? 0 then inr (XErr "no version") else inl (tt, be_bytes 4 v);
  xa_ClientEncryptHello v k r :=
    match k with Some _ => inl (tt, "h"%char :: be_bytes 4 v) | None => inr (XErr "nil key") end;
  xa_ClientDecryptHelloReply s b :=
    match b with Some c => inl (tt, be_val c) | None => inr (XErr "empty reply") end;
}.

(** ** The laws hold *)

#[local] Instance nodeid_model : NodeIDLaws.
Proof.
  constructor.
  - intros b r [= <-]. by exists b.
  - intros n. by exists n.
  - done.
Qed.

Lemma assoc_find_cons {V} k v (m : list (option bytes * V)) k' :
  assoc_find ((k, v) :: m) k' = if bool_decide (k = k') then Some v else assoc_find m k'.
Proof. unfold assoc_find. simpl. by case_bool_decide. Qed.

#[local] Instance hamt_model : HamtLaws.
Proof.
  constructor; simpl; intros; simplify_eq/=; try done; try rewrite assoc_find_cons.
  - by rewrite bool_decide_eq_true_2.
  - by rewrite bool_decide_eq_false_2.
Qed.

#[local] Instance bloom_model : BloomLaws.
Proof.
  constructor; simpl.
  - intros f b f' [= <-]. rewrite bool_decide_eq_true_2; [done|]. by left.
  - intros f b f' e b' [= <- _] [= Hb%bool_decide_eq_true_1].
    rewrite bool_decide_eq_true_2; [done|]. by right.
Qed.

#[local] Instance base_node_model : BaseNodeLaws.
Proof.
  constructor; simpl.
  - intros ss what bn rest err. unfold parse_base.
    intros E. repeat (case_match; simplify_eq/=; try lia).
  - intros [|a n] id ck sk bn Hbn; by simplify_eq/=.
Qed.

Lemma wire_length_bound N : 0 <= N -> 0 <= N < 256 ^ Z.of_nat (Z.to_nat (Z.log2 N / 8 + 1)).
Proof.
  intros HN. split; [done|]. destruct (Z.eq_dec N 0) as [->|Hne]; [done|].
  pose proof (Z.log2_nonneg N). pose proof (Z.log2_spec N ltac:(lia)) as [_ Hlt].
  pose proof (Z.div_mod (Z.log2 N) 8). pose proof (Z.mod_pos_bound (Z.log2 N) 8).
  rewrite Z2Nat.id by lia. change 256 with (2 ^ 8). rewrite <-Z.pow_mul_r by lia.
  eapply Z.lt_le_trans; [exact Hlt|]. apply Z.pow_le_mono_r; lia.
Qed.

Lemma pub_wire_roundtrip k b : pub_to_wire (Some k) = inl b -> pub_from_wire (Some b) = inl k.
Proof.
  destruct k as [N E]. unfold pub_to_wire, pub_from_wire.
  destruct (_ && _) eqn:C; [|done]. intros Hb.
  assert (b = be_bytes 8 E ++ be_bytes (Z.to_nat (Z.log2 N / 8 + 1)) N) as -> by congruence.
  rewrite (drop_app_length' (be_bytes 8 E)), (take_app_length' (be_bytes 8 E))
    by (by rewrite be_bytes_length).
  rewrite !be_val_bytes, (Z.mod_small N) by (apply wire_length_bound; lia).
  rewrite Z.mod_small; [done|]. change (256 ^ Z.of_nat 8) with (2 ^ 64). lia.
Qed.

#[local] Instance wire_model : WireLaws.
Proof. constructor. exact pub_wire_roundtrip. Qed.

#[local] Instance line_model : LineLaws.
Proof.
  constructor; simpl.
  - intros l ls Hl. by rewrite bool_decide_eq_false_2.
  - intros l ls Hl. by rewrite bool_decide_eq_true_2.
  - by eexists _, _.
Qed.

Lemma u64_land_ones z : u64 z = Z.land z (Z.ones 64).
Proof. unfold u64. by rewrite Z.land_ones. Qed.

Lemma u64_testbit z i : 0 <= i -> Z.testbit (u64 z) i = Z.testbit z i && (i <? 64).
Proof.
  intros Hi. rewrite u64_land_ones, Z.land_spec. f_equal.
  destruct (Z.ltb_spec i 64); [apply Z.ones_spec_low|apply Z.ones_spec_high]; lia.
Qed.

#[local] Instance bitmap_model : BitMapLaws.
Proof.
  constructor; simpl.
  - intros m. apply Z.mod_pos_bound. lia.
  - intros b Hb. by apply Z.mod_small.
  - intros n i Hn Hi. rewrite u64_testbit, Z.testbit_ones_nonneg by lia. lia.
  - intros a b. apply Z.bits_inj'. intros i Hi.
    rewrite u64_testbit, !Z.land_spec, !u64_testbit by done. btauto.
  - intros m i Hi. rewrite u64_testbit by lia. by rewrite (proj2 (Z.ltb_lt i 64)), andb_true_r by lia.
  - intros m i Hi. apply Z.bits_inj'. intros j Hj.
    rewrite u64_testbit, !Z.setbit_eqb, u64_testbit by lia.
    destruct (Z.eqb_spec i j), (Z.testbit m j), (Z.ltb_spec j 64); done || lia.
  - intros m i Hi. apply Z.bits_inj'. intros j Hj.
    rewrite u64_testbit, !Z.clearbit_eqb, u64_testbit by lia. btauto.
  - done.
  - done.
Qed.

#[local] Instance peer_model : PeerLaws.
Proof. constructor. intros [|a n] id ck sk cs p Hp; by simplify_eq/=. Qed.

#[local] Instance codec_model : CodecLaws.
Proof.
  constructor.
  - intros m b _ Hb. assert (b = marshal m) as -> by by injection Hb. apply unmarshal_marshal.
  - intros s b r ct Hc. simpl in *. by simplify_eq.
Qed.

#[local] Instance hello_model : HelloLaws.
Proof.
  constructor. intros v priv r s1 ct Hv _ Hc.
  assert (forall w, is_u32 w -> be_val (be_bytes 4 w) = w) as Hw.
  { intros w Hw. rewrite be_val_bytes, Z.mod_small; [done|]. change (256 ^ Z.of_nat 4) with (2 ^ 32). exact Hw. }
  injection Hc as _ <-. exists tt. split.
  { change (inl (tt, be_val (be_bytes 4 v)) = @inl (unit * Z) exterr (tt, v)). by rewrite Hw. }
  intros v2 r2 s2' out Hv2 Hr. cbv [xa_ServerEncryptHelloReply ext_model] in Hr. destruct (v2 =? 0); [done|].
  assert (out = be_bytes 4 v2) as -> by congruence. exists tt. split.
  { change (inl (tt, be_val (be_bytes 4 v2)) = @inl (unit * Z) exterr (tt, v2)). by rewrite Hw. }
  split; intros b r' ct; simpl; congruence.
Qed.

(** Printable base nodes: a clean name, an identifier and two wire keys. *)
Definition base_printable (b : base_node) : Prop :=
  clean (b_name b) = true /\ nl ∉ b_name b /\
  (exists i, b_id b = Some i /\ i <> []) /\
  (exists k w, b_ck b = Some k /\ pub_to_wire (Some k) = inl w) /\
  (exists k w, b_sk b = Some k /\ pub_to_wire (Some k) = inl w).

Lemma hex_clean b : b <> [] -> clean (EncodeToString b) = true.
Proof.
  intros Hb. apply clean_solid; [|apply EncodeToString_solid].
  intros E. apply (f_equal length) in E. rewrite EncodeToString_length in E.
  destruct b; simpl in E; [done|lia].
Qed.

Lemma hex_no_nl b : nl ∉ EncodeToString b.
Proof. intros Hin. by pose proof (proj1 (Forall_forall _ _) (EncodeToString_solid b) _ Hin). Qed.

Lemma wire_not_nil k w : pub_to_wire k = inl w -> w <> [].
Proof.
  unfold pub_to_wire. destruct k as [[N E]|]; [|done]. destruct (_ && _); [|done].
  intros E' ->. by pose proof (be_bytes_length 8 E).
Qed.

Lemma base_lines_clean b : base_printable b -> Forall (fun l => clean l = true) (base_lines b).
Proof.
  intros (Hn & _ & (i & Hi & Hne) & (ck & w & Hck & Hw) & (sk & v & Hsk & Hv)).
  unfold base_lines, pub_hex. rewrite Hi, Hck, Hsk, Hw, Hv.
  repeat constructor; apply clean_app; try done; apply hex_clean; try done;
    by eapply wire_not_nil.
Qed.

Lemma read_field_trim key s l : clean (key ++ s) = true -> TrimSpace l = key ++ s ->
  read_field key l = Some s.
Proof.
  intros Hc Hl. unfold read_field. rewrite Hl, HasPrefix_app. by rewrite drop_app_length.
Qed.

Lemma read_key_trim key k w l : clean (key ++ EncodeToString w) = true ->
  pub_to_wire (Some k) = inl w -> TrimSpace l = key ++ EncodeToString w ->
  read_key key l = Some k.
Proof.
  intros Hc Hw Hl. unfold read_key, read_hex.
  rewrite (read_field_trim _ _ _ Hc Hl), DecodeString_EncodeToString.
  by rewrite (pub_wire_roundtrip _ _ Hw).
Qed.

Lemma parse_base_lines b what ls rest : base_printable b ->
  TrimSpace <$> ls = (what ++ str " {") :: (TrimSpace <$> base_lines b) ->
  parse_base (ls ++ rest) what = (Some b, rest, None).
Proof.
  intros Hb. pose proof (base_lines_clean b Hb) as Hc.
  destruct Hb as (Hn & _ & (i & Hi & Hne) & (ck & w & Hck & Hw) & (sk & v & Hsk & Hv)).
  destruct b as [n id c s]. cbn [b_name b_id b_ck b_sk] in *. subst.
  unfold base_lines, pub_hex in *. cbn [b_name b_id b_ck b_sk default] in *.
  rewrite Hw, Hv in *.
  destruct (Forall_cons_1 _ _ _ Hc) as [C1 (C2 & (C3 & (C4 & _)%Forall_cons_1)%Forall_cons_1)%Forall_cons_1].
  cbn [fmap list_fmap]. rewrite (TrimSpace_clean _ C1), (TrimSpace_clean _ C2),
    (TrimSpace_clean _ C3), (TrimSpace_clean _ C4).
  intros Hls. destruct ls as [|l0 [|l1 [|l2 [|l3 [|l4 [|? ?]]]]]]; try discriminate Hls.
  injection Hls as E0 E1 E2 E3 E4.
  cbn [app parse_base]. rewrite bool_decide_eq_true_2 by done.
  rewrite (read_field_trim _ _ _ C1 E1).
  unfold read_hex. rewrite (read_field_trim _ _ _ C2 E2), DecodeString_EncodeToString.
  by rewrite (read_key_trim _ _ _ _ C3 Hw E3), (read_key_trim _ _ _ _ C4 Hv E4).
Qed.

#[local] Instance base_print_model : BaseNodePrintLaws.
Proof.
  exists base_printable.
  - intros bn Hb. eapply Forall_impl; [by apply base_lines_clean|].
    intros l Hl. simpl in Hl. rewrite TrimSpace_clean by done. by apply clean_not_nil.
  - intros bn (_ & Hnl & (i & Hi & _) & (ck & w & Hck & Hw) & (sk & v & Hsk & Hv)).
    simpl. unfold base_lines, pub_hex. rewrite Hck, Hsk, Hw, Hv.
    repeat constructor; apply not_elem_of_app; split; try apply hex_no_nl; try done;
      vm_compute; set_solver.
  - exact parse_base_lines.
Defined.

Definition small_key (k : PrivateKey) : Prop :=
  0 <= key_N (key_pub k) < 2 ^ 63 /\ 0 <= key_E (key_pub k) < 2 ^ 63 /\ 0 <= key_D k < 2 ^ 63.

Lemma node_rest_clean n : clean (str "rest: b" ++ node_rest n) = true.
Proof.
  change (clean (str "rest: " ++ ("b"%char :: node_rest n)) = true). apply clean_app; [done|].
  apply clean_solid; [done|]. constructor; [done|apply pos_bits_solid].
Qed.

Lemma parse_node_lines n ls rest : base_printable (n_base n) ->
  TrimSpace <$> ls = TrimSpace <$> node_lines n -> parse_node (ls ++ rest) = (Some n, rest, None).
Proof.
  intros Hb. unfold node_lines. rewrite app_comm_cons, fmap_app.
  intros (ls1 & ls2 & H1 & H2 & ->)%fmap_app_inv. destruct ls2 as [|l [|? ?]]; try done.
  assert (TrimSpace l = str "rest: b" ++ node_rest n) as Hl.
  { rewrite <-(TrimSpace_clean _ (node_rest_clean n)). symmetry.
    exact (f_equal (fun l => default [] (head l)) H2). }
  unfold parse_node. rewrite <-app_assoc, (parse_base_lines (n_base n)) by done.
  cbn [app]. rewrite (read_field_trim _ _ _ (node_rest_clean n) Hl).
  cbn [mbind option_bind]. by rewrite rest_node_rest.
Qed.

#[local] Instance node_model : NodeLaws.
Proof. constructor; simpl; intros; by simplify_eq. Qed.

#[local] Instance node_print_model : NodePrintLaws.
Proof.
  exists (fun n => base_printable (n_base n)) small_key.
  - intros n Hb. constructor; [lit_notin|]. apply Forall_app. split; [exact (xn_Strings_no_nl (n_base n) Hb)|].
    constructor; [|constructor]. apply (no_nl_app (str "rest: b")); [lit_notin|apply solid_no_nl, pos_bits_solid].
  - intros n ls rest. apply parse_node_lines.
  - intros [[N E] D] (HN & HE & HD). cbn [key_N key_E key_D key_pub] in *.
    exists (priv_body (mkPrivateKey (mkPublicKey N E) D)), [[]]. split_and!; [done| | |].
    + repeat constructor; try apply solid_no_nl, dec_go_solid; try lit_notin; apply not_elem_of_nil.
    + by repeat constructor.
    + intros rest. simpl. by rewrite !Atoi_Sprint_d by lia.
Defined.

(** Importing this module makes the concrete packages the ones used. *)
Module ModelInstances.
  #[export] Existing Instances ext_model nodeid_model hamt_model bloom_model base_node_model
    wire_model line_model bitmap_model peer_model codec_model hello_model base_print_model node_model node_print_model.
End ModelInstances.
