(* ===== verification/ClientInfo.v ===== *)
(** * Members as the registry knows them

    Models clientInfo.go: the record kept for each member of a cluster, its
    conversion to and from the token of the wire protocol, its equality, and its
    text form with the parser for it. *)
From S2P Require Import Prelude GoStd GoCrypto Errors Proto Ext ExtModel.

Section ClientInfo.
Context `{Ext}.

Record ClientInfo := mkClientInfo {
  ci_Attrs : Z;                         (* uint64 *)
  ci_MyEnds : option (list gostring);   (* serialized end points *)
  ci_BaseNode : BaseNode
}.

(** The methods promoted from the embedded base node. *)
Definition ci_GetName (mi : ClientInfo) : gostring := xn_GetName (ci_BaseNode mi).
Definition ci_GetNodeID (mi : ClientInfo) : option NodeID := xn_GetNodeID (ci_BaseNode mi).

Definition NewClientInfo (name : gostring) (id : option NodeID)
    (commsPubKey sigPubKey : option PublicKey) (attrs : Z) (myEnds : option (list gostring)) :
    result ClientInfo :=
  base ← lift (xn_NewBaseNode name id commsPubKey sigPubKey);
  Ok (mkClientInfo attrs myEnds base).

(** The errors found after the identifier has been made are held in a variable
    [err] that shadows the result: the function then returns [nil, nil]. *)
Definition NewClientInfoFromToken (token : option XLRegMsg_Token) (ds : list draw) :
    outcome (option ClientInfo * option error * list draw) :=
  match token with
  | None => Done (None, Some (RegErr NilToken), ds)
  | Some _ =>
    '((nodeID, err), ds') ← xi_New_opt (Token_GetID token) ds;
    match err with
    | Some e => Done (None, Some (ExtErr e), ds')
    | None =>
      Done (match xc_RSAPubKeyFromWire (Token_GetCommsKey token) with
            | inl ck =>
              match xc_RSAPubKeyFromWire (Token_GetSigKey token) with
              | inl sk =>
                match NewClientInfo (Token_GetName token) nodeID (Some ck) (Some sk)
                        (Token_GetAttrs token) (Token_GetMyEnds token) with
                | Ok m => Some m
                | Err _ => None
                end
              | inr _ => None
              end
            | inr _ => None
            end, None, ds')
    end
  end.

(** The token describing a member; a member without an identifier is a [nil]
    dereference. *)
Definition Token (mi : ClientInfo) : outcome (result XLRegMsg_Token) :=
  match xc_RSAPubKeyToWire (xn_GetCommsPublicKey (ci_BaseNode mi)) with
  | inr e => Done (Err (ExtErr e))
  | inl ckBytes =>
    match xc_RSAPubKeyToWire (xn_GetSigPublicKey (ci_BaseNode mi)) with
    | inr e => Done (Err (ExtErr e))
    | inl skBytes =>
      id ← deref (ci_GetNodeID mi);
      Done (Ok {| tok_Name := Some (ci_GetName mi);
                  tok_Attrs := Some (ci_Attrs mi);
                  tok_ID := Some (xi_Value id);
                  tok_CommsKey := Some ckBytes;
                  tok_SigKey := Some skBytes;
                  tok_MyEnds := ci_MyEnds mi;
                  tok_DigSig := None |})
    end
  end.

(** ** Equality

    The argument of [Equal] is of type [interface{}]: [nil], the receiver
    itself, another [*ClientInfo], or a value of another type. *)
Inductive ci_any :=
  | CI_nil
  | CI_self
  | CI_client (other : ClientInfo)
  | CI_other.

Definition ends_Equal (a b : option (list gostring)) : bool :=
  match a, b with
  | None, None => true
  | None, Some _ => false
  | Some _, None => false
  | Some x, Some y =>
    Nat.eqb (length x) (length y) && forallb (fun '(s, t) => bool_decide (s = t)) (zip x y)
  end.

Definition ci_Equal (mi : ClientInfo) (any : ci_any) : bool :=
  match any with
  | CI_self => true
  | CI_nil => false
  | CI_other => false
  | CI_client other =>
    if negb (ci_Attrs mi =? ci_Attrs other) then false
    else if negb (ends_Equal (ci_MyEnds mi) (ci_MyEnds other)) then false
    else xn_Equal (ci_BaseNode mi) (ci_BaseNode other)
  end.

(** ** Serialization *)

Definition ci_Strings (mi : ClientInfo) : list gostring :=
  [str "clientInfo {"]
  ++ ((fun l => str "    " ++ l) <$> xn_Strings (ci_BaseNode mi))
  ++ [str "    attrs: 0x" ++ hex_pad 16 (ci_Attrs mi)]
  ++ [str "    endPoints {"]
  ++ ((fun e => str "        " ++ e) <$> default [] (ci_MyEnds mi))
  ++ [str "    }"]
  ++ [str "}"].

Definition ci_String (mi : ClientInfo) : gostring := Join (ci_Strings mi) [nl].

(** [attrs |= uint64(val[i]) << uint(8*(7-i))] for [i] from [i] up. *)
Fixpoint attrs_loop (val : bytes) (i : Z) (attrs : Z) : Z :=
  match val with
  | [] => attrs
  | c :: t => attrs_loop t (i + 1) (Z.lor attrs (u64 (Z.shiftl (byte_val c) (8 * (7 - i)))))
  end.

Definition collectClientAttrs (mi : ClientInfo) (ss : list gostring) :
    ClientInfo * list gostring * option error :=
  let '(line, err, rest) := xc_NextNBLine ss in
  match err with
  | Some e => (mi, rest, Some (ExtErr e))
  | None =>
    if HasPrefix line (str "attrs: 0x") then
      match DecodeString (drop 9 line) with
      | inr e => (mi, rest, Some (ExtErr e))
      | inl val =>
        if negb (Nat.eqb (length val) 8) then (mi, rest, Some (RegErr WrongNumberOfBytesInAttrs))
        else (mkClientInfo (attrs_loop val 0 0) (ci_MyEnds mi) (ci_BaseNode mi), rest, None)
      end
    else (mi, rest, Some (RegErr BadAttrsLine))
  end.

(** The loop that collects end points, up to a line that is a closing brace.  It
    reads [rest[0]] before each line and does not stop on an error.  The fuel is
    one more than the number of lines, and each turn drops a line. *)
Fixpoint collectMyEnds_loop (fuel : nat) (myEnds : option (list gostring))
    (rest : list gostring) (err : option exterr) :
    outcome (option (list gostring) * list gostring * option exterr) :=
  match fuel with
  | O => Starved
  | S f =>
    peek ← index rest 0;
    if bool_decide (TrimSpace peek = str "}") then Done (myEnds, rest, err)
    else
      let '(line, err', rest') := xc_NextNBLine rest in
      match err' with
      | None => collectMyEnds_loop f (Some (default [] myEnds ++ [line])) rest' None
      | Some e => collectMyEnds_loop f myEnds rest' (Some e)
      end
  end.

(** Expect a closing brace on the next line. *)
Definition expectBrace (ss : list gostring) : list gostring * option error :=
  let '(line, err, rest) := xc_NextNBLine ss in
  match err with
  | Some e => (rest, Some (ExtErr e))
  | None => if bool_decide (line = str "}") then (rest, None)
            else (rest, Some (RegErr MissingClosingBrace))
  end.

Definition collectMyEnds (mi : ClientInfo) (ss : list gostring) :
    outcome (ClientInfo * list gostring * option error) :=
  let '(line, err, rest) := xc_NextNBLine ss in
  match err with
  | Some e => Done (mi, rest, Some (ExtErr e))
  | None =>
    if bool_decide (line = str "endPoints {") then
      '(ends, rest1, err1) ← collectMyEnds_loop (S (length rest)) (ci_MyEnds mi) rest None;
      let mi' := mkClientInfo (ci_Attrs mi) ends (ci_BaseNode mi) in
      match err1 with
      | Some e => Done (mi', rest1, Some (ExtErr e))
      | None => let '(rest2, err2) := expectBrace rest1 in Done (mi', rest2, err2)
      end
    else Done (mi, rest, Some (RegErr MissingEndPointsSection))
  end.

Definition ParseClientInfoFromStrings (ss : list gostring) :
    outcome (option ClientInfo * list gostring * option error) :=
  let '(bn, rest, err) := xn_ParseBNFromStrings ss (str "clientInfo") in
  match err with
  | Some e => Done (None, rest, Some (ExtErr e))
  | None =>
    base ← deref bn;
    let '(mi1, rest1, err1) := collectClientAttrs (mkClientInfo 0 None base) rest in
    match err1 with
    | Some e => Done (Some mi1, rest1, Some e)
    | None =>
      '(mi2, rest2, err2) ← collectMyEnds mi1 rest1;
      match err2 with
      | Some e => Done (Some mi2, rest2, Some e)
      | None => let '(rest3, err3) := expectBrace rest2 in Done (Some mi2, rest3, err3)
      end
    end
  end.

Definition ParseClientInfo (s : gostring) :
    outcome (option ClientInfo * list gostring * option error) :=
  ParseClientInfoFromStrings (Split s [nl]).

End ClientInfo.

Arguments ClientInfo {_}.

(** ** Reading lines *)

Section Lines.
Context `{LineLaws}.

Lemma NextNBLine_clean i s ls : blank i = true -> clean s = true ->
  xc_NextNBLine ((i ++ s) :: ls) = (s, None, ls).
Proof.
  intros Hi Hs. rewrite xc_NextNBLine_line; rewrite TrimSpace_indent, TrimSpace_clean by done;
    [done|by apply clean_not_nil].
Qed.

Lemma NextNBLine_bare s ls : clean s = true -> xc_NextNBLine (s :: ls) = (s, None, ls).
Proof. exact (NextNBLine_clean [] s ls eq_refl). Qed.

(** [NextNBLine] consumes at least one line when there is one. *)
Lemma NextNBLine_shorter ls l e r : xc_NextNBLine ls = (l, e, r) ->
  (length r <= length ls - 1)%nat.
Proof.
  revert l e r. induction ls as [|a ls IH]; intros l e r E.
  - destruct xc_NextNBLine_nil as (l' & e' & E'). rewrite E' in E. by simplify_eq.
  - destruct (decide (TrimSpace a = [])) as [Ha|Ha].
    + rewrite (xc_NextNBLine_blank _ _ Ha) in E. apply IH in E. simpl. lia.
    + rewrite (xc_NextNBLine_line _ _ Ha) in E. simplify_eq/=. lia.
Qed.

Lemma expectBrace_closing i ls : blank i = true -> expectBrace ((i ++ str "}") :: ls) = (ls, None).
Proof. intros Hi. unfold expectBrace. rewrite NextNBLine_clean by done. done. Qed.

(** The loop over end points ends within its fuel: it finds a closing brace or
    runs off the end of the lines. *)
Lemma collectMyEnds_loop_total fuel ends rest err : (length rest < fuel)%nat ->
  collectMyEnds_loop fuel ends rest err <> Starved.
Proof.
  revert ends rest err. induction fuel as [|f IH]; intros ends rest err Hf; [lia|].
  simpl. destruct rest as [|l rest]; [done|]. simpl.
  case_bool_decide; [done|].
  destruct (xc_NextNBLine (l :: rest)) as [[line e] r] eqn:E.
  pose proof (NextNBLine_shorter _ _ _ _ E) as Hr. simpl in Hf, Hr.
  destruct e; apply IH; lia.
Qed.

Lemma collectMyEnds_total mi ss : collectMyEnds mi ss <> Starved.
Proof.
  unfold collectMyEnds. destruct (xc_NextNBLine ss) as [[line [e|]] rest]; [done|].
  case_bool_decide; [|done].
  pose proof (collectMyEnds_loop_total (S (length rest)) (ci_MyEnds mi) rest None) as Ht.
  destruct collectMyEnds_loop as [[[ends r1] [e|]]| |]; try done; [|exfalso; apply Ht; [lia|done]].
  simpl. by destruct expectBrace.
Qed.
End Lines.

(** ** Printing and parsing *)

(** The attribute word: eight bytes, most significant first. *)
Lemma attrs_loop_spec val i x : Z.of_nat (length val) = 8 - i -> 0 <= i -> 0 <= x ->
  attrs_loop val i (x * 2 ^ (8 * (8 - i))) = x * 2 ^ (8 * (8 - i)) + be_val val.
Proof.
  revert i x. induction val as [|c val IH]; intros i x Hl Hi Hx.
  - simpl. unfold be_val. simpl. lia.
  - simpl length in Hl. cbn [attrs_loop]. pose proof (byte_val_range c) as Hc.
    pose proof (be_val_cons c val) as Hv.
    set (n := 8 * (7 - i)) in *. assert (0 <= n <= 56) as Hn by lia.
    replace (8 * (8 - i)) with (n + 8) by lia.
    assert (0 <= byte_val c * 2 ^ n < 2 ^ (n + 8)) as Hb.
    { rewrite Z.pow_add_r by lia. nia. }
    assert (u64 (Z.shiftl (byte_val c) n) = byte_val c * 2 ^ n) as ->.
    { rewrite Z.shiftl_mul_pow2 by lia. apply Z.mod_small.
      pose proof (Z.pow_le_mono_r 2 (n + 8) 64). lia. }
    rewrite lor_disjoint by lia.
    replace (x * 2 ^ (n + 8) + byte_val c * 2 ^ n)
      with ((x * 256 + byte_val c) * 2 ^ (8 * (8 - (i + 1)))).
    + rewrite IH by lia. rewrite Hv. replace (8 * (8 - (i + 1))) with n by lia.
      replace (256 ^ Z.of_nat (length val)) with (2 ^ n).
      { rewrite Z.pow_add_r by lia. lia. }
      change 256 with (2 ^ 8). rewrite <-Z.pow_mul_r by lia. f_equal. lia.
    + replace (8 * (8 - (i + 1))) with n by lia. rewrite Z.pow_add_r by lia. lia.
Qed.

Lemma attrs_roundtrip v : is_u64 v ->
  exists val, DecodeString (hex_pad 16 v) = inl val /\ length val = 8%nat /\ attrs_loop val 0 0 = v.
Proof.
  intros Hv. exists (be_bytes 8 v). rewrite (hex_pad_bytes 8), DecodeString_EncodeToString.
  split; [done|]. split; [apply be_bytes_length|].
  pose proof (attrs_loop_spec (be_bytes 8 v) 0 0) as E. rewrite Z.mul_0_l in E.
  rewrite E by (rewrite ?be_bytes_length; lia).
  rewrite be_val_bytes. apply Z.mod_small. exact Hv.
Qed.

(** End points that print on a line of their own and are not a closing brace. *)
Definition end_printable (e : gostring) : Prop := clean e = true /\ nl ∉ e /\ e <> str "}".
Definition ends_printable (ends : option (list gostring)) : Prop :=
  match ends with
  | None => True
  | Some l => l <> [] /\ Forall end_printable l
  end.

Section RoundTrip.
Context `{LineLaws} `{!BaseNodePrintLaws}.

Definition ci_printable (mi : ClientInfo) : Prop :=
  is_u64 (ci_Attrs mi) /\ ends_printable (ci_MyEnds mi) /\ bn_printable (ci_BaseNode mi).

Lemma NextNBLine_indent i j s ls : blank i = true -> blank j = true -> clean s = true ->
  xc_NextNBLine ((i ++ j ++ s) :: ls) = (s, None, ls).
Proof. intros Hi Hj Hs. rewrite app_assoc. apply NextNBLine_clean; auto with go. Qed.

Lemma collectMyEnds_loop_ends fuel i acc l tl rest : blank i = true -> TrimSpace tl = str "}" ->
  Forall end_printable l -> (length l < fuel)%nat ->
  collectMyEnds_loop fuel acc (((fun e => i ++ e) <$> l) ++ tl :: rest) None =
  Done (match l with [] => acc | _ => Some (default [] acc ++ l) end, tl :: rest, None).
Proof.
  intros Hi Ht Hl. revert fuel acc. induction Hl as [|e l (Hc & _ & He) _ IH]; intros fuel acc Hf.
  - destruct fuel; [simpl in Hf; lia|]. simpl. by rewrite bool_decide_eq_true_2.
  - destruct fuel as [|fuel]; [simpl in Hf; lia|]. simpl in Hf |- *.
    rewrite bool_decide_eq_false_2 by (by rewrite TrimSpace_indent, TrimSpace_clean).
    rewrite NextNBLine_clean by done. rewrite IH by lia. simpl.
    destruct l; [done|]. by rewrite <-app_assoc.
Qed.

Lemma collectClientAttrs_line mi i v ls : blank i = true -> is_u64 v ->
  collectClientAttrs mi ((i ++ str "    attrs: 0x" ++ hex_pad 16 v) :: ls) =
  (mkClientInfo v (ci_MyEnds mi) (ci_BaseNode mi), ls, None).
Proof.
  intros Hi Hv. unfold collectClientAttrs.
  change (str "    attrs: 0x" ++ hex_pad 16 v) with (str "    " ++ str "attrs: 0x" ++ hex_pad 16 v).
  rewrite NextNBLine_indent; [|done..|].
  - rewrite HasPrefix_app. change (drop 9 (str "attrs: 0x" ++ hex_pad 16 v)) with (hex_pad 16 v).
    destruct (attrs_roundtrip v Hv) as (val & -> & -> & ->). done.
  - apply clean_app; [done|]. apply clean_solid; [|apply hex_pad_solid].
    intros E. apply (f_equal length) in E. by rewrite hex_pad_length in E.
Qed.

Lemma collectMyEnds_lines mi i l ls : blank i = true -> ends_printable l ->
  ci_MyEnds mi = None ->
  collectMyEnds mi ((i ++ str "    endPoints {")
     :: ((fun e => i ++ str "        " ++ e) <$> default [] l) ++ (i ++ str "    }") :: ls)
  = Done (mkClientInfo (ci_Attrs mi) l (ci_BaseNode mi), ls, None).
Proof.
  intros Hi Hl Hmi. unfold collectMyEnds.
  change (str "    endPoints {") with (str "    " ++ str "endPoints {").
  rewrite NextNBLine_indent by done. rewrite bool_decide_eq_true_2 by done.
  set (i8 := i ++ str "        ").
  assert ((fun e => i ++ str "        " ++ e) <$> default [] l = (fun e => i8 ++ e) <$> default [] l) as ->.
  { apply list_fmap_ext. intros ? e _. unfold i8. apply app_assoc. }
  rewrite (collectMyEnds_loop_ends _ i8); unfold i8; auto with go.
  - rewrite Hmi, bind_Done.
    change (str "    }") with (str "    " ++ str "}"). rewrite app_assoc.
    rewrite expectBrace_closing by auto with go.
    destruct l as [l|]; [|done]. destruct Hl as [Hne _]. by destruct l.
  - rewrite TrimSpace_indent; done.
  - destruct l as [l|]; [by destruct Hl|constructor].
  - rewrite length_app, length_fmap. simpl. lia.
Qed.

(** The lines of a member, indented as a whole, parse back to the member and
    leave the lines that follow. *)
Lemma ParseClientInfo_lines mi i ls : ci_printable mi -> blank i = true ->
  ParseClientInfoFromStrings (((fun s => i ++ s) <$> ci_Strings mi) ++ ls) = Done (Some mi, ls, None).
Proof.
  intros (Ha & He & Hb) Hi. unfold ParseClientInfoFromStrings, ci_Strings.
  rewrite !fmap_app, <-!list_fmap_compose.
  rewrite app_assoc, <-app_assoc, (xn_Parse_Strings (ci_BaseNode mi)).
  - simpl deref. rewrite bind_Done, <-!app_assoc. cbn [fmap list_fmap]. unfold compose.
    app_singletons. rewrite collectClientAttrs_line by done.
    rewrite (collectMyEnds_lines _ i (ci_MyEnds mi)) by done.
    rewrite bind_Done, expectBrace_closing by done. by destruct mi.
  - done.
  - cbn [fmap list_fmap app]. f_equal.
    + rewrite TrimSpace_indent by done. done.
    + rewrite <-list_fmap_compose. apply list_fmap_ext. intros ? l _. unfold compose.
      by rewrite !TrimSpace_indent.
Qed.

Lemma ci_Strings_no_nl mi : ci_printable mi -> Forall (fun l => nl ∉ l) (ci_Strings mi).
Proof.
  intros (Ha & He & Hb). unfold ci_Strings.
  repeat (apply Forall_app; split); try (constructor; [|constructor]); try lit_notin.
  - apply Forall_fmap. eapply Forall_impl; [by apply xn_Strings_no_nl|].
    intros l Hl. simpl in Hl. apply not_elem_of_app. split; [lit_notin|done].
  - apply not_elem_of_app. split; [lit_notin|]. apply solid_no_nl, hex_pad_solid.
  - destruct (ci_MyEnds mi) as [l|]; [|constructor]. destruct He as [_ He].
    apply Forall_fmap. eapply Forall_impl; [exact He|]. intros e (_ & Hnl & _).
    apply not_elem_of_app. split; [lit_notin|done].
Qed.
End RoundTrip.

(** ** Lemmas shared with the clusters *)

Lemma ends_Equal_iff ae be : ends_Equal ae be = true <-> ae = be.
Proof.
  destruct ae as [x|], be as [y|]; simpl; try naive_solver.
  rewrite andb_true_iff, Nat.eqb_eq. transitivity (x = y); [|naive_solver]. split.
  - revert y. induction x as [|s x IH]; intros [|t y] [Hl Hf]; simplify_eq/=; [done|].
    apply andb_true_iff in Hf as [->%bool_decide_eq_true_1 Hf]. f_equal. by apply IH.
  - intros ->. split; [done|]. induction y; simpl; [done|]. by rewrite bool_decide_eq_true_2.
Qed.

Lemma ci_Equal_iff `{Ext} a b : (forall x y, xn_Equal x y = true <-> x = y) ->
  ci_Equal a (CI_client b) = true <-> a = b.
Proof.
  intros Hbn. unfold ci_Equal. destruct a as [aa ae ab], b as [ba be bb]. simpl.
  pose proof (ends_Equal_iff ae be).
  destruct (Z.eqb_spec aa ba); simpl; [|naive_solver].
  destruct (ends_Equal ae be); simpl; [|naive_solver]. rewrite Hbn. naive_solver.
Qed.

Lemma ParseClientInfoFromStrings_total `{LineLaws} ss : ParseClientInfoFromStrings ss <> Starved.
Proof.
  unfold ParseClientInfoFromStrings.
  destruct xn_ParseBNFromStrings as [[[bn|] rest] [e|]]; try done. simpl.
  destruct collectClientAttrs as [[mi1 rest1] [e|]]; [done|].
  pose proof (collectMyEnds_total mi1 rest1).
  destruct collectMyEnds as [[[mi2 rest2] [e|]]| |]; try done. simpl.
  by destruct expectBrace.
Qed.

Lemma expectBrace_shorter `{LineLaws} ss rest err : expectBrace ss = (rest, err) ->
  (length rest <= length ss - 1)%nat.
Proof.
  unfold expectBrace. destruct xc_NextNBLine as [[line e] r] eqn:E.
  apply NextNBLine_shorter in E. intros Hb. repeat case_match; simplify_eq/=; done.
Qed.

Lemma collectMyEnds_loop_shorter `{LineLaws} fuel ends rest err ends' rest' err' :
  collectMyEnds_loop fuel ends rest err = Done (ends', rest', err') ->
  (length rest' <= length rest)%nat.
Proof.
  revert ends rest err. induction fuel as [|f IH]; intros ends rest err Hc; [done|].
  simpl in Hc. apply bind_Done_inv in Hc as (peek & _ & Hc).
  case_bool_decide; [by go_inv|].
  destruct (xc_NextNBLine rest) as [[line e] r] eqn:E. apply NextNBLine_shorter in E.
  destruct e; apply IH in Hc; lia.
Qed.

Lemma collectMyEnds_shorter `{LineLaws} mi ss mi' rest err :
  collectMyEnds mi ss = Done (mi', rest, err) -> (length rest <= length ss - 1)%nat.
Proof.
  unfold collectMyEnds. destruct (xc_NextNBLine ss) as [[line [e|]] r] eqn:E;
    apply NextNBLine_shorter in E; intros Hc; [by go_inv|].
  case_bool_decide; [|by go_inv]. apply bind_Done_inv in Hc as ([[ends r1] e1] & Hl & Hc).
  apply collectMyEnds_loop_shorter in Hl. destruct e1; [go_inv; lia|].
  destruct expectBrace as [r2 e2] eqn:Eb. apply expectBrace_shorter in Eb. go_inv. lia.
Qed.

(** A member that parses takes at least a line. *)
Lemma ParseClientInfoFromStrings_consumes `{LineLaws} `{!BaseNodeLaws} ss mi rest err :
  ParseClientInfoFromStrings ss = Done (mi, rest, err) -> err = None ->
  (length rest <= length ss - 1)%nat.
Proof.
  unfold ParseClientInfoFromStrings. intros Hp ->.
  destruct xn_ParseBNFromStrings as [[bn r] [e|]] eqn:Eb; [by go_inv|].
  apply xn_ParseBN_consumes in Eb. apply bind_Done_inv in Hp as (base & _ & Hp).
  unfold collectClientAttrs in Hp. destruct (xc_NextNBLine r) as [[line [e|]] r1] eqn:El; [by go_inv|].
  apply NextNBLine_shorter in El. repeat (case_match; simplify_eq/=).
  match goal with H : collectMyEnds _ _ ≫= _ = _ |- _ => apply bind_Done_inv in H as ([[mi2 r2] e2] & Hm & Hp') end.
  apply collectMyEnds_shorter in Hm. destruct e2; [by go_inv|].
  destruct expectBrace as [r3 e3] eqn:Ex. apply expectBrace_shorter in Ex. go_inv. lia.
Qed.

(** ** Theorems *)

Section Theorems.
Context `{Ext}.

(** A member printed with [String] and parsed with [ParseClientInfo] comes
    back unchanged, with no input left and no error, provided its attributes fit
    64 bits and its name, keys and end points fit on lines. *)
Theorem ParseClientInfo_String `{!LineLaws} `{!BaseNodePrintLaws} mi :
  ci_printable mi -> ParseClientInfo (ci_String mi) = Done (Some mi, [], None).
Proof.
  intros Hp. unfold ParseClientInfo, ci_String.
  rewrite Split_Join_lines by (done || by apply ci_Strings_no_nl).
  pose proof (ParseClientInfo_lines mi [] [] Hp eq_refl) as E.
  by rewrite list_fmap_id, app_nil_r in E.
Qed.

(** Parsing a member always ends: the loop over end points never runs out of
    its fuel, whatever the input. *)
Theorem ParseClientInfo_terminates `{!LineLaws} s : ParseClientInfo s <> Starved.
Proof. apply ParseClientInfoFromStrings_total. Qed.

(** An end-point list that is not closed is not reported as an error:
    the parser reads past the last line and panics. *)
Theorem collectMyEnds_unclosed `{!LineLaws} mi ends :
  Forall end_printable ends ->
  collectMyEnds mi (str "endPoints {" :: ends) = Panics IndexOutOfRange.
Proof.
  intros He. unfold collectMyEnds.
  rewrite NextNBLine_bare by done. rewrite bool_decide_eq_true_2 by done.
  generalize (ci_MyEnds mi). intros acc.
  enough (forall fuel, (length ends < fuel)%nat ->
    collectMyEnds_loop fuel acc ends None = Panics IndexOutOfRange) as E by (by rewrite E by lia).
  revert acc. induction He as [|e ends (Hc & _ & Hb) _ IH]; intros acc fuel Hf.
  - by destruct fuel; [lia|].
  - destruct fuel as [|fuel]; [lia|]. simpl in Hf |- *.
    rewrite bool_decide_eq_false_2 by (by rewrite TrimSpace_clean).
    rewrite NextNBLine_bare by done. apply IH. lia.
Qed.

(** The token of a member describes that member: reading it back makes a
    member with the same name, identifier, keys, attributes and end points. *)
Theorem NewClientInfoFromToken_Token
    `{!NodeIDLaws} `{!WireLaws} `{!BaseNodeLaws} mi ck sk id t ds m err ds' :
  xn_GetCommsPublicKey (ci_BaseNode mi) = Some ck ->
  xn_GetSigPublicKey (ci_BaseNode mi) = Some sk ->
  ci_GetNodeID mi = Some id ->
  Token mi = Done (Ok t) ->
  NewClientInfoFromToken (Some t) ds = Done (Some m, err, ds') ->
  err = None /\ ds' = ds /\ ci_GetName m = ci_GetName mi /\
  ci_Attrs m = ci_Attrs mi /\ ci_MyEnds m = ci_MyEnds mi /\
  xn_GetCommsPublicKey (ci_BaseNode m) = Some ck /\
  xn_GetSigPublicKey (ci_BaseNode m) = Some sk /\
  xi_Value <$> ci_GetNodeID m = Some (xi_Value id).
Proof.
  intros Hck Hsk Hid. unfold Token. rewrite Hck, Hsk, Hid.
  destruct (xc_RSAPubKeyToWire (Some ck)) as [cb|] eqn:Ec; [|done].
  destruct (xc_RSAPubKeyToWire (Some sk)) as [sb|] eqn:Es; [|done].
  intros [= <-]. unfold NewClientInfoFromToken. cbn.
  destruct (xi_New_total id) as [n' En]. rewrite En.
  destruct (xi_New_Value _ _ En) as (? & [= <-] & Hv). cbn.
  rewrite (xc_FromWire_ToWire _ _ Ec), (xc_FromWire_ToWire _ _ Es).
  unfold NewClientInfo. destruct xn_NewBaseNode as [bn|] eqn:Eb; [|done].
  destruct (xn_NewBaseNode_fields _ _ _ _ _ Eb) as (N1 & N2 & N3 & N4).
  cbn. intros [= <- <- <-]. unfold ci_GetName, ci_GetNodeID. simpl. by rewrite N1, N2, N3, N4, <-Hv.
Qed.

(** A token whose comms key cannot be read is not reported: the function
    returns neither a member nor an error. *)
Theorem NewClientInfoFromToken_error_lost t id b ds e :
  tok_ID t = Some b -> xi_New b = (Some id, None) ->
  xc_RSAPubKeyFromWire (tok_CommsKey t) = inr e ->
  NewClientInfoFromToken (Some t) ds = Done (None, None, ds).
Proof.
  intros Ht Hn He. unfold NewClientInfoFromToken. cbn. unfold Token_GetID, Token_GetCommsKey. cbn.
  rewrite Ht. cbn. rewrite Hn. cbn. by rewrite He.
Qed.

(** [Equal] is an equivalence on members whose base nodes compare as equals
    exactly when they are the same, and distinguishes members with different
    attributes or end points. *)
Theorem ci_Equal_spec a b :
  (forall x y, xn_Equal x y = true <-> x = y) ->
  ci_Equal a (CI_client b) = true <-> a = b.
Proof.
  intros Hbn. by apply ci_Equal_iff.
Qed.
End Theorems.

(** ** Witnesses *)

Module ClientInfoWitness.
Import ModelInstances.

Definition w_key : PublicKey := mkPublicKey 3233 17.
Definition w_base : BaseNode := Concrete.mkBase (str "alice") (Some (str "0123456789abcdefghij"))
  (Some w_key) (Some w_key).
Definition w_member : ClientInfo := mkClientInfo (2 ^ 63 + 5)
  (Some [str "127.0.0.1:5000"; str "127.0.0.1:5001"]) w_base.

Lemma w_member_printable : ci_printable w_member.
Proof.
  split; [vm_compute; split; congruence|]. split.
  - split; [done|]. repeat constructor; try done; lit_notin.
  - split; [done|]. split; [change (nl ∉ str "alice"); lit_notin|].
    split; [by eexists|]. by split; eexists _, _.
Qed.

Lemma ParseClientInfo_String_witness :
  ci_printable w_member /\ ParseClientInfo (ci_String w_member) = Done (Some w_member, [], None).
Proof. split; [exact w_member_printable|]. apply ParseClientInfo_String. exact w_member_printable. Defined.

Lemma ParseClientInfo_terminates_witness :
  ParseClientInfo (str "clientInfo {") <> Starved.
Proof. apply ParseClientInfo_terminates. Defined.

Lemma collectMyEnds_unclosed_witness :
  collectMyEnds w_member [str "endPoints {"; str "127.0.0.1:5000"] = Panics IndexOutOfRange.
Proof. apply collectMyEnds_unclosed. repeat constructor; done || lit_notin. Defined.

Definition w_token : XLRegMsg_Token :=
  match Token w_member with Done (Ok t) => t | _ => XLRegMsg_Token_zero end.

Lemma NewClientInfoFromToken_Token_witness :
  exists m ds', NewClientInfoFromToken (Some w_token) [] = Done (Some m, None, ds') /\
    ci_GetName m = str "alice" /\ ci_Attrs m = 2 ^ 63 + 5.
Proof.
  eexists _, []. split; [reflexivity|].
  destruct (NewClientInfoFromToken_Token w_member w_key w_key (str "0123456789abcdefghij")
    w_token [] w_member None [] eq_refl eq_refl eq_refl eq_refl eq_refl) as (_ & _ & Hn & Ha & _).
  split; [exact Hn|exact Ha].
Defined.

Lemma NewClientInfoFromToken_error_lost_witness :
  NewClientInfoFromToken (Some (mkToken None None (Some (str "x")) None None None None)) [] =
  Done (None, None, []).
Proof.
  exact (NewClientInfoFromToken_error_lost (mkToken None None (Some (str "x")) None None None None)
    (str "x") (str "x") [] _ eq_refl eq_refl eq_refl).
Defined.

Lemma ci_Equal_spec_witness : ci_Equal w_member (CI_client w_member) = true.
Proof. apply ci_Equal_spec; [|reflexivity]. intros x y. apply bool_decide_eq_true. Defined.
End ClientInfoWitness.
