(* ===== verification/RegCluster.v ===== *)
(** * Clusters as the registry keeps them

    Models reg_cluster.go and the limits of const.go: creating a cluster, adding
    members, equality, and the text form with its parser.  [AddMember] takes the
    cluster's lock three times; each critical section is a definition of its own,
    so that other goroutines can be interleaved between them (Server.v). *)
From S2P Require Import Prelude GoStd GoCrypto Errors Proto Ext ExtModel ClientInfo.

(** ** const.go *)

Definition BLOCK_SIZE : Z := 4096.
Definition DEFAULT_M : Z := 20.
Definition DEFAULT_K : Z := 8.
Definition DEFAULT_W `{Ext} : Z := ha_MAX_W.
Definition MAX_CLUSTER_SIZE : Z := 64.
Definition MIN_CLUSTER_SIZE : Z := 2.

Definition CLUSTER_EPHEMERAL : Z := Z.shiftl 1 0.
Definition CLUSTER_DELETED : Z := Z.shiftl 1 1.

(** A step of the parser of the header: the value read and the lines left, or an
    error and the lines left. *)
Abbreviation reader A := (list gostring -> (A + error) * list gostring).

Section RegCluster.
Context `{Ext}.

Record RegCluster := mkRegCluster {
  rc_Name : gostring;
  rc_ID : option bytes;
  rc_Attrs : Z;      (* uint64 *)
  rc_maxSize : Z;    (* uint32 *)
  rc_epCount : Z;    (* uint32 *)
  rc_Members : list ClientInfo;
  rc_MembersByName : gmap gostring ClientInfo;
  rc_MembersByID : HAMT ClientInfo
}.

(** The error found for [epCount] is overwritten by the result of [NewHAMT]. *)
Definition NewRegCluster (name : gostring) (id : option NodeID) (attrs maxSize epCount : Z) :
    outcome (result RegCluster) :=
  let name := if bool_decide (name = []) then str "xlCluster" else name in
  let err := if epCount <? 1 then Some ClusterMembersMustHaveEndPoint else None in
  if bool_decide (err = None) && (maxSize <? 1) then Done (Err (RegErr ClusterMustHaveMember))
  else
    match ha_NewHAMT DEFAULT_W (xm_NextExp2_32 maxSize) with
    | inr e => Done (Err (ExtErr e))
    | inl m =>
      id ← deref id;
      Done (Ok (mkRegCluster name (Some (xi_Value id)) attrs maxSize epCount [] ∅ m))
    end.

(** ** Adding a member *)

(** First section: is the name taken? *)
Definition AddMember_nameInUse (rc : RegCluster) (name : gostring) : bool :=
  bool_decide (is_Some (rc_MembersByName rc !! name)).

(** Second section: the table of members is searched for the identifier of the
    cluster itself; an error of [NewBytesKey] is overwritten. *)
Definition AddMember_checkID (rc : RegCluster) : option error :=
  let '(bKey, _) := ha_NewBytesKey (rc_ID rc) in
  match ha_Find (rc_MembersByID rc) bKey with
  | (_, Some e) => Some (ExtErr e)
  | (Some _, None) => Some (RegErr ClusterMemberIDInUse)
  | (None, None) => None
  end.

(** Third section, under the write lock. *)
Definition AddMember_insert (rc : RegCluster) (member : ClientInfo) :
    outcome (RegCluster * option error) :=
  let members := rc_Members rc ++ [member] in
  let byName := <[ci_GetName member := member]> (rc_MembersByName rc) in
  let upd byID := mkRegCluster (rc_Name rc) (rc_ID rc) (rc_Attrs rc) (rc_maxSize rc)
                    (rc_epCount rc) members byName byID in
  id ← deref (ci_GetNodeID member);
  match ha_NewBytesKey (Some (xi_Value id)) with
  | (_, Some e) => Done (upd (rc_MembersByID rc), Some (ExtErr e))
  | (bKey, None) =>
    let '(byID, err) := ha_Insert (rc_MembersByID rc) bKey member in
    Done (upd byID, ExtErr <$> err)
  end.

Definition AddMember (rc : RegCluster) (member : ClientInfo) :
    outcome (RegCluster * option error) :=
  if AddMember_nameInUse rc (ci_GetName member) then
    Done (rc, Some (RegErr ClusterMemberNameInUse))
  else
    match AddMember_checkID rc with
    | Some e => Done (rc, Some e)
    | None => AddMember_insert rc member
    end.

Definition AddToCluster (rc : RegCluster) (name : gostring) (id : option NodeID)
    (commsPubKey sigPubKey : option PublicKey) (attrs : Z) (myEnds : option (list gostring)) :
    outcome (RegCluster * option error) :=
  match NewClientInfo name id commsPubKey sigPubKey attrs myEnds with
  | Err e => Done (rc, Some e)
  | Ok member => AddMember rc member
  end.

Definition EndPointCount (rc : RegCluster) : Z := rc_epCount rc.
Definition MaxSize (rc : RegCluster) : Z := rc_maxSize rc.
Definition Size (rc : RegCluster) : Z := u32 (Z.of_nat (length (rc_Members rc))).

(** [GetNodeID] makes a new identifier from the bytes of the cluster's. *)
Definition rc_GetNodeID (rc : RegCluster) (ds : list draw) : outcome (option NodeID * list draw) :=
  '((id, _), ds') ← xi_New_opt (rc_ID rc) ds;
  Done (id, ds').

(** ** Equality

    The argument is [nil], the receiver, another cluster, or a value of another
    type; for another cluster, [alias i] says whether the i-th members of the two
    clusters are the same object. *)
Inductive rc_any :=
  | RC_nil
  | RC_self
  | RC_cluster (other : RegCluster) (alias : nat -> bool)
  | RC_other.

Definition rc_Equal (rc : RegCluster) (any : rc_any) : bool :=
  match any with
  | RC_self => true
  | RC_nil => false
  | RC_other => false
  | RC_cluster other alias =>
    if negb (rc_Attrs rc =? rc_Attrs other) then false
    else if negb (bool_decide (rc_Name rc = rc_Name other)) then false
    else if negb (bool_decide (default [] (rc_ID rc) = default [] (rc_ID other))) then false
    else if negb (rc_epCount rc =? rc_epCount other) then false
    else if negb (rc_maxSize rc =? rc_maxSize other) then false
    else if negb (Size rc =? Size other) then false
    else forallb (fun i =>
           match rc_Members rc !! i, rc_Members other !! i with
           | Some a, Some b => ci_Equal a (if alias i then CI_self else CI_client b)
           | _, _ => false
           end) (seq 0 (Z.to_nat (Size rc)))
  end.

(** ** Serialization *)

Definition rc_Strings (rc : RegCluster) : list gostring :=
  [str "regCluster {"]
  ++ [str "    Attrs: 0x" ++ hex_pad 16 (rc_Attrs rc)]
  ++ [str "    Name: " ++ rc_Name rc]
  ++ [str "    ID: " ++ EncodeToString (default [] (rc_ID rc))]
  ++ [str "    epCount: " ++ Sprint_d (rc_epCount rc)]
  ++ [str "    maxSize: " ++ Sprint_d (rc_maxSize rc)]
  ++ [str "    Members {"]
  ++ (rc_Members rc ≫= fun m => (fun l => str "        " ++ l) <$> ci_Strings m)
  ++ [str "    }"]
  ++ [str "}"].

Definition rc_String (rc : RegCluster) : gostring := Join (rc_Strings rc) [nl].

Definition rd_bind {A B} (r : reader A) (k : A -> reader B) : reader B := fun ss =>
  match r ss with
  | (inl a, rest) => k a rest
  | (inr e, rest) => (inr e, rest)
  end.

(** The next line, on which [f] is tried. *)
Definition rd_line {A} (f : gostring -> A + error) : reader A := fun ss =>
  let '(line, err, rest) := xc_NextNBLine ss in
  match err with
  | Some e => (inr (ExtErr e), rest)
  | None => (f line, rest)
  end.

(** A line that must begin with [prefix]; [f] reads what follows it. *)
Definition rd_field {A} (prefix : gostring) (f : gostring -> A + exterr) : reader A :=
  rd_line (fun line =>
    if HasPrefix line prefix then
      match f (drop (length prefix) line) with inl a => inl a | inr e => inr (ExtErr e) end
    else inr (RegErr IllFormedCluster)).

Definition read_attrs (s : gostring) : Z + exterr :=
  match ParseInt0 s with inl i => inl (u64 i) | inr e => inr e end.
Definition read_id (s : gostring) : option NodeID + exterr :=
  match DecodeString s with
  | inl val => match xi_New val with (id, None) => inl id | (_, Some e) => inr e end
  | inr e => inr e
  end.
Definition read_count (s : gostring) : Z + exterr :=
  match Atoi s with inl i => inl (u32 i) | inr e => inr e end.

Definition parse_header : reader (Z * gostring * option NodeID * Z * Z) :=
  rd_bind (rd_line (fun line => if bool_decide (line = str "regCluster {") then inl tt
                                else inr (RegErr IllFormedCluster))) (fun _ =>
  rd_bind (rd_field (str "Attrs: ") read_attrs) (fun attrs =>
  rd_bind (rd_field (str "Name: ") inl) (fun name =>
  rd_bind (rd_field (str "ID: ") read_id) (fun id =>
  rd_bind (rd_field (str "epCount: ") read_count) (fun epCount =>
  rd_bind (rd_field (str "maxSize: ") read_count) (fun maxSize =>
  fun ss => (inl (attrs, name, id, epCount, maxSize), ss))))))).

(** The loop over members.  Each turn reads [rest[0]], then a member; a member
    takes at least one line, so the fuel is one more than the lines. *)
Fixpoint parse_members (fuel : nat) (rc : RegCluster) (rest : list gostring) :
    outcome (RegCluster * list gostring * option error) :=
  match fuel with
  | O => Starved
  | S f =>
    peek ← index rest 0;
    if bool_decide (TrimSpace peek = str "}") then Done (rc, rest, None)
    else
      '(member, rest', err) ← ParseClientInfoFromStrings rest;
      match err with
      | Some e => Done (rc, rest', Some e)
      | None =>
        member ← deref member;
        '(rc', err') ← AddMember rc member;
        match err' with
        | Some e => Done (rc', rest', Some e)
        | None => parse_members f rc' rest'
        end
      end
  end.

Definition ParseRegClusterFromStrings (ss : list gostring) :
    outcome (option RegCluster * list gostring * option error) :=
  match parse_header ss with
  | (inr e, rest) => Done (None, rest, Some e)
  | (inl (attrs, name, id, epCount, maxSize), rest) =>
    r ← NewRegCluster name id attrs maxSize epCount;
    match r with
    | Err e => Done (None, rest, Some e)
    | Ok rc =>
      let '(line, err, rest1) := xc_NextNBLine rest in
      match err with
      | Some e => Done (Some rc, rest1, Some (ExtErr e))
      | None =>
        if bool_decide (line = str "Members {") then
          '(rc', rest2, err2) ← parse_members (S (length rest1)) rc rest1;
          match err2 with
          | Some e => Done (Some rc', rest2, Some e)
          | None =>
            let '(rest3, err3) := expectBrace rest2 in
            match err3 with
            | Some e => Done (Some rc', rest3, Some e)
            | None => let '(rest4, err4) := expectBrace rest3 in Done (Some rc', rest4, err4)
            end
          end
        else Done (Some rc, rest1, Some (RegErr MissingMembersList))
      end
    end
  end.

Definition ParseRegCluster (s : gostring) :
    outcome (option RegCluster * list gostring * option error) :=
  ParseRegClusterFromStrings (Split s [nl]).

End RegCluster.
Arguments RegCluster {_}.

(** ** The invariant of a cluster

    No two members share a name; the index by name holds exactly the members;
    the index by identifier holds only members, under their own identifiers. *)
Record rc_wf `{Ext} (rc : RegCluster) : Prop := {
  wf_names : NoDup (ci_GetName <$> rc_Members rc);
  wf_byName n m : rc_MembersByName rc !! n = Some m <-> m ∈ rc_Members rc /\ ci_GetName m = n;
  wf_byID k m : (ha_Find (rc_MembersByID rc) k).1 = Some m ->
    m ∈ rc_Members rc /\
    exists id, ci_GetNodeID m = Some id /\ ha_NewBytesKey (Some (xi_Value id)) = (k, None)
}.

(** What is left of it when calls of [AddMember] overlap: members may share a
    name, but every member's name is in the index by name, which holds only
    members. *)
Record rc_wf0 `{Ext} (rc : RegCluster) : Prop := {
  wf0_named n m : rc_MembersByName rc !! n = Some m -> m ∈ rc_Members rc /\ ci_GetName m = n;
  wf0_indexed m : m ∈ rc_Members rc -> is_Some (rc_MembersByName rc !! ci_GetName m);
  wf0_byID k m : (ha_Find (rc_MembersByID rc) k).1 = Some m ->
    m ∈ rc_Members rc /\
    exists id, ci_GetNodeID m = Some id /\ ha_NewBytesKey (Some (xi_Value id)) = (k, None)
}.

(** No two members of a cluster share a name. *)
Definition distinct_names `{Ext} (rc : RegCluster) : Prop := NoDup (ci_GetName <$> rc_Members rc).

Section Facts.
Context `{Ext}.

Lemma rc_wf_iff rc : rc_wf rc <-> rc_wf0 rc /\ distinct_names rc.
Proof.
  split.
  - intros [W1 W2 W3]. split; [|done]. split; [by intros n m ?%W2| |done].
    intros m Hm. exists m. by apply W2.
  - intros [[W1 W2 W3] Hd]. split; [done| |done]. intros n m. split; [apply W1|]. intros [Hm <-].
    destruct (W2 m Hm) as [m' Hm']. destruct (W1 _ _ Hm') as [Hin Hn]. rewrite Hm'. f_equal.
    apply list_elem_of_lookup in Hm as [i Hi]. apply list_elem_of_lookup in Hin as [j Hj].
    assert (i = j) as ->; [|congruence].
    eapply NoDup_lookup; [exact Hd|by rewrite list_lookup_fmap, Hi|].
    rewrite list_lookup_fmap, Hj. simpl. by rewrite Hn.
Qed.

Lemma nameInUse_spec rc n : rc_wf0 rc ->
  AddMember_nameInUse rc n = bool_decide (n ∈ (ci_GetName <$> rc_Members rc)).
Proof.
  intros Hw. unfold AddMember_nameInUse. apply bool_decide_ext. split.
  - intros [m [Hm Hn]%(wf0_named _ Hw)]. apply list_elem_of_fmap. eauto.
  - intros (m & -> & Hm)%list_elem_of_fmap. by apply (wf0_indexed _ Hw).
Qed.

Lemma NewRegCluster_Ok_inv name id attrs maxSize epCount rc :
  NewRegCluster name id attrs maxSize epCount = Done (Ok rc) ->
  exists nid m, id = Some nid /\ ha_NewHAMT DEFAULT_W (xm_NextExp2_32 maxSize) = inl m /\
    rc = mkRegCluster (if bool_decide (name = []) then str "xlCluster" else name)
           (Some (xi_Value nid)) attrs maxSize epCount [] ∅ m.
Proof.
  unfold NewRegCluster. intros Hn. destruct (_ && _); [by go_inv|].
  destruct (ha_NewHAMT _ _) as [m|] eqn:E; go_inv. naive_solver.
Qed.

Lemma AddMember_insert_inv rc m rc' err : AddMember_insert rc m = Done (rc', err) ->
  exists id k kerr byID, ci_GetNodeID m = Some id /\
    ha_NewBytesKey (Some (xi_Value id)) = (k, kerr) /\
    (match kerr with
     | Some e => byID = rc_MembersByID rc /\ err = Some (ExtErr e)
     | None => exists e, ha_Insert (rc_MembersByID rc) k m = (byID, e) /\ err = ExtErr <$> e
     end) /\
    rc' = mkRegCluster (rc_Name rc) (rc_ID rc) (rc_Attrs rc) (rc_maxSize rc) (rc_epCount rc)
            (rc_Members rc ++ [m]) (<[ci_GetName m := m]> (rc_MembersByName rc)) byID.
Proof.
  unfold AddMember_insert. intros Hi. go_inv. rename x into id.
  destruct (ha_NewBytesKey (Some (xi_Value id))) as [k [e|]] eqn:Ek.
  - go_inv. by eexists id, k, _, _.
  - destruct ha_Insert as [byID e] eqn:Ei. go_inv. eexists id, k, None, byID. naive_solver.
Qed.

Lemma AddMember_inv rc m rc' err : AddMember rc m = Done (rc', err) ->
  (rc' = rc /\ is_Some err) \/
  (rc_MembersByName rc !! ci_GetName m = None /\ AddMember_checkID rc = None /\
   AddMember_insert rc m = Done (rc', err)).
Proof.
  unfold AddMember, AddMember_nameInUse. case_bool_decide as Hn.
  - intros Ha. go_inv. left. eauto.
  - destruct (AddMember_checkID rc) eqn:Ec; intros Ha; go_inv; [left; eauto|].
    right. split; [|done]. by apply eq_None_not_Some.
Qed.

(** What a successful [AddMember] did. *)
Lemma AddMember_Ok rc m rc' : AddMember rc m = Done (rc', None) ->
  rc_MembersByName rc !! ci_GetName m = None /\
  exists id k byID, ci_GetNodeID m = Some id /\
    ha_NewBytesKey (Some (xi_Value id)) = (k, None) /\
    ha_Insert (rc_MembersByID rc) k m = (byID, None) /\
    rc' = mkRegCluster (rc_Name rc) (rc_ID rc) (rc_Attrs rc) (rc_maxSize rc) (rc_epCount rc)
            (rc_Members rc ++ [m]) (<[ci_GetName m := m]> (rc_MembersByName rc)) byID.
Proof.
  intros [[-> [e ?]]|(Hn & _ & (id & k & kerr & byID & Hid & Hk & Hr & ->)%AddMember_insert_inv)]
    %AddMember_inv; [done|].
  split; [done|]. exists id, k, byID. destruct kerr as [e|]; [by destruct Hr|].
  destruct Hr as (e & Hi & He). by destruct e.
Qed.

(** [AddMember] never changes the descriptive fields of a cluster, and changes
    the member list only by appending the new member. *)
Lemma AddMember_frame rc m rc' err : AddMember rc m = Done (rc', err) ->
  rc_Name rc' = rc_Name rc /\ rc_ID rc' = rc_ID rc /\ rc_Attrs rc' = rc_Attrs rc /\
  rc_maxSize rc' = rc_maxSize rc /\ rc_epCount rc' = rc_epCount rc /\
  (rc_Members rc' = rc_Members rc \/ rc_Members rc' = rc_Members rc ++ [m]).
Proof.
  intros [[-> _]|(_ & _ & (id & k & kerr & byID & _ & _ & _ & ->)%AddMember_insert_inv)]
    %AddMember_inv; simpl; auto 10.
Qed.

Lemma AddMember_not_starved rc m : AddMember rc m <> Starved.
Proof.
  unfold AddMember, AddMember_insert. repeat case_match; try done.
  destruct (ci_GetNodeID m); simpl; [|done]. by repeat case_match.
Qed.

Lemma NewRegCluster_wf `{!HamtLaws} name id attrs maxSize epCount rc :
  NewRegCluster name id attrs maxSize epCount = Done (Ok rc) -> rc_wf rc.
Proof.
  intros (nid & m & -> & Hm & ->)%NewRegCluster_Ok_inv. split; simpl.
  - constructor.
  - intros n c. rewrite lookup_empty. set_solver.
  - intros k c. by rewrite (ha_Find_new _ _ _ _ k Hm).
Qed.

(** The insertion keeps what can be kept, whatever the name of the member. *)
Lemma AddMember_insert_wf0 `{!HamtLaws} rc m rc' err :
  rc_wf0 rc -> AddMember_insert rc m = Done (rc', err) -> rc_wf0 rc'.
Proof.
  intros [W1 W2 W3] (id & k & kerr & byID & Hid & Hk & Hr & ->)%AddMember_insert_inv.
  split; simpl.
  - intros n c. rewrite lookup_insert, elem_of_app, list_elem_of_singleton. case_decide as E.
    + intros [= ->]. auto.
    + intros [? ?]%W1. auto.
  - intros c. rewrite lookup_insert, elem_of_app, list_elem_of_singleton. case_decide as E; [eauto|].
    intros [Hc| ->]; [by apply W2|done].
  - intros k' c. rewrite elem_of_app, list_elem_of_singleton.
    assert ((ha_Find byID k').1 = Some c ->
      (ha_Find (rc_MembersByID rc) k').1 = Some c \/ (k' = k /\ kerr = None /\ c = m)) as Hc.
    { destruct kerr as [e|].
      - destruct Hr as [-> _]. auto.
      - destruct Hr as ([e|] & Hi & _).
        + rewrite (ha_Find_insert_err _ _ _ _ k' _ _ Hi). auto.
        + destruct (decide (k = k')) as [<-|Hne].
          * rewrite (ha_Find_insert _ _ _ _ _ Hi). intros [= ->]. auto.
          * rewrite (ha_Find_insert_ne _ _ _ _ _ _ Hi Hne). auto. }
    intros [Hold|(-> & -> & ->)]%Hc; [naive_solver|]. split; eauto.
Qed.

(** The member is appended, under its name; nothing else of the description
    changes. *)
Lemma AddMember_insert_members rc m rc' err : AddMember_insert rc m = Done (rc', err) ->
  rc_Members rc' = rc_Members rc ++ [m] /\
  rc_Name rc' = rc_Name rc /\ rc_ID rc' = rc_ID rc /\ rc_Attrs rc' = rc_Attrs rc /\
  rc_maxSize rc' = rc_maxSize rc /\ rc_epCount rc' = rc_epCount rc.
Proof. by intros (id & k & kerr & byID & _ & _ & _ & ->)%AddMember_insert_inv. Qed.

Lemma AddMember_insert_distinct rc m rc' err : distinct_names rc ->
  ci_GetName m ∉ (ci_GetName <$> rc_Members rc) ->
  AddMember_insert rc m = Done (rc', err) -> distinct_names rc'.
Proof.
  unfold distinct_names. intros Hd Hn (-> & _)%AddMember_insert_members. rewrite fmap_app.
  apply NoDup_app. split_and!; [done| |apply NoDup_singleton].
  intros n Hin ->%list_elem_of_singleton. done.
Qed.

Lemma AddMember_insert_wf `{!HamtLaws} rc m rc' err :
  rc_wf rc -> rc_MembersByName rc !! ci_GetName m = None ->
  AddMember_insert rc m = Done (rc', err) -> rc_wf rc'.
Proof.
  rewrite !rc_wf_iff. intros [Hw Hd] Hn Hi. split; [by eapply AddMember_insert_wf0|].
  eapply AddMember_insert_distinct; [done| |done]. intros (c & Hc & Hin)%list_elem_of_fmap.
  destruct (wf0_indexed _ Hw c Hin) as [c' Hc']. congruence.
Qed.

Lemma AddMember_wf `{!HamtLaws} rc m rc' err :
  rc_wf rc -> AddMember rc m = Done (rc', err) -> rc_wf rc'.
Proof.
  intros Hw [[-> _]|(Hn & _ & Hi)]%AddMember_inv; [done|]. by eapply AddMember_insert_wf.
Qed.
End Facts.

#[export] Hint Resolve NewRegCluster_wf AddMember_wf : go.

(** ** Printing and parsing *)

(** Clusters made by [NewRegCluster] and successful [AddMember]s. *)
Inductive rc_built `{Ext} : RegCluster -> Prop :=
  | built_new name id attrs maxSize epCount rc :
      NewRegCluster name id attrs maxSize epCount = Done (Ok rc) -> rc_built rc
  | built_add rc m rc' : rc_built rc -> AddMember rc m = Done (rc', None) -> rc_built rc'.

Inductive adds `{Ext} : RegCluster -> list ClientInfo -> RegCluster -> Prop :=
  | adds_nil rc : adds rc [] rc
  | adds_cons rc m rc1 ms rc2 :
      AddMember rc m = Done (rc1, None) -> adds rc1 ms rc2 -> adds rc (m :: ms) rc2.

Definition rc_printable `{BaseNodePrintLaws} (rc : RegCluster) : Prop :=
  is_u64 (rc_Attrs rc) /\ clean (rc_Name rc) = true /\ nl ∉ rc_Name rc /\
  (exists id, rc_ID rc = Some id /\ id <> []) /\
  is_u32 (rc_epCount rc) /\ is_u32 (rc_maxSize rc) /\ Forall ci_printable (rc_Members rc).

Section RoundTrip.
Context `{Ext} `{!LineLaws} `{!BaseNodePrintLaws} `{!NodeIDLaws}.

Lemma adds_snoc rc ms rc1 m rc2 :
  adds rc ms rc1 -> AddMember rc1 m = Done (rc2, None) -> adds rc (ms ++ [m]) rc2.
Proof. induction 1; simpl; eauto using adds. Qed.

(** A cluster can be rebuilt from its fields. *)
Lemma built_replay rc nid : rc_built rc -> rc_ID rc = Some (xi_Value nid) ->
  exists rc0, NewRegCluster (rc_Name rc) (Some nid) (rc_Attrs rc) (rc_maxSize rc) (rc_epCount rc)
              = Done (Ok rc0) /\ adds rc0 (rc_Members rc) rc.
Proof.
  induction 1 as [name id attrs maxSize epCount rc Hn|rc m rc' Hb IH Ha]; intros Hid.
  - pose proof Hn as (n & m & -> & Hm & ->)%NewRegCluster_Ok_inv. simpl in *.
    eexists. split; [|by constructor]. injection Hid as Hid.
    unfold NewRegCluster in *. destruct (_ && _); [done|]. rewrite Hm in *. simpl. rewrite Hid.
    repeat case_bool_decide; naive_solver.
  - pose proof Ha as (_ & id & k & byID & _ & _ & _ & Hrc')%AddMember_Ok.
    pose proof (AddMember_frame _ _ _ _ Ha) as (E1 & E2 & E3 & E4 & E5 & _).
    destruct IH as (rc0 & Hn & Had); [congruence|].
    rewrite E1, E3, E4, E5. exists rc0. split; [done|]. subst rc'. simpl.
    eapply adds_snoc; eauto.
Qed.

Lemma rd_bind_field {A B} prefix (f : gostring -> A + exterr) (k : A -> reader B) i v ls :
  blank i = true -> clean (prefix ++ v) = true ->
  rd_bind (rd_field prefix f) k ((i ++ prefix ++ v) :: ls) =
  match f v with inl a => k a ls | inr e => (inr (ExtErr e), ls) end.
Proof.
  intros Hi Hc. unfold rd_bind, rd_field, rd_line. rewrite NextNBLine_clean by done.
  rewrite HasPrefix_app, drop_app_length. by destruct (f v).
Qed.

Lemma read_id_hex nid : exists n, read_id (EncodeToString (xi_Value nid)) = inl (Some n) /\
  xi_Value n = xi_Value nid.
Proof.
  unfold read_id. rewrite DecodeString_EncodeToString.
  destruct (xi_New_total nid) as [n En]. rewrite En.
  destruct (xi_New_Value _ _ En) as (? & [= <-] & Hv). eauto.
Qed.

Lemma read_count_d v : is_u32 v -> read_count (Sprint_d v) = inl v.
Proof.
  intros Hv. unfold read_count, is_u32 in *. rewrite Atoi_Sprint_d by lia.
  by rewrite u32_small.
Qed.

Lemma parse_members_lines fuel rc ms rc' tl rest :
  adds rc ms rc' -> Forall ci_printable ms -> TrimSpace tl = str "}" -> (length ms < fuel)%nat ->
  parse_members fuel rc ((ms ≫= fun m => (fun l => str "        " ++ l) <$> ci_Strings m)
                         ++ tl :: rest) = Done (rc', tl :: rest, None).
Proof.
  intros Had Hp Ht. revert fuel. induction Had as [rc|rc m rc1 ms rc2 Ha Had IH]; intros fuel Hf.
  - destruct fuel; [simpl in Hf; lia|]. simpl. by rewrite bool_decide_eq_true_2.
  - destruct fuel as [|fuel]; [simpl in Hf; lia|]. apply Forall_cons_1 in Hp as [Hm Hp].
    rewrite bind_cons, <-app_assoc. cbn [parse_members].
    rewrite ParseClientInfo_lines by done.
    assert (index (((fun l => str "        " ++ l) <$> ci_Strings m) ++
      (ms ≫= (fun m => (fun l => str "        " ++ l) <$> ci_Strings m)) ++ tl :: rest) 0
      = Done (str "        clientInfo {")) as -> by done.
    rewrite bind_Done, bool_decide_eq_false_2 by done. simpl. rewrite Ha. simpl.
    apply IH; [done|]. simpl in Hf. lia.
Qed.

Lemma hex_pad_clean n v : (0 < n)%nat -> clean (hex_pad n v) = true.
Proof.
  intros Hn. apply clean_solid; [|apply hex_pad_solid].
  intros E. apply (f_equal length) in E. rewrite hex_pad_length in E. simpl in E. lia.
Qed.

(** The header of a printed cluster is read back, unless the attributes have
    their top bit set. *)
Lemma parse_header_lines rc nid ls : rc_printable rc -> rc_ID rc = Some (xi_Value nid) ->
  exists n, xi_Value n = xi_Value nid /\
  parse_header (take 6 (rc_Strings rc) ++ ls) =
  if rc_Attrs rc <? 2 ^ 63 then
    (inl (rc_Attrs rc, rc_Name rc, Some n, rc_epCount rc, rc_maxSize rc), ls)
  else (inr (ExtErr errRange), drop 2 (take 6 (rc_Strings rc)) ++ ls).
Proof.
  intros (Ha & Hn & _ & (idb & Hidb & Hne) & He & Hs & _) Hid.
  destruct (read_id_hex nid) as (n & Hri & Hv). exists n. split; [done|].
  unfold rc_Strings. app_singletons. cbn [take drop]. rewrite <-!app_comm_cons.
  change (str "    Attrs: 0x") with (str "    " ++ str "Attrs: " ++ str "0x").
  change (str "    Name: ") with (str "    " ++ str "Name: ").
  change (str "    ID: ") with (str "    " ++ str "ID: ").
  change (str "    epCount: ") with (str "    " ++ str "epCount: ").
  change (str "    maxSize: ") with (str "    " ++ str "maxSize: ").
  rewrite <-!app_assoc. unfold parse_header. unfold rd_bind at 1, rd_line at 1.
  rewrite NextNBLine_bare by done. rewrite bool_decide_eq_true_2 by done.
  rewrite rd_bind_field; [|done|by repeat (apply clean_app; [done|]); apply hex_pad_clean; lia].
  unfold read_attrs. rewrite ParseInt0_hex by done.
  destruct (rc_Attrs rc <? 2 ^ 63); [|reflexivity].
  rewrite rd_bind_field; [|done|by apply clean_app].
  rewrite rd_bind_field; [|done|]; rewrite Hid;
    change (default [] (Some (xi_Value nid))) with (xi_Value nid).
  2: { apply clean_app; [done|]. apply hex_clean. congruence. }
  rewrite Hri, rd_bind_field, read_count_d; [|done..|].
  2: { apply clean_app; [done|]. apply Sprint_d_clean. by destruct He. }
  rewrite rd_bind_field, read_count_d; [|done..|].
  2: { apply clean_app; [done|]. apply Sprint_d_clean. by destruct Hs. }
  unfold u64. by rewrite Z.mod_small.
Qed.
End RoundTrip.

Lemma rc_Strings_no_nl `{BaseNodePrintLaws} rc : rc_printable rc -> Forall (fun l => nl ∉ l) (rc_Strings rc).
Proof.
  intros (_ & _ & Hn & _ & _ & _ & Hm). unfold rc_Strings.
  repeat (apply Forall_app; split); try (constructor; [|constructor]); try lit_notin.
  1-5: apply not_elem_of_app; split; [lit_notin|].
  - apply solid_no_nl, hex_pad_solid.
  - done.
  - apply solid_no_nl, EncodeToString_solid.
  - apply solid_no_nl, dec_go_solid.
  - apply solid_no_nl, dec_go_solid.
  - apply Forall_forall. intros l (m & Hl & Hin)%list_elem_of_bind.
    apply list_elem_of_fmap in Hl as (l' & -> & Hl').
    pose proof (proj1 (Forall_forall _ _) Hm _ Hin) as Hp.
    pose proof (proj1 (Forall_forall _ _) (ci_Strings_no_nl _ Hp) _ Hl').
    apply not_elem_of_app. split; [lit_notin|done].
Qed.

Lemma rc_Strings_split `{Ext} rc :
  rc_Strings rc = take 6 (rc_Strings rc) ++ str "    Members {" ::
    (rc_Members rc ≫= fun m => (fun l => str "        " ++ l) <$> ci_Strings m)
    ++ str "    }" :: [str "}"].
Proof. reflexivity. Qed.

Lemma members_lines_length `{Ext} ms :
  (length ms <= length (ms ≫= fun m => (fun l => str "        " ++ l) <$> ci_Strings m))%nat.
Proof.
  induction ms as [|m ms IH]; [done|]. rewrite bind_cons, length_app, length_fmap.
  unfold ci_Strings at 1. simpl length at 1 2. lia.
Qed.

(** The loop over members ends within its fuel. *)
Lemma parse_members_total `{LineLaws} `{!BaseNodeLaws} fuel rc rest :
  (length rest < fuel)%nat -> parse_members fuel rc rest <> Starved.
Proof.
  revert rc rest. induction fuel as [|f IH]; intros rc rest Hf; [lia|]. simpl.
  destruct rest as [|l rest]; [done|]. simpl. case_bool_decide; [done|].
  destruct (ParseClientInfoFromStrings (l :: rest)) as [[[member rest'] err]| |] eqn:E;
    [simpl|done|by apply ParseClientInfoFromStrings_total in E].
  destruct err as [e|]; [done|]. destruct member as [member|]; [simpl|done].
  destruct (AddMember rc member) as [[rc' [e|]]| |] eqn:Ha; try done.
  - simpl. apply IH. apply ParseClientInfoFromStrings_consumes in E; [|done]. simpl in *. lia.
  - exfalso. by eapply AddMember_not_starved.
Qed.

(** Any sequence of operations on a cluster, failed ones included. *)
Inductive rc_reach `{Ext} : RegCluster -> Prop :=
  | reach_new name id attrs maxSize epCount rc :
      NewRegCluster name id attrs maxSize epCount = Done (Ok rc) -> rc_reach rc
  | reach_add rc m rc' err : rc_reach rc -> AddMember rc m = Done (rc', err) -> rc_reach rc'
  | reach_addTo rc name id ck sk attrs ends rc' err :
      rc_reach rc -> AddToCluster rc name id ck sk attrs ends = Done (rc', err) -> rc_reach rc'.

Definition with_maxSize `{Ext} (n : Z) (rc : RegCluster) : RegCluster :=
  mkRegCluster (rc_Name rc) (rc_ID rc) (rc_Attrs rc) n (rc_epCount rc) (rc_Members rc)
    (rc_MembersByName rc) (rc_MembersByID rc).
Definition with_epCount `{Ext} (n : Z) (rc : RegCluster) : RegCluster :=
  mkRegCluster (rc_Name rc) (rc_ID rc) (rc_Attrs rc) (rc_maxSize rc) n (rc_Members rc)
    (rc_MembersByName rc) (rc_MembersByID rc).

(** ** Theorems *)

Section Theorems.
Context `{Ext}.

(** C34: Whatever sequence of operations a cluster went through, failed ones
    included, its members have distinct names, the index by name holds exactly
    the members, and the index by identifier holds only members under their own
    identifiers. *)
Theorem cluster_invariant `{!HamtLaws} rc : rc_reach rc -> rc_wf rc.
Proof.
  induction 1 as [|rc m rc' err _ IH Ha|rc name id ck sk attrs ends rc' err _ IH Ha];
    eauto with go.
  unfold AddToCluster in Ha. destruct NewClientInfo; go_inv; eauto with go.
Qed.

(** [AddMember] on a cluster with the invariant: a taken name is refused and
    changes nothing; a free name is appended last and can then be found by name
    and by identifier, and everything else stays as it was. *)
Theorem AddMember_spec `{!HamtLaws} rc m id k byID :
  rc_wf rc -> ci_GetNodeID m = Some id ->
  ha_NewBytesKey (Some (xi_Value id)) = (k, None) ->
  AddMember_checkID rc = None -> ha_Insert (rc_MembersByID rc) k m = (byID, None) ->
  (ci_GetName m ∈ (ci_GetName <$> rc_Members rc) ->
     AddMember rc m = Done (rc, Some (RegErr ClusterMemberNameInUse))) /\
  (ci_GetName m ∉ (ci_GetName <$> rc_Members rc) ->
     exists rc', AddMember rc m = Done (rc', None) /\
       rc_Members rc' = rc_Members rc ++ [m] /\
       rc_MembersByName rc' = <[ci_GetName m := m]> (rc_MembersByName rc) /\
       ha_Find (rc_MembersByID rc') k = (Some m, None) /\
       (forall k', k <> k' -> ha_Find (rc_MembersByID rc') k' = ha_Find (rc_MembersByID rc) k') /\
       rc_Name rc' = rc_Name rc /\ rc_ID rc' = rc_ID rc /\ rc_Attrs rc' = rc_Attrs rc /\
       rc_maxSize rc' = rc_maxSize rc /\ rc_epCount rc' = rc_epCount rc).
Proof.
  intros Hw Hid Hk Hc Hi. unfold AddMember, AddMember_nameInUse. split.
  - intros (c & Hn & Hin)%list_elem_of_fmap.
    rewrite bool_decide_eq_true_2; [done|]. exists c. by apply (wf_byName _ Hw).
  - intros Hn. rewrite bool_decide_eq_false_2.
    2: { intros [c [Hin Hcn]%(wf_byName _ Hw)]. apply Hn, list_elem_of_fmap. eauto. }
    rewrite Hc. unfold AddMember_insert. rewrite Hid. simpl. rewrite Hk, Hi. simpl.
    eexists. split; [done|]. simpl. repeat (split; [done|]).
    split; [by eapply ha_Find_insert|]. split; [|done]. intros k' Hne. by eapply ha_Find_insert_ne.
Qed.

(** The test for a duplicate identifier looks up the identifier of the
    cluster, not of the new member: a member whose identifier is already that of
    another member is added all the same. *)
Theorem AddMember_duplicate_ID `{!HamtLaws} rc cid k old new id idk byID :
  rc_wf rc -> rc_ID rc = Some cid -> ha_NewBytesKey (Some cid) = (k, None) ->
  (ha_Find (rc_MembersByID rc) k).2 = None ->
  (forall m n, m ∈ rc_Members rc -> ci_GetNodeID m = Some n -> xi_Value n <> cid) ->
  old ∈ rc_Members rc -> ci_GetNodeID old = Some id -> ci_GetNodeID new = Some id ->
  ci_GetName new ∉ (ci_GetName <$> rc_Members rc) ->
  ha_NewBytesKey (Some (xi_Value id)) = (idk, None) ->
  ha_Insert (rc_MembersByID rc) idk new = (byID, None) ->
  exists rc', AddMember rc new = Done (rc', None) /\ old ∈ rc_Members rc' /\ new ∈ rc_Members rc'.
Proof.
  intros Hw Hcid Hk Hf Hne Hold Hido Hidn Hname Hidk Hins.
  assert (AddMember_checkID rc = None) as Hc.
  { unfold AddMember_checkID. rewrite Hcid, Hk.
    destruct (ha_Find (rc_MembersByID rc) k) as [[m|] e] eqn:Ef; simpl in Hf; subst e; [|done].
    destruct (wf_byID _ Hw k m) as (Hm & n & Hn & Hkn); [by rewrite Ef|].
    exfalso. eapply (Hne m n); eauto. by eapply ha_NewBytesKey_inj. }
  unfold AddMember, AddMember_nameInUse. rewrite bool_decide_eq_false_2.
  2: { intros [c [Hin Hcn]%(wf_byName _ Hw)]. apply Hname, list_elem_of_fmap. eauto. }
  rewrite Hc. unfold AddMember_insert. rewrite Hidn. simpl. rewrite Hidk, Hins. simpl.
  eexists. split; [done|]. simpl. split; [by apply elem_of_app; left|].
  apply elem_of_app; right. by apply list_elem_of_singleton.
Qed.

(** [AddMember] does not look at the maximum size of the cluster: adding a
    member gives the same result whatever the maximum is, also when the cluster
    is full. *)
Theorem AddMember_ignores_maxSize n rc m :
  AddMember (with_maxSize n rc) m =
  ('(rc', err) ← AddMember rc m; Done (with_maxSize n rc', err)).
Proof.
  unfold AddMember, AddMember_nameInUse, AddMember_checkID, AddMember_insert, with_maxSize. simpl.
  repeat case_match; simplify_eq/=; try done.
  all: destruct (ci_GetNodeID m); simpl; [|done]; repeat case_match; simplify_eq/=; done.
Qed.

(** A cluster whose members need no end point is accepted: the error found
    for an [epCount] of zero is overwritten. *)
Theorem NewRegCluster_zero_endpoints name id attrs maxSize rc :
  NewRegCluster name id attrs maxSize 1 = Done (Ok rc) ->
  NewRegCluster name id attrs maxSize 0 = Done (Ok (with_epCount 0 rc)).
Proof.
  unfold NewRegCluster. simpl. destruct (maxSize <? 1); [done|]. simpl.
  destruct ha_NewHAMT; [|done]. destruct id; [|done]. by intros [= <-].
Qed.

(** C36: A cluster built from its members and printed with [String] is parsed back
    to the same cluster, with nothing left over, when its attributes are below
    2^63 and its texts fit on lines. *)
Theorem ParseRegCluster_String `{!LineLaws} `{!BaseNodePrintLaws} `{!NodeIDLaws} rc :
  rc_built rc -> rc_printable rc -> rc_Attrs rc < 2 ^ 63 ->
  ParseRegCluster (rc_String rc) = Done (Some rc, [], None).
Proof.
  intros Hb Hp Ha. unfold ParseRegCluster, rc_String.
  rewrite Split_Join_lines by (done || by apply rc_Strings_no_nl).
  pose proof Hp as (_ & _ & _ & (idb & Hid & _) & _ & _ & Hm).
  assert (exists nid, rc_ID rc = Some (xi_Value nid)) as [nid Hnid].
  { clear -Hb. induction Hb as [name id attrs maxSize epCount rc Hn|rc m rc' _ IH Ha].
    - apply NewRegCluster_Ok_inv in Hn as (n & m & -> & _ & ->). by eexists.
    - by destruct (AddMember_frame _ _ _ _ Ha) as (_ & -> & _). }
  rewrite rc_Strings_split. unfold ParseRegClusterFromStrings.
  destruct (parse_header_lines rc nid (str "    Members {" ::
    (rc_Members rc ≫= fun m => (fun l => str "        " ++ l) <$> ci_Strings m)
    ++ str "    }" :: [str "}"]) Hp Hnid) as (n & Hv & Hh).
  rewrite (proj2 (Z.ltb_lt _ _) Ha) in Hh. rewrite Hh.
  rewrite <-Hv in Hnid. destruct (built_replay rc n Hb Hnid) as (rc0 & -> & Had).
  rewrite bind_Done. change (str "    Members {") with (str "    " ++ str "Members {").
  rewrite NextNBLine_clean by done. rewrite bool_decide_eq_true_2 by done.
  pose proof (members_lines_length (rc_Members rc)).
  erewrite parse_members_lines by (done || (rewrite length_app; lia)).
  rewrite bind_Done. change (str "    }") with (str "    " ++ str "}").
  rewrite expectBrace_closing by done. by rewrite (expectBrace_closing []).
Qed.

(** C40: Parsing a cluster always ends, whatever the input: neither the loop over
    members nor the loop over end points runs out of its fuel. *)
Theorem ParseRegCluster_terminates `{!LineLaws} `{!BaseNodeLaws} s :
  ParseRegCluster s <> Starved.
Proof.
  unfold ParseRegCluster, ParseRegClusterFromStrings.
  destruct parse_header as [[[[[[a n] id] ep] ms]|e] rest]; [|done].
  unfold NewRegCluster. destruct (_ && _); [done|]. destruct ha_NewHAMT; [|done].
  destruct id as [id|]; [|done]. cbn [deref mbind outcome_bind].
  destruct xc_NextNBLine as [[line [e|]] rest1]; [done|].
  case_bool_decide; [|done]. match goal with |- context [parse_members ?f ?rc ?r] =>
    pose proof (parse_members_total f rc r ltac:(lia)) as Ht; destruct (parse_members f rc r)
      as [[[rc' rest2] [e|]]| |] end; try done. simpl.
  destruct expectBrace as [rest3 [e|]]; [done|]. by destruct expectBrace.
Qed.

(** Two clusters are [Equal] exactly when their attributes, names,
    identifiers, end-point counts, maximum sizes and members in order agree; it
    does not matter which members are shared objects.  Clusters are taken to have
    fewer than 2^32 members and members to be compared as values. *)
Theorem rc_Equal_spec rc other alias :
  (forall x y, xn_Equal x y = true <-> x = y) ->
  (forall i a b, alias i = true -> rc_Members rc !! i = Some a -> rc_Members other !! i = Some b -> a = b) ->
  is_u32 (Z.of_nat (length (rc_Members rc))) -> is_u32 (Z.of_nat (length (rc_Members other))) ->
  rc_Equal rc (RC_cluster other alias) = true <->
  rc_Attrs rc = rc_Attrs other /\ rc_Name rc = rc_Name other /\
  default [] (rc_ID rc) = default [] (rc_ID other) /\
  rc_epCount rc = rc_epCount other /\ rc_maxSize rc = rc_maxSize other /\
  rc_Members rc = rc_Members other.
Proof.
  intros Hbn Hal H1 H2. unfold rc_Equal, Size. rewrite !u32_small, Nat2Z.id by done.
  destruct (Z.eqb_spec (rc_Attrs rc) (rc_Attrs other)); simpl; [|naive_solver].
  case_bool_decide; simpl; [|naive_solver]. case_bool_decide; simpl; [|naive_solver].
  destruct (Z.eqb_spec (rc_epCount rc) (rc_epCount other)); simpl; [|naive_solver].
  destruct (Z.eqb_spec (rc_maxSize rc) (rc_maxSize other)); simpl; [|naive_solver].
  destruct (Z.eqb_spec (Z.of_nat (length (rc_Members rc))) (Z.of_nat (length (rc_Members other))));
    simpl; [|split; [done|intros (_ & _ & _ & _ & _ & E); by rewrite E in *]].
  rewrite forallb_forall. split.
  - intros Hf. repeat (split; [done|]). apply list_eq. intros i.
    destruct (rc_Members rc !! i) as [a|] eqn:Ea.
    + assert (In i (seq 0 (length (rc_Members rc)))) as Hi.
      { apply in_seq. apply lookup_lt_Some in Ea. lia. }
      specialize (Hf i Hi). rewrite Ea in Hf. destruct (rc_Members other !! i) as [b|] eqn:Eb; [|done].
      f_equal. destruct (alias i) eqn:E; [by eapply Hal|]. by apply ci_Equal_iff in Hf.
    + symmetry. apply lookup_ge_None in Ea. apply lookup_ge_None. lia.
  - intros (_ & _ & _ & _ & _ & E) i Hi%in_seq. rewrite <-E.
    destruct (lookup_lt_is_Some_2 (rc_Members rc) i) as [a Ha]; [lia|]. rewrite Ha.
    destruct (alias i); [done|]. by apply ci_Equal_iff.
Qed.

(** A cluster with the top bit of its attributes set prints but does not parse:
    the attributes are read as a signed number and found out of range. *)
Theorem ParseRegCluster_high_attrs `{!LineLaws} `{!BaseNodePrintLaws} `{!NodeIDLaws} rc nid :
  rc_ID rc = Some (xi_Value nid) -> rc_printable rc -> 2 ^ 63 <= rc_Attrs rc ->
  exists rest, ParseRegCluster (rc_String rc) = Done (None, rest, Some (ExtErr errRange)).
Proof.
  intros Hnid Hp Ha. unfold ParseRegCluster, rc_String.
  rewrite Split_Join_lines by (done || by apply rc_Strings_no_nl).
  rewrite rc_Strings_split. unfold ParseRegClusterFromStrings.
  edestruct (parse_header_lines rc nid) as (n & _ & Hh); [done..|].
  rewrite (proj2 (Z.ltb_ge _ _) Ha) in Hh. rewrite Hh. by eexists.
Qed.
End Theorems.

(** ** Witnesses *)

Module RegClusterWitness.
Import ModelInstances ClientInfoWitness.

Definition w_cluster0 : RegCluster :=
  mkRegCluster (str "east") (Some (str "abcdefghijABCDEFGHIJ")) 7 4 2 [] ∅ [].
Definition w_cluster1 : RegCluster :=
  match AddMember w_cluster0 w_member with Done (rc, _) => rc | _ => w_cluster0 end.
Definition w_twin : ClientInfo := mkClientInfo 0 None
  (Concrete.mkBase (str "bob") (Some (str "0123456789abcdefghij")) (Some w_key) (Some w_key)).

Lemma w_cluster0_new :
  NewRegCluster (str "east") (Some (str "abcdefghijABCDEFGHIJ")) 7 4 2 = Done (Ok w_cluster0).
Proof. reflexivity. Qed.

Lemma w_cluster1_add : AddMember w_cluster0 w_member = Done (w_cluster1, None).
Proof. reflexivity. Qed.

Lemma w_cluster1_wf : rc_wf w_cluster1.
Proof. eapply AddMember_wf, w_cluster1_add. eapply NewRegCluster_wf, w_cluster0_new. Qed.

Lemma w_cluster1_built : rc_built w_cluster1.
Proof. eapply built_add, w_cluster1_add. eapply built_new, w_cluster0_new. Qed.

Lemma w_printable rc : rc_Name rc = str "east" -> rc_ID rc = Some (str "abcdefghijABCDEFGHIJ") ->
  is_u64 (rc_Attrs rc) -> is_u32 (rc_epCount rc) -> is_u32 (rc_maxSize rc) ->
  Forall ci_printable (rc_Members rc) -> rc_printable rc.
Proof.
  intros Hn Hid Ha He Hm Hf. unfold rc_printable. rewrite Hn. split_and!; try done; [lit_notin|].
  by exists (str "abcdefghijABCDEFGHIJ").
Qed.

Lemma w_cluster1_printable : rc_printable w_cluster1.
Proof.
  apply w_printable; try done.
  apply Forall_singleton, w_member_printable.
Qed.

Lemma cluster_invariant_witness : rc_reach w_cluster1 /\ rc_wf w_cluster1.
Proof.
  assert (rc_reach w_cluster1) as Hr.
  { eapply reach_add; [|exact w_cluster1_add]. eapply reach_new. exact w_cluster0_new. }
  split; [exact Hr|]. apply cluster_invariant. exact Hr.
Defined.

Lemma AddMember_spec_witness : exists rc', AddMember w_cluster1 w_twin = Done (rc', None) /\
  rc_Members rc' = [w_member; w_twin].
Proof.
  destruct (AddMember_spec w_cluster1 w_twin (str "0123456789abcdefghij")
    (Some (str "0123456789abcdefghij")) ((Some (str "0123456789abcdefghij"), w_twin) ::
      rc_MembersByID w_cluster1) w_cluster1_wf eq_refl eq_refl eq_refl eq_refl) as [_ Hf].
  destruct Hf as (rc' & Ha & Hm & _).
  - apply (bool_decide_unpack _). vm_compute. exact I.
  - exists rc'. split; [exact Ha|exact Hm].
Defined.

Lemma AddMember_duplicate_ID_witness : exists rc', AddMember w_cluster1 w_twin = Done (rc', None) /\
  w_member ∈ rc_Members rc' /\ w_twin ∈ rc_Members rc'.
Proof.
  eapply (AddMember_duplicate_ID w_cluster1 (str "abcdefghijABCDEFGHIJ")
    (Some (str "abcdefghijABCDEFGHIJ")) w_member w_twin (str "0123456789abcdefghij")
    (Some (str "0123456789abcdefghij"))); try reflexivity.
  - exact w_cluster1_wf.
  - intros m n Hm%list_elem_of_singleton. subst m. intros [= <-]. discriminate.
  - by apply list_elem_of_singleton.
  - apply (bool_decide_unpack _). vm_compute. exact I.
Defined.

Lemma NewRegCluster_zero_endpoints_witness :
  NewRegCluster (str "east") (Some (str "abcdefghijABCDEFGHIJ")) 7 4 0 =
  Done (Ok (with_epCount 0 (with_epCount 1 w_cluster0))).
Proof. apply NewRegCluster_zero_endpoints. reflexivity. Defined.

Lemma ParseRegCluster_String_witness :
  ParseRegCluster (rc_String w_cluster1) = Done (Some w_cluster1, [], None).
Proof.
  apply ParseRegCluster_String; [exact w_cluster1_built|exact w_cluster1_printable|reflexivity].
Defined.

Lemma ParseRegCluster_terminates_witness : ParseRegCluster (str "regCluster {") <> Starved.
Proof. apply ParseRegCluster_terminates. Defined.

Lemma rc_Equal_spec_witness :
  rc_Equal w_cluster1 (RC_cluster (with_maxSize 4 w_cluster1) (fun _ => false)) = true.
Proof.
  apply rc_Equal_spec; [| |split; [discriminate|reflexivity]|split; [discriminate|reflexivity]|done].
  - intros x y. apply bool_decide_eq_true.
  - discriminate.
Defined.

Lemma ParseRegCluster_high_attrs_witness : exists rest,
  ParseRegCluster (rc_String (mkRegCluster (str "east") (Some (str "abcdefghijABCDEFGHIJ"))
    (2 ^ 63) 4 2 [] ∅ [])) = Done (None, rest, Some (ExtErr errRange)).
Proof.
  eapply ParseRegCluster_high_attrs with (nid := str "abcdefghijABCDEFGHIJ"); [reflexivity| |].
  - by apply w_printable.
  - discriminate.
Defined.
End RegClusterWitness.
