(* ===== verification/RegCred.v ===== *)
(** * Registry credentials

    Models reg_cred.go: the credentials a registry publishes in regCred.dat, their
    text form with lines ended by CR LF, and the parser for it. *)
From S2P Require Import Prelude GoStd GoCrypto Errors Proto Ext ExtModel ClientInfo RegCluster.

Section RegCred.
Context `{Ext}.

Record RegCred := mkRegCred {
  cred_Name : gostring;
  cred_ID : option NodeID;
  cred_CommsPubKey : option PublicKey;
  cred_SigPubKey : option PublicKey;
  cred_EndPoints : list (option EndPointI);
  cred_Version : DecimalVersion
}.

Definition crlf : gostring := ["013"%char; nl].

(** The lines of the end points; a [nil] end point is dereferenced. *)
Fixpoint endPoint_lines (eps : list (option EndPointI)) : outcome (list gostring) :=
  match eps with
  | [] => Done []
  | ep :: eps' =>
    e ← deref ep;
    ls ← endPoint_lines eps';
    Done ((str "         " ++ xt_EndPoint_String e) :: ls)
  end.

(** The errors of [RSAPubKeyToDisk] are ignored. *)
Definition cred_Strings (rc : RegCred) : outcome (list gostring) :=
  let ck := (xc_RSAPubKeyToDisk (cred_CommsPubKey rc)).1 in
  let sk := (xc_RSAPubKeyToDisk (cred_SigPubKey rc)).1 in
  id ← deref (cred_ID rc);
  eps ← endPoint_lines (cred_EndPoints rc);
  Done ([str "regCred {"]
        ++ [str "    Name: " ++ cred_Name rc]
        ++ [str "    ID: " ++ xi_String id]
        ++ [str "    CommsPubKey: " ++ ck]
        ++ [str "    SigPubKey: " ++ sk]
        ++ [str "    EndPoints {"]
        ++ eps
        ++ [str "    }"]
        ++ [str "    Version: " ++ xu_DecimalVersion_String (cred_Version rc)]
        ++ [str "}"]).

Definition cred_String (rc : RegCred) : outcome gostring :=
  ss ← cred_Strings rc;
  Done (Join ss crlf ++ crlf).

(** A line of the form "key: value", with exactly one separator. *)
Definition rd_keyed {A} (key : gostring) (f : gostring -> A + exterr) : reader A :=
  rd_line (fun line =>
    match Split line (str ": ") with
    | [k; v] => if bool_decide (k = key)
                then match f v with inl a => inl a | inr e => inr (ExtErr e) end
                else inr (RegErr IllFormedRegCred)
    | _ => inr (RegErr IllFormedRegCred)
    end).

Definition rd_literal (line : gostring) (err : error) : reader unit :=
  rd_line (fun l => if bool_decide (l = line) then inl tt else inr err).

Definition cred_header : reader (gostring * option NodeID * PublicKey * PublicKey) :=
  rd_bind (rd_literal (str "regCred {") (RegErr IllFormedRegCred)) (fun _ =>
  rd_bind (rd_keyed (str "Name") (fun v => inl (TrimLeft v [" "%char; "009"%char]))) (fun name =>
  rd_bind (rd_keyed (str "ID") read_id) (fun id =>
  rd_bind (rd_keyed (str "CommsPubKey") xc_RSAPubKeyFromDisk) (fun ck =>
  rd_bind (rd_keyed (str "SigPubKey") xc_RSAPubKeyFromDisk) (fun sk =>
  rd_bind (rd_literal (str "EndPoints {") (RegErr MissingEndPointsSection)) (fun _ =>
  fun ss => (inl (name, id, ck, sk), ss))))))).

(** One end-point line. *)
Definition parse_endPoint (line : gostring) : EndPointI + error :=
  match Split (TrimSpace line) (str ": ") with
  | [k; v] => if bool_decide (k = str "TcpEndPoint")
              then match xt_NewTcpEndPoint v with inl e => inl e | inr e => inr (ExtErr e) end
              else inr (RegErr IllFormedRegCred)
  | _ => inr (RegErr IllFormedRegCred)
  end.

(** The loop over end points, which stops on an error; fuel: one more than the
    lines. *)
Fixpoint parse_endPoints (fuel : nat) (eps : list (option EndPointI)) (ss : list gostring) :
    outcome ((list (option EndPointI) + error) * list gostring) :=
  match fuel with
  | O => Starved
  | S f =>
    peek ← index ss 0;
    if bool_decide (TrimSpace peek = str "}") then Done (inl eps, ss)
    else
      match rd_line parse_endPoint ss with
      | (inr e, rest) => Done (inr e, rest)
      | (inl ep, rest) => parse_endPoints f (eps ++ [Some ep]) rest
      end
  end.

Definition ParseRegCred (s : gostring) : outcome (result RegCred) :=
  match cred_header (Split s [nl]) with
  | (inr e, _) => Done (Err e)
  | (inl (name, id, ck, sk), ss) =>
    '(r, ss1) ← parse_endPoints (S (length ss)) [] ss;
    match r with
    | inr e => Done (Err e)
    | inl eps =>
      match rd_bind (rd_literal (str "}") (RegErr MissingClosingBrace))
                    (fun _ => rd_keyed (str "Version") xu_ParseDecimalVersion) ss1 with
      | (inr e, _) => Done (Err e)
      | (inl version, _) => Done (Ok (mkRegCred name id (Some ck) (Some sk) eps version))
      end
    end
  end.

End RegCred.
Arguments RegCred {_}.

(** ** Printing and parsing *)

(** Texts that can follow "key: " on a line. *)
Definition value_printable (v : gostring) : Prop :=
  clean v = true /\ nl ∉ v /\ contains v (str ": ") = false.

Section Printable.
Context `{Ext}.

(** Keys, end points and versions that their packages print on a line and read
    back. *)
Definition key_printable (k : option PublicKey) : Prop :=
  exists p, k = Some p /\ value_printable (xc_RSAPubKeyToDisk k).1 /\
    xc_RSAPubKeyFromDisk (xc_RSAPubKeyToDisk k).1 = inl p.
Definition ep_printable (ep : option EndPointI) : Prop :=
  exists e a, ep = Some e /\ xt_EndPoint_String e = str "TcpEndPoint: " ++ a /\
    value_printable a /\ xt_NewTcpEndPoint a = inl e.
Definition version_printable (v : DecimalVersion) : Prop :=
  value_printable (xu_DecimalVersion_String v) /\
  xu_ParseDecimalVersion (xu_DecimalVersion_String v) = inl v.

Definition cred_printable (rc : RegCred) : Prop :=
  value_printable (cred_Name rc) /\
  (exists id, cred_ID rc = Some id /\ xi_Value id <> []) /\
  key_printable (cred_CommsPubKey rc) /\ key_printable (cred_SigPubKey rc) /\
  Forall ep_printable (cred_EndPoints rc) /\ version_printable (cred_Version rc).
End Printable.

(** A line as it is found between two line feeds. *)
Definition cr (l : gostring) : gostring := l ++ ["013"%char].

Lemma Split_crlf ss : ss <> [] -> Forall (fun s => nl ∉ s) ss ->
  Split (Join ss crlf ++ crlf) [nl] = (cr <$> ss) ++ [[]].
Proof.
  unfold Split. intros Hne H. induction H as [|s ss Hs Hss IH]; [done|].
  assert (nl ∉ cr s) as Hcr.
  { unfold cr. apply not_elem_of_app. split; [done|]. by rewrite list_elem_of_singleton. }
  destruct ss as [|s' ss].
  - change (Join [s] crlf ++ crlf) with (s ++ (["013"%char] ++ [nl])).
    rewrite app_assoc, split_go_line by done. done.
  - assert (Join (s :: s' :: ss) crlf ++ crlf = cr s ++ nl :: Join (s' :: ss) crlf ++ crlf) as ->.
    { unfold cr. change (Join (s :: s' :: ss) crlf) with (s ++ crlf ++ Join (s' :: ss) crlf).
      by rewrite <-!app_assoc. }
    rewrite split_go_line by done. by rewrite IH.
Qed.

Lemma TrimLeft_clean v : clean v = true -> TrimLeft v [" "%char; "009"%char] = v.
Proof.
  destruct v as [|a v]; [done|]. unfold clean. destruct (last (a :: v)); [|done].
  intros [Ha _]%andb_prop. simpl. rewrite bool_decide_eq_false_2; [done|].
  rewrite !elem_of_cons, elem_of_nil. intros [->|[->|[]]]; by vm_compute in Ha.
Qed.

Lemma hex_no_sep b : contains (EncodeToString b) (str ": ") = false.
Proof.
  pose proof (EncodeToString_solid b) as Hs. unfold contains.
  apply not_true_iff_false. intros (i & _ & [t Ht]%HasPrefix_spec)%existsb_exists.
  assert (" "%char ∈ EncodeToString b) as Hin.
  { rewrite <-(take_drop i), Ht. apply elem_of_app. right.
    apply elem_of_app. left. vm_compute. right. left. }
  by pose proof (proj1 (Forall_forall _ _) Hs _ Hin).
Qed.

Section RoundTrip.
Context `{Ext} `{!LineLaws} `{!NodeIDLaws}.

Lemma NextNBLine_cr i s ls : blank i = true -> clean s = true ->
  xc_NextNBLine (cr (i ++ s) :: ls) = (s, None, ls).
Proof.
  intros Hi Hs. unfold cr. rewrite <-app_assoc.
  rewrite xc_NextNBLine_line; rewrite TrimSpace_line by done; [done|by apply clean_not_nil].
Qed.

Lemma rd_bind_literal {B} line err (k : unit -> reader B) i ls :
  blank i = true -> clean line = true ->
  rd_bind (rd_literal line err) k (cr (i ++ line) :: ls) = k tt ls.
Proof.
  intros Hi Hc. unfold rd_bind, rd_literal, rd_line. rewrite NextNBLine_cr by done.
  by rewrite bool_decide_eq_true_2.
Qed.

Lemma rd_keyed_line {A} key (f : gostring -> A + exterr) i v ls : blank i = true ->
  ":"%char ∉ key -> solid (default " "%char (head key)) = true ->
  value_printable v ->
  rd_keyed key f (cr (i ++ key ++ str ": " ++ v) :: ls) =
  (match f v with inl a => inl a | inr e => inr (ExtErr e) end, ls).
Proof.
  intros Hi Hk Hh (Hc & _ & Hn). unfold rd_keyed, rd_line.
  rewrite NextNBLine_cr; [|done|].
  - rewrite Split_key by done. by rewrite bool_decide_eq_true_2.
  - rewrite app_assoc. apply clean_app; [|done]. by destruct key.
Qed.

Lemma rd_bind_keyed {A B} key (f : gostring -> A + exterr) (k : A -> reader B) i v ls :
  blank i = true -> ":"%char ∉ key -> solid (default " "%char (head key)) = true ->
  value_printable v ->
  rd_bind (rd_keyed key f) k (cr (i ++ key ++ str ": " ++ v) :: ls) =
  match f v with inl a => k a ls | inr e => (inr (ExtErr e), ls) end.
Proof.
  intros. unfold rd_bind. rewrite rd_keyed_line by done. by destruct (f v).
Qed.
Lemma endPoint_lines_printable eps : Forall ep_printable eps ->
  exists ls, endPoint_lines eps = Done ls /\ length ls = length eps /\
    Forall2 (fun ep l => exists e a, ep = Some e /\
      l = str "         " ++ str "TcpEndPoint" ++ str ": " ++ a /\
      value_printable a /\ xt_NewTcpEndPoint a = inl e) eps ls.
Proof.
  induction 1 as [|ep eps (e & a & -> & Hs & Hp & Hn) _ (ls & Hls & Hl & IH)].
  - exists []. by split_and!.
  - simpl. rewrite Hls. simpl. eexists. split; [done|]. split; [by f_equal/=|].
    constructor; [|done]. exists e, a. by rewrite Hs.
Qed.

Lemma parse_endPoints_lines fuel acc eps ls tl rest : TrimSpace tl = str "}" ->
  Forall2 (fun ep l => exists e a, ep = Some e /\
      l = str "         " ++ str "TcpEndPoint" ++ str ": " ++ a /\
      value_printable a /\ xt_NewTcpEndPoint a = inl e) eps ls ->
  (length ls < fuel)%nat ->
  parse_endPoints fuel acc ((cr <$> ls) ++ tl :: rest) = Done (inl (acc ++ eps), tl :: rest).
Proof.
  intros Ht Hf. revert fuel acc.
  induction Hf as [|ep l eps ls (e & a & -> & -> & Hp & Hn) _ IH]; intros fuel acc Hl.
  - destruct fuel; [simpl in Hl; lia|]. simpl. by rewrite bool_decide_eq_true_2, app_nil_r.
  - destruct fuel as [|fuel]; [simpl in Hl; lia|]. rewrite fmap_cons, <-app_comm_cons.
    pose proof Hp as (Hc & _ & Hnc).
    assert (clean (str "TcpEndPoint" ++ str ": " ++ a) = true) as Hcl by (by repeat apply clean_app).
    cbn [parse_endPoints]. rewrite index_head.
    assert (TrimSpace (cr (str "         " ++ str "TcpEndPoint" ++ str ": " ++ a))
      = str "TcpEndPoint" ++ str ": " ++ a) as Htr.
    { unfold cr. rewrite <-(app_assoc (str "         ")). by apply TrimSpace_line. }
    rewrite bind_Done, Htr, bool_decide_eq_false_2 by done.
    unfold rd_line. rewrite NextNBLine_cr by done. unfold parse_endPoint.
    rewrite TrimSpace_clean, Split_key by first [done | lit_notin]. rewrite bool_decide_eq_true_2, Hn by done.
    rewrite IH by (simpl in Hl; lia). by rewrite <-app_assoc.
Qed.

Lemma cred_header_lines rc id rest : cred_printable rc -> cred_ID rc = Some id ->
  exists n ck sk, xi_Value n = xi_Value id /\
    cred_CommsPubKey rc = Some ck /\ cred_SigPubKey rc = Some sk /\
  cred_header ((cr <$> [str "regCred {"; str "    Name: " ++ cred_Name rc;
      str "    ID: " ++ xi_String id;
      str "    CommsPubKey: " ++ (xc_RSAPubKeyToDisk (cred_CommsPubKey rc)).1;
      str "    SigPubKey: " ++ (xc_RSAPubKeyToDisk (cred_SigPubKey rc)).1;
      str "    EndPoints {"]) ++ rest) = (inl (cred_Name rc, Some n, ck, sk), rest).
Proof.
  intros (Hn & (id' & Hid' & Hne) & (ck & Hck & Vck & Rck) & (sk & Hsk & Vsk & Rsk) & _) Hid.
  assert (id' = id) as -> by congruence.
  destruct (read_id_hex id) as (n & Hri & Hv). exists n, ck, sk. split_and!; try done.
  cbn [app fmap list_fmap]. unfold cred_header.
  change (str "    Name: ") with (str "    " ++ str "Name" ++ str ": ").
  change (str "    ID: ") with (str "    " ++ str "ID" ++ str ": ").
  change (str "    CommsPubKey: ") with (str "    " ++ str "CommsPubKey" ++ str ": ").
  change (str "    SigPubKey: ") with (str "    " ++ str "SigPubKey" ++ str ": ").
  rewrite <-!app_assoc.
  rewrite (rd_bind_literal (str "regCred {") _ _ []) by done.
  rewrite rd_bind_keyed by first [done | lit_notin].
  destruct Hn as (Hnc & _). rewrite TrimLeft_clean by done.
  assert (value_printable (xi_String id)).
  { rewrite xi_String_hex.
    split_and!; [by apply hex_clean|apply solid_no_nl, EncodeToString_solid|apply hex_no_sep]. }
  rewrite rd_bind_keyed by first [done | lit_notin].
  rewrite xi_String_hex, Hri. cbv beta iota.
  rewrite rd_bind_keyed by first [done | lit_notin]. rewrite Rck. cbv beta iota.
  rewrite rd_bind_keyed by first [done | lit_notin]. rewrite Rsk. cbv beta iota.
  by rewrite (rd_bind_literal (str "EndPoints {") _ _ (str "    ")) by done.
Qed.

(** The lines printed, and that none contains a line feed. *)
Lemma cred_Strings_lines rc id ls : cred_ID rc = Some id ->
  endPoint_lines (cred_EndPoints rc) = Done ls ->
  cred_Strings rc = Done ([str "regCred {"; str "    Name: " ++ cred_Name rc;
      str "    ID: " ++ xi_String id;
      str "    CommsPubKey: " ++ (xc_RSAPubKeyToDisk (cred_CommsPubKey rc)).1;
      str "    SigPubKey: " ++ (xc_RSAPubKeyToDisk (cred_SigPubKey rc)).1;
      str "    EndPoints {"] ++ ls ++ [str "    }";
      str "    " ++ str "Version" ++ str ": " ++ xu_DecimalVersion_String (cred_Version rc);
      str "}"]).
Proof. intros Hid Hls. unfold cred_Strings. by rewrite Hid, Hls. Qed.

Lemma cred_lines_no_nl rc id ls : cred_printable rc -> cred_ID rc = Some id ->
  Forall2 (fun ep l => exists e a, ep = Some e /\
      l = str "         " ++ str "TcpEndPoint" ++ str ": " ++ a /\
      value_printable a /\ xt_NewTcpEndPoint a = inl e) (cred_EndPoints rc) ls ->
  Forall (fun s => nl ∉ s) ([str "regCred {"; str "    Name: " ++ cred_Name rc;
      str "    ID: " ++ xi_String id;
      str "    CommsPubKey: " ++ (xc_RSAPubKeyToDisk (cred_CommsPubKey rc)).1;
      str "    SigPubKey: " ++ (xc_RSAPubKeyToDisk (cred_SigPubKey rc)).1;
      str "    EndPoints {"] ++ ls ++ [str "    }";
      str "    " ++ str "Version" ++ str ": " ++ xu_DecimalVersion_String (cred_Version rc);
      str "}"]).
Proof.
  intros ((_ & Hn & _) & _ & (ck & _ & (_ & Hck & _) & _) & (sk & _ & (_ & Hsk & _) & _) & _
    & (_ & Hv & _) & _) _ Hf.
  assert (nl ∉ xi_String id) as Hid.
  { rewrite xi_String_hex. apply solid_no_nl, EncodeToString_solid. }
  apply Forall_app. split.
  { repeat constructor; first [lit_notin | apply no_nl_app; [lit_notin|done]]. }
  apply Forall_app. split.
  - induction Hf as [|ep l eps ls (e & a & _ & -> & (_ & Ha & _) & _) _ IH]; constructor; [|done].
    repeat (apply no_nl_app; [lit_notin|]). done.
  - repeat constructor; [lit_notin| |lit_notin].
    repeat (apply no_nl_app; [lit_notin|]). done.
Qed.
End RoundTrip.

(** ** Theorems *)

Section Theorems.
Context `{Ext}.

(** Credentials written with [String] are read back by [ParseRegCred]: the
    name, keys, end points and version are the same and the identifier has the
    same value, provided the texts fit on lines and do not contain ": ". *)
Lemma ParseRegCred_String `{!LineLaws} `{!NodeIDLaws} rc id :
  cred_printable rc -> cred_ID rc = Some id ->
  exists s n, cred_String rc = Done s /\ xi_Value n = xi_Value id /\
    ParseRegCred s = Done (Ok (mkRegCred (cred_Name rc) (Some n) (cred_CommsPubKey rc)
      (cred_SigPubKey rc) (cred_EndPoints rc) (cred_Version rc))).
Proof.
  intros Hp Hid. pose proof Hp as (Hn & _ & Hck & Hsk & Hep & (Vv & Rv)).
  destruct (endPoint_lines_printable _ Hep) as (ls & Hls & Hlen & Hf).
  unfold cred_String. rewrite (cred_Strings_lines rc id ls) by done. rewrite bind_Done.
  destruct (cred_header_lines rc id ((cr <$> ls) ++ cr (str "    }") ::
    [cr (str "    " ++ str "Version" ++ str ": " ++ xu_DecimalVersion_String (cred_Version rc));
     cr (str "}"); []]) Hp Hid) as (n & ck & sk & Hv & Eck & Esk & Hh).
  eexists _, n. split; [done|]. split; [done|]. unfold ParseRegCred.
  rewrite Split_crlf by (done || by eapply cred_lines_no_nl).
  rewrite !fmap_app, <-!app_assoc. cbn [fmap list_fmap app] in *. rewrite Hh.
  rewrite (parse_endPoints_lines _ _ (cred_EndPoints rc)); [|done|done|].
  2: { rewrite length_app, length_fmap. lia. }
  rewrite bind_Done. cbn [app].
  rewrite (rd_bind_literal (str "}") _ _ (str "    ")) by done.
  rewrite rd_keyed_line by first [done | lit_notin]. by rewrite Rv, Eck, Esk.
Qed.
End Theorems.

(** ** Witness *)

Module RegCredWitness.
Import ModelInstances ClientInfoWitness.

Definition w_cred : RegCred := mkRegCred (str "xlReg") (Some (str "0123456789abcdefghij"))
  (Some w_key) (Some w_key) [Some (str "127.0.0.1:44444")] (str "0.2.3").

Lemma w_value (v : gostring) : clean v && bool_decide (nl ∉ v) && negb (contains v (str ": ")) = true ->
  value_printable v.
Proof. intros [[? ?%bool_decide_eq_true_1]%andb_prop ?%negb_true_iff]%andb_prop. by split_and!. Qed.

Lemma w_cred_printable : cred_printable w_cred.
Proof.
  assert (key_printable (Some w_key)).
  { exists w_key. split_and!; [done| |reflexivity]. apply w_value. vm_compute. reflexivity. }
  split_and!; try done.
  - apply w_value. vm_compute. reflexivity.
  - by eexists.
  - repeat constructor. eexists _, (str "127.0.0.1:44444"). split_and!; try done.
    apply w_value. vm_compute. reflexivity.
  - split; [|done]. apply w_value. vm_compute. reflexivity.
Qed.

End RegCredWitness.
