(* ===== verification/RegNode.v ===== *)
(** * The registry's own node

    Models reg_node.go: the node a registry runs as, with its two private keys
    and its acceptor, and the text form in which it is kept on disk.  The
    channels StopCh and StoppedCh, which no code uses, are left out. *)
From S2P Require Import Prelude GoStd GoCrypto Errors Proto Ext ExtModel ClientInfo.

Section RegNode.
Context `{Ext}.

Record RegNode := mkRegNode {
  rn_Acc : AcceptorI;
  rn_ckPriv : option PrivateKey;
  rn_skPriv : option PrivateKey;
  rn_Node : Node
}.

Definition NewRegNode (node : option Node) (commsKey sigKey : option PrivateKey) :
    result RegNode :=
  match node with
  | None => Err (RegErr NilNode)
  | Some node =>
    match xn_Node_GetAcceptor node 0 with
    | None => Err (ExtErr xm_AcceptorNotLive)
    | Some acc => Ok (mkRegNode acc commsKey sigKey node)
    end
  end.

Definition rn_Strings (rn : RegNode) : list gostring :=
  [str "regNode {"]
  ++ ((fun l => str "    " ++ l) <$> xn_Node_Strings (rn_Node rn))
  ++ [str "    ckPriv: " ++ (xc_RSAPrivateKeyToDisk (rn_ckPriv rn)).1]
  ++ [str "    skPriv: " ++ (xc_RSAPrivateKeyToDisk (rn_skPriv rn)).1]
  ++ [str "}"].

Definition rn_String (rn : RegNode) : gostring := Join (rn_Strings rn) [nl].

(** A line [key: -----BEGIN -----] and the key that follows it.  [parts[1]] is
    read only when [parts[0]] is the key. *)
Definition parse_private_key (key : gostring) (ss : list gostring) :
    outcome (option PrivateKey * list gostring * option error) :=
  let '(line, err, rest) := xc_NextNBLine ss in
  match err with
  | Some e => Done (None, rest, Some (ExtErr e))
  | None =>
    let parts := Split line (str ": ") in
    part0 ← index parts 0;
    ok ← (if bool_decide (part0 = key) then
            part1 ← index parts 1;
            Done (bool_decide (part1 = str "-----BEGIN -----"))
          else Done false);
    if ok : bool then
      let '(k, rest', err') := xn_ExpectRSAPrivateKey rest in Done (k, rest', ExtErr <$> err')
    else Done (None, rest, Some (RegErr MissingPrivateKey))
  end.

(** The closing brace, then the acceptor is opened and the node built. *)
Definition finish_RegNode (node : option Node) (ckPriv skPriv : option PrivateKey)
    (ss : list gostring) : outcome (option RegNode * list gostring * option error) :=
  let '(rest, err) := expectBrace ss in
  match err with
  | Some e => Done (None, rest, Some e)
  | None =>
    node ← deref node;
    let '(node', err1) := xn_Node_OpenAcc node in
    match err1 with
    | Some e => Done (None, rest, Some (ExtErr e))
    | None =>
      match NewRegNode (Some node') ckPriv skPriv with
      | Ok rn => Done (Some rn, rest, None)
      | Err e => Done (None, rest, Some e)
      end
    end
  end.

(** When there is no first line at all, the parser goes on. *)
Definition ParseRegNodeFromStrings (ss : list gostring) :
    outcome (option RegNode * list gostring * option error) :=
  let '(line, err, rest) := xc_NextNBLine ss in
  if bool_decide (err = None) && negb (bool_decide (line = str "regNode {")) then
    Done (None, rest, Some (RegErr MissingRegNodeLine))
  else
    let '(node, rest1, err1) := xn_ParseFromStrings rest in
    match err1 with
    | Some e => Done (None, rest1, Some (ExtErr e))
    | None =>
      '(ckPriv, rest2, err2) ← parse_private_key (str "ckPriv") rest1;
      match err2 with
      | Some e => Done (None, rest2, Some e)
      | None =>
        '(skPriv, rest3, err3) ← parse_private_key (str "skPriv") rest2;
        match err3 with
        | Some e => Done (None, rest3, Some e)
        | None => finish_RegNode node ckPriv skPriv rest3
        end
      end
    end.

Definition ParseRegNode (s : gostring) : outcome (option RegNode * list gostring * option error) :=
  ParseRegNodeFromStrings (Split s [nl]).

End RegNode.
Arguments RegNode {_}.

(** ** Printing and parsing *)

Section Facts.
Context `{Ext} `{!LineLaws} `{!NodePrintLaws}.

Lemma NextNBLine_blanks bl ls : Forall (fun l => TrimSpace l = []) bl ->
  xc_NextNBLine (bl ++ ls) = xc_NextNBLine ls.
Proof. induction 1 as [|l bl Hl _ IH]; [done|]. cbn [app]. by rewrite xc_NextNBLine_blank. Qed.

(** A printed private key is read back, after blank lines too. *)
Lemma parse_private_key_lines key bl k body blanks rest :
  Forall (fun l => TrimSpace l = []) bl -> ":"%char ∉ key ->
  solid (default " "%char (head key)) = true ->
  xn_ExpectRSAPrivateKey (body ++ rest) = (Some k, blanks ++ rest, None) ->
  parse_private_key key (bl ++ (str "    " ++ key ++ str ": " ++ str "-----BEGIN -----") :: body ++ rest)
  = Done (Some k, blanks ++ rest, None).
Proof.
  intros Hbl Hk Hs Hx. unfold parse_private_key. rewrite NextNBLine_blanks by done.
  rewrite NextNBLine_clean; [|done|]. 
  - rewrite Split_key by done. rewrite index_head, bind_Done, bool_decide_eq_true_2 by done.
    simpl. by rewrite Hx.
  - rewrite app_assoc. apply clean_app; [|done]. by destruct key.
Qed.

(** The text of a registry node as lines. *)
Lemma rn_String_lines rn cbody sbody :
  (xc_RSAPrivateKeyToDisk (rn_ckPriv rn)).1 = Join (str "-----BEGIN -----" :: cbody) [nl] ->
  (xc_RSAPrivateKeyToDisk (rn_skPriv rn)).1 = Join (str "-----BEGIN -----" :: sbody) [nl] ->
  rn_String rn = Join (str "regNode {" ::
    ((fun l => str "    " ++ l) <$> xn_Node_Strings (rn_Node rn)) ++
    (str "    " ++ str "ckPriv" ++ str ": " ++ str "-----BEGIN -----") :: cbody ++
    (str "    " ++ str "skPriv" ++ str ": " ++ str "-----BEGIN -----") :: sbody ++ [str "}"]) [nl].
Proof.
  intros Hc Hs. unfold rn_String, rn_Strings. rewrite Hc, Hs. app_singletons.
  rewrite app_comm_cons, Join_nested by done.
  rewrite (app_comm_cons cbody), app_assoc, Join_nested by done. by rewrite <-app_assoc.
Qed.

Lemma rn_lines_no_nl ns cbody sbody :
  Forall (fun l => nl ∉ l) ns -> Forall (fun l => nl ∉ l) cbody -> Forall (fun l => nl ∉ l) sbody ->
  Forall (fun l => nl ∉ l) (str "regNode {" :: ((fun l => str "    " ++ l) <$> ns) ++
    (str "    " ++ str "ckPriv" ++ str ": " ++ str "-----BEGIN -----") :: cbody ++
    (str "    " ++ str "skPriv" ++ str ": " ++ str "-----BEGIN -----") :: sbody ++ [str "}"]).
Proof.
  intros Hn Hc Hs. constructor; [lit_notin|]. apply Forall_app. split.
  { apply Forall_fmap. eapply Forall_impl; [exact Hn|]. intros l Hl.
    apply (no_nl_app (str "    ")); [lit_notin|done]. }
  constructor; [apply (bool_decide_unpack _); vm_compute; exact I|]. apply Forall_app. split; [done|].
  constructor; [apply (bool_decide_unpack _); vm_compute; exact I|]. apply Forall_app. split; [done|].
  repeat constructor. lit_notin.
Qed.

Lemma finish_RegNode_lines n ck sk bl n' acc :
  Forall (fun l => TrimSpace l = []) bl ->
  xn_Node_OpenAcc n = (n', None) -> xn_Node_GetAcceptor n' 0 = Some acc ->
  finish_RegNode (Some n) ck sk (bl ++ [str "}"]) = Done (Some (mkRegNode acc ck sk n'), [], None).
Proof.
  intros Hbl Ho Ha. unfold finish_RegNode, expectBrace. rewrite NextNBLine_blanks by done.
  rewrite NextNBLine_bare, bool_decide_eq_true_2 by done. simpl. by rewrite Ho, Ha.
Qed.

(** A printed node is read back. *)
Lemma ParseRegNode_printed rn ck sk n' acc :
  node_printable (rn_Node rn) -> rn_ckPriv rn = Some ck -> rn_skPriv rn = Some sk ->
  priv_printable ck -> priv_printable sk ->
  xn_Node_OpenAcc (rn_Node rn) = (n', None) -> xn_Node_GetAcceptor n' 0 = Some acc ->
  ParseRegNode (rn_String rn) = Done (Some (mkRegNode acc (Some ck) (Some sk) n'), [], None).
Proof.
  intros Hn Eck Esk Hck Hsk Ho Ha.
  destruct (xc_PrivateKey_disk ck Hck) as (cbody & cbl & Hcd & Hcn & Hcb & Hcx).
  destruct (xc_PrivateKey_disk sk Hsk) as (sbody & sbl & Hsd & Hsn & Hsb & Hsx).
  unfold ParseRegNode. rewrite (rn_String_lines rn cbody sbody) by (by rewrite ?Eck, ?Esk, ?Hcd, ?Hsd).
  rewrite Split_Join_lines by (done || by apply rn_lines_no_nl; [apply xn_Node_Strings_no_nl|..]).
  unfold ParseRegNodeFromStrings. rewrite NextNBLine_bare, !bool_decide_eq_true_2 by done.
  cbn [negb andb].
  rewrite (xn_Parse_Node_Strings (rn_Node rn)); [|done|].
  2: { rewrite <-list_fmap_compose. apply list_fmap_ext. intros i l _. by apply (TrimSpace_indent (str "    ")). }
  assert (forall rest, parse_private_key (str "ckPriv") ((str "    " ++ str "ckPriv" ++ str ": " ++
    str "-----BEGIN -----") :: cbody ++ rest) = Done (Some ck, cbl ++ rest, None)) as ->.
  { intros rest. apply (parse_private_key_lines (str "ckPriv") []); done || apply Hcx || lit_notin. }
  rewrite bind_Done.
  rewrite (parse_private_key_lines (str "skPriv") cbl sk sbody sbl) by (done || apply Hsx || lit_notin).
  rewrite bind_Done. by apply finish_RegNode_lines.
Qed.
End Facts.

(** ** Theorems *)

Section Theorems.
Context `{Ext}.

(** A registry node written with [String] is read back by [ParseRegNode]: the
    node and both private keys are the same, its acceptor is open, and no line is
    left over. *)
Theorem ParseRegNode_String `{!LineLaws} `{!NodePrintLaws} rn ck sk n' acc :
  node_printable (rn_Node rn) -> rn_ckPriv rn = Some ck -> rn_skPriv rn = Some sk ->
  priv_printable ck -> priv_printable sk ->
  xn_Node_OpenAcc (rn_Node rn) = (n', None) -> xn_Node_GetAcceptor n' 0 = Some acc ->
  ParseRegNode (rn_String rn) = Done (Some (mkRegNode acc (Some ck) (Some sk) n'), [], None).
Proof. apply ParseRegNode_printed. Qed.

(** A line that is just the word "ckPriv" (or "skPriv") where a private key is
    expected makes the parser panic: the second part of the line is read without
    a check that there is one. *)
Theorem parse_private_key_panics `{!LineLaws} key ls :
  clean key = true -> contains key (str ": ") = false ->
  parse_private_key key (key :: ls) = Panics IndexOutOfRange.
Proof.
  intros Hk Hc. unfold parse_private_key. rewrite NextNBLine_bare by done.
  unfold Split. rewrite split_go_none by done. simpl. by rewrite bool_decide_eq_true_2.
Qed.
End Theorems.

(** ** Witnesses *)

Module RegNodeWitness.
Import ModelInstances ClientInfoWitness.

Definition w_priv : PrivateKey := mkPrivateKey w_key 2753.
Definition w_node : Node := Concrete.mkNode w_base [] [str "acceptor"] [] None None.
Definition w_regNode : RegNode := mkRegNode (str "acceptor") (Some w_priv) (Some w_priv) w_node.

Lemma ParseRegNode_String_witness : ParseRegNode (rn_String w_regNode) = Done (Some w_regNode, [], None).
Proof.
  apply (ParseRegNode_String w_regNode w_priv w_priv w_node (str "acceptor")); try reflexivity.
  - apply w_member_printable.
  - vm_compute. split_and!; discriminate || reflexivity.
  - vm_compute. split_and!; discriminate || reflexivity.
Defined.

Lemma parse_private_key_panics_witness :
  parse_private_key (str "ckPriv") [str "ckPriv"; str "}"] = Panics IndexOutOfRange.
Proof. apply parse_private_key_panics; reflexivity. Defined.
End RegNodeWitness.
