(* ===== verification/Registry.v ===== *)
(** * The registry

    Models registry.go, reg_options.go and version.go: the registry's clusters
    with their two indexes, the filter of identifiers it has seen, and the
    operations on them.

    Clusters are shared: the registry's list and indexes and the handlers all
    hold pointers to them, and [AddMember] changes the object pointed to.  The
    clusters that were allocated form a heap, and a pointer is an address in it
    (the heap only grows, at its end).  The identifiers that [xi.New(nil)] will
    return are a tape.  RegMembersByID, [m] and [k], which no code sets or reads,
    and the loggers are left out. *)
From S2P Require Import Prelude GoStd GoCrypto Errors Proto Ext ExtModel ClientInfo RegCluster.
From S2P Require Import RegCred RegNode.

Definition VERSION : gostring := str "1.9.24".
Definition VERSION_DATE : gostring := str "2017-11-20".

Abbreviation ptr := nat.

Section Registry.
Context `{Ext}.

Record RegOptions := mkRegOptions {
  opt_Address : gostring;
  opt_BackingFile : gostring;
  opt_ClearFilter : bool;
  opt_EndPoint : option EndPointI;
  opt_Ephemeral : bool;
  opt_GlobalEndPoint : option EndPointI;
  opt_K : Z;
  opt_Lfs : gostring;
  opt_M : Z;
  opt_Name : gostring;
  opt_Port : gostring;
  opt_Testing : bool;
  opt_T : Z;
  opt_Verbose : bool
}.

Record Registry := mkRegistry {
  reg_LogFile : gostring;
  reg_Clusters : list ptr;
  reg_GlobalEndPoint : option EndPointI;
  reg_idFilter : BloomSHA;
  reg_ClustersByName : gmap gostring ptr;
  reg_ClustersByID : HAMT ptr;
  reg_RegNode : RegNode
}.

Definition with_idFilter (f : BloomSHA) (reg : Registry) : Registry :=
  mkRegistry (reg_LogFile reg) (reg_Clusters reg) (reg_GlobalEndPoint reg) f
    (reg_ClustersByName reg) (reg_ClustersByID reg) (reg_RegNode reg).
Definition with_clusters (cs : list ptr) (byName : gmap gostring ptr) (byID : HAMT ptr)
    (reg : Registry) : Registry :=
  mkRegistry (reg_LogFile reg) cs (reg_GlobalEndPoint reg) (reg_idFilter reg)
    byName byID (reg_RegNode reg).

(** ** Identifiers *)

Definition ContainsID (reg : Registry) (n : option NodeID) : outcome (bool * option error) :=
  n ← deref n;
  let '(found, err) := xf_IsMember (reg_idFilter reg) (xi_Value n) in
  Done (found, ExtErr <$> err).

Definition InsertID (reg : Registry) (n : option NodeID) : outcome (Registry * option error) :=
  n ← deref n;
  let b := xi_Value n in
  match xf_IsMember (reg_idFilter reg) b with
  | (_, Some e) => Done (reg, Some (ExtErr e))
  | (true, None) => Done (reg, Some (RegErr IDAlreadyInUse))
  | (false, None) =>
    let '(f, err) := xf_Insert (reg_idFilter reg) b in
    Done (with_idFilter f reg, ExtErr <$> err)
  end.

Definition IDCount (reg : Registry) : Z := xf_Size (reg_idFilter reg).

(** The error of [xi.New] is overwritten by that of [ContainsID], which has by
    then dereferenced the identifier. *)
Fixpoint InsertUniqueNodeID (reg : Registry) (ds : list draw) :
    outcome (option NodeID * option error * Registry * list draw) :=
  match ds with
  | [] => Starved
  | (nodeID, _) :: ds' =>
    '(found, err) ← ContainsID reg nodeID;
    match err with
    | Some e => Done (nodeID, Some e, reg, ds')
    | None =>
      if found : bool then InsertUniqueNodeID reg ds'
      else
        id ← deref nodeID;
        let '(f, err') := xf_Insert (reg_idFilter reg) (xi_Value id) in
        Done (nodeID, ExtErr <$> err', with_idFilter f reg, ds')
    end
  end.

(** ** Clusters *)

(** The member is not indexed; the cluster member is only tested for [nil]. *)
Definition indexClusterMember (cluster : option ptr) (cm : option unit) : Z * option error :=
  match cluster, cm with
  | None, _ => (0, Some (RegErr NilCluster))
  | Some _, None => (0, Some (RegErr NilClusterMember))
  | Some _, Some _ => (0, None)
  end.

(** What the handlers share: the registry, the clusters, the identifiers to
    come. *)
Record world := mkWorld {
  w_reg : Registry;
  w_heap : list RegCluster;
  w_draws : list draw
}.

(** The whole of [AddCluster] after the first conversion is done under the write
    lock. *)
Definition AddCluster (w : world) (cluster : option ptr) : outcome (Z * option error * world) :=
  match cluster with
  | None => Done (-1, Some (RegErr NilCluster), w)
  | Some p =>
    rc ← deref (w_heap w !! p);
    let reg := w_reg w in
    match ha_NewBytesKey (rc_ID rc) with
    | (_, Some e) => Done (-1, Some (ExtErr e), w)
    | (bKey, None) =>
      let err :=
        if bool_decide (is_Some (reg_ClustersByName reg !! rc_Name rc)) then
          Some (RegErr NameAlreadyInUse)
        else
          match ha_Find (reg_ClustersByID reg) bKey with
          | (_, Some e) => Some (ExtErr e)
          | (Some _, None) => Some (RegErr IDAlreadyInUse)
          | (None, None) => None
          end in
      match err with
      | Some e => Done (-1, Some e, w)
      | None =>
        let index := Z.of_nat (length (reg_Clusters reg)) in
        let upd := with_clusters (reg_Clusters reg ++ [p])
                     (<[rc_Name rc := p]> (reg_ClustersByName reg)) in
        '(nid, ds) ← rc_GetNodeID rc (w_draws w);
        nid ← deref nid;
        match ha_NewBytesKey (Some (xi_Value nid)) with
        | (_, Some e) =>
          Done (-1, Some (ExtErr e), mkWorld (upd (reg_ClustersByID reg) reg) (w_heap w) ds)
        | (cKey, None) =>
          let '(byID, e) := ha_Insert (reg_ClustersByID reg) cKey p in
          Done (if e then -1 else index, ExtErr <$> e, mkWorld (upd byID reg) (w_heap w) ds)
        end
      end
    end
  end.

(** [&RegCluster{...}]: a new cluster is allocated. *)
Definition alloc (rc : RegCluster) (w : world) : ptr * world :=
  (length (w_heap w), mkWorld (w_reg w) (w_heap w ++ [rc]) (w_draws w)).

(** ** Starting a registry

    The credentials published name the registry's node, its public keys and the
    global end point.  [writeFile] is what [ioutil.WriteFile] returns for a path
    and bytes.  The results are the registry, the error, and the file given to
    [writeFile]. *)
Definition NewRegistry_regCred (rn : RegNode) (opt : RegOptions) (serverVersion : DecimalVersion) :
    RegCred :=
  let base := xn_Node_Base (rn_Node rn) in
  mkRegCred (xn_GetName base) (xn_GetNodeID base) (xn_GetCommsPublicKey base)
    (xn_GetSigPublicKey base) [opt_GlobalEndPoint opt] serverVersion.

Definition NewRegistry (writeFile : gostring -> bytes -> option exterr)
    (clusters : list ptr) (rn : option RegNode) (opt : option RegOptions) :
    outcome (option Registry * option error * option (gostring * bytes)) :=
  match xu_ParseDecimalVersion VERSION with
  | inr e => Done (None, Some (ExtErr e), None)
  | inl serverVersion =>
    match rn with
    | None => Done (None, Some (RegErr NilRegNode), None)
    | Some rn =>
      opt ← deref opt;
      match (if bool_decide (opt_BackingFile opt = []) then xf_NewBloomSHA (opt_M opt) (opt_K opt)
             else xf_NewMappedBloomSHA (opt_M opt) (opt_K opt) (opt_BackingFile opt)) with
      | inr e => Done (None, Some (ExtErr e), None)
      | inl idFilter =>
        match ha_NewHAMT DEFAULT_W (opt_T opt) with
        | inr e => Done (None, Some (ExtErr e), None)
        | inl m =>
          let reg := mkRegistry [] clusters (opt_GlobalEndPoint opt) idFilter ∅ m rn in
          let myLFS := xn_Node_GetLFS (rn_Node rn) in
          '(werr, written) ←
            (if bool_decide (myLFS = []) then Done (None, None)
             else
               serialized ← cred_String (NewRegistry_regCred rn opt serverVersion);
               let path := filepath_Join [myLFS; str "regCred.dat"] in
               Done (writeFile path serialized, Some (path, serialized)));
          match werr with
          | Some e => Done (Some reg, Some (ExtErr e), written)
          | None =>
            '(reg', err) ← InsertID reg (xn_GetNodeID (xn_Node_Base (rn_Node rn)));
            Done (Some reg', err, written)
          end
        end
      end
    end
  end.

(** ** Serialization *)

(** The lines of the clusters, read through their pointers. *)
Fixpoint clusters_Strings (heap : list RegCluster) (cs : list ptr) : outcome (list gostring) :=
  match cs with
  | [] => Done []
  | p :: cs' =>
    rc ← deref (heap !! p);
    ls ← clusters_Strings heap cs';
    Done (rc_Strings rc ++ ls)
  end.

Definition reg_Strings (w : world) : outcome (list gostring) :=
  cs ← clusters_Strings (w_heap w) (reg_Clusters (w_reg w));
  Done ([str "registry {"] ++ [str "    LogFile: " ++ reg_LogFile (w_reg w)] ++ [str "}"] ++ cs).

Definition reg_String (w : world) : outcome gostring :=
  ss ← reg_Strings w;
  Done (Join ss [nl]).

(** A stub in the source. *)
Definition ParseRegistry (s : gostring) : option Registry * option (list gostring) * option error :=
  (None, None, None).

End Registry.
Arguments RegOptions {_}.
Arguments Registry {_}.
Arguments world {_}.

(** ** The invariant

    Every allocated cluster satisfies [P] and has the bytes of an identifier;
    the registry's list has no
    cluster twice; the index by name holds exactly the clusters of the list,
    under their names; the index by identifier holds only clusters of the list,
    under their own identifiers.  For messages handled one after the other [P] is
    the invariant of a cluster, [rc_wf]; for connections that overlap it is what
    remains of it, [rc_wf0]. *)
Record reg_inv `{Ext} (P : RegCluster -> Prop) (w : world) : Prop := {
  wf_heap : Forall P (w_heap w);
  wf_ids : Forall (fun rc => exists n, rc_ID rc = Some (xi_Value n)) (w_heap w);
  wf_nodup : NoDup (reg_Clusters (w_reg w));
  wf_listed p : p ∈ reg_Clusters (w_reg w) ->
    exists rc, w_heap w !! p = Some rc /\ reg_ClustersByName (w_reg w) !! rc_Name rc = Some p;
  wf_named n p : reg_ClustersByName (w_reg w) !! n = Some p ->
    p ∈ reg_Clusters (w_reg w) /\ exists rc, w_heap w !! p = Some rc /\ rc_Name rc = n;
  wf_ided k p : (ha_Find (reg_ClustersByID (w_reg w)) k).1 = Some p ->
    p ∈ reg_Clusters (w_reg w) /\
    exists rc id, w_heap w !! p = Some rc /\ rc_ID rc = Some id /\
      ha_NewBytesKey (Some id) = (k, None)
}.
Arguments wf_heap {_ _} _ _.
Arguments wf_ids {_ _} _ _.
Arguments wf_nodup {_ _} _ _.
Arguments wf_listed {_ _} _ _ _ _.
Arguments wf_named {_ _} _ _ _ _ _.
Arguments wf_ided {_ _} _ _ _ _ _.
Abbreviation reg_wf := (reg_inv rc_wf).

(** Every cluster of the list can be found by its identifier. *)
Definition id_complete `{Ext} (w : world) : Prop :=
  forall p rc id k, p ∈ reg_Clusters (w_reg w) -> w_heap w !! p = Some rc -> rc_ID rc = Some id ->
    ha_NewBytesKey (Some id) = (k, None) -> (ha_Find (reg_ClustersByID (w_reg w)) k).1 = Some p.

(** Two lists of clusters that differ only in their members. *)
Definition same_desc `{Ext} (rc rc' : RegCluster) : Prop :=
  rc_Name rc' = rc_Name rc /\ rc_ID rc' = rc_ID rc /\ rc_Attrs rc' = rc_Attrs rc /\
  rc_maxSize rc' = rc_maxSize rc /\ rc_epCount rc' = rc_epCount rc.

Section Facts.
Context `{Ext}.

Lemma InsertUniqueNodeID_inv reg ds nid err reg' ds' :
  InsertUniqueNodeID reg ds = Done (nid, err, reg', ds') ->
  exists skipped n e, ds = skipped ++ (nid, e) :: ds' /\ nid = Some n /\
    Forall (fun d => exists m, d.1 = Some m /\ xf_IsMember (reg_idFilter reg) (xi_Value m) = (true, None)) skipped /\
    ((exists e', err = Some (ExtErr e') /\ reg' = reg /\ (xf_IsMember (reg_idFilter reg) (xi_Value n)).2 = Some e') \/
     (xf_IsMember (reg_idFilter reg) (xi_Value n) = (false, None) /\
      exists f e', xf_Insert (reg_idFilter reg) (xi_Value n) = (f, e') /\
        err = ExtErr <$> e' /\ reg' = with_idFilter f reg)).
Proof.
  induction ds as [|[m e] ds IH]; [done|]. simpl. unfold ContainsID. intros Hi.
  destruct m as [m|]; [|done]. simpl in Hi.
  destruct (xf_IsMember (reg_idFilter reg) (xi_Value m)) as [found [e'|]] eqn:Em; simpl in Hi.
  - go_inv. exists [], m, e. split_and!; try done. left. exists e'. by rewrite Em.
  - destruct found.
    + destruct (IH Hi) as (sk & n & e1 & -> & -> & Hf & Hr). exists ((Some m, e) :: sk), n, e1.
      split_and!; try done. constructor; [by exists m|done].
    + destruct xf_Insert as [f e'] eqn:Ei. go_inv. exists [], m, e. split_and!; try done.
      right. split; [done|]. by exists f, e'.
Qed.

(** What a completed [AddCluster] on a cluster did. *)
Lemma AddCluster_inv w p i err w' : AddCluster w (Some p) = Done (i, err, w') ->
  (is_Some err /\ i = -1 /\ w' = w) \/
  (exists rc ds nid k kerr byID e, w_heap w !! p = Some rc /\
     reg_ClustersByName (w_reg w) !! rc_Name rc = None /\
     rc_GetNodeID rc (w_draws w) = Done (Some nid, ds) /\
     ha_NewBytesKey (Some (xi_Value nid)) = (k, kerr) /\
     (match kerr with
      | Some _ => byID = reg_ClustersByID (w_reg w) /\ e = kerr
      | None => ha_Insert (reg_ClustersByID (w_reg w)) k p = (byID, e)
      end) /\
     err = ExtErr <$> e /\
     i = (if e then -1 else Z.of_nat (length (reg_Clusters (w_reg w)))) /\
     (exists bKey, ha_NewBytesKey (rc_ID rc) = (bKey, None) /\
        ha_Find (reg_ClustersByID (w_reg w)) bKey = (None, None)) /\
     w' = mkWorld (with_clusters (reg_Clusters (w_reg w) ++ [p])
            (<[rc_Name rc := p]> (reg_ClustersByName (w_reg w))) byID (w_reg w)) (w_heap w) ds).
Proof.
  unfold AddCluster. intros Ha. apply bind_Done_inv in Ha as (rc & Hrc%deref_Done_inv & Ha).
  destruct (ha_NewBytesKey (rc_ID rc)) as [bKey [e|]] eqn:Eb; [go_inv; left; eauto|].
  case_bool_decide as Hn; [go_inv; left; eauto|].
  destruct (ha_Find _ bKey) as [[q|] [e|]] eqn:Ef; try (go_inv; left; eauto; fail).
  right. apply bind_Done_inv in Ha as ([nid ds] & Hg & Ha).
  apply bind_Done_inv in Ha as (n & Hd%deref_Done_inv & Ha). subst nid.
  destruct (ha_NewBytesKey (Some (xi_Value n))) as [k [e|]] eqn:Ek.
  - injection Ha as <- <- <-. exists rc, ds, n, k, (Some e), (reg_ClustersByID (w_reg w)), (Some e).
    split_and!; try done; [by apply eq_None_not_Some|by exists bKey].
  - destruct (ha_Insert _ k p) as [byID e] eqn:Ei. injection Ha as <- <- <-.
    exists rc, ds, n, k, None, byID, e. split_and!; try done; [by apply eq_None_not_Some|by exists bKey].
Qed.

Lemma rc_GetNodeID_value `{!NodeIDLaws} rc n ds : rc_ID rc = Some (xi_Value n) ->
  exists n', rc_GetNodeID rc ds = Done (Some n', ds) /\ xi_Value n' = xi_Value n.
Proof.
  intros Hid. unfold rc_GetNodeID. rewrite Hid. simpl.
  destruct (xi_New_total n) as [n' En]. rewrite En. simpl. exists n'. split; [done|].
  by apply xi_New_Value in En as (? & [= <-] & Hv).
Qed.

(** Descriptions do not change when members are added. *)
Lemma AddMember_same_desc rc m rc' err : AddMember rc m = Done (rc', err) -> same_desc rc rc'.
Proof. intros (? & ? & ? & ? & ? & _)%AddMember_frame. by split_and!. Qed.

(** ** Preservation *)

Lemma reg_inv_impl (P Q : RegCluster -> Prop) w :
  reg_inv P w -> Forall Q (w_heap w) -> reg_inv Q w.
Proof. intros [W1 W0 W2 W3 W4 W5] Hq. by split. Qed.

Lemma reg_wf_iff w : reg_wf w <-> reg_inv rc_wf0 w /\ Forall distinct_names (w_heap w).
Proof.
  split.
  - intros Hw. pose proof (wf_heap _ Hw) as Hh.
    split; [eapply reg_inv_impl; [exact Hw|]|]; (eapply Forall_impl; [exact Hh|]); by intros rc [? ?]%rc_wf_iff.
  - intros [Hw Hd]. eapply reg_inv_impl; [exact Hw|]. apply Forall_forall. intros rc Hin. apply rc_wf_iff.
    split; [exact (proj1 (Forall_forall _ _) (wf_heap _ Hw) _ Hin)|exact (proj1 (Forall_forall _ _) Hd _ Hin)].
Qed.

Context {P : RegCluster -> Prop}.

Lemma reg_inv_filter w f ds : reg_inv P w ->
  reg_inv P (mkWorld (with_idFilter f (w_reg w)) (w_heap w) ds).
Proof. intros [W1 W0 W2 W3 W4 W5]. by split. Qed.

Lemma reg_inv_draws w ds : reg_inv P w -> reg_inv P (mkWorld (w_reg w) (w_heap w) ds).
Proof. intros [W1 W0 W2 W3 W4 W5]. by split. Qed.

Lemma alloc_wf rc w n : reg_inv P w -> P rc -> rc_ID rc = Some (xi_Value n) ->
  reg_inv P (alloc rc w).2.
Proof.
  intros [W1 W0 W2 W3 W4 W5] Hrc Hid. split; simpl.
  - apply Forall_app. split; [done|]. by apply Forall_singleton.
  - apply Forall_app. split; [done|]. apply Forall_singleton. eauto.
  - done.
  - intros p (c & Hc & Hn)%W3. exists c. split; [|done]. by apply lookup_app_l_Some.
  - intros nm p (Hp & c & Hc & Hn)%W4. split; [done|]. exists c. split; [|done].
    by apply lookup_app_l_Some.
  - intros k p (Hp & c & id & Hc & Hci & Hk)%W5. split; [done|]. exists c, id.
    split; [|done]. by apply lookup_app_l_Some.
Qed.

(** Replacing a cluster by one with the same description. *)
Lemma update_wf w p rc rc' : reg_inv P w -> w_heap w !! p = Some rc -> P rc' -> same_desc rc rc' ->
  reg_inv P (mkWorld (w_reg w) (<[p := rc']> (w_heap w)) (w_draws w)).
Proof.
  intros [W1 W0 W2 W3 W4 W5] Hp Hw (Hn & Hid & _). pose proof (lookup_lt_Some _ _ _ Hp) as Hl.
  assert (forall q c, w_heap w !! q = Some c -> exists c', <[p := rc']> (w_heap w) !! q = Some c' /\
    rc_Name c' = rc_Name c /\ rc_ID c' = rc_ID c) as Hup.
  { intros q c Hq. destruct (decide (q = p)) as [->|Hne].
    - exists rc'. rewrite list_lookup_insert_eq by done. naive_solver.
    - exists c. by rewrite list_lookup_insert_ne. }
  split; simpl.
  - by apply Forall_insert.
  - apply Forall_insert; [done|]. rewrite Hid. by apply (Forall_lookup_1 _ _ _ _ W0 Hp).
  - done.
  - intros q (c & Hc & Hnm)%W3. destruct (Hup q c Hc) as (c' & Hc' & E & _). exists c'. by rewrite E.
  - intros n q (Hq & c & Hc & Hnm)%W4. split; [done|].
    destruct (Hup q c Hc) as (c' & Hc' & E & _). exists c'. by rewrite E.
  - intros k q (Hq & c & id & Hc & Hi & Hk)%W5. split; [done|].
    destruct (Hup q c Hc) as (c' & Hc' & _ & E). exists c', id. by rewrite E.
Qed.

(** What a completed [AddCluster] did, in a world with the invariant: the key
    under which the cluster was indexed is the key of its identifier. *)
Lemma AddCluster_wf_inv `{!NodeIDLaws} w p i err w' : reg_inv P w ->
  AddCluster w (Some p) = Done (i, err, w') ->
  (is_Some err /\ i = -1 /\ w' = w) \/
  (exists rc n k byID e, w_heap w !! p = Some rc /\ rc_ID rc = Some (xi_Value n) /\
     reg_ClustersByName (w_reg w) !! rc_Name rc = None /\
     ha_NewBytesKey (Some (xi_Value n)) = (k, None) /\
     ha_Find (reg_ClustersByID (w_reg w)) k = (None, None) /\
     ha_Insert (reg_ClustersByID (w_reg w)) k p = (byID, e) /\ err = ExtErr <$> e /\
     i = (if e then -1 else Z.of_nat (length (reg_Clusters (w_reg w)))) /\
     w' = mkWorld (with_clusters (reg_Clusters (w_reg w) ++ [p])
            (<[rc_Name rc := p]> (reg_ClustersByName (w_reg w))) byID (w_reg w)) (w_heap w) (w_draws w)).
Proof.
  intros Hw [Hl|(rc & ds & nid & k & kerr & byID & e & Hp & Hn & Hg & Hk & Hm & He & Hi & Hb & Hw')]
    %AddCluster_inv; [by left|right].
  destruct (Forall_lookup_1 _ _ _ _ (wf_ids _ Hw) Hp) as [n Hid].
  destruct (rc_GetNodeID_value rc n (w_draws w) Hid) as (n' & Hg' & Hv).
  rewrite Hg' in Hg. injection Hg as <- <-. rewrite Hv in Hk.
  destruct Hb as (bKey & Hb & Hf). rewrite Hid, Hk in Hb. injection Hb as -> ->.
  by exists rc, n, bKey, byID, e.
Qed.

Lemma AddCluster_wf `{!NodeIDLaws} `{!HamtLaws} w p i err w' :
  reg_inv P w -> p ∉ reg_Clusters (w_reg w) ->
  AddCluster w (Some p) = Done (i, err, w') -> reg_inv P w'.
Proof.
  intros Hw Hfresh [(_ & _ & ->)|(rc & n & k & byID & e & Hp & Hid & Hn & Hk & _ & Hins & _ & _ & ->)]
    %AddCluster_wf_inv; try done. destruct Hw as [W1 W0 W2 W3 W4 W5]. split; simpl; try done.
  - apply NoDup_app. split_and!; [done| |apply NoDup_singleton].
    intros q Hq ->%list_elem_of_singleton. done.
  - intros q [(c & Hc & Hnm)%W3| ->%list_elem_of_singleton]%elem_of_app.
    + exists c. split; [done|]. rewrite lookup_insert_ne; [done|congruence].
    + exists rc. by rewrite lookup_insert_eq.
  - intros m q [[<- <-]|[Hne (Hq & c & Hc & Hnm)%W4]]%lookup_insert_Some.
    + split; [apply elem_of_app; right; by apply list_elem_of_singleton|]. eauto.
    + split; [by apply elem_of_app; left|]. eauto.
  - intros k' q Hf.
    assert ((k' = k /\ q = p) \/ (ha_Find (reg_ClustersByID (w_reg w)) k').1 = Some q) as [[-> ->]|Hq].
    { destruct e as [e|]; [by rewrite (ha_Find_insert_err _ _ _ _ _ _ _ Hins) in Hf; right|].
      destruct (decide (k = k')) as [->|Hne].
      - rewrite (ha_Find_insert _ _ _ _ _ Hins) in Hf. naive_solver.
      - rewrite (ha_Find_insert_ne _ _ _ _ _ _ Hins Hne) in Hf. by right. }
    + split; [apply elem_of_app; right; by apply list_elem_of_singleton|]. eauto.
    + destruct (W5 _ _ Hq) as (Hin & Hr). split; [by apply elem_of_app; left|done].
Qed.
End Facts.
#[export] Hint Resolve reg_inv_filter reg_inv_draws : go.

(** ** Theorems *)

(** A run of the operations that register identifiers, with the values they
    registered; [draws] are the identifiers the generator returns. *)
Inductive id_run `{Ext} : Registry -> list draw -> list bytes -> Registry -> Prop :=
  | run_nil reg ds : id_run reg ds [] reg
  | run_issue reg ds n reg1 ds1 ids reg2 :
      InsertUniqueNodeID reg ds = Done (Some n, None, reg1, ds1) ->
      id_run reg1 ds1 ids reg2 -> id_run reg ds (xi_Value n :: ids) reg2
  | run_insert reg ds n reg1 ids reg2 :
      InsertID reg (Some n) = Done (reg1, None) ->
      id_run reg1 ds ids reg2 -> id_run reg ds (xi_Value n :: ids) reg2
  | run_refused reg ds n reg1 e ids reg2 :
      InsertID reg (Some n) = Done (reg1, Some e) ->
      id_run reg1 ds ids reg2 -> id_run reg ds ids reg2.

Definition known `{Ext} (reg : Registry) (b : bytes) : Prop :=
  xf_IsMember (reg_idFilter reg) b = (true, None).

Section IDs.
Context `{Ext} `{!BloomLaws}.

Lemma InsertID_Ok reg n reg' : InsertID reg (Some n) = Done (reg', None) ->
  ~ known reg (xi_Value n) /\ known reg' (xi_Value n) /\ forall b, known reg b -> known reg' b.
Proof.
  unfold InsertID, known. simpl.
  destruct (xf_IsMember (reg_idFilter reg) (xi_Value n)) as [[] [e|]] eqn:Em; intros Hi; try by go_inv.
  destruct xf_Insert as [f [e|]] eqn:Ei; go_inv.
  split_and!; [congruence|by eapply xf_IsMember_insert|]. intros b. by eapply xf_IsMember_mono.
Qed.

Lemma InsertID_mono reg n reg' err b :
  InsertID reg (Some n) = Done (reg', err) -> known reg b -> known reg' b.
Proof.
  unfold InsertID, known. simpl.
  destruct (xf_IsMember (reg_idFilter reg) (xi_Value n)) as [[] [e|]] eqn:Em; intros Hi; go_inv; try done.
  destruct xf_Insert as [f e] eqn:Ei; go_inv. by eapply xf_IsMember_mono.
Qed.

Lemma InsertUniqueNodeID_Ok reg ds n reg' ds' :
  InsertUniqueNodeID reg ds = Done (Some n, None, reg', ds') ->
  ~ known reg (xi_Value n) /\ known reg' (xi_Value n) /\ (forall b, known reg b -> known reg' b) /\
  exists f, reg' = with_idFilter f reg.
Proof.
  intros (sk & m & e & -> & [= ->] & _ & [(? & ? & _)|(Hm & f & e' & Hi & He & ->)])
    %InsertUniqueNodeID_inv; [done|].
  destruct e'; [done|]. unfold known. split_and!; [congruence|by eapply xf_IsMember_insert| |by exists f].
  intros b. by eapply xf_IsMember_mono.
Qed.

Lemma InsertUniqueNodeID_mono reg ds n err reg' ds' b :
  InsertUniqueNodeID reg ds = Done (n, err, reg', ds') -> known reg b -> known reg' b.
Proof.
  intros (sk & m & e & _ & _ & _ & [(? & _ & -> & _)|(_ & f & e' & Hi & _ & ->)])
    %InsertUniqueNodeID_inv; [done|]. by eapply xf_IsMember_mono.
Qed.
End IDs.

Section Theorems.
Context `{Ext}.

(** C22: All the identifiers a registry registers in a run, the ones it issues and
    the ones it is given, are pairwise different; none of them was known before,
    and all are known afterwards. *)
Theorem identifiers_distinct `{!BloomLaws} reg ds ids reg' : id_run reg ds ids reg' ->
  NoDup ids /\ Forall (fun b => ~ known reg b) ids /\ Forall (known reg') ids /\
  forall b, known reg b -> known reg' b.
Proof.
  induction 1 as [reg ds|reg ds n reg1 ds1 ids reg2 Hi _ (I1 & I2 & I3 & I4)
    |reg ds n reg1 ids reg2 Hi _ (I1 & I2 & I3 & I4)|reg ds n reg1 e ids reg2 Hi _ (I1 & I2 & I3 & I4)].
  - split_and!; constructor || done.
  - apply InsertUniqueNodeID_Ok in Hi as (Hn & Hk & Hm & _). split_and!; eauto.
    + constructor; [|done]. intros Hin. by apply (proj1 (Forall_forall _ _) I2 _ Hin).
    + constructor; [done|]. eapply Forall_impl; [exact I2|]. naive_solver.
  - apply InsertID_Ok in Hi as (Hn & Hk & Hm). split_and!; eauto.
    + constructor; [|done]. intros Hin. by apply (proj1 (Forall_forall _ _) I2 _ Hin).
    + constructor; [done|]. eapply Forall_impl; [exact I2|]. naive_solver.
  - split_and!; try done.
    + eapply Forall_impl; [exact I2|]. intros b Hb Hk. by eapply Hb, InsertID_mono.
    + intros b Hk. by eapply I4, InsertID_mono.
Qed.

(** [InsertUniqueNodeID] returns as soon as the generator draws an identifier
    the filter does not know: it skips exactly the known ones before it, returns
    that one and records it. *)
Theorem InsertUniqueNodeID_returns reg skipped n e rest f :
  Forall (fun d => exists m, d.1 = Some m /\ known reg (xi_Value m)) skipped ->
  xf_IsMember (reg_idFilter reg) (xi_Value n) = (false, None) ->
  xf_Insert (reg_idFilter reg) (xi_Value n) = (f, None) ->
  InsertUniqueNodeID reg (skipped ++ (Some n, e) :: rest) =
  Done (Some n, None, with_idFilter f reg, rest).
Proof.
  intros Hs Hn Hi. induction Hs as [|[d e'] sk (m & Hm & Hk) _ IH]; simpl in *.
  - unfold ContainsID. simpl. by rewrite Hn; simpl; rewrite Hi.
  - subst d. unfold ContainsID. simpl. by rewrite Hk.
Qed.

(** C33: [AddCluster] on every branch, for an allocated cluster that is not yet
    listed.  A taken name, then a taken identifier, is refused and nothing
    changes; otherwise the cluster is appended, its index is its position, it is
    found by its name and by its identifier, every other name and identifier is
    found as before, and the invariant holds. *)
Theorem AddCluster_spec `{!NodeIDLaws} `{!HamtLaws} w p rc n k :
  reg_wf w -> w_heap w !! p = Some rc -> p ∉ reg_Clusters (w_reg w) ->
  rc_ID rc = Some (xi_Value n) -> ha_NewBytesKey (Some (xi_Value n)) = (k, None) ->
  (ha_Find (reg_ClustersByID (w_reg w)) k).2 = None ->
  (ha_Insert (reg_ClustersByID (w_reg w)) k p).2 = None ->
  exists i err w', AddCluster w (Some p) = Done (i, err, w') /\ reg_wf w' /\
  match reg_ClustersByName (w_reg w) !! rc_Name rc, (ha_Find (reg_ClustersByID (w_reg w)) k).1 with
  | Some _, _ => i = -1 /\ err = Some (RegErr NameAlreadyInUse) /\ w' = w
  | None, Some _ => i = -1 /\ err = Some (RegErr IDAlreadyInUse) /\ w' = w
  | None, None =>
    i = Z.of_nat (length (reg_Clusters (w_reg w))) /\ err = None /\ w_heap w' = w_heap w /\
    reg_Clusters (w_reg w') = reg_Clusters (w_reg w) ++ [p] /\
    reg_ClustersByName (w_reg w') = <[rc_Name rc := p]> (reg_ClustersByName (w_reg w)) /\
    ha_Find (reg_ClustersByID (w_reg w')) k = (Some p, None) /\
    (forall k', k <> k' -> ha_Find (reg_ClustersByID (w_reg w')) k' = ha_Find (reg_ClustersByID (w_reg w)) k')
  end.
Proof.
  intros Hw Hp Hf Hid Hk Hf2 Hi2.
  assert (exists i err w', AddCluster w (Some p) = Done (i, err, w')) as (i & err & w' & Ha).
  { unfold AddCluster. rewrite Hp. simpl. rewrite Hid, Hk. case_bool_decide; [eauto|].
    destruct (ha_Find _ k) as [[q|] [e|]]; eauto.
    destruct (rc_GetNodeID_value rc n (w_draws w) Hid) as (n' & -> & Hv). simpl. rewrite Hv, Hk.
    destruct ha_Insert; eauto. }
  exists i, err, w'. split; [done|]. split; [by eapply AddCluster_wf|].
  destruct (AddCluster_wf_inv w p i err w' Hw Ha)
    as [(He & -> & ->)|(rc' & n' & k' & byID & e & Hp' & Hid' & Hn & Hk' & Hfk & Hins & -> & -> & ->)].
  - unfold AddCluster in Ha. rewrite Hp in Ha. simpl in Ha. rewrite Hid, Hk in Ha.
    destruct (reg_ClustersByName (w_reg w) !! rc_Name rc) eqn:En.
    { rewrite bool_decide_eq_true_2 in Ha by eauto. by simplify_eq/=. }
    rewrite bool_decide_eq_false_2 in Ha by (by intros [? ?]).
    destruct (ha_Find _ k) as [[q|] [e|]]; simplify_eq/=; try done.
    destruct (rc_GetNodeID_value rc n (w_draws w) Hid) as (n' & Hg & Hv).
    rewrite Hg in Ha. simpl in Ha. rewrite Hv, Hk in Ha.
    destruct ha_Insert as [byID [e|]]; simplify_eq/=. by destruct He.
  - rewrite Hp in Hp'. injection Hp' as <-. rewrite Hid in Hid'. injection Hid' as Hv.
    rewrite <-Hv, Hk in Hk'. injection Hk' as <-.
    rewrite Hn, Hfk. rewrite Hins in Hi2. simpl in Hi2. subst e.
    split_and!; try done; simpl; [by eapply ha_Find_insert|].
    intros k' Hne. by eapply ha_Find_insert_ne.
Qed.

Lemma empty_wf {P : RegCluster -> Prop} w : w_heap w = [] -> reg_Clusters (w_reg w) = [] -> reg_ClustersByName (w_reg w) = ∅ ->
  (forall k, (ha_Find (reg_ClustersByID (w_reg w)) k).1 = None) -> reg_inv P w.
Proof.
  intros Hh Hc Hn Hi. split; rewrite ?Hh, ?Hc; [constructor..| | |].
  - by intros p ?%not_elem_of_nil.
  - intros n p Hf. by rewrite Hn, lookup_empty in Hf.
  - intros k p Hf. by rewrite Hi in Hf.
Qed.

Lemma NewRegistry_Ok_inv writeFile clusters rn opt reg written :
  NewRegistry writeFile clusters (Some rn) (Some opt) = Done (Some reg, None, written) ->
  exists v filter m reg0, xu_ParseDecimalVersion VERSION = inl v /\
    ha_NewHAMT DEFAULT_W (opt_T opt) = inl m /\
    reg0 = mkRegistry [] clusters (opt_GlobalEndPoint opt) filter ∅ m rn /\
    InsertID reg0 (xn_GetNodeID (xn_Node_Base (rn_Node rn))) = Done (reg, None) /\
    (if bool_decide (xn_Node_GetLFS (rn_Node rn) = []) then written = None
     else exists s, cred_String (NewRegistry_regCred rn opt v) = Done s /\
       let path := filepath_Join [xn_Node_GetLFS (rn_Node rn); str "regCred.dat"] in
       written = Some (path, s) /\ writeFile path s = None).
Proof.
  unfold NewRegistry. destruct xu_ParseDecimalVersion as [v|]; [|by intros ?; go_inv]. intros Hn.
  apply bind_Done_inv in Hn as (o & [= <-] & Hn).
  destruct (if bool_decide _ then _ else _) as [f|]; [|by go_inv].
  destruct ha_NewHAMT as [m|]; [|by go_inv].
  apply bind_Done_inv in Hn as ([werr wr] & Hwr & Hn). destruct werr as [e|]; [by go_inv|].
  apply bind_Done_inv in Hn as ([reg' err] & Hins & [= -> -> ->]).
  exists v, f, m, (mkRegistry [] clusters (opt_GlobalEndPoint opt) f ∅ m rn).
  split_and!; try done. case_bool_decide; [by go_inv|].
  apply bind_Done_inv in Hwr as (s & Hs & Hwr). injection Hwr as Hwf <-. eauto.
Qed.

(** A registry started with no clusters. *)
Lemma NewRegistry_fresh `{!HamtLaws} `{!BloomLaws} writeFile rn opt reg written id ds :
  NewRegistry writeFile [] (Some rn) (Some opt) = Done (Some reg, None, written) ->
  xn_GetNodeID (xn_Node_Base (rn_Node rn)) = Some id ->
  reg_wf (mkWorld reg [] ds) /\ id_complete (mkWorld reg [] ds) /\ reg_RegNode reg = rn /\
  reg_ClustersByName reg = ∅ /\ known reg (xi_Value id) /\
  forall n reg' ds', InsertUniqueNodeID reg ds = Done (Some n, None, reg', ds') -> xi_Value n <> xi_Value id.
Proof.
  intros (v & f & m & reg0 & _ & Hm & -> & Hins & _)%NewRegistry_Ok_inv Hid. rewrite Hid in Hins.
  destruct (InsertID_Ok _ _ _ Hins) as (_ & Hk & _).
  assert (exists f', reg = mkRegistry [] [] (opt_GlobalEndPoint opt) f' ∅ m rn) as [f' ->].
  { unfold InsertID in Hins. simpl in Hins. repeat case_match; simplify_eq/=. by eexists. }
  split_and!; try done.
  - apply empty_wf; try done. intros k. by rewrite (ha_Find_new _ _ _ _ _ Hm).
  - intros n reg' ds' (Hn & _)%InsertUniqueNodeID_Ok Hv. by rewrite Hv in Hn.
Qed.

(** A registry started with no clusters has the invariant, whatever is drawn
    later, and knows its own identifier, so that it never issues it. *)
Theorem NewRegistry_starts `{!HamtLaws} `{!BloomLaws} writeFile rn opt reg written id ds :
  NewRegistry writeFile [] (Some rn) (Some opt) = Done (Some reg, None, written) ->
  xn_GetNodeID (xn_Node_Base (rn_Node rn)) = Some id ->
  reg_wf (mkWorld reg [] ds) /\ id_complete (mkWorld reg [] ds) /\ reg_RegNode reg = rn /\
  reg_ClustersByName reg = ∅ /\ known reg (xi_Value id) /\
  forall n reg' ds', InsertUniqueNodeID reg ds = Done (Some n, None, reg', ds') -> xi_Value n <> xi_Value id.
Proof. apply NewRegistry_fresh. Qed.

(** C37: What a registry with a local file system publishes as regCred.dat parses
    back, with [ParseRegCred], to the registry's name, identifier and public
    keys, the global end point and the version of the program. *)
Theorem NewRegistry_publishes `{!LineLaws} `{!NodeIDLaws} writeFile clusters rn opt reg written v id :
  NewRegistry writeFile clusters (Some rn) (Some opt) = Done (Some reg, None, written) ->
  xn_Node_GetLFS (rn_Node rn) <> [] -> xu_ParseDecimalVersion VERSION = inl v ->
  xn_GetNodeID (xn_Node_Base (rn_Node rn)) = Some id -> cred_printable (NewRegistry_regCred rn opt v) ->
  exists s n, written = Some (filepath_Join [xn_Node_GetLFS (rn_Node rn); str "regCred.dat"], s) /\
    xi_Value n = xi_Value id /\
    ParseRegCred s = Done (Ok (mkRegCred (xn_GetName (xn_Node_Base (rn_Node rn))) (Some n)
      (xn_GetCommsPublicKey (xn_Node_Base (rn_Node rn))) (xn_GetSigPublicKey (xn_Node_Base (rn_Node rn)))
      [opt_GlobalEndPoint opt] v)).
Proof.
  intros (v' & f & m & reg0 & Hv & _ & _ & _ & Hw)%NewRegistry_Ok_inv Hl Hv' Hid Hp.
  assert (v' = v) as -> by congruence. rewrite bool_decide_eq_false_2 in Hw by done.
  destruct Hw as (s & Hs & -> & _).
  destruct (ParseRegCred_String _ id Hp Hid) as (s' & n & Hs' & Hn & Hr).
  assert (s' = s) as -> by congruence. by exists s, n.
Qed.
End Theorems.

(** ** Witnesses *)

Module RegistryWitness.
Import ModelInstances ClientInfoWitness RegClusterWitness RegCredWitness RegNodeWitness.

Definition w_opt : RegOptions := mkRegOptions [] [] false None false (Some (str "127.0.0.1:44444"))
  8 [] 20 [] [] false 0 false.
Definition w_lfsNode : RegNode := mkRegNode (str "acceptor") (Some w_priv) (Some w_priv)
  (Concrete.mkNode w_base (str "/var/app/xlReg") [str "acceptor"] [] None None).
Definition no_error (path : gostring) (data : bytes) : option exterr := None.
Definition w_filter (l : list bytes) : BloomSHA := l.
Definition w_id (s : string) : NodeID := str s.
Definition w_registry : Registry :=
  mkRegistry [] [] (Some (str "127.0.0.1:44444")) [str "0123456789abcdefghij"] ∅ [] w_lfsNode.
Definition w_written : option (gostring * bytes) :=
  match NewRegistry no_error [] (Some w_lfsNode) (Some w_opt) with
  | Done (_, _, wr) => wr
  | _ => None
  end.

Lemma w_registry_new :
  NewRegistry no_error [] (Some w_lfsNode) (Some w_opt) = Done (Some w_registry, None, w_written).
Proof. reflexivity. Qed.

Lemma identifiers_distinct_witness : NoDup [str "new1"; str "given"; str "new2"].
Proof.
  apply (identifiers_distinct w_registry [(Some (str "0123456789abcdefghij"), None);
    (Some (str "new1"), None); (Some (str "given"), None); (Some (str "new2"), None)]
    _ (with_idFilter (w_filter [str "new2"; str "given"; str "new1"; str "0123456789abcdefghij"]) w_registry)).
  eapply (run_issue _ _ (w_id "new1")); [reflexivity|].
  eapply (run_insert _ _ (w_id "given")); [reflexivity|].
  eapply (run_refused _ _ (w_id "given")); [reflexivity|].
  eapply (run_issue _ _ (w_id "new2")); [reflexivity|]. apply run_nil.
Defined.

Lemma InsertUniqueNodeID_returns_witness :
  InsertUniqueNodeID w_registry [(Some (str "0123456789abcdefghij"), None); (Some (str "new1"), None)] =
  Done (Some (str "new1"), None, with_idFilter (w_filter [str "new1"; str "0123456789abcdefghij"]) w_registry, []).
Proof.
  apply (InsertUniqueNodeID_returns w_registry [(Some (str "0123456789abcdefghij"), None)]);
    [|reflexivity|reflexivity].
  apply Forall_singleton. by exists (str "0123456789abcdefghij").
Defined.

Definition w_world : world := mkWorld w_registry [w_cluster1] [].

Lemma w_empty_wf ds : reg_wf (mkWorld w_registry [] ds).
Proof. by apply empty_wf. Qed.

Lemma w_world_wf : reg_wf w_world.
Proof.
  change w_world with (alloc w_cluster1 (mkWorld w_registry [] [])).2.
  eapply alloc_wf; [apply w_empty_wf|exact w_cluster1_wf|reflexivity].
Qed.

Lemma AddCluster_spec_witness : exists i err w', AddCluster w_world (Some 0%nat) = Done (i, err, w') /\
  reg_wf w' /\ i = 0 /\ reg_Clusters (w_reg w') = [0%nat].
Proof.
  destruct (AddCluster_spec w_world 0 w_cluster1 (str "abcdefghijABCDEFGHIJ")
    (Some (str "abcdefghijABCDEFGHIJ")) w_world_wf eq_refl) as (i & err & w' & Ha & Hw & Hr);
    try reflexivity.
  - apply not_elem_of_nil.
  - exists i, err, w'. split; [exact Ha|]. split; [exact Hw|].
    change (reg_ClustersByName (w_reg w_world) !! rc_Name w_cluster1) with (@None nat) in Hr.
    cbv beta iota in Hr. destruct Hr as (Hi & _ & _ & Hc & _). split; [exact Hi|exact Hc].
Defined.

Lemma NewRegistry_starts_witness :
  reg_wf (mkWorld w_registry [] []) /\ known w_registry (str "0123456789abcdefghij").
Proof.
  destruct (NewRegistry_starts no_error w_lfsNode w_opt w_registry w_written
    (str "0123456789abcdefghij") [] w_registry_new eq_refl) as (Hw & _ & _ & _ & Hk & _).
  split; [exact Hw|exact Hk].
Defined.

Lemma NewRegistry_publishes_witness : exists s n,
  w_written = Some (str "/var/app/xlReg/regCred.dat", s) /\ xi_Value n = str "0123456789abcdefghij" /\
  ParseRegCred s = Done (Ok (mkRegCred (str "alice") (Some n) (Some w_key) (Some w_key)
    [Some (str "127.0.0.1:44444")] (str "1.9.24"))).
Proof.
  assert (cred_printable (NewRegistry_regCred w_lfsNode w_opt (str "1.9.24"))) as Hp.
  { destruct w_cred_printable as (_ & Hid & Hck & Hsk & Hep & _).
    split_and!; try done; [apply w_value; vm_compute; reflexivity|].
    split; [|done]. apply w_value. vm_compute. reflexivity. }
  destruct (NewRegistry_publishes no_error [] w_lfsNode w_opt w_registry w_written (str "1.9.24")
    (str "0123456789abcdefghij") w_registry_new ltac:(discriminate) eq_refl eq_refl Hp)
    as (s & n & Hs & Hn & Hr).
  exists s, n. split; [exact Hs|]. split; [exact Hn|exact Hr].
Defined.
End RegistryWitness.
