(* ===== verification/CnxHandler.v ===== *)
(** * Connections

    Models cnxHandler.go: reading and writing a connection, and the coding of
    messages on it.  Servers and clients both use it.

    A connection is what its reads will return and what its writes have been
    given: each call of [Cnx.Read] takes from the next chunk at most the buffer's
    length.  When there is no further chunk the reader waits ([Starved]).  The
    errors of writes, and the randomness that encryption draws, are functions of
    how many writes went before. *)
From S2P Require Import Prelude GoStd GoCrypto Errors Proto Ext.

Definition MSG_BUF_LEN : Z := 16 * 1024.

Section CnxHandler.
Context `{Ext}.

Record Cnx := mkCnx {
  cnx_reads : list (bytes * option exterr);
  cnx_sent : list bytes;
  cnx_closed : bool;
  cnx_writeErr : nat -> option exterr;
  cnx_rand : nat -> Randomness
}.

Definition Close (c : Cnx) : Cnx :=
  mkCnx (cnx_reads c) (cnx_sent c) true (cnx_writeErr c) (cnx_rand c).

(** Reading into a buffer of [n] bytes: what a chunk holds beyond the buffer is
    left for the next call. *)
Definition Read (n : nat) (c : Cnx) : outcome (bytes * option exterr * Cnx) :=
  match cnx_reads c with
  | [] => Starved
  | (chunk, err) :: rs =>
    if (n <? length chunk)%nat then
      Done (take n chunk, None, mkCnx ((drop n chunk, err) :: rs) (cnx_sent c) (cnx_closed c)
                                  (cnx_writeErr c) (cnx_rand c))
    else Done (chunk, err, mkCnx rs (cnx_sent c) (cnx_closed c) (cnx_writeErr c) (cnx_rand c))
  end.

Definition ReadData (c : Cnx) : outcome (option bytes * option exterr * Cnx) :=
  '(data, err, c') ← Read (Z.to_nat MSG_BUF_LEN) c;
  let data' := if (bool_decide (err = None) || bool_decide (err = Some EOF))
                  && (0 <? Z.of_nat (length data)) then Some data else None in
  Done (data', err, c').

(** The count of bytes written is ignored. *)
Definition WriteData (c : Cnx) (data : bytes) : option exterr * Cnx :=
  (cnx_writeErr c (length (cnx_sent c)),
   mkCnx (cnx_reads c) (cnx_sent c ++ [data]) (cnx_closed c) (cnx_writeErr c) (cnx_rand c)).

Definition DecodePacket (data : bytes) : XLRegMsg * option exterr := proto_Unmarshal data.
Definition EncodePacket (msg : XLRegMsg) : bytes + exterr := proto_Marshal msg.

Definition EncodePadEncrypt (s : AesSession) (msg : XLRegMsg) (r : Randomness) : bytes + exterr :=
  match EncodePacket msg with
  | inl cData => xa_Encrypt s cData r
  | inr e => inr e
  end.

Definition DecryptUnpadDecode (s : AesSession) (pCiphertext : option bytes) :
    option XLRegMsg * option exterr :=
  match xa_Decrypt s pCiphertext with
  | inr e => (None, Some e)
  | inl plaintext => let '(msg, err) := DecodePacket plaintext in (Some msg, err)
  end.

(** A handler for an open connection, with a session that is not set up yet. *)
Definition NewCnxHandler (cnx : option Cnx) : result (Cnx * AesSession) :=
  match cnx with
  | None => Err (RegErr BadOrNilCnx)
  | Some c => Ok (c, xa_zero)
  end.

(** ** Reading makes progress *)

Definition read_measure (c : Cnx) : nat := sum_list_with (fun r => S (length r.1)) (cnx_reads c).

Lemma Read_measure n c d e c' : (0 < n)%nat -> Read n c = Done (d, e, c') ->
  (read_measure c' < read_measure c)%nat.
Proof.
  unfold Read, read_measure. intros Hn Hr. destruct (cnx_reads c) as [|[chunk err] rs]; [done|].
  destruct (Nat.ltb_spec n (length chunk)); injection Hr as <- <- <-; simpl; rewrite ?length_drop; lia.
Qed.

Lemma buffer_positive : (0 < Z.to_nat MSG_BUF_LEN)%nat.
Proof. unfold MSG_BUF_LEN. lia. Qed.

Lemma ReadData_measure c d e c' : ReadData c = Done (d, e, c') -> (read_measure c' < read_measure c)%nat.
Proof.
  unfold ReadData. intros ([[data e1] c1] & Hr & [= _ _ <-])%bind_Done_inv.
  exact (Read_measure _ _ _ _ _ buffer_positive Hr).
Qed.


End CnxHandler.
Arguments Cnx {_}.
