(* ===== verification/MsgHandlers.v ===== *)
(** * The handlers of client messages

    Models msg_handlers.go and the type InHandler of in_handler.go: what the
    server does with each kind of message from a client.  A handler takes and
    returns the shared state and the state of its connection; it reports an error
    by setting [errOut]. *)
From S2P Require Import Prelude GoStd GoCrypto Errors Proto Ext ExtModel ClientInfo RegCluster.
From S2P Require Import RegCred RegNode Registry.

(** The states of a connection. *)
Definition HELLO_RCVD : Z := 0.
Definition CLIENT_DETAILS_RCVD : Z := 1.
Definition CREATE_REQUEST_RCVD : Z := 2.
Definition JOIN_RCVD : Z := 3.
Definition BYE_RCVD : Z := 4.
Definition IN_CLOSED : Z := 5.

Section MsgHandlers.
Context `{Ext}.

Record InHandler := mkInHandler {
  h_thisClient : option ClientInfo;
  h_cluster : option ptr;
  h_version : Z;
  h_known : Z;
  h_entryState : Z;
  h_exitState : Z;
  h_msgIn : option XLRegMsg;
  h_msgOut : option XLRegMsg;
  h_errOut : option error;
  h_AesSession : AesSession
}.

(** Assignments to fields. *)
Definition set_thisClient (c : ClientInfo) (h : InHandler) : InHandler :=
  mkInHandler (Some c) (h_cluster h) (h_version h) (h_known h) (h_entryState h) (h_exitState h)
    (h_msgIn h) (h_msgOut h) (h_errOut h) (h_AesSession h).
Definition set_cluster (p : ptr) (h : InHandler) : InHandler :=
  mkInHandler (h_thisClient h) (Some p) (h_version h) (h_known h) (h_entryState h) (h_exitState h)
    (h_msgIn h) (h_msgOut h) (h_errOut h) (h_AesSession h).
Definition set_entryState (s : Z) (h : InHandler) : InHandler :=
  mkInHandler (h_thisClient h) (h_cluster h) (h_version h) (h_known h) s (h_exitState h)
    (h_msgIn h) (h_msgOut h) (h_errOut h) (h_AesSession h).
Definition set_msgIn (m : option XLRegMsg) (h : InHandler) : InHandler :=
  mkInHandler (h_thisClient h) (h_cluster h) (h_version h) (h_known h) (h_entryState h) (h_exitState h)
    m (h_msgOut h) (h_errOut h) (h_AesSession h).
Definition set_reply (m : XLRegMsg) (exitState : Z) (h : InHandler) : InHandler :=
  mkInHandler (h_thisClient h) (h_cluster h) (h_version h) (h_known h) (h_entryState h) exitState
    (h_msgIn h) (Some m) (h_errOut h) (h_AesSession h).
Definition set_errOut (e : option error) (h : InHandler) : InHandler :=
  mkInHandler (h_thisClient h) (h_cluster h) (h_version h) (h_known h) (h_entryState h) (h_exitState h)
    (h_msgIn h) (h_msgOut h) e (h_AesSession h).
Definition set_session (s : AesSession) (h : InHandler) : InHandler :=
  mkInHandler (h_thisClient h) (h_cluster h) (h_version h) (h_known h) (h_entryState h) (h_exitState h)
    (h_msgIn h) (h_msgOut h) (h_errOut h) s.
Definition set_version (v : Z) (h : InHandler) : InHandler :=
  mkInHandler (h_thisClient h) (h_cluster h) v (h_known h) (h_entryState h) (h_exitState h)
    (h_msgIn h) (h_msgOut h) (h_errOut h) (h_AesSession h).

Definition badCombo (w : world) (h : InHandler) : outcome (world * InHandler) :=
  Done (w, set_errOut (Some (RegErr RcvdInvalidMsgForState)) h).

(** ** Member: who the client is *)

(** The digest a client signs: its name, attributes, keys and end points, one
    after the other; not its identifier. *)
Definition client_hash (name : gostring) (attrs : Z) (ckBytes skBytes : option bytes)
    (myEnds : option (list gostring)) : bytes :=
  sha1_Sum (name ++ PutUint64 attrs ++ default [] ckBytes ++ default [] skBytes
            ++ concat (default [] myEnds)).

(** The identifier of the client: a new one, or the one it gives. *)
Definition client_nodeID (w : world) (id : option bytes) :
    outcome (option NodeID * option error * world) :=
  match id with
  | None =>
    '(nodeID, err, reg, ds) ← InsertUniqueNodeID (w_reg w) (w_draws w);
    Done (nodeID, err, mkWorld reg (w_heap w) ds)
  | Some b =>
    match xi_New b with
    | (nodeID, Some e) => Done (nodeID, Some (ExtErr e), w)
    | (nodeID, None) =>
      '(found, err) ← ContainsID (w_reg w) nodeID;
      match err with
      | Some e => Done (nodeID, Some e, w)
      | None =>
        if found : bool then Done (nodeID, None, w)
        else
          '(reg, err') ← InsertID (w_reg w) nodeID;
          Done (nodeID, err', mkWorld reg (w_heap w) (w_draws w))
      end
    end
  end.

Definition doClientMsg (w : world) (h : InHandler) : outcome (world * InHandler) :=
  let clientSpecs := GetMemberSpecs (h_msgIn h) in
  let name := Token_GetName clientSpecs in
  let attrs := Token_GetAttrs clientSpecs in
  let ckBytes := Token_GetCommsKey clientSpecs in
  let skBytes := Token_GetSigKey clientSpecs in
  let digSig := Token_GetDigSig clientSpecs in
  let myEnds := Token_GetMyEnds clientSpecs in
  let fail w e := Done (w, set_errOut (Some e) h) in
  match xc_RSAPubKeyFromWire ckBytes with
  | inr e => fail w (ExtErr e)
  | inl ck =>
    match xc_RSAPubKeyFromWire skBytes with
    | inr e => fail w (ExtErr e)
    | inl sk =>
      match VerifyPKCS1v15 sk (client_hash name attrs ckBytes skBytes myEnds) (default [] digSig) with
      | Some e => fail w (ExtErr e)
      | None =>
        '(nodeID, err, w1) ← client_nodeID w (Token_GetID clientSpecs);
        match (if bool_decide (err = Some (RegErr IDAlreadyInUse)) then None else err) with
        | Some e => fail w1 e
        | None =>
          match NewClientInfo name nodeID (Some ck) (Some sk) attrs myEnds with
          | Err e => fail w1 e
          | Ok cm =>
            id ← deref nodeID;
            let msgOut := with_MemberAttrs (Some attrs)
                            (with_MemberID (Some (xi_Value id)) (msg_of_op XLRegMsg_MemberOK)) in
            Done (w1, set_errOut None (set_reply msgOut CLIENT_DETAILS_RCVD (set_thisClient cm h)))
          end
        end
      end
    end
  end.

(** ** Create: a cluster with a given name *)

Definition clamp_size (n : Z) : Z :=
  if n <? MIN_CLUSTER_SIZE then MIN_CLUSTER_SIZE
  else if MAX_CLUSTER_SIZE <? n then MAX_CLUSTER_SIZE
  else n.

(** [clusterID.Value()] dereferences the identifier. *)
Definition create_reply (w : world) (h : InHandler) (clusterID : option NodeID)
    (clusterMaxSize clusterAttrs endPointCount : Z) : outcome (world * InHandler) :=
  id ← deref clusterID;
  let msgOut := with_EndPointCount (Some endPointCount)
                  (with_ClusterAttrs (Some clusterAttrs)
                  (with_ClusterMaxSize (Some clusterMaxSize)
                  (with_ClusterID (Some (xi_Value id)) (msg_of_op XLRegMsg_CreateReply)))) in
  Done (w, set_errOut None (set_reply msgOut CREATE_REQUEST_RCVD h)).

Definition doCreateMsg (w : world) (h : InHandler) : outcome (world * InHandler) :=
  let clusterName := GetClusterName (h_msgIn h) in
  let clusterAttrs := GetClusterAttrs (h_msgIn h) in
  let clusterMaxSize := GetClusterMaxSize (h_msgIn h) in
  let endPointCount := GetEndPointCount (h_msgIn h) in
  match reg_ClustersByName (w_reg w) !! clusterName with
  | Some p =>
    rc ← deref (w_heap w !! p);
    '((clusterID, _), ds) ← xi_New_opt (rc_ID rc) (w_draws w);
    create_reply (mkWorld (w_reg w) (w_heap w) ds) h clusterID
      (rc_maxSize rc) (rc_Attrs rc) (rc_epCount rc)
  | None =>
    let clusterMaxSize := clamp_size clusterMaxSize in
    '(clusterID, err, reg, ds) ← InsertUniqueNodeID (w_reg w) (w_draws w);
    let w1 := mkWorld reg (w_heap w) ds in
    match err with
    | Some e => Done (w1, set_errOut (Some e) h)
    | None =>
      r ← NewRegCluster clusterName clusterID 0 clusterMaxSize endPointCount;
      match r with
      | Err e => Done (w1, set_errOut (Some e) h)
      | Ok rc =>
        let '(p, w2) := alloc rc w1 in
        let h1 := set_cluster p h in
        '(_, err', w3) ← AddCluster w2 (Some p);
        match err' with
        | Some e => Done (w3, set_errOut (Some e) h1)
        | None => create_reply w3 h1 clusterID clusterMaxSize clusterAttrs endPointCount
        end
      end
    end
  end.

(** ** Join: the client becomes a member of a cluster *)

(** The cluster the message names.  Errors met on the way by identifier are held
    in a variable that shadows [err]. *)
Definition join_cluster (w : world) (h : InHandler) : option ptr * option error :=
  match GetClusterID (h_msgIn h), GetClusterName (h_msgIn h) with
  | None, [] =>
    match h_cluster h with
    | Some p => (Some p, None)
    | None => (None, Some (RegErr MissingClusterNameOrID))
    end
  | Some id, _ =>
    match ha_NewBytesKey (Some id) with
    | (_, Some _) => (None, None)
    | (bKey, None) => ((ha_Find (reg_ClustersByID (w_reg w)) bKey).1, None)
    end
  | None, name =>
    match reg_ClustersByName (w_reg w) !! name with
    | Some p => (Some p, None)
    | None => (None, Some (RegErr CantFindClusterByName))
    end
  end.

(** The last statement, which logs an error, dereferences the cluster. *)
Definition doJoinMsg (w : world) (h : InHandler) : outcome (world * InHandler) :=
  thisClient ← deref (h_thisClient h);
  let '(cluster, err) := join_cluster w h in
  match err with
  | Some e =>
    _ ← deref cluster;
    Done (w, set_errOut (Some e) h)
  | None =>
    p ← deref cluster;
    rc ← deref (w_heap w !! p);
    '(rc', err') ← AddMember rc thisClient;
    let w1 := mkWorld (w_reg w) (<[p := rc']> (w_heap w)) (w_draws w) in
    match err' with
    | Some e => Done (w1, set_errOut (Some e) h)
    | None =>
      let msgOut := with_EndPointCount (Some (rc_epCount rc'))
                      (with_ClusterMaxSize (Some (rc_maxSize rc'))
                      (with_ClusterAttrs (Some (rc_Attrs rc'))
                      (with_ClusterID (rc_ID rc') (msg_of_op XLRegMsg_JoinReply)))) in
      Done (w1, set_errOut None (set_reply msgOut JOIN_RCVD (set_cluster p h)))
    end
  end.

(** ** GetCluster: the members asked for *)

(** The loop over members, from [i], for [left] turns.  It stops at a member
    whose token cannot be made; that error is lost. *)
Fixpoint get_tokens (members : list ClientInfo) (whichToSend : BitMap64) (left : nat) (i : Z)
    (tokens : list (option XLRegMsg_Token)) (whichReturned : BitMap64) :
    outcome (list (option XLRegMsg_Token) * BitMap64) :=
  match left with
  | O => Done (tokens, whichReturned)
  | S left' =>
    if xu_Test whichToSend i then
      member ← index members i;
      r ← Token member;
      match r with
      | Ok token => get_tokens members whichToSend left' (i + 1) (tokens ++ [Some token])
                      (xu_Set whichReturned i)
      | Err _ => Done (tokens, whichReturned)
      end
    else get_tokens members whichToSend left' (i + 1) tokens whichReturned
  end.

Definition doGetMsg (w : world) (h : InHandler) : outcome (world * InHandler) :=
  let clusterID := GetClusterID (h_msgIn h) in
  let whichRequested := xu_NewBitMap64 (GetWhich (h_msgIn h)) in
  let fail e := Done (w, set_errOut (Some e) h) in
  match ha_NewBytesKey clusterID with
  | (_, Some e) => fail (ExtErr e)
  | (bKey, None) =>
    match ha_Find (reg_ClustersByID (w_reg w)) bKey with
    | (None, _) => fail (ErrNew (str "doGetMsg: can't find cluster with ID "
                                 ++ EncodeToString (default [] clusterID)))
    | (Some _, Some e) => fail (ExtErr e)
    | (Some p, None) =>
      cluster ← deref (w_heap w !! p);
      let size := Size cluster in
      let size := if MAX_CLUSTER_SIZE <? size then MAX_CLUSTER_SIZE else size in
      let whichToSend := xu_Intersection whichRequested (xu_LowNMap size) in
      '(tokens, whichReturned) ← get_tokens (rc_Members cluster) whichToSend (Z.to_nat size) 0 []
                                   (xu_NewBitMap64 0);
      let msgOut := with_Tokens (match tokens with [] => None | _ => Some tokens end)
                      (with_Which (Some (xu_Bits whichReturned))
                      (with_ClusterID clusterID (msg_of_op XLRegMsg_ClusterMembers))) in
      Done (w, set_errOut None (set_reply msgOut JOIN_RCVD h))
    end
  end.

(** ** Bye *)

Definition doByeMsg (w : world) (h : InHandler) : outcome (world * InHandler) :=
  Done (w, set_errOut None (set_reply (msg_of_op XLRegMsg_Ack) BYE_RCVD h)).

End MsgHandlers.
Arguments InHandler {_}.

(** ** Worlds only grow

    Nothing that is registered is ever lost or changed: clusters keep their
    descriptions and their members in order, names keep their clusters, known
    identifiers stay known. *)
Record extends `{Ext} (w w' : world) : Prop := {
  ext_heap p rc : w_heap w !! p = Some rc -> exists rc', w_heap w' !! p = Some rc' /\
    same_desc rc rc' /\ exists l, rc_Members rc' = rc_Members rc ++ l;
  ext_list : exists l, reg_Clusters (w_reg w') = reg_Clusters (w_reg w) ++ l;
  ext_names n p : reg_ClustersByName (w_reg w) !! n = Some p ->
    reg_ClustersByName (w_reg w') !! n = Some p;
  ext_known b : known (w_reg w) b -> known (w_reg w') b;
  ext_node : reg_RegNode (w_reg w') = reg_RegNode (w_reg w)
}.

(** A connection's cluster, if it has one, is allocated. *)
Definition h_ok `{Ext} (w : world) (h : InHandler) : Prop :=
  forall p, h_cluster h = Some p -> is_Some (w_heap w !! p).

(** Its cluster is a registered one. *)
Definition h_registered `{Ext} (w : world) (h : InHandler) : Prop :=
  forall p, h_cluster h = Some p -> p ∈ reg_Clusters (w_reg w).

(** The name under which a Create message registers a cluster. *)
Definition created_name (m : option XLRegMsg) : gostring :=
  if bool_decide (GetClusterName m = []) then str "xlCluster" else GetClusterName m.

Section Growth.
Context `{Ext}.

#[export] Instance extends_refl : Reflexive extends.
Proof.
  intros w. split; try done.
  - intros p rc Hp. exists rc. split_and!; try done. by exists []; rewrite app_nil_r.
  - by exists []; rewrite app_nil_r.
Qed.

#[export] Instance extends_trans : Transitive extends.
Proof.
  intros w1 w2 w3 [A1 [l A2] A3 A4 A5] [B1 [l' B2] B3 B4 B5]. split.
  - intros p rc (rc' & Hp' & (? & ? & ? & ? & ?) & [m Hm])%A1.
    destruct (B1 _ _ Hp') as (rc'' & Hp'' & (? & ? & ? & ? & ?) & [m' Hm']).
    exists rc''. split_and!; [done|split_and!; congruence|].
    exists (m ++ m'). by rewrite Hm', Hm, app_assoc.
  - exists (l ++ l'). by rewrite B2, A2, app_assoc.
  - eauto.
  - eauto.
  - congruence.
Qed.

Lemma extends_h_ok w w' h : extends w w' -> h_ok w h -> h_ok w' h.
Proof.
  intros Hx Hok p [rc Hrc]%Hok. destruct (ext_heap _ _ Hx _ _ Hrc) as (rc' & Hrc' & _). by eexists.
Qed.

Lemma h_registered_extends w w' h : extends w w' -> h_registered w h -> h_registered w' h.
Proof.
  intros Hx Hr p Hp. destruct (ext_list _ _ Hx) as [l ->]. apply elem_of_app. left. by apply Hr.
Qed.

Lemma join_cluster_registered {P : RegCluster -> Prop} w h p : reg_inv P w -> h_registered w h ->
  (join_cluster w h).1 = Some p -> p ∈ reg_Clusters (w_reg w).
Proof.
  intros Hw Hr. unfold join_cluster. destruct GetClusterID as [id|].
  - destruct ha_NewBytesKey as [k [e|]]; [done|]. by intros [? _]%(wf_ided _ Hw).
  - destruct GetClusterName as [|a n].
    + destruct (h_cluster h) as [q|] eqn:Eq; simpl; [|done]. intros [= <-]. by apply Hr.
    + destruct (_ !! _) as [q|] eqn:Eq; simpl; [|done]. intros [= <-].
      by apply (wf_named _ Hw) in Eq as [? _].
Qed.

(** The registry changes, the clusters do not. *)
Lemma extends_reg w reg ds :
  (exists l, reg_Clusters reg = reg_Clusters (w_reg w) ++ l) ->
  (forall n p, reg_ClustersByName (w_reg w) !! n = Some p -> reg_ClustersByName reg !! n = Some p) ->
  (forall b, known (w_reg w) b -> known reg b) -> reg_RegNode reg = reg_RegNode (w_reg w) ->
  extends w (mkWorld reg (w_heap w) ds).
Proof.
  intros Hl Hn Hk Hr. split; try done. intros p rc Hp. exists rc. split_and!; try done.
  by exists []; rewrite app_nil_r.
Qed.

Lemma extends_filter w f ds : (forall b, known (w_reg w) b -> known (with_idFilter f (w_reg w)) b) ->
  extends w (mkWorld (with_idFilter f (w_reg w)) (w_heap w) ds).
Proof. intros Hk. apply extends_reg; try done. by exists []; rewrite app_nil_r. Qed.

Lemma extends_draws w ds : extends w (mkWorld (w_reg w) (w_heap w) ds).
Proof. apply extends_reg; try done. by exists []; rewrite app_nil_r. Qed.

Lemma alloc_extends rc w : extends w (alloc rc w).2.
Proof.
  split; try done.
  - intros p c Hp. exists c. split_and!; try done; [by apply lookup_app_l_Some|].
    by exists []; rewrite app_nil_r.
  - by exists []; rewrite app_nil_r.
Qed.

(** A cluster gets more members. *)
Lemma update_extends w p rc rc' l : w_heap w !! p = Some rc ->
  same_desc rc rc' -> rc_Members rc' = rc_Members rc ++ l ->
  extends w (mkWorld (w_reg w) (<[p := rc']> (w_heap w)) (w_draws w)).
Proof.
  intros Hp Hd Hm. split; try done.
  - intros q c Hq. simpl. destruct (decide (q = p)) as [->|Hne].
    + rewrite list_lookup_insert_eq by (by eapply lookup_lt_Some). exists rc'.
      assert (c = rc) as -> by congruence. split_and!; try done. by eexists.
    + rewrite list_lookup_insert_ne by done. exists c. split_and!; try done.
      by exists []; rewrite app_nil_r.
  - by exists []; rewrite app_nil_r.
Qed.

Lemma AddMember_extends w p rc m rc' err : w_heap w !! p = Some rc ->
  AddMember rc m = Done (rc', err) ->
  extends w (mkWorld (w_reg w) (<[p := rc']> (w_heap w)) (w_draws w)).
Proof.
  intros Hp Ha. pose proof (AddMember_same_desc _ _ _ _ Ha) as Hd.
  apply AddMember_frame in Ha as (_ & _ & _ & _ & _ & [Hm|Hm]).
  - apply (update_extends w p rc rc' []); [done..|]. by rewrite app_nil_r.
  - by eapply update_extends.
Qed.

Lemma AddCluster_extends `{!NodeIDLaws} {P : RegCluster -> Prop} w p i err w' : reg_inv P w ->
  AddCluster w (Some p) = Done (i, err, w') -> extends w w'.
Proof.
  intros Hw [(_ & _ & ->)|(rc & n & k & byID & e & _ & _ & Hn & _ & _ & _ & _ & _ & ->)]
    %(AddCluster_wf_inv (P:=P)); try done. apply extends_reg; simpl; try done; [by eexists|].
  intros m q Hq. rewrite lookup_insert_ne; [done|congruence].
Qed.

Lemma InsertUnique_grows `{!BloomLaws} {P : RegCluster -> Prop} w nid err reg ds :
  reg_inv P w -> InsertUniqueNodeID (w_reg w) (w_draws w) = Done (nid, err, reg, ds) ->
  reg_inv P (mkWorld reg (w_heap w) ds) /\ extends w (mkWorld reg (w_heap w) ds).
Proof.
  intros Hw Hi. pose proof (fun b => InsertUniqueNodeID_mono _ _ _ _ _ _ b Hi) as Hm.
  apply InsertUniqueNodeID_inv in Hi
    as (sk & n & e & _ & -> & _ & [(? & _ & -> & _)|(_ & f & e' & _ & _ & ->)]).
  - split; [by apply reg_inv_draws|apply extends_draws].
  - split; [by apply reg_inv_filter|by apply extends_filter].
Qed.

Lemma InsertID_grows `{!BloomLaws} {P : RegCluster -> Prop} w n reg err :
  reg_inv P w -> InsertID (w_reg w) (Some n) = Done (reg, err) ->
  reg_inv P (mkWorld reg (w_heap w) (w_draws w)) /\ extends w (mkWorld reg (w_heap w) (w_draws w)).
Proof.
  intros Hw Hi. pose proof (fun b => InsertID_mono _ _ _ _ b Hi) as Hm.
  assert (reg = w_reg w \/ exists f, reg = with_idFilter f (w_reg w)) as [->|[f ->]].
  { unfold InsertID in Hi. simpl in Hi. repeat case_match; simplify_eq/=; eauto. }
  - split; [by apply reg_inv_draws|apply extends_draws].
  - split; [by apply reg_inv_filter|by apply extends_filter].
Qed.

Lemma client_nodeID_grows `{!BloomLaws} {P : RegCluster -> Prop} w id nid err w' :
  reg_inv P w -> client_nodeID w id = Done (nid, err, w') -> reg_inv P w' /\ extends w w'.
Proof.
  intros Hw. unfold client_nodeID. destruct id as [b|].
  - destruct (xi_New b) as [n [e|]]; [by intros Hc; go_inv|]. intros Hc.
    apply bind_Done_inv in Hc as ([found e] & _ & Hc). destruct e as [e|]; [by go_inv|].
    destruct found; [by go_inv|]. apply bind_Done_inv in Hc as ([reg e] & Hi & Hc).
    destruct n as [n|]; [|done]. injection Hc as <- <- <-. by eapply InsertID_grows.
  - intros Hc. apply bind_Done_inv in Hc as ([[[n e] reg] ds] & Hi & Hc).
    injection Hc as <- <- <-. by eapply InsertUnique_grows.
Qed.
End Growth.

(** What each handler guarantees. *)
Record handler_ok `{Ext} (w : world) (h : InHandler) (w' : world) (h' : InHandler) : Prop := {
  ok_wf : reg_wf w';
  ok_extends : extends w w';
  ok_ptr : h_ok w' h';
  ok_entry : h_entryState h' = h_entryState h;
  ok_client : is_Some (h_thisClient h) -> is_Some (h_thisClient h')
}.

Section Handlers.
Context `{Ext} `{!NodeIDLaws} `{!HamtLaws} `{!BloomLaws}.

Lemma set_errOut_ok w h w' e : reg_wf w' -> extends w w' -> h_ok w h ->
  handler_ok w h w' (set_errOut e h).
Proof. intros Hw Hx Hk. split; try done. by eapply extends_h_ok. Qed.

Lemma doClientMsg_ok w h w' h' : reg_wf w -> h_ok w h -> doClientMsg w h = Done (w', h') ->
  handler_ok w h w' h'.
Proof.
  intros Hw Hk. unfold doClientMsg.
  destruct xc_RSAPubKeyFromWire as [ck|e]; [|intros [= <- <-]; by apply set_errOut_ok].
  destruct (xc_RSAPubKeyFromWire (Token_GetSigKey _)) as [sk|e]; [|intros [= <- <-]; by apply set_errOut_ok].
  destruct VerifyPKCS1v15; [intros [= <- <-]; by apply set_errOut_ok|]. intros Hc.
  apply bind_Done_inv in Hc as ([[nid err] w1] & Hn & Hc).
  destruct (client_nodeID_grows _ _ _ _ _ Hw Hn) as [Hw1 Hx].
  destruct (if bool_decide _ then _ else _); [injection Hc as <- <-; by apply set_errOut_ok|].
  destruct NewClientInfo as [cm|e]; [|injection Hc as <- <-; by apply set_errOut_ok].
  apply bind_Done_inv in Hc as (n & _ & Hc). injection Hc as <- <-.
  split; try done. by eapply extends_h_ok.
Qed.

Lemma create_reply_ok w0 h0 w h cid a b c w' h' : create_reply w h cid a b c = Done (w', h') ->
  reg_wf w -> extends w0 w -> h_ok w h -> h_entryState h = h_entryState h0 ->
  h_thisClient h = h_thisClient h0 -> handler_ok w0 h0 w' h'.
Proof.
  intros Hc Hw Hx Hk He Ht. unfold create_reply in Hc.
  apply bind_Done_inv in Hc as (id & _ & Hc). injection Hc as <- <-.
  split; simpl; try done. by rewrite Ht.
Qed.

Lemma doCreateMsg_ok w h w' h' : reg_wf w -> h_ok w h -> doCreateMsg w h = Done (w', h') ->
  handler_ok w h w' h'.
Proof.
  intros Hw Hk. unfold doCreateMsg. destruct (_ !! _) as [p|] eqn:En; intros Hc.
  - apply bind_Done_inv in Hc as (rc & Hrc & Hc). apply bind_Done_inv in Hc as ([[cid e] ds] & _ & Hc).
    eapply create_reply_ok; [exact Hc|by apply reg_inv_draws|apply extends_draws|exact Hk|done..].
  - apply bind_Done_inv in Hc as ([[[cid err] reg] ds] & Hi & Hc).
    destruct (InsertUnique_grows _ _ _ _ _ Hw Hi) as [Hw1 Hx1].
    destruct err as [e|]; [injection Hc as <- <-; by apply set_errOut_ok|].
    apply bind_Done_inv in Hc as (r & Hr & Hc).
    destruct r as [rc|e]; [|injection Hc as <- <-; by apply set_errOut_ok].
    pose proof (NewRegCluster_wf _ _ _ _ _ _ Hr) as Hrc.
    apply NewRegCluster_Ok_inv in Hr as (nid & m & -> & _ & Erc).
    set (w1 := mkWorld reg (w_heap w) ds) in *.
    pose proof (alloc_wf rc w1 nid Hw1 Hrc ltac:(by rewrite Erc)) as Hw2.
    pose proof (alloc_extends rc w1) as Hx2.
    destruct (alloc rc w1) as [p w2] eqn:Eal. simpl in Hw2, Hx2.
    apply bind_Done_inv in Hc as ([[i err] w3] & Ha & Hc).
    pose proof (AddCluster_extends _ _ _ _ _ Hw2 Ha) as Hx3.
    assert (reg_wf w3) as Hw3.
    { eapply AddCluster_wf; [exact Hw2| |exact Ha]. injection Eal as <- <-. simpl.
      intros (c & Hc' & _)%(wf_listed _ Hw1). apply lookup_lt_Some in Hc'. simpl in Hc'. lia. }
    assert (extends w w3) as Hx by (by etrans; [|etrans]).
    assert (h_ok w3 (set_cluster p h)) as Hk3.
    { apply (extends_h_ok w2); [done|]. intros q [= <-].
      injection Eal as <- <-. simpl. by rewrite list_lookup_middle. }
    destruct err as [e|]; [injection Hc as <- <-; by split|].
    by eapply create_reply_ok.
Qed.

Lemma join_cluster_ok w h p : reg_wf w -> h_ok w h ->
  (join_cluster w h).1 = Some p -> is_Some (w_heap w !! p).
Proof.
  intros Hw Hk. unfold join_cluster.
  destruct GetClusterID as [id|].
  - destruct ha_NewBytesKey as [k [e|]]; [done|]. intros (_ & rc & _ & Hp & _)%(wf_ided _ Hw). by eexists.
  - destruct GetClusterName as [|a n].
    + destruct (h_cluster h) as [q|] eqn:Eq; simpl; [|done]. intros [= <-]. by apply Hk.
    + destruct (_ !! _) as [q|] eqn:Eq; simpl; [|done]. intros [= <-].
      apply (wf_named _ Hw) in Eq as (_ & rc & Hp & _). by eexists.
Qed.

Lemma doJoinMsg_ok w h w' h' : reg_wf w -> h_ok w h -> doJoinMsg w h = Done (w', h') ->
  handler_ok w h w' h'.
Proof.
  intros Hw Hk. unfold doJoinMsg. intros Hc. apply bind_Done_inv in Hc as (tc & Htc & Hc).
  destruct (join_cluster w h) as [cluster err] eqn:Ej. destruct err as [e|].
  { apply bind_Done_inv in Hc as (p & _ & Hc). injection Hc as <- <-. by apply set_errOut_ok. }
  apply bind_Done_inv in Hc as (p & Hp%deref_Done_inv & Hc).
  apply bind_Done_inv in Hc as (rc & Hrc%deref_Done_inv & Hc).
  apply bind_Done_inv in Hc as ([rc' err] & Ha & Hc).
  pose proof (Forall_lookup_1 _ _ _ _ (wf_heap _ Hw) Hrc) as Hwrc.
  pose proof (update_wf _ _ _ _ Hw Hrc (AddMember_wf _ _ _ _ Hwrc Ha) (AddMember_same_desc _ _ _ _ Ha)) as Hw1.
  pose proof (AddMember_extends _ _ _ _ _ _ Hrc Ha) as Hx1.
  destruct err as [e|]; [injection Hc as <- <-; by apply set_errOut_ok|]. injection Hc as <- <-.
  split; try done. intros q [= <-]. simpl. rewrite list_lookup_insert_eq; [done|].
  by eapply lookup_lt_Some.
Qed.

Lemma doGetMsg_ok w h w' h' : reg_wf w -> h_ok w h -> doGetMsg w h = Done (w', h') ->
  handler_ok w h w' h' /\ w' = w.
Proof.
  intros Hw Hk. unfold doGetMsg.
  destruct ha_NewBytesKey as [k [e|]]; [intros [= <- <-]; split; [by apply set_errOut_ok|done]|].
  destruct ha_Find as [[p|] [e|]]; try (intros [= <- <-]; split; [by apply set_errOut_ok|done]).
  intros Hc. apply bind_Done_inv in Hc as (rc & _ & Hc).
  apply bind_Done_inv in Hc as ([ts wr] & _ & Hc). injection Hc as <- <-. split; [|done]. by split.
Qed.

Lemma doByeMsg_ok w h : reg_wf w -> h_ok w h -> exists h', doByeMsg w h = Done (w, h') /\ handler_ok w h w h'.
Proof. intros Hw Hk. eexists. split; [done|]. by split. Qed.
End Handlers.

(** ** Facts about single handlers *)

(** The members asked for by [which], from position [i] up. *)
Fixpoint select {A} (which : Z) (i : Z) (ms : list A) : list A :=
  match ms with
  | [] => []
  | m :: ms' => (if Z.testbit which i then [m] else []) ++ select which (i + 1) ms'
  end.

Section Facts.
Context `{Ext}.

Lemma client_nodeID_Ok `{!NodeIDLaws} `{!BloomLaws} w id nid err w' :
  client_nodeID w id = Done (nid, err, w') -> err = None \/ err = Some (RegErr IDAlreadyInUse) ->
  exists n, nid = Some n /\ known (w_reg w') (xi_Value n) /\
    match id with
    | Some b => xi_Value n = b
    | None => ~ known (w_reg w) (xi_Value n)
    end.
Proof.
  unfold client_nodeID. intros Hc He. destruct id as [b|].
  - destruct (xi_New b) as [r [e|]] eqn:En; [by destruct He; go_inv|].
    destruct (xi_New_Value _ _ En) as (n & -> & Hv). exists n. unfold ContainsID, InsertID in Hc.
    simpl in Hc. destruct xf_IsMember as [[] [e|]] eqn:Em; simpl in Hc; simplify_eq/=.
    + by destruct He.
    + done.
    + by destruct He.
    + destruct xf_Insert as [f [e|]] eqn:Ei; simplify_eq/=; [by destruct He|].
      split_and!; try done. by eapply xf_IsMember_insert.
  - apply bind_Done_inv in Hc as ([[[n e] reg] ds] & Hi & Hc). injection Hc as -> -> <-.
    pose proof Hi as (sk & m & e' & _ & -> & _ & Hr)%InsertUniqueNodeID_inv. exists m.
    assert (err = None) as ->.
    { destruct He as [->| ->]; [done|].
      destruct Hr as [(? & ? & _)|(_ & f & e1 & _ & He & _)]; [done|]. by destruct e1. }
    apply InsertUniqueNodeID_Ok in Hi as (Hn & Hk & _). by split_and!.
Qed.

(** What an accepted Member message did. *)
Lemma doClientMsg_Ok w h w' h' :
  doClientMsg w h = Done (w', h') -> h_errOut h' = None ->
  let t := GetMemberSpecs (h_msgIn h) in
  exists ck sk nid err n cm,
    xc_RSAPubKeyFromWire (Token_GetCommsKey t) = inl ck /\
    xc_RSAPubKeyFromWire (Token_GetSigKey t) = inl sk /\
    VerifyPKCS1v15 sk (client_hash (Token_GetName t) (Token_GetAttrs t) (Token_GetCommsKey t)
      (Token_GetSigKey t) (Token_GetMyEnds t)) (default [] (Token_GetDigSig t)) = None /\
    client_nodeID w (Token_GetID t) = Done (nid, err, w') /\
    (err = None \/ err = Some (RegErr IDAlreadyInUse)) /\ nid = Some n /\
    NewClientInfo (Token_GetName t) nid (Some ck) (Some sk) (Token_GetAttrs t) (Token_GetMyEnds t) = Ok cm /\
    h' = set_errOut None (set_reply (with_MemberAttrs (Some (Token_GetAttrs t))
           (with_MemberID (Some (xi_Value n)) (msg_of_op XLRegMsg_MemberOK))) CLIENT_DETAILS_RCVD
           (set_thisClient cm h)).
Proof.
  unfold doClientMsg. simpl. intros Hc He.
  destruct xc_RSAPubKeyFromWire as [ck|e] eqn:Eck; [|by simplify_eq/=].
  destruct (xc_RSAPubKeyFromWire (Token_GetSigKey _)) as [sk|e] eqn:Esk; [|by simplify_eq/=].
  destruct VerifyPKCS1v15 eqn:Ev; [by simplify_eq/=|].
  apply bind_Done_inv in Hc as ([[nid err] w1] & Hn & Hc).
  destruct (if bool_decide _ then _ else _) as [e|] eqn:Ee; [by simplify_eq/=|].
  destruct NewClientInfo as [cm|e] eqn:Ecm; [|by simplify_eq/=].
  apply bind_Done_inv in Hc as (n & Hd%deref_Done_inv & Hc). injection Hc as <- <-.
  exists ck, sk, nid, err, n, cm. split_and!; try done.
  case_bool_decide; [by right|by left].
Qed.

Lemma NewClientInfo_Ok `{!BaseNodeLaws} name id ck sk attrs ends cm :
  NewClientInfo name id ck sk attrs ends = Ok cm ->
  ci_GetName cm = name /\ ci_GetNodeID cm = id /\ xn_GetCommsPublicKey (ci_BaseNode cm) = ck /\
  xn_GetSigPublicKey (ci_BaseNode cm) = sk /\ ci_Attrs cm = attrs /\ ci_MyEnds cm = ends.
Proof.
  unfold NewClientInfo. intros (base & Hb%lift_Ok_inv & [= <-])%result_bind_Ok_inv.
  destruct (xn_NewBaseNode_fields _ _ _ _ _ Hb) as (? & ? & ? & ?). by split_and!.
Qed.

Lemma clamp_size_range n : MIN_CLUSTER_SIZE <= clamp_size n <= MAX_CLUSTER_SIZE.
Proof.
  unfold clamp_size, MIN_CLUSTER_SIZE, MAX_CLUSTER_SIZE.
  destruct (Z.ltb_spec n 2), (Z.ltb_spec 64 n); lia.
Qed.

Lemma clamp_size_id n : MIN_CLUSTER_SIZE <= n <= MAX_CLUSTER_SIZE -> clamp_size n = n.
Proof.
  unfold clamp_size, MIN_CLUSTER_SIZE, MAX_CLUSTER_SIZE. intros.
  destruct (Z.ltb_spec n 2), (Z.ltb_spec 64 n); lia.
Qed.

Lemma select_ext {A} a b i (ms : list A) :
  (forall j, i <= j < i + Z.of_nat (length ms) -> Z.testbit a j = Z.testbit b j) ->
  select a i ms = select b i ms.
Proof.
  revert i. induction ms as [|m ms IH]; intros i Hj; [done|]. simpl in *.
  rewrite Hj by lia. f_equal. apply IH. intros j Hi. apply Hj. lia.
Qed.

(** The loop of [doGetMsg], when every member has a token. *)
Lemma get_tokens_select `{!BitMapLaws} (tok : ClientInfo -> XLRegMsg_Token) pre ms rest ws wr acc :
  Forall (fun m => Token m = Done (Ok (tok m))) ms ->
  Z.of_nat (length pre + length ms) <= 64 ->
  exists wr', get_tokens (pre ++ ms ++ rest) ws (length ms) (Z.of_nat (length pre)) acc wr =
    Done (acc ++ (Some ∘ tok <$> select (xu_Bits ws) (Z.of_nat (length pre)) ms), wr') /\
  forall j, 0 <= j -> Z.testbit (xu_Bits wr') j =
    Z.testbit (xu_Bits wr) j ||
    (Z.testbit (xu_Bits ws) j && (Z.of_nat (length pre) <=? j) && (j <? Z.of_nat (length pre + length ms))).
Proof.
  intros Ht. revert pre wr acc. induction Ht as [|m ms Hm _ IH]; intros pre wr acc Hl.
  - exists wr. simpl. split; [by rewrite app_nil_r|]. intros j Hj.
    destruct (Z.leb_spec (Z.of_nat (length pre)) j), (Z.ltb_spec j (Z.of_nat (length pre + 0)));
      rewrite ?andb_false_r, ?orb_false_r; done || lia.
  - cbn [length] in Hl. specialize (IH (pre ++ [m])). rewrite length_app in IH. cbn [length] in IH.
    replace (Z.of_nat (length pre + 1)) with (Z.of_nat (length pre) + 1) in IH by lia.
    replace ((pre ++ [m]) ++ ms ++ rest) with (pre ++ (m :: ms) ++ rest) in IH by (by rewrite <-app_assoc).
    cbn [length get_tokens select]. rewrite xu_Test_bits by lia.
    destruct (Z.testbit (xu_Bits ws) (Z.of_nat (length pre))) eqn:Eb.
    + assert (index (pre ++ (m :: ms) ++ rest) (Z.of_nat (length pre)) = Done m) as ->.
      { apply index_Done_inv. rewrite Nat2Z.id. split; [lia|]. by apply list_lookup_middle. }
      rewrite bind_Done, Hm, bind_Done.
      destruct (IH (xu_Set wr (Z.of_nat (length pre))) (acc ++ [Some (tok m)]) ltac:(lia)) as (wr' & -> & Hw).
      exists wr'. rewrite <-app_assoc. split; [done|]. intros j Hj. rewrite Hw, xu_Set_bits by lia.
      rewrite Z.setbit_eqb by lia. destruct (Z.eqb_spec (Z.of_nat (length pre)) j) as [<-|Hne].
      * rewrite Eb, Z.leb_refl, (proj2 (Z.ltb_lt _ (Z.of_nat (length pre + S (length ms))))) by lia.
        by rewrite orb_true_r.
      * simpl. f_equal. rewrite <-!andb_assoc. f_equal.
        destruct (Z.leb_spec (Z.of_nat (length pre) + 1) j), (Z.leb_spec (Z.of_nat (length pre)) j),
          (Z.ltb_spec j (Z.of_nat (length pre + 1 + length ms))),
          (Z.ltb_spec j (Z.of_nat (length pre + S (length ms)))); done || lia.
    + destruct (IH wr acc ltac:(lia)) as (wr' & -> & Hw). exists wr'. split; [done|].
      intros j Hj. rewrite Hw by done. f_equal. destruct (Z.eqb_spec (Z.of_nat (length pre)) j) as [<-|Hne].
      * by rewrite Eb.
      * rewrite <-!andb_assoc. f_equal.
        destruct (Z.leb_spec (Z.of_nat (length pre) + 1) j), (Z.leb_spec (Z.of_nat (length pre)) j),
          (Z.ltb_spec j (Z.of_nat (length pre + 1 + length ms))),
          (Z.ltb_spec j (Z.of_nat (length pre + S (length ms)))); done || lia.
Qed.

(** The reply to a GetCluster message. *)
Lemma doGetMsg_reply `{!BitMapLaws} w h id k p rc tok :
  GetClusterID (h_msgIn h) = Some id -> ha_NewBytesKey (Some id) = (k, None) ->
  ha_Find (reg_ClustersByID (w_reg w)) k = (Some p, None) -> w_heap w !! p = Some rc ->
  is_u32 (Z.of_nat (length (rc_Members rc))) -> is_u64 (GetWhich (h_msgIn h)) ->
  Forall (fun m => Token m = Done (Ok (tok m))) (rc_Members rc) ->
  exists h' msg bits, doGetMsg w h = Done (w, h') /\ h_errOut h' = None /\ h_exitState h' = JOIN_RCVD /\
    h_msgOut h' = Some msg /\ msg_ClusterID msg = Some id /\ msg_Which msg = Some bits /\
    (forall i, 0 <= i -> Z.testbit bits i =
       Z.testbit (GetWhich (h_msgIn h)) i && (i <? Z.of_nat (length (take 64 (rc_Members rc))))) /\
    default [] (msg_Tokens msg) =
      Some ∘ tok <$> select (GetWhich (h_msgIn h)) 0 (take 64 (rc_Members rc)).
Proof.
  intros Hid Hk Hf Hp Hl Hwh Ht. unfold doGetMsg. rewrite Hid, Hk, Hf, Hp. cbn [mbind outcome_bind deref].
  unfold Size. rewrite u32_small by done. set (size := if _ <? _ then _ else _).
  assert (size = Z.of_nat (length (take 64 (rc_Members rc)))) as Hs.
  { unfold size. unfold MAX_CLUSTER_SIZE. rewrite length_take.
    destruct (Z.ltb_spec 64 (Z.of_nat (length (rc_Members rc)))); lia. }
  rewrite Hs, Nat2Z.id.
  set (ws := xu_Intersection _ _). set (which := GetWhich (h_msgIn h)) in *.
  assert (Z.of_nat (length (take 64 (rc_Members rc))) <= 64) as H64 by (rewrite length_take; lia).
  assert (forall i, 0 <= i -> Z.testbit (xu_Bits ws) i =
    Z.testbit which i && (i <? Z.of_nat (length (take 64 (rc_Members rc))))) as Hws.
  { intros i Hi. unfold ws. rewrite xu_Intersection_bits, Z.land_spec, xu_NewBitMap64_bits by done.
    by rewrite xu_LowNMap_bits by lia. }
  destruct (get_tokens_select tok [] (take 64 (rc_Members rc)) (drop 64 (rc_Members rc)) ws
    (xu_NewBitMap64 0) []) as (wr & Hg & Hb); [by apply Forall_take|done|].
  cbn [app length Nat.add] in Hg, Hb. rewrite take_drop in Hg. change (Z.of_nat 0) with 0 in *.
  rewrite Hg. cbn [mbind outcome_bind]. eexists _, _, _. split; [done|]. split; [done|]. split; [done|].
  split; [done|]. cbn [msg_ClusterID msg_Which msg_Tokens with_Tokens with_Which with_ClusterID].
  split; [done|]. split; [done|]. split.
  - intros i Hi. rewrite Hb, Hws, xu_NewBitMap64_bits, Z.bits_0 by done.
    rewrite (proj2 (Z.leb_le 0 i)) by done. destruct (Z.testbit which i), (i <? _); done.
  - rewrite (select_ext (xu_Bits ws) which).
    2: { intros i Hi. rewrite Hws by lia. rewrite (proj2 (Z.ltb_lt _ _)) by lia. apply andb_true_r. }
    by destruct (select which 0 _).
Qed.

(** A Join message that names a registered cluster. *)
Lemma doJoinMsg_joins `{!HamtLaws} w h c p rc id k :
  reg_wf w -> h_thisClient h = Some c -> join_cluster w h = (Some p, None) -> w_heap w !! p = Some rc ->
  ci_GetNodeID c = Some id -> ha_NewBytesKey (Some (xi_Value id)) = (k, None) ->
  AddMember_checkID rc = None -> (ha_Insert (rc_MembersByID rc) k c).2 = None ->
  exists w' h', doJoinMsg w h = Done (w', h') /\ w_reg w' = w_reg w /\
  if bool_decide (ci_GetName c ∈ (ci_GetName <$> rc_Members rc)) then
    h_errOut h' = Some (RegErr ClusterMemberNameInUse) /\ w_heap w' = w_heap w
  else
    h_errOut h' = None /\ h_exitState h' = JOIN_RCVD /\ h_cluster h' = Some p /\
    (exists rc', w_heap w' = <[p := rc']> (w_heap w) /\ same_desc rc rc' /\
       rc_Members rc' = rc_Members rc ++ [c]) /\
    h_msgOut h' = Some (with_EndPointCount (Some (rc_epCount rc))
      (with_ClusterMaxSize (Some (rc_maxSize rc)) (with_ClusterAttrs (Some (rc_Attrs rc))
      (with_ClusterID (rc_ID rc) (msg_of_op XLRegMsg_JoinReply))))).
Proof.
  intros Hw Hc Hj Hp Hid Hk Hci Hins. unfold doJoinMsg. rewrite Hc, Hj. cbn [mbind outcome_bind deref].
  rewrite Hp. cbn [mbind outcome_bind deref]. unfold AddMember, AddMember_nameInUse.
  pose proof (Forall_lookup_1 _ _ _ _ (wf_heap _ Hw) Hp) as Hwf.
  rewrite (bool_decide_ext (is_Some (rc_MembersByName rc !! ci_GetName c))
    (ci_GetName c ∈ (ci_GetName <$> rc_Members rc))).
  2: { split.
       - intros [m [Hm Hn]%(wf_byName _ Hwf)]. apply list_elem_of_fmap. eauto.
       - intros (m & Hn & Hm)%list_elem_of_fmap. exists m. by apply (wf_byName _ Hwf). }
  case_bool_decide.
  - simpl. eexists _, _. split; [done|]. simpl. split_and!; try done. by apply list_insert_id.
  - rewrite Hci. unfold AddMember_insert. rewrite Hid. simpl. rewrite Hk.
    destruct ha_Insert as [byID e]. simpl in Hins. subst e. simpl.
    eexists _, _. split; [done|]. simpl. split_and!; try done. eexists. split_and!; done.
Qed.

(** A Member message whose signature is valid, from a client with an identifier. *)
Lemma doClientMsg_accepts w h t ck sk nid w1 cm : GetMemberSpecs (h_msgIn h) = Some t ->
  xc_RSAPubKeyFromWire (tok_CommsKey t) = inl ck -> xc_RSAPubKeyFromWire (tok_SigKey t) = inl sk ->
  VerifyPKCS1v15 sk (client_hash (default [] (tok_Name t)) (default 0 (tok_Attrs t)) (tok_CommsKey t)
    (tok_SigKey t) (tok_MyEnds t)) (default [] (tok_DigSig t)) = None ->
  client_nodeID w (tok_ID t) = Done (Some nid, None, w1) ->
  NewClientInfo (default [] (tok_Name t)) (Some nid) (Some ck) (Some sk) (default 0 (tok_Attrs t))
    (tok_MyEnds t) = Ok cm ->
  doClientMsg w h = Done (w1, set_errOut None (set_reply
    (with_MemberAttrs (Some (default 0 (tok_Attrs t)))
      (with_MemberID (Some (xi_Value nid)) (msg_of_op XLRegMsg_MemberOK))) CLIENT_DETAILS_RCVD
    (set_thisClient cm h))).
Proof.
  intros Ht Hck Hsk Hv Hid Hcm. unfold doClientMsg, Token_GetName, Token_GetAttrs, Token_GetCommsKey,
    Token_GetSigKey, Token_GetDigSig, Token_GetMyEnds, Token_GetID. rewrite Ht.
  cbn [mbind option_bind]. rewrite Hck, Hsk, Hv, Hid, bind_Done, bool_decide_eq_false_2 by done.
  by rewrite Hcm.
Qed.
End Facts.

(** ** Theorems *)

(** [t] with another identifier and other end points. *)
Definition retarget (t : XLRegMsg_Token) (id : bytes) (ends : list gostring) : XLRegMsg_Token :=
  mkToken (tok_Name t) (tok_Attrs t) (Some id) (tok_CommsKey t) (tok_SigKey t) (Some ends) (tok_DigSig t).

Section Theorems.
Context `{Ext}.

(** C10: A Member message is accepted only if its signature over the name,
    attributes, keys and end points verifies under the signing key it carries.
    The connection then has a client with exactly those properties; its
    identifier is the one given, or else one the registry did not know before; the
    registry knows it afterwards; and the reply carries that identifier and the
    attributes. *)
Theorem doClientMsg_authentic `{!NodeIDLaws} `{!BloomLaws} `{!BaseNodeLaws} w h w' h' :
  doClientMsg w h = Done (w', h') -> h_errOut h' = None ->
  let t := GetMemberSpecs (h_msgIn h) in
  exists ck sk n cm,
    xc_RSAPubKeyFromWire (Token_GetCommsKey t) = inl ck /\
    xc_RSAPubKeyFromWire (Token_GetSigKey t) = inl sk /\
    VerifyPKCS1v15 sk (client_hash (Token_GetName t) (Token_GetAttrs t) (Token_GetCommsKey t)
      (Token_GetSigKey t) (Token_GetMyEnds t)) (default [] (Token_GetDigSig t)) = None /\
    h_thisClient h' = Some cm /\ ci_GetName cm = Token_GetName t /\ ci_GetNodeID cm = Some n /\
    xn_GetCommsPublicKey (ci_BaseNode cm) = Some ck /\ xn_GetSigPublicKey (ci_BaseNode cm) = Some sk /\
    ci_Attrs cm = Token_GetAttrs t /\ ci_MyEnds cm = Token_GetMyEnds t /\
    known (w_reg w') (xi_Value n) /\
    match Token_GetID t with Some b => xi_Value n = b | None => ~ known (w_reg w) (xi_Value n) end /\
    h_exitState h' = CLIENT_DETAILS_RCVD /\
    h_msgOut h' = Some (with_MemberAttrs (Some (Token_GetAttrs t))
      (with_MemberID (Some (xi_Value n)) (msg_of_op XLRegMsg_MemberOK))).
Proof.
  intros Hc He t. apply doClientMsg_Ok in Hc as
    (ck & sk & nid & err & n & cm & Hck & Hsk & Hv & Hn & Herr & -> & Hcm & ->); [|done].
  destruct (client_nodeID_Ok _ _ _ _ _ Hn Herr) as (n' & [= <-] & Hk & Hid).
  destruct (NewClientInfo_Ok _ _ _ _ _ _ _ Hcm) as (? & ? & ? & ? & ? & ?).
  exists ck, sk, n, cm. by split_and!.
Qed.

(** A Member message whose signature does not verify is refused and changes
    nothing: not the registry, not its filter, not the connection's client or
    state. *)
Theorem doClientMsg_forged w h ck sk e :
  let t := GetMemberSpecs (h_msgIn h) in
  xc_RSAPubKeyFromWire (Token_GetCommsKey t) = inl ck ->
  xc_RSAPubKeyFromWire (Token_GetSigKey t) = inl sk ->
  VerifyPKCS1v15 sk (client_hash (Token_GetName t) (Token_GetAttrs t) (Token_GetCommsKey t)
    (Token_GetSigKey t) (Token_GetMyEnds t)) (default [] (Token_GetDigSig t)) = Some e ->
  doClientMsg w h = Done (w, set_errOut (Some (ExtErr e)) h).
Proof. intros t Hck Hsk Hv. unfold doClientMsg. fold t. by rewrite Hck, Hsk, Hv. Qed.

(** C32: The signature does not bind the identifier, nor where one end point ends
    and the next begins.  If a Member message is accepted, so is the same message
    with any other identifier the registry knows and the end-point bytes divided
    differently: whoever sees one signed token can present it under another
    member's identifier. *)
Theorem doClientMsg_replay `{!NodeIDLaws} w h w' h' m t id nid ends cm :
  h_msgIn h = Some m -> msg_MemberSpecs m = Some t ->
  doClientMsg w h = Done (w', h') -> h_errOut h' = None ->
  concat ends = concat (default [] (tok_MyEnds t)) ->
  xi_New id = (Some nid, None) -> known (w_reg w) id ->
  (forall ck sk, NewClientInfo (Token_GetName (Some t)) (Some nid) ck sk (Token_GetAttrs (Some t)) (Some ends) = Ok (cm ck sk)) ->
  exists ck sk, doClientMsg w (set_msgIn (Some (with_MemberSpecs (Some (retarget t id ends)) m)) h) =
    Done (w, set_errOut None (set_reply (with_MemberAttrs (Some (Token_GetAttrs (Some t)))
      (with_MemberID (Some id) (msg_of_op XLRegMsg_MemberOK))) CLIENT_DETAILS_RCVD
      (set_thisClient (cm (Some ck) (Some sk))
        (set_msgIn (Some (with_MemberSpecs (Some (retarget t id ends)) m)) h)))).
Proof.
  intros Hm Ht Hc He Hends Hid Hk Hcm.
  apply doClientMsg_Ok in Hc as (ck & sk & _ & _ & _ & _ & Hck & Hsk & Hv & _); [|done].
  rewrite Hm in Hck, Hsk, Hv. cbn [GetMemberSpecs mbind option_bind] in Hck, Hsk, Hv.
  rewrite Ht in Hck, Hsk, Hv. exists ck, sk.
  destruct (xi_New_Value _ _ Hid) as (n & [= <-] & Hval).
  set (h2 := set_msgIn _ h). unfold doClientMsg.
  change (GetMemberSpecs (h_msgIn h2)) with (Some (retarget t id ends)).
  change (Token_GetName (Some (retarget t id ends))) with (Token_GetName (Some t)).
  change (Token_GetAttrs (Some (retarget t id ends))) with (Token_GetAttrs (Some t)).
  change (Token_GetCommsKey (Some (retarget t id ends))) with (Token_GetCommsKey (Some t)).
  change (Token_GetSigKey (Some (retarget t id ends))) with (Token_GetSigKey (Some t)).
  change (Token_GetDigSig (Some (retarget t id ends))) with (Token_GetDigSig (Some t)).
  change (Token_GetMyEnds (Some (retarget t id ends))) with (Some ends).
  change (Token_GetID (Some (retarget t id ends))) with (Some id).
  assert (forall n a c k, client_hash n a c k (Some ends) = client_hash n a c k (Token_GetMyEnds (Some t))) as Hh.
  { intros. unfold client_hash. simpl. by rewrite Hends. }
  rewrite Hck, Hsk, Hh, Hv. unfold client_nodeID. rewrite Hid. unfold ContainsID. simpl.
  rewrite Hval. unfold known in Hk. rewrite Hk. simpl.
  rewrite Hcm. simpl. by rewrite Hval.
Qed.

(** C21: Creating a cluster under a name not yet in use: a new cluster is
    registered under that name, with an identifier the registry did not know, no
    members, attributes zero, the end-point count asked for, and a maximum size
    that is the one asked for brought into [2, 64]; the reply tells the identifier
    and that size. *)
Theorem doCreateMsg_new `{!NodeIDLaws} `{!HamtLaws} `{!BloomLaws} w h w' h' :
  reg_wf w -> GetClusterName (h_msgIn h) <> [] ->
  reg_ClustersByName (w_reg w) !! GetClusterName (h_msgIn h) = None ->
  doCreateMsg w h = Done (w', h') -> h_errOut h' = None ->
  exists p rc n size, size = clamp_size (GetClusterMaxSize (h_msgIn h)) /\
    MIN_CLUSTER_SIZE <= size <= MAX_CLUSTER_SIZE /\
    reg_ClustersByName (w_reg w') !! GetClusterName (h_msgIn h) = Some p /\
    reg_Clusters (w_reg w') = reg_Clusters (w_reg w) ++ [p] /\
    w_heap w' = w_heap w ++ [rc] /\ p = length (w_heap w) /\
    rc_Name rc = GetClusterName (h_msgIn h) /\ rc_ID rc = Some (xi_Value n) /\
    ~ known (w_reg w) (xi_Value n) /\ known (w_reg w') (xi_Value n) /\
    rc_Attrs rc = 0 /\ rc_maxSize rc = size /\ rc_epCount rc = GetEndPointCount (h_msgIn h) /\
    rc_Members rc = [] /\ h_cluster h' = Some p /\ h_exitState h' = CREATE_REQUEST_RCVD /\
    h_msgOut h' = Some (with_EndPointCount (Some (GetEndPointCount (h_msgIn h)))
      (with_ClusterAttrs (Some (GetClusterAttrs (h_msgIn h)))
      (with_ClusterMaxSize (Some size)
      (with_ClusterID (Some (xi_Value n)) (msg_of_op XLRegMsg_CreateReply))))).
Proof.
  intros Hw Hne Hnm Hc He. unfold doCreateMsg in Hc. rewrite Hnm in Hc.
  apply bind_Done_inv in Hc as ([[[cid err] reg] ds] & Hi & Hc).
  destruct (InsertUnique_grows _ _ _ _ _ Hw Hi) as [Hw1 _].
  destruct err as [e|]; [by simplify_eq/=|]. apply bind_Done_inv in Hc as (r & Hr & Hc).
  destruct r as [rc|e]; [|by simplify_eq/=].
  pose proof (NewRegCluster_wf _ _ _ _ _ _ Hr) as Hrc.
  apply NewRegCluster_Ok_inv in Hr as (n & m & -> & _ & Erc). rewrite bool_decide_eq_false_2 in Erc by done.
  destruct (InsertUniqueNodeID_Ok _ _ _ _ _ Hi) as (Hnk & Hk & _ & f & Ereg).
  set (w1 := mkWorld reg (w_heap w) ds) in *.
  pose proof (alloc_wf rc w1 n Hw1 Hrc ltac:(by rewrite Erc)) as Hw2.
  destruct (alloc rc w1) as [p w2] eqn:Eal.
  apply bind_Done_inv in Hc as ([[i err] w3] & Ha & Hc). destruct err as [e|]; [by simplify_eq/=|].
  apply (AddCluster_wf_inv (P:=rc_wf)) in Ha
    as [([e ?] & _)|(rc' & n' & k & byID & e & Hp & Hid & _ & _ & _ & _ & _ & _ & ->)]; [done| |done].
  injection Eal as <- <-. simpl in Hp. rewrite list_lookup_middle in Hp by done. injection Hp as <-.
  unfold create_reply in Hc. simpl in Hc. injection Hc as <- <-. simpl.
  exists (length (w_heap w)), rc, n, (clamp_size (GetClusterMaxSize (h_msgIn h))).
  split_and!; try done; try (by rewrite Erc); try apply clamp_size_range.
  - rewrite Erc. simpl. by rewrite lookup_insert_eq.
  - by rewrite Ereg.
Qed.

(** Creating a cluster under a name already in use changes nothing in the
    registry and does not tie the connection to the cluster; the reply tells the
    identifier, size, attributes and end-point count of the existing cluster,
    whatever was asked for. *)
Theorem doCreateMsg_existing `{!NodeIDLaws} w h p rc :
  reg_wf w -> reg_ClustersByName (w_reg w) !! GetClusterName (h_msgIn h) = Some p ->
  w_heap w !! p = Some rc ->
  exists id, rc_ID rc = Some id /\
  doCreateMsg w h = Done (w, set_errOut None (set_reply
    (with_EndPointCount (Some (rc_epCount rc)) (with_ClusterAttrs (Some (rc_Attrs rc))
      (with_ClusterMaxSize (Some (rc_maxSize rc)) (with_ClusterID (Some id)
      (msg_of_op XLRegMsg_CreateReply))))) CREATE_REQUEST_RCVD h)).
Proof.
  intros Hw Hn Hp. destruct (Forall_lookup_1 _ _ _ _ (wf_ids _ Hw) Hp) as [n Hid].
  exists (xi_Value n). split; [done|]. unfold doCreateMsg. rewrite Hn, Hp. simpl.
  rewrite Hid. simpl. destruct (xi_New_total n) as [n' En]. rewrite En.
  apply xi_New_Value in En as (? & [= <-] & Hv).
  unfold create_reply. simpl. rewrite Hv. by destruct w.
Qed.

(** A Create message with no name is for the cluster "xlCluster", but it is
    looked for under the empty name: once that cluster exists, such a message is
    refused instead of being told about it, although an identifier has been spent
    on it. *)
Theorem doCreateMsg_unnamed `{!BloomLaws} w h n reg ds q (m : HAMT ClientInfo) k :
  GetClusterName (h_msgIn h) = [] -> reg_ClustersByName (w_reg w) !! [] = None ->
  reg_ClustersByName (w_reg w) !! str "xlCluster" = Some q ->
  InsertUniqueNodeID (w_reg w) (w_draws w) = Done (Some n, None, reg, ds) ->
  ha_NewHAMT DEFAULT_W (xm_NextExp2_32 (clamp_size (GetClusterMaxSize (h_msgIn h)))) = inl m ->
  ha_NewBytesKey (Some (xi_Value n)) = (k, None) ->
  exists w' h', doCreateMsg w h = Done (w', h') /\ h_errOut h' = Some (RegErr NameAlreadyInUse) /\
    w_reg w' = reg /\ known reg (xi_Value n).
Proof.
  intros Hn Hnil Hq Hi Hm Hk. destruct (InsertUniqueNodeID_Ok _ _ _ _ _ Hi) as (_ & Hkn & _ & f & Ef).
  remember (doCreateMsg w h) as r eqn:Hr. symmetry in Hr.
  unfold doCreateMsg in Hr. rewrite Hn, Hnil, Hi in Hr. cbn [mbind outcome_bind] in Hr.
  unfold NewRegCluster in Hr. pose proof (clamp_size_range (GetClusterMaxSize (h_msgIn h))) as Hc.
  unfold MIN_CLUSTER_SIZE, MAX_CLUSTER_SIZE in Hc.
  rewrite (proj2 (Z.ltb_ge (clamp_size _) 1)), andb_false_r, Hm in Hr by lia.
  cbn [mbind outcome_bind deref] in Hr. unfold alloc, AddCluster in Hr. cbn [w_heap w_reg] in Hr.
  rewrite list_lookup_middle in Hr by done. cbn [mbind outcome_bind deref rc_ID rc_Name] in Hr.
  rewrite Hk in Hr. rewrite (bool_decide_eq_true_2 (is_Some _)) in Hr.
  2: { rewrite Ef. simpl. rewrite Hq. by eexists. }
  cbn [mbind outcome_bind] in Hr. subst r. by eexists _, _.
Qed.

(** C19: Joining a cluster that is found: if no member has the client's name, the
    client is appended to the members, the connection is tied to the cluster and
    the reply describes it; if one has, the client is refused with
    ClusterMemberNameInUse and no cluster changes. *)
Theorem doJoinMsg_spec `{!HamtLaws} w h c p rc id k :
  reg_wf w -> h_thisClient h = Some c -> join_cluster w h = (Some p, None) -> w_heap w !! p = Some rc ->
  ci_GetNodeID c = Some id -> ha_NewBytesKey (Some (xi_Value id)) = (k, None) ->
  AddMember_checkID rc = None -> (ha_Insert (rc_MembersByID rc) k c).2 = None ->
  exists w' h', doJoinMsg w h = Done (w', h') /\ w_reg w' = w_reg w /\
  if bool_decide (ci_GetName c ∈ (ci_GetName <$> rc_Members rc)) then
    h_errOut h' = Some (RegErr ClusterMemberNameInUse) /\ w_heap w' = w_heap w
  else
    h_errOut h' = None /\ h_exitState h' = JOIN_RCVD /\ h_cluster h' = Some p /\
    (exists rc', w_heap w' = <[p := rc']> (w_heap w) /\ same_desc rc rc' /\
       rc_Members rc' = rc_Members rc ++ [c]) /\
    h_msgOut h' = Some (with_EndPointCount (Some (rc_epCount rc))
      (with_ClusterMaxSize (Some (rc_maxSize rc)) (with_ClusterAttrs (Some (rc_Attrs rc))
      (with_ClusterID (rc_ID rc) (msg_of_op XLRegMsg_JoinReply))))).
Proof. apply doJoinMsg_joins. Qed.

(** C27: A Join message that names no registered cluster, by identifier or by name,
    or that names none on a connection without one, crashes the server: the
    cluster pointer is [nil] and is dereferenced, by [AddMember] or by the
    statement that logs the error. *)
Theorem doJoinMsg_crashes w h c :
  h_thisClient h = Some c ->
  match GetClusterID (h_msgIn h), GetClusterName (h_msgIn h) with
  | Some id, _ => exists k, ha_NewBytesKey (Some id) = (k, None) /\
                    (ha_Find (reg_ClustersByID (w_reg w)) k).1 = None
  | None, [] => h_cluster h = None
  | None, name => reg_ClustersByName (w_reg w) !! name = None
  end ->
  doJoinMsg w h = Panics NilDereference.
Proof.
  intros Hc Hj. unfold doJoinMsg, join_cluster. rewrite Hc. cbn [mbind outcome_bind deref].
  destruct GetClusterID as [id|].
  - destruct Hj as (k & -> & ->). done.
  - destruct GetClusterName; by rewrite Hj.
Qed.

(** C20: A GetCluster message returns exactly the tokens of the members asked for
    among the first 64, in order of joining, and the bits of those members, and
    leaves the registry as it is.  A message without Which asks for none
    ([GetWhich] is then zero), although xlReg.md promises all. *)
Theorem doGetMsg_spec `{!BitMapLaws} w h id k p rc tok :
  GetClusterID (h_msgIn h) = Some id -> ha_NewBytesKey (Some id) = (k, None) ->
  ha_Find (reg_ClustersByID (w_reg w)) k = (Some p, None) -> w_heap w !! p = Some rc ->
  is_u32 (Z.of_nat (length (rc_Members rc))) -> is_u64 (GetWhich (h_msgIn h)) ->
  Forall (fun m => Token m = Done (Ok (tok m))) (rc_Members rc) ->
  exists h' msg bits, doGetMsg w h = Done (w, h') /\ h_errOut h' = None /\ h_exitState h' = JOIN_RCVD /\
    h_msgOut h' = Some msg /\ msg_ClusterID msg = Some id /\ msg_Which msg = Some bits /\
    (forall i, 0 <= i -> Z.testbit bits i =
       Z.testbit (GetWhich (h_msgIn h)) i && (i <? Z.of_nat (length (take 64 (rc_Members rc))))) /\
    default [] (msg_Tokens msg) =
      Some ∘ tok <$> select (GetWhich (h_msgIn h)) 0 (take 64 (rc_Members rc)).
Proof. apply doGetMsg_reply. Qed.
End Theorems.

(** ** Witnesses *)

Module MsgHandlersWitness.
Import ModelInstances ClientInfoWitness RegClusterWitness RegNodeWitness RegistryWitness.

(** A 368-bit key and a signature made with it over the fields of the token. *)
Definition w_pub : PublicKey := mkPublicKey
  0xdf2ee8885cbbbb45c54c86e32dd72d28f6cd36f0cad862f326555b43123b17186638111bbf5c0a1d70f0681efbf5 17.
Definition w_pubBytes : bytes :=
  match Concrete.pub_to_wire (Some w_pub) with inl b => b | inr _ => [] end.
Definition w_sig : bytes :=
  match DecodeString (str "0e57cc57bd3f5797201ce34e40d83de5063065be50ed1c363f55763799326c684753d1571d0b586eb8ec3e8c364c")
  with inl b => b | inr _ => [] end.
Definition w_tok (sig : bytes) (id : option bytes) : XLRegMsg_Token :=
  mkToken (Some (str "alice")) (Some 5) id (Some w_pubBytes) (Some w_pubBytes)
    (Some [str "127.0.0.1:5000"; str "127.0.0.1:5001"]) (Some sig).
Definition w_memberMsg (t : XLRegMsg_Token) : XLRegMsg :=
  with_MemberSpecs (Some t) (msg_of_op XLRegMsg_Member).
Definition w_handler (m : XLRegMsg) : InHandler :=
  mkInHandler None None 0 0 HELLO_RCVD HELLO_RCVD (Some m) None None tt.
Definition w_draw (s : string) : draw := (Some (str s), None).
Definition w_start : world := mkWorld w_registry [] [w_draw "0123456789abcdefghij"; w_draw "new1"; w_draw "new2"].

Definition w_after (r : outcome (world * InHandler)) : world * InHandler :=
  match r with Done p => p | _ => (w_start, w_handler (msg_of_op 0)) end.
Definition w_accepted : world * InHandler :=
  w_after (doClientMsg w_start (w_handler (w_memberMsg (w_tok w_sig None)))).

Definition is_Done {A} (r : outcome A) : bool := match r with Done _ => true | _ => false end.

Lemma w_after_done r : is_Done r = true -> r = Done ((w_after r).1, (w_after r).2).
Proof. destruct r as [[w h]| |]; done. Qed.

Lemma w_accepted_done :
  doClientMsg w_start (w_handler (w_memberMsg (w_tok w_sig None))) = Done (w_accepted.1, w_accepted.2).
Proof. apply w_after_done. vm_compute. reflexivity. Qed.

Lemma doClientMsg_authentic_witness : exists cm, h_thisClient w_accepted.2 = Some cm /\
  ci_GetName cm = str "alice" /\ h_exitState w_accepted.2 = CLIENT_DETAILS_RCVD.
Proof.
  destruct (doClientMsg_authentic _ _ _ _ w_accepted_done ltac:(vm_compute; reflexivity))
    as (ck & sk & n & cm & _ & _ & _ & Hc & Hn & _ & _ & _ & _ & _ & _ & _ & Hx & _).
  exists cm. split; [exact Hc|]. split; [exact Hn|exact Hx].
Defined.

Lemma doClientMsg_forged_witness : exists e,
  doClientMsg w_start (w_handler (w_memberMsg (w_tok [] None))) =
  Done (w_start, set_errOut (Some (ExtErr e)) (w_handler (w_memberMsg (w_tok [] None)))).
Proof.
  eexists. eapply (doClientMsg_forged w_start (w_handler (w_memberMsg (w_tok [] None))) w_pub w_pub);
    vm_compute; reflexivity.
Defined.

(** Alice's token presented under the registry's own identifier. *)
Definition w_stolen (ck sk : option PublicKey) : ClientInfo :=
  mkClientInfo 5 (Some [str "127.0.0.1:5000127.0.0.1:5001"])
    (Concrete.mkBase (str "alice") (Some (str "0123456789abcdefghij")) ck sk).
Definition w_stolenMsg : XLRegMsg :=
  with_MemberSpecs (Some (retarget (w_tok w_sig None) (str "0123456789abcdefghij")
    [str "127.0.0.1:5000127.0.0.1:5001"])) (w_memberMsg (w_tok w_sig None)).

Lemma doClientMsg_replay_witness : exists ck sk,
  h_thisClient (w_after (doClientMsg w_start (set_msgIn (Some w_stolenMsg)
    (w_handler (w_memberMsg (w_tok w_sig None)))))).2 = Some (w_stolen ck sk).
Proof.
  destruct (doClientMsg_replay w_start (w_handler (w_memberMsg (w_tok w_sig None)))
    w_accepted.1 w_accepted.2 (w_memberMsg (w_tok w_sig None)) (w_tok w_sig None)
    (str "0123456789abcdefghij") (w_id "0123456789abcdefghij") [str "127.0.0.1:5000127.0.0.1:5001"]
    w_stolen eq_refl eq_refl w_accepted_done) as (ck & sk & E).
  - vm_compute. reflexivity.
  - vm_compute. reflexivity.
  - reflexivity.
  - reflexivity.
  - reflexivity.
  - exists (Some ck), (Some sk). fold w_stolenMsg in E. rewrite E. reflexivity.
Defined.

(** A connection whose client is known. *)
Definition w_alice : ClientInfo := mkClientInfo 5 (Some [str "127.0.0.1:5000"; str "127.0.0.1:5001"])
  (Concrete.mkBase (str "alice") (Some (str "alice's id")) (Some w_pub) (Some w_pub)).
Definition w_aliceCnx : InHandler :=
  mkInHandler (Some w_alice) None 0 0 CLIENT_DETAILS_RCVD CLIENT_DETAILS_RCVD None None None tt.

Definition w_req (op : Z) (h : InHandler) (name : string) (size : Z) : InHandler :=
  set_msgIn (Some (with_EndPointCount (Some 2) (with_ClusterMaxSize (Some size)
    (with_ClusterName (Some (str name)) (msg_of_op op))))) h.
Definition w_created : world * InHandler :=
  w_after (doCreateMsg w_start (w_req XLRegMsg_Create w_aliceCnx "east" 1000)).

Lemma w_created_done : doCreateMsg w_start (w_req XLRegMsg_Create w_aliceCnx "east" 1000) =
  Done (w_created.1, w_created.2).
Proof. apply w_after_done. vm_compute. reflexivity. Qed.

Lemma w_created_wf : reg_wf w_created.1.
Proof.
  eapply ok_wf, doCreateMsg_ok, w_created_done; [apply w_empty_wf|done].
Qed.

Lemma doCreateMsg_new_witness : exists p rc,
  reg_ClustersByName (w_reg w_created.1) !! str "east" = Some p /\
  w_heap w_created.1 = [rc] /\ rc_maxSize rc = 64 /\ rc_epCount rc = 2.
Proof.
  destruct (doCreateMsg_new w_start (w_req XLRegMsg_Create w_aliceCnx "east" 1000)
    w_created.1 w_created.2) as
    (p & rc & n & size & Hs & _ & Hn & _ & Hh & _ & _ & _ & _ & _ & _ & Hm & He & _).
  - apply w_empty_wf.
  - discriminate.
  - vm_compute. reflexivity.
  - exact w_created_done.
  - vm_compute. reflexivity.
  - exists p, rc. split; [exact Hn|]. split; [exact Hh|]. split; [rewrite Hm, Hs; reflexivity|exact He].
Defined.

(** The cluster created, as it is in the heap. *)
Definition w_east : RegCluster :=
  mkRegCluster (str "east") (Some (str "new1")) 0 64 2 [] ∅ [].

Lemma w_created_heap : w_heap w_created.1 = [w_east].
Proof. reflexivity. Qed.

Lemma doCreateMsg_existing_witness : exists id h',
  doCreateMsg w_created.1 (w_req XLRegMsg_Create w_aliceCnx "east" 3) = Done (w_created.1, h') /\
  rc_ID w_east = Some id.
Proof.
  destruct (doCreateMsg_existing w_created.1 (w_req XLRegMsg_Create w_aliceCnx "east" 3) 0 w_east)
    as (id & Hid & Hd).
  - exact w_created_wf.
  - vm_compute. reflexivity.
  - rewrite w_created_heap. reflexivity.
  - eexists id, _. split; [exact Hd|exact Hid].
Defined.

Definition w_unnamed : world := mkWorld
  (with_clusters [0%nat] {[ str "xlCluster" := 0%nat ]} [] w_registry) [w_east] [w_draw "new3"].

Lemma doCreateMsg_unnamed_witness : exists w' h',
  doCreateMsg w_unnamed (w_req XLRegMsg_Create w_aliceCnx "" 3) = Done (w', h') /\
  h_errOut h' = Some (RegErr NameAlreadyInUse).
Proof.
  destruct (doCreateMsg_unnamed w_unnamed (w_req XLRegMsg_Create w_aliceCnx "" 3) (w_id "new3")
    (with_idFilter (w_filter [str "new3"; str "0123456789abcdefghij"]) (w_reg w_unnamed)) [] 0%nat []
    (Some (str "new3"))) as (w' & h' & Hd & He & _); try reflexivity.
  exists w', h'. split; [exact Hd|exact He].
Defined.

Definition w_joinReq : InHandler := w_req XLRegMsg_Join w_created.2 "east" 0.
Lemma w_joinReq_client : h_thisClient w_joinReq = Some w_alice.
Proof. reflexivity. Qed.

Lemma doJoinMsg_spec_witness : exists w' h', doJoinMsg w_created.1 w_joinReq = Done (w', h') /\
  h_errOut h' = None /\ h_exitState h' = JOIN_RCVD.
Proof.
  destruct (doJoinMsg_spec w_created.1 w_joinReq w_alice 0 w_east (w_id "alice's id") (Some (str "alice's id"))
    w_created_wf w_joinReq_client) as (w' & h' & Hd & _ & Hr); try reflexivity.
  rewrite bool_decide_eq_false_2 in Hr by apply not_elem_of_nil.
  destruct Hr as (He & Hx & _). exists w', h'. split; [exact Hd|]. split; [exact He|exact Hx].
Defined.

Lemma doJoinMsg_crashes_witness :
  doJoinMsg w_created.1 (w_req XLRegMsg_Join w_created.2 "nowhere" 0) = Panics NilDereference.
Proof.
  eapply (doJoinMsg_crashes w_created.1 (w_req XLRegMsg_Join w_created.2 "nowhere" 0) w_alice).
  - reflexivity.
  - vm_compute. reflexivity.
Defined.

Definition w_getWorld : world := mkWorld
  (with_clusters [0%nat] {[ str "east" := 0%nat ]} [(Some (str "new1"), 0%nat)] w_registry)
  [mkRegCluster (str "east") (Some (str "new1")) 0 64 2 [w_member; w_twin] ∅ []] [].
Definition w_getReq : InHandler :=
  set_msgIn (Some (with_Which (Some 6) (with_ClusterID (Some (str "new1")) (msg_of_op XLRegMsg_GetCluster))))
    (w_handler (msg_of_op 0)).
Definition w_tokenOf (m : ClientInfo) : XLRegMsg_Token :=
  match Token m with Done (Ok t) => t | _ => XLRegMsg_Token_zero end.

Lemma doGetMsg_spec_witness : exists h' msg, doGetMsg w_getWorld w_getReq = Done (w_getWorld, h') /\
  h_msgOut h' = Some msg /\ default [] (msg_Tokens msg) = [Some (w_tokenOf w_twin)].
Proof.
  destruct (doGetMsg_spec w_getWorld w_getReq (str "new1") (Some (str "new1")) 0
    (mkRegCluster (str "east") (Some (str "new1")) 0 64 2 [w_member; w_twin] ∅ []) w_tokenOf)
    as (h' & msg & bits & Hd & _ & _ & Hm & _ & _ & _ & Ht); try reflexivity.
  - split; [discriminate|reflexivity].
  - split; [discriminate|reflexivity].
  - repeat constructor.
  - exists h', msg. split; [exact Hd|]. split; [exact Hm|exact Ht].
Defined.
End MsgHandlersWitness.
