(* ===== verification/InHandler.v ===== *)
(** * Connections from clients

    Models in_handler.go: the hello that opens a session, the dispatch of messages
    by state and tag, and the loop that serves a connection. *)
From S2P Require Import Prelude GoStd GoCrypto Errors Proto Ext ExtModel ClientInfo RegCluster.
From S2P Require Import RegCred RegNode Registry CnxHandler MsgHandlers.

Definition IN_STATE_COUNT : Z := BYE_RCVD + 1.
Definition MIN_TAG : Z := 0.
Definition MAX_TAG : Z := 4.
Definition MSG_HANDLER_COUNT : Z := MAX_TAG + 1.

Section InHandler.
Context `{Ext}.

(** A handler for an open connection, with a session that is not set up yet. *)
Definition NewInHandler (reg : option Registry) (conn : option Cnx) : result (InHandler * Cnx) :=
  match reg with
  | None => Err (RegErr NilRegistry)
  | Some _ =>
    match conn with
    | None => Err (ExtErr xa_NilConnection)
    | Some c =>
      match NewCnxHandler (Some c) with
      | Err e => Err e
      | Ok (c', s) => Ok (mkInHandler None None 0 0 0 0 None None None s, c')
      end
    end
  end.

(** ** Dispatch *)

Definition msgHandlers : list (list (world -> InHandler -> outcome (world * InHandler))) := [
  (* HELLO_RCVD *)
  [doClientMsg; badCombo; badCombo; badCombo; doByeMsg];
  (* CLIENT_DETAILS_RCVD *)
  [badCombo; doCreateMsg; doJoinMsg; badCombo; doByeMsg];
  (* CREATE_REQUEST_RCVD *)
  [badCombo; badCombo; doJoinMsg; badCombo; doByeMsg];
  (* JOIN_RCVD *)
  [badCombo; badCombo; badCombo; doGetMsg; doByeMsg]].

(** [int(op-XLRegMsg_Member) / 2]: the difference is an int32, and Go's division
    truncates. *)
Definition op2tag (op : Z) : Z := Z.quot (i32 (op - XLRegMsg_Member)) 2.

(** A message, from its receipt to the reply that is to be sent.  A tag out of
    range is noted and then used all the same. *)
Definition handle_msg (w : world) (h : InHandler) (msg : option XLRegMsg) :
    outcome (world * InHandler) :=
  let h := set_msgIn msg h in
  let tag := op2tag (GetOp (h_msgIn h)) in
  let h := if (tag <? MIN_TAG) || (MAX_TAG <? tag) then set_errOut (Some (RegErr TagOutOfRange)) h else h in
  row ← index msgHandlers (h_entryState h);
  handler ← index row tag;
  '(w', h') ← handler w h;
  match h_errOut h' with
  | None => Done (w', h')
  | Some e =>
    let msgOut := with_ErrDesc (Some (Error e)) (msg_of_op XLRegMsg_Error) in
    Done (w', set_errOut None (set_reply msgOut IN_CLOSED h'))
  end.

(** Encode, encrypt and send the reply; an error is logged, and returned if the
    loop ends here. *)
Definition send_reply (h : InHandler) (c : Cnx) : option exterr * Cnx :=
  match h_msgOut h with
  | None => (None, c)
  | Some msg =>
    match EncodePadEncrypt (h_AesSession h) msg (cnx_rand c (length (cnx_sent c))) with
    | inr e => (Some e, c)
    | inl ciphertext => WriteData c ciphertext
    end
  end.

(** The loop of [Start].  Fuel: each turn takes a chunk, or a buffer's worth of
    one, from the connection. *)
Fixpoint serve (fuel : nat) (w : world) (h : InHandler) (c : Cnx) :
    outcome (world * InHandler * Cnx * option exterr) :=
  match fuel with
  | O => Starved
  | S f =>
    '(ciphertext, err, c1) ← ReadData c;
    match err with
    | Some e => Done (w, h, c1, Some e)
    | None =>
      match DecryptUnpadDecode (h_AesSession h) ciphertext with
      | (msgIn, Some e) => Done (w, set_msgIn msgIn h, c1, Some e)
      | (msgIn, None) =>
        '(w1, h1) ← handle_msg w h msgIn;
        let '(werr, c2) := send_reply h1 c1 in
        let h2 := set_entryState (h_exitState h1) h1 in
        if h_exitState h1 =? IN_CLOSED then Done (w1, h2, c2, werr)
        else serve f w1 h2 c2
      end
    end
  end.

Definition serve_fuel (c : Cnx) : nat :=
  S (sum_list_with (fun r => S (length r.1)) (cnx_reads c)).

(** ** The hello

    The errors of the reply are held in a variable that shadows [err]: they are
    neither returned nor do they close the connection. *)
Definition handleHello (serverVersion : DecimalVersion) (w : world) (h : InHandler) (c : Cnx) :
    outcome (InHandler * Cnx * option exterr) :=
  '(ciphertext, err, c1) ← ReadData c;
  match err with
  | Some e => Done (h, Close c1, Some e)
  | None =>
    match xa_ServerDecryptHello ciphertext (rn_ckPriv (reg_RegNode (w_reg w))) with
    | inr e => Done (h, Close c1, Some e)
    | inl (sOneShot, version1) =>
      let version2 := xu_DecimalVersion_u32 serverVersion in
      match xa_ServerEncryptHelloReply sOneShot version2 (cnx_rand c1 (length (cnx_sent c1))) with
      | inr _ => Done (h, c1, None)
      | inl (sSession, ciphertextOut) =>
        let h1 := set_session sSession h in
        let '(werr, c2) := WriteData c1 ciphertextOut in
        match werr with
        | Some _ => Done (h1, c2, None)
        | None => Done (set_version version2 h1, c2, None)
        end
      end
    end
  end.

(** [Start]; the deferred statement closes the connection. *)
Definition Start (serverVersion : DecimalVersion) (w : world) (h : InHandler) (c : Cnx) :
    outcome (world * InHandler * Cnx * option exterr) :=
  '(h1, c1, err) ← handleHello serverVersion w h c;
  match err with
  | Some e => Done (w, h1, Close c1, Some e)
  | None =>
    '(w2, h2, c2, err2) ← serve (serve_fuel c1) w h1 c1;
    Done (w2, h2, Close c2, err2)
  end.

End InHandler.

(** ** The protocol of a connection *)

(** The kinds of message, by tag. *)
Definition TAG_MEMBER : Z := 0.
Definition TAG_CREATE : Z := 1.
Definition TAG_JOIN : Z := 2.
Definition TAG_GET : Z := 3.
Definition TAG_BYE : Z := 4.

(** What a connection may do: identify the client, create or join a cluster, get
    members after joining, and say goodbye from any state. *)
Inductive transition : Z -> Z -> Z -> Prop :=
  | t_member : transition HELLO_RCVD TAG_MEMBER CLIENT_DETAILS_RCVD
  | t_create : transition CLIENT_DETAILS_RCVD TAG_CREATE CREATE_REQUEST_RCVD
  | t_join1 : transition CLIENT_DETAILS_RCVD TAG_JOIN JOIN_RCVD
  | t_join2 : transition CREATE_REQUEST_RCVD TAG_JOIN JOIN_RCVD
  | t_get : transition JOIN_RCVD TAG_GET JOIN_RCVD
  | t_bye s : HELLO_RCVD <= s <= JOIN_RCVD -> transition s TAG_BYE BYE_RCVD.

(** Whether the state has a handler other than [badCombo] for a tag. *)
Definition permitted (s tag : Z) : bool :=
  (tag =? TAG_BYE) ||
  ((s =? HELLO_RCVD) && (tag =? TAG_MEMBER)) ||
  ((s =? CLIENT_DETAILS_RCVD) && ((tag =? TAG_CREATE) || (tag =? TAG_JOIN))) ||
  ((s =? CREATE_REQUEST_RCVD) && (tag =? TAG_JOIN)) ||
  ((s =? JOIN_RCVD) && (tag =? TAG_GET)).

(** The invariant of a connection that is being served. *)
Record cnx_wf `{Ext} (w : world) (h : InHandler) : Prop := {
  cw_ptr : h_ok w h;
  cw_state : HELLO_RCVD <= h_entryState h <= BYE_RCVD;
  cw_client : CLIENT_DETAILS_RCVD <= h_entryState h <= JOIN_RCVD -> is_Some (h_thisClient h)
}.

Lemma op2tag_int32 op : - 2 ^ 31 <= op < 2 ^ 31 ->
  (2 <= op <= 12 /\ op2tag op = Z.max 0 ((op - 3) / 2) /\ MIN_TAG <= op2tag op <= MAX_TAG) \/
  (~ (2 <= op <= 12) /\ ~ (MIN_TAG <= op2tag op <= MAX_TAG)).
Proof.
  intros Hop. unfold op2tag, XLRegMsg_Member, MIN_TAG, MAX_TAG.
  destruct (decide (- 2 ^ 31 + 3 <= op)) as [Hlow|Hlow].
  - rewrite i32_small by lia. destruct (decide (2 <= op <= 12)) as [Hr|Hr]; [left|right].
    + assert (op = 2 \/ op = 3 \/ op = 4 \/ op = 5 \/ op = 6 \/ op = 7 \/ op = 8 \/ op = 9 \/ op = 10
        \/ op = 11 \/ op = 12) as Hcase by lia.
      repeat destruct Hcase as [->|Hcase]; try subst op; vm_compute; split_and!;
        discriminate || reflexivity.
    + split; [done|]. pose proof (Z.quot_rem' (op - 3) 2). pose proof (Z.rem_bound_abs (op - 3) 2). lia.
  - right. split; [lia|]. assert (i32 (op - 3) = op - 3 + 2 ^ 32) as ->.
    { unfold i32. rewrite <-(Z.mod_unique_pos _ _ (-1) (op - 3 + 2 ^ 31 + 2 ^ 32)); lia. }
    pose proof (Z.quot_rem' (op - 3 + 2 ^ 32) 2). pose proof (Z.rem_bound_abs (op - 3 + 2 ^ 32) 2). lia.
Qed.

Section Dispatch.
Context `{Ext}.

(** The handler found in the table, by state and tag. *)
Lemma dispatch_cases s tag row f :
  index msgHandlers s = Done row -> index row tag = Done f ->
  HELLO_RCVD <= s <= JOIN_RCVD /\ MIN_TAG <= tag <= MAX_TAG /\
  ((permitted s tag = false /\ f = badCombo) \/
   (s = HELLO_RCVD /\ tag = TAG_MEMBER /\ f = doClientMsg) \/
   (s = CLIENT_DETAILS_RCVD /\ tag = TAG_CREATE /\ f = doCreateMsg) \/
   ((s = CLIENT_DETAILS_RCVD \/ s = CREATE_REQUEST_RCVD) /\ tag = TAG_JOIN /\ f = doJoinMsg) \/
   (s = JOIN_RCVD /\ tag = TAG_GET /\ f = doGetMsg) \/
   (tag = TAG_BYE /\ f = doByeMsg)).
Proof.
  intros [Hs Hrow]%index_Done_inv [Ht Hf]%index_Done_inv.
  unfold HELLO_RCVD, CLIENT_DETAILS_RCVD, CREATE_REQUEST_RCVD, JOIN_RCVD, MIN_TAG, MAX_TAG.
  assert (s = 0 \/ s = 1 \/ s = 2 \/ s = 3) as Es.
  { apply lookup_lt_Some in Hrow. simpl in Hrow. lia. }
  assert (tag = 0 \/ tag = 1 \/ tag = 2 \/ tag = 3 \/ tag = 4) as Et.
  { assert (length row = 5%nat) as Hl
      by (destruct Es as [->|[->|[->| ->]]]; simpl in Hrow; by injection Hrow as <-).
    apply lookup_lt_Some in Hf. lia. }
  split; [lia|]. split; [lia|].
  destruct Es as [->|[->|[->| ->]]]; simpl in Hrow; injection Hrow as <-;
    destruct Et as [->|[->|[->|[->| ->]]]]; simpl in Hf; injection Hf as <-; auto 20.
Qed.

Lemma dispatch_panics w h m : 
  ~ (HELLO_RCVD <= h_entryState h <= JOIN_RCVD) \/ ~ (MIN_TAG <= op2tag (GetOp m) <= MAX_TAG) ->
  handle_msg w h m = Panics IndexOutOfRange.
Proof.
  intros Hbad. unfold handle_msg. cbn [set_msgIn h_msgIn]. set (h1 := if _ : bool then _ else _).
  assert (h_entryState h1 = h_entryState h) as -> by (unfold h1; by destruct (_ || _)).
  destruct (index msgHandlers (h_entryState h)) as [row|p|] eqn:Er; cbn [mbind outcome_bind].
  - destruct (index row (op2tag (GetOp m))) as [f|p|] eqn:Ef; cbn [mbind outcome_bind].
    + destruct (dispatch_cases _ _ _ _ Er Ef) as (Hs & Ht & _). by destruct Hbad.
    + unfold index in Ef. repeat case_match; by simplify_eq.
    + unfold index in Ef. repeat case_match; by simplify_eq.
  - unfold index in Er. repeat case_match; by simplify_eq.
  - unfold index in Er. repeat case_match; by simplify_eq.
Qed.

(** A message for which there is a handler. *)
Lemma handle_msg_dispatch w h m row f :
  index msgHandlers (h_entryState h) = Done row -> index row (op2tag (GetOp m)) = Done f ->
  handle_msg w h m =
  ('(w', h') ← f w (set_msgIn m h);
   match h_errOut h' with
   | None => Done (w', h')
   | Some e => Done (w', set_errOut None (set_reply
       (with_ErrDesc (Some (Error e)) (msg_of_op XLRegMsg_Error)) IN_CLOSED h'))
   end).
Proof.
  intros Hr Hf. destruct (dispatch_cases _ _ _ _ Hr Hf) as (_ & Ht & _). unfold handle_msg.
  change (h_msgIn (set_msgIn m h)) with m.
  rewrite (proj2 (Z.ltb_ge _ MIN_TAG)), (proj2 (Z.ltb_ge MAX_TAG _)) by lia. cbv beta iota delta [orb].
  change (h_entryState (set_msgIn m h)) with (h_entryState h). by rewrite Hr, bind_Done, Hf.
Qed.

(** The table has an entry for every state before BYE_RCVD and every tag. *)
Lemma dispatch_found s tag : HELLO_RCVD <= s <= JOIN_RCVD -> MIN_TAG <= tag <= MAX_TAG ->
  exists row f, index msgHandlers s = Done row /\ index row tag = Done f.
Proof.
  unfold HELLO_RCVD, JOIN_RCVD, MIN_TAG, MAX_TAG. intros Hs Ht.
  assert (s = 0 \/ s = 1 \/ s = 2 \/ s = 3) as Es by lia.
  assert (tag = 0 \/ tag = 1 \/ tag = 2 \/ tag = 3 \/ tag = 4) as Et by lia.
  destruct Es as [->|[->|[->| ->]]]; destruct Et as [->|[->|[->|[->| ->]]]];
    eexists _, _; split; reflexivity.
Qed.

(** A message that was handled had a handler. *)
Lemma handle_msg_found w h m r : handle_msg w h m = Done r ->
  exists row f, index msgHandlers (h_entryState h) = Done row /\ index row (op2tag (GetOp m)) = Done f.
Proof.
  intros Hm. destruct (decide (HELLO_RCVD <= h_entryState h <= JOIN_RCVD)) as [Hs|Hs].
  - destruct (decide (MIN_TAG <= op2tag (GetOp m) <= MAX_TAG)) as [Ht|Ht]; [by apply dispatch_found|].
    by rewrite dispatch_panics in Hm by (by right).
  - by rewrite dispatch_panics in Hm by (by left).
Qed.
End Dispatch.

(** The reply that reports an error. *)
Definition error_msg (e : error) : XLRegMsg :=
  with_ErrDesc (Some (Error e)) (msg_of_op XLRegMsg_Error).

Section Protocol.
Context `{Ext} `{!NodeIDLaws} `{!HamtLaws} `{!BloomLaws}.

(** The state a handler leaves when it reports no error. *)
Lemma create_reply_exit w h cid a b c w' h' : create_reply w h cid a b c = Done (w', h') ->
  h_exitState h' = CREATE_REQUEST_RCVD.
Proof. unfold create_reply. intros Hc. by apply bind_Done_inv in Hc as (id & _ & [= <- <-]). Qed.

Lemma doCreateMsg_exit w h w' h' : doCreateMsg w h = Done (w', h') -> h_errOut h' = None ->
  h_exitState h' = CREATE_REQUEST_RCVD.
Proof.
  unfold doCreateMsg. intros Hc He. destruct (_ !! _) as [p|].
  - apply bind_Done_inv in Hc as (rc & _ & Hc). apply bind_Done_inv in Hc as ([[cid e] ds] & _ & Hc).
    by eapply create_reply_exit.
  - apply bind_Done_inv in Hc as ([[[cid err] reg] ds] & _ & Hc).
    destruct err as [e|]; [by simplify_eq/=|]. apply bind_Done_inv in Hc as (r & _ & Hc).
    destruct r as [rc|e]; [|by simplify_eq/=]. destruct (alloc rc _) as [p w2].
    apply bind_Done_inv in Hc as ([[i err] w3] & _ & Hc).
    destruct err as [e|]; [by simplify_eq/=|]. by eapply create_reply_exit.
Qed.

Lemma doJoinMsg_exit w h w' h' : doJoinMsg w h = Done (w', h') -> h_errOut h' = None ->
  h_exitState h' = JOIN_RCVD.
Proof.
  unfold doJoinMsg. intros Hc He. apply bind_Done_inv in Hc as (c & _ & Hc).
  destruct (join_cluster w h) as [cl [e|]].
  - apply bind_Done_inv in Hc as (p & _ & Hc). by simplify_eq/=.
  - apply bind_Done_inv in Hc as (p & _ & Hc). apply bind_Done_inv in Hc as (rc & _ & Hc).
    apply bind_Done_inv in Hc as ([rc' [e|]] & _ & Hc); by simplify_eq/=.
Qed.

Lemma doGetMsg_exit w h w' h' : doGetMsg w h = Done (w', h') -> h_errOut h' = None ->
  h_exitState h' = JOIN_RCVD.
Proof.
  unfold doGetMsg. intros Hc He.
  destruct ha_NewBytesKey as [k [e|]]; [by simplify_eq/=|].
  destruct ha_Find as [[p|] [e|]]; try by simplify_eq/=.
  apply bind_Done_inv in Hc as (rc & _ & Hc). apply bind_Done_inv in Hc as ([ts wr] & _ & Hc).
  by simplify_eq/=.
Qed.

Lemma doClientMsg_exit w h w' h' : doClientMsg w h = Done (w', h') -> h_errOut h' = None ->
  h_exitState h' = CLIENT_DETAILS_RCVD /\ is_Some (h_thisClient h').
Proof.
  intros Hc He. apply doClientMsg_Ok in Hc
    as (ck & sk & nid & err & n & cm & _ & _ & _ & _ & _ & _ & _ & ->); [|done].
  simpl. eauto.
Qed.

(** Every entry of the table keeps the invariant, and follows the protocol when
    it reports no error. *)
Lemma entry_ok s tag row f w h w' h' :
  index msgHandlers s = Done row -> index row tag = Done f -> h_entryState h = s ->
  reg_wf w -> cnx_wf w h -> f w h = Done (w', h') ->
  handler_ok w h w' h' /\
  (h_errOut h' = None -> transition s tag (h_exitState h') /\
     (CLIENT_DETAILS_RCVD <= h_exitState h' <= JOIN_RCVD -> is_Some (h_thisClient h'))).
Proof.
  intros Hr Hf Hs Hw [Hp Hst Hcl] Hd.
  destruct (dispatch_cases _ _ _ _ Hr Hf) as (Hrange & _ & Hc).
  assert (s <> HELLO_RCVD -> is_Some (h_thisClient h)) as Hclient.
  { intros Hne. apply Hcl. unfold HELLO_RCVD, CLIENT_DETAILS_RCVD, JOIN_RCVD in *. lia. }
  destruct Hc as [[_ ->]|[(-> & -> & ->)|[(-> & -> & ->)|[(Hs' & -> & ->)|[(-> & -> & ->)|(-> & ->)]]]]].
  - injection Hd as <- <-. split; [by apply set_errOut_ok|done].
  - split; [by eapply doClientMsg_ok|]. intros He.
    destruct (doClientMsg_exit _ _ _ _ Hd He) as [-> Hc]. split; [constructor|done].
  - pose proof (doCreateMsg_ok _ _ _ _ Hw Hp Hd) as Hok. split; [done|]. intros He.
    rewrite (doCreateMsg_exit _ _ _ _ Hd He). split; [constructor|]. intros _.
    by apply (ok_client _ _ _ _ Hok), Hclient.
  - pose proof (doJoinMsg_ok _ _ _ _ Hw Hp Hd) as Hok. split; [done|]. intros He.
    rewrite (doJoinMsg_exit _ _ _ _ Hd He). split; [destruct Hs' as [->| ->]; constructor|]. intros _.
    apply (ok_client _ _ _ _ Hok), Hclient. by destruct Hs' as [->| ->].
  - pose proof (doGetMsg_ok _ _ _ _ Hw Hp Hd) as [Hok _]. split; [done|]. intros He.
    rewrite (doGetMsg_exit _ _ _ _ Hd He). split; [constructor|]. intros _.
    by apply (ok_client _ _ _ _ Hok), Hclient.
  - injection Hd as <- <-. split; [by split|]. intros _. split; [by constructor|].
    unfold BYE_RCVD, JOIN_RCVD. simpl. lia.
Qed.

(** A message that was handled. *)
Lemma handle_msg_cases w h m w' h' : reg_wf w -> cnx_wf w h ->
  handle_msg w h m = Done (w', h') ->
  reg_wf w' /\ extends w w' /\ h_ok w' h' /\ h_errOut h' = None /\
  ((h_exitState h' = IN_CLOSED /\ exists e, h_msgOut h' = Some (error_msg e)) \/
   (transition (h_entryState h) (op2tag (GetOp m)) (h_exitState h') /\
    (CLIENT_DETAILS_RCVD <= h_exitState h' <= JOIN_RCVD -> is_Some (h_thisClient h')))).
Proof.
  intros Hw Hc. unfold handle_msg. cbn [set_msgIn h_msgIn]. set (h1 := if _ : bool then _ else _).
  assert (h_entryState h1 = h_entryState h /\ cnx_wf w h1) as [Es Hc1].
  { unfold h1. destruct Hc. by destruct (_ || _). }
  intros Hm. apply bind_Done_inv in Hm as (row & Hr & Hm). apply bind_Done_inv in Hm as (f & Hf & Hm).
  apply bind_Done_inv in Hm as ([w1 h2] & Hd & Hm).
  destruct (entry_ok _ _ _ _ _ _ _ _ Hr Hf eq_refl Hw Hc1 Hd) as [[O1 O2 O3 O4 O5] Htr].
  destruct (h_errOut h2) as [e|] eqn:Ee; injection Hm as <- <-.
  - split_and!; try done. left. split; [done|]. by exists e.
  - split_and!; try done. right. rewrite <-Es. by apply Htr.
Qed.
End Protocol.

Section Serving.
Context `{Ext}.

Lemma send_reply_reads h c e c' : send_reply h c = (e, c') -> cnx_reads c' = cnx_reads c.
Proof. unfold send_reply, WriteData. intros Hs. repeat case_match; by simplify_eq/=. Qed.
(** The fuel of the loop is enough: with any fuel above the bound it does the
    same. *)
Lemma serve_fuel_enough w h c fuel : (serve_fuel c <= fuel)%nat ->
  serve fuel w h c = serve (serve_fuel c) w h c.
Proof.
  assert (forall n m w h c, (read_measure c < n)%nat -> (read_measure c < m)%nat ->
    serve n w h c = serve m w h c) as Hs.
  { clear w h c fuel. induction n as [|n IH]; intros [|m] w h c Hn Hm; try lia. simpl.
    destruct (ReadData c) as [[[d e] c1]| |] eqn:Er; [|done..]. simpl.
    apply ReadData_measure in Er. destruct e as [e|]; [done|].
    destruct (DecryptUnpadDecode (h_AesSession h) d) as [msg [e|]]; [done|].
    destruct (handle_msg w h msg) as [[w1 h1]| |]; [|done..]. simpl.
    destruct (send_reply h1 c1) as [werr c2] eqn:Es.
    destruct (h_exitState h1 =? IN_CLOSED); [done|].
    apply send_reply_reads in Es. apply IH; unfold read_measure in *; rewrite Es; lia. }
  intros Hf. apply Hs; unfold serve_fuel in *; fold (read_measure c) in *; lia.
Qed.

End Serving.

(** ** Theorems *)

Section Theorems.
Context `{Ext}.

(** C5: A connection follows the protocol.  Whatever message is handled, either it
    is answered with an Error message and the connection is to be closed, or the
    connection makes a permitted transition; the invariants of the registry and
    of the connection are kept, and nothing registered is lost. *)
Theorem handle_msg_protocol `{!NodeIDLaws} `{!HamtLaws} `{!BloomLaws} w h m w' h' :
  reg_wf w -> cnx_wf w h -> handle_msg w h m = Done (w', h') ->
  reg_wf w' /\ extends w w' /\
  ((h_exitState h' = IN_CLOSED /\ exists e, h_msgOut h' = Some (error_msg e)) \/
   (transition (h_entryState h) (op2tag (GetOp m)) (h_exitState h') /\
    cnx_wf w' (set_entryState (h_exitState h') h'))).
Proof.
  intros Hw Hc Hm.
  destruct (handle_msg_cases _ _ _ _ _ Hw Hc Hm) as (Hw' & Hx & Hp & _ & [Hcl|[Ht Hcl]]).
  - auto.
  - split_and!; try done. right. split; [done|]. split; simpl; try done.
    inversion Ht; unfold HELLO_RCVD, CLIENT_DETAILS_RCVD, CREATE_REQUEST_RCVD, JOIN_RCVD, BYE_RCVD; lia.
Qed.

(** A message that the state of its connection does not permit is refused with
    the text of RcvdInvalidMsgForState, closes the connection and changes
    nothing. *)
Theorem handle_msg_not_permitted w h m :
  HELLO_RCVD <= h_entryState h <= JOIN_RCVD -> MIN_TAG <= op2tag (GetOp m) <= MAX_TAG ->
  permitted (h_entryState h) (op2tag (GetOp m)) = false ->
  handle_msg w h m = Done (w, set_errOut None (set_reply (error_msg (RegErr RcvdInvalidMsgForState))
    IN_CLOSED (set_msgIn m h))).
Proof.
  intros Hs Ht Hn. destruct (dispatch_found _ _ Hs Ht) as (row & f & Hr & Hf).
  rewrite (handle_msg_dispatch _ _ _ _ _ Hr Hf).
  destruct (dispatch_cases _ _ _ _ Hr Hf) as (_ & _ & [[_ ->]|Hc]); [done|]. exfalso.
  destruct Hc as [(Es & Et & _)|[(Es & Et & _)|[([Es|Es] & Et & _)|[(Es & Et & _)|(Et & _)]]]];
    rewrite Et in Hn; rewrite ?Es in Hn; try discriminate Hn; vm_compute in Hn; discriminate Hn.
Qed.

(** C26: The opcodes a client must not send.  An opcode below 2 or above 12 crashes
    the server: the tag is found to be out of range, and then used as an index.
    The others are taken for the client message of the same tag, also the
    opcodes 4, 6, 8, 10 and 12 that only the server sends, and 2. *)
Theorem op2tag_dispatch w h m :
  - 2 ^ 31 <= GetOp m < 2 ^ 31 -> HELLO_RCVD <= h_entryState h <= JOIN_RCVD ->
  if bool_decide (2 <= GetOp m <= 12) then
    op2tag (GetOp m) = Z.max 0 ((GetOp m - 3) / 2) /\
    exists row f, index msgHandlers (h_entryState h) = Done row /\ index row (op2tag (GetOp m)) = Done f
  else handle_msg w h m = Panics IndexOutOfRange.
Proof.
  intros Ho Hs. destruct (op2tag_int32 _ Ho) as [(Hr & Ht & Hin)|(Hr & Hout)].
  - rewrite bool_decide_eq_true_2 by done. split; [done|]. by apply dispatch_found.
  - rewrite bool_decide_eq_false_2 by done. apply dispatch_panics. by right.
Qed.

(** C25: After Bye the connection is acknowledged but not closed, and the next
    message of any kind crashes the server: the table of handlers has no row for
    the state BYE_RCVD. *)
Theorem message_after_bye w h bye m :
  HELLO_RCVD <= h_entryState h <= JOIN_RCVD -> op2tag (GetOp bye) = TAG_BYE ->
  exists h', handle_msg w h bye = Done (w, h') /\ h_msgOut h' = Some (msg_of_op XLRegMsg_Ack) /\
    h_exitState h' <> IN_CLOSED /\
    handle_msg w (set_entryState (h_exitState h') h') m = Panics IndexOutOfRange.
Proof.
  intros Hs Ht. destruct (dispatch_found (h_entryState h) (op2tag (GetOp bye)) Hs) as (row & f & Hr & Hf).
  { rewrite Ht. unfold MIN_TAG, MAX_TAG, TAG_BYE. lia. }
  assert (f = doByeMsg) as ->.
  { destruct (dispatch_cases _ _ _ _ Hr Hf) as (_ & _ & Hc). rewrite Ht in Hc.
    destruct Hc as [[Hp _]|[(_ & E & _)|[(_ & E & _)|[(_ & E & _)|[(_ & E & _)|(_ & E)]]]]]; done. }
  rewrite (handle_msg_dispatch _ _ _ _ _ Hr Hf).
  eexists. split; [done|]. split; [done|]. split; [done|]. apply dispatch_panics. left.
  cbn [h_entryState set_entryState h_exitState set_errOut set_reply].
  unfold HELLO_RCVD, JOIN_RCVD, BYE_RCVD. lia.
Qed.

(** An error in replying to a hello is lost: the handler goes on to serve the
    connection, with the session it had before (the zero session of a new
    handler), as if the hello had succeeded. *)
Theorem handleHello_reply_error v w h c data c1 s v1 e :
  ReadData c = Done (data, None, c1) ->
  xa_ServerDecryptHello data (rn_ckPriv (reg_RegNode (w_reg w))) = inl (s, v1) ->
  xa_ServerEncryptHelloReply s (xu_DecimalVersion_u32 v) (cnx_rand c1 (length (cnx_sent c1))) = inr e ->
  handleHello v w h c = Done (h, c1, None) /\
  Start v w h c = ('(w2, h2, c2, err2) ← serve (serve_fuel c1) w h c1; Done (w2, h2, Close c2, err2)).
Proof.
  intros Hr Hd He. assert (handleHello v w h c = Done (h, c1, None)) as Hh.
  { unfold handleHello. rewrite Hr. cbn [mbind outcome_bind]. by rewrite Hd, He. }
  split; [done|]. unfold Start. by rewrite Hh.
Qed.
End Theorems.

(** ** Witnesses *)

Module InHandlerWitness.
Import ModelInstances ClientInfoWitness RegClusterWitness RegNodeWitness RegistryWitness MsgHandlersWitness.

Lemma w_start_wf : reg_wf w_start.
Proof. apply w_empty_wf. Qed.

Lemma w_aliceCnx_wf : cnx_wf w_start w_aliceCnx.
Proof. split; simpl; [done| |by eexists]. unfold HELLO_RCVD, CLIENT_DETAILS_RCVD, BYE_RCVD. lia. Qed.

(** A Create message handled on Alice's connection. *)
Definition w_createMsg : option XLRegMsg := h_msgIn (w_req XLRegMsg_Create w_aliceCnx "east" 1000).
Definition w_handled : world * InHandler := w_after (handle_msg w_start w_aliceCnx w_createMsg).

Lemma handle_msg_protocol_witness :
  reg_wf w_handled.1 /\ cnx_wf w_handled.1 (set_entryState (h_exitState w_handled.2) w_handled.2).
Proof.
  destruct (handle_msg_protocol w_start w_aliceCnx w_createMsg w_handled.1 w_handled.2 w_start_wf w_aliceCnx_wf)
    as (Hw & _ & [[Hc _]|[_ Hc]]).
  - apply w_after_done. vm_compute. reflexivity.
  - vm_compute in Hc. discriminate Hc.
  - split; [exact Hw|exact Hc].
Defined.

Lemma handle_msg_not_permitted_witness :
  handle_msg w_start w_aliceCnx (Some (msg_of_op XLRegMsg_GetCluster)) =
  Done (w_start, set_errOut None (set_reply (error_msg (RegErr RcvdInvalidMsgForState))
    IN_CLOSED (set_msgIn (Some (msg_of_op XLRegMsg_GetCluster)) w_aliceCnx))).
Proof.
  apply handle_msg_not_permitted; [split; discriminate|split; discriminate|reflexivity].
Defined.

Lemma op2tag_dispatch_witness :
  handle_msg w_start w_aliceCnx (Some (msg_of_op XLRegMsg_Error)) = Panics IndexOutOfRange.
Proof.
  refine (op2tag_dispatch w_start w_aliceCnx (Some (msg_of_op XLRegMsg_Error)) _ _);
    split; discriminate || reflexivity.
Defined.

Lemma message_after_bye_witness : exists h',
  handle_msg w_start w_aliceCnx (Some (msg_of_op XLRegMsg_Bye)) = Done (w_start, h') /\
  handle_msg w_start (set_entryState (h_exitState h') h') (Some (msg_of_op XLRegMsg_Bye)) =
    Panics IndexOutOfRange.
Proof.
  destruct (message_after_bye w_start w_aliceCnx (Some (msg_of_op XLRegMsg_Bye))
    (Some (msg_of_op XLRegMsg_Bye))) as (h' & Hd & _ & _ & Hp).
  - split; discriminate.
  - reflexivity.
  - exists h'. split; [exact Hd|exact Hp].
Defined.

Definition w_cnx : Cnx := mkCnx [(str "hello", None); ([byte_of 11], None)] [] false (fun _ => None) (fun _ => tt).

Definition w_badVersion : DecimalVersion := str "".
Lemma handleHello_reply_error_witness : exists c1,
  handleHello w_badVersion w_start w_aliceCnx w_cnx = Done (w_aliceCnx, c1, None).
Proof.
  eexists. eapply (handleHello_reply_error w_badVersion w_start w_aliceCnx w_cnx); reflexivity.
Defined.
End InHandlerWitness.
