(* ===== verification/Threads.v ===== *)
(** * A connection in atomic steps

    A goroutine that handles a message shares the registry and the clusters with
    the other goroutines, and does not hold a lock all the time.  This file cuts
    the handlers of msg_handlers.go, and what they call in registry.go and
    reg_cluster.go, where others can come in between: at each critical section of
    a lock, at each call of the filter of identifiers, which is checked and
    extended without the registry's lock, at each draw of an identifier, and at
    each read of a member of a cluster by [doGetMsg].  What lies between two such
    points touches only the connection's own state, and goes with the one before.

    [pc] is where a goroutine is, [thread_begin] what it does with a message up to
    its first use of shared state, [thread_step] one atomic step.
    [message_alone] proves that the steps of a goroutine that is not disturbed are
    exactly [handle_msg]. *)
From S2P Require Import Prelude GoStd GoCrypto Errors Proto Ext ExtModel ClientInfo RegCluster.
From S2P Require Import RegCred RegNode Registry CnxHandler MsgHandlers InHandler.

Section Threads.
Context `{Ext}.

(** ** The table of handlers, by name *)

Inductive entry := E_badCombo | E_client | E_create | E_join | E_get | E_bye.

Definition entry_fun (e : entry) : world -> InHandler -> outcome (world * InHandler) :=
  match e with
  | E_badCombo => badCombo
  | E_client => doClientMsg
  | E_create => doCreateMsg
  | E_join => doJoinMsg
  | E_get => doGetMsg
  | E_bye => doByeMsg
  end.

Definition entries : list (list entry) := [
  [E_client; E_badCombo; E_badCombo; E_badCombo; E_bye];
  [E_badCombo; E_create; E_join; E_badCombo; E_bye];
  [E_badCombo; E_badCombo; E_join; E_badCombo; E_bye];
  [E_badCombo; E_badCombo; E_badCombo; E_get; E_bye]].

(** ** Where a goroutine is

    What a new identifier is for: a client, whose keys are known by then, or a
    cluster. *)
Inductive purpose :=
  | For_client (ck sk : PublicKey)
  | For_cluster.

Inductive pc :=
  (* waiting for the hello, and for a message *)
  | At_hello
  | At_rest
  (* InsertUniqueNodeID: drawing an identifier, ContainsID, the filter's Insert *)
  | At_draw (k : purpose)
  | At_lookup (k : purpose) (nodeID : option NodeID)
  | At_record (k : purpose) (nodeID : option NodeID)
  (* doClientMsg with an identifier: ContainsID, InsertID's two calls *)
  | At_contains (ck sk : PublicKey) (nodeID : option NodeID)
  | At_isMember (ck sk : PublicKey) (nodeID : option NodeID)
  | At_insertID (ck sk : PublicKey) (nodeID : option NodeID)
  (* doCreateMsg: looking for the name, AddCluster *)
  | At_create
  | At_addCluster (p : ptr) (clusterID : option NodeID)
  (* doJoinMsg: looking for the cluster, AddMember's three critical sections *)
  | At_join
  | At_nameInUse (p : ptr)
  | At_checkID (p : ptr)
  | At_insert (p : ptr)
  (* doGetMsg: looking for the cluster, its size, the turns of the loop *)
  | At_get (bKey : BytesKey)
  | At_size (p : ptr)
  | At_members (p : ptr) (whichToSend : BitMap64) (turns : nat) (i : Z)
      (tokens : list (option XLRegMsg_Token)) (whichReturned : BitMap64)
  (* the reply is to be sent *)
  | At_reply.

(** After the handler: an error becomes an Error message. *)
Definition answer (h : InHandler) : InHandler :=
  match h_errOut h with
  | None => h
  | Some e =>
    let msgOut := with_ErrDesc (Some (Error e)) (msg_of_op XLRegMsg_Error) in
    set_errOut None (set_reply msgOut IN_CLOSED h)
  end.

Definition finish (w : world) (h : InHandler) : outcome (world * InHandler * pc) :=
  Done (w, answer h, At_reply).
Definition finish_err (w : world) (h : InHandler) (e : error) : outcome (world * InHandler * pc) :=
  finish w (set_errOut (Some e) h).

(** ** From the message to the first use of shared state *)

(** [doClientMsg] up to the identifier: the keys and the signature. *)
Definition client_begin (h : InHandler) : outcome (InHandler * pc) :=
  let clientSpecs := GetMemberSpecs (h_msgIn h) in
  let ckBytes := Token_GetCommsKey clientSpecs in
  let skBytes := Token_GetSigKey clientSpecs in
  let fail e := Done (answer (set_errOut (Some (ExtErr e)) h), At_reply) in
  match xc_RSAPubKeyFromWire ckBytes with
  | inr e => fail e
  | inl ck =>
    match xc_RSAPubKeyFromWire skBytes with
    | inr e => fail e
    | inl sk =>
      match VerifyPKCS1v15 sk (client_hash (Token_GetName clientSpecs) (Token_GetAttrs clientSpecs)
              ckBytes skBytes (Token_GetMyEnds clientSpecs)) (default [] (Token_GetDigSig clientSpecs)) with
      | Some e => fail e
      | None =>
        match Token_GetID clientSpecs with
        | None => Done (h, At_draw (For_client ck sk))
        | Some b =>
          match xi_New b with
          | (_, Some e) => fail e
          | (nodeID, None) => Done (h, At_contains ck sk nodeID)
          end
        end
      end
    end
  end.

(** A handler up to its first use of shared state. *)
Definition entry_begin (e : entry) (h : InHandler) : outcome (InHandler * pc) :=
  match e with
  | E_badCombo => Done (answer (set_errOut (Some (RegErr RcvdInvalidMsgForState)) h), At_reply)
  | E_client => client_begin h
  | E_create => Done (h, At_create)
  | E_join => _ ← deref (h_thisClient h); Done (h, At_join)
  | E_get =>
    match ha_NewBytesKey (GetClusterID (h_msgIn h)) with
    | (_, Some e) => Done (answer (set_errOut (Some (ExtErr e)) h), At_reply)
    | (bKey, None) => Done (h, At_get bKey)
    end
  | E_bye => Done (answer (set_errOut None (set_reply (msg_of_op XLRegMsg_Ack) BYE_RCVD h)), At_reply)
  end.

Definition thread_begin (h : InHandler) (msg : option XLRegMsg) : outcome (InHandler * pc) :=
  let h := set_msgIn msg h in
  let tag := op2tag (GetOp (h_msgIn h)) in
  let h := if (tag <? MIN_TAG) || (MAX_TAG <? tag) then set_errOut (Some (RegErr TagOutOfRange)) h else h in
  row ← index entries (h_entryState h);
  e ← index row tag;
  entry_begin e h.

(** ** The atomic steps *)

(** The rest of [doClientMsg], once the identifier is settled. *)
Definition client_tail (w : world) (h : InHandler) (ck sk : PublicKey) (nodeID : option NodeID)
    (err : option error) : outcome (world * InHandler * pc) :=
  let clientSpecs := GetMemberSpecs (h_msgIn h) in
  let attrs := Token_GetAttrs clientSpecs in
  match (if bool_decide (err = Some (RegErr IDAlreadyInUse)) then None else err) with
  | Some e => finish_err w h e
  | None =>
    match NewClientInfo (Token_GetName clientSpecs) nodeID (Some ck) (Some sk) attrs
            (Token_GetMyEnds clientSpecs) with
    | Err e => finish_err w h e
    | Ok cm =>
      id ← deref nodeID;
      let msgOut := with_MemberAttrs (Some attrs)
                      (with_MemberID (Some (xi_Value id)) (msg_of_op XLRegMsg_MemberOK)) in
      finish w (set_errOut None (set_reply msgOut CLIENT_DETAILS_RCVD (set_thisClient cm h)))
    end
  end.

(** [doCreateMsg] from the new identifier to [AddCluster]. *)
Definition cluster_tail (w : world) (h : InHandler) (clusterID : option NodeID) (err : option error) :
    outcome (world * InHandler * pc) :=
  match err with
  | Some e => finish_err w h e
  | None =>
    r ← NewRegCluster (GetClusterName (h_msgIn h)) clusterID 0 (clamp_size (GetClusterMaxSize (h_msgIn h)))
          (GetEndPointCount (h_msgIn h));
    match r with
    | Err e => finish_err w h e
    | Ok rc => let '(p, w1) := alloc rc w in Done (w1, set_cluster p h, At_addCluster p clusterID)
    end
  end.

(** [InsertUniqueNodeID] has returned. *)
Definition issued (w : world) (h : InHandler) (k : purpose) (nodeID : option NodeID)
    (err : option error) : outcome (world * InHandler * pc) :=
  match k with
  | For_client ck sk => client_tail w h ck sk nodeID err
  | For_cluster => cluster_tail w h nodeID err
  end.

(** A reply to Create, and the end of the handler. *)
Definition create_tail (w : world) (h : InHandler) (clusterID : option NodeID)
    (clusterMaxSize clusterAttrs endPointCount : Z) : outcome (world * InHandler * pc) :=
  '(w', h') ← create_reply w h clusterID clusterMaxSize clusterAttrs endPointCount;
  finish w' h'.

Definition with_filter (f : BloomSHA) (w : world) : world :=
  mkWorld (with_idFilter f (w_reg w)) (w_heap w) (w_draws w).

(** The end of [doGetMsg]. *)
Definition get_tail (w : world) (h : InHandler) (tokens : list (option XLRegMsg_Token))
    (whichReturned : BitMap64) : outcome (world * InHandler * pc) :=
  let msgOut := with_Tokens (match tokens with [] => None | _ => Some tokens end)
                  (with_Which (Some (xu_Bits whichReturned))
                  (with_ClusterID (GetClusterID (h_msgIn h)) (msg_of_op XLRegMsg_ClusterMembers))) in
  finish w (set_errOut None (set_reply msgOut JOIN_RCVD h)).

(** The critical section in which [doJoinMsg] looks for its cluster. *)
Definition join_begin (w : world) (h : InHandler) : outcome (world * InHandler * pc) :=
  let '(cluster, err) := join_cluster w h in
  match err with
  | Some e => _ ← deref cluster; finish_err w h e
  | None => p ← deref cluster; Done (w, h, At_nameInUse p)
  end.

(** The end of [doJoinMsg], after [AddMember] made [rc'] of the cluster. *)
Definition join_tail (w : world) (h : InHandler) (p : ptr) (rc' : RegCluster) (err : option error) :
    outcome (world * InHandler * pc) :=
  let w1 := mkWorld (w_reg w) (<[p := rc']> (w_heap w)) (w_draws w) in
  match err with
  | Some e => finish_err w1 h e
  | None =>
    let msgOut := with_EndPointCount (Some (rc_epCount rc'))
                    (with_ClusterMaxSize (Some (rc_maxSize rc'))
                    (with_ClusterAttrs (Some (rc_Attrs rc'))
                    (with_ClusterID (rc_ID rc') (msg_of_op XLRegMsg_JoinReply)))) in
    finish w1 (set_errOut None (set_reply msgOut JOIN_RCVD (set_cluster p h)))
  end.

(** The last critical section of [AddMember]. *)
Definition join_insert (w : world) (h : InHandler) (p : ptr) : outcome (world * InHandler * pc) :=
  thisClient ← deref (h_thisClient h);
  rc ← deref (w_heap w !! p);
  '(rc', err) ← AddMember_insert rc thisClient;
  join_tail w h p rc' err.

(** The critical section in which [doGetMsg] looks for its cluster. *)
Definition get_begin (w : world) (h : InHandler) (bKey : BytesKey) : outcome (world * InHandler * pc) :=
  match ha_Find (reg_ClustersByID (w_reg w)) bKey with
  | (None, _) => finish_err w h (ErrNew (str "doGetMsg: can't find cluster with ID "
                                   ++ EncodeToString (default [] (GetClusterID (h_msgIn h)))))
  | (Some _, Some e) => finish_err w h (ExtErr e)
  | (Some p, None) => Done (w, h, At_size p)
  end.

(** One turn of the loop of [doGetMsg]: it reads the list of members anew. *)
Definition get_turn (w : world) (h : InHandler) (p : ptr) (whichToSend : BitMap64) (turns : nat) (i : Z)
    (tokens : list (option XLRegMsg_Token)) (whichReturned : BitMap64) :
    outcome (world * InHandler * pc) :=
  match turns with
  | O => get_tail w h tokens whichReturned
  | S turns' =>
    if xu_Test whichToSend i then
      cluster ← deref (w_heap w !! p);
      member ← index (rc_Members cluster) i;
      r ← Token member;
      match r with
      | Ok token => Done (w, h, At_members p whichToSend turns' (i + 1) (tokens ++ [Some token])
                                  (xu_Set whichReturned i))
      | Err _ => get_tail w h tokens whichReturned
      end
    else Done (w, h, At_members p whichToSend turns' (i + 1) tokens whichReturned)
  end.

(** One atomic step of a goroutine that handles a message.  At the other points
    it waits for the network, which is [server_step]'s business (Server.v). *)
Definition thread_step (w : world) (h : InHandler) (t : pc) : outcome (world * InHandler * pc) :=
  match t with
  | At_hello | At_rest | At_reply => Starved
  | At_draw k =>
    match w_draws w with
    | [] => Starved
    | (nodeID, _) :: ds => Done (mkWorld (w_reg w) (w_heap w) ds, h, At_lookup k nodeID)
    end
  | At_lookup k nodeID =>
    '(found, err) ← ContainsID (w_reg w) nodeID;
    match err with
    | Some e => issued w h k nodeID (Some e)
    | None => if found : bool then Done (w, h, At_draw k) else Done (w, h, At_record k nodeID)
    end
  | At_record k nodeID =>
    id ← deref nodeID;
    let '(f, err) := xf_Insert (reg_idFilter (w_reg w)) (xi_Value id) in
    issued (with_filter f w) h k nodeID (ExtErr <$> err)
  | At_contains ck sk nodeID =>
    '(found, err) ← ContainsID (w_reg w) nodeID;
    match err with
    | Some e => client_tail w h ck sk nodeID (Some e)
    | None => if found : bool then client_tail w h ck sk nodeID None
              else Done (w, h, At_isMember ck sk nodeID)
    end
  | At_isMember ck sk nodeID =>
    id ← deref nodeID;
    match xf_IsMember (reg_idFilter (w_reg w)) (xi_Value id) with
    | (_, Some e) => client_tail w h ck sk nodeID (Some (ExtErr e))
    | (true, None) => client_tail w h ck sk nodeID (Some (RegErr IDAlreadyInUse))
    | (false, None) => Done (w, h, At_insertID ck sk nodeID)
    end
  | At_insertID ck sk nodeID =>
    id ← deref nodeID;
    let '(f, err) := xf_Insert (reg_idFilter (w_reg w)) (xi_Value id) in
    client_tail (with_filter f w) h ck sk nodeID (ExtErr <$> err)
  | At_create =>
    match reg_ClustersByName (w_reg w) !! GetClusterName (h_msgIn h) with
    | Some p =>
      rc ← deref (w_heap w !! p);
      '((clusterID, _), ds) ← xi_New_opt (rc_ID rc) (w_draws w);
      create_tail (mkWorld (w_reg w) (w_heap w) ds) h clusterID (rc_maxSize rc) (rc_Attrs rc) (rc_epCount rc)
    | None => Done (w, h, At_draw For_cluster)
    end
  | At_addCluster p clusterID =>
    '(_, err, w1) ← AddCluster w (Some p);
    match err with
    | Some e => finish_err w1 h e
    | None => create_tail w1 h clusterID (clamp_size (GetClusterMaxSize (h_msgIn h)))
                (GetClusterAttrs (h_msgIn h)) (GetEndPointCount (h_msgIn h))
    end
  | At_join => join_begin w h
  | At_nameInUse p =>
    thisClient ← deref (h_thisClient h);
    rc ← deref (w_heap w !! p);
    if AddMember_nameInUse rc (ci_GetName thisClient) then
      finish_err w h (RegErr ClusterMemberNameInUse)
    else Done (w, h, At_checkID p)
  | At_checkID p =>
    rc ← deref (w_heap w !! p);
    match AddMember_checkID rc with
    | Some e => finish_err w h e
    | None => Done (w, h, At_insert p)
    end
  | At_insert p => join_insert w h p
  | At_get bKey => get_begin w h bKey
  | At_size p =>
    cluster ← deref (w_heap w !! p);
    let size := Size cluster in
    let size := if MAX_CLUSTER_SIZE <? size then MAX_CLUSTER_SIZE else size in
    let whichToSend := xu_Intersection (xu_NewBitMap64 (GetWhich (h_msgIn h))) (xu_LowNMap size) in
    Done (w, h, At_members p whichToSend (Z.to_nat size) 0 [] (xu_NewBitMap64 0))
  | At_members p whichToSend turns i tokens whichReturned =>
    get_turn w h p whichToSend turns i tokens whichReturned
  end.

(** A goroutine that runs alone. *)
Definition alone (s s' : world * InHandler * pc) : Prop :=
  thread_step s.1.1 s.1.2 s.2 = Done s'.

End Threads.
Arguments pc {_}.
Arguments answer : simpl never.
Arguments finish : simpl never.
Arguments finish_err : simpl never.
Arguments client_tail : simpl never.
Arguments cluster_tail : simpl never.
Arguments issued : simpl never.
Arguments create_tail : simpl never.
Arguments join_tail : simpl never.
Arguments join_insert : simpl never.
Arguments get_tail : simpl never.

(** ** Undisturbed, the steps are the handler *)

Section Alone.
Context `{Ext}.

Lemma entries_msgHandlers : msgHandlers = map (map entry_fun) entries.
Proof. reflexivity. Qed.

(** A step whose outcome is final. *)
Definition ends (r : outcome (world * InHandler * pc)) : Prop :=
  forall w h t, r = Done (w, h, t) -> t = At_reply.

Lemma finish_ends w h : ends (finish w h).
Proof. by intros ? ? ? [= <- <- <-]. Qed.

Lemma bind_ends {A} (m : outcome A) (k : A -> outcome (world * InHandler * pc)) :
  (forall a, ends (k a)) -> ends (m ≫= k).
Proof. intros Hk w h t (a & _ & Ha)%bind_Done_inv. by eapply Hk. Qed.

Ltac ends := repeat first [apply finish_ends | apply bind_ends; intros ? | case_match; simplify_eq].

Lemma client_tail_ends w h ck sk n err : ends (client_tail w h ck sk n err).
Proof. unfold client_tail. ends. Qed.

Lemma create_tail_ends w h n a b c : ends (create_tail w h n a b c).
Proof. unfold create_tail. ends. Qed.

Lemma addCluster_ends w h p n : ends (thread_step w h (At_addCluster p n)).
Proof. simpl. ends. all: try apply create_tail_ends. Qed.

Lemma join_tail_ends w h p rc err : ends (join_tail w h p rc err).
Proof. unfold join_tail. ends. Qed.

Lemma join_insert_ends w h p : ends (join_insert w h p).
Proof. unfold join_insert. ends. all: apply join_tail_ends. Qed.

Lemma get_tail_ends w h ts wr : ends (get_tail w h ts wr).
Proof. apply finish_ends. Qed.

(** What is left to do, as a function. *)
Definition final (r : outcome (world * InHandler * pc)) : outcome (world * InHandler) :=
  '(w, h, _) ← r; Done (w, h).

Definition cluster_rest (r : outcome (world * InHandler * pc)) : outcome (world * InHandler) :=
  '(w, h, t) ← r;
  match t with
  | At_addCluster _ _ => final (thread_step w h t)
  | _ => Done (w, h)
  end.

Definition draw_rest (w : world) (h : InHandler) (k : purpose) (ds : list draw) : outcome (world * InHandler) :=
  '(nodeID, err, reg, ds') ← InsertUniqueNodeID (w_reg w) ds;
  cluster_rest (issued (mkWorld reg (w_heap w) ds') h k nodeID err).

Definition member_rest (w : world) (h : InHandler) (ck sk : PublicKey) (nodeID : option NodeID) :
    outcome (world * InHandler) :=
  '(reg, err) ← InsertID (w_reg w) nodeID;
  final (client_tail (mkWorld reg (w_heap w) (w_draws w)) h ck sk nodeID err).

Definition join_rest (w : world) (h : InHandler) (p : ptr) : outcome (world * InHandler) :=
  thisClient ← deref (h_thisClient h);
  rc ← deref (w_heap w !! p);
  '(rc', err) ← AddMember rc thisClient;
  final (join_tail w h p rc' err).

Fixpoint turns_rest (w : world) (h : InHandler) (p : ptr) (whichToSend : BitMap64) (turns : nat) (i : Z)
    (tokens : list (option XLRegMsg_Token)) (whichReturned : BitMap64) : outcome (world * InHandler) :=
  match turns with
  | O => final (get_tail w h tokens whichReturned)
  | S turns' =>
    if xu_Test whichToSend i then
      cluster ← deref (w_heap w !! p);
      member ← index (rc_Members cluster) i;
      r ← Token member;
      match r with
      | Ok token => turns_rest w h p whichToSend turns' (i + 1) (tokens ++ [Some token]) (xu_Set whichReturned i)
      | Err _ => final (get_tail w h tokens whichReturned)
      end
    else turns_rest w h p whichToSend turns' (i + 1) tokens whichReturned
  end.

Definition size_rest (w : world) (h : InHandler) (p : ptr) : outcome (world * InHandler) :=
  cluster ← deref (w_heap w !! p);
  let size := Size cluster in
  let size := if MAX_CLUSTER_SIZE <? size then MAX_CLUSTER_SIZE else size in
  let whichToSend := xu_Intersection (xu_NewBitMap64 (GetWhich (h_msgIn h))) (xu_LowNMap size) in
  '(tokens, whichReturned) ← get_tokens (rc_Members cluster) whichToSend (Z.to_nat size) 0 [] (xu_NewBitMap64 0);
  final (get_tail w h tokens whichReturned).

Definition rest_of (w : world) (h : InHandler) (t : pc) : outcome (world * InHandler) :=
  match t with
  | At_hello | At_rest => Starved
  | At_reply => Done (w, h)
  | At_draw k => draw_rest w h k (w_draws w)
  | At_lookup k nodeID => draw_rest w h k ((nodeID, None) :: w_draws w)
  | At_record _ _ => cluster_rest (thread_step w h t)
  | At_contains ck sk nodeID =>
    '(found, err) ← ContainsID (w_reg w) nodeID;
    match err with
    | Some e => final (client_tail w h ck sk nodeID (Some e))
    | None => if found : bool then final (client_tail w h ck sk nodeID None) else member_rest w h ck sk nodeID
    end
  | At_isMember ck sk nodeID => member_rest w h ck sk nodeID
  | At_create =>
    match reg_ClustersByName (w_reg w) !! GetClusterName (h_msgIn h) with
    | Some _ => final (thread_step w h t)
    | None => draw_rest w h For_cluster (w_draws w)
    end
  | At_join =>
    '(w1, h1, t1) ← join_begin w h;
    match t1 with At_nameInUse p => join_rest w1 h1 p | _ => Done (w1, h1) end
  | At_nameInUse p => join_rest w h p
  | At_checkID p =>
    rc ← deref (w_heap w !! p);
    match AddMember_checkID rc with
    | Some e => final (finish_err w h e)
    | None => final (join_insert w h p)
    end
  | At_get bKey =>
    '(w1, h1, t1) ← get_begin w h bKey;
    match t1 with At_size p => size_rest w1 h1 p | _ => Done (w1, h1) end
  | At_size p => size_rest w h p
  | At_members p ws turns i ts wr => turns_rest w h p ws turns i ts wr
  | At_insertID _ _ _ | At_addCluster _ _ | At_insert _ => final (thread_step w h t)
  end.

Lemma final_ends r : ends r -> ('(w, h, t) ← r; rest_of w h t) = final r.
Proof. intros He. destruct r as [[[w h] t]| |]; [|done..]. by rewrite (He w h t eq_refl). Qed.

(** The steps that lead to [AddCluster]. *)
Definition to_cluster (r : outcome (world * InHandler * pc)) : Prop :=
  forall w h t, r = Done (w, h, t) -> t = At_reply \/ exists p n, t = At_addCluster p n.

Lemma issued_to_cluster w h k n err : to_cluster (issued w h k n err).
Proof.
  destruct k as [ck sk|]; simpl; intros w1 h1 t Hi; [left; by eapply client_tail_ends|].
  unfold cluster_tail in Hi. destruct err; [left; by eapply finish_ends|].
  apply bind_Done_inv in Hi as ([rc|e] & _ & Hi); [|left; by eapply finish_ends].
  destruct (alloc rc w). injection Hi as <- <- <-. right. eauto.
Qed.

Lemma cluster_rest_eq r : to_cluster r -> ('(w, h, t) ← r; rest_of w h t) = cluster_rest r.
Proof.
  intros He. destruct r as [[[w h] t]| |]; [|done..].
  by destruct (He w h t eq_refl) as [->|(p & n & ->)].
Qed.

Lemma record_to_cluster w h k n : to_cluster (thread_step w h (At_record k n)).
Proof.
  simpl. intros w1 h1 t (id & _ & Hi)%bind_Done_inv. destruct xf_Insert as [f err].
  by eapply issued_to_cluster.
Qed.

(** The loop over the members reads the same list each time. *)
Lemma turns_rest_tokens w h p ws turns i ts wr rc : w_heap w !! p = Some rc ->
  turns_rest w h p ws turns i ts wr =
  ('(tokens, wr') ← get_tokens (rc_Members rc) ws turns i ts wr; final (get_tail w h tokens wr')).
Proof.
  intros Hp. revert i ts wr. induction turns as [|turns IH]; intros i ts wr; simpl; [done|].
  destruct xu_Test; [|apply IH]. rewrite Hp. simpl.
  destruct index as [m| |]; [|done..]. simpl. destruct (Token m) as [[tok|e]| |]; [|done..]. apply IH.
Qed.

(** A step leaves to do what is left of before. *)
Lemma step_rest w h t : t <> At_hello -> t <> At_rest -> t <> At_reply ->
  rest_of w h t = ('(w1, h1, t1) ← thread_step w h t; rest_of w1 h1 t1).
Proof.
  intros Hh Hr Hp. destruct t as [| |k|k n|k n|ck sk n|ck sk n|ck sk n| |p n| |p|p|p|k|p|p ws turns i ts wr|];
    try done.
  - (* At_draw *) simpl. unfold draw_rest. destruct (w_draws w) as [|[n e] ds]; reflexivity.
  - (* At_lookup *) simpl. unfold draw_rest. cbn [InsertUniqueNodeID].
    destruct (ContainsID (w_reg w) n) as [[found [e|]]| |] eqn:Ec; [| |done..]; rewrite ?bind_Done.
    + destruct w. symmetry. apply (cluster_rest_eq (issued _ _ _ _ _)), issued_to_cluster.
    + destruct found; [by destruct w|]. simpl. destruct n as [n|]; [|done]. simpl.
      destruct xf_Insert as [f err]. reflexivity.
  - (* At_record *) symmetry. apply cluster_rest_eq, record_to_cluster.
  - (* At_contains *) simpl. destruct (ContainsID (w_reg w) n) as [[found [e|]]| |]; [| |done..]; simpl.
    + symmetry. apply (final_ends (client_tail _ _ _ _ _ _)), client_tail_ends.
    + destruct found; [|done]. symmetry. apply (final_ends (client_tail _ _ _ _ _ _)), client_tail_ends.
  - (* At_isMember *) simpl. unfold member_rest, InsertID. destruct n as [n|]; [|done]. simpl.
    destruct xf_IsMember as [[] [e|]]; simpl.
    1-3: destruct w; try reflexivity; symmetry; apply (final_ends (client_tail _ _ _ _ _ _)), client_tail_ends.
    destruct xf_Insert as [f e]. done.
  - (* At_insertID *) symmetry. apply final_ends. simpl. apply bind_ends. intros id.
    destruct xf_Insert as [f e]. apply client_tail_ends.
  - (* At_create *) simpl. destruct (_ !! _) as [p|]; [|done]. symmetry. apply final_ends.
    apply bind_ends. intros rc. apply bind_ends. intros [[n e] ds]. apply create_tail_ends.
  - (* At_addCluster *) symmetry. apply final_ends, addCluster_ends.
  - (* At_join *) simpl. unfold join_begin. destruct (join_cluster w h) as [[p|] [e|]]; done.
  - (* At_nameInUse *) simpl. unfold join_rest, AddMember.
    destruct (h_thisClient h) as [c|] eqn:Ec; [|done]. simpl. destruct (w_heap w !! p) as [rc|] eqn:Ep; [|done]. simpl.
    destruct AddMember_nameInUse; simpl.
    + rewrite list_insert_id by done. by destruct w.
    + rewrite Ep. simpl. destruct (AddMember_checkID rc) as [e|]; simpl.
      * rewrite list_insert_id by done. by destruct w.
      * unfold join_insert. rewrite Ec, Ep. simpl. by destruct AddMember_insert as [[rc' err]| |].
  - (* At_checkID *) simpl. destruct (w_heap w !! p) as [rc|]; [|done]. simpl.
    by destruct AddMember_checkID.
  - (* At_insert *) symmetry. apply final_ends, join_insert_ends.
  - (* At_get *) simpl. unfold get_begin. destruct ha_Find as [[p|] [e|]]; done.
  - (* At_size *) simpl. unfold size_rest. destruct (w_heap w !! p) as [rc|] eqn:Ep; [|done]. simpl.
    symmetry. by apply turns_rest_tokens.
  - (* At_members *) simpl. destruct turns as [|turns]; simpl; [done|].
    destruct xu_Test; [|done]. destruct (w_heap w !! p) as [rc|]; [|done]. simpl.
    destruct index as [m| |]; [|done..]. simpl. by destruct (Token m) as [[tok|e]| |].
Qed.

(** The handlers' ends, in one piece and as the last step. *)
Lemma client_rest w h : ('(w1, h1) ← doClientMsg w h; Done (w1, answer h1)) =
  ('(h1, t1) ← client_begin h; rest_of w h1 t1).
Proof.
  unfold doClientMsg, client_begin.
  destruct xc_RSAPubKeyFromWire as [ck|e]; [|done].
  destruct (xc_RSAPubKeyFromWire (Token_GetSigKey _)) as [sk|e]; [|done].
  destruct VerifyPKCS1v15; [done|].
  trans ('(nodeID, err, w1) ← client_nodeID w (Token_GetID (GetMemberSpecs (h_msgIn h)));
         final (client_tail w1 h ck sk nodeID err)).
  - destruct client_nodeID as [[[n err] w1]| |]; [|done..]. rewrite !bind_Done. unfold client_tail.
    destruct (if bool_decide _ then _ else _); [done|]. destruct NewClientInfo; [|done]. by destruct n.
  - unfold client_nodeID. destruct Token_GetID as [b|].
    + destruct (xi_New b) as [n [e|]]; [done|]. rewrite bind_Done. simpl.
      destruct (ContainsID (w_reg w) n) as [[found [e|]]| |]; [done| |done..]. simpl.
      destruct found; [done|]. unfold member_rest. by destruct InsertID as [[reg err]| |].
    + rewrite bind_Done. simpl. unfold draw_rest.
      destruct InsertUniqueNodeID as [[[[n err] reg] ds]| |]; [|done..]. rewrite !bind_Done. simpl.
      pose proof (client_tail_ends (mkWorld reg (w_heap w) ds) h ck sk n err) as He.
      unfold issued, cluster_rest. destruct client_tail as [[[w1 h1] t]| |]; [|done..].
      by rewrite (He w1 h1 t eq_refl).
Qed.

Lemma create_rest w h : ('(w1, h1) ← doCreateMsg w h; Done (w1, answer h1)) = rest_of w h At_create.
Proof.
  unfold doCreateMsg. cbn [rest_of]. destruct (_ !! _) as [p|] eqn:En.
  - unfold final. cbn [thread_step]. rewrite En. destruct (w_heap w !! p) as [rc|]; [|done]. simpl.
    destruct xi_New_opt as [[[n e] ds]| |]; [|done..]. simpl. unfold create_tail.
    by destruct create_reply as [[w1 h1]| |].
  - unfold draw_rest. destruct InsertUniqueNodeID as [[[[n err] reg] ds]| |]; [|done..]. rewrite !bind_Done.
    unfold issued, cluster_rest, cluster_tail. destruct err as [e|]; [done|].
    destruct NewRegCluster as [[rc|e]| |]; [|done..]. rewrite !bind_Done.
    destruct (alloc rc _) as [p w2]. rewrite bind_Done. unfold final. cbn [thread_step].
    destruct (AddCluster w2 (Some p)) as [[[i err] w3]| |]; [|done..]. rewrite !bind_Done.
    destruct err as [e|]; [done|]. unfold create_tail. by destruct create_reply as [[w4 h4]| |].
Qed.

Lemma join_rest_eq w h : ('(w1, h1) ← doJoinMsg w h; Done (w1, answer h1)) =
  ('(h1, t1) ← entry_begin E_join h; rest_of w h1 t1).
Proof.
  unfold doJoinMsg. simpl. destruct (h_thisClient h) as [c|] eqn:Ec; [|done].
  simpl. unfold join_begin. destruct (join_cluster w h) as [[p|] [e|]]; try done. simpl.
  unfold join_rest. rewrite Ec. simpl.
  destruct (w_heap w !! p) as [rc|]; [|done]. simpl. by destruct AddMember as [[rc' [e|]]| |].
Qed.

Lemma get_rest_eq w h : ('(w1, h1) ← doGetMsg w h; Done (w1, answer h1)) =
  ('(h1, t1) ← entry_begin E_get h; rest_of w h1 t1).
Proof.
  unfold doGetMsg. simpl. destruct ha_NewBytesKey as [k [e|]]; [done|]. simpl. unfold get_begin.
  destruct ha_Find as [[p|] [e|]]; try done. simpl. unfold size_rest.
  destruct (w_heap w !! p) as [rc|]; [|done]. simpl. by destruct get_tokens as [[ts wr]| |].
Qed.

(** A handler and what follows it, from its first step. *)
Lemma entry_rest e w h :
  ('(w1, h1) ← entry_fun e w h; Done (w1, answer h1)) = ('(h1, t1) ← entry_begin e h; rest_of w h1 t1).
Proof.
  destruct e; [done|apply client_rest|apply create_rest|apply join_rest_eq|apply get_rest_eq|done].
Qed.

Lemma index_map {A B} (f : A -> B) l i : index (map f l) i = (a ← index l i; Done (f a)).
Proof.
  unfold index. destruct (i <? 0); [done|]. rewrite list_lookup_fmap.
  by destruct (l !! Z.to_nat i).
Qed.

Lemma handle_msg_rest w h m : handle_msg w h m = ('(h1, t1) ← thread_begin h m; rest_of w h1 t1).
Proof.
  unfold handle_msg, thread_begin. rewrite entries_msgHandlers, index_map. set (h1 := if _ : bool then _ else _).
  destruct (index entries _) as [row| |]; [|done..]. rewrite !bind_Done, index_map.
  destruct (index row _) as [e| |]; [|done..]. rewrite !bind_Done, <-entry_rest.
  destruct entry_fun as [[w2 h2]| |]; [|done..]. simpl. unfold answer. by destruct (h_errOut h2).
Qed.

(** How many steps are left, at most. *)
Definition steps_left (w : world) (t : pc) : nat :=
  match t with
  | At_hello | At_rest | At_reply => 0
  | At_draw _ => 2 * length (w_draws w) + 3
  | At_lookup _ _ => 2 * length (w_draws w) + 4
  | At_record _ _ => 2
  | At_contains _ _ _ => 3
  | At_isMember _ _ _ => 2
  | At_insertID _ _ _ => 1
  | At_create => 2 * length (w_draws w) + 4
  | At_addCluster _ _ => 1
  | At_join => 4
  | At_nameInUse _ => 3
  | At_checkID _ => 2
  | At_insert _ => 1
  | At_get _ => 67
  | At_size _ => 66
  | At_members _ _ turns _ _ _ => S turns
  end%nat.

Lemma step_ends r n w h t : ends r -> (0 < n)%nat -> r = Done (w, h, t) -> (steps_left w t < n)%nat.
Proof. intros He Hn Hr. by rewrite (He w h t Hr). Qed.

Lemma step_to_cluster r n w h t : to_cluster r -> (1 < n)%nat -> r = Done (w, h, t) -> (steps_left w t < n)%nat.
Proof. intros He Hn Hr. destruct (He w h t Hr) as [->|(p & k & ->)]; simpl; lia. Qed.

(** Every step leaves fewer. *)
Lemma step_decreases w h t w1 h1 t1 : thread_step w h t = Done (w1, h1, t1) ->
  (steps_left w1 t1 < steps_left w t)%nat.
Proof.
  destruct t as [| |k|k n|k n|ck sk n|ck sk n|ck sk n| |p n| |p|p|p|k|p|p ws turns i ts wr|]; intros Hs;
    try (by simpl in Hs).
  - simpl in *. destruct (w_draws w) as [|[n e] ds]; [done|]. injection Hs as <- <- <-. simpl. lia.
  - simpl in Hs. apply bind_Done_inv in Hs as ([found [e|]] & _ & Hs).
    + eapply step_to_cluster; [apply issued_to_cluster| |exact Hs]. simpl. lia.
    + destruct found; injection Hs as <- <- <-; simpl; lia.
  - eapply step_to_cluster; [apply (record_to_cluster w h k n)| |exact Hs]. simpl. lia.
  - simpl in Hs. apply bind_Done_inv in Hs as ([[] [e|]] & _ & Hs);
      try (eapply step_ends; [apply client_tail_ends| |exact Hs]; simpl; lia).
    injection Hs as <- <- <-. simpl. lia.
  - simpl in Hs. apply bind_Done_inv in Hs as (id & _ & Hs). destruct xf_IsMember as [[] [e|]];
      try (eapply step_ends; [apply client_tail_ends| |exact Hs]; simpl; lia).
    injection Hs as <- <- <-. simpl. lia.
  - simpl in Hs. apply bind_Done_inv in Hs as (id & _ & Hs). destruct xf_Insert as [f e].
    eapply step_ends; [apply client_tail_ends| |exact Hs]. simpl. lia.
  - simpl in Hs. destruct (_ !! _) as [p|].
    + eapply step_ends; [| |exact Hs]; [|simpl; lia]. apply bind_ends. intros rc. apply bind_ends.
      intros [[n e] ds]. apply create_tail_ends.
    + injection Hs as <- <- <-. simpl. lia.
  - eapply step_ends; [apply addCluster_ends| |exact Hs]. simpl. lia.
  - simpl in Hs. unfold join_begin in Hs. destruct join_cluster as [cl [e|]].
    + apply bind_Done_inv in Hs as (p & _ & Hs). injection Hs as <- <- <-. simpl. lia.
    + apply bind_Done_inv in Hs as (p & _ & Hs). injection Hs as <- <- <-. simpl. lia.
  - simpl in Hs. apply bind_Done_inv in Hs as (c & _ & Hs). apply bind_Done_inv in Hs as (rc & _ & Hs).
    destruct AddMember_nameInUse; injection Hs as <- <- <-; simpl; lia.
  - simpl in Hs. apply bind_Done_inv in Hs as (rc & _ & Hs).
    destruct AddMember_checkID; injection Hs as <- <- <-; simpl; lia.
  - eapply step_ends; [apply (join_insert_ends w h p)| |exact Hs]. simpl. lia.
  - simpl in Hs. unfold get_begin in Hs. destruct ha_Find as [[p|] [e|]]; injection Hs as <- <- <-; simpl; lia.
  - simpl in Hs. apply bind_Done_inv in Hs as (rc & _ & Hs). injection Hs as <- <- <-.
    cbn [steps_left]. unfold MAX_CLUSTER_SIZE. destruct (Z.ltb_spec 64 (Size rc)); lia.
  - simpl in Hs. unfold get_turn in Hs. destruct turns as [|turns].
    + eapply step_ends; [apply get_tail_ends| |exact Hs]. simpl. lia.
    + destruct xu_Test; [|injection Hs as <- <- <-; simpl; lia].
      apply bind_Done_inv in Hs as (rc & _ & Hs). apply bind_Done_inv in Hs as (m & _ & Hs).
      apply bind_Done_inv in Hs as ([tok|e] & _ & Hs); injection Hs as <- <- <-; simpl; lia.
Qed.

Lemma alone_sound s s' : rtc alone s s' -> s'.2 = At_reply -> rest_of s.1.1 s.1.2 s.2 = Done s'.1.
Proof.
  induction 1 as [[[w h] t]|[[w h] t] [[w1 h1] t1] s' Hs _ IH]; simpl; intros Ht; [by rewrite Ht|].
  unfold alone in Hs. simpl in Hs, IH.
  rewrite step_rest by (by intros ->). rewrite Hs. by apply IH.
Qed.

Lemma alone_complete w h t w' h' : rest_of w h t = Done (w', h') ->
  rtc alone (w, h, t) (w', h', At_reply).
Proof.
  remember (steps_left w t) as n eqn:En. revert w h t En.
  induction n as [n IH] using lt_wf_ind. intros w h t -> Hr.
  assert (t = At_reply \/ (t <> At_hello /\ t <> At_rest /\ t <> At_reply)) as [->|(Hh & Hr' & Hp)].
  { destruct t; by eauto. }
  - injection Hr as <- <-. done.
  - rewrite step_rest in Hr by done. apply bind_Done_inv in Hr as ([[w1 h1] t1] & Hs & Hr).
    eapply rtc_l; [exact Hs|]. eapply IH; [|reflexivity|exact Hr]. by eapply step_decreases.
Qed.

End Alone.
