(* ===== verification/Effects.v ===== *)
(** * What a step of a connection does to the others

    The invariant of a goroutine at each point of its handlers ([thread_ok]), the
    four things an atomic step can do to the shared state ([effect]), and that
    every step of a goroutine is one of them and keeps its invariant
    ([thread_step_ok]).  An effect keeps the invariant of the registry, loses
    nothing, and leaves alone the clusters that other goroutines have made and not
    registered yet. *)
From S2P Require Import Prelude GoStd GoCrypto Errors Proto Ext ExtModel ClientInfo RegCluster.
From S2P Require Import RegCred RegNode Registry CnxHandler MsgHandlers InHandler Threads.

Section Effects.
Context `{Ext}.

(** ** The invariant of a goroutine *)

(** The handler a message is dispatched to. *)
Definition doing (h : InHandler) (e : entry) : Prop :=
  exists row, index entries (h_entryState h) = Done row /\ index row (op2tag (GetOp (h_msgIn h))) = Done e.

Definition purpose_entry (k : purpose) : entry :=
  match k with For_client _ _ => E_client | For_cluster => E_create end.

(** A cluster that was made for a Create message and is not registered yet. *)
Definition new_cluster (h : InHandler) (clusterID : option NodeID) (rc : RegCluster) : Prop :=
  (exists n, clusterID = Some n /\ rc_ID rc = Some (xi_Value n)) /\
  rc_Name rc = created_name (h_msgIn h) /\ rc_Attrs rc = 0 /\
  rc_maxSize rc = clamp_size (GetClusterMaxSize (h_msgIn h)) /\
  rc_epCount rc = GetEndPointCount (h_msgIn h) /\ rc_Members rc = [].

Definition unregistered (w : world) (p : ptr) (rc : RegCluster) : Prop :=
  w_heap w !! p = Some rc /\ p ∉ reg_Clusters (w_reg w).

(** The cluster that a goroutine has made and not registered yet. *)
Definition pending_ptr (t : pc) : option ptr :=
  match t with At_addCluster p _ => Some p | _ => None end.

(** What holds at each point. *)
Definition pc_ok (w : world) (h : InHandler) (t : pc) : Prop :=
  match t with
  | At_hello => h_entryState h = HELLO_RCVD
  | At_rest => True
  | At_draw k | At_lookup k _ | At_record k _ => doing h (purpose_entry k)
  | At_contains _ _ _ | At_isMember _ _ _ | At_insertID _ _ _ => doing h E_client
  | At_create => doing h E_create
  | At_addCluster p n => doing h E_create /\ h_cluster h = Some p /\
      exists rc, unregistered w p rc /\ new_cluster h n rc
  | At_join => doing h E_join
  | At_nameInUse p | At_checkID p | At_insert p => doing h E_join /\ p ∈ reg_Clusters (w_reg w)
  | At_get _ => doing h E_get
  | At_size p | At_members p _ _ _ _ _ => doing h E_get /\ p ∈ reg_Clusters (w_reg w)
  | At_reply => h_errOut h = None /\
      (h_exitState h = IN_CLOSED \/
       (transition (h_entryState h) (op2tag (GetOp (h_msgIn h))) (h_exitState h) /\
        (CLIENT_DETAILS_RCVD <= h_exitState h <= JOIN_RCVD -> is_Some (h_thisClient h))))
  end.

(** Whether the connection's cluster must be registered: not while it is being
    made, nor when the connection is about to be closed. *)
Definition settled (h : InHandler) (t : pc) : Prop :=
  match t with
  | At_addCluster _ _ => False
  | At_reply => h_exitState h <> IN_CLOSED
  | _ => True
  end.

Record thread_ok (w : world) (h : InHandler) (t : pc) : Prop := {
  to_state : HELLO_RCVD <= h_entryState h <= BYE_RCVD;
  to_client : CLIENT_DETAILS_RCVD <= h_entryState h <= JOIN_RCVD -> is_Some (h_thisClient h);
  to_registered : settled h t -> h_registered w h;
  to_pc : pc_ok w h t
}.

(** ** The effects *)

Inductive action :=
  (* draws and the filter of identifiers *)
  | A_none
  (* a cluster is made *)
  | A_alloc
  (* AddCluster *)
  | A_register (p : ptr)
  (* the last section of AddMember *)
  | A_insert (p : ptr) (c : ClientInfo).

Definition filter_grows (w : world) (f : BloomSHA) : Prop :=
  forall b, known (w_reg w) b -> known (with_idFilter f (w_reg w)) b.

Inductive effect (w : world) : action -> world -> Prop :=
  | eff_none f ds : filter_grows w f ->
      effect w A_none (mkWorld (with_idFilter f (w_reg w)) (w_heap w) ds)
  | eff_alloc f rc n : filter_grows w f -> rc_wf0 rc -> rc_ID rc = Some (xi_Value n) ->
      rc_Members rc = [] -> effect w A_alloc (alloc rc (with_filter f w)).2
  | eff_register p i err w' : AddCluster w (Some p) = Done (i, err, w') -> effect w (A_register p) w'
  | eff_insert p rc c rc' err : w_heap w !! p = Some rc -> AddMember_insert rc c = Done (rc', err) ->
      effect w (A_insert p c) (mkWorld (w_reg w) (<[p := rc']> (w_heap w)) (w_draws w)).

(** Which effect a goroutine can have at which point. *)
Definition acts (h : InHandler) (t : pc) (a : action) : Prop :=
  match a with
  | A_none => True
  | A_alloc => exists n, t = At_record For_cluster n
  | A_register p => exists n, t = At_addCluster p n
  | A_insert p c => t = At_insert p /\ h_thisClient h = Some c
  end.

(** What a step of a goroutine promises. *)
Definition step_ok (w : world) (h : InHandler) (t : pc) (s : world * InHandler * pc) : Prop :=
  let '(w', h', t') := s in
  exists a, effect w a w' /\ acts h t a /\ thread_ok w' h' t' /\
    (forall p, pending_ptr t' = Some p -> a = A_alloc /\ p = length (w_heap w)).

(** ** Effects and the registry *)

Lemma filter_same w : filter_grows w (reg_idFilter (w_reg w)).
Proof. intros b Hk. exact Hk. Qed.

Lemma eff_draws w ds : effect w A_none (mkWorld (w_reg w) (w_heap w) ds).
Proof. pose proof (eff_none w _ ds (filter_same w)) as He. by destruct w as [[] ? ?]. Qed.

Lemma eff_same w : effect w A_none w.
Proof. pose proof (eff_draws w (w_draws w)) as He. by destruct w. Qed.

Section Laws.
Context `{!NodeIDLaws} `{!HamtLaws} `{!BloomLaws}.

Lemma insert_grows w b f e : xf_Insert (reg_idFilter (w_reg w)) b = (f, e) -> filter_grows w f.
Proof. intros Hi b' Hk. unfold known in *. by eapply xf_IsMember_mono. Qed.

Lemma effect_inv w a w' : reg_inv rc_wf0 w ->
  (forall p, a = A_register p -> p ∉ reg_Clusters (w_reg w)) -> effect w a w' -> reg_inv rc_wf0 w'.
Proof.
  intros Hw Ha He. destruct He as [f ds _|f rc n _ Hrc Hid _|p i err w1 Hadd|p rc c rc' err Hp Hins].
  - by apply reg_inv_filter.
  - eapply alloc_wf; [|done|done]. by apply reg_inv_filter.
  - eapply AddCluster_wf; [done| |done]. by apply Ha.
  - destruct (AddMember_insert_members _ _ _ _ Hins) as (_ & ? & ? & ? & ? & ?).
    eapply update_wf; [done|done| |by split_and!]. eapply AddMember_insert_wf0; [|done].
    by apply (Forall_lookup_1 _ _ _ _ (wf_heap _ Hw) Hp).
Qed.

Lemma effect_extends w a w' : reg_inv rc_wf0 w -> effect w a w' -> extends w w'.
Proof.
  intros Hw [f ds Hf|f rc n Hf _ _ _|p i err w1 Hadd|p rc c rc' err Hp Hins].
  - by apply extends_filter.
  - etrans; [by apply (extends_filter w f (w_draws w))|]. apply alloc_extends.
  - by eapply AddCluster_extends.
  - destruct (AddMember_insert_members _ _ _ _ Hins) as (? & ? & ? & ? & ? & ?).
    eapply update_extends; [done|by split_and!|done].
Qed.

(** A cluster that is not registered is left alone by the others. *)
Lemma effect_unregistered w a w' p rc : reg_inv rc_wf0 w -> effect w a w' ->
  (forall q, a = A_register q -> q <> p) -> (forall q c, a = A_insert q c -> q ∈ reg_Clusters (w_reg w)) ->
  unregistered w p rc -> unregistered w' p rc.
Proof.
  intros Hw He Hreg Hins [Hp Hn].
  destruct He as [f ds Hf|f rc1 n Hf _ _ _|q i err w1 Hadd|q rc1 c rc' err Hq Hi].
  - done.
  - split; [|done]. by apply lookup_app_l_Some.
  - specialize (Hreg q eq_refl). apply (AddCluster_wf_inv (P:=rc_wf0)) in Hadd
      as [(_ & _ & ->)|(rc1 & n & k & byID & e & _ & _ & _ & _ & _ & _ & _ & _ & ->)]; [done| |done].
    split; [done|]. simpl. intros [Hin|Hin%list_elem_of_singleton]%elem_of_app; congruence.
  - specialize (Hins q c eq_refl). split; [|done]. simpl. rewrite list_lookup_insert_ne; [done|].
    intros ->. done.
Qed.

(** What an effect does to the members of a cluster. *)
Lemma effect_members w a w' p rc' : reg_inv rc_wf0 w -> effect w a w' -> w_heap w' !! p = Some rc' ->
  rc_Members rc' = [] \/ exists rc, w_heap w !! p = Some rc /\
    (rc_Members rc' = rc_Members rc \/ exists c, a = A_insert p c /\ rc_Members rc' = rc_Members rc ++ [c]).
Proof.
  intros Hw He Hp. destruct He as [f ds Hf|f rc1 n Hf _ _ Hm|q i err w1 Hadd|q rc1 c rc2 err Hq Hi].
  - right. exists rc'. auto.
  - apply lookup_app_Some in Hp as [Hp|[_ Hp%list_lookup_singleton_Some]]; [right; exists rc'; auto|].
    destruct Hp as [_ <-]. by left.
  - right. exists rc'. split; [|by left]. apply (AddCluster_wf_inv (P:=rc_wf0)) in Hadd
      as [(_ & _ & ->)|(? & ? & ? & ? & ? & _ & _ & _ & _ & _ & _ & _ & _ & ->)]; done.
  - right. destruct (AddMember_insert_members _ _ _ _ Hi) as (Hm & _). simpl in Hp.
    destruct (decide (q = p)) as [->|Hne].
    + rewrite list_lookup_insert_eq in Hp by (by eapply lookup_lt_Some). injection Hp as <-.
      exists rc1. split; [done|]. right. by exists c.
    + rewrite list_lookup_insert_ne in Hp by done. exists rc'. auto.
Qed.

(** The invariant of a goroutine depends on the shared state only through what is
    registered and its own new cluster. *)
Lemma thread_ok_frame w w' h t : thread_ok w h t -> extends w w' ->
  (forall p rc, pending_ptr t = Some p -> unregistered w p rc -> unregistered w' p rc) ->
  thread_ok w' h t.
Proof.
  intros [Hs Hc Hr Hp] Hx Hun. destruct (ext_list _ _ Hx) as [l Hl].
  assert (forall p, p ∈ reg_Clusters (w_reg w) -> p ∈ reg_Clusters (w_reg w')) as Hmono.
  { intros p Hin. rewrite Hl. apply elem_of_app. by left. }
  split; [done|done| |].
  - intros Hset. by eapply h_registered_extends, Hr.
  - destruct t; simpl in *; try done; try (destruct Hp; by auto).
    destruct Hp as (Hd & Hcl & rc & Hu & Hn). split_and!; [done..|]. exists rc. auto.
Qed.

(** ** Every step keeps the invariant of its goroutine *)

(** What the table of handlers says of the state and the message. *)
Lemma doing_cases h e : doing h e -> HELLO_RCVD <= h_entryState h <= JOIN_RCVD /\
  let tag := op2tag (GetOp (h_msgIn h)) in
  match e with
  | E_badCombo => True
  | E_client => h_entryState h = HELLO_RCVD /\ tag = TAG_MEMBER
  | E_create => h_entryState h = CLIENT_DETAILS_RCVD /\ tag = TAG_CREATE
  | E_join => (h_entryState h = CLIENT_DETAILS_RCVD \/ h_entryState h = CREATE_REQUEST_RCVD) /\ tag = TAG_JOIN
  | E_get => h_entryState h = JOIN_RCVD /\ tag = TAG_GET
  | E_bye => tag = TAG_BYE
  end.
Proof.
  unfold doing. generalize (h_entryState h) (op2tag (GetOp (h_msgIn h))). intros s tag.
  intros (row & [Hs Hrow]%index_Done_inv & [Ht He]%index_Done_inv). simpl.
  unfold HELLO_RCVD, CLIENT_DETAILS_RCVD, CREATE_REQUEST_RCVD, JOIN_RCVD.
  assert (s = 0 \/ s = 1 \/ s = 2 \/ s = 3) as Es.
  { apply lookup_lt_Some in Hrow. simpl in Hrow. lia. }
  assert (tag = 0 \/ tag = 1 \/ tag = 2 \/ tag = 3 \/ tag = 4) as Et.
  { assert (length row = 5%nat) as Hl
      by (destruct Es as [->|[->|[->| ->]]]; simpl in Hrow; by injection Hrow as <-).
    apply lookup_lt_Some in He. lia. }
  destruct Es as [->|[->|[->| ->]]]; simpl in Hrow; injection Hrow as <-;
    destruct Et as [->|[->|[->|[->| ->]]]]; simpl in He; injection He as <-;
    (split; [lia|]); simpl; auto.
Qed.

(** A goroutine at work on a message. *)
Record working (w : world) (h : InHandler) (e : entry) : Prop := {
  wk_doing : doing h e;
  wk_client : CLIENT_DETAILS_RCVD <= h_entryState h <= JOIN_RCVD -> is_Some (h_thisClient h);
  wk_registered : h_registered w h
}.

Lemma thread_working w h t e : thread_ok w h t -> settled h t -> doing h e -> working w h e.
Proof. intros [Hs Hc Hr Hp] Ht Hd. split; [done|done|]. by apply Hr. Qed.

Lemma working_thread w h t e : working w h e -> pc_ok w h t -> thread_ok w h t.
Proof.
  intros [Hd Hc Hr] Hp. split; try done. apply doing_cases in Hd as [Hs _].
  unfold HELLO_RCVD, JOIN_RCVD, BYE_RCVD in *. lia.
Qed.

Lemma working_extends w w' h e : working w h e -> extends w w' -> working w' h e.
Proof. intros [Hd Hc Hr] Hx. split; [done..|]. by eapply h_registered_extends. Qed.

(** A computation that, if it ends, has the reply ready and leaves [w] as it is. *)
Definition replies (w : world) (r : outcome (world * InHandler * pc)) : Prop :=
  forall w' h' t', r = Done (w', h', t') -> w' = w /\ t' = At_reply /\ thread_ok w h' t'.

Lemma bind_replies {A} w (m : outcome A) (k : A -> outcome (world * InHandler * pc)) :
  (forall a, m = Done a -> replies w (k a)) -> replies w (m ≫= k).
Proof. intros Hk w' h' t' (a & Ha & Hr)%bind_Done_inv. by eapply Hk. Qed.

Lemma finish_err_replies w h err : HELLO_RCVD <= h_entryState h <= BYE_RCVD ->
  (CLIENT_DETAILS_RCVD <= h_entryState h <= JOIN_RCVD -> is_Some (h_thisClient h)) ->
  replies w (finish_err w h err).
Proof.
  intros Hs Hc w' h' t' [= <- <- <-]. split_and!; [done..|]. split; [done|done| |]; simpl.
  - done.
  - split; [done|]. by left.
Qed.

Lemma working_err w h e err : working w h e -> replies w (finish_err w h err).
Proof.
  intros Hw. destruct (working_thread w h At_rest e Hw I) as [Hs Hc _ _]. by apply finish_err_replies.
Qed.

(** The reply of a handler that found no error. *)
Lemma working_reply w h e h1 msg x : working w h e ->
  h_entryState h1 = h_entryState h -> h_msgIn h1 = h_msgIn h ->
  (is_Some (h_thisClient h) -> is_Some (h_thisClient h1)) ->
  transition (h_entryState h) (op2tag (GetOp (h_msgIn h))) x ->
  (CLIENT_DETAILS_RCVD <= x <= JOIN_RCVD -> is_Some (h_thisClient h1)) ->
  h_registered w h1 -> replies w (finish w (set_errOut None (set_reply msg x h1))).
Proof.
  intros [Hd Hc Hr] He Hm Hcl Ht Hx Hreg w' h' t' [= <- <- <-]. split_and!; [done..|].
  apply doing_cases in Hd as [Hs _]. unfold HELLO_RCVD, JOIN_RCVD, BYE_RCVD in Hs.
  unfold answer. split; simpl.
  - rewrite He. unfold HELLO_RCVD, BYE_RCVD. lia.
  - rewrite He. auto.
  - intros _ p Hp. by apply Hreg.
  - split; [done|]. right. by rewrite He, Hm.
Qed.

Lemma client_tail_replies w h ck sk n err : working w h E_client -> replies w (client_tail w h ck sk n err).
Proof.
  intros Hw. unfold client_tail. destruct (if bool_decide _ then _ else _); [by eapply working_err|].
  destruct NewClientInfo as [cm|e]; [|by eapply working_err]. apply bind_replies. intros id _.
  pose proof (doing_cases _ _ (wk_doing _ _ _ Hw)) as (_ & Hs & Ht).
  eapply working_reply; [exact Hw|done..| | |].
  - rewrite Hs, Ht. constructor.
  - by eexists.
  - intros p Hp. by apply (wk_registered _ _ _ Hw).
Qed.

Lemma create_tail_replies w h n a b c : working w h E_create -> replies w (create_tail w h n a b c).
Proof.
  intros Hw. unfold create_tail, create_reply. destruct n as [id|]; [|done]. simpl.
  pose proof (doing_cases _ _ (wk_doing _ _ _ Hw)) as (_ & Hs & Ht).
  eapply working_reply; [exact Hw|done..| | |].
  - rewrite Hs, Ht. constructor.
  - intros _. apply (wk_client _ _ _ Hw). rewrite Hs. unfold CLIENT_DETAILS_RCVD, JOIN_RCVD. lia.
  - exact (wk_registered _ _ _ Hw).
Qed.

Lemma get_tail_replies w h ts wr : working w h E_get -> replies w (get_tail w h ts wr).
Proof.
  intros Hw. pose proof (doing_cases _ _ (wk_doing _ _ _ Hw)) as (_ & Hs & Ht).
  eapply working_reply; [exact Hw|done..| | |].
  - rewrite Hs, Ht. constructor.
  - intros _. apply (wk_client _ _ _ Hw). rewrite Hs. unfold CLIENT_DETAILS_RCVD, JOIN_RCVD. lia.
  - exact (wk_registered _ _ _ Hw).
Qed.

(** ** The steps, one by one *)

Lemma replies_step w0 w h t r s : effect w0 A_none w -> replies w r -> r = Done s -> step_ok w0 h t s.
Proof.
  intros He Hr Hs. destruct s as [[w' h'] t']. destruct (Hr w' h' t' Hs) as (-> & -> & Hok).
  exists A_none. by split_and!.
Qed.

(** A step that only moves on. *)
Lemma moves_step w h t w' t' e : effect w A_none w' -> reg_inv rc_wf0 w -> working w h e ->
  pc_ok w' h t' -> pending_ptr t' = None -> step_ok w h t (w', h, t').
Proof.
  intros He Hw Hk Hp Hn. exists A_none. split_and!; [done|done| |by intros p; rewrite Hn].
  eapply working_thread; [|done]. eapply working_extends; [done|]. by eapply effect_extends.
Qed.

Lemma filter_step w b f e ds : xf_Insert (reg_idFilter (w_reg w)) b = (f, e) ->
  effect w A_none (mkWorld (with_idFilter f (w_reg w)) (w_heap w) ds).
Proof. intros Hi. apply eff_none. by eapply insert_grows. Qed.

Lemma cluster_tail_step w h n f err s : reg_inv rc_wf0 w -> working w h E_create -> filter_grows w f ->
  cluster_tail (with_filter f w) h n err = Done s -> step_ok w h (At_record For_cluster n) s.
Proof.
  intros Hw Hk Hf Hs. pose proof (eff_none w f (w_draws w) Hf) as He. fold (with_filter f w) in He.
  assert (working (with_filter f w) h E_create) as Hk1
    by (eapply working_extends; [exact Hk|by eapply effect_extends]).
  unfold cluster_tail in Hs. destruct err as [e|]; [eapply replies_step; [exact He| |exact Hs]; by eapply working_err|].
  apply bind_Done_inv in Hs as ([rc|e] & Hr & Hs);
    [|eapply replies_step; [exact He| |exact Hs]; by eapply working_err].
  pose proof (proj1 (proj1 (rc_wf_iff rc) (NewRegCluster_wf _ _ _ _ _ _ Hr))) as Hrc.
  apply NewRegCluster_Ok_inv in Hr as (nid & m & -> & _ & Erc). fold (created_name (h_msgIn h)) in Erc.
  injection Hs as <-. exists A_alloc. split_and!.
  - apply (eff_alloc w f rc nid); [done..|by rewrite Erc|by rewrite Erc].
  - by exists (Some nid).
  - destruct (working_thread w h At_rest _ Hk I) as [H1' H2' _ _]. split; [done..|]. simpl.
    split; [exact (wk_doing _ _ _ Hk)|]. split; [done|]. exists rc. split.
    + split; [by apply list_lookup_middle|]. intros Hin. destruct (wf_listed _ Hw _ Hin) as (c & Hc & _).
      apply lookup_lt_Some in Hc. simpl in Hc. lia.
    + split; [|by rewrite Erc]. exists nid. by rewrite Erc.
  - by intros p [= <-].
Qed.

Lemma record_step w h k n s : reg_inv rc_wf0 w -> working w h (purpose_entry k) ->
  thread_step w h (At_record k n) = Done s -> step_ok w h (At_record k n) s.
Proof.
  intros Hw Hk Hs. simpl in Hs. apply bind_Done_inv in Hs as (id & _ & Hs).
  destruct xf_Insert as [f e] eqn:Ei. destruct k as [ck sk|].
  - pose proof (filter_step _ _ _ _ (w_draws w) Ei) as He.
    eapply replies_step; [exact He| |exact Hs]. apply client_tail_replies.
    eapply working_extends; [exact Hk|by eapply effect_extends].
  - eapply cluster_tail_step; [done|done| |exact Hs]. by eapply insert_grows.
Qed.

Lemma addCluster_step w h p n s : reg_inv rc_wf0 w -> thread_ok w h (At_addCluster p n) ->
  thread_step w h (At_addCluster p n) = Done s -> step_ok w h (At_addCluster p n) s.
Proof.
  intros Hw [Hs1 Hc _ (Hd & Hcl & rc & Hu & _)] Hs. cbn [thread_step] in Hs.
  apply bind_Done_inv in Hs as ([[i err] w1] & Ha & Hs). pose proof (eff_register _ _ _ _ _ Ha) as He.
  assert (replies w1 (Done s)) as Hr.
  { destruct err as [e|]; [rewrite <-Hs; by apply finish_err_replies|]. rewrite <-Hs.
    apply create_tail_replies. split; [done|done|]. intros q Hq. assert (q = p) as -> by congruence.
    apply (AddCluster_wf_inv (P:=rc_wf0)) in Ha
      as [([] & _)|(? & ? & ? & ? & ? & _ & _ & _ & _ & _ & _ & _ & _ & ->)]; [done| |done].
    simpl. apply elem_of_app. right. by apply list_elem_of_singleton. }
  destruct s as [[w' h'] t']. destruct (Hr w' h' t' eq_refl) as (-> & -> & Hok).
  exists (A_register p). split_and!; [done|by exists n|done|done].
Qed.

Lemma insert_step w h p s : reg_inv rc_wf0 w -> working w h E_join -> p ∈ reg_Clusters (w_reg w) ->
  thread_step w h (At_insert p) = Done s -> step_ok w h (At_insert p) s.
Proof.
  intros Hw Hk Hin Hs. cbn [thread_step] in Hs. unfold join_insert in Hs.
  apply bind_Done_inv in Hs as (c & Hc%deref_Done_inv & Hs).
  apply bind_Done_inv in Hs as (rc & Hp%deref_Done_inv & Hs).
  apply bind_Done_inv in Hs as ([rc' err] & Hi & Hs).
  pose proof (eff_insert _ _ _ _ _ _ Hp Hi) as He. set (w1 := mkWorld _ _ _) in He.
  assert (working w1 h E_join) as Hk1 by (eapply working_extends; [exact Hk|by eapply effect_extends]).
  assert (replies w1 (Done s)) as Hr.
  { rewrite <-Hs. unfold join_tail. fold w1. destruct err as [e|]; [by eapply working_err|].
    pose proof (doing_cases _ _ (wk_doing _ _ _ Hk)) as (_ & Hst & Ht).
    eapply working_reply; [exact Hk1|done..| | |].
    - rewrite Ht. destruct Hst as [->| ->]; constructor.
    - intros _. by exists c.
    - by intros q [= <-]. }
  destruct s as [[w' h'] t']. destruct (Hr w' h' t' eq_refl) as (-> & -> & Hok).
  exists (A_insert p c). by split_and!.
Qed.

(** The steps that settle the identifier of a client, or look one up. *)
Lemma lookup_step w h k n s : reg_inv rc_wf0 w -> working w h (purpose_entry k) ->
  thread_step w h (At_lookup k n) = Done s -> step_ok w h (At_lookup k n) s.
Proof.
  intros Hw Hk Hs. cbn [thread_step] in Hs. apply bind_Done_inv in Hs as ([found [e|]] & _ & Hs).
  - eapply replies_step; [apply eff_same| |exact Hs].
    destruct k as [ck sk|]; [by apply client_tail_replies|by eapply working_err].
  - pose proof (wk_doing _ _ _ Hk) as Hd.
    destruct found; injection Hs as <-; (eapply moves_step; [apply eff_same|done..]).
Qed.

Lemma client_step w h t s : reg_inv rc_wf0 w -> working w h E_client ->
  (exists ck sk n, t = At_contains ck sk n \/ t = At_isMember ck sk n \/ t = At_insertID ck sk n) ->
  thread_step w h t = Done s -> step_ok w h t s.
Proof.
  intros Hw Hk (ck & sk & n & Ht) Hs. pose proof (wk_doing _ _ _ Hk) as Hd.
  assert (forall err, client_tail w h ck sk n err = Done s -> step_ok w h t s) as Htail.
  { intros err Hr. eapply replies_step; [apply eff_same| |exact Hr]. by apply client_tail_replies. }
  assert (forall t', pc_ok w h t' -> pending_ptr t' = None -> Done (w, h, t') = Done s -> step_ok w h t s) as Hmove.
  { intros t' Hp Hn [= <-]. by eapply moves_step; [apply eff_same|..]. }
  destruct Ht as [->|[->| ->]]; cbn [thread_step] in Hs.
  - apply bind_Done_inv in Hs as ([[] [e|]] & _ & Hs); try (by eapply Htail). by eapply Hmove, Hs.
  - apply bind_Done_inv in Hs as (id & _ & Hs).
    destruct xf_IsMember as [[] [e|]]; try (by eapply Htail). by eapply Hmove, Hs.
  - apply bind_Done_inv in Hs as (id & _ & Hs). destruct xf_Insert as [f e] eqn:Ei.
    pose proof (filter_step _ _ _ _ (w_draws w) Ei) as He.
    eapply replies_step; [exact He| |exact Hs]. apply client_tail_replies.
    eapply working_extends; [exact Hk|by eapply effect_extends].
Qed.

Lemma create_step w h s : reg_inv rc_wf0 w -> working w h E_create ->
  thread_step w h At_create = Done s -> step_ok w h At_create s.
Proof.
  intros Hw Hk Hs. cbn [thread_step] in Hs. destruct (_ !! _) as [p|].
  - apply bind_Done_inv in Hs as (rc & _ & Hs). apply bind_Done_inv in Hs as ([[n e] ds] & _ & Hs).
    pose proof (eff_draws w ds) as He. eapply replies_step; [exact He| |exact Hs].
    apply create_tail_replies. eapply working_extends; [exact Hk|by eapply effect_extends].
  - injection Hs as <-. eapply moves_step; [apply eff_same|done|exact Hk|exact (wk_doing _ _ _ Hk)|done].
Qed.

(** The steps of doJoinMsg before the last, and those of doGetMsg. *)
Lemma join_step w h t s : reg_inv rc_wf0 w -> working w h E_join -> pc_ok w h t ->
  (t = At_join \/ exists p, t = At_nameInUse p \/ t = At_checkID p) ->
  thread_step w h t = Done s -> step_ok w h t s.
Proof.
  intros Hw Hk Hp Ht Hs. pose proof (wk_doing _ _ _ Hk) as Hd.
  assert (forall err, finish_err w h err = Done s -> step_ok w h t s) as Herr.
  { intros err Hr. eapply replies_step; [apply eff_same| |exact Hr]. by eapply working_err. }
  assert (forall t', pc_ok w h t' -> pending_ptr t' = None -> Done (w, h, t') = Done s -> step_ok w h t s) as Hmove.
  { intros t' Hq Hn [= <-]. by eapply moves_step; [apply eff_same|..]. }
  destruct Ht as [->|(p & [->| ->])]; cbn [thread_step] in Hs.
  - unfold join_begin in Hs. pose proof (fun q => join_cluster_registered w h q Hw (wk_registered _ _ _ Hk)) as Hj.
    destruct (join_cluster w h) as [cl [e|]].
    + apply bind_Done_inv in Hs as (q & _ & Hs). by eapply Herr.
    + apply bind_Done_inv in Hs as (q & ->%deref_Done_inv & Hs). eapply Hmove, Hs; [|done].
      split; [done|]. by apply Hj.
  - apply bind_Done_inv in Hs as (c & _ & Hs). apply bind_Done_inv in Hs as (rc & _ & Hs).
    destruct AddMember_nameInUse; [by eapply Herr|]. by eapply Hmove, Hs.
  - apply bind_Done_inv in Hs as (rc & _ & Hs). destruct AddMember_checkID; [by eapply Herr|].
    by eapply Hmove, Hs.
Qed.

Lemma get_step w h t s : reg_inv rc_wf0 w -> working w h E_get -> pc_ok w h t ->
  ((exists k, t = At_get k) \/ (exists p, t = At_size p) \/
   exists p ws turns i ts wr, t = At_members p ws turns i ts wr) ->
  thread_step w h t = Done s -> step_ok w h t s.
Proof.
  intros Hw Hk Hp Ht Hs. pose proof (wk_doing _ _ _ Hk) as Hd.
  assert (forall r, replies w r -> r = Done s -> step_ok w h t s) as Hrep.
  { intros r Hr Hs'. by eapply replies_step; [apply eff_same|exact Hr|]. }
  assert (forall t', pc_ok w h t' -> pending_ptr t' = None -> Done (w, h, t') = Done s -> step_ok w h t s) as Hmove.
  { intros t' Hq Hn [= <-]. by eapply moves_step; [apply eff_same|..]. }
  destruct Ht as [(k & ->)|[(p & ->)|(p & ws & turns & i & ts & wr & ->)]]; cbn [thread_step] in Hs.
  - unfold get_begin in Hs. destruct ha_Find as [[p|] [e|]] eqn:Ef;
      try (eapply Hrep, Hs; by eapply working_err). eapply Hmove, Hs; [|done]. split; [done|].
    apply (wf_ided _ Hw k p). by rewrite Ef.
  - apply bind_Done_inv in Hs as (rc & _ & Hs). by eapply Hmove, Hs.
  - unfold get_turn in Hs. destruct turns as [|turns]; [eapply Hrep, Hs; by apply get_tail_replies|].
    destruct xu_Test; [|by eapply Hmove, Hs]. apply bind_Done_inv in Hs as (rc & _ & Hs).
    apply bind_Done_inv in Hs as (m & _ & Hs).
    apply bind_Done_inv in Hs as ([tok|e] & _ & Hs); [by eapply Hmove, Hs|].
    eapply Hrep, Hs. by apply get_tail_replies.
Qed.

(** Every step of a goroutine is one of the effects and keeps its invariant. *)
Lemma thread_step_ok w h t s : reg_inv rc_wf0 w -> thread_ok w h t ->
  thread_step w h t = Done s -> step_ok w h t s.
Proof.
  intros Hw Hok Hs. pose proof (to_pc _ _ _ Hok) as Hp.
  pose proof (fun e Hset Hd => thread_working w h t e Hok Hset Hd) as Hk.
  destruct t; try done; cbn [pc_ok settled] in Hp, Hk.
  - cbn [thread_step] in Hs. destruct (w_draws w) as [|[n e] ds]; [done|]. injection Hs as <-.
    eapply moves_step; [apply eff_draws|done|by apply Hk|exact Hp|done].
  - apply lookup_step; auto.
  - apply record_step; auto.
  - apply client_step; eauto 10.
  - apply client_step; eauto 10.
  - apply client_step; eauto 10.
  - apply create_step; auto.
  - by apply addCluster_step.
  - apply join_step; auto.
  - destruct Hp as [Hd Hin]. apply join_step; eauto. by split.
  - destruct Hp as [Hd Hin]. apply join_step; eauto. by split.
  - destruct Hp as [Hd Hin]. apply insert_step; auto.
  - apply get_step; eauto.
  - destruct Hp as [Hd Hin]. apply get_step; eauto. by split.
  - destruct Hp as [Hd Hin]. apply get_step; eauto 15. by split.
Qed.

(** ** The connection's own steps *)

Lemma new_handler_ok w c h c' : NewInHandler (Some (w_reg w)) (Some c) = Ok (h, c') -> thread_ok w h At_hello.
Proof.
  intros [= <- <-]. split; simpl; [| |done|done];
    unfold HELLO_RCVD, CLIENT_DETAILS_RCVD, BYE_RCVD, JOIN_RCVD; lia.
Qed.

Lemma handleHello_keeps v w h c h' c' e : handleHello v w h c = Done (h', c', e) ->
  h_entryState h' = h_entryState h /\ h_thisClient h' = h_thisClient h /\ h_cluster h' = h_cluster h.
Proof.
  unfold handleHello. intros ([[d err] c1] & _ & Hh)%bind_Done_inv.
  destruct err; [by injection Hh as <- <- <-|].
  destruct xa_ServerDecryptHello as [[s v1]|]; [|by injection Hh as <- <- <-].
  destruct xa_ServerEncryptHelloReply as [[s' out]|]; [|by injection Hh as <- <- <-].
  destruct WriteData as [[werr|] c2]; by injection Hh as <- <- <-.
Qed.

Lemma hello_ok v w h c h' c' e : thread_ok w h At_hello -> handleHello v w h c = Done (h', c', e) ->
  thread_ok w h' At_rest.
Proof.
  intros [Hs Hc Hr Hp] (E1 & E2 & E3)%handleHello_keeps. split; rewrite ?E1, ?E2; try done.
  intros _ p Hq. rewrite E3 in Hq. by apply Hr.
Qed.

Lemma begin_ok w h m h' t : thread_ok w h At_rest -> thread_begin h m = Done (h', t) ->
  thread_ok w h' t /\ pending_ptr t = None.
Proof.
  intros Hok Hb. unfold thread_begin in Hb. revert Hb. set (h1 := if _ : bool then _ else _). intros Hb.
  assert (h_entryState h1 = h_entryState h /\ h_msgIn h1 = m /\ h_thisClient h1 = h_thisClient h /\
    h_cluster h1 = h_cluster h) as (E1 & E2 & E3 & E4) by (unfold h1; by destruct (_ || _)).
  apply bind_Done_inv in Hb as (row & Hrow & Hb). apply bind_Done_inv in Hb as (e & He & Hb).
  assert (working w h1 e) as Hk.
  { destruct Hok as [Hs Hc Hr Hp]. split.
    - exists row. rewrite E1, E2. split; [by rewrite <-E1|exact He].
    - by rewrite E1, E3.
    - intros p Hq. rewrite E4 in Hq. by apply Hr. }
  clearbody h1. pose proof (wk_doing _ _ _ Hk) as Hd.
  assert (forall err, Done (answer (set_errOut (Some err) h1), At_reply) = Done (h', t) ->
    thread_ok w h' t /\ pending_ptr t = None) as Herr.
  { intros err [= <- <-]. by destruct (working_err w h1 e err Hk _ _ _ eq_refl) as (_ & _ & Ht). }
  assert (forall t', pc_ok w h1 t' -> pending_ptr t' = None -> Done (h1, t') = Done (h', t) ->
    thread_ok w h' t /\ pending_ptr t = None) as Hmove.
  { intros t' Hp Hn [= <- <-]. split; [by eapply working_thread|done]. }
  destruct e; cbn [entry_begin] in Hb.
  - by eapply Herr.
  - unfold client_begin in Hb. destruct xc_RSAPubKeyFromWire as [ck|]; [|by eapply Herr].
    destruct (xc_RSAPubKeyFromWire (Token_GetSigKey _)) as [sk|]; [|by eapply Herr].
    destruct VerifyPKCS1v15; [by eapply Herr|]. destruct Token_GetID as [b|]; [|by eapply Hmove, Hb].
    destruct (xi_New b) as [n [err|]]; [by eapply Herr|by eapply Hmove, Hb].
  - by eapply Hmove, Hb.
  - apply bind_Done_inv in Hb as (c & _ & Hb). by eapply Hmove, Hb.
  - destruct ha_NewBytesKey as [k [err|]]; [by eapply Herr|by eapply Hmove, Hb].
  - injection Hb as <- <-. split; [|done]. pose proof (doing_cases _ _ Hd) as [Hs Ht].
    refine (proj2 (proj2 (working_reply w h1 E_bye h1 _ BYE_RCVD Hk eq_refl eq_refl (fun x => x) _ _ _
      _ _ _ eq_refl))).
    + rewrite Ht. by constructor.
    + unfold BYE_RCVD, JOIN_RCVD. lia.
    + exact (wk_registered _ _ _ Hk).
Qed.

(** After the reply the connection has the state of the handler. *)
Lemma reply_ok_rest w h : thread_ok w h At_reply -> h_exitState h <> IN_CLOSED ->
  thread_ok w (set_entryState (h_exitState h) h) At_rest.
Proof.
  intros [Hs Hc Hr (He & [Hx|[Ht Hx]])] Hn; [done|]. split; simpl; [|done| |done].
  - inversion Ht; unfold HELLO_RCVD, CLIENT_DETAILS_RCVD, CREATE_REQUEST_RCVD, JOIN_RCVD, BYE_RCVD; lia.
  - intros _ p Hp. by apply Hr.
Qed.

(** ** Joining

    A goroutine between the check of the name and the insertion of the member. *)
Definition joining (h : InHandler) (t : pc) (p : ptr) (n : gostring) : Prop :=
  (t = At_checkID p \/ t = At_insert p) /\ exists c, h_thisClient h = Some c /\ ci_GetName c = n.

Lemma begin_not_joining h m h' t p n : thread_begin h m = Done (h', t) -> ~ joining h' t p n.
Proof.
  unfold thread_begin. intros (row & _ & (e & _ & Hb)%bind_Done_inv)%bind_Done_inv [Ht _].
  destruct Ht as [-> | ->]; destruct e; cbn [entry_begin] in Hb; unfold client_begin in Hb;
    try (apply bind_Done_inv in Hb as (c & _ & Hb)); repeat case_match; discriminate.
Qed.

(** Only AddMember's first two sections lead to the second and the third. *)
Lemma step_not_joining w h t w' h' t' p : thread_step w h t = Done (w', h', t') ->
  (t' = At_checkID p \/ t' = At_insert p) -> t = At_nameInUse p \/ t = At_checkID p.
Proof.
  intros Hs Ht.
  assert (forall r, to_cluster r -> r <> Done (w', h', t')) as Hend.
  { intros r He Hr. destruct (He _ _ _ Hr) as [->|(? & ? & ->)]; by destruct Ht. }
  assert (forall r, ends r -> r <> Done (w', h', t')) as Hend'.
  { intros r He. apply Hend. intros ? ? ? Hr. left. by eapply He. }
  destruct t as [| |k|k m|k m|ck sk m|ck sk m|ck sk m| |q m| |q|q|q|k|q|q ws turns i ts wr|]; try done;
    try (by apply Hend in Hs; [done|apply record_to_cluster]);
    try (by apply Hend' in Hs; [done|apply addCluster_ends || apply (join_insert_ends w h q)]);
    cbn [thread_step] in Hs; unfold join_begin, get_begin, get_turn in Hs;
    repeat first [apply bind_Done_inv in Hs as (? & _ & Hs) | case_match];
    try (by apply Hend in Hs; [done|apply issued_to_cluster]);
    try (by apply Hend' in Hs; [done|apply client_tail_ends || apply create_tail_ends || apply finish_ends]);
    try discriminate Hs; injection Hs as <- <- <-; destruct Ht as [Ht|Ht]; try discriminate Ht;
    injection Ht as ->; auto.
Qed.

(** It starts with the name free, and goes on for the same client. *)
Lemma step_joining w h t w' h' t' p n : reg_inv rc_wf0 w ->
  thread_step w h t = Done (w', h', t') -> joining h' t' p n ->
  w' = w /\ (joining h t p n \/
    exists rc, w_heap w !! p = Some rc /\ n ∉ (ci_GetName <$> rc_Members rc)).
Proof.
  intros Hw Hs [Ht (c & Hc & Hn)].
  destruct (step_not_joining _ _ _ _ _ _ _ Hs Ht) as [-> | ->]; cbn [thread_step] in Hs.
  - apply bind_Done_inv in Hs as (c' & Hc'%deref_Done_inv & Hs).
    apply bind_Done_inv in Hs as (rc & Hrc%deref_Done_inv & Hs).
    rewrite nameInUse_spec in Hs by (by apply (Forall_lookup_1 _ _ _ _ (wf_heap _ Hw) Hrc)).
    case_bool_decide as Hin; injection Hs as <- <- <-; [by destruct Ht|].
    split; [done|]. right. exists rc. split; [done|]. assert (c' = c) as -> by congruence. by rewrite <-Hn.
  - apply bind_Done_inv in Hs as (rc & _ & Hs).
    destruct AddMember_checkID; injection Hs as <- <- <-; [by destruct Ht|].
    split; [done|]. left. split; [by left|]. by exists c.
Qed.
End Laws.
End Effects.
