(* ===== verification/Server.v ===== *)
(** * The server and its concurrency

    Models reg_server.go: the server around a registry, its accept loop, and the
    goroutines that serve connections.  The goroutines' atomic steps (Threads.v) are
    interleaved in any order ([server_step]).  What holds in every run is
    [server_inv].  Two members of a cluster can get the same name when two Joins
    of that name overlap; [orderly_step] excludes just that.  [am_step] looks at
    the race alone: the three critical sections of several calls of [AddMember] on
    one cluster, which are steps of the server ([am_steps_server]). *)
From S2P Require Import Prelude GoStd GoCrypto Errors Proto Ext ExtModel ClientInfo RegCluster.
From S2P Require Import RegCred RegNode Registry CnxHandler MsgHandlers InHandler Threads Effects.

(** The shared state, and for each open connection its handler and where its
    goroutine is. *)
Abbreviation server := (world * gmap nat (InHandler * pc))%type.

Section Server.
Context `{Ext}.

Record RegServer := mkRegServer {
  rs_Testing : bool;
  rs_Verbosity : Z;
  rs_Registry : Registry
}.

(** The registry is copied into the server. *)
Definition NewRegServer (reg : option Registry) (testing : bool) (verbosity : Z) : result RegServer :=
  match reg with
  | None => Err (RegErr NilRegistry)
  | Some reg => Ok (mkRegServer testing verbosity reg)
  end.

Definition rs_GetAcceptor (rs : RegServer) : option AcceptorI :=
  xn_Node_GetAcceptor (rn_Node (reg_RegNode (rs_Registry rs))) 0.

(** The acceptor that [Stop] closes, if there is one. *)
Definition Stop (rs : RegServer) : option AcceptorI := rs_GetAcceptor rs.

(** The accept loop, on what [Accept] returns each time: a connection is handed to
    a goroutine of its own, and any error ends the loop, after which DoneCh is
    written.  The results are the connections handed over and whether the loop
    has ended. *)
Fixpoint accept_loop (accepts : list (Cnx + exterr)) : list Cnx * bool :=
  match accepts with
  | [] => ([], false)
  | inr _ :: _ => ([], true)
  | inl c :: rest => let '(cs, done) := accept_loop rest in (c :: cs, done)
  end.

(** [Start]: the acceptor is opened, then the loop runs. *)
Definition rs_Start (rs : RegServer) (accepts : list (Cnx + exterr)) : option exterr * list Cnx * bool :=
  match xn_Node_OpenAcc (rn_Node (reg_RegNode (rs_Registry rs))) with
  | (_, Some e) => (Some e, [], false)
  | (_, None) => let '(cs, done) := accept_loop accepts in (None, cs, done)
  end.

(** The goroutine of a connection: make the handler and run it.  On an error of
    [NewInHandler] it reads a field of a [nil] handler. *)
Definition serve_cnx (v : DecimalVersion) (w : world) (conn : option Cnx) :
    outcome (world * InHandler * Cnx * option exterr) :=
  match NewInHandler (Some (w_reg w)) conn with
  | Err _ => Panics NilDereference
  | Ok (h, c) => Start v w h c
  end.

(** Stubs in the source. *)
Definition ParseRegServer (s : gostring) : option RegServer * option (list gostring) * option error :=
  (None, None, None).
Definition rs_String (rs : RegServer) : gostring := [].
Definition rs_Strings (rs : RegServer) : option (list gostring) := None.

(** ** Connections served together, step by step *)

Inductive server_step : server -> server -> Prop :=
  (* a connection is accepted *)
  | step_accept w ts i c h c' :
      ts !! i = None -> NewInHandler (Some (w_reg w)) (Some c) = Ok (h, c') ->
      server_step (w, ts) (w, <[i := (h, At_hello)]> ts)
  (* its hello is answered *)
  | step_hello w ts i h v c h' c' :
      ts !! i = Some (h, At_hello) -> handleHello v w h c = Done (h', c', None) ->
      server_step (w, ts) (w, <[i := (h', At_rest)]> ts)
  (* a message is received and dispatched *)
  | step_receive w ts i h m h' t :
      ts !! i = Some (h, At_rest) -> thread_begin h m = Done (h', t) ->
      server_step (w, ts) (w, <[i := (h', t)]> ts)
  (* an atomic step of its handler *)
  | step_run w ts i h t w' h' t' :
      ts !! i = Some (h, t) -> thread_step w h t = Done (w', h', t') ->
      server_step (w, ts) (w', <[i := (h', t')]> ts)
  (* the reply is sent and the connection stays open *)
  | step_reply w ts i h :
      ts !! i = Some (h, At_reply) -> h_exitState h <> IN_CLOSED ->
      server_step (w, ts) (w, <[i := (set_entryState (h_exitState h) h, At_rest)]> ts)
  (* the error is sent and the connection is closed *)
  | step_close w ts i h :
      ts !! i = Some (h, At_reply) -> h_exitState h = IN_CLOSED ->
      server_step (w, ts) (w, delete i ts)
  (* the network fails *)
  | step_drop w ts i h t :
      ts !! i = Some (h, t) -> t = At_hello \/ t = At_rest ->
      server_step (w, ts) (w, delete i ts).

(** What holds in every run. *)
Record server_inv (s : server) : Prop := {
  si_reg : reg_inv rc_wf0 s.1;
  si_thread i h t : s.2 !! i = Some (h, t) -> thread_ok s.1 h t;
  si_pending i j h t h' t' p : s.2 !! i = Some (h, t) -> s.2 !! j = Some (h', t') ->
    pending_ptr t = Some p -> pending_ptr t' = Some p -> i = j
}.

(** ** Joins that do not race

    No two connections are, between the check of the name and the insertion of
    the member, adding members of the same name to the same cluster. *)
Definition orderly (s : server) : Prop :=
  forall i j h t h' t' p n, s.2 !! i = Some (h, t) -> s.2 !! j = Some (h', t') ->
    joining h t p n -> joining h' t' p n -> i = j.

Definition orderly_step (s s' : server) : Prop := orderly s /\ server_step s s'.

(** What holds then: names in clusters are distinct, and those that are about to
    be inserted are free. *)
Record names_ok (s : server) : Prop := {
  no_distinct : Forall distinct_names (w_heap s.1);
  no_free i h t p n rc : s.2 !! i = Some (h, t) -> joining h t p n -> w_heap s.1 !! p = Some rc ->
    n ∉ (ci_GetName <$> rc_Members rc)
}.

(** ** Calls of AddMember that overlap

    Each call is a member and how far it got. *)
Inductive am_pc :=
  | AM_name
  | AM_id
  | AM_insert
  | AM_done (err : option error).

Abbreviation calls := (list (ClientInfo * am_pc)).

(** One critical section of the call [i]. *)
Inductive am_step : RegCluster * calls -> RegCluster * calls -> Prop :=
  | am_name rc cs i m : cs !! i = Some (m, AM_name) ->
      am_step (rc, cs) (rc, <[i := (m, if AddMember_nameInUse rc (ci_GetName m)
                                      then AM_done (Some (RegErr ClusterMemberNameInUse))
                                      else AM_id)]> cs)
  | am_id rc cs i m : cs !! i = Some (m, AM_id) ->
      am_step (rc, cs) (rc, <[i := (m, match AddMember_checkID rc with
                                      | Some e => AM_done (Some e)
                                      | None => AM_insert
                                      end)]> cs)
  | am_insert rc cs i m rc' err : cs !! i = Some (m, AM_insert) ->
      AddMember_insert rc m = Done (rc', err) ->
      am_step (rc, cs) (rc', <[i := (m, AM_done err)]> cs).

Definition pending (m : ClientInfo) : ClientInfo * am_pc := (m, AM_name).
Definition am_steps := rtc am_step.

End Server.

(** ** Facts *)

Section Facts.
Context `{Ext}.

(** A critical section never makes a cluster forget a member; the section that
    inserts adds the member of its call. *)
Lemma am_step_mono rc cs rc' cs' : am_step (rc, cs) (rc', cs') ->
  length cs' = length cs /\ exists l, rc_Members rc' = rc_Members rc ++ l.
Proof.
  inversion 1; subst; rewrite length_insert; (split; [done|]); try (by exists []; rewrite app_nil_r).
  match goal with Hi : AddMember_insert _ _ = _ |- _ =>
    apply AddMember_insert_inv in Hi as (id & k & ke & byID & _ & _ & _ & ->) end. by eexists.
Qed.

(** The invariant under which overlapping calls are safe: pending names are
    pairwise different, and not yet in the cluster. *)
Definition disjoint_names (rc : RegCluster) (cs : list (ClientInfo * am_pc)) : Prop :=
  NoDup (ci_GetName ∘ fst <$> cs) /\
  forall m pc, (m, pc) ∈ cs -> (forall e, pc <> AM_done e) ->
    ci_GetName m ∉ (ci_GetName <$> rc_Members rc).

Lemma am_step_safe `{!HamtLaws} rc cs rc' cs' : rc_wf rc -> disjoint_names rc cs ->
  am_step (rc, cs) (rc', cs') -> rc_wf rc' /\ disjoint_names rc' cs'.
Proof.
  intros Hw [Hnd Hfree] Hs.
  assert (forall i m pc pc', cs !! i = Some (m, pc) -> (forall e, pc <> AM_done e) ->
    disjoint_names rc (<[i := (m, pc')]> cs)) as Hupd.
  { intros i m pc pc' Hi Hpc. split.
    - rewrite list_fmap_insert. simpl. rewrite list_insert_id; [done|].
      by rewrite list_lookup_fmap, Hi.
    - intros m' q [j Hj]%list_elem_of_lookup Hq. destruct (decide (i = j)) as [<-|Hne].
      + rewrite list_lookup_insert_eq in Hj by (by eapply lookup_lt_Some). injection Hj as <- <-.
        eapply Hfree; [by eapply list_elem_of_lookup_2|done].
      + rewrite list_lookup_insert_ne in Hj by done. eapply Hfree; [by eapply list_elem_of_lookup_2|done]. }
  inversion Hs; subst; [split; [done|by eapply Hupd]..|].
  match goal with Hi : cs !! i = _, Ha : AddMember_insert _ _ = _ |- _ => rename Hi into Hc; rename Ha into Hins end.
  assert (rc_MembersByName rc !! ci_GetName m = None) as Hn.
  { apply eq_None_not_Some. intros [c [Hin Hcn]%(wf_byName _ Hw)].
    apply (Hfree m AM_insert); [by eapply list_elem_of_lookup_2|done|]. apply list_elem_of_fmap. eauto. }
  split; [by eapply AddMember_insert_wf|].
  destruct (Hupd i m AM_insert (AM_done err) Hc ltac:(done)) as [Hnd' Hfree'].
  split; [done|]. intros m' q Hin Hq Hin'.
  apply AddMember_insert_inv in Hins as (id & k & ke & byID & _ & _ & _ & ->). simpl in Hin'.
  rewrite fmap_app in Hin'. apply elem_of_app in Hin' as [Hin'|Hin'].
  - by eapply Hfree'.
  - apply list_elem_of_singleton in Hin'. apply list_elem_of_lookup in Hin as [j Hj].
    assert (i = j) as <-.
    { eapply NoDup_lookup; [exact Hnd| |].
      - by rewrite list_lookup_fmap, Hc.
      - destruct (decide (i = j)) as [->|Hne]; [by rewrite list_lookup_fmap, Hc|].
        rewrite list_lookup_insert_ne in Hj by done. rewrite list_lookup_fmap, Hj. simpl. by rewrite Hin'. }
    rewrite list_lookup_insert_eq in Hj by (by eapply lookup_lt_Some). injection Hj as _ <-.
    by apply (Hq err).
Qed.

(** ** Every run keeps the invariant *)

Section Runs.
Context `{!NodeIDLaws} `{!HamtLaws} `{!BloomLaws}.

(** A goroutine moves on without touching what is shared. *)
Lemma update_inv w ts i h t : server_inv (w, ts) -> thread_ok w h t -> pending_ptr t = None ->
  server_inv (w, <[i := (h, t)]> ts).
Proof.
  intros [H1' H2' H3'] Hok Hp. split; [done| |]; cbn [fst snd] in *.
  - intros j h1 t1 [[_ [= <- <-]]|[_ Hj]]%lookup_insert_Some; [done|by eapply H2'].
  - intros j k h1 t1 h2 t2 p [[_ [= <- <-]]|[_ Hj]]%lookup_insert_Some; [congruence|].
    intros [[_ [= <- <-]]|[_ Hk]]%lookup_insert_Some; [congruence|by eapply H3'].
Qed.

Lemma delete_inv w ts i : server_inv (w, ts) -> server_inv (w, delete i ts).
Proof.
  intros [H1' H2' H3']. split; [done| |]; cbn [fst snd] in *.
  - intros j h1 t1 [_ Hj]%lookup_delete_Some. by eapply H2'.
  - intros j k h1 t1 h2 t2 p [_ Hj]%lookup_delete_Some [_ Hk]%lookup_delete_Some. by eapply H3'.
Qed.

(** What an action needs of the goroutine that takes it. *)
Lemma acts_ok w h t a : thread_ok w h t -> acts h t a ->
  (forall p, a = A_register p -> pending_ptr t = Some p /\
     exists n rc, t = At_addCluster p n /\ unregistered w p rc /\ new_cluster h n rc) /\
  (forall p c, a = A_insert p c -> p ∈ reg_Clusters (w_reg w)).
Proof.
  intros [_ _ _ Hp] Ha. split.
  - intros p ->. destruct Ha as [n ->]. destruct Hp as (_ & _ & rc & Hu & Hn). eauto 10.
  - intros p c ->. destruct Ha as [-> _]. by destruct Hp.
Qed.

(** An atomic step of one goroutine, seen by all. *)
Lemma run_inv w ts i h t w' h' t' : server_inv (w, ts) -> ts !! i = Some (h, t) ->
  thread_step w h t = Done (w', h', t') -> server_inv (w', <[i := (h', t')]> ts) /\ extends w w'.
Proof.
  intros [H1' H2' H3'] Hi Hs. cbn [fst snd] in *.
  destruct (thread_step_ok _ _ _ _ H1' (H2' _ _ _ Hi) Hs) as (a & He & Ha & Hok & Hpend).
  destruct (acts_ok _ _ _ _ (H2' _ _ _ Hi) Ha) as [Hreg Hins].
  pose proof (effect_extends _ _ _ H1' He) as Hx. split; [|done].
  assert (forall j h1 t1 p, i <> j -> ts !! j = Some (h1, t1) -> pending_ptr t1 = Some p ->
    (p < length (w_heap w))%nat /\ forall rc, unregistered w p rc -> unregistered w' p rc) as Hothers.
  { intros j h1 t1 p Hne Hj Hp. split.
    - pose proof (to_pc _ _ _ (H2' _ _ _ Hj)) as Hpc. destruct t1; try done. injection Hp as ->.
      destruct Hpc as (_ & _ & rc & [Hrc _] & _). by eapply lookup_lt_Some.
    - intros rc Hu. eapply effect_unregistered; [done..| | |done].
      + intros q -> ->. apply Hne. destruct (Hreg p eq_refl) as [Hpt _]. by eapply H3'.
      + exact Hins. }
  split; cbn [fst snd].
  - eapply effect_inv; [done| |done]. intros p ->.
    by destruct (Hreg p eq_refl) as (_ & n & rc & _ & [_ Hn] & _).
  - intros j h1 t1 [[_ [= <- <-]]|[Hne Hj]]%lookup_insert_Some; [done|].
    eapply thread_ok_frame; [by eapply H2'|done|]. intros p rc Hp. by eapply Hothers.
  - intros j k h1 t1 h2 t2 p [[-> [= <- <-]]|[Hj Hj']]%lookup_insert_Some
      [[-> [= <- <-]]|[Hk Hk']]%lookup_insert_Some Hp1 Hp2; try done.
    + destruct (Hpend _ Hp1) as [_ ->]. destruct (Hothers _ _ _ _ Hk Hk' Hp2). lia.
    + destruct (Hpend _ Hp2) as [_ ->]. destruct (Hothers _ _ _ _ Hj Hj' Hp1). lia.
    + by eapply H3'.
Qed.

Lemma server_step_inv s s' : server_inv s -> server_step s s' -> server_inv s' /\ extends s.1 s'.1.
Proof.
  intros Hs Hst. destruct Hst as [w ts i c h c' Hi Hn|w ts i h v c h' c' Hi Hh|w ts i h m h' t Hi Hb
    |w ts i h t w' h' t' Hi Hr|w ts i h Hi Hx|w ts i h Hi Hx|w ts i h t Hi Ht]; cbn [fst snd].
  - split; [|done]. apply update_inv; [done| |done]. by eapply new_handler_ok.
  - split; [|done]. apply update_inv; [done| |done]. eapply hello_ok; [|done]. by eapply (si_thread _ Hs).
  - split; [|done]. destruct (begin_ok w h m h' t) as [Hok Hp]; [by eapply (si_thread _ Hs)|done|].
    by apply update_inv.
  - by eapply run_inv.
  - split; [|done]. apply update_inv; [done| |done]. apply reply_ok_rest; [|done]. by eapply (si_thread _ Hs).
  - split; [|done]. by apply delete_inv.
  - split; [|done]. by apply delete_inv.
Qed.

Lemma server_run_inv s s' : server_inv s -> rtc server_step s s' -> server_inv s' /\ extends s.1 s'.1.
Proof.
  intros Hs Hr. induction Hr as [s|s1 s2 s3 H12 _ IH]; [done|].
  destruct (server_step_inv _ _ Hs H12) as [Hs2 Hx].
  destruct (IH Hs2) as [Hs3 Hx3]. split; [done|]. by etrans.
Qed.

(** ** Orderly runs keep the names distinct *)

Lemma update_names w ts i h t : names_ok (w, ts) -> (forall p n, ~ joining h t p n) ->
  names_ok (w, <[i := (h, t)]> ts).
Proof.
  intros [H1' H2'] Hn. split; [done|]. cbn [fst snd] in *.
  intros j h1 t1 p n rc [[_ [= <- <-]]|[_ Hj]]%lookup_insert_Some Hjoin; [by destruct (Hn p n)|].
  by eapply H2'.
Qed.

Lemma delete_names w ts i : names_ok (w, ts) -> names_ok (w, delete i ts).
Proof.
  intros [H1' H2']. split; [done|]. cbn [fst snd] in *.
  intros j h1 t1 p n rc [_ Hj]%lookup_delete_Some. by eapply H2'.
Qed.

Lemma not_joining h t p n : t = At_rest \/ t = At_hello -> ~ joining h t p n.
Proof. by intros [->| ->] [[|] _]. Qed.

Lemma run_names w ts i h t w' h' t' : server_inv (w, ts) -> names_ok (w, ts) -> orderly (w, ts) ->
  ts !! i = Some (h, t) -> thread_step w h t = Done (w', h', t') -> names_ok (w', <[i := (h', t')]> ts).
Proof.
  intros [H1' H2' _] [Hd Hf] Ho Hi Hs. cbn [fst snd] in *.
  destruct (thread_step_ok _ _ _ _ H1' (H2' _ _ _ Hi) Hs) as (a & He & Ha & _).
  assert (forall p c, a = A_insert p c -> joining h t p (ci_GetName c)) as Hins.
  { intros p c ->. destruct Ha as [-> Hc]. split; [by right|]. by exists c. }
  split; cbn [fst snd].
  - apply Forall_lookup. intros p rc' Hp. unfold distinct_names.
    destruct (effect_members _ _ _ _ _ H1' He Hp) as [->|(rc & Hrc & [->|(c & -> & ->)])]; [constructor| |].
    + by apply (Forall_lookup_1 _ _ _ _ Hd Hrc).
    + rewrite fmap_app. apply NoDup_app. split_and!; [|intros n Hn ->%list_elem_of_singleton|apply NoDup_singleton].
      * by apply (Forall_lookup_1 _ _ _ _ Hd Hrc).
      * eapply (Hf i h t p); [done| |done|done]. by apply Hins.
  - intros j h1 t1 p n rc' [[-> [= <- <-]]|[Hne Hj]]%lookup_insert_Some Hjoin Hp.
    + destruct (step_joining _ _ _ _ _ _ _ _ H1' Hs Hjoin) as [-> [Hold|(rc & Hrc & Hn)]];
        [by eapply Hf|congruence].
    + destruct (effect_members _ _ _ _ _ H1' He Hp) as [->|(rc & Hrc & [->|(c & -> & ->)])];
        [apply not_elem_of_nil|by eapply Hf|].
      rewrite fmap_app. intros [Hin|Hin%list_elem_of_singleton]%elem_of_app; [by eapply Hf|].
      subst n. apply Hne. eapply (Ho i j); [done..| |done]. by apply Hins.
Qed.

Lemma orderly_step_names s s' : server_inv s -> names_ok s -> orderly_step s s' -> names_ok s'.
Proof.
  intros Hs Hn [Ho Hst]. destruct Hst as [w ts i c h c' Hi Hnew|w ts i h v c h' c' Hi Hh|w ts i h m h' t Hi Hb
    |w ts i h t w' h' t' Hi Hr|w ts i h Hi Hx|w ts i h Hi Hx|w ts i h t Hi Ht].
  - apply update_names; [done|]. intros p n. apply not_joining. by right.
  - apply update_names; [done|]. intros p n. apply not_joining. by left.
  - apply update_names; [done|]. intros p n. by eapply begin_not_joining.
  - by eapply run_names.
  - apply update_names; [done|]. intros p n. apply not_joining. by left.
  - by apply delete_names.
  - by apply delete_names.
Qed.

Lemma orderly_run_server s s' : rtc orderly_step s s' -> rtc server_step s s'.
Proof. apply rtc_subrel. by intros ? ? [_ ?]. Qed.

Lemma orderly_run_names s s' : server_inv s -> names_ok s -> rtc orderly_step s s' -> names_ok s'.
Proof.
  intros Hs Hn Hr. induction Hr as [s|s1 s2 s3 H12 _ IH]; [done|].
  apply IH; [by apply (server_step_inv s1 s2); [|apply H12]|by eapply orderly_step_names].
Qed.

(** The invariant of the registry, with distinct names, is that of the sequential
    registry. *)
Lemma server_reg_wf s : server_inv s -> names_ok s -> reg_wf s.1.
Proof. intros [Hr _ _] [Hd _]. by apply reg_wf_iff. Qed.

(** A connection that waits for a message is as handle_msg wants it. *)
Lemma server_rest s i h : server_inv s -> s.2 !! i = Some (h, At_rest) ->
  cnx_wf s.1 h /\ h_registered s.1 h.
Proof.
  intros [Hw Ht _] [Hs Hc Hr _]%Ht. assert (h_registered s.1 h) as Hreg by (by apply Hr).
  split; [|done]. split; [|done..]. intros p Hp. destruct (wf_listed _ Hw _ (Hreg p Hp)) as (rc & Hrc & _).
  by eexists.
Qed.

(** A registry without connections. *)
Lemma idle_inv w : reg_inv rc_wf0 w -> server_inv (w, ∅).
Proof. intros Hw. split; [done| |]; intros i; simpl; by setoid_rewrite lookup_empty. Qed.

Lemma idle_names w : reg_wf w -> names_ok (w, ∅).
Proof. intros [_ Hd]%reg_wf_iff. split; [done|]. intros i h t p n rc; simpl. by rewrite lookup_empty. Qed.

(** One connection, waiting for a message. *)
Lemma single_ok w i h : reg_wf w -> thread_ok w h At_rest ->
  server_inv (w, {[ i := (h, At_rest) ]}) /\ names_ok (w, {[ i := (h, At_rest) ]}).
Proof.
  intros Hw Ht. rewrite <-insert_empty. split.
  - apply update_inv; [|done|done]. by apply idle_inv, reg_wf_iff.
  - apply update_names; [by apply idle_names|]. intros p n. apply not_joining. by left.
Qed.
End Runs.

(** ** Overlapping calls of AddMember, in the server

    The call [i] of [am_step] is the goroutine of the connection [i]. *)
Definition call_at (p : ptr) (q : am_pc) (t : pc) : Prop :=
  match q with
  | AM_name => t = At_nameInUse p
  | AM_id => t = At_checkID p
  | AM_insert => t = At_insert p
  | AM_done _ => True
  end.

Definition runs_as (p : ptr) (a : RegCluster * list (ClientInfo * am_pc)) (s : server) : Prop :=
  w_heap s.1 !! p = Some a.1 /\
  forall i m q, a.2 !! i = Some (m, q) ->
    exists h t, s.2 !! i = Some (h, t) /\ h_thisClient h = Some m /\ call_at p q t.

(** A goroutine that stays with its client. *)
Lemma runs_as_update p rc rc' cs w w' ts i m q h t : runs_as p (rc, cs) (w, ts) -> is_Some (cs !! i) ->
  w_heap w' !! p = Some rc' -> h_thisClient h = Some m -> call_at p q t ->
  runs_as p (rc', <[i := (m, q)]> cs) (w', <[i := (h, t)]> ts).
Proof.
  intros [_ Hc] Hi Hp Hm Hq. split; [done|]. simpl in *. intros j m1 q1 Hj.
  destruct (decide (i = j)) as [->|Hne].
  - rewrite list_lookup_insert_eq in Hj by (by apply lookup_lt_is_Some). injection Hj as <- <-.
    exists h, t. by rewrite lookup_insert_eq.
  - rewrite list_lookup_insert_ne in Hj by done. rewrite lookup_insert_ne by done. by apply Hc.
Qed.

Lemma am_step_server p a a' s : runs_as p a s -> am_step a a' -> exists s', server_step s s' /\ runs_as p a' s'.
Proof.
  intros Hr Hst. destruct s as [w ts].
  destruct Hst as [rc cs i m Hi|rc cs i m Hi|rc cs i m rc' err Hi Hins]; pose proof Hr as [Hp Hc];
    destruct (Hc _ _ _ Hi) as (h & t & Ht & Hm & ->); simpl in Hp, Hc, Ht.
  - destruct (AddMember_nameInUse rc (ci_GetName m)) eqn:Hu; eexists;
      (split; [eapply step_run; [exact Ht|]; simpl; rewrite Hm; simpl; rewrite Hp; simpl; by rewrite Hu|]);
      by eapply runs_as_update.
  - destruct (AddMember_checkID rc) as [e|] eqn:Hu; eexists;
      (split; [eapply step_run; [exact Ht|]; simpl; rewrite Hp; simpl; by rewrite Hu|]);
      by eapply runs_as_update.
  - assert (exists h', thread_step w h (At_insert p) =
      Done (mkWorld (w_reg w) (<[p := rc']> (w_heap w)) (w_draws w), h', At_reply) /\ h_thisClient h' = Some m)
      as (h' & Hs & Hm').
    { simpl. unfold join_insert. rewrite Hm. simpl. rewrite Hp. simpl. rewrite Hins. simpl. unfold join_tail.
      destruct err as [e|]; eexists; (split; [done|done]). }
    eexists. split; [by eapply step_run|]. eapply runs_as_update; [done|done| |done|done].
    simpl. apply list_lookup_insert_eq. by eapply lookup_lt_Some.
Qed.

Lemma am_steps_server p a a' s : runs_as p a s -> am_steps a a' ->
  exists s', rtc server_step s s' /\ runs_as p a' s'.
Proof.
  intros Hr Ha. revert s Hr. induction Ha as [a|a1 a2 a3 H12 _ IH]; intros s Hr; [by exists s|].
  destruct (am_step_server _ _ _ _ Hr H12) as (s2 & Hs & Hr2).
  destruct (IH _ Hr2) as (s3 & Hs3 & Hr3). exists s3. split; [by eapply rtc_l|done].
Qed.

Lemma race_run rc m1 m2 rc1 rc2 :
  ci_GetName m1 = ci_GetName m2 -> AddMember_nameInUse rc (ci_GetName m1) = false ->
  AddMember_checkID rc = None -> AddMember_insert rc m1 = Done (rc1, None) ->
  AddMember_insert rc1 m2 = Done (rc2, None) ->
  am_steps (rc, [pending m1; pending m2]) (rc2, [(m1, AM_done None); (m2, AM_done None)]) /\
  rc_Members rc2 = rc_Members rc ++ [m1; m2] /\ ~ distinct_names rc2.
Proof.
  intros Hn Hu Hc H1 H2. split_and!.
  - eapply rtc_l; [by apply (am_name _ _ 0 m1)|]. rewrite Hu. simpl.
    eapply rtc_l; [by apply (am_name _ _ 1 m2)|]. rewrite <-Hn, Hu. simpl.
    eapply rtc_l; [by apply (am_id _ _ 0 m1)|]. rewrite Hc. simpl.
    eapply rtc_l; [by apply (am_id _ _ 1 m2)|]. rewrite Hc. simpl.
    eapply rtc_l; [by apply (am_insert _ _ 0 m1 rc1 None)|]. simpl.
    eapply rtc_l; [by apply (am_insert _ _ 1 m2 rc2 None)|]. done.
  - apply AddMember_insert_inv in H1 as (? & ? & ? & ? & _ & _ & _ & ->).
    apply AddMember_insert_inv in H2 as (? & ? & ? & ? & _ & _ & _ & ->). simpl. by rewrite <-app_assoc.
  - apply AddMember_insert_inv in H1 as (? & ? & ? & ? & _ & _ & _ & ->).
    apply AddMember_insert_inv in H2 as (? & ? & ? & ? & _ & _ & _ & ->).
    unfold distinct_names. simpl. rewrite !fmap_app, NoDup_app. intros (_ & Hd & _). apply (Hd (ci_GetName m2)).
    + apply elem_of_app. right. apply list_elem_of_singleton. by rewrite Hn.
    + by apply list_elem_of_singleton.
Qed.

(** So two overlapping Joins of one name can leave a registered cluster with two
    members of that name: without [orderly] names need not be distinct. *)
Lemma join_race w ts p rc h1 h2 m1 m2 rc1 rc2 :
  w_heap w !! p = Some rc ->
  ts !! 0%nat = Some (h1, At_nameInUse p) -> ts !! 1%nat = Some (h2, At_nameInUse p) ->
  h_thisClient h1 = Some m1 -> h_thisClient h2 = Some m2 -> ci_GetName m1 = ci_GetName m2 ->
  AddMember_nameInUse rc (ci_GetName m1) = false -> AddMember_checkID rc = None ->
  AddMember_insert rc m1 = Done (rc1, None) -> AddMember_insert rc1 m2 = Done (rc2, None) ->
  exists s', rtc server_step (w, ts) s' /\ w_heap s'.1 !! p = Some rc2 /\ ~ distinct_names rc2.
Proof.
  intros Hp Ht1 Ht2 Hm1 Hm2 Hn Hu Hc Hi1 Hi2.
  destruct (race_run rc m1 m2 rc1 rc2 Hn Hu Hc Hi1 Hi2) as (Hr & _ & Hd).
  assert (runs_as p (rc, [pending m1; pending m2]) (w, ts)) as Ha.
  { split; [done|]. intros [|[|i]] m q [= <- <-]; simpl; eauto. }
  destruct (am_steps_server _ _ _ _ Ha Hr) as (s' & Hs & Hp' & _). exists s'. split; [done|]. by split.
Qed.

(** The filter of identifiers is checked and extended in separate steps, under no
    lock: two goroutines that have drawn the same new identifier both go on to
    record it, and will both be given it. *)
Lemma identifier_race w ts i j hi hj ki kj n : i <> j ->
  ts !! i = Some (hi, At_lookup ki (Some n)) -> ts !! j = Some (hj, At_lookup kj (Some n)) ->
  xf_IsMember (reg_idFilter (w_reg w)) (xi_Value n) = (false, None) ->
  rtc server_step (w, ts)
    (w, <[j := (hj, At_record kj (Some n))]> (<[i := (hi, At_record ki (Some n))]> ts)).
Proof.
  intros Hne Hi Hj Hm.
  assert (forall h k, thread_step w h (At_lookup k (Some n)) = Done (w, h, At_record k (Some n))) as Hs.
  { intros h k. simpl. unfold ContainsID. simpl. by rewrite Hm. }
  eapply rtc_l; [by eapply step_run; [exact Hi|apply Hs]|].
  eapply rtc_once, step_run; [|apply Hs]. by rewrite lookup_insert_ne.
Qed.

(** ** When runs are orderly *)

(** One connection cannot race. *)
Lemma single_orderly w i x : orderly (w, {[ i := x ]}).
Proof.
  intros j k h t h' t' p n Hj Hk _ _. simpl in Hj, Hk.
  apply lookup_singleton_Some in Hj as [<- _]. by apply lookup_singleton_Some in Hk as [<- _].
Qed.

(** Nor can connections whose clients have different names. *)
Lemma clients_orderly (s : server) :
  (forall i j h t h' t' c c', s.2 !! i = Some (h, t) -> s.2 !! j = Some (h', t') ->
     h_thisClient h = Some c -> h_thisClient h' = Some c' -> ci_GetName c = ci_GetName c' -> i = j) ->
  orderly s.
Proof. intros Hd i j h t h' t' p n Hi Hj (_ & c & Hc & Hn) (_ & c' & Hc' & Hn'). eapply Hd; [done..|congruence]. Qed.

(** A message that is handled without interruption, on the only connection. *)
Lemma message_runs w i h m w' h' : handle_msg w h m = Done (w', h') -> h_exitState h' <> IN_CLOSED ->
  rtc orderly_step (w, {[ i := (h, At_rest) ]}) (w', {[ i := (set_entryState (h_exitState h') h', At_rest) ]}).
Proof.
  rewrite handle_msg_rest. intros ([h1 t1] & Hb & Hr)%bind_Done_inv Hx.
  eapply rtc_l.
  { split; [apply single_orderly|]. eapply (step_receive _ _ i); [apply lookup_singleton_eq|exact Hb]. }
  rewrite insert_singleton_eq. apply alone_complete in Hr.
  assert (forall s s', rtc alone s s' ->
    rtc orderly_step (s.1.1, {[ i := (s.1.2, s.2) ]}) (s'.1.1, {[ i := (s'.1.2, s'.2) ]})) as Hrun.
  { intros s s'. induction 1 as [s|[[wa ha] ta] [[wb hb] tb] s' Hs _ IH]; [done|]. eapply rtc_l; [|exact IH].
    split; [apply single_orderly|]. simpl. rewrite <-(insert_singleton_eq i (hb, tb) (ha, ta)).
    eapply step_run; [apply lookup_singleton_eq|exact Hs]. }
  etrans; [exact (Hrun _ _ Hr)|]. apply rtc_once. split; [apply single_orderly|]. simpl.
  rewrite <-(insert_singleton_eq i (set_entryState (h_exitState h') h', At_rest) (h', At_reply)).
  by apply step_reply; [apply lookup_singleton_eq|].
Qed.
End Facts.

(** ** Theorems *)

Section Theorems.
Context `{Ext}.

(** C6: However the atomic steps of any number of connections are interleaved, from a
    server whose invariant holds: the registry keeps its invariant, except that
    members of a cluster may come to share a name; every connection keeps its own
    and is in a state of the protocol; nothing that was registered is lost or
    changed.  In the runs in which no two Joins of the same name in the same
    cluster overlap, the names of members stay distinct too, and the registry keeps
    the whole of its invariant. *)
Theorem server_invariant `{!NodeIDLaws} `{!HamtLaws} `{!BloomLaws} s s' :
  server_inv s ->
  (rtc server_step s s' -> server_inv s' /\ extends s.1 s'.1) /\
  (names_ok s -> rtc orderly_step s s' -> names_ok s' /\ reg_wf s'.1).
Proof.
  intros Hs. split; [by apply server_run_inv|]. intros Hn Hr.
  pose proof (orderly_run_names _ _ Hs Hn Hr) as Hn'. split; [done|].
  apply server_reg_wf; [|done]. by eapply server_run_inv, orderly_run_server.
Qed.

(** C24: Overlapping calls of [AddMember] for members with pairwise different names
    that the cluster does not have keep the invariant of the cluster, in every
    interleaving of their critical sections, and no member is lost. *)
Theorem AddMember_race_free `{!HamtLaws} rc ms rc' cs' :
  rc_wf rc -> NoDup (ci_GetName <$> ms) ->
  (forall m, m ∈ ms -> ci_GetName m ∉ (ci_GetName <$> rc_Members rc)) ->
  am_steps (rc, pending <$> ms) (rc', cs') ->
  rc_wf rc' /\ exists l, rc_Members rc' = rc_Members rc ++ l.
Proof.
  intros Hw Hnd Hfree Hs.
  assert (disjoint_names rc (pending <$> ms)) as Hd.
  { split.
    - rewrite <-list_fmap_compose. by erewrite list_fmap_ext.
    - intros m pc (m' & [= -> ->] & Hm)%list_elem_of_fmap _. by apply Hfree. }
  clear Hnd Hfree. remember (rc, pending <$> ms) as s eqn:Es. remember (rc', cs') as s' eqn:Es'.
  revert rc Hw Hd Es. generalize (pending <$> ms). clear ms.
  induction Hs as [s|s1 [rc2 cs2] s3 Hs _ IH]; intros cs rc Hw Hd ->; subst.
  - injection Es' as -> ->. split; [done|]. by exists []; rewrite app_nil_r.
  - destruct (am_step_safe _ _ _ _ Hw Hd Hs) as [Hw2 Hd2].
    destruct (am_step_mono _ _ _ _ Hs) as (_ & l & Hl).
    destruct (IH eq_refl _ _ Hw2 Hd2 eq_refl) as (Hw' & l' & Hl'). split; [done|].
    exists (l ++ l'). by rewrite Hl', Hl, app_assoc.
Qed.

(** C23: Two overlapping calls of [AddMember] for members with the same name can
    both succeed: the name is checked in one critical section and the member
    inserted in another.  The cluster then has two members of that name. *)
Theorem AddMember_race rc m1 m2 rc1 rc2 :
  ci_GetName m1 = ci_GetName m2 -> AddMember_nameInUse rc (ci_GetName m1) = false ->
  AddMember_checkID rc = None -> AddMember_insert rc m1 = Done (rc1, None) ->
  AddMember_insert rc1 m2 = Done (rc2, None) ->
  am_steps (rc, [pending m1; pending m2]) (rc2, [(m1, AM_done None); (m2, AM_done None)]) /\
  rc_Members rc2 = rc_Members rc ++ [m1; m2] /\ ~ NoDup (ci_GetName <$> rc_Members rc2).
Proof. apply race_run. Qed.
End Theorems.

(** ** Witnesses *)

Module ServerWitness.
Import ModelInstances ClientInfoWitness RegClusterWitness RegNodeWitness RegistryWitness
  MsgHandlersWitness InHandlerWitness.

(** Alice's connection, waiting for a message, and a Create message on it. *)
Definition w_server : server := (w_start, {[ 0%nat := (w_aliceCnx, At_rest) ]}).
Definition w_server2 : server :=
  (w_handled.1, {[ 0%nat := (set_entryState (h_exitState w_handled.2) w_handled.2, At_rest) ]}).

Lemma w_alice_ok : thread_ok w_start w_aliceCnx At_rest.
Proof.
  destruct w_aliceCnx_wf as [_ Hs Hc]. split; [exact Hs|exact Hc| |exact I]. intros _ p [=].
Qed.

Lemma w_server_inv : server_inv w_server.
Proof. exact (proj1 (single_ok _ _ _ w_start_wf w_alice_ok)). Qed.

Lemma w_server_names : names_ok w_server.
Proof. exact (proj2 (single_ok _ _ _ w_start_wf w_alice_ok)). Qed.

Lemma w_handled_done : handle_msg w_start w_aliceCnx w_createMsg = Done (w_handled.1, w_handled.2).
Proof. apply w_after_done. vm_compute. reflexivity. Qed.

Lemma w_server_run : rtc orderly_step w_server w_server2.
Proof. apply (message_runs _ _ _ _ _ _ w_handled_done). vm_compute. discriminate. Qed.

Lemma server_invariant_witness : rtc orderly_step w_server w_server2 /\
  server_inv w_server2 /\ names_ok w_server2 /\ reg_wf w_server2.1.
Proof.
  destruct (server_invariant w_server w_server2 w_server_inv) as [Hinv Hnames].
  split; [exact w_server_run|]. split; [apply Hinv, orderly_run_server, w_server_run|].
  apply Hnames; [exact w_server_names|exact w_server_run].
Defined.

(** Another member that is also called alice. *)
Definition w_alice2 : ClientInfo := mkClientInfo 1 None
  (Concrete.mkBase (str "alice") (Some (str "another id")) (Some w_key) (Some w_key)).
Definition w_inserted (rc : RegCluster) (m : ClientInfo) : RegCluster :=
  match AddMember_insert rc m with Done (rc', _) => rc' | _ => rc end.

Lemma AddMember_race_witness : exists rc2,
  am_steps (w_cluster0, [pending w_member; pending w_alice2])
    (rc2, [(w_member, AM_done None); (w_alice2, AM_done None)]) /\
  ~ NoDup (ci_GetName <$> rc_Members rc2).
Proof.
  destruct (AddMember_race w_cluster0 w_member w_alice2 (w_inserted w_cluster0 w_member)
    (w_inserted (w_inserted w_cluster0 w_member) w_alice2)) as (Hs & _ & Hn); try reflexivity.
  eexists. split; [exact Hs|exact Hn].
Defined.

Lemma AddMember_race_free_witness : exists rc' cs',
  am_steps (w_cluster0, pending <$> [w_member; w_twin]) (rc', cs') /\ rc_wf rc'.
Proof.
  exists w_cluster0, [(w_member, AM_id); pending w_twin].
  assert (am_steps (w_cluster0, pending <$> [w_member; w_twin])
    (w_cluster0, [(w_member, AM_id); pending w_twin])) as Hs.
  { apply rtc_once. exact (am_name w_cluster0 [pending w_member; pending w_twin] 0 w_member eq_refl). }
  split; [exact Hs|].
  apply (AddMember_race_free w_cluster0 [w_member; w_twin] w_cluster0 [(w_member, AM_id); pending w_twin]).
  - eapply NewRegCluster_wf, w_cluster0_new.
  - apply (bool_decide_unpack _). vm_compute. exact I.
  - intros m _. apply not_elem_of_nil.
  - exact Hs.
Defined.
End ServerWitness.
