(* ===== verification/Spec.v ===== *)
(** * What the registry promises

    An abstract registry is a finite map from names to clusters, and only two
    things can happen to it: a cluster is created under an unused name, or a client
    joins one under a name unused in it.  This file states that, and proves that
    the program implements it.  Every message handled without interruption is one
    such event or none, and the replies describe the abstract cluster
    ([handle_msg_refines]).  Every atomic step of the server is one event or none,
    caused by a message of the connection that takes it: in the runs in which no
    two Joins of one name overlap, events of the abstract registry
    ([server_refines]); in all runs, those of the looser one in which a Join may
    also repeat a name ([server_runs_loosely]). *)
From S2P Require Import Prelude GoStd GoCrypto Errors Proto Ext ExtModel ClientInfo RegCluster.
From S2P Require Import RegCred RegNode Registry CnxHandler MsgHandlers InHandler Threads Effects.
From S2P Require Import Server.

Section Spec.
Context `{Ext}.

Record cluster_spec := mkSpec {
  cs_id : bytes;
  cs_attrs : Z;
  cs_maxSize : Z;
  cs_epCount : Z;
  cs_members : list ClientInfo
}.

Abbreviation registry_spec := (gmap gostring cluster_spec).

Inductive event :=
  | ev_none
  | ev_create (name : gostring) (id : bytes) (maxSize epCount : Z)
  | ev_join (name : gostring) (c : ClientInfo).

Definition apply_event (s : registry_spec) (e : event) : registry_spec :=
  match e with
  | ev_none => s
  | ev_create n id maxSize epCount => <[n := mkSpec id 0 maxSize epCount []]> s
  | ev_join n c =>
    alter (fun cs => mkSpec (cs_id cs) (cs_attrs cs) (cs_maxSize cs) (cs_epCount cs) (cs_members cs ++ [c])) n s
  end.

(** When an event may happen: a new cluster has an unused name and a size in
    range; a joining client has a name that no member of the cluster has. *)
Definition allowed (s : registry_spec) (e : event) : Prop :=
  match e with
  | ev_none => True
  | ev_create n id maxSize epCount => s !! n = None /\ MIN_CLUSTER_SIZE <= maxSize <= MAX_CLUSTER_SIZE
  | ev_join n c => exists cs, s !! n = Some cs /\ ci_GetName c ∉ (ci_GetName <$> cs_members cs)
  end.

Definition spec_step (s s' : registry_spec) : Prop := exists e, allowed s e /\ s' = apply_event s e.

(** When Joins overlap, a client may join under a name that a member has. *)
Definition loosely_allowed (s : registry_spec) (e : event) : Prop :=
  match e with
  | ev_join n c => is_Some (s !! n)
  | _ => allowed s e
  end.

Definition loose_step (s s' : registry_spec) : Prop := exists e, loosely_allowed s e /\ s' = apply_event s e.

(** The abstract registry of a world: the clusters that have names, read through
    their pointers. *)
Definition abs_cluster (rc : RegCluster) : cluster_spec :=
  mkSpec (default [] (rc_ID rc)) (rc_Attrs rc) (rc_maxSize rc) (rc_epCount rc) (rc_Members rc).
Definition abs (w : world) : registry_spec :=
  omap (fun p => abs_cluster <$> w_heap w !! p) (reg_ClustersByName (w_reg w)).

(** An event is one that this message, on this connection, may cause. *)
Definition caused_by (h : InHandler) (m : option XLRegMsg) (e : event) : Prop :=
  match e with
  | ev_none => True
  | ev_create n id maxSize epCount =>
    h_entryState h = CLIENT_DETAILS_RCVD /\ op2tag (GetOp m) = TAG_CREATE /\ n = created_name m /\
    maxSize = clamp_size (GetClusterMaxSize m) /\ epCount = GetEndPointCount m
  | ev_join n c =>
    (h_entryState h = CLIENT_DETAILS_RCVD \/ h_entryState h = CREATE_REQUEST_RCVD) /\
    op2tag (GetOp m) = TAG_JOIN /\ h_thisClient h = Some c
  end.

(** An event is caused by the message that some connection is handling. *)
Definition server_caused (s : server) (e : event) : Prop :=
  e = ev_none \/ exists i h t, s.2 !! i = Some (h, t) /\ caused_by h (h_msgIn h) e.

(** A reply that tells the identifier, size and end-point count of a cluster. *)
Definition describes (reply : XLRegMsg) (cs : cluster_spec) : Prop :=
  msg_ClusterID reply = Some (cs_id cs) /\ msg_ClusterMaxSize reply = Some (cs_maxSize cs) /\
  msg_EndPointCount reply = Some (cs_epCount cs).

End Spec.

(** ** The abstraction and the operations *)

Section Facts.
Context `{Ext}.

Lemma abs_lookup w n : abs w !! n =
  reg_ClustersByName (w_reg w) !! n ≫= fun p => abs_cluster <$> w_heap w !! p.
Proof. unfold abs. by rewrite lookup_omap. Qed.

Lemma abs_named w n p rc : reg_ClustersByName (w_reg w) !! n = Some p -> w_heap w !! p = Some rc ->
  abs w !! n = Some (abs_cluster rc).
Proof. intros Hn Hp. by rewrite abs_lookup, Hn; simpl; rewrite Hp. Qed.

Lemma abs_ext w w' :
  reg_ClustersByName (w_reg w') = reg_ClustersByName (w_reg w) -> w_heap w' = w_heap w -> abs w' = abs w.
Proof. intros Hn Hh. unfold abs. by rewrite Hn, Hh. Qed.

Lemma abs_alloc {P : RegCluster -> Prop} w rc : reg_inv P w -> abs (alloc rc w).2 = abs w.
Proof.
  intros Hw. apply map_eq. intros n. rewrite !abs_lookup. simpl.
  destruct (_ !! n) as [p|] eqn:En; [|done]. simpl.
  destruct (wf_named _ Hw _ _ En) as (_ & c & Hc & _). by rewrite (lookup_app_l_Some _ _ _ _ Hc), Hc.
Qed.

(** Registering an allocated cluster. *)
Lemma abs_register w cs byID p rc n ds : w_heap w !! p = Some rc ->
  abs (mkWorld (with_clusters cs (<[n := p]> (reg_ClustersByName (w_reg w))) byID (w_reg w)) (w_heap w) ds)
  = <[n := abs_cluster rc]> (abs w).
Proof.
  intros Hp. apply map_eq. intros m. rewrite abs_lookup. simpl.
  destruct (decide (m = n)) as [->|Hne].
  - rewrite !lookup_insert_eq. simpl. by rewrite Hp.
  - rewrite !lookup_insert_ne by done. by rewrite abs_lookup.
Qed.

(** Changing a registered cluster, and one that is not. *)
Lemma abs_update {P : RegCluster -> Prop} w p rc rc' : reg_inv P w -> w_heap w !! p = Some rc -> p ∈ reg_Clusters (w_reg w) ->
  abs (mkWorld (w_reg w) (<[p := rc']> (w_heap w)) (w_draws w)) = <[rc_Name rc := abs_cluster rc']> (abs w).
Proof.
  intros Hw Hp Hin. destruct (wf_listed _ Hw _ Hin) as (c & Hc & Hn).
  assert (c = rc) as -> by congruence. apply map_eq. intros m. rewrite abs_lookup. simpl.
  destruct (decide (m = rc_Name rc)) as [->|Hne].
  - rewrite Hn, lookup_insert_eq. simpl. by rewrite list_lookup_insert_eq by (by eapply lookup_lt_Some).
  - rewrite lookup_insert_ne, abs_lookup by done. destruct (_ !! m) as [q|] eqn:Em; [|done]. simpl.
    rewrite list_lookup_insert_ne; [done|]. intros ->.
    destruct (wf_named _ Hw _ _ Em) as (_ & c & Hc' & Hcn). congruence.
Qed.

(** The events of the handlers. *)
Lemma client_nodeID_abs w id nid err w' : client_nodeID w id = Done (nid, err, w') -> abs w' = abs w /\
  reg_Clusters (w_reg w') = reg_Clusters (w_reg w).
Proof.
  unfold client_nodeID. intros Hc. destruct id as [b|].
  - destruct (xi_New b) as [n [e|]]; [by injection Hc as _ _ <-|].
    apply bind_Done_inv in Hc as ([found e] & _ & Hc). destruct e; [by injection Hc as _ _ <-|].
    destruct found; [by injection Hc as _ _ <-|]. apply bind_Done_inv in Hc as ([reg e] & Hi & Hc).
    injection Hc as _ _ <-. destruct n as [n|]; [|done]. unfold InsertID in Hi. simpl in Hi.
    repeat case_match; simplify_eq/=; done.
  - apply bind_Done_inv in Hc as ([[[n e] reg] ds] & Hi & Hc). injection Hc as _ _ <-.
    apply InsertUniqueNodeID_inv in Hi as (? & ? & ? & _ & _ & _ & [(? & _ & -> & _)|(_ & f & ? & _ & _ & ->)]);
      done.
Qed.

Lemma doClientMsg_abs w h w' h' : doClientMsg w h = Done (w', h') -> abs w' = abs w /\
  reg_Clusters (w_reg w') = reg_Clusters (w_reg w) /\ h_cluster h' = h_cluster h.
Proof.
  unfold doClientMsg. intros Hc.
  destruct xc_RSAPubKeyFromWire as [ck|e]; [|by simplify_eq/=].
  destruct (xc_RSAPubKeyFromWire (Token_GetSigKey _)) as [sk|e]; [|by simplify_eq/=].
  destruct VerifyPKCS1v15; [by simplify_eq/=|].
  apply bind_Done_inv in Hc as ([[nid err] w1] & [Ha Hl]%client_nodeID_abs & Hc).
  destruct (if bool_decide _ then _ else _); [by simplify_eq/=|].
  destruct NewClientInfo; [|by simplify_eq/=]. apply bind_Done_inv in Hc as (n & _ & Hc).
  by simplify_eq/=.
Qed.

Lemma doGetMsg_abs w h w' h' : doGetMsg w h = Done (w', h') -> w' = w /\ h_cluster h' = h_cluster h.
Proof.
  unfold doGetMsg. intros Hc. destruct ha_NewBytesKey as [k [e|]]; [by simplify_eq/=|].
  destruct ha_Find as [[p|] [e|]]; try by simplify_eq/=.
  apply bind_Done_inv in Hc as (rc & _ & Hc). apply bind_Done_inv in Hc as ([ts wr] & _ & Hc).
  by simplify_eq/=.
Qed.

(** A registered cluster that the reply describes. *)
Definition reply_ok (w : world) (h : InHandler) (n : gostring) : Prop :=
  exists cs reply, abs w !! n = Some cs /\ h_msgOut h = Some reply /\ describes reply cs.

Lemma doCreateMsg_abs `{!NodeIDLaws} `{!HamtLaws} `{!BloomLaws} w h w' h' :
  reg_wf w -> h_registered w h -> doCreateMsg w h = Done (w', h') ->
  exists e, allowed (abs w) e /\ abs w' = apply_event (abs w) e /\
    (e = ev_none \/ exists id, e = ev_create (created_name (h_msgIn h)) id
       (clamp_size (GetClusterMaxSize (h_msgIn h))) (GetEndPointCount (h_msgIn h))) /\
    (h_errOut h' = None -> h_registered w' h' /\
      exists n, (n = GetClusterName (h_msgIn h) \/ n = created_name (h_msgIn h)) /\ reply_ok w' h' n).
Proof.
  intros Hw Hreg Hc. unfold doCreateMsg in Hc. destruct (_ !! _) as [p|] eqn:En.
  - destruct (wf_named _ Hw _ _ En) as (_ & rc & Hp & _). rewrite Hp in Hc. cbn [mbind outcome_bind deref] in Hc.
    destruct (Forall_lookup_1 _ _ _ _ (wf_ids _ Hw) Hp) as [n Hid]. rewrite Hid in Hc. simpl in Hc.
    destruct (xi_New_total n) as [n' Hnew]. rewrite Hnew in Hc. simpl in Hc.
    unfold create_reply in Hc. simpl in Hc. injection Hc as <- <-.
    apply xi_New_Value in Hnew as (? & [= <-] & Hv).
    exists ev_none. split_and!; [done|by apply abs_ext|by left|]. intros _. split; [done|].
    exists (GetClusterName (h_msgIn h)). split; [by left|]. eexists (abs_cluster rc), _.
    split; [exact (abs_named (mkWorld (w_reg w) (w_heap w) _) _ p rc En Hp)|]. split; [done|]. unfold describes. simpl.
    by rewrite Hid, Hv.
  - apply bind_Done_inv in Hc as ([[[cid err] reg] ds] & Hi & Hc).
    destruct (InsertUnique_grows _ _ _ _ _ Hw Hi) as [Hw1 Hx1].
    assert (reg_ClustersByName reg = reg_ClustersByName (w_reg w) /\
            reg_Clusters reg = reg_Clusters (w_reg w)) as [Hbn Hcl].
    { apply InsertUniqueNodeID_inv in Hi as (? & ? & ? & _ & _ & _ & [(? & _ & -> & _)|(_ & f & ? & _ & _ & ->)]);
        done. }
    set (w1 := mkWorld reg (w_heap w) ds) in *.
    assert (abs w1 = abs w) as Ha1 by (by apply abs_ext).
    destruct err as [e|]; [injection Hc as <- <-; exists ev_none; by split_and!; try left|].
    apply bind_Done_inv in Hc as (r & Hr & Hc).
    destruct r as [rc|e]; [|injection Hc as <- <-; exists ev_none; by split_and!; try left].
    pose proof (NewRegCluster_wf _ _ _ _ _ _ Hr) as Hrc.
    apply NewRegCluster_Ok_inv in Hr as (nid & m & -> & _ & Erc). fold (created_name (h_msgIn h)) in Erc.
    pose proof (alloc_wf rc w1 nid Hw1 Hrc ltac:(by rewrite Erc)) as Hw2.
    pose proof (abs_alloc w1 rc Hw1) as Ha2.
    destruct (alloc rc w1) as [p w2] eqn:Eal. simpl in Hw2, Ha2.
    apply bind_Done_inv in Hc as ([[i err] w3] & Ha & Hc).
    apply (AddCluster_wf_inv (P:=rc_wf)) in Ha
      as [([e ->] & _ & ->)|(rc' & n' & k & byID & e & Hp & Hid & Hn & _ & _ & _ & -> & _ & ->)]; [| |done].
    + injection Hc as <- <-. exists ev_none. split_and!; [done|by rewrite Ha2|by left|done].
    + assert (rc' = rc) as ->.
      { injection Eal as <- <-. simpl in Hp. rewrite list_lookup_middle in Hp by done. congruence. }
      assert (abs w2 !! rc_Name rc = None) as Hfree by (by rewrite abs_lookup, Hn).
      exists (ev_create (created_name (h_msgIn h)) (xi_Value nid)
        (clamp_size (GetClusterMaxSize (h_msgIn h))) (GetEndPointCount (h_msgIn h))).
      assert (abs_cluster rc = mkSpec (xi_Value nid) 0 (clamp_size (GetClusterMaxSize (h_msgIn h)))
        (GetEndPointCount (h_msgIn h)) []) as Eabs by (by rewrite Erc).
      assert (rc_Name rc = created_name (h_msgIn h)) as Ename by (by rewrite Erc).
      assert (allowed (abs w) (ev_create (created_name (h_msgIn h)) (xi_Value nid)
        (clamp_size (GetClusterMaxSize (h_msgIn h))) (GetEndPointCount (h_msgIn h)))) as Hal.
      { split; [by rewrite <-Ha1, <-Ha2, <-Ename|apply clamp_size_range]. }
      destruct e as [e|]; simpl in Hc.
      * injection Hc as <- <-. split_and!; [done| |by right; eexists|done].
        rewrite (abs_register _ _ _ _ rc) by done. simpl. by rewrite Eabs, Ename, Ha2, Ha1.
      * unfold create_reply in Hc. simpl in Hc. injection Hc as <- <-.
        split_and!; [done| |by right; eexists|].
        -- rewrite (abs_register _ _ _ _ rc) by done. simpl. by rewrite Eabs, Ename, Ha2, Ha1.
        -- intros _. split.
           { intros q [= <-]. simpl. apply elem_of_app. right. by apply list_elem_of_singleton. }
           exists (created_name (h_msgIn h)). split; [by right|]. eexists _, _.
           split; [rewrite (abs_register _ _ _ _ rc) by done; by rewrite Ename, lookup_insert_eq|].
           split; [done|]. by rewrite Eabs.
Qed.

Lemma doJoinMsg_abs `{!HamtLaws} w h w' h' :
  reg_wf w -> h_registered w h -> doJoinMsg w h = Done (w', h') ->
  exists e, allowed (abs w) e /\ abs w' = apply_event (abs w) e /\
    (e = ev_none \/ exists n c, e = ev_join n c /\ h_thisClient h = Some c) /\
    (h_errOut h' = None -> h_registered w' h' /\ exists n c, e = ev_join n c /\ reply_ok w' h' n).
Proof.
  intros Hw Hreg Hc. unfold doJoinMsg in Hc. apply bind_Done_inv in Hc as (c & Htc%deref_Done_inv & Hc).
  pose proof (fun p => join_cluster_registered w h p Hw Hreg) as Hjr.
  destruct (join_cluster w h) as [cl [e|]]; simpl in Hjr.
  { apply bind_Done_inv in Hc as (p & _ & Hc). injection Hc as <- <-. exists ev_none. by split_and!; try left. }
  apply bind_Done_inv in Hc as (p & ->%deref_Done_inv & Hc).
  apply bind_Done_inv in Hc as (rc & Hp%deref_Done_inv & Hc).
  apply bind_Done_inv in Hc as ([rc' err] & Ha & Hc).
  specialize (Hjr p eq_refl). pose proof (abs_update w p rc rc' Hw Hp Hjr) as Habs.
  destruct (wf_listed _ Hw _ Hjr) as (c0 & Hc0 & Hbn). assert (c0 = rc) as -> by congruence.
  pose proof (abs_named _ _ _ _ Hbn Hp) as Hcs.
  apply AddMember_inv in Ha as [[-> [e ->]]|(Hfree & _ & Hi)].
  { injection Hc as <- <-. exists ev_none. split_and!; [done| |by left|done].
    simpl. rewrite Habs. by apply insert_id. }
  apply AddMember_insert_inv in Hi as (id & k & ke & byID & _ & _ & _ & ->).
  exists (ev_join (rc_Name rc) c).
  pose proof (Forall_lookup_1 _ _ _ _ (wf_heap _ Hw) Hp) as Hwf.
  assert (allowed (abs w) (ev_join (rc_Name rc) c)) as Hal.
  { eexists. split; [exact Hcs|]. intros (m & Hn & Hm)%list_elem_of_fmap.
    assert (rc_MembersByName rc !! ci_GetName c = Some m) by (by apply (wf_byName _ Hwf)). congruence. }
  assert (abs w' = apply_event (abs w) (ev_join (rc_Name rc) c)) as Hap.
  { assert (abs w' = <[rc_Name rc := mkSpec (default [] (rc_ID rc)) (rc_Attrs rc) (rc_maxSize rc)
      (rc_epCount rc) (rc_Members rc ++ [c])]> (abs w)) as ->.
    { destruct err as [e|]; injection Hc as <- <-; exact Habs. }
    simpl. apply map_eq. intros n. destruct (decide (n = rc_Name rc)) as [->|Hne].
    - by rewrite lookup_insert_eq, lookup_alter_eq, Hcs.
    - by rewrite lookup_insert_ne, lookup_alter_ne by done. }
  split_and!; [done|done|by right; eexists _, _|].
  intros He. destruct err as [e|]; injection Hc as <- <-; [done|]. split.
  - intros q [= <-]. done.
  - eexists _, _. split; [done|]. eexists _, _. split; [rewrite Habs; by rewrite lookup_insert_eq|].
    split; [done|]. unfold describes. simpl.
    destruct (Forall_lookup_1 _ _ _ _ (wf_ids _ Hw) Hp) as [n ->]. done.
Qed.
End Facts.

(** ** The handlers implement the specification *)

Section Refinement.
Context `{Ext} `{!NodeIDLaws} `{!HamtLaws} `{!BloomLaws}.

Lemma abs_unchanged w h m w' : abs w' = abs w ->
  exists e, allowed (abs w) e /\ abs w' = apply_event (abs w) e /\ caused_by h m e.
Proof. intros Ha. by exists ev_none. Qed.

(** The same for every entry of the table. *)
Lemma entry_refines s tag row f w h m w' h' :
  index msgHandlers s = Done row -> index row tag = Done f -> h_entryState h = s ->
  op2tag (GetOp m) = tag -> h_msgIn h = m -> reg_wf w -> h_registered w h -> f w h = Done (w', h') ->
  exists e, allowed (abs w) e /\ abs w' = apply_event (abs w) e /\ caused_by h m e /\
    (h_errOut h' = None -> h_registered w' h' /\
      (tag = TAG_CREATE -> exists n, (n = GetClusterName m \/ n = created_name m) /\ reply_ok w' h' n) /\
      (tag = TAG_JOIN -> exists n c, e = ev_join n c /\ reply_ok w' h' n)).
Proof.
  intros Hr Hf Hs Ht Hm Hw Hreg Hd.
  destruct (dispatch_cases _ _ _ _ Hr Hf) as (_ & _ & Hc).
  destruct Hc as [[_ ->]|[(-> & -> & ->)|[(-> & -> & ->)|[(Hs' & -> & ->)|[(-> & -> & ->)|(-> & ->)]]]]].
  - injection Hd as <- <-. exists ev_none. by split_and!.
  - apply doClientMsg_abs in Hd as (Ha & Hl & Hp). exists ev_none. split_and!; try done.
    intros _. split_and!; try done. intros p Hp'. rewrite Hp in Hp'. rewrite Hl. by apply Hreg.
  - destruct (doCreateMsg_abs _ _ _ _ Hw Hreg Hd) as (e & Hal & Ha & He & Hok). exists e.
    rewrite Hm in *. split_and!; try done.
    + destruct He as [->|[id ->]]; [done|]. by split_and!.
    + intros He'. destruct (Hok He') as [Hr' Hn]. by split_and!.
  - destruct (doJoinMsg_abs _ _ _ _ Hw Hreg Hd) as (e & Hal & Ha & He & Hok). exists e.
    split_and!; try done.
    + destruct He as [->|(n & c & -> & Hc)]; [done|]. simpl. rewrite Hs. by split_and!.
    + intros He'. destruct (Hok He') as [Hr' Hn]. by split_and!.
  - destruct (doGetMsg_abs _ _ _ _ Hd) as (-> & Hp). exists ev_none. split_and!; try done.
    intros _. split_and!; try done. intros p Hp'. rewrite Hp in Hp'. by apply Hreg.
  - injection Hd as <- <-. exists ev_none. by split_and!.
Qed.

(** A connection, for the purposes of the specification. *)
Lemma handle_msg_step w h m w' h' :
  reg_wf w -> cnx_wf w h -> h_registered w h -> handle_msg w h m = Done (w', h') ->
  exists e, allowed (abs w) e /\ abs w' = apply_event (abs w) e /\ caused_by h m e /\
    (h_exitState h' <> IN_CLOSED -> h_registered w' h' /\
      (op2tag (GetOp m) = TAG_CREATE ->
         exists n, (n = GetClusterName m \/ n = created_name m) /\ reply_ok w' h' n) /\
      (op2tag (GetOp m) = TAG_JOIN -> exists n c, e = ev_join n c /\ reply_ok w' h' n)).
Proof.
  intros Hw Hc Hreg Hm.
  destruct (handle_msg_found _ _ _ _ Hm) as (row & f & Er & Ef).
  rewrite (handle_msg_dispatch _ _ _ _ _ Er Ef) in Hm.
  apply bind_Done_inv in Hm as ([w1 h1] & Hd & Hm).
  destruct (entry_refines _ _ _ _ _ (set_msgIn m h) m _ _ Er Ef eq_refl eq_refl eq_refl Hw Hreg Hd)
    as (e & Hal & Ha & Hcb & Hok).
  destruct (h_errOut h1) as [err|]; injection Hm as <- <-; exists e; split_and!; try done.
  intros _. by apply Hok.
Qed.
End Refinement.

(** What every abstract registry has that starts empty, loose or strict. *)
Definition bounded `{Ext} (s : gmap gostring cluster_spec) : Prop :=
  forall n cs, s !! n = Some cs -> MIN_CLUSTER_SIZE <= cs_maxSize cs <= MAX_CLUSTER_SIZE /\ cs_attrs cs = 0.
Definition distinct `{Ext} (s : gmap gostring cluster_spec) : Prop :=
  forall n cs, s !! n = Some cs -> NoDup (ci_GetName <$> cs_members cs).

(** What is promised of a server that starts with the shared state [w] and no
    connection: all its runs keep the invariants, are runs of the loose registry
    from the empty one, with sizes in range, and never forget the identifier [id];
    the orderly ones are runs of the abstract registry, with distinct names. *)
Definition serves_well `{Ext} (w : world) (id : bytes) : Prop :=
  (forall s, rtc server_step (w, ∅) s ->
     server_inv s /\ rtc loose_step ∅ (abs s.1) /\ bounded (abs s.1) /\ known (w_reg s.1) id) /\
  (forall s, rtc orderly_step (w, ∅) s ->
     reg_wf s.1 /\ rtc spec_step ∅ (abs s.1) /\ distinct (abs s.1)).

Section ServerRefinement.
Context `{Ext}.

Lemma loose_step_bounded s s' : bounded s -> loose_step s s' -> bounded s'.
Proof.
  intros Hok (e & Hal & ->). destruct e as [|n id size ep|n c]; [done| |]; simpl in *.
  - destruct Hal as [Hn Hs]. by intros m cs [[<- <-]|[_ Hm%Hok]]%lookup_insert_Some.
  - intros m cs [(-> & cs1 & Hm%Hok & ->)|[_ Hm%Hok]]%lookup_alter_Some; done.
Qed.

Lemma spec_step_distinct s s' : distinct s -> spec_step s s' -> distinct s'.
Proof.
  intros Hok (e & Hal & ->). destruct e as [|n id size ep|n c]; [done| |]; simpl in *.
  - intros m cs [[<- <-]|[_ Hm%Hok]]%lookup_insert_Some; [constructor|done].
  - destruct Hal as (cs0 & Hn & Hc). intros m cs [(-> & cs1 & Hm & ->)|[_ Hm%Hok]]%lookup_alter_Some; [|done].
    assert (cs1 = cs0) as -> by congruence. simpl. rewrite fmap_app. apply NoDup_app.
    split_and!; [by eapply Hok| |apply NoDup_singleton]. intros x Hx ->%list_elem_of_singleton. done.
Qed.

Lemma allowed_loosely s e : allowed s e -> loosely_allowed s e.
Proof. destruct e; [done|done|]. intros (cs & Hn & _). by exists cs. Qed.

Section Laws.
Context `{!NodeIDLaws} `{!HamtLaws} `{!BloomLaws}.

(** Registering a new cluster. *)
Lemma register_event w h p n rc i err w' : reg_inv rc_wf0 w -> doing h E_create ->
  unregistered w p rc -> new_cluster h n rc -> AddCluster w (Some p) = Done (i, err, w') ->
  exists e, allowed (abs w) e /\ abs w' = apply_event (abs w) e /\ caused_by h (h_msgIn h) e.
Proof.
  intros Hw Hd [Hp _] ((nid & _ & Hid) & Hn & Ha & Hs & He & Hm) Hadd.
  pose proof (doing_cases _ _ Hd) as (_ & Hst & Ht).
  apply (AddCluster_wf_inv (P:=rc_wf0)) in Hadd
    as [(_ & _ & ->)|(rc' & n' & k & byID & e & Hp' & _ & Hfree & _ & _ & _ & _ & _ & ->)];
    [by exists ev_none| |done].
  assert (rc' = rc) as -> by congruence.
  exists (ev_create (created_name (h_msgIn h)) (xi_Value nid) (clamp_size (GetClusterMaxSize (h_msgIn h)))
    (GetEndPointCount (h_msgIn h))). split_and!; [| |done].
  - split; [|apply clamp_size_range]. rewrite abs_lookup, <-Hn. by rewrite Hfree.
  - rewrite (abs_register _ _ _ _ rc) by done. simpl. rewrite <-Hn. f_equal. unfold abs_cluster.
    by rewrite Hid, Ha, Hs, He, Hm.
Qed.

(** Inserting a member into a registered cluster. *)
Lemma insert_event w p rc c rc' err : reg_inv rc_wf0 w -> w_heap w !! p = Some rc ->
  p ∈ reg_Clusters (w_reg w) -> AddMember_insert rc c = Done (rc', err) ->
  abs w !! rc_Name rc = Some (abs_cluster rc) /\
  abs (mkWorld (w_reg w) (<[p := rc']> (w_heap w)) (w_draws w)) = apply_event (abs w) (ev_join (rc_Name rc) c).
Proof.
  intros Hw Hp Hin Hi. destruct (wf_listed _ Hw _ Hin) as (rc0 & Hp0 & Hn). assert (rc0 = rc) as -> by congruence.
  pose proof (abs_named _ _ _ _ Hn Hp) as Hcs. split; [done|]. rewrite (abs_update _ _ rc) by done.
  apply AddMember_insert_inv in Hi as (id & k & ke & byID & _ & _ & _ & ->). simpl. apply map_eq. intros n.
  destruct (decide (n = rc_Name rc)) as [->|Hne].
  - by rewrite lookup_insert_eq, lookup_alter_eq, Hcs.
  - by rewrite lookup_insert_ne, lookup_alter_ne by done.
Qed.

(** What a step of the server is for the registry, strictly or loosely: an event
    that a message asks for; if it is a Join, its goroutine was about to insert the
    client. *)
Definition step_event (s : server) (w' : world) (e : event) : Prop :=
  loosely_allowed (abs s.1) e /\ abs w' = apply_event (abs s.1) e /\ server_caused s e /\
  forall n c, e = ev_join n c -> exists i h t p rc, s.2 !! i = Some (h, t) /\
    joining h t p (ci_GetName c) /\ w_heap s.1 !! p = Some rc /\ abs s.1 !! n = Some (abs_cluster rc).

Lemma no_event s w' : abs w' = abs s.1 -> step_event s w' ev_none.
Proof. intros Hw. split_and!; [done|done|by left|done]. Qed.

Lemma server_step_event s s' : server_inv s -> server_step s s' -> exists e, step_event s s'.1 e.
Proof.
  intros Hs Hst.
  assert (forall w : world, abs w = abs s.1 -> exists e, step_event s w e) as Hnone
    by (intros w Hw; exists ev_none; by apply no_event).
  destruct Hst as [| | |w ts i h t w' h' t' Hi Hr| | |]; try by apply Hnone.
  destruct Hs as [Hw Hth _]. cbn [fst snd] in *. specialize (Hth _ _ _ Hi).
  destruct (thread_step_ok _ _ _ _ Hw Hth Hr) as (a & He & Ha & _).
  destruct (acts_ok _ _ _ _ Hth Ha) as [Hreg Hins].
  destruct He as [f ds Hf|f rc n Hf _ _ _|p k err w1 Hadd|p rc c rc' err Hp Hi'].
  - by apply Hnone, abs_ext.
  - apply Hnone. rewrite (abs_alloc (P:=rc_wf0)); [by apply abs_ext|]. by apply reg_inv_filter.
  - destruct (Hreg p eq_refl) as (_ & n & rc & -> & Hu & Hn). destruct (to_pc _ _ _ Hth) as [Hd _].
    destruct (register_event _ _ _ _ _ _ _ _ Hw Hd Hu Hn Hadd) as (e & Hal & Habs & Hc). exists e.
    split_and!; [by apply allowed_loosely|done|right; eauto|]. intros m c ->. destruct Hc as (_ & Htag & _).
    by rewrite (proj2 (proj2 (doing_cases _ _ Hd))) in Htag.
  - destruct (insert_event _ _ _ _ _ _ Hw Hp (Hins p c eq_refl) Hi') as [Hcs Habs]. destruct Ha as [-> Hc].
    destruct (to_pc _ _ _ Hth) as [Hd _]. pose proof (doing_cases _ _ Hd) as (_ & Hst & Ht).
    exists (ev_join (rc_Name rc) c). split_and!; [by eexists|done|right; eexists i, h, _; by split_and!|].
    intros n c' [= <- <-]. exists i, h, (At_insert p), p, rc. split_and!; [done| |done|done].
    split; [by right|]. by exists c.
Qed.

(** It is an event of the abstract registry if the names are in order. *)
Lemma orderly_step_event s s' : server_inv s -> names_ok s -> server_step s s' ->
  exists e, allowed (abs s.1) e /\ abs s'.1 = apply_event (abs s.1) e /\ server_caused s e.
Proof.
  intros Hs Hn Hst. destruct (server_step_event _ _ Hs Hst) as (e & Hal & Ha & Hc & Hj). exists e.
  split_and!; [|done..]. destruct e as [| |n c]; [done..|].
  destruct (Hj n c eq_refl) as (i & h & t & p & rc & Hi & Hjn & Hp & Hcs).
  exists (abs_cluster rc). split; [done|]. by eapply (no_free _ Hn).
Qed.

Lemma server_run_loose s s' : server_inv s -> rtc server_step s s' -> rtc loose_step (abs s.1) (abs s'.1).
Proof.
  intros Hs Hr. induction Hr as [s|s1 s2 s3 H12 _ IH]; [done|].
  destruct (server_step_event _ _ Hs H12) as (e & Hal & Ha & _).
  eapply rtc_l; [by exists e|]. apply IH. by eapply server_step_inv.
Qed.

Lemma orderly_run_refines s s' : server_inv s -> names_ok s -> rtc orderly_step s s' ->
  rtc spec_step (abs s.1) (abs s'.1).
Proof.
  intros Hs Hn Hr. induction Hr as [s|s1 s2 s3 H12 _ IH]; [done|].
  destruct (orderly_step_event _ _ Hs Hn (proj2 H12)) as (e & Hal & Ha & _).
  eapply rtc_l; [by exists e|]. apply IH; [by eapply server_step_inv, H12|by eapply orderly_step_names].
Qed.

Lemma loose_run_bounded s s' : rtc loose_step s s' -> bounded s -> bounded s'.
Proof. intros Hr. induction Hr; [done|]. eauto using loose_step_bounded. Qed.

Lemma spec_run_distinct s s' : rtc spec_step s s' -> distinct s -> distinct s'.
Proof. intros Hr. induction Hr; [done|]. eauto using spec_step_distinct. Qed.

(** A server that starts without clusters and connections. *)
Lemma empty_serves w id : reg_wf w -> reg_ClustersByName (w_reg w) = ∅ -> known (w_reg w) id -> serves_well w id.
Proof.
  intros Hw Hn Hk. assert (abs w = ∅) as Hemp by (unfold abs; by rewrite Hn, omap_empty).
  pose proof (idle_inv w (proj1 (proj1 (reg_wf_iff w) Hw))) as Hi. pose proof (idle_names w Hw) as Hnm.
  split; intros s Hr.
  - destruct (server_run_inv _ _ Hi Hr) as [Hinv Hx]. pose proof (server_run_loose _ _ Hi Hr) as Hl.
    cbn [fst] in Hl, Hx. rewrite Hemp in Hl. split_and!; [done|done| |by apply Hx].
    eapply loose_run_bounded; [done|]. intros m c Hm. by rewrite lookup_empty in Hm.
  - pose proof (orderly_run_refines _ _ Hi Hnm Hr) as Hl. cbn [fst] in Hl. rewrite Hemp in Hl. split_and!; [|done|].
    + apply server_reg_wf; [by eapply server_run_inv, orderly_run_server|by eapply orderly_run_names].
    + eapply spec_run_distinct; [done|]. intros m c Hm. by rewrite lookup_empty in Hm.
Qed.

(** The same for a registry that [NewRegistry] made. *)
Lemma NewRegistry_serves writeFile rn opt reg written id ds :
  NewRegistry writeFile [] (Some rn) (Some opt) = Done (Some reg, None, written) ->
  xn_GetNodeID (xn_Node_Base (rn_Node rn)) = Some id -> serves_well (mkWorld reg [] ds) (xi_Value id).
Proof.
  intros Hn Hid. destruct (NewRegistry_fresh _ _ _ _ _ id ds Hn Hid) as (Hw & _ & _ & Hcl & Hk & _).
  by apply empty_serves.
Qed.
End Laws.
End ServerRefinement.

(** ** Theorems *)

Section Theorems.
Context `{Ext}.

(** C2: A message handled on a connection is at most one event of the abstract
    registry: the creation of a cluster that this Create message asks for, or the
    joining of this connection's client on a Join message.  If the connection
    stays open, the reply to a Create or Join message tells the identifier, size
    and end-point count of the cluster registered under the name concerned, and
    after a Join the client is a member of it. *)
Theorem handle_msg_refines `{!NodeIDLaws} `{!HamtLaws} `{!BloomLaws} w h m w' h' :
  reg_wf w -> cnx_wf w h -> h_registered w h -> handle_msg w h m = Done (w', h') ->
  exists e, allowed (abs w) e /\ abs w' = apply_event (abs w) e /\ caused_by h m e /\
    (h_exitState h' <> IN_CLOSED ->
      (op2tag (GetOp m) = TAG_CREATE ->
         exists n, (n = GetClusterName m \/ n = created_name m) /\ reply_ok w' h' n) /\
      (op2tag (GetOp m) = TAG_JOIN ->
         exists n c cs, h_thisClient h = Some c /\ reply_ok w' h' n /\
           abs w' !! n = Some cs /\ last (cs_members cs) = Some c)).
Proof.
  intros Hw Hc Hr Hm. destruct (handle_msg_step _ _ _ _ _ Hw Hc Hr Hm) as (e & Hal & Ha & Hcb & Hok).
  exists e. split_and!; try done. intros Hx. destruct (Hok Hx) as (_ & Hcr & Hj). split; [done|].
  intros Ht. destruct (Hj Ht) as (n & c & -> & Hrep). destruct Hal as (cs & Hn & _).
  eexists n, c, _. split_and!; [apply Hcb|done|rewrite Ha; simpl; by rewrite lookup_alter_eq, Hn|].
  simpl. apply last_snoc.
Qed.

(** C1: The server implements the abstract registry.  The atomic steps of any number
    of connections may be interleaved in any order, as long as no two Joins of the
    same name in the same cluster overlap: then the run is a run of the abstract
    registry, in which clusters are only created under unused names and clients only
    join under names unused in their cluster, and every further step is an event of
    it that the message being handled asks for. *)
Theorem server_refines `{!NodeIDLaws} `{!HamtLaws} `{!BloomLaws} s s' :
  server_inv s -> names_ok s -> rtc orderly_step s s' ->
  rtc spec_step (abs s.1) (abs s'.1) /\
  forall s'', server_step s' s'' ->
    exists e, allowed (abs s'.1) e /\ abs s''.1 = apply_event (abs s'.1) e /\ server_caused s' e.
Proof.
  intros Hs Hn Hr. split; [by apply orderly_run_refines|]. intros s''. apply orderly_step_event.
  - by eapply server_run_inv, orderly_run_server.
  - by eapply orderly_run_names.
Qed.

(** C8: Whatever overlaps, a run of the server is a run of the loose registry: clusters
    are only created under unused names, and clients only join clusters that
    exist; all that can go wrong is that two members of a cluster share a name.
    Every further step is such an event or none, and one that the message being
    handled asks for. *)
Theorem server_runs_loosely `{!NodeIDLaws} `{!HamtLaws} `{!BloomLaws} s s' :
  server_inv s -> rtc server_step s s' ->
  rtc loose_step (abs s.1) (abs s'.1) /\
  forall s'', server_step s' s'' ->
    exists e, loosely_allowed (abs s'.1) e /\ abs s''.1 = apply_event (abs s'.1) e /\ server_caused s' e.
Proof.
  intros Hs Hr. split; [by apply server_run_loose|]. intros s'' Hst.
  destruct (server_step_event s' s'') as (e & Hal & Ha & Hc & _); [by eapply server_run_inv|done|eauto].
Qed.

(** C7: In every state that a server started with an empty registry can reach, by
    any interleaving, every registered cluster has a maximum size between 2 and 64
    and attributes zero; if no two Joins of the same name in the same cluster
    overlapped, its members have pairwise different names. *)
Theorem server_clusters_ok `{!NodeIDLaws} `{!HamtLaws} `{!BloomLaws} w ts s' n cs :
  reg_wf w -> reg_ClustersByName (w_reg w) = ∅ -> ts = ∅ ->
  rtc server_step (w, ts) s' -> abs s'.1 !! n = Some cs ->
  MIN_CLUSTER_SIZE <= cs_maxSize cs <= MAX_CLUSTER_SIZE /\ cs_attrs cs = 0 /\
  (rtc orderly_step (w, ts) s' -> NoDup (ci_GetName <$> cs_members cs)).
Proof.
  intros Hw Hn -> Hr Hcs.
  assert (abs w = ∅) as Hemp by (unfold abs; by rewrite Hn, omap_empty).
  pose proof (idle_inv w (proj1 (proj1 (reg_wf_iff w) Hw))) as Hi.
  pose proof (server_run_loose _ _ Hi Hr) as Hl. cbn [fst] in Hl. rewrite Hemp in Hl.
  destruct (loose_run_bounded _ _ Hl) with (n := n) (cs := cs) as [Hsize Hattrs];
    [intros m c Hm; by rewrite lookup_empty in Hm|done|].
  split; [exact Hsize|]. split; [exact Hattrs|]. clear Hl.
  intros Ho. pose proof (orderly_run_refines _ _ Hi (idle_names w Hw) Ho) as Hl. cbn [fst] in Hl.
  rewrite Hemp in Hl. eapply spec_run_distinct; [exact Hl| |exact Hcs].
  intros m c Hm. by rewrite lookup_empty in Hm.
Qed.
End Theorems.

(** ** Witnesses *)

Module SpecWitness.
Import ModelInstances ClientInfoWitness RegClusterWitness RegNodeWitness RegistryWitness
  MsgHandlersWitness InHandlerWitness ServerWitness.

Lemma handle_msg_refines_witness : exists e, abs w_handled.1 = apply_event (abs w_start) e /\
  exists n, reply_ok w_handled.1 w_handled.2 n.
Proof.
  destruct (handle_msg_refines w_start w_aliceCnx w_createMsg w_handled.1 w_handled.2 w_start_wf
    w_aliceCnx_wf ltac:(by intros p) w_handled_done) as (e & _ & Ha & _ & Hok).
  exists e. split; [exact Ha|].
  destruct (Hok ltac:(vm_compute; discriminate)) as [Hcr _].
  destruct (Hcr ltac:(vm_compute; reflexivity)) as (n & _ & Hrep). exists n. exact Hrep.
Defined.

Lemma server_refines_witness : rtc spec_step (abs w_server.1) (abs w_server2.1).
Proof.
  apply (server_refines w_server w_server2); [exact w_server_inv|exact w_server_names|exact w_server_run].
Defined.

Lemma server_runs_loosely_witness : rtc loose_step (abs w_server.1) (abs w_server2.1).
Proof.
  apply (server_runs_loosely w_server w_server2); [exact w_server_inv|].
  apply orderly_run_server. exact w_server_run.
Defined.

(** A whole run: a connection is accepted, its hello answered, its client
    identified by a signed token, and a cluster created. *)
Definition w_fresh : InHandler := mkInHandler None None 0 0 0 0 None None None tt.
Definition w_greeted : InHandler := mkInHandler None None 6 0 0 0 None None None tt.
Definition w_run1 : world * InHandler :=
  w_after (handle_msg w_start w_greeted (Some (w_memberMsg (w_tok w_sig None)))).
Definition w_open1 : InHandler := set_entryState (h_exitState w_run1.2) w_run1.2.
Definition w_run2 : world * InHandler := w_after (handle_msg w_run1.1 w_open1 w_createMsg).
Definition w_open2 : InHandler := set_entryState (h_exitState w_run2.2) w_run2.2.

Lemma w_greeting : exists c, handleHello (str "1.9.24") w_start w_fresh w_cnx = Done (w_greeted, c, None).
Proof. eexists. reflexivity. Qed.

Lemma two_messages m1 m2 w1 h1 w2 h2 :
  handle_msg w_start w_greeted m1 = Done (w1, h1) -> h_exitState h1 <> IN_CLOSED ->
  handle_msg w1 (set_entryState (h_exitState h1) h1) m2 = Done (w2, h2) -> h_exitState h2 <> IN_CLOSED ->
  rtc orderly_step (w_start, ∅) (w2, {[ 0%nat := (set_entryState (h_exitState h2) h2, At_rest) ]}).
Proof.
  intros M1 X1 M2 X2. destruct w_greeting as [c Hc]. eapply rtc_l.
  { split; [intros i j h t h' t' p n Hi; simpl in Hi; by rewrite lookup_empty in Hi|].
    by eapply (step_accept w_start ∅ 0 w_cnx w_fresh w_cnx). }
  rewrite insert_empty. eapply rtc_l.
  { split; [apply single_orderly|]. eapply (step_hello _ _ 0); [apply lookup_singleton_eq|exact Hc]. }
  rewrite insert_singleton_eq. etrans; [exact (message_runs _ 0 _ _ _ _ M1 X1)|].
  exact (message_runs _ 0 _ _ _ _ M2 X2).
Qed.

Lemma w_run : rtc orderly_step (w_start, ∅) (w_run2.1, {[ 0%nat := (w_open2, At_rest) ]}).
Proof.
  apply (two_messages (Some (w_memberMsg (w_tok w_sig None))) w_createMsg w_run1.1 w_run1.2).
  - apply w_after_done. vm_compute. reflexivity.
  - vm_compute. discriminate.
  - apply w_after_done. vm_compute. reflexivity.
  - vm_compute. discriminate.
Qed.

Lemma server_clusters_ok_witness : exists cs, abs w_run2.1 !! str "east" = Some cs /\
  MIN_CLUSTER_SIZE <= cs_maxSize cs <= MAX_CLUSTER_SIZE /\ NoDup (ci_GetName <$> cs_members cs).
Proof.
  destruct (abs w_run2.1 !! str "east") as [cs|] eqn:Hcs.
  - exists cs. split; [reflexivity|].
    destruct (server_clusters_ok w_start ∅ _ (str "east") cs w_start_wf eq_refl eq_refl
      (orderly_run_server _ _ w_run) Hcs) as (Hs & _ & Hn). split; [exact Hs|exact (Hn w_run)].
  - exfalso. assert (bool_decide (is_Some (abs w_run2.1 !! str "east")) = true) as Hb
      by (vm_compute; reflexivity).
    rewrite Hcs in Hb. discriminate Hb.
Defined.
End SpecWitness.
