(* ===== verification/MemberInfo.v ===== *)
(** * Members as clients know them

    Models member_info.go: what a client keeps of each member of its cluster,
    made from the tokens the registry sends, and the token made from it.

    [MemberInfo] is the structure of the xlCluster package with the two fields the
    program sets and reads. *)
From S2P Require Import Prelude GoStd GoCrypto Errors Proto Ext ExtModel ClientInfo.

Section MemberInfo.
Context `{Ext}.

Record MemberInfo := mkMemberInfo { mi_Attrs : Z; mi_Peer : Peer }.

(** A connector for each end point; the loop stops at the first error. *)
Fixpoint token_ctors (myEnds : list gostring) (ctors : list ConnectorI) : result (list ConnectorI) :=
  match myEnds with
  | [] => Ok ctors
  | myEnd :: rest =>
    farEnd ← lift (xt_NewTcpEndPoint myEnd);
    ctor ← lift (xt_NewTcpConnector farEnd);
    token_ctors rest (ctors ++ [ctor])
  end.

Definition NewMemberInfoFromToken (token : option XLRegMsg_Token) (ds : list draw) :
    outcome (result MemberInfo * list draw) :=
  match token with
  | None => Done (Err (RegErr NilToken), ds)
  | Some _ =>
    '((nodeID, err), ds') ← xi_New_opt (Token_GetID token) ds;
    match err with
    | Some e => Done (Err (ExtErr e), ds')
    | None =>
      Done (ck ← lift (xc_RSAPubKeyFromWire (Token_GetCommsKey token));
            sk ← lift (xc_RSAPubKeyFromWire (Token_GetSigKey token));
            ctors ← token_ctors (default [] (Token_GetMyEnds token)) [];
            peer ← lift (xn_NewPeer (Token_GetName token) nodeID (Some ck) (Some sk) ctors);
            Ok (mkMemberInfo (Token_GetAttrs token) peer), ds')
    end
  end.

(** The connectors of a peer as text, from [i] on, for [left] turns. *)
Fixpoint connector_Strings (peer : Peer) (left : nat) (i : Z) : outcome (list gostring) :=
  match left with
  | O => Done []
  | S left' =>
    ctor ← deref (xn_Peer_GetConnector peer i);
    rest ← connector_Strings peer left' (i + 1);
    Done (xt_Connector_String ctor :: rest)
  end.

Definition TokenFromMemberInfo (mi : option MemberInfo) : outcome (result XLRegMsg_Token) :=
  mi ← deref mi;
  let peer := mi_Peer mi in
  match xc_RSAPubKeyToWire (xn_GetCommsPublicKey (xn_Peer_Base peer)) with
  | inr e => Done (Err (ExtErr e))
  | inl ckBytes =>
    match xc_RSAPubKeyToWire (xn_GetSigPublicKey (xn_Peer_Base peer)) with
    | inr e => Done (Err (ExtErr e))
    | inl skBytes =>
      myEnds ← connector_Strings peer (Z.to_nat (xn_Peer_SizeConnectors peer)) 0;
      id ← deref (xn_GetNodeID (xn_Peer_Base peer));
      Done (Ok {| tok_Name := Some (xn_GetName (xn_Peer_Base peer));
                  tok_Attrs := Some (mi_Attrs mi);
                  tok_ID := Some (xi_Value id);
                  tok_CommsKey := Some ckBytes;
                  tok_SigKey := Some skBytes;
                  tok_MyEnds := match myEnds with [] => None | _ => Some myEnds end;
                  tok_DigSig := None |})
    end
  end.

End MemberInfo.
Arguments MemberInfo {_}.

(** ** What a client knows of a member *)

(** The connector made for an end point. *)
Definition connects `{Ext} (e : gostring) (c : ConnectorI) : Prop :=
  exists ep, xt_NewTcpEndPoint e = inl ep /\ xt_NewTcpConnector ep = inl c.

(** What a client knows of a member is what the registry has of it: name,
    identifier, keys, attributes, and a connector for each end point. *)
Record info_matches `{Ext} (mi : MemberInfo) (c : ClientInfo) : Prop := {
  ds_Name : xn_GetName (xn_Peer_Base (mi_Peer mi)) = ci_GetName c;
  ds_Attrs : mi_Attrs mi = ci_Attrs c;
  ds_ID : xi_Value <$> xn_GetNodeID (xn_Peer_Base (mi_Peer mi)) = xi_Value <$> ci_GetNodeID c;
  ds_CommsKey : xn_GetCommsPublicKey (xn_Peer_Base (mi_Peer mi)) = xn_GetCommsPublicKey (ci_BaseNode c);
  ds_SigKey : xn_GetSigPublicKey (xn_Peer_Base (mi_Peer mi)) = xn_GetSigPublicKey (ci_BaseNode c);
  ds_Ends : exists cs, Forall2 connects (default [] (ci_MyEnds c)) cs /\
    xn_Peer_SizeConnectors (mi_Peer mi) = Z.of_nat (length cs) /\
    forall i, xn_Peer_GetConnector (mi_Peer mi) i = if i <? 0 then None else cs !! Z.to_nat i
}.

Section Lemmas.
Context `{Ext}.

Lemma token_ctors_Ok ends acc cs : token_ctors ends acc = Ok cs ->
  exists l, cs = acc ++ l /\ Forall2 connects ends l.
Proof.
  revert acc. induction ends as [|e ends IH]; simpl; intros acc Hc.
  - injection Hc as <-. exists []. by rewrite app_nil_r.
  - unfold lift in Hc. destruct (xt_NewTcpEndPoint e) as [ep|] eqn:Ee; [|done]. cbn in Hc.
    destruct (xt_NewTcpConnector ep) as [c|] eqn:Ec; [|done]. cbn in Hc.
    destruct (IH _ Hc) as (l & -> & Hl). exists (c :: l). rewrite <-app_assoc. split; [done|].
    constructor; [by exists ep|done].
Qed.

(** A member read from a token has the token's properties. *)
Lemma NewMemberInfoFromToken_Ok `{!PeerLaws} t b ds mi ds' :
  tok_ID t = Some b -> NewMemberInfoFromToken (Some t) ds = Done (Ok mi, ds') ->
  let base := xn_Peer_Base (mi_Peer mi) in
  exists nid ck sk cs, xi_New b = (nid, None) /\ ds' = ds /\
    xc_RSAPubKeyFromWire (tok_CommsKey t) = inl ck /\ xc_RSAPubKeyFromWire (tok_SigKey t) = inl sk /\
    Forall2 connects (default [] (tok_MyEnds t)) cs /\ mi_Attrs mi = default 0 (tok_Attrs t) /\
    xn_GetName base = default [] (tok_Name t) /\ xn_GetNodeID base = nid /\
    xn_GetCommsPublicKey base = Some ck /\ xn_GetSigPublicKey base = Some sk /\
    xn_Peer_SizeConnectors (mi_Peer mi) = Z.of_nat (length cs) /\
    forall i, xn_Peer_GetConnector (mi_Peer mi) i = if i <? 0 then None else cs !! Z.to_nat i.
Proof.
  intros Hid. unfold NewMemberInfoFromToken, Token_GetID. cbn. rewrite Hid. cbn.
  destruct (xi_New b) as [nid [e|]] eqn:En; [done|]. intros Hm.
  injection Hm as Hm <-. unfold Token_GetCommsKey, Token_GetSigKey, Token_GetMyEnds, Token_GetName,
    Token_GetAttrs, lift in Hm. cbn in Hm.
  destruct (xc_RSAPubKeyFromWire (tok_CommsKey t)) as [ck|] eqn:Ec; [|done]. cbn in Hm.
  destruct (xc_RSAPubKeyFromWire (tok_SigKey t)) as [sk|] eqn:Es; [|done]. cbn in Hm.
  destruct (token_ctors _ _) as [cs|] eqn:Et; [|done]. cbn in Hm.
  destruct (xn_NewPeer _ _ _ _ _) as [p|] eqn:Ep; [|done]. cbn in Hm. injection Hm as <-.
  destruct (token_ctors_Ok _ _ _ Et) as (l & -> & Hl).
  destruct (xn_NewPeer_fields _ _ _ _ _ _ Ep) as (N1 & N2 & N3 & N4 & N5 & N6).
  exists nid, ck, sk, l. by split_and!.
Qed.

(** What a client makes of the token of a member describes that member. *)
Lemma token_describes `{!NodeIDLaws} `{!WireLaws} `{!PeerLaws} c ck sk t ds mi ds' :
  xn_GetCommsPublicKey (ci_BaseNode c) = Some ck -> xn_GetSigPublicKey (ci_BaseNode c) = Some sk ->
  Token c = Done (Ok t) -> NewMemberInfoFromToken (Some t) ds = Done (Ok mi, ds') ->
  info_matches mi c /\ ds' = ds.
Proof.
  intros Hck Hsk Ht Hm. unfold Token in Ht. rewrite Hck, Hsk in Ht.
  destruct (xc_RSAPubKeyToWire (Some ck)) as [cb|] eqn:Ec; [|done].
  destruct (xc_RSAPubKeyToWire (Some sk)) as [sb|] eqn:Es; [|done].
  apply bind_Done_inv in Ht as (id & Hid%deref_Done_inv & Ht). injection Ht as <-.
  apply NewMemberInfoFromToken_Ok with (b := xi_Value id) in Hm as
    (nid & ck' & sk' & cs & En & -> & Hc & Hs & Hends & N1 & N2 & N3 & N4 & N5 & N6 & N7); [|done].
  cbn [tok_CommsKey tok_SigKey tok_MyEnds tok_Attrs tok_Name] in *.
  rewrite (xc_FromWire_ToWire _ _ Ec) in Hc. rewrite (xc_FromWire_ToWire _ _ Es) in Hs.
  destruct (xi_New_Value _ _ En) as (n & -> & Hv).
  split; [|done]. split; try done; try congruence.
  - rewrite N3, Hid. cbn. by rewrite Hv.
  - by exists cs.
Qed.
End Lemmas.

(** ** Theorems *)

Section Theorems.
Context `{Ext}.

(** What a client makes of the token that the registry sends for a member has that
    member's name, identifier, keys and attributes, and a connector for each of
    its end points; reading it draws no identifier. *)
Theorem member_as_registered `{!NodeIDLaws} `{!WireLaws} `{!PeerLaws} c ck sk t ds mi ds' :
  xn_GetCommsPublicKey (ci_BaseNode c) = Some ck -> xn_GetSigPublicKey (ci_BaseNode c) = Some sk ->
  Token c = Done (Ok t) -> NewMemberInfoFromToken (Some t) ds = Done (Ok mi, ds') ->
  info_matches mi c /\ ds' = ds.
Proof. apply token_describes. Qed.

(** C39: The token a client makes of a member reads back as a member with the same name,
    identifier, keys and attributes; its end points are the connectors' texts. *)
Theorem TokenFromMemberInfo_roundtrip `{!NodeIDLaws} `{!WireLaws} `{!PeerLaws} mi ck sk t ds mi' ds' :
  let base := xn_Peer_Base (mi_Peer mi) in
  xn_GetCommsPublicKey base = Some ck -> xn_GetSigPublicKey base = Some sk ->
  TokenFromMemberInfo (Some mi) = Done (Ok t) ->
  NewMemberInfoFromToken (Some t) ds = Done (Ok mi', ds') ->
  let base' := xn_Peer_Base (mi_Peer mi') in
  mi_Attrs mi' = mi_Attrs mi /\ xn_GetName base' = xn_GetName base /\
  xi_Value <$> xn_GetNodeID base' = xi_Value <$> xn_GetNodeID base /\
  xn_GetCommsPublicKey base' = Some ck /\ xn_GetSigPublicKey base' = Some sk /\
  connector_Strings (mi_Peer mi) (Z.to_nat (xn_Peer_SizeConnectors (mi_Peer mi))) 0 =
    Done (default [] (tok_MyEnds t)).
Proof.
  intros base Hck Hsk Ht Hm base'. unfold TokenFromMemberInfo in Ht. cbn in Ht.
  fold base in Ht. rewrite Hck, Hsk in Ht.
  destruct (xc_RSAPubKeyToWire (Some ck)) as [cb|] eqn:Ec; [|done].
  destruct (xc_RSAPubKeyToWire (Some sk)) as [sb|] eqn:Es; [|done].
  apply bind_Done_inv in Ht as (ends & Hends & Ht).
  apply bind_Done_inv in Ht as (id & Hid%deref_Done_inv & Ht). injection Ht as <-.
  apply NewMemberInfoFromToken_Ok with (b := xi_Value id) in Hm as
    (nid & ck' & sk' & cs & En & -> & Hc & Hs & _ & N1 & N2 & N3 & N4 & N5 & _); [|done].
  cbn [tok_CommsKey tok_SigKey tok_MyEnds tok_Attrs tok_Name default] in *.
  rewrite (xc_FromWire_ToWire _ _ Ec) in Hc. rewrite (xc_FromWire_ToWire _ _ Es) in Hs.
  destruct (xi_New_Value _ _ En) as (n & -> & Hv).
  subst base base'. split_and!; try done; try congruence.
  - rewrite N3, Hid. cbn. by rewrite Hv.
  - rewrite Hends. by destruct ends.
Qed.
End Theorems.

(** ** Witnesses *)

Module MemberInfoWitness.
Import ModelInstances ClientInfoWitness.

Definition w_read (t : outcome (result XLRegMsg_Token)) : XLRegMsg_Token :=
  match t with Done (Ok t) => t | _ => XLRegMsg_Token_zero end.
Definition w_info : MemberInfo := mkMemberInfo (2 ^ 63 + 5)
  (Concrete.mkPeer w_base (default [] (ci_MyEnds w_member))).

Lemma member_as_registered_witness : info_matches w_info w_member.
Proof.
  refine (proj1 (member_as_registered w_member w_key w_key (w_read (Token w_member)) [] w_info []
    _ _ _ _)); reflexivity.
Defined.

Lemma TokenFromMemberInfo_roundtrip_witness :
  connector_Strings (mi_Peer w_info) 2 0 =
    Done (default [] (tok_MyEnds (w_read (TokenFromMemberInfo (Some w_info))))).
Proof.
  refine (proj2 (proj2 (proj2 (proj2 (proj2
    (TokenFromMemberInfo_roundtrip w_info w_key w_key (w_read (TokenFromMemberInfo (Some w_info))) []
      (mkMemberInfo (2 ^ 63 + 5) (Concrete.mkPeer w_base
        (default [] (tok_MyEnds (w_read (TokenFromMemberInfo (Some w_info))))))) [] _ _ _ _))))));
    reflexivity.
Defined.
End MemberInfoWitness.
