(* ===== verification/MemberMaker.v ===== *)
(** * The client's side of the protocol

    Models memberNode.go: the state of a client, how it is set up, and the
    exchanges of messages out of which the client programs are composed.

    The structures [CnxHandler], [ClusterMember] and [MemberMaker], embedded in one
    another in Go, are records in one another here.  [ClusterMember] is a structure
    of the xlCluster package, with the fields the program sets or reads.  The
    channel on which a client reports its result is the result of its run; the
    fields ProposedVersion, regProtoVersion and State, which nothing reads, are
    left out.  [mm_draws] is not in the Go structure: it is the tape of the
    identifiers that [xi.New(nil)] will draw. *)
From S2P Require Import Prelude GoStd GoCrypto Errors Proto Ext ExtModel ClientInfo RegCluster.
From S2P Require Import RegCred RegNode Registry CnxHandler MsgHandlers InHandler MemberInfo.

(** The states of a client. *)
Definition MEMBER_START : Z := 0.
Definition HELLO_SENT : Z := 1.
Definition MEMBER_SENT : Z := 2.
Definition CLUSTER_SENT : Z := 3.
Definition JOIN_SENT : Z := 4.
Definition GET_SENT : Z := 5.
Definition BYE_SENT : Z := 6.
Definition MEMBER_CLOSED : Z := 7.

Section MemberMaker.
Context `{Ext}.

Record CnxState := mkCnxState { cx_Cnx : option Cnx; cx_AesSession : AesSession }.

Record ClusterMember := mkClusterMember {
  cm_Attrs : Z;
  cm_ClusterName : gostring;
  cm_ClusterAttrs : Z;
  cm_ClusterID : option NodeID;
  cm_ClusterMaxSize : Z;
  cm_EPCount : Z;
  cm_SelfIndex : Z;
  cm_Members : option (list (option MemberInfo));
  cm_Node : Node
}.

Record MemberMaker := mkMemberMaker {
  mm_ProposedAttrs : Z;
  mm_CnxHandler : CnxState;
  mm_RegPeer : option Peer;
  mm_ClusterMember : ClusterMember;
  mm_draws : list draw
}.

(** Assignments to fields. *)
Definition set_Attrs (v : Z) (c : ClusterMember) : ClusterMember :=
  mkClusterMember v (cm_ClusterName c) (cm_ClusterAttrs c) (cm_ClusterID c) (cm_ClusterMaxSize c)
    (cm_EPCount c) (cm_SelfIndex c) (cm_Members c) (cm_Node c).
Definition set_ClusterID (v : option NodeID) (c : ClusterMember) : ClusterMember :=
  mkClusterMember (cm_Attrs c) (cm_ClusterName c) (cm_ClusterAttrs c) v (cm_ClusterMaxSize c)
    (cm_EPCount c) (cm_SelfIndex c) (cm_Members c) (cm_Node c).
Definition set_ClusterAttrs_Size (attrs size : Z) (c : ClusterMember) : ClusterMember :=
  mkClusterMember (cm_Attrs c) (cm_ClusterName c) attrs (cm_ClusterID c) size
    (cm_EPCount c) (cm_SelfIndex c) (cm_Members c) (cm_Node c).
Definition set_Size_Members (size : Z) (ms : list (option MemberInfo)) (c : ClusterMember) : ClusterMember :=
  mkClusterMember (cm_Attrs c) (cm_ClusterName c) (cm_ClusterAttrs c) (cm_ClusterID c) size
    (cm_EPCount c) (cm_SelfIndex c) (Some ms) (cm_Node c).
Definition set_Members (ms : list (option MemberInfo)) (c : ClusterMember) : ClusterMember :=
  set_Size_Members (cm_ClusterMaxSize c) ms c.
Definition set_EPCount (v : Z) (c : ClusterMember) : ClusterMember :=
  mkClusterMember (cm_Attrs c) (cm_ClusterName c) (cm_ClusterAttrs c) (cm_ClusterID c)
    (cm_ClusterMaxSize c) v (cm_SelfIndex c) (cm_Members c) (cm_Node c).
Definition set_SelfIndex (v : Z) (c : ClusterMember) : ClusterMember :=
  mkClusterMember (cm_Attrs c) (cm_ClusterName c) (cm_ClusterAttrs c) (cm_ClusterID c)
    (cm_ClusterMaxSize c) (cm_EPCount c) v (cm_Members c) (cm_Node c).
Definition set_Node (v : Node) (c : ClusterMember) : ClusterMember :=
  mkClusterMember (cm_Attrs c) (cm_ClusterName c) (cm_ClusterAttrs c) (cm_ClusterID c)
    (cm_ClusterMaxSize c) (cm_EPCount c) (cm_SelfIndex c) (cm_Members c) v.

Definition with_cnx (ch : CnxState) (mm : MemberMaker) : MemberMaker :=
  mkMemberMaker (mm_ProposedAttrs mm) ch (mm_RegPeer mm) (mm_ClusterMember mm) (mm_draws mm).
Definition with_member (f : ClusterMember -> ClusterMember) (mm : MemberMaker) : MemberMaker :=
  mkMemberMaker (mm_ProposedAttrs mm) (mm_CnxHandler mm) (mm_RegPeer mm) (f (mm_ClusterMember mm))
    (mm_draws mm).
Definition with_draws (ds : list draw) (mm : MemberMaker) : MemberMaker :=
  mkMemberMaker (mm_ProposedAttrs mm) (mm_CnxHandler mm) (mm_RegPeer mm) (mm_ClusterMember mm) ds.

(** ** Keys and persistence *)

Definition GetCKPriv (mm : MemberMaker) : outcome PrivateKey :=
  deref (xn_Node_GetCommsPrivateKey (cm_Node (mm_ClusterMember mm))).
Definition GetSKPriv (mm : MemberMaker) : outcome PrivateKey :=
  deref (xn_Node_GetSigPrivateKey (cm_Node (mm_ClusterMember mm))).

(** The file operations are arguments; the result is the error and what was
    written where. *)
Definition PersistNode (pathExists : gostring -> bool * option exterr)
    (checkLFS : gostring -> Z -> option exterr) (writeFile : gostring -> bytes -> option exterr)
    (mm : MemberMaker) : option exterr * option (gostring * bytes) :=
  let lfs := xn_Node_GetLFS (cm_Node (mm_ClusterMember mm)) in
  let pathToCfgDir := filepath_Join [lfs; str ".xlattice"] in
  let pathToCfgFile := filepath_Join [pathToCfgDir; str "node.config"] in
  let '(found, err) := pathExists pathToCfgDir in
  let err := match err with
             | None => if found then None else checkLFS pathToCfgDir (7 * 64 + 5 * 8)
             | Some e => Some e
             end in
  match err with
  | Some e => (Some e, None)
  | None =>
    let config := xn_Node_String (cm_Node (mm_ClusterMember mm)) in
    (writeFile pathToCfgFile config, Some (pathToCfgFile, config))
  end.

(** [os.Stat] answers that the directory is there, that it is not ([inl false]),
    or with another error; [memberString] is [ClusterMember.String] of the
    xlCluster package. *)
Definition PersistClusterMember (stat : gostring -> bool + exterr)
    (checkLFS : gostring -> Z -> option exterr) (writeFile : gostring -> bytes -> option exterr)
    (memberString : ClusterMember -> gostring) (mn : MemberMaker) :
    option exterr * option (gostring * bytes) :=
  let lfs := xn_Node_GetLFS (cm_Node (mm_ClusterMember mn)) in
  let pathToCfgDir := filepath_Join [lfs; str ".xlattice"] in
  let pathToCfgFile := filepath_Join [pathToCfgDir; str "cluster.member.config"] in
  let err := match stat pathToCfgDir with
             | inl true => None
             | inl false => checkLFS pathToCfgDir (7 * 64 + 4 * 8)
             | inr e => Some e
             end in
  match err with
  | Some e => (Some e, None)
  | None =>
    let config := memberString (mm_ClusterMember mn) in
    (writeFile pathToCfgFile config, Some (pathToCfgFile, config))
  end.

(** ** Setting up a client *)

(** The loop that adds end points to the node, from [i] on, for [left] turns: each
    turn overwrites the error. *)
Fixpoint add_endPoints (node : Node) (endPoints : list EndPointI) (left : nat) (i : Z)
    (err : option error) : outcome (Node * option error) :=
  match left with
  | O => Done (node, err)
  | S left' =>
    endPoint ← index endPoints i;
    let '(node', e) := xn_Node_AddEndPoint node endPoint in
    add_endPoints node' endPoints left' (i + 1) (ExtErr <$> e)
  end.

(** The part about the cluster, skipped for a solo member: the node, the count of
    end points and the error.  The check of the size, which is inside the branch
    that has just set an error and is made only without one, has no effect. *)
Definition check_cluster (node : Node) (attrs : Z) (clusterName : gostring) (size epCount : Z)
    (endPoints : list EndPointI) : outcome (Node * Z * option error) :=
  let isAdmin := negb (Z.land attrs xcl_ATTR_ADMIN =? 0) in
  let err :=
    if bool_decide (clusterName = []) then
      let err := Some (RegErr MissingClusterNameOrID) in
      if bool_decide (err = None) && (size <? 1) then Some (RegErr ClusterMustHaveMember) else err
    else None in
  match err with
  | Some e => Done (node, epCount, Some e)
  | None =>
    let epCount := if epCount <? 1 then 1 else epCount in
    if isAdmin then Done (node, epCount, None)
    else
      let actualEPCount := u32 (Z.of_nat (length endPoints)) in
      let '(epCount, err) :=
        if actualEPCount =? 0 then (epCount, Some (RegErr MemberMustHaveEndPoint))
        else if actualEPCount <? epCount then (actualEPCount, None)
        else (epCount, None) in
      '(node', err') ← add_endPoints node endPoints (Z.to_nat epCount) 0 err;
      Done (node', epCount, err')
  end.

(** The node is a pointer, and is changed even when an error is returned. *)
Definition NewMemberMaker (node : option Node) (attrs : Z)
    (regName : gostring) (regID : option NodeID) (regEnd : option EndPointI)
    (regCK regSK : option PublicKey)
    (clusterName : gostring) (clusterAttrs : Z) (clusterID : option NodeID)
    (size epCount : Z) (endPoints : list EndPointI) (ds : list draw) :
    outcome (option Node * result MemberMaker) :=
  match node with
  | None => Done (None, Err (RegErr MissingNode))
  | Some node =>
    match bool_decide (regName = []), regID, regEnd, regCK with
    | false, Some _, Some regEnd, Some _ =>
      '(node1, epCount1, err) ←
        (if Z.land attrs xcl_ATTR_SOLO =? 0
         then check_cluster node attrs clusterName size epCount endPoints
         else Done (node, epCount, None));
      match err with
      | Some e => Done (Some node1, Err e)
      | None =>
        match xt_NewTcpConnector regEnd with
        | inr e => Done (Some node1, Err (ExtErr e))
        | inl ctor =>
          match xn_NewPeer regName regID regCK regSK [ctor] with
          | inr e => Done (Some node1, Err (ExtErr e))
          | inl regPeer =>
            let '(node2, aerr) := xn_Node_AddPeer node1 regPeer in
            match aerr with
            | Some e => Done (Some node2, Err (ExtErr e))
            | None =>
              let cm := mkClusterMember 0 clusterName clusterAttrs clusterID size epCount1 0
                          (Some (replicate (Z.to_nat size) None)) node2 in
              Done (Some node2, Ok (mkMemberMaker attrs (mkCnxState None xa_zero) (Some regPeer) cm ds))
            end
          end
        end
      end
    | _, _, _, _ => Done (Some node, Err (RegErr MissingServerInfo))
    end
  end.

(** ** Messages *)

Definition cx_ReadData (ch : CnxState) : outcome (option bytes * option error * CnxState) :=
  c ← deref (cx_Cnx ch);
  '(data, err, c') ← ReadData c;
  Done (data, ExtErr <$> (err : option exterr), mkCnxState (Some c') (cx_AesSession ch)).

Definition cx_WriteData (ch : CnxState) (data : bytes) : outcome (option error * CnxState) :=
  c ← deref (cx_Cnx ch);
  let '(err, c') := WriteData c data in
  Done (ExtErr <$> err, mkCnxState (Some c') (cx_AesSession ch)).

Definition readMsg (ch : CnxState) : outcome (option XLRegMsg * option error * CnxState) :=
  '(inBuf, err, ch') ← cx_ReadData ch;
  match err, inBuf with
  | None, Some _ =>
    let '(m, derr) := DecryptUnpadDecode (cx_AesSession ch) inBuf in
    Done (m, ExtErr <$> derr, ch')
  | _, _ => Done (None, err, ch')
  end.

(** What encryption draws is the connection's. *)
Definition writeMsg (ch : CnxState) (m : XLRegMsg) : outcome (option error * CnxState) :=
  c ← deref (cx_Cnx ch);
  match EncodePadEncrypt (cx_AesSession ch) m (cnx_rand c (length (cnx_sent c))) with
  | inr e => Done (Some (ExtErr e), ch)
  | inl data => cx_WriteData ch data
  end.

(** ** The hello

    [dial] is what connecting to the registry gives.  The result is whether there
    is a connection (it is then the client's own), the version decided on, and the
    error. *)
Definition SessionSetup (dial : ConnectorI -> Cnx + exterr) (proposedVersion : Z) (mm : MemberMaker) :
    outcome (bool * Z * option error * MemberMaker) :=
  regPeer ← deref (mm_RegPeer mm);
  ctor ← deref (xn_Peer_GetConnector regPeer 0);
  match dial ctor with
  | inr e => Done (false, 0, Some (ExtErr e), mm)
  | inl cnx =>
    match NewCnxHandler (Some cnx) with
    | Err e => Done (true, 0, Some e, mm)
    | Ok (c, s) =>
      let mm1 := with_cnx (mkCnxState (Some c) s) mm in
      let ck := xn_GetCommsPublicKey (xn_Peer_Base regPeer) in
      match xa_ClientEncryptHello proposedVersion ck (cnx_rand c (length (cnx_sent c))) with
      | inr e => Done (true, 0, Some (ExtErr e), mm1)
      | inl (cOneShot, ciphertext1) =>
        '(werr, ch2) ← cx_WriteData (mm_CnxHandler mm1) ciphertext1;
        match werr with
        | Some e => Done (true, 0, Some e, with_cnx ch2 mm1)
        | None =>
          '(ciphertext2, rerr, ch3) ← cx_ReadData ch2;
          let rerr := match ciphertext2, rerr with
                      | None, None => Some (ExtErr EOF)
                      | _, _ => rerr
                      end in
          match rerr with
          | Some e => Done (true, 0, Some e, with_cnx ch3 mm1)
          | None =>
            match xa_ClientDecryptHelloReply cOneShot ciphertext2 with
            | inr e => Done (true, 0, Some (ExtErr e), with_cnx ch3 mm1)
            | inl (cSession, decidedVersion) =>
              Done (true, decidedVersion, None, with_cnx (mkCnxState (cx_Cnx ch3) cSession) mm1)
            end
          end
        end
      end
    end
  end.

(** ** Member: say who the client is *)

(** The end points of the node as text, from [i] on, for [left] turns. *)
Fixpoint node_ends (node : Node) (left : nat) (i : Z) : outcome (list gostring) :=
  match left with
  | O => Done []
  | S left' =>
    endPoint ← deref (xn_Node_GetEndPoint node i);
    let myEnd := xt_EndPoint_String endPoint in
    let myEnd := if HasPrefix myEnd (str "TcpEndPoint: ") then drop 13 myEnd else myEnd in
    rest ← node_ends node left' (i + 1);
    Done (myEnd :: rest)
  end.

(** The signed token. *)
Definition member_token (mm : MemberMaker) : outcome (result XLRegMsg_Token) :=
  let node := cm_Node (mm_ClusterMember mm) in
  let id := xi_Value <$> xn_GetNodeID (xn_Node_Base node) in
  let name := xn_GetName (xn_Node_Base node) in
  ckPriv ← deref (xn_Node_GetCommsPrivateKey node);
  match xc_RSAPubKeyToWire (Some (key_pub ckPriv)) with
  | inr e => Done (Err (ExtErr e))
  | inl ckBytes =>
    skPriv ← deref (xn_Node_GetSigPrivateKey node);
    match xc_RSAPubKeyToWire (Some (key_pub skPriv)) with
    | inr e => Done (Err (ExtErr e))
    | inl skBytes =>
      ends ← node_ends node (Z.to_nat (xn_Node_SizeEndPoints node)) 0;
      let hash := sha1_Sum (name ++ PutUint64 (mm_ProposedAttrs mm) ++ ckBytes ++ skBytes ++ concat ends) in
      match SignPKCS1v15 skPriv hash with
      | inr e => Done (Err (ExtErr e))
      | inl digSig =>
        Done (Ok {| tok_Name := Some name;
                    tok_Attrs := Some (mm_ProposedAttrs mm);
                    tok_ID := id;
                    tok_CommsKey := Some ckBytes;
                    tok_SigKey := Some skBytes;
                    tok_MyEnds := match ends with [] => None | _ => Some ends end;
                    tok_DigSig := Some digSig |})
      end
    end
  end.

Definition member_request (token : XLRegMsg_Token) : XLRegMsg :=
  with_MemberSpecs (Some token) (msg_of_op XLRegMsg_Member).

(** The result of reading the reply overwrites any error met before: a client that
    could not sign or send its token waits for the reply all the same. *)
Definition MemberAndOK (mm : MemberMaker) : outcome (option error * MemberMaker) :=
  tok ← member_token mm;
  ch1 ← match tok with
        | Err _ => Done (mm_CnxHandler mm)
        | Ok token =>
          '(_, ch1) ← writeMsg (mm_CnxHandler mm) (member_request token);
          Done ch1
        end;
  '(response, err, ch2) ← readMsg ch1;
  let mm2 := with_cnx ch2 mm in
  match err with
  | Some e => Done (Some e, mm2)
  | None => Done (None, with_member (set_Attrs (GetMemberAttrs response)) mm2)
  end.

(** ** Create *)

Definition create_request (mm : MemberMaker) : XLRegMsg :=
  let cm := mm_ClusterMember mm in
  with_EndPointCount (Some (cm_EPCount cm))
    (with_ClusterMaxSize (Some (cm_ClusterMaxSize cm))
    (with_ClusterAttrs (Some (cm_ClusterAttrs cm))
    (with_ClusterName (Some (cm_ClusterName cm)) (msg_of_op XLRegMsg_Create)))).

(** The end of the connection is not an error, and the kind of reply is not looked
    at; a reply without an identifier makes [xi.New] draw one. *)
Definition CreateAndReply (mm : MemberMaker) : outcome (option error * MemberMaker) :=
  '(werr, ch1) ← writeMsg (mm_CnxHandler mm) (create_request mm);
  match werr with
  | Some e => Done (Some e, with_cnx ch1 mm)
  | None =>
    '(response, rerr, ch2) ← readMsg ch1;
    let mm2 := with_cnx ch2 mm in
    match (if bool_decide (rerr = Some (ExtErr EOF)) then None else rerr) with
    | Some e => Done (Some e, mm2)
    | None =>
      '((id, err), ds') ← xi_New_opt (GetClusterID response) (mm_draws mm2);
      let mm3 := with_draws ds' (with_member (set_ClusterID id) mm2) in
      match err with
      | Some e => Done (Some (ExtErr e), mm3)
      | None => Done (None, with_member (set_ClusterAttrs_Size (GetClusterAttrs response)
                                           (GetClusterMaxSize response)) mm3)
      end
    end
  end.

(** ** Join *)

Definition join_request (id : NodeID) : XLRegMsg :=
  with_ClusterID (Some (xi_Value id)) (msg_of_op XLRegMsg_Join).

(** What a reply to Join, of whatever kind, sets. *)
Definition join_replied (response : option XLRegMsg) (cm : ClusterMember) : ClusterMember :=
  let clusterMaxSizeNow := GetClusterMaxSize response in
  let cm1 :=
    if cm_ClusterMaxSize cm =? clusterMaxSizeNow then cm
    else set_Size_Members clusterMaxSizeNow (replicate (Z.to_nat clusterMaxSizeNow) None) cm in
  set_EPCount (GetEndPointCount response) cm1.

Definition JoinAndReply (mm : MemberMaker) : outcome (option error * MemberMaker) :=
  id ← deref (cm_ClusterID (mm_ClusterMember mm));
  '(werr, ch1) ← writeMsg (mm_CnxHandler mm) (join_request id);
  match werr with
  | Some e => Done (Some e, with_cnx ch1 mm)
  | None =>
    '(response, rerr, ch2) ← readMsg ch1;
    let mm2 := with_cnx ch2 mm in
    match rerr with
    | Some e => Done (Some e, mm2)
    | None => Done (None, with_member (join_replied response) mm2)
    end
  end.

(** ** GetCluster: learn the members *)

Definition MAX_GET : nat := 32.

Definition get_request (id : NodeID) (which : Z) : XLRegMsg :=
  with_Which (Some which)
    (with_ClusterID (Some (xi_Value id)) (msg_of_op XLRegMsg_GetCluster)).

(** The members already known are not asked for. *)
Fixpoint clear_known (members : list (option MemberInfo)) (left : nat) (i : Z) (stillToGet : BitMap64) :
    outcome BitMap64 :=
  match left with
  | O => Done stillToGet
  | S left' =>
    m ← index members i;
    clear_known members left' (i + 1) (match m with Some _ => xu_Clear stillToGet i | None => stillToGet end)
  end.

(** The loop over the bits of a reply: each bit takes the next token.  A token that
    cannot be read leaves no member and an error, which the next token overwrites. *)
Fixpoint store_tokens (which : BitMap64) (tokens : list (option XLRegMsg_Token)) (left : nat)
    (i offset : Z) (members : list (option MemberInfo)) (stillToGet : BitMap64) (err : option error)
    (ds : list draw) : outcome (list (option MemberInfo) * BitMap64 * option error * list draw) :=
  match left with
  | O => Done (members, stillToGet, err, ds)
  | S left' =>
    if xu_Test which i then
      token ← index tokens offset;
      '(r, ds') ← NewMemberInfoFromToken token ds;
      _ ← index members i;
      match r with
      | Ok m => store_tokens which tokens left' (i + 1) (offset + 1) (<[Z.to_nat i := Some m]> members)
                  (xu_Clear stillToGet i) None ds'
      | Err e => store_tokens which tokens left' (i + 1) (offset + 1) (<[Z.to_nat i := None]> members)
                   stillToGet (Some e) ds'
      end
    else store_tokens which tokens left' (i + 1) offset members stillToGet err ds
  end.

(** At most [count] more rounds. *)
Fixpoint get_rounds (count : nat) (stillToGet : BitMap64) (err : option error) (mm : MemberMaker) :
    outcome (option error * MemberMaker) :=
  match count with
  | O => Done (err, mm)
  | S count' =>
    if negb (xu_Any stillToGet) then Done (err, mm)
    else
      let cm := mm_ClusterMember mm in
      let members := default [] (cm_Members cm) in
      let size := Z.to_nat (cm_ClusterMaxSize cm) in
      todo ← clear_known members size 0 stillToGet;
      id ← deref (cm_ClusterID cm);
      '(werr, ch1) ← writeMsg (mm_CnxHandler mm) (get_request id (xu_Bits todo));
      match werr with
      | Some e => Done (Some e, with_cnx ch1 mm)
      | None =>
        '(response, rerr, ch2) ← readMsg ch1;
        let mm2 := with_cnx ch2 mm in
        match rerr with
        | Some e => Done (Some e, mm2)
        | None =>
          let which := xu_NewBitMap64 (GetWhich response) in
          let tokens := default [] (GetTokens response) in
          '(members', todo', err', ds') ←
            (if xu_Any which then store_tokens which tokens size 0 0 members todo None (mm_draws mm2)
             else Done (members, todo, None, mm_draws mm2));
          let mm3 := with_draws ds' (with_member (set_Members members') mm2) in
          if xu_None todo' then Done (err', mm3) else get_rounds count' todo' err' mm3
        end
      end
  end.

(** The index of the client itself: the first member with its identifier. *)
Fixpoint find_self (selfID : bytes) (members : list (option MemberInfo)) (left : nat) (i : Z) :
    outcome (option Z) :=
  match left with
  | O => Done None
  | S left' =>
    mi ← index members i;
    match mi with
    | None => find_self selfID members left' (i + 1)
    | Some mi =>
      id ← deref (xn_GetNodeID (xn_Peer_Base (mi_Peer mi)));
      if bool_decide (selfID = xi_Value id) then Done (Some i)
      else find_self selfID members left' (i + 1)
    end
  end.

Definition GetAndMembers (mm : MemberMaker) : outcome (option error * MemberMaker) :=
  let cm := mm_ClusterMember mm in
  let mm0 := match cm_Members cm with
             | Some _ => mm
             | None => with_member (set_Members (replicate (Z.to_nat (cm_ClusterMaxSize cm)) None)) mm
             end in
  '(err, mm1) ← get_rounds MAX_GET (xu_LowNMap (cm_ClusterMaxSize cm)) None mm0;
  match err with
  | Some e => Done (Some e, mm1)
  | None =>
    let cm1 := mm_ClusterMember mm1 in
    self ← deref (xn_GetNodeID (xn_Node_Base (cm_Node cm1)));
    found ← find_self (xi_Value self) (default [] (cm_Members cm1))
              (Z.to_nat (cm_ClusterMaxSize cm1)) 0;
    Done (None, match found with Some i => with_member (set_SelfIndex i) mm1 | None => mm1 end)
  end.

(** ** Bye *)

Definition ByeAndAck (mm : MemberMaker) : outcome (option error * MemberMaker) :=
  '(werr, ch1) ← writeMsg (mm_CnxHandler mm) (msg_of_op XLRegMsg_Bye);
  match werr with
  | Some e => Done (Some e, with_cnx ch1 mm)
  | None =>
    '(response, rerr, ch2) ← readMsg ch1;
    Done (rerr, with_cnx ch2 mm)
  end.

End MemberMaker.
Arguments MemberMaker {_}.

(** ** Exchanges *)

(** The request is written without error and the reply is what is read next. *)
Definition exchange `{Ext} (ch : CnxState) (req reply : XLRegMsg) (ch' : CnxState) : Prop :=
  exists ch1, writeMsg ch req = Done (None, ch1) /\ readMsg ch1 = Done (Some reply, None, ch').

(** A reply describes the members [ms] asked for by [bits]. *)
Record answers_get `{Ext} (tok : ClientInfo -> XLRegMsg_Token) (bits : Z) (ms : list ClientInfo)
    (reply : XLRegMsg) : Prop := {
  ag_u64 : is_u64 (GetWhich (Some reply));
  ag_Which i : 0 <= i -> Z.testbit (GetWhich (Some reply)) i =
    Z.testbit bits i && (i <? Z.of_nat (length (take 64 ms)));
  ag_Tokens : default [] (GetTokens (Some reply)) = Some ∘ tok <$> select bits 0 (take 64 ms)
}.

(** The bits from [a] to below [n]. *)
Definition wanted (a n : nat) : Z := Z.shiftl (Z.ones (Z.of_nat n - Z.of_nat a)) (Z.of_nat a).

Lemma wanted_bits a n i : (a <= n)%nat -> 0 <= i ->
  Z.testbit (wanted a n) i = (Z.of_nat a <=? i) && (i <? Z.of_nat n).
Proof.
  intros Ha Hi. unfold wanted. rewrite Z.shiftl_spec by done.
  destruct (Z.leb_spec (Z.of_nat a) i); simpl.
  - rewrite Z.testbit_ones_nonneg by lia. destruct (Z.ltb_spec i (Z.of_nat n)); lia.
  - by rewrite Z.testbit_neg_r by lia.
Qed.

(** The list of members a client has when it knows the first ones, [ms], of [n]. *)
Definition known_members `{Ext} (info : ClientInfo -> MemberInfo) (n : nat) (ms : list ClientInfo) :
    list (option MemberInfo) :=
  (Some ∘ info <$> ms) ++ replicate (n - length ms) None.

(** The tokens of these members can be read. *)
Definition readable `{Ext} (tok : ClientInfo -> XLRegMsg_Token) (info : ClientInfo -> MemberInfo)
    (m : ClientInfo) : Prop :=
  (forall ds, NewMemberInfoFromToken (Some (tok m)) ds = Done (Ok (info m), ds)) /\
  is_Some (xn_GetNodeID (xn_Peer_Base (mi_Peer (info m)))).

(** The registry answers the requests of a client that knows [ms0] of [n] members
    with successive states [snaps] of a growing cluster, only the last of which can
    be complete. *)
Inductive served `{Ext} (tok : ClientInfo -> XLRegMsg_Token) (info : ClientInfo -> MemberInfo)
    (id : NodeID) (n : nat) :
    CnxState -> list ClientInfo -> list (list ClientInfo) -> CnxState -> Prop :=
  | served_nil ch ms0 : served tok info id n ch ms0 [] ch
  | served_cons ch ch1 ch' ms0 ms rest reply :
      exchange ch (get_request id (wanted (length ms0) n)) reply ch1 ->
      answers_get tok (wanted (length ms0) n) ms reply ->
      Forall (readable tok info) ms -> ms0 `prefix_of` ms -> (length ms <= n)%nat ->
      (length ms < n)%nat \/ rest = [] ->
      served tok info id n ch1 ms rest ch' ->
      served tok info id n ch ms0 (ms :: rest) ch'.

Section Gets.
Context `{Ext} `{!BitMapLaws}.
Context (tok : ClientInfo -> XLRegMsg_Token) (info : ClientInfo -> MemberInfo).

Lemma clear_known_bits pre members todo :
  Z.of_nat (length (pre ++ members)) <= 64 ->
  exists todo', clear_known (pre ++ members) (length members) (Z.of_nat (length pre)) todo = Done todo' /\
    forall j, 0 <= j -> Z.testbit (xu_Bits todo') j =
      Z.testbit (xu_Bits todo) j &&
      negb ((Z.of_nat (length pre) <=? j) && bool_decide (is_Some (mjoin ((pre ++ members) !! Z.to_nat j)))).
Proof.
  revert pre todo. induction members as [|m ms IH]; intros pre todo Hl.
  - exists todo. split; [done|]. intros j Hj. rewrite app_nil_r.
    destruct (Z.leb_spec (Z.of_nat (length pre)) j); simpl; [|by rewrite andb_true_r].
    rewrite lookup_ge_None_2 by lia. simpl. by rewrite andb_true_r.
  - cbn [length clear_known]. rewrite length_app in Hl. cbn [length] in Hl.
    assert (index (pre ++ m :: ms) (Z.of_nat (length pre)) = Done m) as ->.
    { apply index_Done_inv. rewrite Nat2Z.id. split; [lia|]. by apply list_lookup_middle. }
    rewrite bind_Done.
    destruct (IH (pre ++ [m]) (match m with Some _ => xu_Clear todo (Z.of_nat (length pre)) | None => todo end))
      as (todo' & Hc & Hb); [rewrite !length_app; cbn [length]; lia|].
    rewrite <-app_assoc in Hc, Hb. rewrite length_app in Hc, Hb. cbn [app length] in Hc, Hb.
    replace (Z.of_nat (length pre + 1)) with (Z.of_nat (length pre) + 1) in Hc by lia.
    exists todo'. split; [done|]. intros j Hj. rewrite Hb by done.
    destruct (Z.eqb_spec (Z.of_nat (length pre)) j) as [<-|Hne].
    + rewrite Nat2Z.id, list_lookup_middle by done. rewrite (proj2 (Z.leb_gt _ _)), Z.leb_refl by lia.
      cbn [mjoin option_join andb negb]. rewrite andb_true_r. destruct m as [m|].
      * rewrite xu_Clear_bits, Z.clearbit_eqb, Z.eqb_refl by lia. by rewrite !andb_false_r.
      * by rewrite andb_true_r.
    + assert (Z.testbit (xu_Bits (match m with Some _ => xu_Clear todo (Z.of_nat (length pre))
        | None => todo end)) j = Z.testbit (xu_Bits todo) j) as ->.
      { destruct m; [|done]. rewrite xu_Clear_bits, Z.clearbit_neq by lia. done. }
      destruct (Z.leb_spec (Z.of_nat (length pre + 1)) j), (Z.leb_spec (Z.of_nat (length pre)) j); done || lia.
Qed.

(** What the loop over a reply makes of the members it knew. *)
Fixpoint fill (bits i : Z) (ms : list ClientInfo) (old : list (option MemberInfo)) :
    list (option MemberInfo) :=
  match ms, old with
  | m :: ms', x :: old' =>
    (if Z.testbit bits i then Some (info m) else x) :: fill bits (i + 1) ms' old'
  | _, _ => old
  end.

Lemma store_tokens_past which tokens left i offset members todo err ds :
  0 <= i -> i + Z.of_nat left <= 64 ->
  (forall j, i <= j -> Z.testbit (xu_Bits which) j = false) ->
  store_tokens which tokens left i offset members todo err ds = Done (members, todo, err, ds).
Proof.
  revert i. induction left as [|left IH]; intros i Hi Hl Hw; [done|]. cbn [store_tokens].
  rewrite xu_Test_bits, Hw by lia. apply IH; [lia|lia|]. intros j Hj. apply Hw. lia.
Qed.

Lemma store_tokens_fill which tokens bits pre old ms offset todo ds :
  Forall (readable tok info) ms -> (length ms <= length old)%nat ->
  Z.of_nat (length pre + length old) <= 64 -> 0 <= offset ->
  (forall j, Z.of_nat (length pre) <= j -> Z.testbit (xu_Bits which) j =
     Z.testbit bits j && (j <? Z.of_nat (length pre + length ms))) ->
  drop (Z.to_nat offset) tokens = Some ∘ tok <$> select bits (Z.of_nat (length pre)) ms ->
  exists todo', store_tokens which tokens (length old) (Z.of_nat (length pre)) offset (pre ++ old) todo None ds =
    Done (pre ++ fill bits (Z.of_nat (length pre)) ms old, todo', None, ds) /\
  forall j, 0 <= j -> Z.testbit (xu_Bits todo') j =
    Z.testbit (xu_Bits todo) j && negb ((Z.of_nat (length pre) <=? j) && Z.testbit (xu_Bits which) j).
Proof.
  intros Hr. revert pre old offset todo. induction Hr as [|m ms [Hm _] Hr IH]; intros pre old offset todo
    Hl H64 Ho Hw Ht.
  - assert (forall j, Z.of_nat (length pre) <= j -> Z.testbit (xu_Bits which) j = false) as Hz.
    { intros j Hj. rewrite Hw by done. cbn [length]. rewrite (proj2 (Z.ltb_ge j _)) by lia. apply andb_false_r. }
    exists todo. rewrite store_tokens_past by (done || lia). split; [done|]. intros j Hj.
    destruct (Z.leb_spec (Z.of_nat (length pre)) j); [rewrite Hz by done|]; by rewrite andb_true_r.
  - destruct old as [|x old]; [simpl in Hl; lia|]. cbn [length] in *. cbn [store_tokens fill select] in *.
    rewrite xu_Test_bits, Hw, (proj2 (Z.ltb_lt _ _)), andb_true_r by lia.
    specialize (IH (pre ++ [if Z.testbit bits (Z.of_nat (length pre)) then Some (info m) else x]) old).
    rewrite length_app in IH. cbn [length] in IH.
    replace (Z.of_nat (length pre + 1)) with (Z.of_nat (length pre) + 1) in IH by lia.
    assert (Hw' : forall j, Z.of_nat (length pre) + 1 <= j -> Z.testbit (xu_Bits which) j =
      Z.testbit bits j && (j <? Z.of_nat (length pre + 1 + length ms))).
    { intros j Hj. rewrite Hw by lia. do 2 f_equal. lia. }
    destruct (Z.testbit bits (Z.of_nat (length pre))) eqn:Eb.
    + assert (tokens !! Z.to_nat offset = Some (Some (tok m)) /\
        drop (Z.to_nat (offset + 1)) tokens = Some ∘ tok <$> select bits (Z.of_nat (length pre) + 1) ms)
        as [Ht1 Ht2].
      { rewrite <-(Nat.add_0_r (Z.to_nat offset)), <-lookup_drop, Ht. split; [done|].
        replace (Z.to_nat (offset + 1)) with (Z.to_nat offset + 1)%nat by lia.
        by rewrite <-drop_drop, Ht. }
      assert (index tokens offset = Done (Some (tok m))) as -> by (by apply index_Done_inv).
      rewrite bind_Done, Hm, bind_Done.
      assert (index (pre ++ x :: old) (Z.of_nat (length pre)) = Done x) as ->.
      { apply index_Done_inv. rewrite Nat2Z.id. split; [lia|]. by apply list_lookup_middle. }
      rewrite bind_Done, Nat2Z.id, insert_app_r_alt, Nat.sub_diag by lia. cbn [insert list_insert].
      destruct (IH (offset + 1) (xu_Clear todo (Z.of_nat (length pre)))) as (todo' & Hs & Hb);
        [lia|lia|lia|done|done|].
      rewrite <-!app_assoc in Hs. cbn [app] in Hs. exists todo'. split; [exact Hs|]. intros j Hj.
      rewrite Hb, xu_Clear_bits, Z.clearbit_eqb by lia.
      destruct (Z.eqb_spec (Z.of_nat (length pre)) j) as [<-|Hne].
      * rewrite Hw, Eb, Z.leb_refl, (proj2 (Z.ltb_lt _ _)) by lia. simpl. by rewrite !andb_false_r.
      * rewrite andb_true_r. do 3 f_equal. apply eq_bool_prop_intro. rewrite !Is_true_true. lia.
    + destruct (IH offset todo) as (todo' & Hs & Hb); [lia|lia|lia|done|done|].
      rewrite <-!app_assoc in Hs. cbn [app] in Hs. exists todo'. split; [exact Hs|]. intros j Hj.
      rewrite Hb by done. destruct (Z.eqb_spec (Z.of_nat (length pre)) j) as [<-|Hne].
      * rewrite Hw, Eb by lia. by rewrite !andb_false_r.
      * do 3 f_equal. apply eq_bool_prop_intro. rewrite !Is_true_true. lia.
Qed.

Lemma fill_skip bits i ms0 ms o0 old : length o0 = length ms0 ->
  (forall j, i <= j < i + Z.of_nat (length ms0) -> Z.testbit bits j = false) ->
  fill bits i (ms0 ++ ms) (o0 ++ old) = o0 ++ fill bits (i + Z.of_nat (length ms0)) ms old.
Proof.
  revert i o0. induction ms0 as [|m ms0 IH]; intros i [|x o0] Hl Hb; try done.
  - simpl. by rewrite Z.add_0_r.
  - cbn [length] in *. cbn [app fill]. rewrite Hb, IH by (try intros; try apply Hb; lia).
    do 3 f_equal. lia.
Qed.

Lemma fill_all bits i ms old : (length ms <= length old)%nat ->
  (forall j, i <= j < i + Z.of_nat (length ms) -> Z.testbit bits j = true) ->
  fill bits i ms old = (Some ∘ info <$> ms) ++ drop (length ms) old.
Proof.
  revert i old. induction ms as [|m ms IH]; intros i [|x old] Hl Hb; try done; [simpl in Hl; lia|].
  cbn [length] in *. cbn [fill]. rewrite Hb, IH by (try intros; try apply Hb; lia). done.
Qed.

Lemma fill_known n ms0 ms : ms0 `prefix_of` ms -> (length ms <= n)%nat ->
  fill (wanted (length ms0) n) 0 ms (known_members info n ms0) = known_members info n ms.
Proof.
  intros [l ->]. unfold known_members. rewrite length_app. intros Hn.
  rewrite fill_skip.
  - rewrite fill_all.
    + rewrite fmap_app, <-app_assoc, drop_replicate. do 3 f_equal. lia.
    + rewrite length_replicate. lia.
    + intros j Hj. rewrite wanted_bits by lia. lia.
  - by rewrite length_fmap.
  - intros j Hj. rewrite wanted_bits by lia. lia.
Qed.

Lemma known_members_length n ms : (length ms <= n)%nat -> length (known_members info n ms) = n.
Proof. intros Hl. unfold known_members. rewrite length_app, length_fmap, length_replicate. lia. Qed.

Lemma known_members_lookup n ms j : mjoin (known_members info n ms !! j) = info <$> ms !! j.
Proof.
  unfold known_members. destruct (decide (j < length ms)%nat) as [Hj|Hj].
  - rewrite lookup_app_l by (by rewrite length_fmap). rewrite list_lookup_fmap. by destruct (ms !! j).
  - rewrite lookup_app_r by (rewrite length_fmap; lia). rewrite (lookup_ge_None_2 ms) by lia.
    destruct (_ !! _) as [x|] eqn:E; [|done]. by apply lookup_replicate in E as [-> _].
Qed.

(** The same map, bit by bit. *)
Lemma bits_wanted todo a n : (a <= n)%nat ->
  (forall j, 0 <= j -> Z.testbit (xu_Bits todo) j = (Z.of_nat a <=? j) && (j <? Z.of_nat n)) ->
  xu_Bits todo = wanted a n.
Proof. intros Ha Hb. apply Z.bits_inj'. intros j Hj. by rewrite Hb, wanted_bits. Qed.

Lemma wanted_zero a n : (a <= n)%nat -> (wanted a n =? 0) = (a =? n)%nat.
Proof.
  intros Ha. apply eq_bool_prop_intro. rewrite !Is_true_true, Z.eqb_eq, Nat.eqb_eq. split.
  - intros Hz. destruct (decide (a = n)) as [|Hne]; [done|].
    pose proof (wanted_bits a n (Z.of_nat a) Ha ltac:(lia)) as Hb. rewrite Hz, Z.bits_0 in Hb. lia.
  - intros ->. unfold wanted. by rewrite Z.sub_diag, Z.shiftl_0_l.
Qed.

(** A client that has learned the members [ms] of [n]. *)
Definition learned (n : nat) (ms : list ClientInfo) (ch : CnxState) (mm : MemberMaker) : MemberMaker :=
  with_member (set_Members (known_members info n ms)) (with_cnx ch mm).

(** What a reply adds to what a client that knows [ms0] knows. *)
Lemma store_reply n ms0 ms reply todo ds : (n <= 64)%nat -> xu_Bits todo = wanted (length ms0) n ->
  answers_get tok (wanted (length ms0) n) ms reply ->
  Forall (readable tok info) ms -> ms0 `prefix_of` ms -> (length ms <= n)%nat ->
  let which := xu_NewBitMap64 (GetWhich (Some reply)) in
  exists todo', xu_Bits todo' = wanted (length ms) n /\
    (if xu_Any which
     then store_tokens which (default [] (GetTokens (Some reply))) n 0 0 (known_members info n ms0) todo None ds
     else Done (known_members info n ms0, todo, None, ds)) =
    Done (known_members info n ms, todo', None, ds).
Proof.
  intros H64 Htodo [Hu Hwh Htk] Hr Hp Hn which. pose proof (prefix_length _ _ Hp) as Hpl.
  rewrite (take_ge ms) in Hwh, Htk by lia.
  assert (xu_Bits which = GetWhich (Some reply)) as Hwb by (by apply xu_NewBitMap64_bits).
  rewrite xu_Any_bits, Hwb. destruct (Z.eqb_spec (GetWhich (Some reply)) 0) as [Hz|Hz]; cbn [negb].
  - assert (ms0 = ms) as ->; [|by exists todo].
    apply prefix_length_eq; [done|]. destruct (decide (length ms <= length ms0)%nat) as [|Hlt]; [done|].
    specialize (Hwh (Z.of_nat (length ms0)) ltac:(lia)). rewrite Hz, Z.bits_0, wanted_bits in Hwh by lia. lia.
  - destruct (store_tokens_fill which (default [] (GetTokens (Some reply))) (wanted (length ms0) n) []
      (known_members info n ms0) ms 0 todo ds) as (todo' & Hs & Hb).
    + done.
    + rewrite known_members_length; lia.
    + cbn [length]. rewrite known_members_length; lia.
    + lia.
    + intros j Hj. cbn [length] in *. rewrite Hwb, Hwh by lia. done.
    + exact Htk.
    + rewrite known_members_length in Hs by lia. cbn [app length] in Hs, Hb. change (Z.of_nat 0) with 0 in *.
      rewrite fill_known in Hs by done. exists todo'. split; [|exact Hs].
      apply bits_wanted; [done|]. intros j Hj. rewrite Hb, Hwb, Hwh, Htodo, !wanted_bits by lia.
      apply eq_bool_prop_intro. rewrite !Is_true_true. lia.
Qed.

(** One round, between a client that knows [ms0] and a registry that has [ms]. *)
Lemma get_round count mm cid n ms0 ms todo reply ch1 err :
  let cm := mm_ClusterMember mm in
  cm_ClusterID cm = Some cid -> cm_ClusterMaxSize cm = Z.of_nat n -> (n <= 64)%nat ->
  cm_Members cm = Some (known_members info n ms0) -> (length ms0 < n)%nat ->
  xu_Bits todo = wanted (length ms0) n ->
  exchange (mm_CnxHandler mm) (get_request cid (wanted (length ms0) n)) reply ch1 ->
  answers_get tok (wanted (length ms0) n) ms reply ->
  Forall (readable tok info) ms -> ms0 `prefix_of` ms -> (length ms <= n)%nat ->
  exists todo', xu_Bits todo' = wanted (length ms) n /\
    get_rounds (S count) todo err mm =
      if (length ms =? n)%nat then Done (None, learned n ms ch1 mm)
      else get_rounds count todo' None (learned n ms ch1 mm).
Proof.
  intros cm Hid Hsz H64 Hms Hlt Htodo (ch0 & Hwr & Hrd) Ha Hr Hp Hn.
  pose proof (prefix_length _ _ Hp) as Hpl. cbn [get_rounds].
  rewrite xu_Any_bits, Htodo, wanted_zero by lia.
  rewrite (proj2 (Nat.eqb_neq (length ms0) n)) by lia. cbn [negb].
  fold cm. rewrite Hms, Hsz, Nat2Z.id, Hid. cbn [default from_option id].
  destruct (clear_known_bits [] (known_members info n ms0) todo) as (todo1 & Hc & Hb1).
  { rewrite app_nil_l, known_members_length; lia. }
  rewrite known_members_length in Hc by lia. cbn [app length] in Hc, Hb1. change (Z.of_nat 0) with 0 in *.
  rewrite Hc, bind_Done.
  assert (xu_Bits todo1 = wanted (length ms0) n) as Ht1.
  { apply bits_wanted; [lia|]. intros j Hj. rewrite Hb1, Htodo, wanted_bits, known_members_lookup by lia.
    destruct (Z.leb_spec (Z.of_nat (length ms0)) j); [|done].
    rewrite lookup_ge_None_2 by lia. rewrite (bool_decide_eq_false_2 (is_Some _)) by (intros [? [=]]).
    by rewrite andb_false_r, andb_true_r. }
  cbn [deref]. rewrite bind_Done, Ht1, Hwr, bind_Done, Hrd, bind_Done.
  destruct (store_reply n ms0 ms reply todo1 (mm_draws mm) H64 Ht1 Ha Hr Hp Hn) as (todo' & Hb & Hs).
  exists todo'. split; [done|]. change (mm_draws (with_cnx ch1 mm)) with (mm_draws mm).
  rewrite Hs, bind_Done, xu_None_bits, Hb, wanted_zero by done. reflexivity.
Qed.

(** All rounds. *)
Lemma get_rounds_served count cid n ch ms0 snaps ch' mm todo err :
  served tok info cid n ch ms0 snaps ch' ->
  let cm := mm_ClusterMember mm in
  mm_CnxHandler mm = ch -> cm_ClusterID cm = Some cid -> cm_ClusterMaxSize cm = Z.of_nat n ->
  (n <= 64)%nat -> cm_Members cm = Some (known_members info n ms0) -> (length ms0 < n)%nat ->
  xu_Bits todo = wanted (length ms0) n -> snaps <> [] ->
  (length snaps <= count)%nat ->
  length snaps = count \/ length (List.last snaps []) = n ->
  get_rounds count todo err mm = Done (None, learned n (List.last snaps []) ch' mm).
Proof.
  intros Hs. revert count mm todo err. induction Hs as [ch ms0|ch ch1 ch' ms0 ms rest reply Hx Ha Hr Hp Hn Hl Hs IH];
    intros count mm todo err cm Hch Hid Hsz H64 Hms Hlt Htodo Hne Hc Hend; [done|].
  destruct count as [|count]; [simpl in Hc; lia|]. subst ch.
  destruct (get_round count mm cid n ms0 ms todo reply ch1 err) as (todo' & Hb & ->); try done.
  destruct rest as [|ms' rest].
  - inversion Hs; subst. cbn [List.last] in *. destruct (Nat.eqb_spec (length ms) n) as [|Hne']; [done|].
    destruct Hend as [Hend|]; [|done]. injection Hend as <-. done.
  - destruct Hl as [Hl|]; [|done]. rewrite (proj2 (Nat.eqb_neq (length ms) n)) by lia.
    rewrite IH; try done; [simpl in *; lia|]. destruct Hend as [Hend|Hend]; [left|right; done].
    simpl in *. lia.
Qed.

(** The first known member with an identifier. *)
Lemma find_self_known self pre ms n : Forall (readable tok info) ms -> (length ms <= n)%nat ->
  let has m := xi_Value <$> xn_GetNodeID (xn_Peer_Base (mi_Peer (info m))) = Some self in
  exists r, find_self self (pre ++ known_members info n ms) n (Z.of_nat (length pre)) = Done r /\
    match r with
    | None => Forall (fun m => ~ has m) ms
    | Some k => exists j m, k = Z.of_nat (length pre + j) /\ ms !! j = Some m /\ has m /\
        Forall (fun m => ~ has m) (take j ms)
    end.
Proof.
  intros Hr. revert pre n. induction Hr as [|m ms [_ [nid Hid]] Hr IH]; intros pre n Hn has.
  - exists None. split; [|done]. unfold known_members. cbn [length fmap list_fmap app].
    rewrite Nat.sub_0_r. clear Hn. revert pre. induction n as [|n IHn]; intros pre; [done|].
    cbn [find_self replicate]. assert (index (pre ++ None :: replicate n (@None MemberInfo)) (Z.of_nat (length pre)) = Done None) as ->.
    { apply index_Done_inv. rewrite Nat2Z.id. split; [lia|]. by apply list_lookup_middle. }
    rewrite bind_Done. specialize (IHn (pre ++ [None])). rewrite length_app, <-app_assoc in IHn.
    cbn [length app] in IHn. by replace (Z.of_nat (length pre + 1)) with (Z.of_nat (length pre) + 1) in IHn by lia.
  - destruct n as [|n]; [simpl in Hn; lia|]. cbn [find_self length] in *.
    assert (known_members info (S n) (m :: ms) = Some (info m) :: known_members info n ms) as -> by done.
    assert (index (pre ++ Some (info m) :: known_members info n ms) (Z.of_nat (length pre)) = Done (Some (info m))) as ->.
    { apply index_Done_inv. rewrite Nat2Z.id. split; [lia|]. by apply list_lookup_middle. }
    rewrite bind_Done, Hid. cbn [deref]. rewrite bind_Done. case_bool_decide as He.
    + eexists. split; [done|]. exists 0%nat, m. split_and!; [f_equal; lia|done| |done].
      unfold has. rewrite Hid. cbn. by rewrite He.
    + destruct (IH (pre ++ [Some (info m)]) n) as (r & Hf & Hm); [lia|].
      rewrite length_app, <-app_assoc in Hf. rewrite length_app in Hm. cbn [length app] in Hf, Hm.
      replace (Z.of_nat (length pre + 1)) with (Z.of_nat (length pre) + 1) in Hf by lia.
      assert (~ has m) as Hnm. { unfold has. rewrite Hid. cbn. congruence. }
      exists r. split; [exact Hf|]. destruct r as [k|]; [|by constructor].
      destruct Hm as (j & m' & -> & Hj & Hh & Hfa). exists (S j), m'. split_and!; [f_equal; lia|done|done|].
      by constructor.
Qed.
End Gets.

(** ** Clients at work *)

(** The list of members has room for all. *)
Definition members_sized `{Ext} (mm : MemberMaker) : Prop :=
  exists l, cm_Members (mm_ClusterMember mm) = Some l /\
    length l = Z.to_nat (cm_ClusterMaxSize (mm_ClusterMember mm)).

(** The exchanges of a client that joins a cluster, in any order. *)
Inductive client_step `{Ext} : MemberMaker -> MemberMaker -> Prop :=
  | step_setup dial v mm b v' err mm' : SessionSetup dial v mm = Done (b, v', err, mm') -> client_step mm mm'
  | step_member mm err mm' : MemberAndOK mm = Done (err, mm') -> client_step mm mm'
  | step_join mm err mm' : JoinAndReply mm = Done (err, mm') -> client_step mm mm'
  | step_get mm err mm' : GetAndMembers mm = Done (err, mm') -> client_step mm mm'
  | step_bye mm err mm' : ByeAndAck mm = Done (err, mm') -> client_step mm mm'.

Section Facts.
Context `{Ext}.

(** What one side has encrypted in a session, the other decodes. *)
Lemma Decode_Encode `{!CodecLaws} s s' msg r ct : decrypts s s' -> msg_ok msg ->
  EncodePadEncrypt s' msg r = inl ct -> DecryptUnpadDecode s (Some ct) = (Some msg, None).
Proof.
  intros Hd Hok. unfold EncodePadEncrypt, EncodePacket, DecryptUnpadDecode, DecodePacket.
  destruct (proto_Marshal msg) as [b|] eqn:Em; [|done]. intros He.
  by rewrite (Hd _ _ _ He), (proto_Unmarshal_Marshal _ _ Hok Em).
Qed.

Lemma readMsg_chunk `{!CodecLaws} c s s' reply r ct rest : decrypts s s' ->
  EncodePadEncrypt s' reply r = inl ct ->
  msg_ok reply -> 0 < Z.of_nat (length ct) <= MSG_BUF_LEN -> cnx_reads c = (ct, None) :: rest ->
  readMsg (mkCnxState (Some c) s) = Done (Some reply, None,
    mkCnxState (Some (mkCnx rest (cnx_sent c) (cnx_closed c) (cnx_writeErr c) (cnx_rand c))) s).
Proof.
  intros Hd He Hok Hl Hr. unfold readMsg, cx_ReadData, ReadData, Read. cbn [deref cx_Cnx cx_AesSession].
  rewrite bind_Done, Hr, (proj2 (Nat.ltb_ge _ _)) by lia. rewrite !bind_Done.
  rewrite bool_decide_eq_true_2, (proj2 (Z.ltb_lt 0 _)) by (done || lia). cbn [orb andb].
  by rewrite (Decode_Encode _ _ _ _ _ Hd Hok He).
Qed.

(** An exchange, on the connection: the reply, encrypted by the other side in a session
    that this side understands, fits in the buffer and is the next chunk to be read. *)
Lemma exchange_tape `{!CodecLaws} c s s' req reply ct ct' r rest : decrypts s s' ->
  EncodePadEncrypt s req (cnx_rand c (length (cnx_sent c))) = inl ct ->
  cnx_writeErr c (length (cnx_sent c)) = None ->
  EncodePadEncrypt s' reply r = inl ct' -> msg_ok reply ->
  0 < Z.of_nat (length ct') <= MSG_BUF_LEN -> cnx_reads c = (ct', None) :: rest ->
  exchange (mkCnxState (Some c) s) req reply
    (mkCnxState (Some (mkCnx rest (cnx_sent c ++ [ct]) (cnx_closed c) (cnx_writeErr c) (cnx_rand c))) s).
Proof.
  intros Hd He Hw He' Hok Hl Hr. eexists. split.
  - unfold writeMsg. cbn [deref cx_Cnx cx_AesSession]. rewrite bind_Done, He. unfold cx_WriteData, WriteData.
    cbn [deref cx_Cnx cx_AesSession]. by rewrite bind_Done, Hw.
  - rewrite Hr. exact (readMsg_chunk (mkCnx _ _ _ _ _) s s' reply r ct' rest Hd He' Hok Hl eq_refl).
Qed.

(** What each exchange makes of the client, when a reply arrives. *)
Lemma MemberAndOK_exchange mm t reply ch' : member_token mm = Done (Ok t) ->
  exchange (mm_CnxHandler mm) (member_request t) reply ch' ->
  MemberAndOK mm = Done (None, with_member (set_Attrs (GetMemberAttrs (Some reply))) (with_cnx ch' mm)).
Proof.
  intros Ht (ch1 & Hw & Hr). unfold MemberAndOK. by rewrite Ht, bind_Done, Hw, !bind_Done, Hr.
Qed.

Lemma JoinAndReply_exchange mm cid reply ch' : cm_ClusterID (mm_ClusterMember mm) = Some cid ->
  exchange (mm_CnxHandler mm) (join_request cid) reply ch' ->
  JoinAndReply mm = Done (None, with_member (join_replied (Some reply)) (with_cnx ch' mm)).
Proof.
  intros Hid (ch1 & Hw & Hr). unfold JoinAndReply. rewrite Hid. cbn [deref].
  by rewrite bind_Done, Hw, bind_Done, Hr.
Qed.

Lemma ByeAndAck_exchange mm reply ch' : exchange (mm_CnxHandler mm) (msg_of_op XLRegMsg_Bye) reply ch' ->
  ByeAndAck mm = Done (None, with_cnx ch' mm).
Proof. intros (ch1 & Hw & Hr). unfold ByeAndAck. by rewrite Hw, bind_Done, Hr. Qed.

Lemma CreateAndReply_exchange mm reply ch' id cid :
  exchange (mm_CnxHandler mm) (create_request mm) reply ch' ->
  GetClusterID (Some reply) = Some id -> xi_New id = (cid, None) ->
  CreateAndReply mm = Done (None, with_member (set_ClusterAttrs_Size (GetClusterAttrs (Some reply))
    (GetClusterMaxSize (Some reply))) (with_member (set_ClusterID cid) (with_cnx ch' mm))).
Proof.
  intros (ch1 & Hw & Hr) Hid Hn. unfold CreateAndReply. rewrite Hw, bind_Done, Hr, bind_Done.
  rewrite bool_decide_eq_false_2, Hid by done. cbn [xi_New_opt]. by rewrite bind_Done, Hn.
Qed.

Lemma served_last tok info id n ch ms0 snaps ch' : served tok info id n ch ms0 snaps ch' ->
  snaps <> [] ->
  Forall (readable tok info) (List.last snaps []) /\ (length (List.last snaps []) <= n)%nat.
Proof.
  induction 1 as [|ch ch1 ch' ms0 ms rest reply _ _ Hr _ Hn _ Hs IH]; intros Hne; [done|].
  destruct rest as [|ms' rest]; [done|]. by apply IH.
Qed.

Lemma store_tokens_length which tokens left i offset members todo err ds ms' todo' err' ds' :
  store_tokens which tokens left i offset members todo err ds = Done (ms', todo', err', ds') ->
  length ms' = length members.
Proof.
  revert i offset members todo err ds. induction left as [|left IH]; intros i offset members todo err ds Hs;
    cbn [store_tokens] in Hs; [by injection Hs as <- _ _ _|].
  destruct (xu_Test which i); [|by eapply IH].
  apply bind_Done_inv in Hs as (t & _ & Hs). apply bind_Done_inv in Hs as ([r ds1] & _ & Hs).
  apply bind_Done_inv in Hs as (x & _ & Hs).
  destruct r as [m|e]; apply IH in Hs; by rewrite length_insert in Hs.
Qed.

Lemma get_rounds_sized count todo err mm err' mm' : members_sized mm ->
  get_rounds count todo err mm = Done (err', mm') ->
  members_sized mm' /\ cm_ClusterMaxSize (mm_ClusterMember mm') = cm_ClusterMaxSize (mm_ClusterMember mm).
Proof.
  revert todo err mm. induction count as [|count IH]; intros todo err mm Hsz Hg; cbn [get_rounds] in Hg;
    [by injection Hg as <- <-|].
  destruct (negb _); [by injection Hg as <- <-|].
  apply bind_Done_inv in Hg as (todo1 & _ & Hg). apply bind_Done_inv in Hg as (cid & _ & Hg).
  apply bind_Done_inv in Hg as ([werr ch1] & _ & Hg). destruct werr; [by injection Hg as <- <-|].
  apply bind_Done_inv in Hg as ([[resp rerr] ch2] & _ & Hg). destruct rerr; [by injection Hg as <- <-|].
  apply bind_Done_inv in Hg as ([[[ms' todo'] e'] ds'] & Hst & Hg).
  destruct Hsz as (l & Hl & Hlen).
  assert (length ms' = length l) as Hms.
  { rewrite Hl in Hst. destruct (xu_Any _); [by apply store_tokens_length in Hst|by injection Hst as <- _ _ _]. }
  assert (members_sized (with_draws ds' (with_member (set_Members ms') (with_cnx ch2 mm)))) as Hsz'.
  { exists ms'. split; [done|]. cbn. by rewrite Hms. }
  destruct (xu_None todo'); [by injection Hg as <- <-|]. destruct (IH _ _ _ Hsz' Hg) as [? Hm]. done.
Qed.

Lemma join_replied_sized resp mm : members_sized mm ->
  members_sized (with_member (join_replied resp) mm).
Proof.
  intros (l & Hl & Hlen). unfold members_sized, with_member, join_replied. cbn.
  destruct (_ =? _) eqn:E; cbn; [by exists l|]. eexists. split; [done|]. by rewrite length_replicate.
Qed.

Lemma join_replied_fresh resp cm : cm_Members cm = Some (replicate (Z.to_nat (cm_ClusterMaxSize cm)) None) ->
  let cm' := join_replied resp cm in
  cm_ClusterID cm' = cm_ClusterID cm /\ cm_Node cm' = cm_Node cm /\
  cm_ClusterMaxSize cm' = GetClusterMaxSize resp /\ cm_EPCount cm' = GetEndPointCount resp /\
  cm_Members cm' = Some (replicate (Z.to_nat (GetClusterMaxSize resp)) None).
Proof.
  intros Hms. unfold join_replied. destruct (Z.eqb_spec (cm_ClusterMaxSize cm) (GetClusterMaxSize resp)) as [E|E];
    split_and!; try done. cbn. by rewrite Hms, E.
Qed.

Lemma client_step_sized mm mm' : members_sized mm -> client_step mm mm' -> members_sized mm'.
Proof.
  intros Hsz Hst. revert Hsz.
  destruct Hst as [dial v mm1 b v' err mm2 Hs|mm1 err mm2 Hs|mm1 err mm2 Hs|mm1 err mm2 Hs|mm1 err mm2 Hs];
    intros Hsz.
  - unfold SessionSetup in Hs. apply bind_Done_inv in Hs as (p & _ & Hs).
    apply bind_Done_inv in Hs as (ctor & _ & Hs). destruct (dial ctor) as [c|]; [|by injection Hs as <- <- <- <-].
    cbn [NewCnxHandler] in Hs. destruct xa_ClientEncryptHello as [[s1 ct]|]; [|by injection Hs as <- <- <- <-].
    apply bind_Done_inv in Hs as ([[e|] ch2] & _ & Hs); [by injection Hs as <- <- <- <-|].
    apply bind_Done_inv in Hs as ([[ct2 rerr] ch3] & _ & Hs).
    destruct (match ct2 with Some _ => rerr | None => _ end); [by injection Hs as <- <- <- <-|].
    destruct xa_ClientDecryptHelloReply as [[s2 v2]|]; by injection Hs as <- <- <- <-.
  - unfold MemberAndOK in Hs. apply bind_Done_inv in Hs as (t & _ & Hs).
    apply bind_Done_inv in Hs as (ch1 & _ & Hs). apply bind_Done_inv in Hs as ([[r [e|]] ch2] & _ & Hs);
      by injection Hs as <- <-.
  - unfold JoinAndReply in Hs. apply bind_Done_inv in Hs as (t & _ & Hs).
    apply bind_Done_inv in Hs as ([[e|] ch1] & _ & Hs); [by injection Hs as <- <-|].
    apply bind_Done_inv in Hs as ([[r [e|]] ch2] & _ & Hs); injection Hs as <- <-; [done|].
    by apply join_replied_sized.
  - unfold GetAndMembers in Hs. destruct Hsz as (l & Hl & Hlen). rewrite Hl in Hs.
    apply bind_Done_inv in Hs as ([e mm3] & Hg & Hs). apply get_rounds_sized in Hg as [Hsz _]; [|by exists l].
    destruct e as [e|]; [by injection Hs as <- <-|]. apply bind_Done_inv in Hs as (self & _ & Hs).
    apply bind_Done_inv in Hs as ([i|] & _ & Hs); by injection Hs as <- <-.
  - unfold ByeAndAck in Hs. apply bind_Done_inv in Hs as ([[e|] ch1] & _ & Hs); [by injection Hs as <- <-|].
    apply bind_Done_inv in Hs as ([[r rerr] ch2] & _ & Hs). by injection Hs as <- <-.
Qed.

Lemma GetAndMembers_none `{!BitMapLaws} mm self : cm_ClusterMaxSize (mm_ClusterMember mm) = 0 ->
  cm_Members (mm_ClusterMember mm) = Some [] ->
  xn_GetNodeID (xn_Node_Base (cm_Node (mm_ClusterMember mm))) = Some self ->
  GetAndMembers mm = Done (None, mm).
Proof.
  intros Hsz Hms Hself. unfold GetAndMembers. rewrite Hms, Hsz. change MAX_GET with (S 31).
  cbn [get_rounds]. rewrite xu_Any_bits.
  rewrite (bits_wanted (xu_LowNMap 0) 0 0)
    by (done || (intros j Hj; rewrite xu_LowNMap_bits by lia; change (Z.of_nat 0) with 0; lia)).
  change (negb (wanted 0 0 =? 0)) with false. cbn [negb]. rewrite bind_Done, Hself. cbn [deref].
  by rewrite bind_Done, Hsz.
Qed.

Lemma NewMemberMaker_sized node attrs rn ri re rck rsk cn ca ci size ep eps ds node' mm :
  NewMemberMaker node attrs rn ri re rck rsk cn ca ci size ep eps ds = Done (node', Ok mm) ->
  members_sized mm.
Proof.
  unfold NewMemberMaker. intros Hn. destruct node as [node|]; [|done].
  destruct (bool_decide _), ri as [ri|], re as [re|], rck as [rck|]; try done.
  apply bind_Done_inv in Hn as ([[n1 ep1] err] & _ & Hn). destruct err; [done|].
  destruct xt_NewTcpConnector; [|done]. destruct xn_NewPeer; [|done].
  destruct xn_Node_AddPeer as [n2 [e|]]; [done|]. injection Hn as _ <-.
  eexists. split; [done|]. by rewrite length_replicate.
Qed.

(** A client whose requests for the members are served. *)
Lemma GetAndMembers_served `{!BitMapLaws} tok info mm cid self n snaps ch' :
  let cm := mm_ClusterMember mm in
  cm_ClusterID cm = Some cid -> cm_ClusterMaxSize cm = Z.of_nat n -> (0 < n <= 64)%nat ->
  cm_Members cm = Some (replicate n None) -> xn_GetNodeID (xn_Node_Base (cm_Node cm)) = Some self ->
  served tok info cid n (mm_CnxHandler mm) [] snaps ch' -> snaps <> [] ->
  (length snaps < MAX_GET)%nat /\ length (List.last snaps []) = n \/ length snaps = MAX_GET ->
  let ms := List.last snaps [] in
  let is_self m := xi_Value <$> xn_GetNodeID (xn_Peer_Base (mi_Peer (info m))) = Some (xi_Value self) in
  exists mm', GetAndMembers mm = Done (None, mm') /\ mm_CnxHandler mm' = ch' /\
    cm_Members (mm_ClusterMember mm') = Some ((Some ∘ info <$> ms) ++ replicate (n - length ms) None) /\
    (Forall (fun m => ~ is_self m) ms \/
     exists j m, cm_SelfIndex (mm_ClusterMember mm') = Z.of_nat j /\ ms !! j = Some m /\ is_self m /\
       Forall (fun m => ~ is_self m) (take j ms)).
Proof.
  intros cm Hid Hsz Hn Hms Hself Hs Hne Hend ms is_self.
  destruct (served_last _ _ _ _ _ _ _ _ Hs Hne) as [Hr Hl].
  assert (Z.to_nat (cm_ClusterMaxSize cm) = n) as Hsn by lia.
  unfold GetAndMembers. fold cm. rewrite Hms.
  rewrite (get_rounds_served tok info MAX_GET cid n (mm_CnxHandler mm) [] snaps ch' mm); try done; try lia.
  - rewrite bind_Done. unfold learned. cbn [mm_ClusterMember with_member with_cnx set_Members
      set_Size_Members cm_Node cm_Members cm_ClusterMaxSize default from_option id]. fold cm.
    rewrite Hself. cbn [deref]. rewrite bind_Done, Hsn.
    destruct (find_self_known tok info (xi_Value self) [] ms n Hr Hl) as (r & Hf & Hrs).
    cbn [app length] in Hf. change (Z.of_nat 0) with 0 in Hf. fold ms. rewrite Hf, bind_Done.
    eexists. split; [done|]. destruct r as [k|]; [|by eauto].
    split; [done|]. split; [done|]. right. destruct Hrs as (j & m & -> & Hj & Hh & Hfa). by exists j, m.
  - unfold known_members. cbn [length fmap list_fmap app]. by rewrite Nat.sub_0_r.
  - cbn [length]. lia.
  - apply bits_wanted; [cbn [length]; lia|]. intros j Hj. rewrite xu_LowNMap_bits by lia.
    rewrite Hsz. change (Z.of_nat (length [])) with 0. rewrite (proj2 (Z.leb_le 0 j)) by done. done.
Qed.
End Facts.

(** ** Theorems *)

Section Theorems.
Context `{Ext}.

(** C14: A client that asks for the members of its cluster while the cluster grows learns
    what the registry has at its last request: it stops when it knows all [n]
    members or after 32 rounds, and in the second case too without an error.  It
    finds itself at the first member with its own identifier. *)
Theorem GetAndMembers_learns `{!BitMapLaws} tok info mm cid self n snaps ch' :
  let cm := mm_ClusterMember mm in
  cm_ClusterID cm = Some cid -> cm_ClusterMaxSize cm = Z.of_nat n -> (0 < n <= 64)%nat ->
  cm_Members cm = Some (replicate n None) -> xn_GetNodeID (xn_Node_Base (cm_Node cm)) = Some self ->
  served tok info cid n (mm_CnxHandler mm) [] snaps ch' -> snaps <> [] ->
  (length snaps < MAX_GET)%nat /\ length (List.last snaps []) = n \/ length snaps = MAX_GET ->
  let ms := List.last snaps [] in
  let is_self m := xi_Value <$> xn_GetNodeID (xn_Peer_Base (mi_Peer (info m))) = Some (xi_Value self) in
  exists mm', GetAndMembers mm = Done (None, mm') /\ mm_CnxHandler mm' = ch' /\
    cm_Members (mm_ClusterMember mm') = Some ((Some ∘ info <$> ms) ++ replicate (n - length ms) None) /\
    (Forall (fun m => ~ is_self m) ms \/
     exists j m, cm_SelfIndex (mm_ClusterMember mm') = Z.of_nat j /\ ms !! j = Some m /\ is_self m /\
       Forall (fun m => ~ is_self m) (take j ms)).
Proof. apply GetAndMembers_served. Qed.

(** C28: A reply to Join that reports an error is taken for a success: the client then
    believes its cluster to have size 0, asks for no members, and finds none, without
    an error. *)
Theorem JoinAndReply_refused `{!BitMapLaws} mm cid e ch' self :
  let cm := mm_ClusterMember mm in
  cm_ClusterID cm = Some cid -> cm_ClusterMaxSize cm <> 0 ->
  xn_GetNodeID (xn_Node_Base (cm_Node cm)) = Some self ->
  exchange (mm_CnxHandler mm) (join_request cid) (error_msg e) ch' ->
  exists mm', JoinAndReply mm = Done (None, mm') /\ mm_CnxHandler mm' = ch' /\
    cm_ClusterMaxSize (mm_ClusterMember mm') = 0 /\ cm_Members (mm_ClusterMember mm') = Some [] /\
    GetAndMembers mm' = Done (None, mm').
Proof.
  intros cm Hid Hsz Hself Hx. rewrite (JoinAndReply_exchange _ _ _ _ Hid Hx).
  eexists. split; [done|]. split; [done|].
  assert (mm_ClusterMember (with_member (join_replied (Some (error_msg e))) (with_cnx ch' mm)) =
    set_EPCount 0 (set_Size_Members 0 [] cm)) as Hcm.
  { unfold join_replied, with_member, with_cnx. cbn [mm_ClusterMember]. fold cm.
    change (GetClusterMaxSize (Some (error_msg e))) with 0. by rewrite (proj2 (Z.eqb_neq _ 0) Hsz). }
  rewrite Hcm. split; [done|]. split; [done|]. apply (GetAndMembers_none _ self); by rewrite Hcm.
Qed.

(** A reply to Create without an identifier, such as a refusal, or none at all at the
    end of the connection, is taken for a success: the client makes up an
    identifier for its cluster. *)
Theorem CreateAndReply_refused mm ch1 response rerr ch2 nid ds :
  writeMsg (mm_CnxHandler mm) (create_request mm) = Done (None, ch1) ->
  readMsg ch1 = Done (response, rerr, ch2) -> rerr = None \/ rerr = Some (ExtErr EOF) ->
  GetClusterID response = None -> mm_draws mm = (Some nid, None) :: ds ->
  exists mm', CreateAndReply mm = Done (None, mm') /\
    cm_ClusterID (mm_ClusterMember mm') = Some nid /\ mm_draws mm' = ds /\
    cm_ClusterMaxSize (mm_ClusterMember mm') = GetClusterMaxSize response.
Proof.
  intros Hw Hrd Hre Hcid Hds. unfold CreateAndReply. rewrite Hw, bind_Done, Hrd, bind_Done.
  assert ((if bool_decide (rerr = Some (ExtErr EOF)) then None else rerr) = None) as ->
    by (destruct Hre as [->| ->]; done).
  rewrite Hcid. cbn [xi_New_opt]. change (mm_draws (with_cnx ch2 mm)) with (mm_draws mm). rewrite Hds.
  rewrite bind_Done. by eexists.
Qed.

(** A client that cannot sign its token, or send it, does not notice: whatever is read
    next is its reply. *)
Theorem MemberAndOK_ignores_errors mm tok ch1 response rerr ch2 :
  member_token mm = Done tok ->
  match tok with
  | Err _ => ch1 = mm_CnxHandler mm
  | Ok t => exists err, writeMsg (mm_CnxHandler mm) (member_request t) = Done (err, ch1)
  end ->
  readMsg ch1 = Done (response, rerr, ch2) ->
  exists mm', MemberAndOK mm = Done (rerr, mm') /\
    (rerr = None -> cm_Attrs (mm_ClusterMember mm') = GetMemberAttrs response).
Proof.
  intros Ht Hw Hrd. unfold MemberAndOK. rewrite Ht, bind_Done.
  destruct tok as [t|e].
  - destruct Hw as [err ->]. rewrite !bind_Done, Hrd, bind_Done. destruct rerr; by eexists.
  - subst ch1. rewrite bind_Done, Hrd, bind_Done. destruct rerr; by eexists.
Qed.

(** A member, neither solo nor an administrator, that has no end points crashes
    instead of being refused. *)
Theorem NewMemberMaker_no_endPoints node attrs rn ri re rck rsk cn ca ci size ep ds :
  Z.land attrs xcl_ATTR_SOLO = 0 -> Z.land attrs xcl_ATTR_ADMIN = 0 -> rn <> [] -> cn <> [] ->
  NewMemberMaker (Some node) attrs rn (Some ri) (Some re) (Some rck) rsk cn ca ci size ep [] ds =
    Panics IndexOutOfRange.
Proof.
  intros Hs Ha Hrn Hcn. unfold NewMemberMaker. rewrite bool_decide_eq_false_2 by done.
  rewrite Hs. cbn [Z.eqb]. unfold check_cluster. rewrite Ha, bool_decide_eq_false_2 by done.
  change (u32 (Z.of_nat (length []))) with 0. cbn [Z.eqb negb].
  destruct (Z.to_nat (if ep <? 1 then 1 else ep)) eqn:E; [destruct (Z.ltb_spec ep 1); lia|]. done.
Qed.

(** C35: A new client has room for as many members as its cluster is said to have, and keeps
    it through any sequence of exchanges other than Create, whatever the replies. *)
Theorem members_sized_invariant node attrs rn ri re rck rsk cn ca ci size ep eps ds node' mm mm' :
  NewMemberMaker node attrs rn ri re rck rsk cn ca ci size ep eps ds = Done (node', Ok mm) ->
  rtc client_step mm mm' -> members_sized mm'.
Proof.
  intros Hn%NewMemberMaker_sized Hsteps. revert Hn.
  induction Hsteps as [|mm mm1 mm2 Hs _ IH]; intros Hsz; [done|]. eapply IH, client_step_sized; done.
Qed.
End Theorems.

(** ** Witnesses *)

Module MemberMakerWitness.
Import ModelInstances ClientInfoWitness RegClusterWitness RegNodeWitness RegistryWitness MsgHandlersWitness.

(** A client with a 368-bit key whose two exponents are 1. *)
Definition w_priv : PrivateKey := mkPrivateKey (mkPublicKey (key_N w_pub) 1) 1.
Definition w_clientNode : Node := Concrete.mkNode
  (Concrete.mkBase (str "alice") (Some (str "0123456789abcdefghij")) (Some (key_pub w_priv))
    (Some (key_pub w_priv))) [] [] [str "127.0.0.1:5000"; str "127.0.0.1:5001"] (Some w_priv) (Some w_priv).

(** A connection on which these replies will be read. *)
Definition w_client_cnx (replies : list XLRegMsg) : CnxState := mkCnxState
  (Some (mkCnx ((fun m => (Concrete.marshal m, None)) <$> replies) [] false (fun _ => None) (fun _ => tt))) tt.
Definition w_server : Peer := Concrete.mkPeer w_base [str "127.0.0.1:44444"].
Definition w_mm (size : Z) (replies : list XLRegMsg) : MemberMaker := mkMemberMaker 5 (w_client_cnx replies)
  (Some w_server) (mkClusterMember 0 (str "east") 0 (Some (str "new1")) size 2 0
    (Some (replicate (Z.to_nat size) None)) w_clientNode) [(Some (str "drawn"), None)].
(** The connection after one exchange. *)
Definition w_used (req : XLRegMsg) : CnxState := mkCnxState
  (Some (mkCnx [] [Concrete.marshal req] false (fun _ => None) (fun _ => tt))) tt.

Lemma w_exchange req reply : msg_ok reply ->
  0 < Z.of_nat (length (Concrete.marshal reply)) <= MSG_BUF_LEN ->
  exchange (w_client_cnx [reply]) req reply (w_used req).
Proof.
  intros Hok Hl. exact (exchange_tape (mkCnx [(Concrete.marshal reply, None)] [] false (fun _ => None)
    (fun _ => tt)) tt tt req reply (Concrete.marshal req) (Concrete.marshal reply) tt []
    (xa_Decrypt_Encrypt tt) eq_refl eq_refl eq_refl Hok Hl eq_refl).
Qed.

Definition w_reply : XLRegMsg := with_Tokens (Some [Some (w_tokenOf w_member); Some (w_tokenOf w_twin)])
  (with_Which (Some 3) (with_ClusterID (Some (str "new1")) (msg_of_op XLRegMsg_ClusterMembers))).
Definition w_infoOf (c : ClientInfo) : MemberInfo :=
  mkMemberInfo (ci_Attrs c) (Concrete.mkPeer (ci_BaseNode c) (default [] (ci_MyEnds c))).

Lemma w_reply_ok : msg_ok w_reply.
Proof.
  split; cbn; try done; try (split; discriminate || reflexivity).
  split; [done|]. repeat constructor; eexists; (split; [reflexivity|]); split; try discriminate;
    split; discriminate || reflexivity.
Qed.

Lemma w_served : served w_tokenOf w_infoOf (w_id "new1") 2 (w_client_cnx [w_reply]) []
  [[w_member; w_twin]] (w_used (get_request (w_id "new1") 3)).
Proof.
  eapply served_cons with (reply := w_reply).
  - apply w_exchange; [exact w_reply_ok|]. vm_compute. split; [reflexivity|discriminate].
  - split; [split; discriminate || reflexivity| |reflexivity].
    intros i Hi. change (wanted (length (A:=ClientInfo) []) 2) with (wanted 0 2).
    rewrite wanted_bits by lia. change (GetWhich (Some w_reply)) with (wanted 0 2).
    rewrite wanted_bits by lia. change (length (take 64 [w_member; w_twin])) with 2%nat. lia.
  - repeat constructor; by eexists.
  - apply prefix_nil.
  - simpl. lia.
  - by right.
  - constructor.
Qed.

Lemma GetAndMembers_learns_witness : exists mm',
  GetAndMembers (w_mm 2 [w_reply]) = Done (None, mm') /\
  cm_Members (mm_ClusterMember mm') = Some [Some (w_infoOf w_member); Some (w_infoOf w_twin)].
Proof.
  destruct (GetAndMembers_learns w_tokenOf w_infoOf (w_mm 2 [w_reply]) (w_id "new1")
    (w_id "0123456789abcdefghij") 2 [[w_member; w_twin]] (w_used (get_request (w_id "new1") 3)))
    as (mm' & Hg & _ & Hm & _).
  - reflexivity.
  - reflexivity.
  - lia.
  - reflexivity.
  - reflexivity.
  - exact w_served.
  - discriminate.
  - left. split; [|reflexivity]. unfold MAX_GET. simpl. lia.
  - exists mm'. split; [exact Hg|exact Hm].
Defined.

Definition w_refusal : XLRegMsg := error_msg (RegErr RcvdInvalidMsgForState).
Lemma w_refusal_ok : msg_ok w_refusal.
Proof. split; cbn; try done. Qed.
Lemma w_refusal_fits : 0 < Z.of_nat (length (Concrete.marshal w_refusal)) <= MSG_BUF_LEN.
Proof. vm_compute. split; [reflexivity|discriminate]. Qed.

Lemma JoinAndReply_refused_witness : exists mm',
  JoinAndReply (w_mm 2 [w_refusal]) = Done (None, mm') /\ GetAndMembers mm' = Done (None, mm').
Proof.
  destruct (JoinAndReply_refused (w_mm 2 [w_refusal]) (w_id "new1") (RegErr RcvdInvalidMsgForState)
    (w_used (join_request (w_id "new1"))) (w_id "0123456789abcdefghij")) as (mm' & Hj & _ & _ & _ & Hg).
  - reflexivity.
  - discriminate.
  - reflexivity.
  - exact (w_exchange _ _ w_refusal_ok w_refusal_fits).
  - exists mm'. split; [exact Hj|exact Hg].
Defined.

Lemma CreateAndReply_refused_witness : exists mm', CreateAndReply (w_mm 2 [w_refusal]) = Done (None, mm') /\
  cm_ClusterID (mm_ClusterMember mm') = Some (w_id "drawn").
Proof.
  destruct (w_exchange (create_request (w_mm 2 [w_refusal])) _ w_refusal_ok w_refusal_fits) as (ch1 & Hw & Hr).
  destruct (CreateAndReply_refused (w_mm 2 [w_refusal]) ch1 (Some w_refusal) None
    (w_used (create_request (w_mm 2 [w_refusal]))) (w_id "drawn") []) as (mm' & Hc & Hi & _).
  - exact Hw.
  - exact Hr.
  - left. reflexivity.
  - reflexivity.
  - reflexivity.
  - exists mm'. split; [exact Hc|exact Hi].
Defined.

(** A client whose key is too short to sign with. *)
Definition w_short : MemberMaker := mkMemberMaker 5 (w_client_cnx [w_refusal]) (Some w_server)
  (set_Node (Concrete.mkNode w_base [] [] [] (Some (mkPrivateKey w_key 1)) (Some (mkPrivateKey w_key 1)))
    (mm_ClusterMember (w_mm 2 []))) [].

Definition w_spent : CnxState := mkCnxState (Some (mkCnx [] [] false (fun _ => None) (fun _ => tt))) tt.

Lemma MemberAndOK_ignores_errors_witness : exists mm', MemberAndOK w_short = Done (None, mm').
Proof.
  destruct (MemberAndOK_ignores_errors w_short (Err (ExtErr ErrMessageTooLong)) (mm_CnxHandler w_short)
    (Some w_refusal) None w_spent)
    as (mm' & Hm & _).
  - reflexivity.
  - reflexivity.
  - reflexivity.
  - exists mm'. exact Hm.
Defined.

Lemma NewMemberMaker_no_endPoints_witness :
  NewMemberMaker (Some w_clientNode) 0 (str "xlReg") (Some (w_id "new1")) (Some (str "127.0.0.1:44444"))
    (Some w_pub) (Some w_pub) (str "east") 0 None 2 1 [] [] = Panics IndexOutOfRange.
Proof. apply NewMemberMaker_no_endPoints; [reflexivity|reflexivity|discriminate|discriminate]. Defined.

Definition w_maker : MemberMaker := mkMemberMaker 0 (mkCnxState None tt)
  (Some (Concrete.mkPeer (Concrete.mkBase (str "xlReg") (Some (str "new1")) (Some w_pub) (Some w_pub))
    [str "127.0.0.1:44444"]))
  (mkClusterMember 0 (str "east") 0 None 2 1 0 (Some [None; None])
    (Concrete.mkNode (Concrete.n_base w_clientNode) [] []
      [str "127.0.0.1:5000"; str "127.0.0.1:5001"; str "127.0.0.1:5002"] (Some w_priv) (Some w_priv))) [].
Lemma members_sized_invariant_witness : exists mm', client_step w_maker mm' /\ members_sized mm'.
Proof.
  assert (SessionSetup (fun _ => inr EOF) 0 w_maker = Done (false, 0, Some (ExtErr EOF), w_maker)) as Hs
    by reflexivity.
  exists w_maker. split; [eapply step_setup; exact Hs|].
  apply (members_sized_invariant (Some w_clientNode) 0 (str "xlReg") (Some (w_id "new1"))
    (Some (str "127.0.0.1:44444")) (Some w_pub) (Some w_pub) (str "east") 0 None 2 1
    [str "127.0.0.1:5002"] [] (Some (cm_Node (mm_ClusterMember w_maker))) w_maker).
  - reflexivity.
  - eapply rtc_once, step_setup. exact Hs.
Defined.
End MemberMakerWitness.
