(* ===== verification/Clients.v ===== *)
(** * The client programs

    Models admin_client.go, user_client.go, solo_client.go and bootstrap.go: how each
    client is made and the exchanges its run consists of.  A run is what the
    goroutine of [Start] does; its result is the error sent on the channel DoneCh.
    The four structures embed [MemberMaker] and add nothing to it but, in
    [Bootstrapper], a second channel and a mutex that is not used. *)
From S2P Require Import Prelude GoStd GoCrypto Errors Proto Ext ExtModel ClientInfo RegCluster.
From S2P Require Import RegCred RegNode Registry CnxHandler MsgHandlers InHandler MemberInfo MemberMaker.

Section Clients.
Context `{Ext}.

Definition AdminClient : Type := MemberMaker.
Definition UserMember : Type := MemberMaker.
Definition SoloMember : Type := MemberMaker.
Definition Bootstrapper : Type := MemberMaker.

(** A step of a run is taken if there was no error before it. *)
Definition and_then (r : outcome (option error * MemberMaker))
    (k : MemberMaker -> outcome (option error * MemberMaker)) : outcome (option error * MemberMaker) :=
  '(err, mm) ← r;
  match err with
  | Some e => Done (Some e, mm)
  | None => k mm
  end.

(** Close the connection that [SessionSetup] returned, if it returned one. *)
Definition close_cnx (cnx : bool) (mm : MemberMaker) : MemberMaker :=
  if cnx then with_cnx (mkCnxState (Close <$> cx_Cnx (mm_CnxHandler mm)) (cx_AesSession (mm_CnxHandler mm))) mm
  else mm.

(** What the variables of the constructors that shadow [err] hold is lost: all that
    is left of [NewMemberMaker] is whether it made a client. *)
Definition made (r : option Node * result MemberMaker) : option MemberMaker * option error :=
  (match r.2 with Ok mm => Some mm | Err _ => None end, None).

(** ** The administrator's client: create a cluster *)

(** The debugging output dereferences the identifier before the error is checked. *)
Definition NewAdminClient (rng : Randomness) (serverName : gostring) (serverID : option NodeID)
    (serverEnd : option EndPointI) (serverCK serverSK : option PublicKey)
    (clusterName : gostring) (clusterAttrs size epCount : Z) (e : list EndPointI) (ds : list draw) :
    outcome (option AdminClient * option error) :=
  '((nodeID, err), ds') ← xi_New_opt None ds;
  _ ← deref nodeID;
  match err with
  | Some x => Done (None, Some (ExtErr x))
  | None =>
    match xn_NewNew (str "admin") nodeID [] rng with
    | inr _ => Done (None, None)
    | inl node =>
      r ← NewMemberMaker (Some node) (Z.lor (Z.lor xcl_ATTR_ADMIN xcl_ATTR_SOLO) xcl_ATTR_EPHEMERAL)
            serverName serverID serverEnd serverCK serverSK clusterName clusterAttrs None size epCount e ds';
      Done (made r)
    end
  end.

Definition admin_session (mm : MemberMaker) : outcome (option error * MemberMaker) :=
  and_then (and_then (MemberAndOK mm) CreateAndReply) ByeAndAck.

Definition admin_Start (dial : ConnectorI -> Cnx + exterr) (ac : AdminClient) :
    outcome (option error * AdminClient) :=
  '(cnx, _, err, mm) ← SessionSetup dial 0 ac;
  '(err', mm') ← and_then (Done (err, mm)) admin_session;
  Done (err', close_cnx cnx mm').

(** ** The user's client: join a cluster and learn its members *)

Definition NewUserMember (name lfs : gostring) (ckPriv skPriv : option PrivateKey)
    (serverName : gostring) (serverID : option NodeID) (serverEnd : option EndPointI)
    (serverCK serverSK : option PublicKey) (clusterName : gostring) (clusterAttrs : Z)
    (clusterID : option NodeID) (size epCount : Z) (e : list EndPointI) (ds : list draw) :
    outcome (option UserMember * option error) :=
  '((nodeID, err), ds') ← xi_New_opt None ds;
  match err with
  | Some x => Done (None, Some (ExtErr x))
  | None =>
    let attrs := if bool_decide (lfs = []) then Z.lor 0 xcl_ATTR_EPHEMERAL else 0 in
    match xn_New name nodeID lfs ckPriv skPriv [] with
    | inr _ => Done (None, None)
    | inl node =>
      r ← NewMemberMaker (Some node) attrs serverName serverID serverEnd serverCK serverSK
            clusterName clusterAttrs clusterID size epCount e ds';
      Done (made r)
    end
  end.

Definition join_session (mm : MemberMaker) : outcome (option error * MemberMaker) :=
  and_then (and_then (MemberAndOK mm) JoinAndReply) GetAndMembers.
Definition user_session (mm : MemberMaker) : outcome (option error * MemberMaker) :=
  and_then (join_session mm) ByeAndAck.

Definition user_Start (dial : ConnectorI -> Cnx + exterr) (uc : UserMember) :
    outcome (option error * UserMember) :=
  let '(node, aerr) := xn_Node_OpenAcc (cm_Node (mm_ClusterMember uc)) in
  let mn := with_member (set_Node node) uc in
  match aerr with
  | Some e => Done (Some (ExtErr e), mn)
  | None =>
    '(cnx, _, err, mm) ← SessionSetup dial 0 mn;
    '(err', mm') ← and_then (Done (err, mm)) user_session;
    Done (err', close_cnx cnx mm')
  end.

(** ** The solo client: register a node and save it *)

Definition NewSoloMember (node : option Node) (serverName : gostring) (serverID : option NodeID)
    (serverEnd : option EndPointI) (serverCK serverSK : option PublicKey) (e : list EndPointI)
    (ds : list draw) : outcome (result SoloMember) :=
  '(_, r) ← NewMemberMaker node xcl_ATTR_SOLO serverName serverID serverEnd serverCK serverSK
              [] 0 None 0 (u32 (Z.of_nat (length e))) e ds;
  Done r.

Definition solo_session (mm : MemberMaker) : outcome (option error * MemberMaker) :=
  and_then (MemberAndOK mm) ByeAndAck.

(** [create] is the result of creating the log file; the last component is what was
    written to the file system. *)
Definition solo_Start (create : option exterr) (pathExists : gostring -> bool * option exterr)
    (checkLFS : gostring -> Z -> option exterr) (writeFile : gostring -> bytes -> option exterr)
    (dial : ConnectorI -> Cnx + exterr) (sc : SoloMember) :
    outcome (option error * SoloMember * option (gostring * bytes)) :=
  match create with
  | Some _ => Panics PanicCall
  | None =>
    '(cnx, _, err, mm) ← SessionSetup dial 0 sc;
    '(err', mm') ← and_then (Done (err, mm)) solo_session;
    let '(err'', written) :=
      match err' with
      | Some e => (Some e, None)
      | None => let '(perr, written) := PersistNode pathExists checkLFS writeFile mm' in
                (ExtErr <$> perr, written)
      end in
    Done (err'', close_cnx cnx mm', written)
  end.

(** ** The bootstrapper *)

(** The keys given are not used: [xn.NewNew] makes others. *)
Definition NewBootstrapper (rng : Randomness) (name lfs : gostring) (ckPriv skPriv : option PrivateKey)
    (attrs : Z) (serverName : gostring) (serverID : option NodeID) (serverEnd : option EndPointI)
    (serverCK serverSK : option PublicKey) (clusterName : gostring) (clusterAttrs : Z)
    (clusterID : option NodeID) (size epCount : Z) (e : list EndPointI) (ds : list draw) :
    outcome (option Bootstrapper * option error) :=
  let attrs := if bool_decide (lfs = []) then Z.lor attrs xcl_ATTR_EPHEMERAL else attrs in
  '((nodeID, err), ds') ← xi_New_opt None ds;
  match err with
  | Some x => Done (None, Some (ExtErr x))
  | None =>
    match xn_NewNew name nodeID lfs rng with
    | inr _ => Done (None, None)
    | inl node =>
      r ← NewMemberMaker (Some node) attrs serverName serverID serverEnd serverCK serverSK
            clusterName clusterAttrs clusterID size epCount e ds';
      Done (made r)
    end
  end.

Definition JoinCluster (dial : ConnectorI -> Cnx + exterr) (bs : Bootstrapper) :
    outcome (option error * Bootstrapper) :=
  '(_, _, err, mm) ← SessionSetup dial 0 bs;
  and_then (Done (err, mm)) join_session.

Definition bootstrap_Start (bs : Bootstrapper) : outcome (option error * Bootstrapper) :=
  '(err, mm) ← ByeAndAck bs;
  Done (err, close_cnx (bool_decide (is_Some (cx_Cnx (mm_CnxHandler mm)))) mm).

End Clients.

(** ** What a client sends *)

Definition tag_of (m : XLRegMsg) : Z := op2tag (GetOp (Some m)).

(** The protocol of a connection ([transition], InHandler.v), over several messages. *)
Inductive path : Z -> list Z -> Z -> Prop :=
  | path_nil s : path s [] s
  | path_cons s tag s' tags s'' : transition s tag s' -> path s' tags s'' -> path s (tag :: tags) s''.

Section Sends.
Context `{Ext}.

(** Encryption in this session never fails. *)
Definition encrypts (ch : CnxState) : Prop :=
  forall m r, exists ct, EncodePadEncrypt (cx_AesSession ch) m r = inl ct.

(** From [ch] to [ch'] these messages were sent, in the same session. *)
Definition sends (ch : CnxState) (msgs : list XLRegMsg) (ch' : CnxState) : Prop :=
  cx_AesSession ch' = cx_AesSession ch /\
  exists c c' cts, cx_Cnx ch = Some c /\ cx_Cnx ch' = Some c' /\ cnx_sent c' = cnx_sent c ++ cts /\
    Forall2 (fun m ct => exists r, EncodePadEncrypt (cx_AesSession ch) m r = inl ct) msgs cts.

Lemma sends_trans ch1 ms1 ch2 ms2 ch3 : sends ch1 ms1 ch2 -> sends ch2 ms2 ch3 -> sends ch1 (ms1 ++ ms2) ch3.
Proof.
  intros (E1 & c1 & c2 & cts1 & H1 & H2 & Hs1 & Hf1) (E2 & c2' & c3 & cts2 & H2' & H3 & Hs2 & Hf2).
  split; [congruence|]. rewrite H2 in H2'. injection H2' as <-.
  exists c1, c3, (cts1 ++ cts2). split_and!; try done.
  - by rewrite Hs2, Hs1, app_assoc.
  - apply Forall2_app; [done|]. by rewrite E1 in Hf2.
Qed.

Lemma ReadData_sent c d e c' : ReadData c = Done (d, e, c') -> cnx_sent c' = cnx_sent c.
Proof.
  unfold ReadData. intros ([[data e1] c1] & Hr & [= _ _ <-])%bind_Done_inv. unfold Read in Hr.
  destruct (cnx_reads c) as [|[chunk err] rs]; [done|]. destruct (_ <? _)%nat; by injection Hr as _ _ <-.
Qed.

Lemma readMsg_sends ch m e ch' : readMsg ch = Done (m, e, ch') -> sends ch [] ch'.
Proof.
  unfold readMsg, cx_ReadData. intros Hr.
  apply bind_Done_inv in Hr as ([[buf err] ch1] & Hr1 & Hr2).
  apply bind_Done_inv in Hr1 as (c & Hc%deref_Done_inv & Hr1).
  apply bind_Done_inv in Hr1 as ([[d e1] c1] & Hd & Hr1). injection Hr1 as _ _ <-.
  assert (ch' = mkCnxState (Some c1) (cx_AesSession ch)) as ->.
  { destruct err, buf; try by injection Hr2 as _ _ <-.
    destruct DecryptUnpadDecode as [? ?]; by injection Hr2 as _ _ <-. }
  split; [done|]. exists c, c1, []. rewrite app_nil_r. apply ReadData_sent in Hd. by split_and!.
Qed.

Lemma writeMsg_sends ch m e ch' : encrypts ch -> writeMsg ch m = Done (e, ch') -> sends ch [m] ch'.
Proof.
  unfold writeMsg, cx_WriteData, WriteData. intros Hen Hw.
  apply bind_Done_inv in Hw as (c & Hc%deref_Done_inv & Hw).
  destruct (Hen m (cnx_rand c (length (cnx_sent c)))) as [ct Hct]. rewrite Hct in Hw.
  rewrite Hc in Hw. cbn [deref] in Hw. rewrite bind_Done in Hw. injection Hw as _ <-.
  split; [done|]. eexists c, _, [ct]. split_and!; [done|done|done|]. constructor; [by eexists|done].
Qed.

(** A request, and then the reply. *)
Lemma request_sends ch m e1 ch1 r e2 ch2 : encrypts ch -> writeMsg ch m = Done (e1, ch1) ->
  readMsg ch1 = Done (r, e2, ch2) -> sends ch [m] ch2.
Proof. intros Hen Hw Hr. exact (sends_trans _ [m] _ [] _ (writeMsg_sends _ _ _ _ Hen Hw) (readMsg_sends _ _ _ _ Hr)). Qed.

Lemma sends_encrypts ch ms ch' : sends ch ms ch' -> encrypts ch -> encrypts ch'.
Proof. intros [Es _] He m r. rewrite Es. apply He. Qed.

(** The exchanges of a client led from the state [from] of its connection; without an
    error they led to the state [to]. *)
Definition conversed (ch : CnxState) (from : Z) (r : option error * MemberMaker) (to : Z) : Prop :=
  exists msgs st, sends ch msgs (mm_CnxHandler r.2) /\ path from (tag_of <$> msgs) st /\
    (r.1 = None -> st = to).

Lemma conversed_one ch m from e mm to : sends ch [m] (mm_CnxHandler mm) ->
  transition from (tag_of m) to -> conversed ch from (e, mm) to.
Proof.
  intros Hs Ht. exists [m], to. split_and!; [done| |done]. econstructor; [done|constructor].
Qed.

Lemma path_app s1 l1 s2 l2 s3 : path s1 l1 s2 -> path s2 l2 s3 -> path s1 (l1 ++ l2) s3.
Proof. induction 1; [done|]. intros Hp. econstructor; eauto. Qed.

Lemma and_then_conversed ch r k from mid to res : encrypts ch ->
  (forall a, r = Done a -> conversed ch from a mid) ->
  (forall mm c res', encrypts (mm_CnxHandler mm) -> cx_Cnx (mm_CnxHandler mm) = Some c ->
     k mm = Done res' -> conversed (mm_CnxHandler mm) mid res' to) ->
  and_then r k = Done res -> conversed ch from res to.
Proof.
  intros Hen Hr Hk Ha. unfold and_then in Ha. apply bind_Done_inv in Ha as ([err mm] & Hd & Ha).
  destruct (Hr _ Hd) as (ms & st & Hs & Hp & Hst). cbn [fst snd] in *. destruct err as [e|].
  - injection Ha as <-. exists ms, st. by split_and!.
  - specialize (Hst eq_refl). subst st.
    pose proof Hs as (_ & _ & c & _ & _ & Hc & _).
    destruct (Hk mm c res (sends_encrypts _ _ _ Hs Hen) Hc Ha) as (ms' & st' & Hs' & Hp' & Hst').
    exists (ms ++ ms'), st'. split_and!; [by eapply sends_trans| |done].
    rewrite fmap_app. by eapply path_app.
Qed.

(** ** Each exchange *)

Lemma MemberAndOK_conversed mm t res : encrypts (mm_CnxHandler mm) -> member_token mm = Done (Ok t) ->
  MemberAndOK mm = Done res -> conversed (mm_CnxHandler mm) HELLO_RCVD res CLIENT_DETAILS_RCVD.
Proof.
  intros Hen Ht Hm. unfold MemberAndOK in Hm. rewrite Ht, bind_Done in Hm.
  apply bind_Done_inv in Hm as (ch1 & Hw & Hm). apply bind_Done_inv in Hw as ([e1 ch1'] & Hw & [= ->]).
  apply bind_Done_inv in Hm as ([[r e2] ch2] & Hr & Hm). destruct res as [e mm'].
  apply (conversed_one _ (member_request t)); [|apply t_member].
  pose proof (request_sends _ _ _ _ _ _ _ Hen Hw Hr). destruct e2; by injection Hm as <- <-.
Qed.

Lemma CreateAndReply_conversed mm res : encrypts (mm_CnxHandler mm) -> CreateAndReply mm = Done res ->
  conversed (mm_CnxHandler mm) CLIENT_DETAILS_RCVD res CREATE_REQUEST_RCVD.
Proof.
  intros Hen Hm. unfold CreateAndReply in Hm. destruct res as [e mm'].
  apply (conversed_one _ (create_request mm)); [|apply t_create].
  apply bind_Done_inv in Hm as ([[e1|] ch1] & Hw & Hm).
  { injection Hm as <- <-. by eapply writeMsg_sends. }
  apply bind_Done_inv in Hm as ([[r e2] ch2] & Hr & Hm).
  pose proof (request_sends _ _ _ _ _ _ _ Hen Hw Hr) as Hs.
  destruct (if bool_decide _ then _ else _); [by injection Hm as <- <-|].
  apply bind_Done_inv in Hm as ([[nid [e3|]] ds] & _ & Hm); by injection Hm as <- <-.
Qed.

Lemma JoinAndReply_conversed mm res : encrypts (mm_CnxHandler mm) -> JoinAndReply mm = Done res ->
  conversed (mm_CnxHandler mm) CLIENT_DETAILS_RCVD res JOIN_RCVD.
Proof.
  intros Hen Hm. unfold JoinAndReply in Hm. destruct res as [e mm'].
  apply bind_Done_inv in Hm as (cid & _ & Hm).
  apply (conversed_one _ (join_request cid)); [|apply t_join1].
  apply bind_Done_inv in Hm as ([[e1|] ch1] & Hw & Hm).
  { injection Hm as <- <-. by eapply writeMsg_sends. }
  apply bind_Done_inv in Hm as ([[r e2] ch2] & Hr & Hm).
  pose proof (request_sends _ _ _ _ _ _ _ Hen Hw Hr) as Hs. destruct e2; by injection Hm as <- <-.
Qed.

Lemma ByeAndAck_conversed s mm res : HELLO_RCVD <= s <= JOIN_RCVD -> encrypts (mm_CnxHandler mm) ->
  ByeAndAck mm = Done res -> conversed (mm_CnxHandler mm) s res BYE_RCVD.
Proof.
  intros Hst Hen Hm. unfold ByeAndAck in Hm. destruct res as [e mm'].
  apply (conversed_one _ (msg_of_op XLRegMsg_Bye)); [|by apply t_bye].
  apply bind_Done_inv in Hm as ([[e1|] ch1] & Hw & Hm).
  { injection Hm as <- <-. by eapply writeMsg_sends. }
  apply bind_Done_inv in Hm as ([[r e2] ch2] & Hr & Hm).
  pose proof (request_sends _ _ _ _ _ _ _ Hen Hw Hr) as Hs. by injection Hm as <- <-.
Qed.

Lemma sends_nil ch c : cx_Cnx ch = Some c -> sends ch [] ch.
Proof. intros Hc. split; [done|]. exists c, c, []. rewrite app_nil_r. by split_and!. Qed.

(** At most [count] requests, all in the state JOIN_RCVD. *)
Lemma get_rounds_sends count todo err mm c err' mm' : encrypts (mm_CnxHandler mm) ->
  cx_Cnx (mm_CnxHandler mm) = Some c -> get_rounds count todo err mm = Done (err', mm') ->
  exists msgs, sends (mm_CnxHandler mm) msgs (mm_CnxHandler mm') /\ (length msgs <= count)%nat /\
    path JOIN_RCVD (tag_of <$> msgs) JOIN_RCVD.
Proof.
  revert todo err mm c. induction count as [|count IH]; intros todo err mm c Hen Hc Hg; cbn [get_rounds] in Hg.
  { injection Hg as <- <-. exists []. split_and!; [by eapply sends_nil|done|constructor]. }
  destruct (negb _).
  { injection Hg as <- <-. exists []. split_and!; [by eapply sends_nil|simpl; lia|constructor]. }
  apply bind_Done_inv in Hg as (todo1 & _ & Hg). apply bind_Done_inv in Hg as (cid & _ & Hg).
  assert (path JOIN_RCVD [tag_of (get_request cid (xu_Bits todo1))] JOIN_RCVD) as Hp
    by (econstructor; [apply t_get|constructor]).
  apply bind_Done_inv in Hg as ([werr ch1] & Hw & Hg). destruct werr as [e|].
  { injection Hg as <- <-. eexists [_]. split_and!; [by eapply writeMsg_sends|simpl; lia|exact Hp]. }
  apply bind_Done_inv in Hg as ([[resp rerr] ch2] & Hr & Hg).
  pose proof (request_sends _ _ _ _ _ _ _ Hen Hw Hr) as Hs. destruct rerr as [e|].
  { injection Hg as <- <-. eexists [_]. split_and!; [exact Hs|simpl; lia|exact Hp]. }
  apply bind_Done_inv in Hg as ([[[ms' todo'] e'] ds'] & _ & Hg). destruct (xu_None todo').
  { injection Hg as <- <-. eexists [_]. split_and!; [exact Hs|simpl; lia|exact Hp]. }
  pose proof Hs as (_ & _ & c2 & _ & _ & Hc2 & _).
  destruct (IH todo' e' (with_draws ds' (with_member (set_Members ms') (with_cnx ch2 mm))) c2)
    as (msgs & Hs' & Hl & Hp'); [by eapply sends_encrypts|done|done|].
  exists (get_request cid (xu_Bits todo1) :: msgs). split_and!.
  - exact (sends_trans _ [_] _ _ _ Hs Hs').
  - simpl. lia.
  - exact (path_app _ _ _ _ _ Hp Hp').
Qed.

Lemma GetAndMembers_conversed mm c res : encrypts (mm_CnxHandler mm) -> cx_Cnx (mm_CnxHandler mm) = Some c ->
  GetAndMembers mm = Done res -> conversed (mm_CnxHandler mm) JOIN_RCVD res JOIN_RCVD.
Proof.
  intros Hen Hc Hg. unfold GetAndMembers in Hg. set (mm0 := match cm_Members _ with Some _ => mm | None => _ end) in Hg.
  assert (mm_CnxHandler mm0 = mm_CnxHandler mm) as Hch by (unfold mm0; by destruct cm_Members).
  apply bind_Done_inv in Hg as ([err mm1] & Hr & Hg).
  destruct (get_rounds_sends _ _ _ _ c _ _ ltac:(by rewrite Hch) ltac:(by rewrite Hch) Hr) as (msgs & Hs & _ & Hp).
  rewrite Hch in Hs. exists msgs, JOIN_RCVD. split_and!; [|done|done].
  destruct err as [e|]; [by injection Hg as <-|]. apply bind_Done_inv in Hg as (self & _ & Hg).
  apply bind_Done_inv in Hg as ([i|] & _ & Hg); by injection Hg as <-.
Qed.
End Sends.

(** ** Sessions *)

Section Sessions.
Context `{Ext}.

Lemma join_session_conversed mm t res : encrypts (mm_CnxHandler mm) -> member_token mm = Done (Ok t) ->
  join_session mm = Done res -> conversed (mm_CnxHandler mm) HELLO_RCVD res JOIN_RCVD.
Proof.
  intros Hen Ht. apply and_then_conversed with (mid := JOIN_RCVD); [done| |].
  - intros a. apply and_then_conversed with (mid := CLIENT_DETAILS_RCVD); [done| |].
    + intros a' Hm. by eapply MemberAndOK_conversed.
    + intros mm' c res' He _. by apply JoinAndReply_conversed.
  - intros mm' c res'. apply GetAndMembers_conversed.
Qed.

(** Bye, from any state a session can be in. *)
Lemma then_bye r mm from mid res : encrypts (mm_CnxHandler mm) ->
  (forall a, r = Done a -> conversed (mm_CnxHandler mm) from a mid) -> HELLO_RCVD <= mid <= JOIN_RCVD ->
  and_then r ByeAndAck = Done res -> conversed (mm_CnxHandler mm) from res BYE_RCVD.
Proof.
  intros Hen Hr Hmid. apply and_then_conversed with (mid := mid); [done|done|].
  intros mm' c res' He _. by apply ByeAndAck_conversed.
Qed.

Lemma session_conversed mm t session res :
  session ∈ [admin_session; user_session; join_session; solo_session] ->
  encrypts (mm_CnxHandler mm) -> member_token mm = Done (Ok t) -> session mm = Done res ->
  exists to, conversed (mm_CnxHandler mm) HELLO_RCVD res to /\ (to = BYE_RCVD \/ to = JOIN_RCVD).
Proof.
  intros Hin Hen Ht Hs.
  assert (forall a, MemberAndOK mm = Done a -> conversed (mm_CnxHandler mm) HELLO_RCVD a CLIENT_DETAILS_RCVD)
    as Hm by (intros a; by eapply MemberAndOK_conversed).
  repeat (apply elem_of_cons in Hin as [->|Hin]); [..|by apply elem_of_nil in Hin].
  - exists BYE_RCVD. split; [|by left]. eapply (then_bye _ mm _ CREATE_REQUEST_RCVD); [done| |done|exact Hs].
    intros a. apply and_then_conversed with (mid := CLIENT_DETAILS_RCVD); [done|done|].
    intros mm' c res' He _. by apply CreateAndReply_conversed.
  - exists BYE_RCVD. split; [|by left]. eapply (then_bye _ mm _ JOIN_RCVD); [done| |done|exact Hs].
    intros a. by eapply join_session_conversed.
  - exists JOIN_RCVD. split; [|by right]. by eapply join_session_conversed.
  - exists BYE_RCVD. split; [|by left]. by eapply (then_bye _ mm _ CLIENT_DETAILS_RCVD).
Qed.

(** A session leaves the node and what it was asked to be as they are. *)
Lemma MemberAndOK_node mm err mm' : MemberAndOK mm = Done (err, mm') ->
  cm_Node (mm_ClusterMember mm') = cm_Node (mm_ClusterMember mm).
Proof.
  unfold MemberAndOK. intros Hm. apply bind_Done_inv in Hm as (t & _ & Hm).
  apply bind_Done_inv in Hm as (ch & _ & Hm). apply bind_Done_inv in Hm as ([[r [e|]] ch2] & _ & Hm);
    by injection Hm as _ <-.
Qed.

Lemma ByeAndAck_member mm err mm' : ByeAndAck mm = Done (err, mm') -> mm_ClusterMember mm' = mm_ClusterMember mm.
Proof.
  unfold ByeAndAck. intros Hm. apply bind_Done_inv in Hm as ([[e|] ch] & _ & Hm); [by injection Hm as _ <-|].
  apply bind_Done_inv in Hm as ([[r e] ch2] & _ & Hm). by injection Hm as _ <-.
Qed.

Lemma SessionSetup_member dial v mm b v' err mm' : SessionSetup dial v mm = Done (b, v', err, mm') ->
  mm_ClusterMember mm' = mm_ClusterMember mm.
Proof.
  unfold SessionSetup. intros Hs. apply bind_Done_inv in Hs as (p & _ & Hs).
  apply bind_Done_inv in Hs as (ctor & _ & Hs). destruct (dial ctor) as [c|]; [|by injection Hs as _ _ _ <-].
  cbn [NewCnxHandler] in Hs. destruct xa_ClientEncryptHello as [[s1 ct]|]; [|by injection Hs as _ _ _ <-].
  apply bind_Done_inv in Hs as ([[e|] ch2] & _ & Hs); [by injection Hs as _ _ _ <-|].
  apply bind_Done_inv in Hs as ([[ct2 rerr] ch3] & _ & Hs).
  destruct (match ct2 with Some _ => rerr | None => _ end); [by injection Hs as _ _ _ <-|].
  destruct xa_ClientDecryptHelloReply as [[s2 v2]|]; by injection Hs as _ _ _ <-.
Qed.

Lemma and_then_inv r k err mm : and_then r k = Done (err, mm) ->
  (exists e, r = Done (Some e, mm) /\ err = Some e) \/ (exists mm1, r = Done (None, mm1) /\ k mm1 = Done (err, mm)).
Proof.
  unfold and_then. intros Ha. apply bind_Done_inv in Ha as ([[e|] mm1] & Hr & Ha).
  - injection Ha as <- <-. left. by exists e.
  - right. by exists mm1.
Qed.
End Sessions.

(** ** Theorems *)

Section Theorems.
Context `{Ext}.

(** C15: Every client program follows the protocol of the server: if it can sign its token and
    encrypt, the messages it sends, in order, are permitted in the states they lead
    the connection through, starting with the state after the hello; a run without
    error has said goodbye, or, for the bootstrapper, has joined. *)
Theorem clients_follow_protocol mm t session err mm' :
  session ∈ [admin_session; user_session; join_session; solo_session] ->
  encrypts (mm_CnxHandler mm) -> member_token mm = Done (Ok t) -> session mm = Done (err, mm') ->
  exists msgs st, sends (mm_CnxHandler mm) msgs (mm_CnxHandler mm') /\
    path HELLO_RCVD (tag_of <$> msgs) st /\ (err = None -> st = BYE_RCVD \/ st = JOIN_RCVD).
Proof.
  intros Hin Hen Ht Hs. destruct (session_conversed mm t session (err, mm') Hin Hen Ht Hs)
    as (to & (msgs & st & Hsd & Hp & Hto) & Hend).
  exists msgs, st. split_and!; [done|done|]. intros ->. by rewrite (Hto eq_refl).
Qed.

(** A solo client whose run ends without error has written its node, as text, to
    .xlattice/node.config in its local file system; one whose run fails before saving
    has written nothing. *)
Theorem solo_persists create pathExists checkLFS writeFile dial sc err sc' written :
  solo_Start create pathExists checkLFS writeFile dial sc = Done (err, sc', written) ->
  let node := cm_Node (mm_ClusterMember sc) in
  let path := filepath_Join [filepath_Join [xn_Node_GetLFS node; str ".xlattice"]; str "node.config"] in
  (written = None \/ written = Some (path, xn_Node_String node)) /\
  (err = None -> written = Some (path, xn_Node_String node) /\ writeFile path (xn_Node_String node) = None /\
     create = None).
Proof.
  intros Hs node path. unfold solo_Start in Hs. destruct create as [e|]; [done|].
  apply bind_Done_inv in Hs as ([[[cnx v] err1] mm1] & Hset & Hs).
  apply bind_Done_inv in Hs as ([err2 mm2] & Hses & Hs).
  assert (cm_Node (mm_ClusterMember mm2) = node) as Hnode.
  { apply SessionSetup_member in Hset. unfold node. rewrite <-Hset.
    apply and_then_inv in Hses as [(e & [= -> <-] & _)|(mm3 & [= _ <-] & Hses)]; [done|].
    apply and_then_inv in Hses as [(e & Hm & _)|(mm3 & Hm & Hb)]; [by eapply MemberAndOK_node|].
    rewrite (ByeAndAck_member _ _ _ Hb). by eapply MemberAndOK_node. }
  destruct err2 as [e|]; [injection Hs as <- <- <-; split; [by left|done]|].
  unfold PersistNode in Hs. rewrite Hnode in Hs. fold path in Hs. destruct (pathExists _) as [found [e|]].
  - injection Hs as <- <- <-. split; [by left|done].
  - destruct (if found then None else _) as [e|]; injection Hs as <- <- <-; [split; [by left|done]|].
    split; [by right|]. by destruct (writeFile path (xn_Node_String node)).
Qed.

(** The errors of making a user's client, other than not getting an identifier, are lost:
    without the name of the registry, for instance, [NewUserMember] returns neither a
    client nor an error. *)
Theorem NewUserMember_error_lost name lfs ck sk rid re rck rsk cn ca ci size ep eps nid ds node :
  xn_New name (Some nid) lfs ck sk [] = inl node ->
  NewUserMember name lfs ck sk [] rid re rck rsk cn ca ci size ep eps ((Some nid, None) :: ds) =
    Done (None, None).
Proof.
  intros Hn. unfold NewUserMember. cbn [xi_New_opt]. rewrite bind_Done, Hn. unfold NewMemberMaker.
  rewrite bool_decide_eq_true_2 by done. by rewrite bind_Done.
Qed.
End Theorems.

(** ** Witnesses *)

Module ClientsWitness.
Import ModelInstances ClientInfoWitness RegClusterWitness RegNodeWitness RegistryWitness MsgHandlersWitness.
Import MemberInfoWitness MemberMakerWitness.

Lemma w_encrypts ch : encrypts ch.
Proof. intros m r. by eexists. Qed.

(** A solo client, served by a registry that says MemberOK and Ack. *)
Definition w_memberOK : XLRegMsg := with_MemberAttrs (Some 5)
  (with_MemberID (Some (str "0123456789abcdefghij")) (msg_of_op XLRegMsg_MemberOK)).
Definition w_solo : MemberMaker := w_mm 2 [w_memberOK; msg_of_op XLRegMsg_Ack].
Definition both_ok (r1 : outcome (result XLRegMsg_Token)) (r2 : outcome (option error * MemberMaker)) : bool :=
  match r1 with Done (Ok _) => true | _ => false end && match r2 with Done (None, _) => true | _ => false end.
Lemma both_ok_inv r1 r2 : both_ok r1 r2 = true -> exists t mm', r1 = Done (Ok t) /\ r2 = Done (None, mm').
Proof. destruct r1 as [[t|?]|?|], r2 as [[[?|] mm']|?|]; try done. intros _. by exists t, mm'. Qed.
Lemma w_solo_done : exists t mm', member_token w_solo = Done (Ok t) /\ solo_session w_solo = Done (None, mm').
Proof. apply both_ok_inv. vm_compute. reflexivity. Qed.

Lemma clients_follow_protocol_witness : exists mm' msgs st,
  sends (mm_CnxHandler w_solo) msgs (mm_CnxHandler mm') /\ path HELLO_RCVD (tag_of <$> msgs) st.
Proof.
  destruct w_solo_done as (t & mm' & Ht & Hs).
  destruct (clients_follow_protocol w_solo t solo_session None mm') as (msgs & st & Hm & Hp & _).
  - right. right. right. left.
  - apply w_encrypts.
  - exact Ht.
  - exact Hs.
  - exists mm', msgs, st. split; [exact Hm|exact Hp].
Defined.

(** A solo client that cannot connect. *)
Lemma solo_persists_witness : exists sc' written,
  solo_Start None (fun _ => (true, None)) (fun _ _ => None) (fun _ _ => None) (fun _ => inr EOF) w_solo =
    Done (Some (ExtErr EOF), sc', written) /\
  (written = None \/ written = Some (str ".xlattice/node.config", xn_Node_String w_clientNode)).
Proof.
  eexists _, _. split; [reflexivity|].
  refine (proj1 (solo_persists None (fun _ => (true, None)) (fun _ _ => None) (fun _ _ => None)
    (fun _ => inr EOF) w_solo (Some (ExtErr EOF)) w_solo None _)). reflexivity.
Defined.

Lemma NewUserMember_error_lost_witness :
  NewUserMember (str "alice") [] (Some w_priv) (Some w_priv) [] None None None None (str "east") 0 None 2 1 []
    [(Some (w_id "new1"), None)] = Done (None, None).
Proof.
  eapply (NewUserMember_error_lost (str "alice") [] (Some w_priv) (Some w_priv) None None None None (str "east")
    0 None 2 1 [] (w_id "new1") []). reflexivity.
Defined.
End ClientsWitness.
