(* ===== verification/Session.v ===== *)
(** * The two sides together

    What the client's exchanges (memberNode.go) achieve with the server's handlers
    (in_handler.go, msg_handlers.go): the token a client signs is accepted, a Join
    makes it a member, and GetCluster tells it what the registry has.  The reply of
    the server is the value of the handler; that it reaches the client is the
    hypothesis [exchange], which [exchange_tape] derives from the laws of the
    encodings. *)
From S2P Require Import Prelude GoStd GoCrypto Errors Proto Ext ExtModel ClientInfo RegCluster.
From S2P Require Import RegCred RegNode Registry CnxHandler MsgHandlers InHandler Server Spec.
From S2P Require Import MemberInfo MemberMaker Clients.

Section Facts.
Context `{Ext}.

(** A message in a state with a handler that reports no error. *)
Lemma handle_msg_done w h m row f w' h' :
  index msgHandlers (h_entryState h) = Done row -> index row (op2tag (GetOp m)) = Done f ->
  f w (set_msgIn m h) = Done (w', h') -> h_errOut h' = None -> handle_msg w h m = Done (w', h').
Proof.
  intros Hr Hf Hd He. rewrite (handle_msg_dispatch _ _ _ _ _ Hr Hf), Hd, bind_Done. by rewrite He.
Qed.

Lemma u64_bits z : (forall i, 64 <= i -> Z.testbit z i = false) -> is_u64 z.
Proof.
  intros Hb. assert (z = z mod 2 ^ 64) as ->; [|apply Z.mod_pos_bound; lia].
  apply Z.bits_inj'. intros i Hi. destruct (decide (i < 64)).
  - by rewrite Z.mod_pow2_bits_low by lia.
  - by rewrite Z.mod_pow2_bits_high, Hb by lia.
Qed.

(** The signed token of a client: its fields, and that the signature verifies. *)
Lemma member_token_Ok `{!WireLaws} mm t : member_token mm = Done (Ok t) ->
  let node := cm_Node (mm_ClusterMember mm) in
  exists ck sk, xn_Node_GetCommsPrivateKey node = Some ck /\ xn_Node_GetSigPrivateKey node = Some sk /\
    tok_Name t = Some (xn_GetName (xn_Node_Base node)) /\ tok_Attrs t = Some (mm_ProposedAttrs mm) /\
    tok_ID t = xi_Value <$> xn_GetNodeID (xn_Node_Base node) /\
    xc_RSAPubKeyFromWire (tok_CommsKey t) = inl (key_pub ck) /\
    xc_RSAPubKeyFromWire (tok_SigKey t) = inl (key_pub sk) /\
    (good_key sk -> VerifyPKCS1v15 (key_pub sk) (client_hash (default [] (tok_Name t))
       (default 0 (tok_Attrs t)) (tok_CommsKey t) (tok_SigKey t) (tok_MyEnds t))
       (default [] (tok_DigSig t)) = None).
Proof.
  unfold member_token. set (node := cm_Node _). intros Ht. cbv zeta.
  apply bind_Done_inv in Ht as (ck & Hck%deref_Done_inv & Ht).
  destruct (xc_RSAPubKeyToWire (Some (key_pub ck))) as [cb|] eqn:Ec; [|done].
  apply bind_Done_inv in Ht as (sk & Hsk%deref_Done_inv & Ht).
  destruct (xc_RSAPubKeyToWire (Some (key_pub sk))) as [sb|] eqn:Es; [|done].
  apply bind_Done_inv in Ht as (ends & _ & Ht).
  destruct SignPKCS1v15 as [sig|] eqn:Esig; [|done]. injection Ht as <-.
  exists ck, sk. split_and!; try done; [by apply xc_FromWire_ToWire..|].
  intros Hg. cbn [tok_Name tok_Attrs tok_CommsKey tok_SigKey tok_MyEnds tok_DigSig].
  apply Verify_Sign; [done|]. unfold client_hash. refine (eq_trans _ Esig). do 6 f_equal.
  by destruct ends.
Qed.
(** The members of a complete cluster, asked for in one request. *)
Lemma get_complete `{!BitMapLaws} `{!HamtLaws} `{!NodeIDLaws} `{!WireLaws} `{!PeerLaws}
    tok info mm cid self c w h p rc ck n :
  let cm := mm_ClusterMember mm in
  cm_ClusterID cm = Some cid -> cm_ClusterMaxSize cm = Z.of_nat n -> (0 < n <= 64)%nat ->
  cm_Members cm = Some (replicate n None) ->
  xn_GetNodeID (xn_Node_Base (cm_Node cm)) = Some self ->
  h_entryState h = JOIN_RCVD -> ha_NewBytesKey (Some (xi_Value cid)) = (ck, None) ->
  ha_Find (reg_ClustersByID (w_reg w)) ck = (Some p, None) -> w_heap w !! p = Some rc ->
  length (rc_Members rc) = n ->
  Forall (fun m => is_Some (xn_GetCommsPublicKey (ci_BaseNode m)) /\
    is_Some (xn_GetSigPublicKey (ci_BaseNode m)) /\ Token m = Done (Ok (tok m)) /\
    forall ds, exists ds', NewMemberInfoFromToken (Some (tok m)) ds = Done (Ok (info m), ds')) (rc_Members rc) ->
  c ∈ rc_Members rc -> xi_Value <$> ci_GetNodeID c = Some (xi_Value self) ->
  exists h' reply, handle_msg w h (Some (get_request cid (wanted 0 n))) = Done (w, h') /\
    h_msgOut h' = Some reply /\
    forall ch', exchange (mm_CnxHandler mm) (get_request cid (wanted 0 n)) reply ch' ->
      exists mm', GetAndMembers mm = Done (None, mm') /\ mm_CnxHandler mm' = ch' /\
        cm_Members (mm_ClusterMember mm') = Some (Some ∘ info <$> rc_Members rc) /\
        Forall (fun m => info_matches (info m) m) (rc_Members rc) /\
        exists j m, cm_SelfIndex (mm_ClusterMember mm') = Z.of_nat j /\ rc_Members rc !! j = Some m /\
          xi_Value <$> ci_GetNodeID m = Some (xi_Value self).
Proof.
  intros cm Hcid Hsz Hn Hms Hself Hs Hck Hf Hp Hl Hall Hc Hcself.
  set (ms := rc_Members rc) in *.
  assert (Forall (fun m => info_matches (info m) m /\ readable tok info m) ms) as Hd.
  { eapply Forall_impl; [exact Hall|]. intros m ([ck' Hk] & [sk' Hs'] & Ht & Hr).
    assert (forall ds, NewMemberInfoFromToken (Some (tok m)) ds = Done (Ok (info m), ds) /\
      info_matches (info m) m) as Hrd.
    { intros ds. destruct (Hr ds) as [ds' Hm]. destruct (token_describes m ck' sk' (tok m) ds (info m) ds'
        Hk Hs' Ht Hm) as [Hdm ->]. done. }
    destruct (Hrd []) as [_ Hdm]. split; [done|]. split; [intros ds; apply Hrd|].
    pose proof (ds_ID _ _ Hdm) as Hi. unfold Token in Ht.
    destruct xc_RSAPubKeyToWire; [|done]. destruct xc_RSAPubKeyToWire; [|done].
    apply bind_Done_inv in Ht as (i & Hti%deref_Done_inv & _). rewrite Hti in Hi.
    apply (fmap_is_Some xi_Value). rewrite Hi. by eexists. }
  assert (is_u64 (wanted 0 n)) as Hu.
  { unfold wanted. rewrite Z.shiftl_0_r, Z.sub_0_r, Z.ones_equiv. unfold is_u64.
    pose proof (Z.pow_pos_nonneg 2 (Z.of_nat n) ltac:(lia) ltac:(lia)).
    pose proof (Z.pow_le_mono_r 2 (Z.of_nat n) 64 ltac:(lia) ltac:(lia)). lia. }
  destruct (doGetMsg_reply w (set_msgIn (Some (get_request cid (wanted 0 n))) h) (xi_Value cid) ck p rc tok)
    as (h' & reply & bits & Hg & He & _ & Hout & _ & Hwh & Hb & Htk); try done.
  { fold ms. unfold is_u32. lia. }
  { fold ms. eapply Forall_impl; [exact Hall|]. by intros m (_ & _ & Ht & _). }
  change (GetWhich _) with (wanted 0 n) in Hb, Htk. fold ms in Hb, Htk.
  assert (answers_get tok (wanted 0 n) ms reply) as Ha.
  { assert (GetWhich (Some reply) = bits) as Hgw by (unfold GetWhich; cbn; by rewrite Hwh).
    split; rewrite ?Hgw; try done.
    apply u64_bits. intros i Hi. rewrite Hb by lia. rewrite (proj2 (Z.ltb_ge _ _)); [by rewrite andb_false_r|].
    rewrite length_take. lia. }
  exists h', reply. split; [|split; [done|]].
  - eapply handle_msg_done; [by rewrite Hs|done|exact Hg|done].
  - intros ch' Hx. apply Forall_and in Hd as [Hd Hr].
    destruct (GetAndMembers_served tok info mm cid self n [ms] ch') as (mm' & Hgm & Hch & Hmm & Hself'); try done.
    + eapply served_cons; [exact Hx|exact Ha|done|apply prefix_nil|lia|by right|constructor].
    + left. split; [unfold MAX_GET; simpl; lia|done].
    + cbn [List.last] in Hmm, Hself'. rewrite Hl, Nat.sub_diag, app_nil_r in Hmm.
      exists mm'. split_and!; try done.
      destruct Hself' as [Hno|(j & m & Hj & Hm & Hh & _)].
      * exfalso. rewrite Forall_forall in Hno, Hd. apply (Hno c Hc). by rewrite (ds_ID _ _ (Hd c Hc)).
      * exists j, m. split_and!; try done. rewrite Forall_forall in Hd.
        by rewrite <-(ds_ID _ _ (Hd m (list_elem_of_lookup_2 _ _ _ Hm))).
Qed.

(** A message that was not answered with an error was handled by the entry of the table. *)
Lemma handle_msg_ran w h m row f w' h' :
  index msgHandlers (h_entryState h) = Done row -> index row (op2tag (GetOp m)) = Done f ->
  handle_msg w h m = Done (w', h') -> h_exitState h' <> IN_CLOSED ->
  f w (set_msgIn m h) = Done (w', h') /\ h_errOut h' = None.
Proof.
  intros Hr Hf Hm Hx. rewrite (handle_msg_dispatch _ _ _ _ _ Hr Hf) in Hm.
  apply bind_Done_inv in Hm as ([w1 h1] & Hd & Hm). destruct (h_errOut h1) as [e|] eqn:He;
    injection Hm as <- <-; done.
Qed.

(** A Join that was accepted. *)
Lemma doJoinMsg_Ok w h w' h' : doJoinMsg w h = Done (w', h') -> h_errOut h' = None ->
  exists c p rc rc', h_thisClient h = Some c /\ w_heap w !! p = Some rc /\
    AddMember rc c = Done (rc', None) /\ w_heap w' = <[p := rc']> (w_heap w) /\
    h_thisClient h' = Some c /\ h_cluster h' = Some p /\ h_exitState h' = JOIN_RCVD /\
    h_msgOut h' = Some (with_EndPointCount (Some (rc_epCount rc'))
      (with_ClusterMaxSize (Some (rc_maxSize rc')) (with_ClusterAttrs (Some (rc_Attrs rc'))
      (with_ClusterID (rc_ID rc') (msg_of_op XLRegMsg_JoinReply))))).
Proof.
  unfold doJoinMsg. intros Hj He. apply bind_Done_inv in Hj as (c & Hc%deref_Done_inv & Hj).
  destruct (join_cluster w h) as [cl [e|]].
  - apply bind_Done_inv in Hj as (p & _ & Hj). injection Hj as <- <-. done.
  - apply bind_Done_inv in Hj as (p & Hp%deref_Done_inv & Hj). apply bind_Done_inv in Hj as (rc & Hrc%deref_Done_inv & Hj).
    apply bind_Done_inv in Hj as ([rc' [e|]] & Ha & Hj); injection Hj as <- <-; [done|].
    exists c, p, rc, rc'. by split_and!.
Qed.

(** An accepted token with an identifier: the client of the connection has it. *)
Lemma member_accepted `{!NodeIDLaws} `{!BloomLaws} `{!BaseNodeLaws} w h t b w' h' :
  h_entryState h = HELLO_RCVD -> tok_ID t = Some b ->
  handle_msg w h (Some (member_request t)) = Done (w', h') -> h_exitState h' <> IN_CLOSED ->
  exists c, h_thisClient h' = Some c /\ xi_Value <$> ci_GetNodeID c = Some b /\
    h_exitState h' = CLIENT_DETAILS_RCVD.
Proof.
  intros Hs Hb Hm Hx. destruct (handle_msg_ran w h (Some (member_request t))
    [doClientMsg; badCombo; badCombo; badCombo; doByeMsg] doClientMsg w' h' ltac:(by rewrite Hs) ltac:(done) Hm Hx) as [Hd He].
  destruct (doClientMsg_Ok _ _ _ _ Hd He) as (ck & sk & nid & err & n & cm & _ & _ & _ & Hid & Herr & -> & Hcm & ->).
  change (GetMemberSpecs _) with (Some t) in Hid, Hcm. unfold Token_GetID in Hid. cbn in Hid. rewrite Hb in Hid.
  destruct (client_nodeID_Ok _ _ _ _ _ Hid Herr) as (n' & [= <-] & _ & Hv).
  destruct (NewClientInfo_Ok _ _ _ _ _ _ _ Hcm) as (_ & Hcid & _).
  exists cm. split_and!; [done| |done]. rewrite Hcid. cbn. by rewrite Hv.
Qed.

(** A Join that was accepted: later, the client is still among the members of the cluster,
    whose size is the one replied. *)
Lemma join_accepted v w2 g h w cid p rc c : h_entryState h = CLIENT_DETAILS_RCVD -> h_thisClient h = Some c ->
  handle_msg w h (Some (join_request cid)) = Done (v, g) -> h_exitState g <> IN_CLOSED -> extends v w2 ->
  h_cluster g = Some p -> w_heap w2 !! p = Some rc ->
  c ∈ rc_Members rc /\ h_exitState g = JOIN_RCVD /\
  exists reply, h_msgOut g = Some reply /\ GetClusterMaxSize (Some reply) = rc_maxSize rc.
Proof.
  intros Hs Hc Hm Hx Hext Hp Hrc.
  destruct (handle_msg_ran w h (Some (join_request cid)) [badCombo; doCreateMsg; doJoinMsg; badCombo; doByeMsg]
    doJoinMsg v g ltac:(by rewrite Hs) ltac:(done) Hm Hx) as [Hd He].
  destruct (doJoinMsg_Ok _ _ _ _ Hd He) as (c' & p' & rc0 & rc' & Hc' & Hp0 & Ha & Hheap & _ & Hp' & Hst & Ho).
  cbn in Hc'. rewrite Hc in Hc'. injection Hc' as <-. rewrite Hp in Hp'. injection Hp' as <-.
  assert (w_heap v !! p = Some rc') as Hv.
  { rewrite Hheap. apply list_lookup_insert_eq. by eapply lookup_lt_Some. }
  destruct (ext_heap _ _ Hext _ _ Hv) as (rc2 & Hrc2 & (_ & _ & _ & Hsz & _) & l & Hl).
  rewrite Hrc in Hrc2. injection Hrc2 as <-.
  destruct (AddMember_Ok _ _ _ Ha) as (_ & ? & ? & ? & _ & _ & _ & Erc).
  split_and!; [|done|].
  - rewrite Hl, Erc. cbn. set_solver.
  - eexists. split; [done|]. by rewrite Hsz.
Qed.
End Facts.

(** A turn of the conversation: the server handles the request without an error, the reply
    reaches the client, and then the server may handle messages of other
    connections. *)
Definition turn `{Ext} (w : world) (h : InHandler) (ch : CnxState) (req : XLRegMsg)
    (w' : world) (h' : InHandler) (ch' : CnxState) : Prop :=
  exists w1 h1 reply, handle_msg w h (Some req) = Done (w1, h1) /\ h_exitState h1 <> IN_CLOSED /\
    h_msgOut h1 = Some reply /\ exchange ch req reply ch' /\
    h' = set_entryState (h_exitState h1) h1 /\ extends w1 w'.

(** ** Theorems *)

Section Theorems.
Context `{Ext}.

(** C11: The token that a client with a good key signs is accepted by a server that can give
    the client an identifier: the registry has the client's name, keys and
    attributes, and the client, when the reply reaches it, has its attributes
    accepted. *)
Theorem member_registers `{!WireLaws} mm t ck sk w h nid w1 base :
  let node := cm_Node (mm_ClusterMember mm) in
  member_token mm = Done (Ok t) -> GetCKPriv mm = Done ck -> GetSKPriv mm = Done sk -> good_key sk ->
  h_entryState h = HELLO_RCVD -> client_nodeID w (tok_ID t) = Done (Some nid, None, w1) ->
  xn_NewBaseNode (xn_GetName (xn_Node_Base node)) (Some nid) (Some (key_pub ck)) (Some (key_pub sk)) =
    inl base ->
  exists h' reply, handle_msg w h (Some (member_request t)) = Done (w1, h') /\
    h_thisClient h' = Some (mkClientInfo (mm_ProposedAttrs mm) (tok_MyEnds t) base) /\
    h_exitState h' = CLIENT_DETAILS_RCVD /\ h_msgOut h' = Some reply /\
    forall ch', exchange (mm_CnxHandler mm) (member_request t) reply ch' ->
      MemberAndOK mm = Done (None, with_member (set_Attrs (mm_ProposedAttrs mm)) (with_cnx ch' mm)).
Proof.
  intros node Ht Hck Hsk Hg Hs Hid Hb.
  destruct (member_token_Ok mm t Ht) as (ck' & sk' & Ec & Es & Hn & Ha & _ & Hc1 & Hc2 & Hv).
  unfold GetCKPriv, GetSKPriv in Hck, Hsk. fold node in Ec, Es, Hn, Hck, Hsk.
  rewrite Ec in Hck. rewrite Es in Hsk. injection Hck as ->. injection Hsk as ->.
  eexists _, _. split.
  - eapply handle_msg_done; [by rewrite Hs|done| |].
    + eapply (doClientMsg_accepts w (set_msgIn (Some (member_request t)) h) t); [done..|by apply Hv|done|].
      unfold NewClientInfo. rewrite Hn. cbn [default from_option id]. rewrite Hb. reflexivity.
    + done.
  - split; [by rewrite Ha|]. split; [done|]. split; [done|].
    intros ch' Hx. rewrite (MemberAndOK_exchange _ _ _ _ Ht Hx). unfold GetMemberAttrs. cbn. by rewrite Ha.
Qed.

(** C13: A client that joins a cluster by its identifier, under a name that is free, becomes
    its last member; the client, when the reply reaches it, has the maximum size of
    the cluster and as many empty slots for members.  The registry does not check
    that size: the slots suffice for the members exactly when the cluster was not
    full before. *)
Theorem join_registers `{!HamtLaws} mm cid w h c p rc nid k ck :
  let cm := mm_ClusterMember mm in
  cm_ClusterID cm = Some cid ->
  cm_Members cm = Some (replicate (Z.to_nat (cm_ClusterMaxSize cm)) None) ->
  reg_wf w -> h_thisClient h = Some c ->
  h_entryState h = CLIENT_DETAILS_RCVD \/ h_entryState h = CREATE_REQUEST_RCVD ->
  ha_NewBytesKey (Some (xi_Value cid)) = (ck, None) ->
  ha_Find (reg_ClustersByID (w_reg w)) ck = (Some p, None) -> w_heap w !! p = Some rc ->
  ci_GetName c ∉ (ci_GetName <$> rc_Members rc) ->
  ci_GetNodeID c = Some nid -> ha_NewBytesKey (Some (xi_Value nid)) = (k, None) ->
  AddMember_checkID rc = None -> (ha_Insert (rc_MembersByID rc) k c).2 = None ->
  exists w' h' rc' reply, handle_msg w h (Some (join_request cid)) = Done (w', h') /\
    w_reg w' = w_reg w /\ w_heap w' = <[p := rc']> (w_heap w) /\
    rc_Members rc' = rc_Members rc ++ [c] /\ rc_maxSize rc' = rc_maxSize rc /\
    h_exitState h' = JOIN_RCVD /\ h_msgOut h' = Some reply /\
    forall ch', exchange (mm_CnxHandler mm) (join_request cid) reply ch' ->
      exists mm', JoinAndReply mm = Done (None, mm') /\ mm_CnxHandler mm' = ch' /\
        let cm' := mm_ClusterMember mm' in
        cm_ClusterID cm' = Some cid /\ cm_ClusterMaxSize cm' = rc_maxSize rc /\
        cm_EPCount cm' = rc_epCount rc /\ cm_Node cm' = cm_Node cm /\
        cm_Members cm' = Some (replicate (Z.to_nat (rc_maxSize rc)) None) /\
        (length (rc_Members rc') <= Z.to_nat (rc_maxSize rc) <->
         length (rc_Members rc) < Z.to_nat (rc_maxSize rc))%nat.
Proof.
  intros cm Hcid Hms Hw Hc Hs Hck Hf Hp Hnm Hid Hk Hci Hins.
  destruct (doJoinMsg_joins w (set_msgIn (Some (join_request cid)) h) c p rc nid k) as (w' & h' & Hd & Hreg & Hj);
    try done.
  { unfold join_cluster. cbn [set_msgIn h_msgIn join_request GetClusterID mbind option_bind msg_ClusterID
      with_ClusterID]. by rewrite Hck, Hf. }
  rewrite bool_decide_eq_false_2 in Hj by done.
  destruct Hj as (He & Hx & _ & (rc' & Hheap & (_ & _ & _ & Hmax & _) & Hmem) & Hout).
  exists w', h', rc'. eexists. split; [|split_and!; try done].
  - destruct Hs as [Hs|Hs]; (eapply handle_msg_done; [by rewrite Hs|done|exact Hd|done]).
  - intros ch' Hx'. rewrite (JoinAndReply_exchange _ _ _ _ Hcid Hx'). eexists. split; [done|]. split; [done|].
    unfold join_replied, with_member, with_cnx. cbn [mm_ClusterMember]. fold cm.
    cbn [GetClusterMaxSize GetEndPointCount mbind option_bind msg_ClusterMaxSize msg_EndPointCount
      with_EndPointCount with_ClusterMaxSize default from_option]. unfold id.
    assert (length (rc_Members rc') = S (length (rc_Members rc))) as Hl
      by (rewrite Hmem, length_app; simpl; lia).
    destruct (Z.eqb_spec (cm_ClusterMaxSize cm) (rc_maxSize rc)) as [E|E]; split_and!; try done; try lia.
    cbn. by rewrite Hms, E.
Qed.

(** A client that asks for the members of a cluster that is complete learns, of every
    member, the name, identifier, keys, attributes and end points the registry has,
    in the order of joining, and the place of its own identifier among them. *)
Theorem get_learns `{!BitMapLaws} `{!HamtLaws} `{!NodeIDLaws} `{!WireLaws} `{!PeerLaws}
    tok info mm cid self c w h p rc ck n :
  let cm := mm_ClusterMember mm in
  cm_ClusterID cm = Some cid -> cm_ClusterMaxSize cm = Z.of_nat n -> (0 < n <= 64)%nat ->
  cm_Members cm = Some (replicate n None) ->
  xn_GetNodeID (xn_Node_Base (cm_Node cm)) = Some self ->
  h_entryState h = JOIN_RCVD -> ha_NewBytesKey (Some (xi_Value cid)) = (ck, None) ->
  ha_Find (reg_ClustersByID (w_reg w)) ck = (Some p, None) -> w_heap w !! p = Some rc ->
  length (rc_Members rc) = n ->
  Forall (fun m => is_Some (xn_GetCommsPublicKey (ci_BaseNode m)) /\
    is_Some (xn_GetSigPublicKey (ci_BaseNode m)) /\ Token m = Done (Ok (tok m)) /\
    forall ds, exists ds', NewMemberInfoFromToken (Some (tok m)) ds = Done (Ok (info m), ds')) (rc_Members rc) ->
  c ∈ rc_Members rc -> xi_Value <$> ci_GetNodeID c = Some (xi_Value self) ->
  exists h' reply, handle_msg w h (Some (get_request cid (wanted 0 n))) = Done (w, h') /\
    h_msgOut h' = Some reply /\
    forall ch', exchange (mm_CnxHandler mm) (get_request cid (wanted 0 n)) reply ch' ->
      exists mm', GetAndMembers mm = Done (None, mm') /\ mm_CnxHandler mm' = ch' /\
        cm_Members (mm_ClusterMember mm') = Some (Some ∘ info <$> rc_Members rc) /\
        Forall (fun m => info_matches (info m) m) (rc_Members rc) /\
        exists j m, cm_SelfIndex (mm_ClusterMember mm') = Z.of_nat j /\ rc_Members rc !! j = Some m /\
          xi_Value <$> ci_GetNodeID m = Some (xi_Value self).
Proof. apply get_complete. Qed.

(** C12: A client whose cluster is created, or described if it exists, when the reply reaches
    it, has the identifier and size under which the registry has a cluster of that
    name. *)
Theorem create_registers `{!NodeIDLaws} `{!HamtLaws} `{!BloomLaws} mm w h w' h' :
  let cm := mm_ClusterMember mm in
  cm_ClusterName cm <> [] -> reg_wf w -> h_registered w h -> h_entryState h = CLIENT_DETAILS_RCVD ->
  handle_msg w h (Some (create_request mm)) = Done (w', h') -> h_exitState h' <> IN_CLOSED ->
  exists cs reply, abs w' !! cm_ClusterName cm = Some cs /\ h_msgOut h' = Some reply /\
    forall ch', exchange (mm_CnxHandler mm) (create_request mm) reply ch' ->
      exists mm' cid, CreateAndReply mm = Done (None, mm') /\ mm_CnxHandler mm' = ch' /\
        cm_ClusterID (mm_ClusterMember mm') = Some cid /\ xi_Value cid = cs_id cs /\
        cm_ClusterMaxSize (mm_ClusterMember mm') = cs_maxSize cs.
Proof.
  intros cm Hne Hw Hreg Hs Hm Hx.
  destruct (handle_msg_ran w h (Some (create_request mm)) [badCombo; doCreateMsg; doJoinMsg; badCombo; doByeMsg]
    doCreateMsg w' h' ltac:(by rewrite Hs) ltac:(done) Hm Hx) as [Hd He].
  destruct (doCreateMsg_abs w (set_msgIn (Some (create_request mm)) h) w' h' Hw Hreg Hd) as (e & _ & _ & _ & Hr).
  destruct (Hr He) as (_ & nm & Hnm & cs & reply & Hcs & Ho & Hid & Hsz & _).
  assert (nm = cm_ClusterName cm) as ->.
  { change (h_msgIn _) with (Some (create_request mm)) in Hnm. unfold created_name in Hnm.
    change (GetClusterName _) with (cm_ClusterName cm) in Hnm.
    rewrite bool_decide_eq_false_2 in Hnm by done. by destruct Hnm. }
  assert (exists i, cs_id cs = xi_Value i) as [i Hi].
  { assert (h_ok w (set_msgIn (Some (create_request mm)) h)) as Hok.
    { intros p Hp. destruct (wf_listed _ Hw p (Hreg p Hp)) as (rc & Hrc & _). by eexists. }
    pose proof (ok_wf _ _ _ _ (doCreateMsg_ok _ _ _ _ Hw Hok Hd)) as Hw'. rewrite abs_lookup in Hcs.
    apply bind_Some in Hcs as (p & Hp & Hcs). apply fmap_Some in Hcs as (rc & Hrc & ->).
    destruct (Forall_lookup_1 _ _ _ _ (wf_ids _ Hw') Hrc) as [i Hi]. exists i. cbn. by rewrite Hi. }
  exists cs, reply. split_and!; [done|done|]. intros ch' Hex.
  destruct (xi_New_total i) as [cid Hnew]. destruct (xi_New_Value _ _ Hnew) as (? & [= <-] & Hv).
  rewrite (CreateAndReply_exchange mm reply ch' (cs_id cs) (Some cid) Hex); [|by unfold GetClusterID; cbn|by rewrite Hi].
  eexists _, cid. split_and!; [done|done|done|by rewrite Hi|]. cbn. unfold GetClusterMaxSize. cbn. by rewrite Hsz.
Qed.

(** A whole session, exchange by exchange. *)
Lemma user_session_turns `{!BitMapLaws} `{!NodeIDLaws} `{!HamtLaws} `{!BloomLaws} `{!BaseNodeLaws}
    `{!WireLaws} `{!PeerLaws} tok info mm t self cid w0 h0 w1 h1 ch1 w2 h2 ch2 w3 h3 ch3 w4 h4 ch4 p rc ck n :
  let cm := mm_ClusterMember mm in
  cm_ClusterID cm = Some cid -> xn_GetNodeID (xn_Node_Base (cm_Node cm)) = Some self ->
  cm_Members cm = Some (replicate (Z.to_nat (cm_ClusterMaxSize cm)) None) ->
  member_token mm = Done (Ok t) -> h_entryState h0 = HELLO_RCVD ->
  turn w0 h0 (mm_CnxHandler mm) (member_request t) w1 h1 ch1 ->
  turn w1 h1 ch1 (join_request cid) w2 h2 ch2 ->
  h_cluster h2 = Some p -> w_heap w2 !! p = Some rc -> ha_NewBytesKey (Some (xi_Value cid)) = (ck, None) ->
  ha_Find (reg_ClustersByID (w_reg w2)) ck = (Some p, None) ->
  length (rc_Members rc) = n -> rc_maxSize rc = Z.of_nat n -> (0 < n <= 64)%nat ->
  Forall (fun m => is_Some (xn_GetCommsPublicKey (ci_BaseNode m)) /\
    is_Some (xn_GetSigPublicKey (ci_BaseNode m)) /\ Token m = Done (Ok (tok m)) /\
    forall ds, exists ds', NewMemberInfoFromToken (Some (tok m)) ds = Done (Ok (info m), ds')) (rc_Members rc) ->
  turn w2 h2 ch2 (get_request cid (wanted 0 n)) w3 h3 ch3 ->
  turn w3 h3 ch3 (msg_of_op XLRegMsg_Bye) w4 h4 ch4 ->
  exists mm' j m, user_session mm = Done (None, mm') /\ mm_CnxHandler mm' = ch4 /\
    cm_Members (mm_ClusterMember mm') = Some (Some ∘ info <$> rc_Members rc) /\
    Forall (fun m => info_matches (info m) m) (rc_Members rc) /\
    cm_SelfIndex (mm_ClusterMember mm') = Z.of_nat j /\ rc_Members rc !! j = Some m /\
    xi_Value <$> ci_GetNodeID m = Some (xi_Value self).
Proof.
  intros cm Hcid Hself Hms Ht Hs0 (v1 & g1 & r1 & Hm1 & Hx1 & Ho1 & He1 & -> & Hw1)
    (v2 & g2 & r2 & Hm2 & Hx2 & Ho2 & He2 & -> & Hw2) Hp Hrc Hck Hf Hl Hsz Hn Hall
    (v3 & g3 & r3 & Hm3 & Hx3 & Ho3 & He3 & -> & Hw3) (v4 & g4 & r4 & Hm4 & Hx4 & Ho4 & He4 & -> & Hw4).
  assert (tok_ID t = Some (xi_Value self)) as Htid.
  { destruct (member_token_Ok _ _ Ht) as (? & ? & _ & _ & _ & _ & -> & _). fold cm. by rewrite Hself. }
  destruct (member_accepted _ _ _ _ _ _ Hs0 Htid Hm1 Hx1) as (c & Hc & Hcself & Hst1).
  destruct (join_accepted v2 w2 g2 (set_entryState (h_exitState g1) g1) w1 cid p rc c Hst1 Hc Hm2 Hx2 Hw2 Hp Hrc)
    as (Hin & Hst2 & rep & Ho2' & Hrsz). rewrite Ho2 in Ho2'. injection Ho2' as <-.
  set (mm1 := with_member (set_Attrs (GetMemberAttrs (Some r1))) (with_cnx ch1 mm)).
  set (mm2 := with_member (join_replied (Some r2)) (with_cnx ch2 mm1)).
  destruct (join_replied_fresh (Some r2) (mm_ClusterMember mm1) Hms) as (J1 & J2 & J3 & _ & J5).
  rewrite Hrsz, Hsz in J3, J5. rewrite Nat2Z.id in J5.
  assert (cm_ClusterID (mm_ClusterMember mm2) = Some cid) as E1 by exact (eq_trans J1 Hcid).
  assert (xn_GetNodeID (xn_Node_Base (cm_Node (mm_ClusterMember mm2))) = Some self) as E2.
  { change (mm_ClusterMember mm2) with (join_replied (Some r2) (mm_ClusterMember mm1)). by rewrite J2. }
  destruct (get_complete tok info mm2 cid self c w2 (set_entryState (h_exitState g2) g2) p rc ck n)
    as (h' & reply & Hg & Hout & Hlearn); try done.
  rewrite Hm3 in Hg. injection Hg as -> ->. rewrite Ho3 in Hout. injection Hout as <-.
  destruct (Hlearn ch3 He3) as (mm3 & Hgm & Hch3 & Hmem & Hinf & j & m & Hj & Hm & Hmid).
  exists (with_cnx ch4 mm3), j, m. split_and!; try done.
  unfold user_session, join_session. rewrite (MemberAndOK_exchange mm t r1 ch1 Ht He1).
  unfold and_then at 3. rewrite bind_Done. fold mm1.
  rewrite (JoinAndReply_exchange mm1 cid r2 ch2 Hcid He2). unfold and_then. rewrite !bind_Done. fold mm2.
  rewrite Hgm, bind_Done. apply (ByeAndAck_exchange mm3 r4). by rewrite Hch3.
Qed.

(** C3: The whole session of a user's client with a server that also serves others: if the
    server accepts its messages, and the cluster is complete when the client asks for
    its members, the session ends without error and the client has, of every member,
    the properties the registry has, in the order of joining, and the place of its
    own identifier among them. *)
Theorem user_session_learns `{!BitMapLaws} `{!NodeIDLaws} `{!HamtLaws} `{!BloomLaws} `{!BaseNodeLaws}
    `{!WireLaws} `{!PeerLaws} tok info mm t self cid w0 h0 w1 h1 ch1 w2 h2 ch2 w3 h3 ch3 w4 h4 ch4 p rc ck n :
  let cm := mm_ClusterMember mm in
  cm_ClusterID cm = Some cid -> xn_GetNodeID (xn_Node_Base (cm_Node cm)) = Some self ->
  cm_Members cm = Some (replicate (Z.to_nat (cm_ClusterMaxSize cm)) None) ->
  member_token mm = Done (Ok t) -> h_entryState h0 = HELLO_RCVD ->
  turn w0 h0 (mm_CnxHandler mm) (member_request t) w1 h1 ch1 ->
  turn w1 h1 ch1 (join_request cid) w2 h2 ch2 ->
  h_cluster h2 = Some p -> w_heap w2 !! p = Some rc -> ha_NewBytesKey (Some (xi_Value cid)) = (ck, None) ->
  ha_Find (reg_ClustersByID (w_reg w2)) ck = (Some p, None) ->
  length (rc_Members rc) = n -> rc_maxSize rc = Z.of_nat n -> (0 < n <= 64)%nat ->
  Forall (fun m => is_Some (xn_GetCommsPublicKey (ci_BaseNode m)) /\
    is_Some (xn_GetSigPublicKey (ci_BaseNode m)) /\ Token m = Done (Ok (tok m)) /\
    forall ds, exists ds', NewMemberInfoFromToken (Some (tok m)) ds = Done (Ok (info m), ds')) (rc_Members rc) ->
  turn w2 h2 ch2 (get_request cid (wanted 0 n)) w3 h3 ch3 ->
  turn w3 h3 ch3 (msg_of_op XLRegMsg_Bye) w4 h4 ch4 ->
  exists mm' j m, user_session mm = Done (None, mm') /\ mm_CnxHandler mm' = ch4 /\
    cm_Members (mm_ClusterMember mm') = Some (Some ∘ info <$> rc_Members rc) /\
    Forall (fun m => info_matches (info m) m) (rc_Members rc) /\
    cm_SelfIndex (mm_ClusterMember mm') = Z.of_nat j /\ rc_Members rc !! j = Some m /\
    xi_Value <$> ci_GetNodeID m = Some (xi_Value self).
Proof. apply user_session_turns. Qed.
End Theorems.

(** ** Witnesses *)

Module SessionWitness.
Import ModelInstances ClientInfoWitness RegClusterWitness RegNodeWitness RegistryWitness MsgHandlersWitness.
Import MemberInfoWitness MemberMakerWitness.

Definition w_signed : XLRegMsg_Token := w_read (member_token (w_mm 2 [])).
Definition w_new : InHandler := w_handler (msg_of_op 0).

Lemma w_priv_good : good_key w_priv.
Proof.
  unfold good_key, w_priv. split; [reflexivity|]. split; [reflexivity|]. split; [reflexivity|].
  intros x Hx. rewrite !Z.pow_1_r. by apply Z.mod_small.
Qed.

Definition w_signed_ok : bool :=
  match member_token (w_mm 2 []) with Done (Ok _) => true | _ => false end.
Lemma w_signed_done : member_token (w_mm 2 []) = Done (Ok w_signed).
Proof.
  unfold w_signed. assert (w_signed_ok = true) as E by (vm_compute; reflexivity).
  unfold w_signed_ok in E. destruct (member_token (w_mm 2 [])) as [[t|]| |]; done.
Qed.

Lemma w_signed_ID : tok_ID w_signed = Some (str "0123456789abcdefghij").
Proof.
  destruct (member_token_Ok _ _ w_signed_done) as (ck & sk & _ & _ & _ & _ & Hid & _). exact Hid.
Qed.

Lemma member_registers_witness : exists h' reply,
  handle_msg w_start w_new (Some (member_request w_signed)) = Done (w_start, h') /\
  h_exitState h' = CLIENT_DETAILS_RCVD /\
  forall ch', exchange (mm_CnxHandler (w_mm 2 [])) (member_request w_signed) reply ch' ->
    MemberAndOK (w_mm 2 []) = Done (None, with_member (set_Attrs 5) (with_cnx ch' (w_mm 2 []))).
Proof.
  destruct (member_registers (w_mm 2 []) w_signed w_priv w_priv w_start w_new (w_id "0123456789abcdefghij")
    w_start (Concrete.n_base w_clientNode) w_signed_done eq_refl eq_refl w_priv_good eq_refl)
    as (h' & reply & Hm & _ & Hx & _ & He).
  - rewrite w_signed_ID. reflexivity.
  - reflexivity.
  - exists h', reply. split; [exact Hm|]. split; [exact Hx|exact He].
Defined.

(** Alice joins the cluster she has made. *)
Lemma join_registers_witness : exists w' h' rc' reply,
  handle_msg w_created.1 w_aliceCnx (Some (join_request (w_id "new1"))) = Done (w', h') /\
  rc_Members rc' = [w_alice] /\
  forall ch', exchange (w_client_cnx []) (join_request (w_id "new1")) reply ch' ->
    exists mm', JoinAndReply (w_mm 2 []) = Done (None, mm') /\
      cm_ClusterMaxSize (mm_ClusterMember mm') = 64.
Proof.
  destruct (join_registers (w_mm 2 []) (w_id "new1") w_created.1 w_aliceCnx w_alice 0 w_east
    (w_id "alice's id") (Some (str "alice's id")) (Some (str "new1")))
    as (w' & h' & rc' & reply & Hm & _ & _ & Hmem & _ & _ & _ & Hx).
  - reflexivity.
  - reflexivity.
  - exact w_created_wf.
  - reflexivity.
  - left. reflexivity.
  - reflexivity.
  - vm_compute. reflexivity.
  - rewrite w_created_heap. reflexivity.
  - apply not_elem_of_nil.
  - reflexivity.
  - reflexivity.
  - reflexivity.
  - reflexivity.
  - exists w', h', rc', reply. split; [exact Hm|]. split; [exact Hmem|].
    intros ch' He. destruct (Hx ch' He) as (mm' & Hj & _ & _ & Hs & _). exists mm'. split; [exact Hj|exact Hs].
Defined.

(** A member asks for the two members of a cluster of size two. *)
Definition w_joined : InHandler := set_entryState JOIN_RCVD w_new.
Lemma get_learns_witness : exists h' reply,
  handle_msg w_getWorld w_joined (Some (get_request (w_id "new1") 3)) = Done (w_getWorld, h') /\
  forall ch', exchange (w_client_cnx []) (get_request (w_id "new1") 3) reply ch' ->
    exists mm', GetAndMembers (w_mm 2 []) = Done (None, mm') /\
      cm_Members (mm_ClusterMember mm') = Some [Some (w_infoOf w_member); Some (w_infoOf w_twin)].
Proof.
  destruct (get_learns w_tokenOf w_infoOf (w_mm 2 []) (w_id "new1") (w_id "0123456789abcdefghij") w_member
    w_getWorld w_joined 0 (mkRegCluster (str "east") (Some (str "new1")) 0 64 2 [w_member; w_twin] ∅ [])
    (Some (str "new1")) 2) as (h' & reply & Hm & _ & Hx).
  - reflexivity.
  - reflexivity.
  - lia.
  - reflexivity.
  - reflexivity.
  - reflexivity.
  - reflexivity.
  - reflexivity.
  - reflexivity.
  - reflexivity.
  - repeat constructor; try by eexists.
  - left.
  - reflexivity.
  - exists h', reply. split; [exact Hm|]. intros ch' He. destruct (Hx ch' He) as (mm' & Hg & _ & Hms & _).
    exists mm'. split; [exact Hg|exact Hms].
Defined.

(** Alice creates the cluster "west". *)
Definition w_creator : MemberMaker := mkMemberMaker 5 (w_client_cnx []) (Some MemberMakerWitness.w_server)
  (mkClusterMember 0 (str "west") 0 None 2 2 0 (Some [None; None]) w_clientNode) [].
Definition w_west : world * InHandler := w_after (handle_msg w_start w_aliceCnx (Some (create_request w_creator))).
Lemma create_registers_witness : exists cs reply,
  abs w_west.1 !! str "west" = Some cs /\
  forall ch', exchange (w_client_cnx []) (create_request w_creator) reply ch' ->
    exists mm' cid, CreateAndReply w_creator = Done (None, mm') /\
      cm_ClusterID (mm_ClusterMember mm') = Some cid /\ xi_Value cid = cs_id cs.
Proof.
  destruct (create_registers w_creator w_start w_aliceCnx w_west.1 w_west.2) as (cs & reply & Hcs & _ & Hx).
  - discriminate.
  - apply w_empty_wf.
  - discriminate.
  - reflexivity.
  - apply w_after_done. vm_compute. reflexivity.
  - vm_compute. discriminate.
  - exists cs, reply. split; [exact Hcs|]. intros ch' He.
    destruct (Hx ch' He) as (mm' & cid & Hc & _ & Hi & Hv & _). exists mm', cid.
    split; [exact Hc|]. split; [exact Hi|exact Hv].
Defined.

(** Members whose tokens can be made and read. *)
Definition w_good (c : ClientInfo) : bool :=
  match ci_BaseNode c with
  | Concrete.mkBase (_ :: _) (Some _) (Some ck) (Some sk) =>
    match Concrete.pub_to_wire (Some ck), Concrete.pub_to_wire (Some sk) with
    | inl _, inl _ => forallb (fun e => match e with [] => false | _ => true end) (default [] (ci_MyEnds c))
    | _, _ => false
    end
  | _ => false
  end.

Lemma w_ctors ends acc : forallb (fun e => match e with [] => false | _ => true end) ends = true ->
  token_ctors ends acc = Ok (acc ++ ends).
Proof.
  revert acc. induction ends as [|[|a e] ends IH]; intros acc He; [by rewrite app_nil_r|done|].
  cbn in He |- *. rewrite IH by done. by rewrite <-app_assoc.
Qed.

Lemma w_good_ok c : w_good c = true ->
  is_Some (xn_GetCommsPublicKey (ci_BaseNode c)) /\ is_Some (xn_GetSigPublicKey (ci_BaseNode c)) /\
  Token c = Done (Ok (w_tokenOf c)) /\
  forall ds, exists ds', NewMemberInfoFromToken (Some (w_tokenOf c)) ds = Done (Ok (w_infoOf c), ds').
Proof.
  destruct c as [attrs ends [[|a nm] [i|] [ck|] [sk|]]]; try done. unfold w_good. cbn [ci_BaseNode ci_MyEnds].
  destruct (Concrete.pub_to_wire (Some ck)) as [cb|] eqn:Ec; [|done].
  destruct (Concrete.pub_to_wire (Some sk)) as [sb|] eqn:Es; [|done]. intros He.
  assert (Token (mkClientInfo attrs ends (Concrete.mkBase (a :: nm) (Some i) (Some ck) (Some sk))) =
    Done (Ok (mkToken (Some (a :: nm)) (Some attrs) (Some i) (Some cb) (Some sb) ends None))) as Ht.
  { unfold Token. cbn [xc_RSAPubKeyToWire xn_GetCommsPublicKey xn_GetSigPublicKey ext_model ci_BaseNode
      Concrete.b_ck Concrete.b_sk]. by rewrite Ec, Es. }
  unfold w_tokenOf. rewrite Ht. split_and!; [by eexists|by eexists|done|].
  intros ds. exists ds. unfold NewMemberInfoFromToken, Token_GetID, Token_GetCommsKey, Token_GetSigKey,
    Token_GetMyEnds, Token_GetName, Token_GetAttrs. cbn [mbind option_bind tok_ID tok_CommsKey tok_SigKey
      tok_MyEnds tok_Name tok_Attrs xi_New_opt]. rewrite bind_Done.
  cbn [xi_New xc_RSAPubKeyFromWire ext_model]. rewrite (pub_wire_roundtrip _ _ Ec), (pub_wire_roundtrip _ _ Es).
  cbn [lift]. rewrite !result_bind_Ok. rewrite w_ctors by done. by rewrite result_bind_Ok.
Qed.

(** A connection between exchanges. *)
Definition w_open (replies : list XLRegMsg) (sent : list bytes) : Cnx :=
  mkCnx ((fun m => (Concrete.marshal m, None)) <$> replies) sent false (fun _ => None) (fun _ => tt).
Definition w_between (replies : list XLRegMsg) (sent : list bytes) : CnxState :=
  mkCnxState (Some (w_open replies sent)) tt.
Definition w_plain : AesSession := tt.
Lemma w_exchanged req reply replies sent : msg_ok reply ->
  (Z.of_nat (length (Concrete.marshal reply)) <=? MSG_BUF_LEN) = true ->
  exchange (w_between (reply :: replies) sent) req reply (w_between replies (sent ++ [Concrete.marshal req])).
Proof.
  intros Hok Hl. apply (exchange_tape (w_open (reply :: replies) sent) tt w_plain req reply (Concrete.marshal req)
    (Concrete.marshal reply) tt ((fun m => (Concrete.marshal m, None)) <$> replies)
    (xa_Decrypt_Encrypt w_plain)); try done.
  split; [unfold Concrete.marshal; cbn; lia|lia].
Qed.

Lemma w_turn w h req reply replies sent :
  let r := w_after (handle_msg w h (Some req)) in
  is_Done (handle_msg w h (Some req)) = true -> h_exitState r.2 <> IN_CLOSED -> h_msgOut r.2 = Some reply ->
  msg_ok reply -> (Z.of_nat (length (Concrete.marshal reply)) <=? MSG_BUF_LEN) = true ->
  turn w h (w_between (reply :: replies) sent) req r.1 (set_entryState (h_exitState r.2) r.2)
    (w_between replies (sent ++ [Concrete.marshal req])).
Proof.
  intros r Hd Hx Ho Hok Hl. exists r.1, r.2, reply. split_and!; try done.
  - by apply w_after_done.
  - by apply w_exchanged.
Qed.

(** Alice joins a cluster of two, of which Bob is a member, and learns who is in it. *)
Definition w_bob : ClientInfo := mkClientInfo 5 (Some [str "127.0.0.1:5002"])
  (Concrete.mkBase (str "bob") (Some (str "bob's id")) (Some w_pub) (Some w_pub)).
Definition w_half : world := mkWorld
  (with_clusters [0%nat] {[ str "east" := 0%nat ]} [(Some (str "new1"), 0%nat)] w_registry)
  [mkRegCluster (str "east") (Some (str "new1")) 0 2 2 [w_bob] ∅ []] [].

Definition w_r1 : XLRegMsg := with_MemberAttrs (Some 5)
  (with_MemberID (Some (str "0123456789abcdefghij")) (msg_of_op XLRegMsg_MemberOK)).
Definition w_r2 : XLRegMsg := with_EndPointCount (Some 2) (with_ClusterMaxSize (Some 2)
  (with_ClusterAttrs (Some 0) (with_ClusterID (Some (str "new1")) (msg_of_op XLRegMsg_JoinReply)))).
Definition w_wire : bytes :=
  match Concrete.pub_to_wire (Some (key_pub w_priv)) with inl b => b | inr _ => [] end.
Definition w_aliceTok : XLRegMsg_Token := mkToken (Some (str "alice")) (Some 5)
  (Some (str "0123456789abcdefghij")) (Some w_wire) (Some w_wire)
  (Some [str "127.0.0.1:5000"; str "127.0.0.1:5001"]) None.
Definition w_bobTok : XLRegMsg_Token := mkToken (Some (str "bob")) (Some 5) (Some (str "bob's id"))
  (Some w_pubBytes) (Some w_pubBytes) (Some [str "127.0.0.1:5002"]) None.
Definition w_r3 : XLRegMsg := with_Tokens (Some [Some w_bobTok; Some w_aliceTok])
  (with_Which (Some 3) (with_ClusterID (Some (str "new1")) (msg_of_op XLRegMsg_ClusterMembers))).
Definition w_r4 : XLRegMsg := msg_of_op XLRegMsg_Ack.

Definition w_user : MemberMaker := with_cnx (w_between [w_r1; w_r2; w_r3; w_r4] []) (w_mm 2 []).
Definition w_m1 : XLRegMsg := member_request w_signed.
Definition w_m2 : XLRegMsg := join_request (w_id "new1").
Definition w_m3 : XLRegMsg := get_request (w_id "new1") 3.
Definition w_m4 : XLRegMsg := msg_of_op XLRegMsg_Bye.
Definition w_next (r : world * InHandler) : InHandler := set_entryState (h_exitState r.2) r.2.
Definition w_s1 : world * InHandler := w_after (handle_msg w_half w_new (Some w_m1)).
Definition w_s2 : world * InHandler := w_after (handle_msg w_s1.1 (w_next w_s1) (Some w_m2)).
Definition w_s3 : world * InHandler := w_after (handle_msg w_s2.1 (w_next w_s2) (Some w_m3)).
Definition w_full : RegCluster := default w_east (w_heap w_s2.1 !! 0%nat).

Lemma default_found {A} (d : A) o : bool_decide (is_Some o) = true -> o = Some (default d o).
Proof. intros [x ->]%bool_decide_eq_true_1. done. Qed.

Lemma w_ok_numbers m : msg_Version m = None -> msg_MemberSpecs m = None ->
  from_option (fun op => (- 2 ^ 31 <=? op) && (op <? 2 ^ 31)) true (msg_Op m) = true ->
  from_option (fun v => (0 <=? v) && (v <? 2 ^ 32)) true (msg_ClusterMaxSize m) = true ->
  from_option (fun v => (0 <=? v) && (v <? 2 ^ 32)) true (msg_EndPointCount m) = true ->
  from_option (fun v => (0 <=? v) && (v <? 2 ^ 64)) true (msg_MemberAttrs m) = true ->
  from_option (fun v => (0 <=? v) && (v <? 2 ^ 64)) true (msg_ClusterAttrs m) = true ->
  from_option (fun v => (0 <=? v) && (v <? 2 ^ 64)) true (msg_Which m) = true ->
  from_option tokens_ok True (msg_Tokens m) -> msg_ok m.
Proof.
  intros Hv Hs H1 H2 H3 H4 H5 H6 Ht. split; rewrite ?Hv, ?Hs; try done;
    match goal with |- from_option _ _ ?o => destruct o as [z|]; cbn in *; [|done] end;
    unfold is_u32, is_u64; lia.
Qed.

Lemma w_token_ok t a e ends : tok_Attrs t = Some a -> is_u64 a -> tok_MyEnds t = Some (e :: ends) ->
  exists t', Some t = Some t' /\ token_ok t'.
Proof. intros Ha Hu He. exists t. split; [done|]. unfold token_ok. by rewrite Ha, He. Qed.
Lemma w_r3_ok : msg_ok w_r3.
Proof.
  apply w_ok_numbers; try reflexivity. split; [discriminate|].
  constructor; [|constructor; [|constructor]];
    (eapply w_token_ok; [reflexivity|split; discriminate || reflexivity|reflexivity]).
Qed.

Lemma w_turn1 : turn w_half w_new (mm_CnxHandler w_user) w_m1 w_s1.1 (w_next w_s1)
  (w_between [w_r2; w_r3; w_r4] [Concrete.marshal w_m1]).
Proof.
  apply (w_turn w_half w_new w_m1 w_r1 [w_r2; w_r3; w_r4] []); try (vm_compute; reflexivity || discriminate).
  apply w_ok_numbers; reflexivity || done.
Qed.
Lemma w_turn2 : turn w_s1.1 (w_next w_s1) (w_between [w_r2; w_r3; w_r4] [Concrete.marshal w_m1]) w_m2
  w_s2.1 (w_next w_s2) (w_between [w_r3; w_r4] [Concrete.marshal w_m1; Concrete.marshal w_m2]).
Proof.
  apply (w_turn w_s1.1 (w_next w_s1) w_m2 w_r2 [w_r3; w_r4] [Concrete.marshal w_m1]);
    try (vm_compute; reflexivity || discriminate). apply w_ok_numbers; reflexivity || done.
Qed.
Lemma w_turn3 : turn w_s2.1 (w_next w_s2) (w_between [w_r3; w_r4] [Concrete.marshal w_m1; Concrete.marshal w_m2])
  w_m3 w_s3.1 (w_next w_s3)
  (w_between [w_r4] [Concrete.marshal w_m1; Concrete.marshal w_m2; Concrete.marshal w_m3]).
Proof.
  apply (w_turn w_s2.1 (w_next w_s2) w_m3 w_r3 [w_r4] [Concrete.marshal w_m1; Concrete.marshal w_m2]);
    try (vm_compute; reflexivity || discriminate). exact w_r3_ok.
Qed.
Definition w_s4 : world * InHandler := w_after (handle_msg w_s3.1 (w_next w_s3) (Some w_m4)).
Lemma w_turn4 : turn w_s3.1 (w_next w_s3)
  (w_between [w_r4] [Concrete.marshal w_m1; Concrete.marshal w_m2; Concrete.marshal w_m3]) w_m4 w_s4.1 (w_next w_s4)
  (w_between [] [Concrete.marshal w_m1; Concrete.marshal w_m2; Concrete.marshal w_m3; Concrete.marshal w_m4]).
Proof.
  apply (w_turn w_s3.1 (w_next w_s3) w_m4 w_r4 []
    [Concrete.marshal w_m1; Concrete.marshal w_m2; Concrete.marshal w_m3]);
    try (vm_compute; reflexivity || discriminate). apply w_ok_numbers; reflexivity || done.
Qed.

Lemma w_full_found : w_heap w_s2.1 !! 0%nat = Some w_full.
Proof. apply default_found. vm_compute. reflexivity. Qed.
Lemma forallb_Forall {A} (f : A -> bool) l : forallb f l = true -> Forall (fun a => f a = true) l.
Proof. induction l as [|a l IH]; intros Hf; [constructor|]. simpl in Hf. apply andb_true_iff in Hf as [Ha Hl]. by constructor; auto. Qed.
Lemma w_full_good : Forall (fun m => w_good m = true) (rc_Members w_full).
Proof. apply forallb_Forall. vm_compute. reflexivity. Qed.

Lemma member_token_cnx ch mm : member_token (with_cnx ch mm) = member_token mm.
Proof. reflexivity. Qed.
Lemma w_user_token : member_token w_user = Done (Ok w_signed).
Proof. exact (eq_trans (member_token_cnx _ _) w_signed_done). Qed.

Lemma user_session_learns_witness : exists mm', user_session w_user = Done (None, mm') /\
  cm_Members (mm_ClusterMember mm') = Some (Some ∘ w_infoOf <$> rc_Members w_full) /\
  length (rc_Members w_full) = 2%nat.
Proof.
  destruct (user_session_learns w_tokenOf w_infoOf w_user w_signed (w_id "0123456789abcdefghij") (w_id "new1")
    w_half w_new w_s1.1 (w_next w_s1) (w_between [w_r2; w_r3; w_r4] [Concrete.marshal w_m1])
    w_s2.1 (w_next w_s2) (w_between [w_r3; w_r4] [Concrete.marshal w_m1; Concrete.marshal w_m2])
    w_s3.1 (w_next w_s3)
    (w_between [w_r4] [Concrete.marshal w_m1; Concrete.marshal w_m2; Concrete.marshal w_m3])
    w_s4.1 (w_next w_s4)
    (w_between [] [Concrete.marshal w_m1; Concrete.marshal w_m2; Concrete.marshal w_m3; Concrete.marshal w_m4])
    0 w_full (Some (str "new1")) 2) as (mm' & j & m & Hu & _ & Hm & _).
  - reflexivity.
  - reflexivity.
  - reflexivity.
  - exact w_user_token.
  - reflexivity.
  - exact w_turn1.
  - exact w_turn2.
  - vm_compute. reflexivity.
  - exact w_full_found.
  - reflexivity.
  - vm_compute. reflexivity.
  - vm_compute. reflexivity.
  - vm_compute. reflexivity.
  - lia.
  - exact (Forall_impl _ _ _ w_full_good w_good_ok).
  - exact w_turn3.
  - exact w_turn4.
  - exists mm'. split; [exact Hu|]. split; [exact Hm|]. vm_compute. reflexivity.
Defined.
End SessionWitness.
