(* ===== verification/Wire.v ===== *)
(** * Client and server on one connection

    Puts memberNode.go and in_handler.go together at the level of the bytes on the
    connection: the hello that opens a session, and the loop of the server on what a
    client has encrypted and sent, whose replies are what the client reads.

    A [dialogue] is the conversation seen from outside: what the client sends, what
    the server makes of it, what it replies, and both ciphertexts.  Each side alone is
    then shown to produce what the other side reads.  Each message fits into the
    buffer of [ReadData] and arrives in one piece; what happens to one that does not
    fit is [readMsg_truncated]. *)
From S2P Require Import Prelude GoStd GoCrypto Errors Proto Ext ExtModel ClientInfo RegCluster.
From S2P Require Import RegCred RegNode Registry CnxHandler MsgHandlers InHandler Server Spec.
From S2P Require Import MemberInfo MemberMaker Clients Session.

Section Wire.
Context `{Ext}.

(** A ciphertext that one call of [ReadData] takes whole. *)
Definition fits (ct : bytes) : Prop := 0 < Z.of_nat (length ct) <= MSG_BUF_LEN.

(** Ciphertexts that arrive one by one. *)
Definition arrive (cts : list bytes) : list (bytes * option exterr) := (fun ct => (ct, None)) <$> cts.

Definition no_writeErr (c : Cnx) : Prop := forall n, cnx_writeErr c n = None.

(** The connection after [k] of its reads were taken and [sent] was written. *)
Definition advance (c : Cnx) (k : nat) (sent : list bytes) : Cnx :=
  mkCnx (drop k (cnx_reads c)) (cnx_sent c ++ sent) (cnx_closed c) (cnx_writeErr c) (cnx_rand c).

(** The conversation of a client, in the session [cs], with the server, in [ss], that
    have written [nc] and [ns] times before: requests and replies, and both as they
    are on the wire.  The connection stays open. *)
Inductive dialogue (cs ss : AesSession) (crand srand : nat -> Randomness) :
    nat -> nat -> world -> InHandler -> list (XLRegMsg * XLRegMsg) -> list bytes -> list bytes ->
    world -> InHandler -> Prop :=
  | dialogue_nil nc ns w h : dialogue cs ss crand srand nc ns w h [] [] [] w h
  | dialogue_cons nc ns w h req reply ct ct' w1 h1 l cts cts' w2 h2 :
      EncodePadEncrypt cs req (crand nc) = inl ct -> fits ct -> msg_ok req ->
      handle_msg w h (Some req) = Done (w1, h1) -> h_exitState h1 <> IN_CLOSED ->
      h_msgOut h1 = Some reply -> msg_ok reply ->
      EncodePadEncrypt ss reply (srand ns) = inl ct' -> fits ct' ->
      dialogue cs ss crand srand (S nc) (S ns) w1 (set_entryState (h_exitState h1) h1) l cts cts' w2 h2 ->
      dialogue cs ss crand srand nc ns w h ((req, reply) :: l) (ct :: cts) (ct' :: cts') w2 h2.
End Wire.

(** ** Facts *)

Section Facts.
Context `{Ext}.

(** No handler changes the session. *)
Lemma doCreateMsg_session w h w' h' : doCreateMsg w h = Done (w', h') -> h_AesSession h' = h_AesSession h.
Proof.
  assert (forall w h cid a b c w' h', create_reply w h cid a b c = Done (w', h') ->
    h_AesSession h' = h_AesSession h) as Hr.
  { unfold create_reply. intros ???????? (id & _ & [= <- <-])%bind_Done_inv. done. }
  unfold doCreateMsg. intros Hc. destruct (_ !! _) as [p|].
  - apply bind_Done_inv in Hc as (rc & _ & Hc). apply bind_Done_inv in Hc as ([[cid e] ds] & _ & Hc).
    by apply Hr in Hc.
  - apply bind_Done_inv in Hc as ([[[cid err] reg] ds] & _ & Hc).
    destruct err as [e|]; [by simplify_eq/=|]. apply bind_Done_inv in Hc as (r & _ & Hc).
    destruct r as [rc|e]; [|by simplify_eq/=]. destruct (alloc rc _) as [p w2].
    apply bind_Done_inv in Hc as ([[i err] w3] & _ & Hc).
    destruct err as [e|]; [by simplify_eq/=|]. by apply Hr in Hc.
Qed.

Lemma doJoinMsg_session w h w' h' : doJoinMsg w h = Done (w', h') -> h_AesSession h' = h_AesSession h.
Proof.
  unfold doJoinMsg. intros Hc. apply bind_Done_inv in Hc as (c & _ & Hc).
  destruct (join_cluster w h) as [cl [e|]].
  - apply bind_Done_inv in Hc as (p & _ & Hc). by simplify_eq/=.
  - apply bind_Done_inv in Hc as (p & _ & Hc). apply bind_Done_inv in Hc as (rc & _ & Hc).
    apply bind_Done_inv in Hc as ([rc' [e|]] & _ & Hc); by simplify_eq/=.
Qed.

Lemma doGetMsg_session w h w' h' : doGetMsg w h = Done (w', h') -> h_AesSession h' = h_AesSession h.
Proof.
  unfold doGetMsg. intros Hc. destruct ha_NewBytesKey as [k [e|]]; [by simplify_eq/=|].
  destruct ha_Find as [[p|] [e|]]; try by simplify_eq/=.
  apply bind_Done_inv in Hc as (rc & _ & Hc). apply bind_Done_inv in Hc as ([ts wr] & _ & Hc).
  by simplify_eq/=.
Qed.

Lemma doClientMsg_session w h w' h' : doClientMsg w h = Done (w', h') -> h_AesSession h' = h_AesSession h.
Proof.
  unfold doClientMsg. intros Hc. destruct xc_RSAPubKeyFromWire as [ck|]; [|by simplify_eq/=].
  destruct xc_RSAPubKeyFromWire as [sk|]; [|by simplify_eq/=].
  destruct VerifyPKCS1v15; [by simplify_eq/=|].
  apply bind_Done_inv in Hc as ([[id err] w1] & _ & Hc).
  destruct (if bool_decide _ then _ else _); [by simplify_eq/=|].
  destruct NewClientInfo; [|by simplify_eq/=].
  apply bind_Done_inv in Hc as (nid & _ & Hc). by simplify_eq/=.
Qed.

Lemma doByeMsg_session w h w' h' : doByeMsg w h = Done (w', h') -> h_AesSession h' = h_AesSession h.
Proof. unfold doByeMsg. intros Hc. by simplify_eq/=. Qed.

Lemma handle_msg_session w h m w' h' : handle_msg w h m = Done (w', h') -> h_AesSession h' = h_AesSession h.
Proof.
  intros Hm. destruct (handle_msg_found _ _ _ _ Hm) as (row & f & Er & Ef).
  rewrite (handle_msg_dispatch _ _ _ _ _ Er Ef) in Hm.
  apply bind_Done_inv in Hm as ([w1 h1] & Hd & Hm).
  assert (h_AesSession h1 = h_AesSession h) as <-.
  { destruct (dispatch_cases _ _ _ _ Er Ef)
      as (_ & _ & [[_ ->]|[(_ & _ & ->)|[(_ & _ & ->)|[(_ & _ & ->)|[(_ & _ & ->)|[_ ->]]]]]]).
    - unfold badCombo in Hd. by simplify_eq/=.
    - exact (doClientMsg_session _ _ _ _ Hd).
    - exact (doCreateMsg_session _ _ _ _ Hd).
    - exact (doJoinMsg_session _ _ _ _ Hd).
    - exact (doGetMsg_session _ _ _ _ Hd).
    - exact (doByeMsg_session _ _ _ _ Hd). }
  by destruct (h_errOut h1); injection Hm as <- <-.
Qed.

(** One chunk that fits is read whole. *)
Lemma ReadData_chunk c ct rest : cnx_reads c = (ct, None) :: rest -> fits ct ->
  ReadData c = Done (Some ct, None, advance c 1 []).
Proof.
  intros Hr Hf. unfold fits in Hf. unfold ReadData, Read.
  rewrite Hr, (proj2 (Nat.ltb_ge _ _)) by lia. rewrite bind_Done.
  rewrite bool_decide_eq_true_2, (proj2 (Z.ltb_lt 0 _)) by (done || lia).
  unfold advance. by rewrite Hr, app_nil_r.
Qed.

Lemma ReadData_EOF c rest : cnx_reads c = ([], Some EOF) :: rest ->
  ReadData c = Done (None, Some EOF, advance c 1 []).
Proof.
  intros Hr. unfold ReadData, Read. rewrite Hr. cbn [length Nat.ltb Nat.leb].
  rewrite bind_Done, andb_false_r. unfold advance. by rewrite Hr, app_nil_r.
Qed.

Lemma WriteData_sent c ct : no_writeErr c -> WriteData c ct = (None, advance c 0 [ct]).
Proof. intros Hw. unfold WriteData. by rewrite Hw. Qed.

Lemma advance_advance c k1 s1 k2 s2 : advance (advance c k1 s1) k2 s2 = advance c (k1 + k2) (s1 ++ s2).
Proof. unfold advance. cbn. by rewrite drop_drop, app_assoc. Qed.

(** The server's side of a dialogue: it handles what arrives and replies, and when the
    client closes the connection the loop ends. *)
Lemma serve_dialogue `{!CodecLaws} cs ss crand srand nc ns w h l cts cts' w' h' :
  dialogue cs ss crand srand nc ns w h l cts cts' w' h' -> decrypts ss cs -> h_AesSession h = ss ->
  forall c fuel, cnx_reads c = arrive cts ++ [([], Some EOF)] -> length (cnx_sent c) = ns ->
    cnx_rand c = srand -> no_writeErr c -> (length cts < fuel)%nat ->
    serve fuel w h c = Done (w', h', advance c (S (length cts)) cts', Some EOF).
Proof.
  intros Hd Hdec. induction Hd as [nc ns w h|nc ns w h req reply ct ct' w1 h1 l cts cts' w2 h2
    He Hf Hok Hm Hx Ho Hok' He' Hf' _ IH]; intros Hs c fuel Hr Hl Hrand Hwe Hfuel;
    (destruct fuel as [|fuel]; [cbn in Hfuel; lia|]); cbn [serve].
  - by rewrite (ReadData_EOF c []), bind_Done.
  - rewrite (ReadData_chunk c ct (arrive cts ++ [([], Some EOF)])), bind_Done by done.
    rewrite Hs, (Decode_Encode _ _ _ _ _ Hdec Hok He), Hm, bind_Done.
    unfold send_reply. rewrite Ho, (handle_msg_session _ _ _ _ _ Hm), Hs.
    cbn [advance cnx_rand cnx_sent]. rewrite app_nil_r, Hrand, Hl, He', WriteData_sent by done.
    rewrite (proj2 (Z.eqb_neq _ _)) by done. rewrite advance_advance.
    rewrite IH.
    + by rewrite advance_advance.
    + cbn. by rewrite (handle_msg_session _ _ _ _ _ Hm).
    + unfold advance. cbn [cnx_reads]. by rewrite Hr.
    + cbn. rewrite length_app. cbn. lia.
    + done.
    + done.
    + cbn in Hfuel. lia.
Qed.

(** The client's side: each message of a dialogue is a turn of the conversation, seen
    from a client whose connection brings the replies. *)
Lemma dialogue_turn `{!CodecLaws} cs ss srand c ns w h req reply l cts cts' w' h' rest :
  dialogue cs ss (cnx_rand c) srand (length (cnx_sent c)) ns w h ((req, reply) :: l) cts cts' w' h' ->
  decrypts cs ss -> no_writeErr c -> cnx_reads c = arrive cts' ++ rest ->
  exists w1 h1 ct ct' cts1 cts1', cts = ct :: cts1 /\ cts' = ct' :: cts1' /\
    turn w h (mkCnxState (Some c) cs) req w1 h1 (mkCnxState (Some (advance c 1 [ct])) cs) /\
    cnx_reads (advance c 1 [ct]) = arrive cts1' ++ rest /\
    dialogue cs ss (cnx_rand c) srand (length (cnx_sent (advance c 1 [ct]))) (S ns) w1 h1 l cts1 cts1' w' h'.
Proof.
  intros Hd Hdec Hwe Hr.
  inversion Hd as [|? ? ? ? ? ? ct ct' w1 h1 ? cts1 cts1' ? ? He Hf Hok Hm Hx Ho Hok' He' Hf' Hrest]; subst.
  exists w1, (set_entryState (h_exitState h1) h1), ct, ct', cts1, cts1'. split_and!; [done..| | |].
  - exists w1, h1, reply. split_and!; try done.
    replace (advance c 1 [ct]) with (mkCnx (arrive cts1' ++ rest) (cnx_sent c ++ [ct]) (cnx_closed c)
      (cnx_writeErr c) (cnx_rand c)) by (unfold advance; by rewrite Hr).
    by apply (exchange_tape c cs ss req reply ct ct' (srand ns)).
  - unfold advance. cbn [cnx_reads]. by rewrite Hr.
  - unfold advance. cbn [cnx_sent]. rewrite length_app, Nat.add_1_r. exact Hrest.
Qed.

Lemma dialogue_app cs ss crand srand nc ns w h l1 cts1 cts1' w1 h1 l2 cts2 cts2' w2 h2 :
  dialogue cs ss crand srand nc ns w h l1 cts1 cts1' w1 h1 ->
  dialogue cs ss crand srand (length cts1 + nc) (length cts1 + ns) w1 h1 l2 cts2 cts2' w2 h2 ->
  dialogue cs ss crand srand nc ns w h (l1 ++ l2) (cts1 ++ cts2) (cts1' ++ cts2') w2 h2.
Proof.
  induction 1 as [|nc ns w h req reply ct ct' w' h' l cts cts' w1 h1 He Hf Hok Hm Hx Ho Hok' He' Hf' _ IH];
    [done|]. cbn [app length]. intros H2. econstructor; [done..|]. apply IH. by rewrite !Nat.add_succ_r.
Qed.

Lemma dialogue_length cs ss crand srand nc ns w h l cts cts' w' h' :
  dialogue cs ss crand srand nc ns w h l cts cts' w' h' ->
  length cts = length l /\ length cts' = length l.
Proof. induction 1; cbn; lia. Qed.

Lemma dialogue_done cs ss crand srand nc ns w h cts cts' w' h' :
  dialogue cs ss crand srand nc ns w h [] cts cts' w' h' -> cts = [] /\ cts' = [] /\ w' = w /\ h' = h.
Proof. by inversion 1. Qed.

Lemma serve_fuel_chunks c cts rest : cnx_reads c = arrive cts ++ rest -> (length cts < serve_fuel c)%nat.
Proof.
  intros Hr. unfold serve_fuel. rewrite Hr. clear Hr.
  induction cts as [|ct cts IH]; [cbn; lia|].
  change (arrive (ct :: cts)) with ((ct, None : option exterr) :: arrive cts).
  cbn [app sum_list_with length fst]. lia.
Qed.

(** Two turns of a dialogue, and the connection after them. *)
Lemma dialogue_two_turns `{!CodecLaws} cs ss srand c ns w h m1 r1 m2 r2 cts cts' w' h' rest :
  dialogue cs ss (cnx_rand c) srand (length (cnx_sent c)) ns w h [(m1, r1); (m2, r2)] cts cts' w' h' ->
  decrypts cs ss -> no_writeErr c -> cnx_reads c = arrive cts' ++ rest ->
  exists w1 h1 c1, turn w h (mkCnxState (Some c) cs) m1 w1 h1 (mkCnxState (Some c1) cs) /\
    turn w1 h1 (mkCnxState (Some c1) cs) m2 w' h' (mkCnxState (Some (advance c 2 cts)) cs) /\
    cnx_reads (advance c 2 cts) = rest.
Proof.
  intros Hd Hdec Hwe Hr.
  destruct (dialogue_turn _ _ _ _ _ _ _ _ _ _ _ _ _ _ rest Hd Hdec Hwe Hr)
    as (w1 & h1 & ct1 & ct1' & cts1 & cts1' & -> & -> & T1 & Hr1 & Hd1).
  change (cnx_rand c) with (cnx_rand (advance c 1 [ct1])) in Hd1.
  destruct (dialogue_turn _ _ _ _ _ _ _ _ _ _ _ _ _ _ rest Hd1 Hdec Hwe Hr1)
    as (w2 & h2 & ct2 & ct2' & cts2 & cts2' & -> & -> & T2 & Hr2 & Hd2).
  apply dialogue_done in Hd2 as (-> & -> & -> & ->).
  rewrite advance_advance in T2, Hr2. exists w1, h1, (advance c 1 [ct1]). by split_and!.
Qed.
End Facts.

(** ** Theorems *)

Section Theorems.
Context `{Ext}.

(** C16: The hello.  A client that knows the server's public key and a server with the private
    key, each reading what the other wrote, end with sessions in which each understands
    the other, and the client has the version the server decided on. *)
Theorem hello_agrees `{!HelloLaws} dial v mm peer ctor c priv sv w h sc s1 hct s1' v1 ss hout rest srest :
  let version := xu_DecimalVersion_u32 sv in
  mm_RegPeer mm = Some peer -> xn_Peer_GetConnector peer 0 = Some ctor -> dial ctor = inl c ->
  xn_GetCommsPublicKey (xn_Peer_Base peer) = Some (key_pub priv) ->
  rn_ckPriv (reg_RegNode (w_reg w)) = Some priv -> good_key priv -> is_u32 v -> is_u32 version ->
  xa_ClientEncryptHello v (Some (key_pub priv)) (cnx_rand c (length (cnx_sent c))) = inl (s1, hct) ->
  xa_ServerDecryptHello (Some hct) (Some priv) = inl (s1', v1) ->
  xa_ServerEncryptHelloReply s1' version (cnx_rand sc (length (cnx_sent sc))) = inl (ss, hout) ->
  fits hct -> fits hout -> no_writeErr c -> no_writeErr sc ->
  cnx_reads c = (hout, None) :: rest -> cnx_reads sc = (hct, None) :: srest ->
  exists cs, decrypts cs ss /\ decrypts ss cs /\ v1 = v /\
    SessionSetup dial v mm =
      Done (true, version, None, with_cnx (mkCnxState (Some (advance c 1 [hct])) cs) mm) /\
    handleHello sv w h sc = Done (set_version version (set_session ss h), advance sc 1 [hout], None).
Proof.
  intros version Hp Hctor Hdial Hck Hpriv Hgood Hv Hver Hc Hsd Hse Hf Hf' Hwe Hwe' Hr Hr'.
  destruct (xa_hello v priv _ s1 hct Hv Hgood Hc) as (s1'' & Hsd' & Hreply).
  rewrite Hsd in Hsd'. injection Hsd' as <- <-.
  destruct (Hreply _ _ _ _ Hver Hse) as (cs & Hcd & Hd1 & Hd2). exists cs. split_and!; try done.
  - unfold SessionSetup. rewrite Hp. cbn [deref]. rewrite bind_Done, Hctor. cbn [deref].
    rewrite bind_Done, Hdial. cbn [NewCnxHandler]. rewrite Hck, Hc. unfold cx_WriteData, cx_ReadData.
    cbn [mm_CnxHandler with_cnx cx_Cnx deref]. rewrite !bind_Done, WriteData_sent by done.
    rewrite bind_Done. cbn [fmap option_fmap option_map cx_Cnx deref]. rewrite bind_Done.
    rewrite (ReadData_chunk _ hout rest), !bind_Done by done. cbn [fmap option_fmap option_map].
    rewrite Hcd, advance_advance. done.
  - unfold handleHello. rewrite (ReadData_chunk sc hct srest), bind_Done by done.
    rewrite Hpriv, Hsd. cbn [advance cnx_rand cnx_sent]. rewrite app_nil_r. fold version.
    rewrite Hse, WriteData_sent by done. by rewrite advance_advance.
Qed.

(** C4: A whole session of a user's client, in bytes.  If what the client sends and what the
    server replies are what the other side reads, then the server's loop handles the
    four messages, sends those replies and ends when the client closes the connection;
    and the client's session sends those messages, ends without error, and leaves the
    client with the members that the registry has, if the cluster is complete. *)
Theorem session_on_wire `{!CodecLaws} `{!BitMapLaws} `{!NodeIDLaws} `{!HamtLaws} `{!BloomLaws}
    `{!BaseNodeLaws} `{!WireLaws} `{!PeerLaws} tok info mm t self cid c sc cs ss w h w2 h2 w4 h4
    r1 r2 r3 r4 cts cts' cts2 cts2' p rc ck n :
  let cm := mm_ClusterMember mm in
  let crand := cnx_rand c in let srand := cnx_rand sc in
  let nc := length (cnx_sent c) in let ns := length (cnx_sent sc) in
  cm_ClusterID cm = Some cid -> xn_GetNodeID (xn_Node_Base (cm_Node cm)) = Some self ->
  cm_Members cm = Some (replicate (Z.to_nat (cm_ClusterMaxSize cm)) None) ->
  member_token mm = Done (Ok t) -> h_entryState h = HELLO_RCVD ->
  mm_CnxHandler mm = mkCnxState (Some c) cs -> h_AesSession h = ss -> decrypts cs ss -> decrypts ss cs ->
  no_writeErr c -> no_writeErr sc ->
  cnx_reads c = arrive (cts' ++ cts2') -> cnx_reads sc = arrive (cts ++ cts2) ++ [([], Some EOF)] ->
  dialogue cs ss crand srand nc ns w h [(member_request t, r1); (join_request cid, r2)] cts cts' w2 h2 ->
  h_cluster h2 = Some p -> w_heap w2 !! p = Some rc -> ha_NewBytesKey (Some (xi_Value cid)) = (ck, None) ->
  ha_Find (reg_ClustersByID (w_reg w2)) ck = (Some p, None) ->
  length (rc_Members rc) = n -> rc_maxSize rc = Z.of_nat n -> (0 < n <= 64)%nat ->
  Forall (fun m => is_Some (xn_GetCommsPublicKey (ci_BaseNode m)) /\
    is_Some (xn_GetSigPublicKey (ci_BaseNode m)) /\ Token m = Done (Ok (tok m)) /\
    forall ds, exists ds', NewMemberInfoFromToken (Some (tok m)) ds = Done (Ok (info m), ds')) (rc_Members rc) ->
  dialogue cs ss crand srand (2 + nc) (2 + ns) w2 h2
    [(get_request cid (wanted 0 n), r3); (msg_of_op XLRegMsg_Bye, r4)] cts2 cts2' w4 h4 ->
  serve (serve_fuel sc) w h sc = Done (w4, h4, advance sc 5 (cts' ++ cts2'), Some EOF) /\
  exists mm', user_session mm = Done (None, mm') /\
    mm_CnxHandler mm' = mkCnxState (Some (advance c 4 (cts ++ cts2))) cs /\
    cm_Members (mm_ClusterMember mm') = Some (Some ∘ info <$> rc_Members rc) /\
    Forall (fun m => info_matches (info m) m) (rc_Members rc).
Proof.
  intros cm crand srand nc ns Hcid Hself Hms Ht Hst Hch Hss Hcs Hsc Hwe Hwe' Hr Hr' Hd1 Hp Hrc Hck Hf Hl Hsz
    Hn Hall Hd2.
  destruct (dialogue_length _ _ _ _ _ _ _ _ _ _ _ _ _ Hd1) as [Hlen _].
  destruct (dialogue_length _ _ _ _ _ _ _ _ _ _ _ _ _ Hd2) as [Hlen2 _]. cbn [length] in Hlen, Hlen2.
  split.
  - assert (dialogue cs ss crand srand nc ns w h ([(member_request t, r1); (join_request cid, r2)] ++
      [(get_request cid (wanted 0 n), r3); (msg_of_op XLRegMsg_Bye, r4)]) (cts ++ cts2) (cts' ++ cts2') w4 h4) as Hd.
    { eapply dialogue_app; [exact Hd1|]. by rewrite Hlen. }
    rewrite (serve_dialogue _ _ _ _ _ _ _ _ _ _ _ _ _ Hd Hsc Hss sc); try done.
    + by rewrite length_app, Hlen, Hlen2.
    + by eapply serve_fuel_chunks.
  - unfold arrive in Hr. rewrite fmap_app in Hr.
    destruct (dialogue_two_turns cs ss srand c ns w h _ _ _ _ _ _ _ _ _ Hd1 Hcs Hwe Hr)
      as (w1 & h1 & c1 & T1 & T2 & Hr2).
    assert (length (cnx_sent (advance c 2 cts)) = 2 + nc)%nat as Hns.
    { cbn [advance cnx_sent]. rewrite length_app, Hlen. apply Nat.add_comm. }
    rewrite <-Hns in Hd2. change crand with (cnx_rand (advance c 2 cts)) in Hd2.
    rewrite <-(app_nil_r ((fun ct => (ct, None)) <$> cts2')) in Hr2.
    destruct (dialogue_two_turns cs ss srand (advance c 2 cts) _ w2 h2 _ _ _ _ _ _ _ _ _ Hd2 Hcs Hwe Hr2)
      as (w3 & h3 & c3 & T3 & T4 & _).
    rewrite advance_advance in T4. rewrite <-Hch in T1.
    destruct (user_session_turns tok info mm t self cid w h w1 h1 _ w2 h2 _ w3 h3 _ w4 h4 _ p rc ck n
      Hcid Hself Hms Ht Hst T1 T2 Hp Hrc Hck Hf Hl Hsz Hn Hall T3 T4)
      as (mm' & j & m & Hu & Hc & Hm & Hinf & _).
    exists mm'. done.
Qed.

(** C31: A message that does not fit into the buffer is not put together again: what the
    receiver decrypts is its first 16384 bytes, and the rest is what it reads next. *)
Theorem readMsg_truncated c s ct rest : cnx_reads c = (ct, None) :: rest ->
  MSG_BUF_LEN < Z.of_nat (length ct) ->
  let n := Z.to_nat MSG_BUF_LEN in
  let '(m, err) := DecryptUnpadDecode s (Some (take n ct)) in
  readMsg (mkCnxState (Some c) s) = Done (m, ExtErr <$> err,
    mkCnxState (Some (mkCnx ((drop n ct, None) :: rest) (cnx_sent c) (cnx_closed c)
      (cnx_writeErr c) (cnx_rand c))) s).
Proof.
  intros Hr Hl n. assert (0 < n)%nat as Hn by (unfold n, MSG_BUF_LEN; lia).
  destruct (DecryptUnpadDecode s (Some (take n ct))) as [m err] eqn:Hd.
  unfold readMsg, cx_ReadData, ReadData, Read. cbn [deref cx_Cnx cx_AesSession].
  rewrite bind_Done, Hr. fold n. rewrite (proj2 (Nat.ltb_lt _ _)) by lia. rewrite !bind_Done.
  rewrite bool_decide_eq_true_2, length_take, (proj2 (Z.ltb_lt 0 _)) by (done || lia).
  cbn [orb andb fmap option_fmap option_map]. by rewrite Hd.
Qed.
End Theorems.

(** ** Witnesses *)

Module WireWitness.
Import ModelInstances ClientInfoWitness RegClusterWitness RegNodeWitness RegistryWitness MsgHandlersWitness.
Import MemberInfoWitness MemberMakerWitness SessionWitness.

Definition w_rand (n : nat) : Randomness := w_plain.
Definition w_sent (msgs : list XLRegMsg) : list bytes := Concrete.marshal <$> msgs.
Definition w_fits (m : XLRegMsg) : bool := Z.of_nat (length (Concrete.marshal m)) <=? MSG_BUF_LEN.

Lemma w_fits_ok m : w_fits m = true -> fits (Concrete.marshal m).
Proof. intros Hf. unfold w_fits in Hf. split; [unfold Concrete.marshal; cbn; lia|lia]. Qed.

(** A message handled, as a turn of a dialogue. *)
Lemma w_dialogue_cons nc ns w h req reply l msgs replies r w2 h2 :
  r = w_after (handle_msg w h (Some req)) ->
  is_Done (handle_msg w h (Some req)) = true -> negb (h_exitState r.2 =? IN_CLOSED) = true ->
  h_msgOut r.2 = Some reply ->
  msg_ok req -> msg_ok reply -> w_fits req = true -> w_fits reply = true ->
  dialogue w_plain w_plain w_rand w_rand (S nc) (S ns) r.1 (w_next r) l (w_sent msgs) (w_sent replies) w2 h2 ->
  dialogue w_plain w_plain w_rand w_rand nc ns w h ((req, reply) :: l)
    (w_sent (req :: msgs)) (w_sent (reply :: replies)) w2 h2.
Proof.
  intros -> Hd Hx Ho Hok Hok' Hf Hf' Hrest.
  eapply (dialogue_cons w_plain w_plain w_rand w_rand nc ns w h req reply (Concrete.marshal req)
    (Concrete.marshal reply) _ _ l (w_sent msgs) (w_sent replies) w2 h2); [done| |done| | | | |done| |].
  - by apply w_fits_ok.
  - apply w_after_done, Hd.
  - intros He. by rewrite He, Z.eqb_refl in Hx.
  - exact Ho.
  - done.
  - by apply w_fits_ok.
  - exact Hrest.
Qed.

Definition w_tokenGood (t : XLRegMsg_Token) : bool :=
  from_option (fun a => (0 <=? a) && (a <? 2 ^ 64)) true (tok_Attrs t) &&
  match tok_MyEnds t with Some [] => false | _ => true end.
Lemma w_tokenGood_ok t : w_tokenGood t = true -> token_ok t.
Proof.
  unfold w_tokenGood, token_ok, is_u64. intros [Ha He]%andb_true_iff. split.
  - destruct (tok_Attrs t); cbn in *; [lia|done].
  - by destruct (tok_MyEnds t) as [[]|].
Qed.

Lemma member_request_ok t : token_ok t -> msg_ok (member_request t).
Proof. intros Ht. split; cbn; done || lia. Qed.
Lemma w_m1_ok : msg_ok w_m1.
Proof. apply member_request_ok, w_tokenGood_ok. vm_compute. reflexivity. Qed.
Lemma w_m2_ok : msg_ok w_m2.
Proof. apply w_ok_numbers; reflexivity || done. Qed.
Lemma w_m3_ok : msg_ok w_m3.
Proof. apply w_ok_numbers; reflexivity || done. Qed.
Lemma w_m4_ok : msg_ok w_m4.
Proof. apply w_ok_numbers; reflexivity || done. Qed.
Lemma w_r1_ok : msg_ok w_r1.
Proof. apply w_ok_numbers; reflexivity || done. Qed.
Lemma w_r2_ok : msg_ok w_r2.
Proof. apply w_ok_numbers; reflexivity || done. Qed.
Lemma w_r4_ok : msg_ok w_r4.
Proof. apply w_ok_numbers; reflexivity || done. Qed.

Ltac w_run := vm_compute; reflexivity.
Lemma w_dialogue1 : dialogue w_plain w_plain w_rand w_rand 0 0 w_half w_new [(w_m1, w_r1); (w_m2, w_r2)]
  (w_sent [w_m1; w_m2]) (w_sent [w_r1; w_r2]) w_s2.1 (w_next w_s2).
Proof.
  apply (w_dialogue_cons 0 0 w_half w_new w_m1 w_r1 [(w_m2, w_r2)] [w_m2] [w_r2] w_s1);
    [reflexivity|w_run|w_run|w_run|exact w_m1_ok|exact w_r1_ok|w_run|w_run|].
  apply (w_dialogue_cons 1 1 w_s1.1 (w_next w_s1) w_m2 w_r2 [] [] [] w_s2);
    [reflexivity|w_run|w_run|w_run|exact w_m2_ok|exact w_r2_ok|w_run|w_run|apply dialogue_nil].
Qed.
Lemma w_dialogue2 : dialogue w_plain w_plain w_rand w_rand 2 2 w_s2.1 (w_next w_s2)
  [(w_m3, w_r3); (w_m4, w_r4)] (w_sent [w_m3; w_m4]) (w_sent [w_r3; w_r4]) w_s4.1 (w_next w_s4).
Proof.
  apply (w_dialogue_cons 2 2 w_s2.1 (w_next w_s2) w_m3 w_r3 [(w_m4, w_r4)] [w_m4] [w_r4] w_s3);
    [reflexivity|w_run|w_run|w_run|exact w_m3_ok|exact w_r3_ok|w_run|w_run|].
  apply (w_dialogue_cons 3 3 w_s3.1 (w_next w_s3) w_m4 w_r4 [] [] [] w_s4);
    [reflexivity|w_run|w_run|w_run|exact w_m4_ok|exact w_r4_ok|w_run|w_run|apply dialogue_nil].
Qed.

(** Alice's connection, and the server's end of it. *)
Definition w_aliceEnd : Cnx := w_open [w_r1; w_r2; w_r3; w_r4] [].
Definition w_serverEnd : Cnx := mkCnx (arrive (w_sent [w_m1; w_m2] ++ w_sent [w_m3; w_m4]) ++ [([], Some EOF)])
  [] false (fun _ => None) w_rand.

Lemma session_on_wire_witness : exists mm',
  serve (serve_fuel w_serverEnd) w_half w_new w_serverEnd = Done (w_s4.1, w_next w_s4,
    advance w_serverEnd 5 (w_sent [w_r1; w_r2] ++ w_sent [w_r3; w_r4]), Some EOF) /\
  user_session w_user = Done (None, mm') /\
  mm_CnxHandler mm' = mkCnxState (Some (advance w_aliceEnd 4 (w_sent [w_m1; w_m2] ++ w_sent [w_m3; w_m4]))) tt.
Proof.
  destruct (session_on_wire w_tokenOf w_infoOf w_user w_signed (w_id "0123456789abcdefghij") (w_id "new1")
    w_aliceEnd w_serverEnd w_plain w_plain w_half w_new w_s2.1 (w_next w_s2) w_s4.1 (w_next w_s4)
    w_r1 w_r2 w_r3 w_r4 (w_sent [w_m1; w_m2]) (w_sent [w_r1; w_r2]) (w_sent [w_m3; w_m4]) (w_sent [w_r3; w_r4])
    0 w_full (Some (str "new1")) 2) as (Hs & mm' & Hu & Hc & _).
  - reflexivity.
  - reflexivity.
  - reflexivity.
  - exact w_user_token.
  - reflexivity.
  - reflexivity.
  - reflexivity.
  - exact (xa_Decrypt_Encrypt w_plain).
  - exact (xa_Decrypt_Encrypt w_plain).
  - intros n. reflexivity.
  - intros n. reflexivity.
  - reflexivity.
  - reflexivity.
  - exact w_dialogue1.
  - vm_compute. reflexivity.
  - exact w_full_found.
  - reflexivity.
  - vm_compute. reflexivity.
  - vm_compute. reflexivity.
  - vm_compute. reflexivity.
  - lia.
  - exact (Forall_impl _ _ _ w_full_good w_good_ok).
  - exact w_dialogue2.
  - exists mm'. split; [exact Hs|]. split; [exact Hu|exact Hc].
Defined.

(** A hello. *)
Definition w_registryPeer : Peer := Concrete.mkPeer (Concrete.mkBase (str "xlReg") (Some (str "reg"))
  (Some (key_pub w_priv)) (Some (key_pub w_priv))) [str "127.0.0.1:44444"].
Definition w_caller : MemberMaker := mkMemberMaker 5 (mkCnxState None w_plain) (Some w_registryPeer)
  (mm_ClusterMember (w_mm 2 [])) [].
Definition w_host : world := mkWorld (mkRegistry [] [] None (w_filter []) ∅ []
  (mkRegNode (str "acceptor") (Some w_priv) (Some w_priv) w_clientNode)) [] [].
Definition w_hello : bytes := "h"%char :: be_bytes 4 0.
Definition w_helloReply : bytes := be_bytes 4 6.
Definition w_line (chunk : bytes) : Cnx := mkCnx [(chunk, None)] [] false (fun _ => None) w_rand.
Definition w_dial (ctor : ConnectorI) : Cnx + exterr := inl (w_line w_helloReply).
Definition w_version : DecimalVersion := str "1.9.24".

Lemma hello_agrees_witness : exists cs,
  SessionSetup w_dial 0 w_caller = Done (true, 6, None,
    with_cnx (mkCnxState (Some (advance (w_line w_helloReply) 1 [w_hello])) cs) w_caller) /\
  handleHello w_version w_host w_new (w_line w_hello) =
    Done (set_version 6 (set_session w_plain w_new), advance (w_line w_hello) 1 [w_helloReply], None).
Proof.
  destruct (hello_agrees w_dial 0 w_caller w_registryPeer (str "127.0.0.1:44444") (w_line w_helloReply) w_priv
    w_version w_host w_new (w_line w_hello) w_plain w_hello w_plain 0 w_plain w_helloReply [] []
    eq_refl eq_refl eq_refl eq_refl eq_refl w_priv_good) as (cs & _ & _ & _ & Hs & Hh).
  - split; [discriminate|reflexivity].
  - split; [discriminate|reflexivity].
  - reflexivity.
  - reflexivity.
  - reflexivity.
  - split; [reflexivity|discriminate].
  - split; [reflexivity|discriminate].
  - intros n. reflexivity.
  - intros n. reflexivity.
  - reflexivity.
  - reflexivity.
  - exists cs. split; [exact Hs|exact Hh].
Defined.

(** A message one byte too long. *)
Definition w_long : bytes := replicate (Z.to_nat MSG_BUF_LEN) "a"%char ++ ["b"%char].
Lemma readMsg_truncated_witness : exists m err,
  readMsg (mkCnxState (Some (w_line w_long)) w_plain) = Done (m, err,
    mkCnxState (Some (mkCnx [(["b"%char], None)] [] false (fun _ => None) w_rand)) w_plain).
Proof.
  assert (MSG_BUF_LEN < Z.of_nat (length w_long)) as Hl by (vm_compute; reflexivity).
  pose proof (readMsg_truncated (w_line w_long) w_plain w_long [] eq_refl Hl) as Hr. cbv zeta in Hr.
  assert (drop (Z.to_nat MSG_BUF_LEN) w_long = ["b"%char]) as E by (vm_compute; reflexivity).
  rewrite E in Hr. destruct (DecryptUnpadDecode w_plain _) as [m err]. exists m, (ExtErr <$> err). exact Hr.
Defined.
End WireWitness.
