(* ===== verification/EphServer.v ===== *)
(** * The ephemeral server

    Models eph_server.go: a server on a random port of the local host, with new
    keys, for tests.  What is random is an argument: the name and the name of the
    directory ([name], [idBuf]), the two keys, and the identifier, from the tape of
    draws.  The result also tells what file was given to [ioutil.WriteFile]. *)
From S2P Require Import Prelude GoStd GoCrypto Errors Proto Ext ExtModel ClientInfo RegCluster.
From S2P Require Import RegCred RegNode Registry CnxHandler MsgHandlers InHandler Server Spec.

Section EphServer.
Context `{Ext}.

Record EphServer := mkEphServer { es_acc : option AcceptorI; es_Server : RegServer }.

Definition eph_options (ep : EndPointI) (node : Node) (lfs : gostring) : RegOptions := {|
  opt_Address := [];
  opt_BackingFile := [];
  opt_ClearFilter := false;
  opt_EndPoint := Some ep;
  opt_Ephemeral := true;
  opt_GlobalEndPoint := xn_Node_GetEndPoint node 0;
  opt_K := DEFAULT_K;
  opt_Lfs := lfs;
  opt_M := DEFAULT_M;
  opt_Name := [];
  opt_Port := [];
  opt_Testing := false;
  opt_T := 0;
  opt_Verbose := false
|}.

(** From the node on: acceptors, registry node, registry, server. *)
Definition eph_server (writeFile : gostring -> bytes -> option exterr) (ep : EndPointI)
    (node : Node) (lfs : gostring) (ckPriv skPriv : PrivateKey) :
    outcome (result EphServer * option (gostring * bytes)) :=
  let '(node', oerr) := xn_Node_OpenAcc node in
  match oerr with
  | Some e => Done (Err (ExtErr e), None)
  | None =>
    match NewRegNode (Some node') (Some ckPriv) (Some skPriv) with
    | Err e => Done (Err e, None)
    | Ok rn =>
      _ ← deref (xn_Node_GetAcceptor (rn_Node rn) 0);
      '(reg, err, written) ← NewRegistry writeFile [] (Some rn) (Some (eph_options ep node' lfs));
      match err with
      | Some e => Done (Err e, written)
      | None =>
        match NewRegServer reg true 1 with
        | Err e => Done (Err e, written)
        | Ok server => Done (Ok (mkEphServer (xn_Node_GetAcceptor (rn_Node rn) 0) server), written)
        end
      end
    end
  end.

Definition NewEphServer (writeFile : gostring -> bytes -> option exterr)
    (name : gostring) (idBuf : bytes) (genCK genSK : PrivateKey + exterr) (ds : list draw) :
    outcome (result EphServer * option (gostring * bytes) * list draw) :=
  let lfs := str "tmp/" ++ EncodeToString idBuf in
  '((id, err), ds') ← xi_New_opt None ds;
  let failed e := Done (Err (ExtErr e), None, ds') in
  match err, genCK, genSK with
  | Some e, _, _ => failed e
  | None, inr e, _ => failed e
  | None, inl _, inr e => failed e
  | None, inl ckPriv, inl skPriv =>
    match xt_NewTcpEndPoint (str "127.0.0.1:0") with
    | inr e => failed e
    | inl ep =>
      match xn_New name id lfs (Some ckPriv) (Some skPriv) [ep] with
      | inr e => failed e
      | inl node =>
        '(r, written) ← eph_server writeFile ep node lfs ckPriv skPriv;
        Done (r, written, ds')
      end
    end
  end.

Definition es_Start (ms : EphServer) (accepts : list (Cnx + exterr)) : option exterr * list Cnx * bool :=
  rs_Start (es_Server ms) accepts.

Definition es_GetAcceptor (ms : EphServer) : option AcceptorI := es_acc ms.

Definition es_Stop (ms : EphServer) : option AcceptorI := Stop (es_Server ms).

End EphServer.
Arguments EphServer {_}.

(** ** Facts *)

Section Facts.
Context `{Ext}.

(** An ephemeral server that starts, step by step. *)
Lemma eph_server_Ok_inv writeFile ep node lfs ck sk es written :
  eph_server writeFile ep node lfs ck sk = Done (Ok es, written) ->
  exists node' acc reg, xn_Node_OpenAcc node = (node', None) /\ xn_Node_GetAcceptor node' 0 = Some acc /\
    NewRegistry writeFile [] (Some (mkRegNode acc (Some ck) (Some sk) node'))
      (Some (eph_options ep node' lfs)) = Done (Some reg, None, written) /\
    es = mkEphServer (Some acc) (mkRegServer true 1 reg).
Proof.
  unfold eph_server. destruct xn_Node_OpenAcc as [node' [e|]] eqn:Ho; [by intros [=]|].
  unfold NewRegNode. destruct xn_Node_GetAcceptor as [acc|] eqn:Ha; [|by intros [=]]. cbn [rn_Node].
  rewrite Ha. cbn [deref mbind outcome_bind].
  intros ([[reg err] wr] & Hn & Hr)%bind_Done_inv. destruct err; [by injection Hr|].
  destruct reg as [reg|]; [|by injection Hr]. injection Hr as <- <-. by exists node', acc, reg.
Qed.

Lemma NewEphServer_Ok_inv `{!NodeLaws} writeFile name idBuf ck sk id ds es written ds' :
  NewEphServer writeFile name idBuf (inl ck) (inl sk) ((Some id, None) :: ds) = Done (Ok es, written, ds') ->
  exists ep node acc reg, xn_Node_GetAcceptor node 0 = Some acc /\
    let lfs := str "tmp/" ++ EncodeToString idBuf in
    NewRegistry writeFile [] (Some (mkRegNode acc (Some ck) (Some sk) node))
      (Some (eph_options ep node lfs)) = Done (Some reg, None, written) /\
    es = mkEphServer (Some acc) (mkRegServer true 1 reg) /\ ds' = ds /\
    (xn_GetName (xn_Node_Base node) = name /\ xn_GetNodeID (xn_Node_Base node) = Some id /\
     xn_GetCommsPublicKey (xn_Node_Base node) = Some (key_pub ck) /\
     xn_GetSigPublicKey (xn_Node_Base node) = Some (key_pub sk)) /\ xn_Node_GetLFS node = lfs.
Proof.
  unfold NewEphServer. cbn [xi_New_opt]. rewrite bind_Done.
  destruct xt_NewTcpEndPoint as [ep|]; [|by intros [=]].
  destruct xn_New as [node|] eqn:Hn; [|by intros [=]].
  intros ([r wr] & He & [= -> <- <-])%bind_Done_inv.
  apply eph_server_Ok_inv in He as (node' & acc & reg & Ho & Ha & Hr & ->).
  destruct (xn_OpenAcc_fields _ _ _ Ho) as [Hb Hl].
  destruct (xn_New_fields _ _ _ _ _ _ _ Hn) as (Hname & Hid & Hck & Hsk & Hlfs).
  exists ep, node', acc, reg. rewrite Hb, Hl. done.
Qed.
End Facts.

(** ** Theorems *)

Section Theorems.
Context `{Ext}.

(** C38: An ephemeral server that starts has the name, identifier and keys drawn for it and
    an acceptor that is live.  However the steps of its connections are then
    interleaved, it keeps its invariants, is a run of the loose registry from the
    empty one, with all clusters within their bounds, and its own identifier stays
    known, so that it is never issued; if no two Joins of the same name in the same
    cluster overlap, it is a run of the abstract registry, with distinct names. *)
Theorem eph_server_runs `{!NodeIDLaws} `{!HamtLaws} `{!BloomLaws} `{!NodeLaws}
    writeFile name idBuf ck sk id ds es written ds' :
  NewEphServer writeFile name idBuf (inl ck) (inl sk) ((Some id, None) :: ds) = Done (Ok es, written, ds') ->
  let reg := rs_Registry (es_Server es) in
  let base := xn_Node_Base (rn_Node (reg_RegNode reg)) in
  xn_GetName base = name /\ xn_GetNodeID base = Some id /\
  xn_GetCommsPublicKey base = Some (key_pub ck) /\ xn_GetSigPublicKey base = Some (key_pub sk) /\
  is_Some (es_GetAcceptor es) /\ es_Stop es = es_GetAcceptor es /\
  serves_well (mkWorld reg [] ds') (xi_Value id).
Proof.
  intros (ep & node & acc & reg & Ha & Hr & -> & -> & Hb & Hl)%NewEphServer_Ok_inv.
  destruct Hb as (Hname & Hid & Hck & Hsk).
  destruct (NewRegistry_fresh _ _ _ _ _ id ds Hr) as (_ & _ & Hrn & _); [done|].
  unfold es_Stop, Stop, rs_GetAcceptor. cbn [rs_Registry es_Server es_GetAcceptor es_acc].
  rewrite Hrn. split_and!; try done. by eapply NewRegistry_serves.
Qed.

(** An ephemeral server that starts has written its credentials to a file, in a
    directory below tmp that is named after the random bytes. *)
Theorem eph_server_writes `{!NodeLaws} writeFile name idBuf ck sk id ds es written ds' :
  NewEphServer writeFile name idBuf (inl ck) (inl sk) ((Some id, None) :: ds) = Done (Ok es, written, ds') ->
  exists cred, let path := filepath_Join [str "tmp/" ++ EncodeToString idBuf; str "regCred.dat"] in
    written = Some (path, cred) /\ writeFile path cred = None.
Proof.
  intros (ep & node & acc & reg & Ha & Hr & -> & -> & Hb & Hl)%NewEphServer_Ok_inv.
  apply NewRegistry_Ok_inv in Hr as (v & f & m & reg0 & _ & _ & _ & _ & Hw). cbn [rn_Node] in Hw.
  rewrite Hl, bool_decide_eq_false_2 in Hw by done.
  destruct Hw as (s & _ & Hwr & Hwf). by exists s.
Qed.
End Theorems.

(** ** Witnesses *)

Module EphServerWitness.
Import ModelInstances ClientInfoWitness RegNodeWitness RegistryWitness.

Definition w_ephemeral : outcome (result EphServer * option (gostring * bytes) * list draw) :=
  NewEphServer no_error (str "eph") (str "0123") (inl w_priv) (inl w_priv) [(Some (w_id "eph's id"), None)].

Definition is_Ok {A B C} (r : outcome (result A * B * C)) : bool :=
  match r with Done (Ok _, _, _) => true | _ => false end.

Lemma is_Ok_inv {A B C} (r : outcome (result A * B * C)) : is_Ok r = true ->
  exists a b c, r = Done (Ok a, b, c).
Proof. destruct r as [[[[a|] b] c]| |]; intros [=]. by eexists _, _, _. Qed.

Lemma eph_server_runs_witness : exists es written ds, w_ephemeral = Done (Ok es, written, ds) /\
  xn_GetName (xn_Node_Base (rn_Node (reg_RegNode (rs_Registry (es_Server es))))) = str "eph" /\
  known (rs_Registry (es_Server es)) (str "eph's id").
Proof.
  destruct (is_Ok_inv w_ephemeral) as (es & wr & ds & He); [vm_compute; reflexivity|].
  exists es, wr, ds. split; [exact He|].
  destruct (eph_server_runs no_error _ _ _ _ _ _ _ _ _ He) as (Hn & _ & _ & _ & _ & _ & Hr).
  split; [exact Hn|]. apply (proj1 Hr (mkWorld (rs_Registry (es_Server es)) [] ds, ∅)). apply rtc_refl.
Defined.

Lemma eph_server_writes_witness : exists es cred ds,
  w_ephemeral = Done (Ok es, Some (str "tmp/30313233/regCred.dat", cred), ds).
Proof.
  destruct (is_Ok_inv w_ephemeral) as (es & wr & ds & He); [vm_compute; reflexivity|].
  destruct (eph_server_writes no_error _ _ _ _ _ _ _ _ _ He) as (cred & Hw & _).
  exists es, cred, ds. rewrite He, Hw. reflexivity.
Defined.
End EphServerWitness.
