(* ===== verification/Command.v ===== *)
(** * The command

    Models cmd/xlReg/xlReg.go: how the options of the command are fixed up, how the
    server is set up, from a configuration file or anew, and run.

    The flags, as [flag.Parse] leaves them, are a record; k, m and t are unsigned,
    port is an int.  What the environment answers, files, keys, connections, is a
    record of functions.  The logger, which is never nil where it is used, and what
    is printed are left out.  The results tell what files were given to
    [ioutil.WriteFile], in order. *)
From S2P Require Import Prelude GoStd GoCrypto Errors Proto Ext ExtModel ClientInfo RegCluster.
From S2P Require Import RegCred RegNode Registry CnxHandler MsgHandlers InHandler Server Spec EphServer.

Definition DEFAULT_ADDR : gostring := str "0.0.0.0".
Definition DEFAULT_GLOBAL_ADDR : gostring := str "54.186.197.123".
Definition DEFAULT_NAME : gostring := str "xlReg".
Definition DEFAULT_LFS : gostring := str "/var/app/xlreg".
Definition TEST_DEFAULT_PORT : Z := 45678.
Definition DEFAULT_PORT : Z := 56789.

Record Flags := mkFlags {
  f_address : gostring;
  f_clearFilter : bool;
  f_ephemeral : bool;
  f_globalAddress : gostring;
  f_justShow : bool;
  f_k : Z;
  f_lfs : gostring;
  f_logFile : gostring;
  f_m : Z;
  f_name : gostring;
  f_port : Z;
  f_t : Z;
  f_testing : bool;
  f_verbose : bool
}.

Definition default_flags `{Ext} : Flags := {|
  f_address := DEFAULT_ADDR;
  f_clearFilter := false;
  f_ephemeral := false;
  f_globalAddress := DEFAULT_GLOBAL_ADDR;
  f_justShow := false;
  f_k := DEFAULT_K;
  f_lfs := DEFAULT_LFS;
  f_logFile := str "log";
  f_m := DEFAULT_M;
  f_name := DEFAULT_NAME;
  f_port := DEFAULT_PORT;
  f_t := DEFAULT_W;
  f_testing := false;
  f_verbose := false
|}.

(** A test run does not use the defaults of a real one. *)
Definition fix_testing (f : Flags) : Flags := {|
  f_address := if bool_decide (f_address f = DEFAULT_ADDR) then str "127.0.0.1" else f_address f;
  f_clearFilter := f_clearFilter f;
  f_ephemeral := f_ephemeral f;
  f_globalAddress := if bool_decide (f_globalAddress f = DEFAULT_GLOBAL_ADDR) then str "127.0.0.1"
                     else f_globalAddress f;
  f_justShow := f_justShow f;
  f_k := f_k f;
  f_lfs := if bool_decide (f_lfs f = DEFAULT_LFS) || bool_decide (f_lfs f = []) then str "./myApp/xlReg"
           else filepath_Join [str "tmp"; f_lfs f];
  f_logFile := f_logFile f;
  f_m := f_m f;
  f_name := if bool_decide (f_name f = DEFAULT_NAME) || bool_decide (f_name f = []) then str "testReg"
            else f_name f;
  f_port := if (f_port f =? DEFAULT_PORT) || (f_port f =? 0) then TEST_DEFAULT_PORT else f_port f;
  f_t := f_t f;
  f_testing := f_testing f;
  f_verbose := f_verbose f
|}.

Definition backing_file (f : Flags) : gostring :=
  if f_ephemeral f then [] else filepath_Join [f_lfs f; str "idFilter.dat"].

Definition addrAndPort (address : gostring) (port : Z) : gostring :=
  address ++ str ":" ++ Sprint_int port.

(** The parameters of the filter are brought into range, the work directory is
    made, and the log gets a name if that succeeds. *)
Definition sanity_checks (checkLFS : gostring -> option exterr) (f : Flags) : Flags * option exterr :=
  let err := checkLFS (f_lfs f) in
  ({| f_address := f_address f;
      f_clearFilter := f_clearFilter f;
      f_ephemeral := f_ephemeral f;
      f_globalAddress := f_globalAddress f;
      f_justShow := f_justShow f;
      f_k := if f_k f <? 2 then 8 else f_k f;
      f_lfs := f_lfs f;
      f_logFile := match err with
                   | None => if bool_decide (f_logFile f = []) then filepath_Join [f_lfs f; str "log"]
                             else f_logFile f
                   | Some _ => f_logFile f
                   end;
      f_m := if f_m f <? 2 then 20 else f_m f;
      f_name := f_name f;
      f_port := f_port f;
      f_t := f_t f;
      f_testing := f_testing f;
      f_verbose := f_verbose f |}, err).

Section Command.
Context `{Ext}.

(** EndPoint and Name of the options are not set. *)
Definition set_options (f : Flags) (backingFile : gostring) (globalEndPoint : EndPointI) : RegOptions := {|
  opt_Address := f_address f;
  opt_BackingFile := backingFile;
  opt_ClearFilter := f_clearFilter f;
  opt_EndPoint := None;
  opt_Ephemeral := f_ephemeral f;
  opt_GlobalEndPoint := Some globalEndPoint;
  opt_K := f_k f;
  opt_Lfs := f_lfs f;
  opt_M := f_m f;
  opt_Name := [];
  opt_Port := Sprint_int (f_port f);
  opt_Testing := f_testing f;
  opt_T := f_t f;
  opt_Verbose := f_verbose f
|}.

(** What the environment answers.  [env_GenerateCK] and [env_GenerateSK] are the two
    calls of [rsa.GenerateKey]. *)
Record Env := mkEnv {
  env_CheckLFS : gostring -> option exterr;
  env_OpenFile : gostring -> option exterr;
  env_PathExists : gostring -> bool * option exterr;
  env_ReadFile : gostring -> bytes + exterr;
  env_MkdirsToFile : gostring -> option exterr;
  env_WriteFile : gostring -> bytes -> option exterr;
  env_GenerateCK : PrivateKey + exterr;
  env_GenerateSK : PrivateKey + exterr;
  env_accepts : list (Cnx + exterr)
}.

Abbreviation files := (list (gostring * bytes)).

Definition config_path (opt : RegOptions) : gostring :=
  filepath_Join [filepath_Join [opt_Lfs opt; str ".xlattice"]; str "reg.config"].

(** The registry node in the configuration file. *)
Definition load_RegNode (env : Env) (pathToConfigFile : gostring) :
    outcome (option RegNode * option error) :=
  match env_ReadFile env pathToConfigFile with
  | inr e => Done (None, Some (ExtErr e))
  | inl data =>
    '(rn, _, err) ← ParseRegNode data;
    Done (rn, err)
  end.

(** A new registry node, saved in the configuration file.  The errors met here are
    held in a variable that shadows the one returned, or ignored: only whether there
    is a node is known afterwards. *)
Definition create_RegNode (env : Env) (opt : RegOptions) (pathToConfigFile : gostring) (ds : list draw) :
    outcome (option RegNode * files * list draw) :=
  '((nodeID, _), ds') ← xi_New_opt None ds;
  match xt_NewTcpEndPoint (opt_Address opt ++ str ":" ++ opt_Port opt),
        env_GenerateCK env, env_GenerateSK env with
  | inl ep, inl ckPriv, inl skPriv =>
    match xn_New (str "xlReg") nodeID (opt_Lfs opt) (Some ckPriv) (Some skPriv) [ep] with
    | inr _ => Done (None, [], ds')
    | inl node =>
      let '(node', _) := xn_Node_OpenAcc node in
      match NewRegNode (Some node') (Some ckPriv) (Some skPriv) with
      | Err _ => Done (None, [], ds')
      | Ok rn =>
        match env_MkdirsToFile env pathToConfigFile with
        | Some _ => Done (Some rn, [], ds')
        | None => Done (Some rn, [(pathToConfigFile, rn_String rn)], ds')
        end
      end
    end
  | _, _, _ => Done (None, [], ds')
  end.

(** The registry and the server around a node. *)
Definition finish_setup (env : Env) (opt : RegOptions) (rn : option RegNode) (fs : files) (ds : list draw) :
    outcome (result RegServer * files * list draw) :=
  '(r, err, written) ← NewRegistry (env_WriteFile env) [] rn (Some opt);
  let fs := fs ++ option_list written in
  match err with
  | Some e => Done (Err e, fs, ds)
  | None =>
    rn ← deref rn;
    _ ← deref (xn_GetNodeID (xn_Node_Base (rn_Node rn)));
    Done (NewRegServer r (opt_Testing opt) (if opt_Verbose opt then 1 else 0), fs, ds)
  end.

Definition setup (env : Env) (opt : RegOptions) (ds : list draw) :
    outcome (result RegServer * files * list draw) :=
  let pathToConfigFile := config_path opt in
  match env_PathExists env pathToConfigFile with
  | (_, Some e) => Done (Err (ExtErr e), [], ds)
  | (true, None) =>
    '(rn, err) ← load_RegNode env pathToConfigFile;
    match err with
    | Some e => Done (Err e, [], ds)
    | None => finish_setup env opt rn [] ds
    end
  | (false, None) =>
    '(rn, fs, ds') ← create_RegNode env opt pathToConfigFile ds;
    finish_setup env opt rn fs ds'
  end.

(** The command waits until the accept loop ends. *)
Definition cmd_serve (rs : RegServer) (accepts : list (Cnx + exterr)) : outcome (option exterr * list Cnx) :=
  match rs_Start rs accepts with
  | (Some e, _, _) => Done (Some e, [])
  | (None, cs, true) => Done (None, cs)
  | (None, _, false) => Starved
  end.

(** How the command ends: a message about its use and status -1, the options shown, or
    a run that ended with an error, which is not reported, or without. *)
Inductive main_result :=
  | UsageShown
  | OptionsShown
  | Ended (err : option error) (cs : list Cnx) (fs : files).

Definition run (env : Env) (opt : RegOptions) (ds : list draw) : outcome main_result :=
  '(r, fs, ds') ← setup env opt ds;
  match r with
  | Err e => Done (Ended (Some e) [] fs)
  | Ok rs =>
    '(err, cs) ← cmd_serve rs (env_accepts env);
    Done (Ended (ExtErr <$> (err : option exterr)) cs fs)
  end.

(** An error of making the work directory is overwritten by the result of opening
    the log. *)
Definition main (env : Env) (f : Flags) (ds : list draw) : outcome main_result :=
  let f1 := if f_testing f then fix_testing f else f in
  match xt_NewTcpEndPoint (addrAndPort (f_address f1) (f_port f1)),
        xt_NewTcpEndPoint (addrAndPort (f_globalAddress f1) (f_port f1)) with
  | inl _, inl globalEndPoint =>
    let '(f2, err) := sanity_checks (env_CheckLFS env) f1 in
    if f_justShow f2 then Done OptionsShown
    else
      let err := if bool_decide (f_logFile f2 = []) then err else env_OpenFile env (f_logFile f2) in
      match err with
      | Some e => Done (Ended (Some (ExtErr e)) [] [])
      | None => run env (set_options f2 (backing_file f1) globalEndPoint) ds
      end
  | _, _ => Done UsageShown
  end.

End Command.

(** ** Facts *)

Section Facts.
Context `{Ext}.

Lemma finish_setup_Ok_inv env opt rn fs ds rs fs' ds' :
  finish_setup env opt rn fs ds = Done (Ok rs, fs', ds') ->
  exists node id written, rn = Some node /\ ds' = ds /\ fs' = fs ++ option_list written /\
    NewRegistry (env_WriteFile env) [] (Some node) (Some opt) = Done (Some (rs_Registry rs), None, written) /\
    xn_GetNodeID (xn_Node_Base (rn_Node node)) = Some id.
Proof.
  unfold finish_setup. intros ([[r err] written] & Hn & Hf)%bind_Done_inv.
  destruct err as [e|]; [by injection Hf|].
  apply bind_Done_inv in Hf as (node & ->%deref_Done_inv & Hf).
  apply bind_Done_inv in Hf as (id & Hid%deref_Done_inv & Hf).
  destruct r as [r|]; [|by injection Hf]. injection Hf as <- <- <-. by exists node, id, written.
Qed.

Lemma setup_Ok_inv env opt ds rs fs ds' :
  setup env opt ds = Done (Ok rs, fs, ds') ->
  exists rn fs1, finish_setup env opt rn fs1 ds' = Done (Ok rs, fs, ds') /\
    (env_PathExists env (config_path opt) = (false, None) ->
     create_RegNode env opt (config_path opt) ds = Done (rn, fs1, ds')).
Proof.
  unfold setup. destruct env_PathExists as [[] [e|]]; try by intros [=].
  - intros ([rn err] & Hl & Hf)%bind_Done_inv. destruct err; [by injection Hf|].
    destruct (finish_setup_Ok_inv _ _ _ _ _ _ _ _ Hf) as (_ & _ & _ & _ & -> & _). by exists rn, [].
  - intros ([[rn fs1] ds1] & Hc & Hf)%bind_Done_inv.
    destruct (finish_setup_Ok_inv _ _ _ _ _ _ _ _ Hf) as (_ & _ & _ & _ & -> & _). by exists rn, fs1.
Qed.

(** A registry node that was created is saved if its directory could be made. *)
Lemma create_RegNode_saved env opt path ds rn fs ds' :
  create_RegNode env opt path ds = Done (Some rn, fs, ds') -> env_MkdirsToFile env path = None ->
  fs = [(path, rn_String rn)] /\ is_Some (rn_ckPriv rn) /\ is_Some (rn_skPriv rn).
Proof.
  unfold create_RegNode. intros ([[nid derr] ds1] & _ & Hc)%bind_Done_inv Hm.
  destruct xt_NewTcpEndPoint as [ep|]; [|by injection Hc].
  destruct env_GenerateCK as [ck|]; [|by injection Hc].
  destruct env_GenerateSK as [sk|]; [|by injection Hc].
  destruct xn_New as [node|]; [|by injection Hc].
  destruct xn_Node_OpenAcc as [node' oerr]. unfold NewRegNode in Hc.
  destruct xn_Node_GetAcceptor as [acc|]; [|by injection Hc].
  rewrite Hm in Hc. by injection Hc as <- <- <-.
Qed.

(** The node read from a configuration file that holds a printed node. *)
Lemma load_RegNode_printed `{!LineLaws} `{!NodePrintLaws} env path rn ck sk n' acc :
  env_ReadFile env path = inl (rn_String rn) ->
  node_printable (rn_Node rn) -> rn_ckPriv rn = Some ck -> rn_skPriv rn = Some sk ->
  priv_printable ck -> priv_printable sk ->
  xn_Node_OpenAcc (rn_Node rn) = (n', None) -> xn_Node_GetAcceptor n' 0 = Some acc ->
  load_RegNode env path = Done (Some (mkRegNode acc (Some ck) (Some sk) n'), None).
Proof. intros Hr **. unfold load_RegNode. rewrite Hr. by erewrite ParseRegNode_printed. Qed.
End Facts.

(** ** Theorems *)

Section Theorems.
Context `{Ext}.

(** C17: A server that the command has set up, from its configuration or anew, knows its own
    identifier and keeps knowing it; however the steps of its connections are
    interleaved, it keeps its invariants and is a run of the loose registry from the
    empty one, with all clusters within their bounds; if no two Joins of the same
    name in the same cluster overlap, it is a run of the abstract registry, with
    distinct names. *)
Theorem setup_serves `{!NodeIDLaws} `{!HamtLaws} `{!BloomLaws} env opt ds rs fs ds' :
  setup env opt ds = Done (Ok rs, fs, ds') ->
  exists id, xn_GetNodeID (xn_Node_Base (rn_Node (reg_RegNode (rs_Registry rs)))) = Some id /\
    serves_well (mkWorld (rs_Registry rs) [] ds') (xi_Value id).
Proof.
  intros (rn & fs1 & Hf & _)%setup_Ok_inv.
  apply finish_setup_Ok_inv in Hf as (node & id & written & -> & _ & _ & Hn & Hid). exists id.
  destruct (NewRegistry_fresh _ _ _ _ _ id ds' Hn Hid) as (_ & _ & Hrn & _).
  split; [by rewrite Hrn|]. by eapply NewRegistry_serves.
Qed.

(** C18: A registry keeps its identity when the command is run again.  A first run, without
    a configuration file but with a place for it, writes that file first; any later
    run that finds the file as it was written goes on with a node of the same name,
    identifier and keys. *)
Theorem setup_restarts `{!LineLaws} `{!NodePrintLaws} `{!NodeLaws} `{!NodeIDLaws} `{!HamtLaws} `{!BloomLaws}
    env opt ds rs fs ds1 n' acc :
  let path := config_path opt in
  let rn := reg_RegNode (rs_Registry rs) in
  env_PathExists env path = (false, None) -> env_MkdirsToFile env path = None ->
  setup env opt ds = Done (Ok rs, fs, ds1) ->
  node_printable (rn_Node rn) ->
  (forall k, rn_ckPriv rn = Some k \/ rn_skPriv rn = Some k -> priv_printable k) ->
  xn_Node_OpenAcc (rn_Node rn) = (n', None) -> xn_Node_GetAcceptor n' 0 = Some acc ->
  exists config, head fs = Some (path, config) /\
    forall env' opt' ds', config_path opt' = path -> env_PathExists env' path = (true, None) ->
      env_ReadFile env' path = inl config ->
      exists rn', setup env' opt' ds' = finish_setup env' opt' (Some rn') [] ds' /\
        xn_Node_Base (rn_Node rn') = xn_Node_Base (rn_Node rn) /\
        rn_ckPriv rn' = rn_ckPriv rn /\ rn_skPriv rn' = rn_skPriv rn.
Proof.
  intros path rn Hp Hm Hs Hpn Hpk Ho Ha.
  destruct (setup_Ok_inv _ _ _ _ _ _ Hs) as (rn0 & fs1 & Hf & Hc). specialize (Hc Hp).
  apply finish_setup_Ok_inv in Hf as (node & id & written & -> & _ & -> & Hn & Hid).
  destruct (NewRegistry_fresh _ _ _ _ _ id ds1 Hn Hid) as (_ & _ & Hrn & _).
  fold rn in Hrn. subst node.
  destruct (create_RegNode_saved _ _ _ _ _ _ _ Hc Hm) as (-> & [ck Hck] & [sk Hsk]).
  exists (rn_String rn). split; [done|]. intros env' opt' ds' Hpath Hp' Hr.
  unfold setup. rewrite Hpath, Hp'.
  rewrite (load_RegNode_printed env' path rn ck sk n' acc) by (done || apply Hpk; auto).
  rewrite bind_Done. eexists. split; [done|]. cbn [rn_Node rn_ckPriv rn_skPriv].
  destruct (xn_OpenAcc_fields _ _ _ Ho) as [Hb _]. by rewrite Hck, Hsk.
Qed.

(** C29: When there is no configuration file and the node cannot be made, because its end
    point or a key cannot, the reason is lost: the error is that there is no node. *)
Theorem setup_error_replaced env opt d ds v e :
  env_PathExists env (config_path opt) = (false, None) -> xu_ParseDecimalVersion VERSION = inl v ->
  xt_NewTcpEndPoint (opt_Address opt ++ str ":" ++ opt_Port opt) = inr e \/
  env_GenerateCK env = inr e \/ env_GenerateSK env = inr e ->
  setup env opt (d :: ds) = Done (Err (RegErr NilRegNode), [], ds).
Proof.
  intros Hp Hv He. unfold setup. rewrite Hp.
  assert (create_RegNode env opt (config_path opt) (d :: ds) = Done (None, [], ds)) as ->.
  { unfold create_RegNode. destruct d as [nid derr]. cbn [xi_New_opt]. rewrite bind_Done.
    destruct xt_NewTcpEndPoint, env_GenerateCK, env_GenerateSK; naive_solver. }
  rewrite bind_Done. unfold finish_setup, NewRegistry. by rewrite Hv, bind_Done.
Qed.

(** A registry whose configuration cannot be saved is served all the same: whether the
    file was written makes no difference to the server. *)
Theorem setup_unsaved env opt ds rn fs ds' wf :
  env_PathExists env (config_path opt) = (false, None) ->
  create_RegNode env opt (config_path opt) ds = Done (Some rn, fs, ds') ->
  (forall cred, wf (filepath_Join [xn_Node_GetLFS (rn_Node rn); str "regCred.dat"]) cred =
     env_WriteFile env (filepath_Join [xn_Node_GetLFS (rn_Node rn); str "regCred.dat"]) cred) ->
  let env' := mkEnv (env_CheckLFS env) (env_OpenFile env) (env_PathExists env) (env_ReadFile env)
    (env_MkdirsToFile env) wf (env_GenerateCK env) (env_GenerateSK env) (env_accepts env) in
  setup env' opt ds = setup env opt ds.
Proof.
  intros Hp Hc Hw env'. unfold setup. cbn [env_PathExists env']. rewrite Hp.
  assert (create_RegNode env' opt (config_path opt) ds = create_RegNode env opt (config_path opt) ds) as -> by done.
  rewrite Hc, !bind_Done. unfold finish_setup, NewRegistry. cbn [env_WriteFile env' deref].
  destruct xu_ParseDecimalVersion; [|done]. rewrite !bind_Done. destruct (if bool_decide _ then _ else _); [|done].
  destruct ha_NewHAMT; [|done]. case_bool_decide; [done|].
  destruct cred_String as [s| |]; [|done..]. by rewrite !bind_Done, Hw.
Qed.

(** A registry whose filter, kept in a file, already has its identifier is not set up
    again. *)
Theorem setup_identifier_known env opt ds rn id v f m s :
  env_PathExists env (config_path opt) = (true, None) ->
  load_RegNode env (config_path opt) = Done (Some rn, None) ->
  xn_GetNodeID (xn_Node_Base (rn_Node rn)) = Some id -> opt_BackingFile opt <> [] ->
  xu_ParseDecimalVersion VERSION = inl v -> ha_NewHAMT DEFAULT_W (opt_T opt) = inl (m : HAMT ptr) ->
  cred_String (NewRegistry_regCred rn opt v) = Done s -> (forall path, env_WriteFile env path s = None) ->
  xf_NewMappedBloomSHA (opt_M opt) (opt_K opt) (opt_BackingFile opt) = inl f ->
  xf_IsMember f (xi_Value id) = (true, None) ->
  exists fs, setup env opt ds = Done (Err (RegErr IDAlreadyInUse), fs, ds).
Proof.
  intros Hp Hl Hid Hb Hv Hm Hs Hw Hf Hk. unfold setup. rewrite Hp, Hl, bind_Done.
  unfold finish_setup, NewRegistry. rewrite Hv. cbn [deref]. rewrite bind_Done.
  rewrite (bool_decide_eq_false_2 (opt_BackingFile opt = [])) by done. rewrite Hf, Hm, Hs, bind_Done, Hw.
  unfold InsertID. rewrite Hid. cbn [deref]. rewrite !bind_Done. cbn [reg_idFilter]. rewrite Hk.
  case_bool_decide; eexists; by rewrite !bind_Done.
Qed.

(** C30: Unless the command only shows its options or cannot use its addresses or its log, it
    runs the server with a filter of at least four bits and two hash functions, kept
    in a file unless the server is ephemeral; a test run keeps to a relative directory
    and does not use the port or the address of a real one.  That the work directory
    could not be made does not stop it, if the log was given a name. *)
Theorem main_options_ok env f ds ep gep :
  let f1 := if f_testing f then fix_testing f else f in
  xt_NewTcpEndPoint (addrAndPort (f_address f1) (f_port f1)) = inl ep ->
  xt_NewTcpEndPoint (addrAndPort (f_globalAddress f1) (f_port f1)) = inl gep ->
  f_justShow f = false -> (forall path, env_OpenFile env path = None) ->
  f_logFile f <> [] \/ env_CheckLFS env (f_lfs f1) = None ->
  exists opt port, main env f ds = run env opt ds /\
    2 <= opt_M opt /\ 2 <= opt_K opt /\ opt_GlobalEndPoint opt = Some gep /\
    (opt_BackingFile opt = [] <-> f_ephemeral f = true) /\ opt_Port opt = Sprint_int port /\
    (f_testing f = true -> opt_Address opt <> DEFAULT_ADDR /\ port <> 0 /\ port <> DEFAULT_PORT /\
      HasPrefix (opt_Lfs opt) (str "/") = false).
Proof.
  intros f1 He Hg Hj Ho Hl.
  exists (set_options (sanity_checks (env_CheckLFS env) f1).1 (backing_file f1) gep), (f_port f1).
  split_and!; cbn; [|by destruct (Z.ltb_spec (f_m f1) 2)|by destruct (Z.ltb_spec (f_k f1) 2)|done|..].
  - unfold main. fold f1. rewrite He, Hg. destruct (sanity_checks _ _) as [f2 err] eqn:Hs.
    injection Hs as <- Herr. cbn [f_justShow f_logFile fst].
    assert (f_justShow f1 = false) as -> by (unfold f1; by destruct (f_testing f)). rewrite Ho.
    assert (f_logFile f1 = f_logFile f) as Hlf by (unfold f1; by destruct (f_testing f)).
    rewrite <-Herr. destruct env_CheckLFS as [e|] eqn:Hc; [|by case_bool_decide].
    destruct Hl as [Hl|]; [|done]. by rewrite bool_decide_eq_false_2 by (by rewrite Hlf).
  - unfold backing_file. assert (f_ephemeral f1 = f_ephemeral f) as -> by (unfold f1; by destruct (f_testing f)).
    destruct (f_ephemeral f); split; try done. intros Hn. by apply filepath_Join_not_nil in Hn.
  - done.
  - intros Ht. subst f1. rewrite Ht. cbn [f_address f_port f_lfs fix_testing]. split_and!.
    + by case_bool_decide.
    + unfold TEST_DEFAULT_PORT, DEFAULT_PORT. destruct (Z.eqb_spec (f_port f) 56789), (Z.eqb_spec (f_port f) 0); lia || done.
    + unfold TEST_DEFAULT_PORT, DEFAULT_PORT. destruct (Z.eqb_spec (f_port f) 56789), (Z.eqb_spec (f_port f) 0); lia || done.
    + destruct (_ || _); [done|]. by apply filepath_Join_relative.
Qed.
End Theorems.

(** ** Witnesses *)

Module CommandWitness.
Import ModelInstances ClientInfoWitness RegNodeWitness RegistryWitness EphServerWitness.

Definition w_fine (path : gostring) : option exterr := None.
Definition w_found (b : bool) (path : gostring) : bool * option exterr := (b, None).
Definition w_content (data : bytes + exterr) (path : gostring) : bytes + exterr := data.
Definition w_env (found : bool) (data : bytes + exterr) : Env :=
  mkEnv w_fine w_fine (w_found found) (w_content data) w_fine no_error (inl w_priv) (inl w_priv) [].
Definition w_options : RegOptions := set_options default_flags [] (str "54.186.197.123:56789").
Definition w_none : bytes + exterr := inr (XErr "no such file").

Definition w_setup : outcome (result RegServer * list (gostring * bytes) * list draw) :=
  setup (w_env false w_none) w_options [(Some (w_id "0123456789abcdefghij"), None)].

Lemma setup_serves_witness : exists rs fs ds, w_setup = Done (Ok rs, fs, ds) /\
  exists id, known (rs_Registry rs) (xi_Value id).
Proof.
  destruct (is_Ok_inv w_setup) as (rs & fs & ds & He); [vm_compute; reflexivity|].
  exists rs, fs, ds. split; [exact He|]. destruct (setup_serves _ _ _ _ _ _ He) as (id & _ & Hr).
  exists id. apply (proj1 Hr (mkWorld (rs_Registry rs) [] ds, ∅)). apply rtc_refl.
Defined.

(** The node of a server that was set up. *)
Definition w_summary {B C} (r : outcome (result RegServer * B * C)) :
    option (Concrete.base_node * list gostring * option PrivateKey * option PrivateKey) :=
  match r with
  | Done (Ok rs, _, _) => let rn := reg_RegNode (rs_Registry rs) in
    Some (Concrete.n_base (rn_Node rn), Concrete.n_acc (rn_Node rn), rn_ckPriv rn, rn_skPriv rn)
  | _ => None
  end.

Lemma w_setup_summary : w_summary w_setup =
  Some (Concrete.mkBase (str "xlReg") (Some (str "0123456789abcdefghij")) (Some w_key) (Some w_key),
        [str "0.0.0.0:56789"], Some w_priv, Some w_priv).
Proof. vm_compute. reflexivity. Qed.

Lemma w_summary_inv {B C} (r : outcome (result RegServer * B * C)) rs b c base accs ck sk :
  r = Done (Ok rs, b, c) -> w_summary r = Some (base, accs, ck, sk) ->
  let rn := reg_RegNode (rs_Registry rs) in
  Concrete.n_base (rn_Node rn) = base /\ Concrete.n_acc (rn_Node rn) = accs /\
  rn_ckPriv rn = ck /\ rn_skPriv rn = sk.
Proof. intros -> [= <- <- <- <-]. done. Qed.

Lemma w_priv_small : small_key w_priv.
Proof. vm_compute. split_and!; discriminate || reflexivity. Qed.

Lemma w_registry_printable : base_printable
  (Concrete.mkBase (str "xlReg") (Some (str "0123456789abcdefghij")) (Some w_key) (Some w_key)).
Proof.
  split; [done|]. split; [change (nl ∉ str "xlReg"); lit_notin|].
  split; [by eexists|]. by split; eexists _, _.
Qed.

Lemma setup_restarts_witness : exists config rn,
  setup (w_env true (inl config)) w_options [] =
    finish_setup (w_env true (inl config)) w_options (Some rn) [] [] /\
  xn_GetName (xn_Node_Base (rn_Node rn)) = str "xlReg" /\ rn_ckPriv rn = Some w_priv.
Proof.
  destruct (is_Ok_inv w_setup) as (rs & fs & ds & He); [vm_compute; reflexivity|].
  destruct (w_summary_inv _ _ _ _ _ _ _ _ He w_setup_summary) as (Hb & Ha & Hck & Hsk).
  destruct (setup_restarts (w_env false w_none) w_options _ rs fs ds
    (rn_Node (reg_RegNode (rs_Registry rs))) (str "0.0.0.0:56789") eq_refl eq_refl He) as (config & _ & Hr).
  - change (base_printable (Concrete.n_base (rn_Node (reg_RegNode (rs_Registry rs))))).
    rewrite Hb. exact w_registry_printable.
  - intros k [Hk|Hk]; assert (k = w_priv) as -> by congruence; exact w_priv_small.
  - reflexivity.
  - change (Concrete.n_acc (rn_Node (reg_RegNode (rs_Registry rs))) !! 0%nat = Some (str "0.0.0.0:56789")).
    rewrite Ha. reflexivity.
  - destruct (Hr (w_env true (inl config)) w_options [] eq_refl eq_refl eq_refl)
      as (rn & Hs & Hbase & Hc & _).
    exists config, rn. split; [exact Hs|]. split; [|rewrite Hc; exact Hck].
    change (Concrete.b_name (Concrete.n_base (rn_Node rn)) = str "xlReg").
    change (Concrete.n_base (rn_Node rn) = Concrete.n_base (rn_Node (reg_RegNode (rs_Registry rs)))) in Hbase.
    rewrite Hbase, Hb. reflexivity.
Defined.

Definition w_keyless : Env :=
  mkEnv w_fine w_fine (w_found false) (w_content w_none) w_fine no_error (inl w_priv)
    (inr (XErr "no entropy")) [].

Lemma setup_error_replaced_witness :
  setup w_keyless w_options [(Some (w_id "0123456789abcdefghij"), None)] =
    Done (Err (RegErr NilRegNode), [], []).
Proof.
  apply (setup_error_replaced w_keyless w_options _ _ (str "1.9.24") (XErr "no entropy")); [reflexivity..|].
  right. right. reflexivity.
Defined.

Definition w_readOnly : gostring -> bytes -> option exterr :=
  fun path _ => if bool_decide (path = str "/var/app/xlreg/.xlattice/reg.config")
                then Some (XErr "permission denied") else None.
Definition w_unsaved : Env :=
  mkEnv w_fine w_fine (w_found false) (w_content w_none) w_fine w_readOnly (inl w_priv) (inl w_priv) [].

Lemma w_created : exists rn fs ds, create_RegNode w_unsaved w_options (config_path w_options)
    [(Some (w_id "0123456789abcdefghij"), None)] = Done (Some rn, fs, ds) /\
  xn_Node_GetLFS (rn_Node rn) = str "/var/app/xlreg".
Proof. eexists _, _, _. split; reflexivity. Qed.

Lemma setup_unsaved_witness :
  setup (w_env false w_none) w_options [(Some (w_id "0123456789abcdefghij"), None)] =
  setup w_unsaved w_options [(Some (w_id "0123456789abcdefghij"), None)].
Proof.
  destruct w_created as (rn & fs & ds & Hc & Hl).
  apply (setup_unsaved w_unsaved w_options _ rn fs ds no_error eq_refl Hc).
  rewrite Hl. intros cred. reflexivity.
Defined.

Definition w_test : Flags := mkFlags DEFAULT_ADDR false true DEFAULT_GLOBAL_ADDR false 0
  (str "/registry") (str "log") 1 DEFAULT_NAME 0 6 true false.

Lemma main_options_ok_witness : exists opt port, main (w_env false w_none) w_test [] =
    run (w_env false w_none) opt [] /\
  2 <= opt_M opt /\ opt_BackingFile opt = [] /\ opt_Port opt = Sprint_int port /\ port <> 0.
Proof.
  destruct (main_options_ok (w_env false w_none) w_test [] (str "127.0.0.1:45678") (str "127.0.0.1:45678"))
    as (opt & port & Hm & H2 & _ & _ & Hb & Hp & Ht); [reflexivity..| |].
  - left. discriminate.
  - exists opt, port. split; [exact Hm|]. split; [exact H2|]. split; [apply Hb; reflexivity|].
    split; [exact Hp|]. apply Ht. reflexivity.
Defined.

(** A registry that was run before, with the filter it left. *)
Definition w_used : RegOptions := set_options
  (mkFlags DEFAULT_ADDR false false DEFAULT_GLOBAL_ADDR false 8 (str "/used") (str "log") 20
     DEFAULT_NAME DEFAULT_PORT 6 false false) (str "/used/idFilter.dat") (str "54.186.197.123:56789").
Definition w_again : Env := w_env true (inl (rn_String w_regNode)).

Lemma w_loaded : load_RegNode w_again (config_path w_used) = Done (Some w_regNode, None).
Proof.
  apply (load_RegNode_printed w_again _ w_regNode w_priv w_priv w_node (str "acceptor")); try reflexivity.
  - apply w_member_printable.
  - exact w_priv_small.
  - exact w_priv_small.
Qed.

Lemma setup_identifier_known_witness : exists fs,
  setup w_again w_used [] = Done (Err (RegErr IDAlreadyInUse), fs, []).
Proof.
  destruct (cred_String (NewRegistry_regCred w_regNode w_used (str "1.9.24"))) as [s| |] eqn:Hs;
    [|discriminate Hs|discriminate Hs].
  apply (setup_identifier_known w_again w_used [] w_regNode (str "0123456789abcdefghij") (str "1.9.24")
    [str "0123456789abcdefghij"] [] s eq_refl w_loaded); try reflexivity.
  - discriminate.
  - exact Hs.
Defined.
End CommandWitness.
